(* ===== verification/_CoqProject ===== *)
-Q . S2P
Prelude.v
PyBytes.v
PyHash.v
Fat12.v
LegacyAsm.v
LegacyPrograms.v
LegacyVolume.v
LegacyBios.v
LegacyPersistence.v
NvmeImage.v
NvmeSpec.v
Elf64.v
UserElfs.v
SdkElf.v
AbiGen.v
BuildAssets.v
Serial.v
Journal.v
JournalSpec.v
PyText.v
RunLock.v
Session.v
BootTests.v
NormalBoot.v
Harness.v
PersistenceTest.v
ContractLanguage.v
ContractPart1.v
ContractPart2.v
Contract.v
