(* ===== verification/Prelude.v ===== *)
(** * ZigOs: the host-side tooling

    ZigOs is an x86-64 (and legacy i686) operating system in Zig and assembly.  This
    development models the Python of the repository, all of it under src/scripts: the
    scripts that build its disk images and executables, the verifiers that check them, the
    generator of its ABI headers, the tests that boot it under QEMU and read its journal
    back from the disk, and the contract that checks the source tree.  The kernel itself
    is not modelled: it is the arbitrary guest of the tests.

    ** Conventions

    Byte strings are lists of integers ([PyBytes]), with Python's index and slice rules;
    integers are [Z] with masks and ranges written where the source has them.  A Python
    exception is a value of [exn] in [result]; its message is the template of the source,
    replacement fields not filled in.  A function of a script keeps its name; a long
    [main] is cut into parts that its [main] runs in the order of the source.  Files are
    given as their contents, or as a map from paths to contents where a script writes
    several.  What is not Python of this repository is an argument: the compiler and the
    assembler, QEMU and the guest, the operating system's processes, JSON documents in
    parsed form.

    ** Files

    - [PyBytes], [PyHash], [PyText]: bytes, [struct], searching; CRC-32, SHA-256, FNV-1a
      and their change under one substituted byte; [strip], [split], [int].
    - [Fat12], [LegacyAsm], [LegacyPrograms], [LegacyVolume]: create-legacy-fat12.py - the
      12-bit table codec, the i386 machine-code writer, the nineteen programs, the volume.
    - [LegacyBios], [LegacyPersistence]: verify-legacy-bios.py, verify-legacy-persistence.py.
    - [NvmeImage], [NvmeSpec]: create-nvme-test-image.py, and the specification of its image.
    - [Elf64], [UserElfs]: create- and verify- of runtime-user-elf.py, x86-64-process-elf.py
      and x86-64-user-elf.py.
    - [SdkElf]: verify-zigos-sdk-elf.py and verify-efi.py.
    - [AbiGen]: generate-abi.py.
    - [BuildAssets]: build-assets.py, which runs the generator, the assembler, the creators
      and the verifiers above.
    - [Serial], [Journal], [JournalSpec], [PersistenceTest]: test-x86_64-persistence.py - the
      console, the readers of the journal, its format as encoders, the six boots.
    - [RunLock]: the lock file of test-boot-fat-io-error.py and
      test-persistent-readonly-remount.py, as functions and as a machine of system calls.
    - [Session], [BootTests], [NormalBoot]: the dialogues and checks of these two, of
      test-boot-fat-quarantine.py, test-diskless-normal-boot.py and test-normal-boot.py.
    - [Harness]: what those tests do around the dialogues, as a state monad whose
      exceptions keep the state; [finally] and [atexit] are operations of it.
    - [ContractLanguage], [ContractPart1], [ContractPart2], [Contract]:
      verify-permanent-userspace.py, its statements as data and their meaning.

    ** How the parts interact

    The builders feed the verifiers: the volume of [LegacyVolume] is read by [LegacyBios],
    the images of [Elf64] and [UserElfs] by their own verifiers and by [SdkElf], and
    [BuildAssets] composes them over one map of files.  [NvmeImage] makes the disk of the
    boot tests: its geometry decides where [BootTests] aims its faults and where [Journal]
    finds the two slots.  [PersistenceTest] composes the console, the image and the journal
    over six boots; [Harness] composes the lock, the build, the image and a dialogue.

    ** What the theorems show

    - Refinement and functional specifications: the legacy volume, the NVMe image and the
      three ELF layouts are, for every input that fits, what an abstract description says
      ([volume_layout], [nvme_image_total], [created_images_accepted]); the boot tests with
      their harness refine the tests without it ([mains_refine]); the system calls of the
      lock compute its functions ([machine_refines]); the pipeline returns only verified
      files, made from the program the assembler made of each source ([assets_verified],
      [runtime_programs_built]); the generated headers agree in their constants
      ([constants_agree]).
    - Equivalences: a verifier accepts exactly a declared form ([runtime_verify_iff],
      [sdk_verify_iff], [parse_records_iff], [efi_verdict]), and the contract exactly the
      repositories in which all its statements hold ([contract_verdict]), whatever lacks
      one of the declared strings, numbers or files being rejected ([contract_rejects]).
    - Round trips: FAT12 entries, cluster chains, files found by name from the FAT16 root
      directory ([nvme_files_read]), journal slots, structure fields ([buffers_typed]),
      generated headers.
    - Safety: what acceptance promises a loader ([sdk_accepted_pages], [read_chain_sound]);
      detection of every one-byte change of a header or payload; where faults land and what
      a passing test has seen ([fault_targets], [faults_seen], [data_survives],
      [sleeper_killed]); QEMU does not outlive a test unnoticed ([qemu_stopped]).
    - Invariants, termination and liveness: the journal alternates its slots
      ([generations_alternate]); the lock under atomic and under interleaved acquisition,
      its bound on calls, its recovery ([RunLock]).
    - Errors and bounds: which exceptions can be raised and what is left behind
      ([corruption_phase_succeeds], [remount_leaves], [journal_errors],
      [sdk_rejects_cleanly], [nvme_layout_total]).

    Some theorems state defects: [lock_held_twice], [echo_passes_checks], [efi_verdict] and
    the last part of [qemu_stopped].

    ** Bounds and fuel

    Loops over data are structural.  The chain reader of [LegacyBios] has the bound on its
    passes that the source has.  The hexadecimal digits of [AbiGen] have one unit of fuel
    per binary digit of the value, and so enough for its hexadecimal ones; the FAT16 reader
    of [NvmeSpec], which is part of a specification, is given the number of clusters.
    The wait loops consume the list of what the guest does in each pass before the
    deadline: it is finite because every pass sleeps.  The lock's loop has the two passes
    of the source.

    ** Not modelled

    - The Zig kernel, drivers, runtime and SDK, the assembly sources, the C SDK, the
      PowerShell and shell scripts, the build graph and the workflow: other languages.
    - Argument parsing, printed lines, sockets and clocks, directories as objects, the JSON
      text of metadata, summaries and the ABI specification.
    - In the boot tests, a [taskkill] that cannot be run, and socket errors other than
      timeouts.
    - In the persistence test, the emptying of the work directory, the PowerShell build and
      the summary.
    - The payloads that verifiers pin by hash cannot be exhibited here: that an image is
      accepted is proved for every payload with the pinned identity, and the asset
      pipeline's theorem says what a run that returns has produced.
    - That the repository passes its own contract is a computation over its files, which
      are not part of the development. *)

From stdpp Require Export base tactics option list strings gmap.
From Stdlib Require Export ZArith Lia.
From Stdlib Require Ascii.
Export (notations) Stdlib.Strings.Ascii.

#[export] Set Default Proof Using "Type".
#[global] Open Scope Z_scope.

(** ** Python exceptions as values *)

(** The exceptions the modelled scripts raise, or let the standard library
    raise.  A message is kept as the template the source writes, its
    replacement fields left in braces. *)
Inductive exn :=
  | SystemExit (message : string)
  | ValueError (message : string)
  | RuntimeError (message : string)
  | AssertionError
  | IndexError
  | KeyError
  | StructError
  | OSError (message : string)
  | OverflowError
  | UnicodeDecodeError
  | CalledProcessError
  | TimeoutExpired.

#[export] Instance exn_eq_dec : EqDecision exn.
Proof. solve_decision. Defined.

Inductive result (A : Type) :=
  | Ok (a : A)
  | Err (e : exn).
Arguments Ok {A} a.
Arguments Err {A} e.

#[export] Instance result_eq_dec {A} `{EqDecision A} : EqDecision (result A).
Proof. solve_decision. Defined.

#[export] Instance Ok_inj {A} : Inj (=) (=) (@Ok A).
Proof. by intros x y [= ->]. Qed.

#[export] Instance result_ret : MRet result := λ A a, Ok a.
#[export] Instance result_bind : MBind result := λ A B f m,
  match m with Ok a => f a | Err e => Err e end.
#[export] Instance result_fmap : FMap result := λ A B f m,
  match m with Ok a => Ok (f a) | Err e => Err e end.

(** [if b: raise e] *)
Definition raise_if (b : bool) (e : exn) : result unit :=
  if b then Err e else Ok tt.

Definition is_ok {A} (m : result A) : bool :=
  match m with Ok _ => true | Err _ => false end.

(** A [for] loop that threads a state and may raise. *)
Fixpoint foldM {S A} (f : S → A → result S) (s : S) (l : list A) : result S :=
  match l with
  | [] => Ok s
  | a :: l => s' ← f s a; foldM f s' l
  end.

(** A [for] loop run for its exceptions only. *)
Fixpoint forM_ {A} (f : A → result unit) (l : list A) : result unit :=
  match l with
  | [] => Ok tt
  | a :: l => f a;; forM_ f l
  end.

Section result_lemmas.
Context {A B : Type}.
Implicit Types (m : result A) (f : A → result B).

Lemma bind_ok a f : (Ok a ≫= f) = f a.
Proof. reflexivity. Qed.
Lemma bind_err e f : (Err e ≫= f) = Err e.
Proof. reflexivity. Qed.

Lemma bind_Ok_inv m f b : m ≫= f = Ok b → ∃ a, m = Ok a ∧ f a = Ok b.
Proof. destruct m; [eauto | discriminate]. Qed.

Lemma bind_Err_inv m f e :
  m ≫= f = Err e → m = Err e ∨ ∃ a, m = Ok a ∧ f a = Err e.
Proof. destruct m; simpl; [eauto | intros [= ->]; eauto]. Qed.
End result_lemmas.

Lemma raise_if_Ok b e u : raise_if b e = Ok u → b = false.
Proof. by destruct b. Qed.
Lemma raise_if_false b e : b = false → raise_if b e = Ok tt.
Proof. by intros ->. Qed.
Lemma raise_if_true b e : b = true → raise_if b e = Err e.
Proof. by intros ->. Qed.

(** A guard and the rest of a computation, as a conjunction. *)
Lemma guard_iff {A} b e (m : result A) a : (raise_if b e;; m) = Ok a ↔ b = false ∧ m = Ok a.
Proof. destruct b; [by split; [|intros [? _]]|by split; [intros H|intros [_ H]]]. Qed.
Lemma last_guard_iff b e : raise_if b e = Ok tt ↔ b = false.
Proof. by destruct b. Qed.

Lemma forM_Ok {A} (f : A → result unit) l :
  forM_ f l = Ok tt ↔ Forall (λ a, f a = Ok tt) l.
Proof.
  induction l as [|a l IH]; simpl; [by split|].
  rewrite Forall_cons, <-IH. destruct (f a) as [[]|]; simpl.
  - split; [done | by intros [_ ?]].
  - split; [done | by intros [? _]].
Qed.

Lemma foldM_app {S A} (f : S → A → result S) s l1 l2 :
  foldM f s (l1 ++ l2) = (s' ← foldM f s l1; foldM f s' l2).
Proof.
  revert s. induction l1 as [|a l1 IH]; intros s; simpl; [done|].
  destruct (f s a); simpl; auto.
Qed.

(** A [for] loop keeps an invariant its body keeps. *)
Lemma foldM_inv {S A} (P : S → Prop) (f : S → A → result S) s l s' :
  (∀ s a s', a ∈ l → P s → f s a = Ok s' → P s') →
  P s → foldM f s l = Ok s' → P s'.
Proof.
  revert s. induction l as [|a l IH]; intros s Hf Hs; simpl.
  - by intros [= <-].
  - intros (s1 & H1 & H2)%bind_Ok_inv.
    eapply (IH s1); [|eapply Hf; [by left|..]; eauto|done].
    intros. eapply Hf; [by right|..]; eauto.
Qed.

(** ** Tactics *)

(** Inverts a successful run of monadic code, one bind at a time. *)
Ltac result_inv :=
  repeat match goal with
  | H : (_ ≫= _) = Ok _ |- _ => apply bind_Ok_inv in H as (? & ? & ?)
  | H : raise_if ?b _ = Ok _ |- _ => apply raise_if_Ok in H
  | H : Ok _ = Ok _ |- _ => injection H as H; try subst
  | H : Err _ = Ok _ |- _ => discriminate H
  | H : mret _ = Ok _ |- _ => injection H as H; try subst
  end.

(** Turns the boolean tests of the code into the propositions they decide. *)
Ltac to_prop :=
  repeat match goal with
  | H : negb _ = true |- _ => apply negb_true_iff in H
  | H : negb _ = false |- _ => apply negb_false_iff in H
  | H : _ || _ = false |- _ => apply orb_false_iff in H as [? ?]
  | H : _ || _ = true |- _ => apply orb_true_iff in H
  | H : _ && _ = true |- _ => apply andb_true_iff in H as [? ?]
  | H : _ && _ = false |- _ => apply andb_false_iff in H
  | H : bool_decide _ = true |- _ => apply bool_decide_eq_true in H
  | H : bool_decide _ = false |- _ => apply bool_decide_eq_false in H
  | H : (_ <? _) = true |- _ => apply Z.ltb_lt in H
  | H : (_ <? _) = false |- _ => apply Z.ltb_ge in H
  | H : (_ <=? _) = true |- _ => apply Z.leb_le in H
  | H : (_ <=? _) = false |- _ => apply Z.leb_gt in H
  | H : (_ =? _) = true |- _ => apply Z.eqb_eq in H
  | H : (_ =? _) = false |- _ => apply Z.eqb_neq in H
  end.

(** Passes the guard at the head of the goal. *)
Ltac pass_guard solve :=
  match goal with
  | |- mbind _ (raise_if ?b ?e) = _ =>
      rewrite (raise_if_false b e) by solve; cbn [mbind result_bind]
  end.

(** Stops at the guard at the head of the goal. *)
Ltac stop_guard solve :=
  match goal with
  | |- mbind _ (raise_if ?b ?e) = _ => rewrite (raise_if_true b e) by solve; reflexivity
  end.

(** [lia] with Euclidean division and modulo by constants. *)
Ltac divlia := Z.div_mod_to_equations; lia.

(** ** Lists indexed by [Z] *)

Definition len {A} (l : list A) : Z := Z.of_nat (length l).

Create Rewrite HintDb pylen.

Lemma len_nonneg {A} (l : list A) : 0 ≤ len l.
Proof. unfold len. lia. Qed.
Lemma len_nil {A} : len (@nil A) = 0.
Proof. done. Qed.
Lemma len_cons {A} (a : A) l : len (a :: l) = 1 + len l.
Proof. unfold len. simpl. lia. Qed.
Lemma len_app {A} (l k : list A) : len (l ++ k) = len l + len k.
Proof. unfold len. rewrite length_app. lia. Qed.
Lemma len_replicate {A} (x : A) n : len (replicate (Z.to_nat n) x) = Z.max 0 n.
Proof. unfold len. rewrite length_replicate. lia. Qed.
Lemma len_fmap {A B} (f : A → B) l : len (f <$> l) = len l.
Proof. unfold len. by rewrite length_fmap. Qed.
Lemma len_seqZ a n : len (seqZ a n) = Z.max 0 n.
Proof. unfold len. rewrite length_seqZ. lia. Qed.
#[export] Hint Rewrite @len_nil @len_cons @len_app @len_replicate @len_fmap @len_seqZ : pylen.

(** Lists with the same entries at every index in range are equal. *)
Lemma list_eqZ {A} (l k : list A) :
  len l = len k → (∀ i, 0 ≤ i < len l → l !! Z.to_nat i = k !! Z.to_nat i) → l = k.
Proof.
  unfold len. intros Hl H. apply list_eq_same_length with (n := length l); [lia..|].
  intros i x y Hi Hx Hy. specialize (H (Z.of_nat i)).
  rewrite Nat2Z.id in H. rewrite H in Hx by lia. congruence.
Qed.

(** The integers [a, a+1, .., b-1]: Python's [range(a, b)]. *)
Definition range (a b : Z) : list Z := seqZ a (b - a).

Lemma elem_of_range a b i : i ∈ range a b ↔ a ≤ i < b.
Proof. unfold range. rewrite elem_of_seqZ. lia. Qed.
Lemma range_empty a b : b ≤ a → range a b = [].
Proof. intros. unfold range. apply seqZ_nil. lia. Qed.
Lemma range_cons a b : a < b → range a b = a :: range (a + 1) b.
Proof.
  intros. unfold range. rewrite seqZ_cons by lia.
  f_equal. f_equal; lia.
Qed.
Lemma range_snoc a b : a ≤ b → range a (b + 1) = range a b ++ [b].
Proof.
  intros. unfold range. replace (b + 1 - a) with (b - a + 1) by lia.
  rewrite seqZ_app by lia. f_equal. by replace (a + (b - a)) with b by lia.
Qed.
Lemma len_range a b : len (range a b) = Z.max 0 (b - a).
Proof. unfold range. by rewrite len_seqZ. Qed.
Lemma lookup_range a b i :
  0 ≤ i < b - a → range a b !! Z.to_nat i = Some (a + i).
Proof. intros. unfold range. rewrite lookup_seqZ_lt by lia. f_equal. lia. Qed.
#[export] Hint Rewrite len_range : pylen.

(** [enumerate(l)] *)
Definition enumerate {A} (l : list A) : list (Z * A) := zip (range 0 (len l)) l.

(** ** Loops over [range] and [enumerate] *)

(** A loop over a list keeps an invariant indexed by the number of iterations
    done; in particular it does not raise. *)
Lemma foldM_prefix {S A} (P : nat → S → Prop) (f : S → A → result S) l s :
  P O s →
  (∀ i a s, l !! i = Some a → P i s → ∃ s', f s a = Ok s' ∧ P (i + 1)%nat s') →
  ∃ s', foldM f s l = Ok s' ∧ P (length l) s'.
Proof.
  revert P s. induction l as [|a l IH]; intros P s H0 Hstep; simpl; [by eexists|].
  destruct (Hstep O a s eq_refl H0) as (s1 & Hs1 & HP1). rewrite Hs1. simpl.
  apply (IH (λ i, P (Datatypes.S i))); [done|].
  intros i b s2 Hi HP. exact (Hstep (Datatypes.S i) b s2 Hi HP).
Qed.

Lemma foldl_prefix {S A} (P : nat → S → Prop) (f : S → A → S) l s :
  P O s → (∀ i a s, l !! i = Some a → P i s → P (i + 1)%nat (f s a)) →
  P (length l) (foldl f s l).
Proof.
  revert P s. induction l as [|a l IH]; intros P s H0 Hstep; simpl; [done|].
  apply (IH (λ i, P (Datatypes.S i))); [exact (Hstep O a s eq_refl H0)|].
  intros i b s2 Hi HP. exact (Hstep (Datatypes.S i) b s2 Hi HP).
Qed.

Lemma lookup_range_nat a b i x : range a b !! i = Some x ↔ x = a + Z.of_nat i ∧ Z.of_nat i < b - a.
Proof. unfold range. rewrite lookup_seqZ. naive_solver. Qed.

Lemma length_enumerate {A} (l : list A) : length (enumerate l) = length l.
Proof.
  unfold enumerate. rewrite length_zip_with. pose proof (len_range 0 (len l)) as H.
  unfold len in *. lia.
Qed.

Lemma lookup_enumerate {A} (l : list A) i x :
  enumerate l !! i = Some x ↔ x.1 = Z.of_nat i ∧ l !! i = Some x.2.
Proof.
  unfold enumerate. rewrite lookup_zip_with_Some. split.
  - intros (j & a & -> & Hj & Ha). apply lookup_range_nat in Hj as [-> _]. done.
  - destruct x as [j a]; simpl. intros [-> Ha]. exists (Z.of_nat i), a.
    split; [done|]. split; [|done]. apply lookup_range_nat. split; [done|].
    apply lookup_lt_Some in Ha. unfold len. lia.
Qed.

Section loops.
Context {S : Type} (P : Z → S → Prop).

Lemma foldM_range (f : S → Z → result S) a b s :
  a ≤ b → P a s →
  (∀ i s, a ≤ i < b → P i s → ∃ s', f s i = Ok s' ∧ P (i + 1) s') →
  ∃ s', foldM f s (range a b) = Ok s' ∧ P b s'.
Proof.
  intros Hab H0 Hstep.
  destruct (foldM_prefix (λ i, P (a + Z.of_nat i)) f (range a b) s) as (s' & Hs & HP).
  - by rewrite Z.add_0_r.
  - intros i x s1 [-> Hi]%lookup_range_nat HP.
    destruct (Hstep (a + Z.of_nat i) s1) as (s2 & H2 & HP2); [lia|done|].
    exists s2. split; [done|]. by replace (a + Z.of_nat (i + 1)) with (a + Z.of_nat i + 1) by lia.
  - exists s'. split; [done|]. pose proof (len_range a b) as E. unfold len in E.
    by replace (a + Z.of_nat (length (range a b))) with b in HP by lia.
Qed.

Lemma foldM_enumerate {A} (f : S → Z * A → result S) (l : list A) s :
  P 0 s →
  (∀ i a s, 0 ≤ i → l !! Z.to_nat i = Some a → P i s → ∃ s', f s (i, a) = Ok s' ∧ P (i + 1) s') →
  ∃ s', foldM f s (enumerate l) = Ok s' ∧ P (len l) s'.
Proof.
  intros H0 Hstep. change (P (Z.of_nat 0) s) in H0.
  destruct (foldM_prefix (λ i, P (Z.of_nat i)) f (enumerate l) s) as (s' & Hs & HP); [done|..].
  - intros i [j a] s1 [Hj Ha]%lookup_enumerate HP. simpl in *. subst j.
    destruct (Hstep (Z.of_nat i) a s1) as (s2 & H2 & HP2); [lia|by rewrite Nat2Z.id|done|].
    exists s2. split; [done|]. by replace (Z.of_nat (i + 1)) with (Z.of_nat i + 1) by lia.
  - exists s'. by rewrite length_enumerate in HP.
Qed.

Lemma foldl_enumerate {A} (f : S → Z * A → S) (l : list A) s :
  P 0 s →
  (∀ i a s, 0 ≤ i → l !! Z.to_nat i = Some a → P i s → P (i + 1) (f s (i, a))) →
  P (len l) (foldl f s (enumerate l)).
Proof.
  intros H0 Hstep. change (P (Z.of_nat 0) s) in H0.
  assert (P (Z.of_nat (length (enumerate l))) (foldl f s (enumerate l))) as H.
  { apply (foldl_prefix (λ i, P (Z.of_nat i))); [done|].
    intros i [j a] s1 [Hj Ha]%lookup_enumerate HP. simpl in *. subst j.
    replace (Z.of_nat (i + 1)) with (Z.of_nat i + 1) by lia.
    apply Hstep; [lia|by rewrite Nat2Z.id|done]. }
  by rewrite length_enumerate in H.
Qed.
End loops.

(** Python's ceiling [(a + b - 1) // b], which [math.ceil(a / b)] also gives
    on the operands of the scripts. *)
Definition ceil_div (a b : Z) : Z := (a + b - 1) / b.

Lemma ceil_div_spec a b :
  0 < b → (ceil_div a b - 1) * b < a ≤ ceil_div a b * b.
Proof. unfold ceil_div. intros. divlia. Qed.

(** ** Bit lemmas on [Z] *)

Lemma land_ones_small x n : 0 ≤ n → 0 ≤ x < 2 ^ n → Z.land x (Z.ones n) = x.
Proof. intros. rewrite Z.land_ones by done. by apply Z.mod_small. Qed.

Lemma bound_testbit x n i : 0 ≤ x < 2 ^ n → n ≤ i → Z.testbit x i = false.
Proof.
  intros Hx Hi. destruct (decide (x = 0)) as [->|]; [apply Z.bits_0|].
  apply Z.bits_above_log2; [lia|].
  apply Z.log2_lt_pow2; [lia|]. eapply Z.lt_le_trans; [apply Hx|].
  apply Z.pow_le_mono_r; lia.
Qed.

Lemma lxor_bound x y n :
  0 ≤ n → 0 ≤ x < 2 ^ n → 0 ≤ y < 2 ^ n → 0 ≤ Z.lxor x y < 2 ^ n.
Proof.
  intros Hn Hx Hy. rewrite Z.bounded_iff_bits_nonneg' in Hx, Hy |- * by
    (try apply Z.lxor_nonneg; lia).
  intros i Hi. rewrite Z.lxor_spec, Hx, Hy by done. done.
Qed.

Lemma lxor_cancel_l x y z : Z.lxor x y = Z.lxor x z → y = z.
Proof.
  intros H. apply (f_equal (Z.lxor x)) in H.
  by rewrite <-!Z.lxor_assoc, !Z.lxor_nilpotent, !Z.lxor_0_l in H.
Qed.

Lemma lxor_cancel_r x y z : Z.lxor y x = Z.lxor z x → y = z.
Proof. rewrite !(Z.lxor_comm _ x). apply lxor_cancel_l. Qed.

(** A disjunction of disjoint bit fields is their sum. *)
Lemma lor_shiftl_add b x n :
  0 ≤ n → 0 ≤ b < 2 ^ n → Z.lor b (Z.shiftl x n) = b + 2 ^ n * x.
Proof.
  intros Hn Hb. rewrite (Z.mul_comm _ x), <-Z.shiftl_mul_pow2 by lia.
  assert (Z.land b (Z.shiftl x n) = 0) as E.
  { apply Z.bits_inj'. intros i Hi. rewrite Z.land_spec, Z.bits_0, Z.shiftl_spec by lia.
    destruct (decide (i < n)).
    - rewrite (Z.testbit_neg_r _ (i - n)) by lia. apply andb_false_r.
    - by rewrite (bound_testbit b n) by lia. }
  by rewrite <-Z.lxor_lor, <-Z.add_nocarry_lxor.
Qed.

(** A property of the integers below [n] is decided by trying them all. *)
Lemma below_all (P : Z → bool) n :
  forallb P (range 0 n) = true → ∀ i, 0 ≤ i < n → P i = true.
Proof.
  intros H i Hi. rewrite forallb_forall in H. apply H.
  apply list_elem_of_In, elem_of_range. lia.
Qed.

(** Python's truth value of an integer. *)
Definition truthy (z : Z) : bool := negb (z =? 0).

Lemma truthy_false z : truthy z = false ↔ z = 0.
Proof. unfold truthy. rewrite negb_false_iff. apply Z.eqb_eq. Qed.
Lemma truthy_true z : truthy z = true ↔ z ≠ 0.
Proof. unfold truthy. rewrite negb_true_iff. apply Z.eqb_neq. Qed.

Lemma truthy_land_1 z : truthy (Z.land z 1) = Z.odd z.
Proof.
  unfold truthy. change 1 with (Z.ones 1). rewrite Z.land_ones by lia.
  change (2 ^ 1) with 2. rewrite Zmod_odd. by destruct (Z.odd z).
Qed.
