(* ===== verification/PyBytes.v ===== *)
(** * Python byte strings

    The part of Python's [bytes], [bytearray], [memoryview], [struct] and
    [int.from_bytes] the scripts use: indexing, slicing and slice assignment
    with Python's index rules, packing and unpacking with format strings,
    searching.  A byte string is a list of integers; [bytes_ok] says that each
    is a byte.  The lemmas are an algebra of reads over writes: [slice] of
    [set_slice], lengths, and the round trip of [pack] and [unpack_from]. *)

From S2P Require Import Prelude.

Abbreviation bytes := (list Z).

Definition byte_ok (b : Z) : Prop := 0 ≤ b < 2 ^ 8.
Definition bytes_ok (l : bytes) : Prop := Forall byte_ok l.

(** [b"..."] for a literal of printable ASCII characters. *)
Fixpoint B (s : string) : bytes :=
  match s with
  | EmptyString => []
  | String c s => Z.of_N (Ascii.N_of_ascii c) :: B s
  end.

Definition CRLF : bytes := [13; 10].

(** [bytearray(n)], [bytes(n)]; the call sites have [0 <= n]. *)
Definition zeros (n : Z) : bytes := replicate (Z.to_nat n) 0.

(** [==] on byte strings. *)
Fixpoint beq (l k : bytes) : bool :=
  match l, k with
  | [], [] => true
  | a :: l, b :: k => (a =? b) && beq l k
  | _, _ => false
  end.

(** ** Slices *)

(** The index rule of slices: negative counts from the end, out of range is
    clamped. *)
Definition clamp (n i : Z) : Z := if i <? 0 then Z.max 0 (i + n) else Z.min i n.

(** [l[a:b]] *)
Definition slice {A} (l : list A) (a b : Z) : list A :=
  let a' := clamp (len l) a in
  let b' := clamp (len l) b in
  take (Z.to_nat (b' - a')) (drop (Z.to_nat a') l).

Definition slice_from {A} (l : list A) (a : Z) : list A := slice l a (len l).

(** [l[a:b] = v] of a [bytearray], which resizes when the lengths differ. *)
Definition set_slice {A} (l : list A) (a b : Z) (v : list A) : list A :=
  let a' := clamp (len l) a in
  let b' := Z.max a' (clamp (len l) b) in
  take (Z.to_nat a') l ++ v ++ drop (Z.to_nat b') l.

(** [l[a : a + len(v)] = v] *)
Definition put {A} (l : list A) (a : Z) (v : list A) : list A :=
  set_slice l a (a + len v) v.

(** [l[a:] = v] *)
Definition put_tail {A} (l : list A) (a : Z) (v : list A) : list A :=
  set_slice l a (len l) v.

(** [l[i]] *)
Definition get_item (l : bytes) (i : Z) : result Z :=
  let i' := if i <? 0 then i + len l else i in
  if (i' <? 0) then Err IndexError
  else match l !! Z.to_nat i' with Some b => Ok b | None => Err IndexError end.

(** [l[i] = v] *)
Definition set_item (l : bytes) (i v : Z) : result bytes :=
  if (v <? 0) || (255 <? v) then Err (ValueError "byte must be in range(0, 256)") else
  let i' := if i <? 0 then i + len l else i in
  if (i' <? 0) || (len l <=? i') then Err IndexError
  else Ok (<[Z.to_nat i' := v]> l).

(** ** Searching *)

Fixpoint starts_with (l p : bytes) : bool :=
  match p, l with
  | [], _ => true
  | b :: p, a :: l => (a =? b) && starts_with l p
  | _ :: _, [] => false
  end.

Definition ends_with (l p : bytes) : bool :=
  (len p <=? len l) && beq (slice l (len l - len p) (len l)) p.

(** [p in l] *)
Fixpoint contains (l p : bytes) : bool :=
  starts_with l p || match l with [] => false | _ :: l => contains l p end.

(** [l.count(p)] for a non-empty [p]: occurrences that do not overlap.  [skip]
    counts the bytes of the current occurrence still to pass. *)
Fixpoint count_from (skip : nat) (l p : bytes) : Z :=
  match l with
  | [] => 0
  | _ :: l' =>
      match skip with
      | S k => count_from k l' p
      | O => if starts_with l p then 1 + count_from (Nat.pred (length p)) l' p
             else count_from O l' p
      end
  end.
Definition count (l p : bytes) : Z := count_from O l p.

(** ** Little-endian integers *)

Definition le_bytes (w v : Z) : bytes := Z_to_little_endian w 8 v.
Definition le_int (l : bytes) : Z := little_endian_to_Z 8 l.

(** ** [struct] *)

Inductive field :=
  | FInt (signed : bool) (width : Z)
  | FBytes (n : Z).

Inductive pval :=
  | VI (z : Z)
  | VS (b : bytes).

#[export] Instance pval_eq_dec : EqDecision pval.
Proof. solve_decision. Defined.

Definition digit (c : Ascii.ascii) : option Z :=
  let n := Z.of_N (Ascii.N_of_ascii c) in
  if (48 <=? n) && (n <=? 57) then Some (n - 48) else None.

Definition int_code (c : Ascii.ascii) : option field :=
  match c with
  | "b" => Some (FInt true 1) | "B" => Some (FInt false 1)
  | "h" => Some (FInt true 2) | "H" => Some (FInt false 2)
  | "i" => Some (FInt true 4) | "I" => Some (FInt false 4)
  | "q" => Some (FInt true 8) | "Q" => Some (FInt false 8)
  | _ => None
  end%char.

Fixpoint parse_fields (n : option Z) (s : string) : option (list field) :=
  match s with
  | EmptyString => match n with None => Some [] | Some _ => None end
  | String c s =>
      match digit c with
      | Some d => parse_fields (Some (10 * default 0 n + d)) s
      | None =>
          rest ← parse_fields None s;
          if Ascii.eqb c "s" then Some (FBytes (default 1 n) :: rest)
          else f ← int_code c; Some (replicate (Z.to_nat (default 1 n)) f ++ rest)
      end
  end.

(** The scripts use the little-endian formats, with the prefix [<]. *)
Definition parse_fmt (s : string) : result (list field) :=
  match s with
  | String "<" s => match parse_fields None s with Some fs => Ok fs | None => Err StructError end
  | _ => Err StructError
  end.

Definition field_size (f : field) : Z :=
  match f with FInt _ w => w | FBytes n => n end.

Fixpoint fields_size (fs : list field) : Z :=
  match fs with [] => 0 | f :: fs => field_size f + fields_size fs end.

Definition in_range (signed : bool) (w v : Z) : bool :=
  if signed then (- 2 ^ (8 * w - 1) <=? v) && (v <? 2 ^ (8 * w - 1))
  else (0 <=? v) && (v <? 2 ^ (8 * w)).

Definition pack_field (f : field) (v : pval) : result bytes :=
  match f, v with
  | FInt s w, VI z => if in_range s w z then Ok (le_bytes w z) else Err StructError
  | FBytes n, VS b => Ok (take (Z.to_nat n) (b ++ zeros n))
  | _, _ => Err StructError
  end.

Fixpoint pack_fields (fs : list field) (vs : list pval) : result bytes :=
  match fs, vs with
  | [], [] => Ok []
  | f :: fs, v :: vs => b ← pack_field f v; r ← pack_fields fs vs; Ok (b ++ r)
  | _, _ => Err StructError
  end.

Definition to_signed (w v : Z) : Z :=
  if 2 ^ (8 * w - 1) <=? v then v - 2 ^ (8 * w) else v.

Definition unpack_field (f : field) (l : bytes) : pval :=
  match f with
  | FInt s w => VI (if s then to_signed w (le_int l) else le_int l)
  | FBytes _ => VS l
  end.

Fixpoint unpack_fields (fs : list field) (l : bytes) : list pval :=
  match fs with
  | [] => []
  | f :: fs =>
      let w := Z.to_nat (field_size f) in
      unpack_field f (take w l) :: unpack_fields fs (drop w l)
  end.

Definition pack (fmt : string) (vs : list pval) : result bytes :=
  fs ← parse_fmt fmt; pack_fields fs vs.

(** The offset rule of [pack_into] and [unpack_from]. *)
Definition struct_offset (n size off : Z) : result Z :=
  let off' := if off <? 0 then off + n else off in
  if (off' <? 0) || (n <? off' + size) then Err StructError else Ok off'.

Definition pack_into (fmt : string) (buf : bytes) (off : Z) (vs : list pval) : result bytes :=
  fs ← parse_fmt fmt;
  off' ← struct_offset (len buf) (fields_size fs) off;
  b ← pack_fields fs vs;
  Ok (put buf off' b).

Definition unpack_from (fmt : string) (buf : bytes) (off : Z) : result (list pval) :=
  fs ← parse_fmt fmt;
  off' ← struct_offset (len buf) (fields_size fs) off;
  Ok (unpack_fields fs (slice buf off' (off' + fields_size fs))).

(** [struct.unpack_from(fmt, buf, off)[0]] for a single integer field. *)
Definition unpack_int (fmt : string) (buf : bytes) (off : Z) : result Z :=
  vs ← unpack_from fmt buf off;
  match vs with [VI z] => Ok z | _ => Err StructError end.

(** The tuple of integers of a format without byte-string fields. *)
Fixpoint ints (vs : list pval) : result (list Z) :=
  match vs with
  | [] => Ok []
  | VI z :: vs => r ← ints vs; Ok (z :: r)
  | VS _ :: _ => Err StructError
  end.
Definition unpack_ints (fmt : string) (buf : bytes) (off : Z) : result (list Z) :=
  vs ← unpack_from fmt buf off; ints vs.

(** ** Byte-string equality *)

Lemma beq_spec l k : beq l k = true ↔ l = k.
Proof.
  revert k. induction l as [|a l IH]; intros [|b k]; simpl; try (split; congruence).
  rewrite andb_true_iff, Z.eqb_eq, IH. split; [intros [-> ->]; done | intros [= -> ->]; done].
Qed.
Lemma beq_refl l : beq l l = true.
Proof. by apply beq_spec. Qed.
Lemma beq_false l k : beq l k = false ↔ l ≠ k.
Proof. rewrite <-beq_spec. by destruct (beq l k). Qed.

(** ** Slices and slice assignment *)

Section slices.
Context {A : Type}.
Implicit Types l v : list A.

Lemma slice_eq l a b :
  0 ≤ a → 0 ≤ b → slice l a b = take (Z.to_nat (b - a)) (drop (Z.to_nat a) l).
Proof.
  intros Ha Hb. unfold slice, clamp, len.
  rewrite !(proj2 (Z.ltb_ge _ _)) by lia.
  apply list_eq. intros i.
  destruct (decide (Z.of_nat i < b - a)) as [Hi|Hi].
  2: { rewrite !lookup_take_ge by lia. done. }
  rewrite (lookup_take_lt _ (Z.to_nat (b - a))), lookup_drop by lia.
  destruct (decide (a + Z.of_nat i < Z.of_nat (length l))).
  - rewrite lookup_take_lt, lookup_drop by lia. f_equal. lia.
  - rewrite (lookup_ge_None_2 l) by lia. apply lookup_ge_None_2.
    rewrite length_take, length_drop. lia.
Qed.

Lemma lookup_slice l a b i :
  0 ≤ a → 0 ≤ i < b - a → slice l a b !! Z.to_nat i = l !! Z.to_nat (a + i).
Proof.
  intros. rewrite slice_eq, lookup_take_lt, lookup_drop by lia. f_equal. lia.
Qed.

Lemma len_slice l a b : 0 ≤ a → a ≤ b → b ≤ len l → len (slice l a b) = b - a.
Proof.
  intros. rewrite slice_eq by lia. unfold len in *.
  rewrite length_take, length_drop. lia.
Qed.

Lemma len_slice_clip l a b :
  0 ≤ a → 0 ≤ b → len (slice l a b) = Z.max 0 (Z.min b (len l) - a).
Proof.
  intros. rewrite slice_eq by lia. unfold len.
  rewrite length_take, length_drop. lia.
Qed.

Lemma slice_full l b : b = len l → slice l 0 b = l.
Proof.
  intros ->. pose proof (len_nonneg l). rewrite slice_eq by lia.
  rewrite drop_0. apply take_ge. unfold len. lia.
Qed.

Lemma slice_empty l a b : 0 ≤ a → 0 ≤ b → b ≤ a → slice l a b = [].
Proof. intros. rewrite slice_eq by lia. by replace (Z.to_nat (b - a)) with O by lia. Qed.

Lemma slice_past l a b : len l ≤ a → 0 ≤ b → slice l a b = [].
Proof.
  intros. pose proof (len_nonneg l). rewrite slice_eq by lia.
  rewrite drop_ge; [apply take_nil|]. unfold len in *. lia.
Qed.

Lemma slice_slice l a b c d :
  0 ≤ a → 0 ≤ c → c ≤ d → d ≤ b - a →
  slice (slice l a b) c d = slice l (a + c) (a + d).
Proof.
  intros. apply list_eq. intros i. rewrite !(slice_eq _ _ _) by lia.
  destruct (decide (Z.of_nat i < d - c)).
  - rewrite !lookup_take_lt, !lookup_drop by lia. rewrite lookup_take_lt by lia.
    rewrite lookup_drop. f_equal. lia.
  - rewrite !lookup_take_ge by lia. done.
Qed.

Lemma slice_app_l l k a b :
  0 ≤ a → 0 ≤ b → b ≤ len l → slice (l ++ k) a b = slice l a b.
Proof.
  intros. rewrite !slice_eq by lia. unfold len in *.
  destruct (decide (a ≤ b)).
  - rewrite drop_app_le by lia. apply take_app_le. rewrite length_drop. lia.
  - by replace (Z.to_nat (b - a)) with O by lia.
Qed.

Lemma slice_app_r l k a b :
  len l ≤ a → a ≤ b → slice (l ++ k) a b = slice k (a - len l) (b - len l).
Proof.
  intros. pose proof (len_nonneg l). rewrite !slice_eq by lia. unfold len in *.
  rewrite drop_app_ge by lia. f_equal; [lia|f_equal; lia].
Qed.

Lemma put_eq l a v :
  0 ≤ a → a ≤ len l →
  put l a v = take (Z.to_nat a) l ++ v ++ drop (Z.to_nat (a + len v)) l.
Proof.
  intros. pose proof (len_nonneg v). unfold put, set_slice, clamp.
  rewrite !(proj2 (Z.ltb_ge _ _)) by lia.
  f_equal; [f_equal; lia|]. f_equal.
  destruct (decide (a + len v ≤ len l)); [f_equal; lia|].
  rewrite !drop_ge; unfold len in *; try lia. done.
Qed.

Lemma len_put l a v : 0 ≤ a → a + len v ≤ len l → len (put l a v) = len l.
Proof.
  intros. pose proof (len_nonneg v). rewrite put_eq by lia. unfold len in *.
  rewrite !length_app, length_take, length_drop. lia.
Qed.

Lemma lookup_put l a v i :
  0 ≤ a → a + len v ≤ len l → 0 ≤ i →
  put l a v !! Z.to_nat i =
    if decide (a ≤ i < a + len v) then v !! Z.to_nat (i - a) else l !! Z.to_nat i.
Proof.
  intros. pose proof (len_nonneg v). rewrite put_eq by lia. unfold len in *.
  case_decide as Hi.
  - rewrite lookup_app_r, lookup_app_l; rewrite length_take; try lia. f_equal. lia.
  - destruct (decide (i < a)).
    + rewrite lookup_app_l by (rewrite length_take; lia). apply lookup_take_lt. lia.
    + rewrite lookup_app_r, lookup_app_r, lookup_drop; rewrite length_take; try lia.
      f_equal. lia.
Qed.

Lemma put_at_end l a v : a = len l → put l a v = l ++ v.
Proof.
  intros ->. pose proof (len_nonneg l). pose proof (len_nonneg v).
  rewrite put_eq by lia. unfold len in *.
  rewrite take_ge, drop_ge, app_nil_r by lia. done.
Qed.

Lemma put_tail_eq l a v : 0 ≤ a → a ≤ len l → put_tail l a v = take (Z.to_nat a) l ++ v.
Proof.
  intros. unfold put_tail, set_slice, clamp.
  rewrite !(proj2 (Z.ltb_ge _ _)) by lia.
  rewrite (drop_ge l), app_nil_r by (unfold len in *; lia).
  f_equal. f_equal. lia.
Qed.

Lemma put_tail_put l a v : 0 ≤ a → a + len v = len l → put_tail l a v = put l a v.
Proof. intros. unfold put_tail, put. by f_equal. Qed.

Lemma slice_put_same l a v b :
  0 ≤ a → a + len v ≤ len l → b = a + len v → slice (put l a v) a b = v.
Proof.
  intros ? ? ->. pose proof (len_nonneg v). apply list_eqZ.
  - rewrite len_slice by (rewrite ?len_put by lia; lia). lia.
  - intros i Hi. rewrite len_slice in Hi by (rewrite ?len_put by lia; lia).
    rewrite lookup_slice, lookup_put by lia. rewrite decide_True by lia. f_equal. lia.
Qed.

Lemma slice_put_ne l a v c d :
  0 ≤ a → a + len v ≤ len l → 0 ≤ c → 0 ≤ d →
  d ≤ a ∨ a + len v ≤ c → slice (put l a v) c d = slice l c d.
Proof.
  intros ? ? ? ? Hd. pose proof (len_nonneg v). apply list_eqZ.
  - rewrite !len_slice_clip, len_put by lia. lia.
  - intros i Hi. rewrite len_slice_clip, len_put in Hi by lia.
    rewrite !lookup_slice, lookup_put by lia. rewrite decide_False by lia. done.
Qed.

Lemma slice_put_in l a v c d :
  0 ≤ a → a + len v ≤ len l → a ≤ c → c ≤ d → d ≤ a + len v →
  slice (put l a v) c d = slice v (c - a) (d - a).
Proof.
  intros. apply list_eqZ.
  - rewrite !len_slice by (rewrite ?len_put by lia; lia). lia.
  - intros i Hi. rewrite len_slice in Hi by (rewrite ?len_put by lia; lia).
    rewrite !lookup_slice, lookup_put by lia. rewrite decide_True by lia. f_equal. lia.
Qed.

(** A write inside a longer read appears in it at its relative offset. *)
Lemma slice_put_out l a v c d :
  0 ≤ c → c ≤ a → a + len v ≤ d → d ≤ len l →
  slice (put l a v) c d = put (slice l c d) (a - c) v.
Proof.
  intros. pose proof (len_nonneg v). apply list_eqZ.
  - rewrite len_put, !len_slice by (rewrite ?len_put, ?len_slice by lia; lia).
    lia.
  - intros i Hi. rewrite len_slice in Hi by (rewrite ?len_put by lia; lia).
    rewrite lookup_slice, !lookup_put by (rewrite ?len_slice by lia; lia).
    rewrite lookup_slice by lia.
    repeat case_decide; try lia; [f_equal; lia|done].
Qed.

Lemma put_put_ne l a v b w :
  0 ≤ a → a + len v ≤ len l → 0 ≤ b → b + len w ≤ len l →
  a + len v ≤ b ∨ b + len w ≤ a →
  put (put l a v) b w = put (put l b w) a v.
Proof.
  intros. apply list_eqZ; [by rewrite !len_put by (rewrite ?len_put by lia; lia)|].
  intros i Hi. rewrite !len_put in Hi by (rewrite ?len_put by lia; lia).
  rewrite !lookup_put by (rewrite ?len_put by lia; lia).
  repeat case_decide; try lia; done.
Qed.
End slices.

Lemma len_zeros n : 0 ≤ n → len (zeros n) = n.
Proof. intros. unfold zeros. rewrite len_replicate. lia. Qed.

Lemma slice_zeros n a b : 0 ≤ a → a ≤ b → b ≤ n → slice (zeros n) a b = zeros (b - a).
Proof.
  intros. unfold zeros. rewrite slice_eq by lia.
  rewrite drop_replicate, take_replicate. f_equal. lia.
Qed.

Lemma lookup_zeros n i : 0 ≤ i < n → zeros n !! Z.to_nat i = Some 0.
Proof. intros. apply lookup_replicate_2. lia. Qed.

Lemma len_le_bytes w v : 0 ≤ w → len (le_bytes w v) = w.
Proof. apply length_Z_to_little_endian. Qed.

(** The length side conditions of the lemmas above, on chains of writes. *)
Ltac len_solve :=
  repeat match goal with
  | |- context [len (put ?l ?a ?v)] => rewrite (len_put l a v) by len_solve
  | |- context [len (slice ?l ?a ?b)] => rewrite (len_slice l a b) by len_solve
  | |- context [len (zeros ?n)] => rewrite (len_zeros n) by lia
  | |- context [len (le_bytes ?w ?v)] => rewrite (len_le_bytes w v) by lia
  | |- context [len (_ ++ _)] => rewrite len_app
  | |- context [len (_ :: _)] => rewrite len_cons
  | |- context [len (@nil ?A)] => change (len (@nil A)) with 0
  end; lia.

(** Reads a chain of writes: resolves [slice (put .. (put l a v) ..) c d]. *)
Ltac read_writes :=
  repeat match goal with
  | |- context [slice (put ?l ?a ?v) ?c ?d] =>
      first [ rewrite (slice_put_same l a v d) by len_solve
            | rewrite (slice_put_ne l a v c d) by len_solve
            | rewrite (slice_put_in l a v c d) by len_solve ]
  end.

(** ** Items *)

Lemma get_item_nonneg l i :
  0 ≤ i → get_item l i = match l !! Z.to_nat i with Some b => Ok b | None => Err IndexError end.
Proof.
  intros. unfold get_item. rewrite (proj2 (Z.ltb_ge i 0)) by done. cbv zeta.
  by rewrite (proj2 (Z.ltb_ge i 0)) by done.
Qed.

Lemma set_item_nonneg l i v :
  0 ≤ i → 0 ≤ v < 256 →
  set_item l i v = if len l <=? i then Err IndexError else Ok (<[Z.to_nat i := v]> l).
Proof.
  intros. unfold set_item. rewrite (proj2 (Z.ltb_ge v 0)), (proj2 (Z.ltb_ge 255 v)) by lia.
  rewrite (proj2 (Z.ltb_ge i 0)) by done. cbv zeta.
  by rewrite (proj2 (Z.ltb_ge i 0)) by done.
Qed.

Lemma get_item_lookup l i b :
  0 ≤ i → l !! Z.to_nat i = Some b → get_item l i = Ok b.
Proof. intros ? H. by rewrite get_item_nonneg, H. Qed.

Lemma get_item_Ok l i b :
  0 ≤ i → get_item l i = Ok b → l !! Z.to_nat i = Some b ∧ i < len l.
Proof.
  intros ?. rewrite get_item_nonneg by done.
  destruct (l !! Z.to_nat i) eqn:E; intros [= ->]. split; [done|].
  apply lookup_lt_Some in E. unfold len. lia.
Qed.

Lemma get_item_in_range l i : 0 ≤ i < len l → ∃ b, get_item l i = Ok b ∧ l !! Z.to_nat i = Some b.
Proof.
  intros ?. destruct (lookup_lt_is_Some_2 l (Z.to_nat i)) as [b Hb]; [unfold len in *; lia|].
  exists b. split; [by apply get_item_lookup; [lia|]|done].
Qed.

Lemma get_item_out_of_range l i : len l ≤ i → get_item l i = Err IndexError.
Proof.
  intros ?. pose proof (len_nonneg l). rewrite get_item_nonneg by lia.
  by rewrite lookup_ge_None_2 by (unfold len in *; lia).
Qed.

(** Items of equal slices are equal. *)
Lemma get_item_slice l k i :
  0 ≤ i → slice l i (i + 1) = slice k i (i + 1) → i < len l → get_item l i = get_item k i.
Proof.
  intros Hi H Hl. pose proof (len_nonneg k).
  assert (i < len k) as Hk.
  { apply (f_equal len) in H. rewrite !len_slice_clip in H by lia. lia. }
  destruct (get_item_in_range l i) as (b & -> & Hb); [lia|].
  destruct (get_item_in_range k i) as (c & -> & Hc); [lia|].
  apply (f_equal (λ x, x !! Z.to_nat 0)) in H.
  rewrite !lookup_slice in H by lia. rewrite !Z.add_0_r in H. congruence.
Qed.

Lemma get_item_of_slice l i b :
  0 ≤ i → slice l i (i + 1) = [b] → get_item l i = Ok b.
Proof.
  intros Hi H. apply get_item_lookup; [done|].
  replace i with (i + 0) by lia. rewrite <-(lookup_slice l i (i + 1) 0) by lia. by rewrite H.
Qed.

Lemma set_item_Ok l i v :
  0 ≤ i < len l → 0 ≤ v < 256 → set_item l i v = Ok (put l i [v]).
Proof.
  intros Hi Hv. rewrite set_item_nonneg, (proj2 (Z.leb_gt _ _)) by lia. f_equal.
  apply list_eqZ.
  - rewrite len_put by (unfold len in *; simpl; lia). unfold len. by rewrite length_insert.
  - intros j Hj. unfold len in Hj. rewrite length_insert in Hj.
    rewrite lookup_put by (unfold len in *; simpl; lia). unfold len in *. simpl.
    case_decide as H.
    + replace j with i by lia. rewrite list_lookup_insert_eq by lia.
      by replace (Z.to_nat (i - i)) with O by lia.
    + rewrite list_lookup_insert_ne by lia. done.
Qed.

Lemma set_item_out_of_range l i v :
  len l ≤ i → 0 ≤ v < 256 → set_item l i v = Err IndexError.
Proof.
  intros ? ?. pose proof (len_nonneg l). by rewrite set_item_nonneg, (proj2 (Z.leb_le _ _)) by lia.
Qed.

(** ** Bytes *)

Lemma bytes_ok_app l k : bytes_ok (l ++ k) ↔ bytes_ok l ∧ bytes_ok k.
Proof. apply Forall_app. Qed.
Lemma bytes_ok_zeros n : bytes_ok (zeros n).
Proof. apply Forall_replicate. split; [done|reflexivity]. Qed.
Lemma bytes_ok_slice l a b : bytes_ok l → bytes_ok (slice l a b).
Proof. intros. unfold slice. by apply Forall_take, Forall_drop. Qed.
Lemma bytes_ok_put l a v : bytes_ok l → bytes_ok v → bytes_ok (put l a v).
Proof.
  intros. unfold put, set_slice. apply bytes_ok_app. split; [by apply Forall_take|].
  apply bytes_ok_app. split; [done|by apply Forall_drop].
Qed.
Lemma bytes_ok_lookup l i b : bytes_ok l → l !! i = Some b → byte_ok b.
Proof. intros. by eapply Forall_lookup_1. Qed.
Lemma bytes_ok_le_bytes w v : 0 ≤ w → bytes_ok (le_bytes w v).
Proof. intros. by apply Z_to_little_endian_bound. Qed.
Lemma byte_ok_N_of_ascii c : byte_ok (Z.of_N (Ascii.N_of_ascii c)).
Proof. pose proof (Ascii.N_ascii_bounded c). split; lia. Qed.
Lemma bytes_ok_B s : bytes_ok (B s).
Proof. induction s; constructor; [apply byte_ok_N_of_ascii | done]. Qed.

Create HintDb pybytes.
#[export] Hint Resolve bytes_ok_zeros bytes_ok_slice bytes_ok_put bytes_ok_le_bytes
  bytes_ok_B : pybytes.

(** A decidable form of [bytes_ok], for concrete byte strings. *)
Definition bytes_okb (l : bytes) : bool := forallb (λ b, (0 <=? b) && (b <? 256)) l.
Lemma bytes_okb_spec l : bytes_okb l = true ↔ bytes_ok l.
Proof.
  unfold bytes_okb, bytes_ok. induction l as [|b l IH]; simpl; [done|].
  rewrite andb_true_iff, IH, Forall_cons, andb_true_iff, Z.leb_le, Z.ltb_lt. done.
Qed.

(** ** Little-endian integers *)

Lemma le_int_le_bytes w v : 0 ≤ w → 0 ≤ v < 2 ^ (8 * w) → le_int (le_bytes w v) = v.
Proof.
  intros. unfold le_int, le_bytes.
  rewrite little_endian_to_Z_to_little_endian by lia. apply Z.mod_small.
  by rewrite (Z.mul_comm w).
Qed.

Lemma le_bytes_le_int w l : bytes_ok l → len l = w → le_bytes w (le_int l) = l.
Proof.
  intros ? <-. unfold le_bytes, le_int.
  by apply Z_to_little_endian_to_Z.
Qed.

Lemma le_int_bound l : bytes_ok l → 0 ≤ le_int l < 2 ^ (8 * len l).
Proof.
  intros. unfold le_int. rewrite (Z.mul_comm 8).
  by apply little_endian_to_Z_bound.
Qed.

Lemma le_int_inj l k :
  bytes_ok l → bytes_ok k → len l = len k → le_int l = le_int k → l = k.
Proof.
  intros Hl Hk Hn H. rewrite <-(le_bytes_le_int (len l) l), <-(le_bytes_le_int (len l) k) by done.
  by rewrite H.
Qed.

Lemma le_int_app l k :
  bytes_ok l → le_int (l ++ k) = le_int l + 2 ^ (8 * len l) * le_int k.
Proof.
  unfold le_int. induction 1 as [|b l Hb Hl IH]; simpl.
  { unfold len. simpl. rewrite Z.mul_1_l. done. }
  rewrite IH. pose proof (le_int_bound l Hl) as Hbd. unfold le_int in Hbd.
  unfold byte_ok in Hb. rewrite !lor_shiftl_add, len_cons by lia. pose proof (len_nonneg l).
  replace (8 * (1 + len l)) with (8 + 8 * len l) by lia.
  rewrite Z.pow_add_r by lia. lia.
Qed.

(** ** [struct] *)

Lemma struct_offset_Ok n size off :
  0 ≤ off → off + size ≤ n → struct_offset n size off = Ok off.
Proof.
  intros. unfold struct_offset. rewrite (proj2 (Z.ltb_ge off 0)) by done. cbv zeta.
  by rewrite (proj2 (Z.ltb_ge off 0)), (proj2 (Z.ltb_ge n (off + size))) by lia.
Qed.

Lemma struct_offset_short n size off :
  0 ≤ off → n < off + size → struct_offset n size off = Err StructError.
Proof.
  intros. unfold struct_offset. rewrite (proj2 (Z.ltb_ge off 0)) by done. cbv zeta.
  by rewrite (proj2 (Z.ltb_ge off 0)), (proj2 (Z.ltb_lt n (off + size))) by lia.
Qed.

Definition field_ok (f : field) : Prop := 0 ≤ field_size f.

(** What a value must be for a field to hold it exactly. *)
Definition fits (f : field) (v : pval) : Prop :=
  match f, v with
  | FInt s w, VI z => 0 < w ∧ in_range s w z = true
  | FBytes n, VS b => len b = n
  | _, _ => False
  end.

Lemma to_signed_range w z :
  0 < w → in_range true w z = true → to_signed w (z mod 2 ^ (8 * w)) = z.
Proof.
  intros Hw H. unfold in_range in H. to_prop.
  assert (2 ^ (8 * w) = 2 * 2 ^ (8 * w - 1)) as E.
  { rewrite <-Z.pow_succ_r by lia. f_equal. lia. }
  assert (0 < 2 ^ (8 * w - 1)) by (apply Z.pow_pos_nonneg; lia).
  unfold to_signed. destruct (decide (0 ≤ z)).
  - rewrite Z.mod_small by lia. rewrite (proj2 (Z.leb_gt _ _)) by lia. done.
  - replace (z mod 2 ^ (8 * w)) with (z + 2 ^ (8 * w)).
    + rewrite (proj2 (Z.leb_le _ _)) by lia. lia.
    + apply (Z.mod_unique_pos _ _ (-1)); lia.
Qed.

Lemma pack_field_fits f v :
  fits f v → ∃ b, pack_field f v = Ok b ∧ len b = field_size f ∧ unpack_field f b = v.
Proof.
  destruct f as [s w|n], v as [z|b]; simpl; try done.
  - intros [Hw H]. rewrite H. eexists. split; [done|]. split; [by rewrite len_le_bytes by lia|].
    f_equal. unfold le_int, le_bytes.
    rewrite little_endian_to_Z_to_little_endian, (Z.mul_comm w) by lia.
    destruct s; [by apply to_signed_range|]. unfold in_range in H. to_prop. by apply Z.mod_small.
  - intros <-. eexists. split; [done|].
    replace (Z.to_nat (len b)) with (length b) by (unfold len; lia).
    rewrite take_app_length. done.
Qed.

(** Packing succeeds on fitting values, and unpacking the result gives them
    back. *)
Lemma pack_unpack_fields fs vs :
  Forall2 fits fs vs →
  ∃ b, pack_fields fs vs = Ok b ∧ len b = fields_size fs ∧
       ∀ post, unpack_fields fs (b ++ post) = vs.
Proof.
  induction 1 as [|f v fs vs Hf _ (b & Hb & Hn & Hu)]; simpl; [by eexists|].
  destruct (pack_field_fits f v Hf) as (c & Hc & Hm & Hv). rewrite Hc. simpl. rewrite Hb.
  eexists. split; [done|]. split; [rewrite len_app; lia|]. intros post.
  replace (Z.to_nat (field_size f)) with (length c) by (unfold len in Hm; lia).
  rewrite <-app_assoc, take_app_length, drop_app_length. by rewrite Hv, Hu.
Qed.

Lemma pack_Ok_size fs vs b :
  pack_fields fs vs = Ok b → Forall field_ok fs → len b = fields_size fs.
Proof.
  revert vs b. induction fs as [|f fs IH]; intros [|v vs] b; simpl; try discriminate.
  { by intros [= <-]. }
  intros (c & Hc & H)%bind_Ok_inv [Hf Hfs]%Forall_cons.
  apply bind_Ok_inv in H as (d & Hd & [= <-]). rewrite len_app, (IH vs d) by done.
  f_equal. unfold field_ok in Hf. destruct f as [s w|n], v as [z|x]; simpl in *; try discriminate.
  - destruct (in_range s w z); [|discriminate]. injection Hc as <-. by rewrite len_le_bytes.
  - injection Hc as <-. unfold len, zeros. rewrite length_take, length_app, length_replicate. lia.
Qed.

(** Reading one integer field. *)
Lemma unpack_int_eq fmt w buf off :
  parse_fmt fmt = Ok [FInt false w] → 0 ≤ w → 0 ≤ off → off + w ≤ len buf →
  unpack_int fmt buf off = Ok (le_int (slice buf off (off + w))).
Proof.
  intros Hf ? ? ?. unfold unpack_int, unpack_from. rewrite Hf. simpl.
  rewrite struct_offset_Ok by lia. simpl. rewrite Z.add_0_r, take_ge; [done|].
  pose proof (len_slice buf off (off + w)). unfold len in *. lia.
Qed.

Lemma unpack_int_short fmt w buf off :
  parse_fmt fmt = Ok [FInt false w] → 0 ≤ off → len buf < off + w →
  unpack_int fmt buf off = Err StructError.
Proof.
  intros Hf ? ?. unfold unpack_int, unpack_from. rewrite Hf. simpl.
  rewrite struct_offset_short by lia. done.
Qed.

Lemma parse_fmt_H : parse_fmt "<H" = Ok [FInt false 2].
Proof. reflexivity. Qed.
Lemma parse_fmt_I : parse_fmt "<I" = Ok [FInt false 4].
Proof. reflexivity. Qed.
Lemma parse_fmt_Q : parse_fmt "<Q" = Ok [FInt false 8].
Proof. reflexivity. Qed.

(** Packing one unsigned integer into a buffer. *)
Lemma pack_into_int fmt w buf off v :
  parse_fmt fmt = Ok [FInt false w] → 0 ≤ w → 0 ≤ off → off + w ≤ len buf →
  0 ≤ v < 2 ^ (8 * w) →
  pack_into fmt buf off [VI v] = Ok (put buf off (le_bytes w v)).
Proof.
  intros Hf ? ? ? ?. unfold pack_into. rewrite Hf. simpl.
  rewrite struct_offset_Ok by lia. simpl. unfold in_range.
  rewrite (proj2 (Z.leb_le _ _)), (proj2 (Z.ltb_lt _ _)) by lia. simpl.
  by rewrite app_nil_r.
Qed.

Lemma pack_int fmt w v :
  parse_fmt fmt = Ok [FInt false w] → 0 ≤ v < 2 ^ (8 * w) →
  pack fmt [VI v] = Ok (le_bytes w v).
Proof.
  intros Hf ?. unfold pack. rewrite Hf. simpl. unfold in_range.
  rewrite (proj2 (Z.leb_le _ _)), (proj2 (Z.ltb_lt _ _)) by lia. simpl.
  by rewrite app_nil_r.
Qed.

(** ** Writes into concatenations *)

Lemma put_mid (l old r v : bytes) a :
  a = len l → len v = len old → put (l ++ old ++ r) a v = l ++ v ++ r.
Proof.
  intros -> Hv. pose proof (len_nonneg l). pose proof (len_nonneg v). pose proof (len_nonneg r).
  rewrite put_eq by (rewrite ?len_app; lia). unfold len in *.
  rewrite Nat2Z.id, take_app_length.
  replace (Z.to_nat (Z.of_nat (length l) + Z.of_nat (length v))) with (length l + length old)%nat by lia.
  by rewrite <-drop_drop, !drop_app_length.
Qed.

Lemma put_tail_app (l r v : bytes) a : a = len l → put_tail (l ++ r) a v = l ++ v.
Proof.
  intros ->. pose proof (len_nonneg l). pose proof (len_nonneg r).
  rewrite put_tail_eq by (rewrite ?len_app; lia). unfold len.
  by rewrite Nat2Z.id, take_app_length.
Qed.

Lemma zeros_add a b : 0 ≤ a → 0 ≤ b → zeros (a + b) = zeros a ++ zeros b.
Proof. intros. unfold zeros. rewrite Z2Nat.inj_add by done. apply replicate_add. Qed.

Lemma zeros_nonpos a : a ≤ 0 → zeros a = [].
Proof. intros. unfold zeros. by replace (Z.to_nat a) with O by lia. Qed.

Lemma slice_ge {A} (l : list A) b : len l ≤ b → slice l 0 b = l.
Proof.
  intros. pose proof (len_nonneg l). rewrite slice_eq by lia. rewrite drop_0.
  apply take_ge. unfold len in *. lia.
Qed.

Lemma slice_app_join {A} (l : list A) a b c :
  0 ≤ a → a ≤ b → b ≤ c → slice l a b ++ slice l b c = slice l a c.
Proof.
  intros. rewrite !slice_eq by lia.
  replace (Z.to_nat b) with (Z.to_nat a + Z.to_nat (b - a))%nat by lia.
  rewrite <-drop_drop. replace (Z.to_nat (c - a)) with (Z.to_nat (b - a) + Z.to_nat (c - b))%nat by lia.
  set (k := drop (Z.to_nat a) l). by rewrite <-take_take_drop.
Qed.

Lemma slice_slice_prefix {A} (l : list A) a b n :
  0 ≤ a → 0 ≤ n → n ≤ b - a → slice (slice l a b) 0 n = slice l a (a + n).
Proof. intros. rewrite slice_slice by lia. by rewrite Z.add_0_r. Qed.

Lemma slice_app_skip {A} (l k : list A) a b :
  len l ≤ a → a ≤ b → slice (l ++ k) a b = slice k (a - len l) (b - len l).
Proof. apply slice_app_r. Qed.

(** Equal prefixes have equal slices. *)
Lemma slice_of_prefix {A} (l k : list A) n a b :
  slice l 0 n = slice k 0 n → 0 ≤ a → a ≤ b → b ≤ n → slice l a b = slice k a b.
Proof.
  intros H ? ? ?. rewrite <-(Z.add_0_l a), <-(Z.add_0_l b).
  rewrite <-!(slice_slice _ 0 n) by lia. by rewrite H.
Qed.

(** Packing into a buffer that is long enough. *)
Lemma pack_into_Ok fmt fs buf off vs b :
  parse_fmt fmt = Ok fs → pack_fields fs vs = Ok b → Forall field_ok fs →
  0 ≤ off → off + fields_size fs ≤ len buf →
  pack_into fmt buf off vs = Ok (put buf off b).
Proof.
  intros Hf Hp Hok ? ?. unfold pack_into. rewrite Hf. simpl.
  rewrite struct_offset_Ok by done. simpl. by rewrite Hp.
Qed.

Lemma pack_field_uint w v :
  0 ≤ v < 2 ^ (8 * w) → pack_field (FInt false w) (VI v) = Ok (le_bytes w v).
Proof. intros. simpl. unfold in_range. by rewrite (proj2 (Z.leb_le _ _)), (proj2 (Z.ltb_lt _ _)) by lia. Qed.

Lemma pack_fields_cons f fs v vs b r :
  pack_field f v = Ok b → pack_fields fs vs = Ok r →
  pack_fields (f :: fs) (v :: vs) = Ok (b ++ r).
Proof. intros H1 H2. simpl. rewrite H1. simpl. by rewrite H2. Qed.

(** ** Reading back *)

Lemma unpack_from_eq fmt fs buf off :
  parse_fmt fmt = Ok fs → 0 ≤ off → off + fields_size fs ≤ len buf →
  unpack_from fmt buf off = Ok (unpack_fields fs (slice buf off (off + fields_size fs))).
Proof. intros Hf ? ?. unfold unpack_from. rewrite Hf. simpl. by rewrite struct_offset_Ok by done. Qed.

(** Reads that end inside a prefix depend on the prefix alone. *)
Lemma unpack_from_app_l fmt fs (p r : bytes) off :
  parse_fmt fmt = Ok fs → 0 ≤ fields_size fs → 0 ≤ off → off + fields_size fs ≤ len p →
  unpack_from fmt (p ++ r) off = unpack_from fmt p off.
Proof.
  intros Hf ? ? ?. pose proof (len_nonneg r).
  rewrite !(unpack_from_eq fmt fs) by (rewrite ?len_app; done || lia).
  by rewrite slice_app_l by lia.
Qed.

Lemma unpack_int_app_l fmt w (p r : bytes) off :
  parse_fmt fmt = Ok [FInt false w] → 0 ≤ w → 0 ≤ off → off + w ≤ len p →
  unpack_int fmt (p ++ r) off = unpack_int fmt p off.
Proof.
  intros Hf ? ? ?. unfold unpack_int.
  rewrite (unpack_from_app_l fmt _ p r off Hf) by (simpl; lia). done.
Qed.

Lemma unpack_from_slice fmt fs buf a b off :
  parse_fmt fmt = Ok fs → 0 ≤ fields_size fs → 0 ≤ a → 0 ≤ off → off + fields_size fs ≤ b - a →
  b ≤ len buf → unpack_from fmt (slice buf a b) off = unpack_from fmt buf (a + off).
Proof.
  intros Hf ? ? ? ? ?.
  rewrite !(unpack_from_eq fmt fs) by (rewrite ?len_slice by lia; done || lia).
  by rewrite slice_slice, Z.add_assoc by lia.
Qed.

(** What [pack] wrote between [l] and [r] reads back at [len l]. *)
Lemma unpack_from_packed fmt fs vs b (l r : bytes) off :
  parse_fmt fmt = Ok fs → Forall2 fits fs vs → pack fmt vs = Ok b → off = len l →
  unpack_from fmt (l ++ b ++ r) off = Ok vs.
Proof.
  intros Hf Hfit Hp ->. unfold pack in Hp. rewrite Hf in Hp. simpl in Hp.
  destruct (pack_unpack_fields fs vs Hfit) as (b' & Hb & Hl & Hu).
  rewrite Hb in Hp. injection Hp as <-.
  pose proof (len_nonneg l). pose proof (len_nonneg b'). pose proof (len_nonneg r).
  rewrite (unpack_from_eq fmt fs) by (rewrite ?len_app; done || lia).
  rewrite slice_app_r by lia. replace (len l - len l) with 0 by lia.
  replace (len l + fields_size fs - len l) with (len b') by lia.
  rewrite slice_app_l, slice_full by lia. f_equal. specialize (Hu []). by rewrite app_nil_r in Hu.
Qed.

Lemma unpack_fields_uint w v fs r :
  0 ≤ w → 0 ≤ v < 2 ^ (8 * w) →
  unpack_fields (FInt false w :: fs) (le_bytes w v ++ r) = VI v :: unpack_fields fs r.
Proof.
  intros Hw Hv. simpl. pose proof (len_le_bytes w v Hw) as Hl.
  replace (Z.to_nat w) with (length (le_bytes w v)) by (unfold len in Hl; lia).
  by rewrite take_app_length, drop_app_length, le_int_le_bytes.
Qed.

Lemma set_slice_put (l v : bytes) a b : b = a + len v → set_slice l a b v = put l a v.
Proof. by intros ->. Qed.

(** A write into the zeros that follow [p]: buffers filled from left to right. *)
Lemma put_grow (p v : bytes) n a k m :
  a = len p + k → 0 ≤ k → 0 ≤ m → n = k + len v + m →
  put (p ++ zeros n) a v = (p ++ zeros k ++ v) ++ zeros m.
Proof.
  intros -> Hk Hm ->. pose proof (len_nonneg v).
  rewrite !zeros_add, <-!app_assoc by lia. rewrite (app_assoc p), put_mid.
  - by rewrite <-app_assoc.
  - by rewrite len_app, len_zeros by lia.
  - by rewrite len_zeros by lia.
Qed.

(** A slice around one byte, and one that misses it. *)
Lemma slice_around {A} (pre post : list A) c x y :
  0 ≤ x ≤ len pre → len pre < y →
  slice (pre ++ c :: post) x y = slice pre x (len pre) ++ c :: slice post 0 (y - len pre - 1).
Proof.
  intros. pose proof (len_nonneg post).
  rewrite <-(slice_app_join _ x (len pre) y), slice_app_l by lia. f_equal.
  rewrite slice_app_r by lia. rewrite Z.sub_diag.
  change (c :: post) with ([c] ++ post).
  rewrite <-(slice_app_join _ 0 1 (y - len pre)) by lia.
  rewrite slice_app_l, slice_app_r by (try change (len [c]) with 1; lia). reflexivity.
Qed.

Lemma slice_beside {A} (pre post : list A) c d x y :
  0 ≤ x → x ≤ y → y ≤ len pre ∨ len pre < x →
  slice (pre ++ c :: post) x y = slice (pre ++ d :: post) x y.
Proof.
  intros ? ? [?|?]; [by rewrite !slice_app_l by lia|].
  pose proof (len_nonneg pre). change (c :: post) with ([c] ++ post). change (d :: post) with ([d] ++ post).
  rewrite !app_assoc, !slice_app_r by (rewrite ?len_app; try change (len [c]) with 1; try change (len [d]) with 1; lia).
  by rewrite !len_app.
Qed.

(** Bytes that unpack to equal values of unsigned formats are equal. *)
Definition unsigned (f : field) : Prop := match f with FInt s w => s = false ∧ 0 ≤ w | FBytes n => 0 ≤ n end.

Lemma unpack_fields_inj fs l k :
  Forall unsigned fs → bytes_ok l → bytes_ok k → len l = fields_size fs → len k = fields_size fs →
  unpack_fields fs l = unpack_fields fs k → l = k.
Proof.
  intros Hfs. revert l k. induction Hfs as [|f fs Hf Hfs IH]; intros l k Hl Hk El Ek H.
  - destruct l, k; try done; rewrite len_cons in *; pose proof (len_nonneg l); try pose proof (len_nonneg k);
      cbn [fields_size] in *; lia.
  - assert (0 ≤ field_size f) as Hs by (destruct f; simpl in *; lia).
    assert (0 ≤ fields_size fs) as Hss.
    { clear -Hfs. induction Hfs as [|g fs Hg _ IH]; [done|]. simpl. destruct g; simpl in *; lia. }
    cbn [fields_size unpack_fields] in *. injection H as H1 H2.
    set (w := Z.to_nat (field_size f)) in *.
    rewrite <-(take_drop w l), <-(take_drop w k). f_equal.
    + assert (len (take w l) = field_size f) as Tl by (unfold len in *; rewrite length_take; lia).
      assert (len (take w k) = field_size f) as Tk by (unfold len in *; rewrite length_take; lia).
      destruct f as [s n|n]; simpl in *.
      * destruct Hf as [-> _]. injection H1 as H1. apply le_int_inj; [by apply Forall_take..|lia|done].
      * by injection H1.
    + apply IH; try done; try (by apply Forall_drop); unfold len in *; rewrite length_drop; lia.
Qed.

Lemma ints_Ok vs zs : ints vs = Ok zs → vs = VI <$> zs.
Proof.
  revert zs. induction vs as [|[z|b] vs IH]; intros zs; simpl; [by intros [= <-]| |done].
  intros (r & Hr & H)%bind_Ok_inv. injection H as <-. by rewrite (IH r Hr).
Qed.

Lemma ints_VI zs : ints (VI <$> zs) = Ok zs.
Proof. induction zs as [|z zs IH]; [done|]. rewrite fmap_cons. cbn [ints]. by rewrite IH. Qed.

Lemma length_unpack_fields fs l : length (unpack_fields fs l) = length fs.
Proof. revert l. induction fs; intros l; simpl; auto. Qed.

(** The number of values [struct.unpack_from] returns. *)
Lemma length_unpack_ints fmt fs buf off zs :
  parse_fmt fmt = Ok fs → unpack_ints fmt buf off = Ok zs → length zs = length fs.
Proof.
  intros Hf H. unfold unpack_ints, unpack_from in H. rewrite Hf in H.
  apply bind_Ok_inv in H as (vs & Hv & H). apply bind_Ok_inv in Hv as (fs' & [= <-] & Hv).
  apply bind_Ok_inv in Hv as (o & _ & [= <-]). apply ints_Ok in H.
  apply (f_equal length) in H. by rewrite length_fmap, length_unpack_fields in H.
Qed.

(** Unsigned integer fields of byte strings are in the range of their width. *)
Definition uint_field (f : field) : Prop := match f with FInt s w => s = false ∧ 0 < w | FBytes _ => False end.

Lemma unpack_fields_fit fs l : Forall uint_field fs → bytes_ok l → Forall2 fits fs (unpack_fields fs l).
Proof.
  intros Hf. revert l. induction Hf as [|[s w|n] fs Hw _ IH]; intros l Hl; simpl; [constructor| |done].
  destruct Hw as [-> Hw]. constructor; [|by apply IH, Forall_drop]. split; [done|].
  assert (bytes_ok (take (Z.to_nat w) l)) as Ht by by apply Forall_take.
  pose proof (le_int_bound _ Ht) as H. unfold in_range. apply andb_true_iff.
  rewrite Z.leb_le, Z.ltb_lt. split; [lia|]. eapply Z.lt_le_trans; [apply H|].
  apply Z.pow_le_mono_r; [lia|]. unfold len. rewrite length_take. lia.
Qed.

Lemma unpack_ints_fit fmt fs buf off zs :
  parse_fmt fmt = Ok fs → Forall uint_field fs → bytes_ok buf → unpack_ints fmt buf off = Ok zs →
  Forall2 fits fs (VI <$> zs).
Proof.
  intros Hf Hu Hb H. unfold unpack_ints, unpack_from in H. rewrite Hf in H.
  apply bind_Ok_inv in H as (vs & Hv & H). apply bind_Ok_inv in Hv as (fs' & [= <-] & Hv).
  apply bind_Ok_inv in Hv as (o & _ & [= <-]). apply ints_Ok in H. rewrite <-H.
  apply unpack_fields_fit; [done|by apply bytes_ok_slice].
Qed.

(** Inside the buffer, unsigned formats always unpack. *)
Lemma unpack_ints_total fmt fs buf off :
  parse_fmt fmt = Ok fs → Forall uint_field fs → 0 ≤ off → 0 ≤ fields_size fs →
  off + fields_size fs ≤ len buf → ∃ zs, unpack_ints fmt buf off = Ok zs.
Proof.
  intros Hf Hu Ho Hn Hl. unfold unpack_ints. rewrite (unpack_from_eq _ fs) by done. cbn [mbind result_bind].
  clear Hf Hn Hl. generalize (slice buf off (off + fields_size fs)). clear Ho.
  induction Hu as [|[sg w|n] fs Hw Hu IH]; intros l; simpl; [by eexists| |done].
  destruct (IH (drop (Z.to_nat w) l)) as (zs & Hz). destruct Hw as [-> _]. rewrite Hz. by eexists.
Qed.

(** ** ASCII *)

Fixpoint string_of_bytes (l : bytes) : string :=
  match l with
  | [] => ""
  | b :: l => String (Ascii.ascii_of_N (Z.to_N b)) (string_of_bytes l)
  end.

(** [l.decode("ascii")] *)
Definition decode_ascii (l : bytes) : result string :=
  if forallb (λ b, b <? 128) l then Ok (string_of_bytes l) else Err UnicodeDecodeError.

(** [any(l)] *)
Definition any (l : bytes) : bool := existsb truthy l.

Lemma any_zeros n : any (zeros n) = false.
Proof.
  unfold any, zeros. generalize (Z.to_nat n) as k. clear n.
  induction k as [|k IH]; simpl; [done|exact IH].
Qed.

Lemma any_false l : any l = false → l = zeros (len l).
Proof.
  unfold any, zeros, len. rewrite Nat2Z.id. induction l as [|b l IH]; simpl; [done|].
  unfold truthy at 1. destruct (Z.eqb_spec b 0); simpl; [|done]. intros. subst. f_equal; auto.
Qed.

Lemma B_app a b : B (a +:+ b) = B a ++ B b.
Proof. induction a as [|c a IH]; [done|]. simpl. by rewrite IH. Qed.
