(* ===== verification/PyHash.v ===== *)
(** * Checksums

    [binascii.crc32] and [hashlib.sha256] as the scripts use them, and the
    FNV-1a fold that several scripts spell out.  The main result about the two
    checksums is that substituting one byte always changes the value: each is a
    fold whose step is injective in the state and in the byte. *)

From S2P Require Import Prelude PyBytes.

(** ** Folds that detect a substitution *)

Section detects.
Context (dom : Z → Prop) (step : Z → Z → Z).
Hypothesis step_dom : ∀ v b, dom v → byte_ok b → dom (step v b).
Hypothesis step_inj_state :
  ∀ v w b, dom v → dom w → byte_ok b → step v b = step w b → v = w.
Hypothesis step_inj_byte :
  ∀ v a b, dom v → byte_ok a → byte_ok b → step v a = step v b → a = b.

Lemma fold_dom v l : dom v → bytes_ok l → dom (foldl step v l).
Proof using step_dom.
  intros Hv Hl. revert v Hv. induction Hl; intros; simpl; auto.
Qed.

Lemma fold_inj_state v w l :
  dom v → dom w → bytes_ok l → foldl step v l = foldl step w l → v = w.
Proof using step_dom step_inj_state.
  intros Hv Hw Hl. revert v w Hv Hw. induction Hl as [|b l Hb Hl IH]; intros; simpl in *; [done|].
  eapply step_inj_state; eauto.
Qed.

Lemma fold_detects v pre a b post :
  dom v → bytes_ok pre → byte_ok a → byte_ok b → bytes_ok post → a ≠ b →
  foldl step v (pre ++ a :: post) ≠ foldl step v (pre ++ b :: post).
Proof using All.
  intros Hv Hpre Ha Hb Hpost Hne. rewrite !foldl_app. simpl.
  pose proof (fold_dom v pre Hv Hpre) as Hw.
  intros H%fold_inj_state; auto. by apply step_inj_byte in H.
Qed.
End detects.

(** ** FNV-1a *)

(** The fold with the width as a parameter; [p] is the FNV prime. *)
Definition fnv_step (w p v b : Z) : Z := Z.land (Z.lxor v b * p) (Z.ones w).

Section fnv.
Context (w p q : Z).
Hypothesis Hw : 8 ≤ w.
Hypothesis Hq : (p * q) mod 2 ^ w = 1.

Let dom (v : Z) : Prop := 0 ≤ v < 2 ^ w.

Lemma byte_dom b : byte_ok b → 0 ≤ b < 2 ^ w.
Proof using Hw.
  intros []. split; [done|]. eapply Z.lt_le_trans; [done|]. by apply Z.pow_le_mono_r.
Qed.

Lemma fnv_step_dom v b : dom v → byte_ok b → dom (fnv_step w p v b).
Proof using Hw.
  intros. unfold dom, fnv_step. rewrite Z.land_ones by lia.
  apply Z.mod_pos_bound, Z.pow_pos_nonneg; lia.
Qed.

Lemma mul_inj x y : 0 ≤ x < 2 ^ w → 0 ≤ y < 2 ^ w →
  Z.land (x * p) (Z.ones w) = Z.land (y * p) (Z.ones w) → x = y.
Proof using Hw Hq.
  intros Hx Hy. rewrite !Z.land_ones by lia. intros H.
  assert (∀ z, 0 ≤ z < 2 ^ w → (((z * p) mod 2 ^ w) * q) mod 2 ^ w = z) as E.
  { intros z Hz. rewrite Z.mul_mod_idemp_l by lia. rewrite <-Z.mul_assoc.
    rewrite <-Z.mul_mod_idemp_r, Hq, Z.mul_1_r by lia. by apply Z.mod_small. }
  rewrite <-(E x), <-(E y) by done. by rewrite H.
Qed.

Lemma fnv_detects v pre a b post :
  0 ≤ v < 2 ^ w → bytes_ok pre → byte_ok a → byte_ok b → bytes_ok post → a ≠ b →
  foldl (fnv_step w p) v (pre ++ a :: post) ≠ foldl (fnv_step w p) v (pre ++ b :: post).
Proof using Hw Hq.
  apply (fold_detects dom).
  - apply fnv_step_dom.
  - intros x y c Hx Hy Hc H. apply mul_inj in H; [by apply lxor_cancel_r in H|..];
      apply lxor_bound; auto using byte_dom; lia.
  - intros x c d Hx Hc Hd H. apply mul_inj in H; [by apply lxor_cancel_l in H|..];
      apply lxor_bound; auto using byte_dom; lia.
Qed.

Lemma fnv_fold_bound v l :
  0 ≤ v < 2 ^ w → bytes_ok l → 0 ≤ foldl (fnv_step w p) v l < 2 ^ w.
Proof using Hw. intros. by apply (fold_dom dom _ fnv_step_dom). Qed.
End fnv.

(** ** [binascii.crc32] *)

Definition crc_bit (c : Z) : Z :=
  if Z.odd c then Z.lxor (Z.shiftr c 1) 0xEDB88320 else Z.shiftr c 1.
Definition crc_byte (c b : Z) : Z := Nat.iter 8 crc_bit (Z.lxor c b).
Definition crc32 (l : bytes) : Z := Z.lxor (foldl crc_byte 0xFFFFFFFF l) 0xFFFFFFFF.

Example crc32_check : crc32 (B "123456789") = 0xCBF43926.
Proof. vm_compute. reflexivity. Qed.

Definition word32 (c : Z) : Prop := 0 ≤ c < 2 ^ 32.

Lemma crc_bit_dom c : word32 c → word32 (crc_bit c).
Proof.
  unfold word32, crc_bit. intros.
  assert (0 ≤ Z.shiftr c 1 < 2 ^ 32) by (rewrite Z.shiftr_div_pow2 by lia; change (2 ^ 1) with 2; divlia).
  destruct (Z.odd c); [|done]. by apply lxor_bound.
Qed.

(** The top bit of the result tells which branch was taken. *)
Lemma crc_bit_top c : word32 c → Z.testbit (crc_bit c) 31 = Z.odd c.
Proof.
  unfold word32, crc_bit. intros Hc.
  assert (Z.testbit (Z.shiftr c 1) 31 = false) as E.
  { rewrite Z.shiftr_spec by lia. by apply (bound_testbit c 32). }
  destruct (Z.odd c); [|done]. rewrite Z.lxor_spec, E. done.
Qed.

Lemma crc_bit_inj c d : word32 c → word32 d → crc_bit c = crc_bit d → c = d.
Proof.
  intros Hc Hd H. assert (Z.odd c = Z.odd d) as E by (rewrite <-!crc_bit_top by done; by rewrite H).
  unfold crc_bit in H. rewrite <-E in H.
  assert (Z.shiftr c 1 = Z.shiftr d 1) as Hs.
  { destruct (Z.odd c); [by apply lxor_cancel_r in H|done]. }
  rewrite <-!Z.div2_spec in Hs.
  rewrite (Zdiv2_odd_eqn c), (Zdiv2_odd_eqn d), Hs, E. done.
Qed.

Lemma crc_bits_dom n c : word32 c → word32 (Nat.iter n crc_bit c).
Proof. intros. induction n; simpl; auto using crc_bit_dom. Qed.
Lemma crc_bits_inj n c d :
  word32 c → word32 d → Nat.iter n crc_bit c = Nat.iter n crc_bit d → c = d.
Proof.
  intros. induction n as [|n IH]; simpl in *; [done|]. apply IH.
  apply crc_bit_inj; auto using crc_bits_dom.
Qed.

Lemma lxor_byte_word32 c b : word32 c → byte_ok b → word32 (Z.lxor c b).
Proof. intros. apply lxor_bound; [done..|]. by apply (byte_dom 32). Qed.

Lemma crc_byte_dom c b : word32 c → byte_ok b → word32 (crc_byte c b).
Proof. intros. apply crc_bits_dom. by apply lxor_byte_word32. Qed.
Lemma crc_byte_inj_state c d b :
  word32 c → word32 d → byte_ok b → crc_byte c b = crc_byte d b → c = d.
Proof.
  intros ? ? ? E%crc_bits_inj; auto using lxor_byte_word32. by apply lxor_cancel_r in E.
Qed.
Lemma crc_byte_inj_byte c a b :
  word32 c → byte_ok a → byte_ok b → crc_byte c a = crc_byte c b → a = b.
Proof.
  intros ? ? ? E%crc_bits_inj; auto using lxor_byte_word32. by apply lxor_cancel_l in E.
Qed.

Lemma crc32_word32 l : bytes_ok l → word32 (crc32 l).
Proof.
  intros. unfold crc32, word32. apply lxor_bound; [done|..|done].
  by apply (fold_dom word32 _ crc_byte_dom).
Qed.

Lemma crc32_detects pre a b post :
  bytes_ok pre → byte_ok a → byte_ok b → bytes_ok post → a ≠ b →
  crc32 (pre ++ a :: post) ≠ crc32 (pre ++ b :: post).
Proof.
  intros ? ? ? ? ? E%lxor_cancel_r. revert E.
  by apply (fold_detects word32 _ crc_byte_dom crc_byte_inj_state crc_byte_inj_byte).
Qed.

(** ** [hashlib.sha256] *)

Definition w32 (x : Z) : Z := Z.land x (Z.ones 32).
Definition rotr (x n : Z) : Z := w32 (Z.lor (Z.shiftr x n) (Z.shiftl x (32 - n))).
Definition xor3 (a b c : Z) : Z := Z.lxor a (Z.lxor b c).

(** The constants are the leading fractional bits of the cube roots and the
    square roots of the first primes, as FIPS 180 defines them. *)
Definition is_prime (p : Z) : bool :=
  forallb (λ d, negb (p mod d =? 0)) (range 2 (Z.sqrt p + 1)).
Definition primes : list Z := filter (λ p, is_prime p = true) (range 2 312).

(** The integer cube root of [n], bit by bit from [2 ^ (bits - 1)] down. *)
Fixpoint cube_root (bits : nat) (n root : Z) : Z :=
  match bits with
  | O => root
  | Datatypes.S bits =>
      let r := root + 2 ^ Z.of_nat bits in
      cube_root bits n (if r * r * r <=? n then r else root)
  end.
Definition sha_k : list Z :=
  Eval vm_compute in (λ p, w32 (cube_root 40 (Z.shiftl p 96) 0)) <$> primes.
Definition sha_init : list Z :=
  Eval vm_compute in (λ p, w32 (Z.sqrt (Z.shiftl p 64))) <$> take 8 primes.

Definition be_bytes (w v : Z) : bytes := reverse (le_bytes w v).
Definition be_int (l : bytes) : Z := le_int (reverse l).

Definition sha_pad (l : bytes) : bytes :=
  l ++ 0x80 :: zeros ((55 - len l) mod 64) ++ be_bytes 8 (8 * len l).

(** The message schedule, newest word first; [n] words remain to be added. *)
Fixpoint sha_extend (n : nat) (ws : list Z) : list Z :=
  match n with
  | O => reverse ws
  | Datatypes.S n =>
      let w i := default 0 (ws !! i) in
      let s0 := xor3 (rotr (w 14%nat) 7) (rotr (w 14%nat) 18) (Z.shiftr (w 14%nat) 3) in
      let s1 := xor3 (rotr (w 1%nat) 17) (rotr (w 1%nat) 19) (Z.shiftr (w 1%nat) 10) in
      sha_extend n (w32 (w 15%nat + s0 + w 6%nat + s1) :: ws)
  end.

Definition sha_round (st : list Z) (kw : Z * Z) : list Z :=
  match st with
  | [a; b; c; d; e; f; g; h] =>
      let s1 := xor3 (rotr e 6) (rotr e 11) (rotr e 25) in
      let ch := Z.lxor (Z.land e f) (Z.land (Z.lxor e (Z.ones 32)) g) in
      let t1 := h + s1 + ch + kw.1 + kw.2 in
      let s0 := xor3 (rotr a 2) (rotr a 13) (rotr a 22) in
      let maj := xor3 (Z.land a b) (Z.land a c) (Z.land b c) in
      [w32 (t1 + s0 + maj); a; b; c; w32 (d + t1); e; f; g]
  | _ => st
  end.

Fixpoint sha_words (n : nat) (l : bytes) : list Z :=
  match n with O => [] | Datatypes.S n => be_int (take 4 l) :: sha_words n (drop 4 l) end.

Definition sha_block (st : list Z) (l : bytes) : list Z :=
  let ws := sha_extend 48 (reverse (sha_words 16 l)) in
  zip_with (λ a b, w32 (a + b)) st (foldl sha_round st (zip sha_k ws)).

Fixpoint sha_blocks (n : nat) (st : list Z) (l : bytes) : list Z :=
  match n with
  | O => st
  | Datatypes.S n => sha_blocks n (sha_block st (take 64 l)) (drop 64 l)
  end.

Definition sha256 (l : bytes) : bytes :=
  let p := sha_pad l in
  w ← sha_blocks (Z.to_nat (len p / 64)) sha_init p; be_bytes 4 w.

(** [.hexdigest().upper()] *)
Definition hex_digit (d : Z) : Ascii.ascii :=
  Ascii.ascii_of_N (Z.to_N (if d <? 10 then 48 + d else 55 + d)).
Fixpoint hex_upper (l : bytes) : string :=
  match l with
  | [] => ""
  | b :: l => String (hex_digit (b / 16)) (String (hex_digit (b mod 16)) (hex_upper l))
  end.

Example sha256_abc :
  hex_upper (sha256 (B "abc")) =
  "BA7816BF8F01CFEA414140DE5DAE2223B00361A396177A9CB410FF61F20015AD".
Proof. vm_compute. reflexivity. Qed.

Example sha256_two_blocks :
  hex_upper (sha256 (replicate 100 97)) =
  "2816597888E4A0D3A36B82B83316AB32680EB8F00F8CD3B904D681246D285A0E".
Proof. vm_compute. reflexivity. Qed.
