(* ===== verification/Fat12.v ===== *)
(** * FAT12 table entries

    The 12-bit table codec the legacy scripts share: the writer
    [set_fat12_entry] of [scripts/create-legacy-fat12.py], the reader
    [fat_entry] of [scripts/verify-legacy-bios.py] and its copy [entry] of
    [scripts/verify-legacy-persistence.py].  Two entries share a byte, so the
    theorems say both that a write is read back and that no other entry
    changes. *)

From S2P Require Import Prelude PyBytes.

Module Fat12.

(** [fat] is mutated in place: the new contents are returned. *)
Definition set_fat12_entry (fat : bytes) (cluster value : Z) : result bytes :=
  let offset := cluster + cluster / 2 in
  let value := Z.land value 0x0FFF in
  if truthy (Z.land cluster 1) then
    b0 ← get_item fat offset;
    fat ← set_item fat offset (Z.lor (Z.land b0 0x0F) (Z.land (Z.shiftl value 4) 0xF0));
    set_item fat (offset + 1) (Z.land (Z.shiftr value 4) 0xFF)
  else
    fat ← set_item fat offset (Z.land value 0xFF);
    b1 ← get_item fat (offset + 1);
    set_item fat (offset + 1) (Z.lor (Z.land b1 0xF0) (Z.land (Z.shiftr value 8) 0x0F)).

Definition fat_entry (fat : bytes) (cluster : Z) : result Z :=
  let offset := cluster + cluster / 2 in
  b0 ← get_item fat offset;
  b1 ← get_item fat (offset + 1);
  let pair := Z.lor b0 (Z.shiftl b1 8) in
  Ok (if truthy (Z.land cluster 1) then Z.land (Z.shiftr pair 4) 0xFFF else Z.land pair 0xFFF).

Definition entry (fat : bytes) (cluster : Z) : result Z :=
  let offset := cluster + cluster / 2 in
  b0 ← get_item fat offset;
  b1 ← get_item fat (offset + 1);
  let pair := Z.lor b0 (Z.shiftl b1 8) in
  Ok (if truthy (Z.land cluster 1) then Z.land (Z.shiftr pair 4) 0xFFF else Z.land pair 0xFFF).

(** An entry lies in the table when both its bytes do. *)
Definition in_table (fat : bytes) (cluster : Z) : Prop :=
  0 ≤ cluster ∧ cluster + cluster / 2 + 1 < len fat.

(** ** The codec in arithmetic *)

Definition byte_at (l : bytes) (i : Z) : Z := default 0 (l !! Z.to_nat i).

Definition entry_value (odd : bool) (b0 b1 : Z) : Z :=
  if odd then b0 / 16 + 16 * b1 else b0 + 256 * (b1 mod 16).

Lemma get_item_byte_at l i : 0 ≤ i < len l → get_item l i = Ok (byte_at l i).
Proof.
  intros ?. destruct (get_item_in_range l i) as (b & -> & Hb); [done|].
  unfold byte_at. by rewrite Hb.
Qed.

Lemma byte_at_ok l i : bytes_ok l → 0 ≤ byte_at l i < 256.
Proof.
  intros Hl. unfold byte_at. destruct (l !! Z.to_nat i) eqn:E; simpl; [|lia].
  by apply (bytes_ok_lookup l _ _ Hl) in E.
Qed.

Lemma byte_at_put l a v i :
  0 ≤ a < len l → 0 ≤ i → byte_at (put l a [v]) i = if decide (i = a) then v else byte_at l i.
Proof.
  intros. unfold byte_at. rewrite lookup_put by (rewrite ?len_cons, ?len_nil; lia).
  change (len [v]) with 1. repeat case_decide; try lia.
  by replace (Z.to_nat (i - a)) with O by lia.
Qed.

Lemma land_F0 b : 0 ≤ b < 256 → Z.land b 0xF0 = 16 * (b / 16).
Proof.
  intros Hb. apply Z.eqb_eq.
  by apply (below_all (λ b, Z.land b 0xF0 =? 16 * (b / 16)) 256).
Qed.

Lemma land_shiftl_F0 v : Z.land (Z.shiftl v 4) 0xF0 = Z.shiftl (v mod 16) 4.
Proof.
  change 0xF0 with (Z.shiftl (Z.ones 4) 4). rewrite <-Z.shiftl_land.
  by rewrite Z.land_ones by lia.
Qed.

Lemma fat_entry_eq fat c :
  bytes_ok fat → in_table fat c →
  fat_entry fat c =
    Ok (entry_value (Z.odd c) (byte_at fat (c + c / 2)) (byte_at fat (c + c / 2 + 1))).
Proof.
  intros Hok [Hc Hn]. unfold fat_entry.
  assert (0 ≤ c / 2) by divlia.
  rewrite !get_item_byte_at by lia. simpl. rewrite truthy_land_1.
  pose proof (byte_at_ok fat (c + c / 2) Hok). pose proof (byte_at_ok fat (c + c / 2 + 1) Hok).
  rewrite lor_shiftl_add by lia. change 0xFFF with (Z.ones 12).
  rewrite !Z.land_ones, Z.shiftr_div_pow2 by lia. unfold entry_value.
  change (2 ^ 4) with 16. change (2 ^ 8) with 256. change (2 ^ 12) with 4096.
  destruct (Z.odd c); f_equal; divlia.
Qed.

Lemma set_fat12_entry_eq fat c v :
  bytes_ok fat → in_table fat c →
  let off := c + c / 2 in
  let w := v mod 4096 in
  set_fat12_entry fat c v =
    Ok (if Z.odd c
        then put (put fat off [byte_at fat off mod 16 + 16 * (w mod 16)]) (off + 1) [w / 16]
        else put (put fat off [w mod 256]) (off + 1)
               [16 * (byte_at fat (off + 1) / 16) + w / 256]).
Proof.
  intros Hok [Hc Hn] off w. unfold set_fat12_entry. fold off.
  assert (0 ≤ off) by (unfold off; divlia). fold off in Hn. clearbody off.
  assert (0 ≤ w < 4096) by (apply Z.mod_pos_bound; lia).
  change (Z.land v 0xFFF) with (Z.land v (Z.ones 12)). rewrite Z.land_ones by lia.
  change (v mod 2 ^ 12) with w. clearbody w. rewrite truthy_land_1.
  pose proof (byte_at_ok fat off Hok). pose proof (byte_at_ok fat (off + 1) Hok).
  change 0xFF with (Z.ones 8). change 0x0F with (Z.ones 4).
  rewrite !(Z.land_ones _ 8), !Z.shiftr_div_pow2, land_shiftl_F0 by lia.
  change (2 ^ 4) with 16. change (2 ^ 8) with 256. destruct (Z.odd c).
  - rewrite get_item_byte_at by lia. simpl.
    rewrite Z.land_ones, lor_shiftl_add by (try change (2 ^ 4) with 16; divlia).
    change (2 ^ 4) with 16. rewrite set_item_Ok by divlia. simpl.
    rewrite (Z.mod_small (w / 16)) by divlia.
    by rewrite set_item_Ok by (len_solve || divlia).
  - rewrite set_item_Ok by divlia. simpl.
    rewrite get_item_byte_at by len_solve. simpl.
    rewrite byte_at_put, decide_False by lia.
    rewrite land_F0, Z.land_ones by lia. change (2 ^ 4) with 16.
    rewrite (Z.mod_small (w / 256)), Z.lor_comm by divlia.
    replace (16 * (byte_at fat (off + 1) / 16)) with (Z.shiftl (byte_at fat (off + 1) / 16) 4)
      by (rewrite Z.shiftl_mul_pow2 by lia; lia).
    rewrite lor_shiftl_add by (try change (2 ^ 4) with 16; divlia).
    rewrite set_item_Ok by (len_solve || (try change (2 ^ 4) with 16; divlia)).
    rewrite Z.shiftl_mul_pow2 by lia. do 3 f_equal. lia.
Qed.

Lemma set_fat12_entry_ok fat c v fat' :
  bytes_ok fat → in_table fat c → set_fat12_entry fat c v = Ok fat' →
  len fat' = len fat ∧ bytes_ok fat' ∧
  ∀ c', in_table fat c' →
    fat_entry fat' c' = if decide (c' = c) then Ok (Z.land v 0xFFF) else fat_entry fat c'.
Proof.
  intros Hok Hin Hset. pose proof Hin as [Hc Hn].
  rewrite set_fat12_entry_eq in Hset by done. injection Hset as <-.
  assert (0 ≤ c / 2) by divlia.
  set (w := v mod 4096). assert (0 ≤ w < 4096) by (apply Z.mod_pos_bound; lia).
  set (off := c + c / 2) in *.
  pose proof (byte_at_ok fat off Hok). pose proof (byte_at_ok fat (off + 1) Hok).
  assert (∀ x y, len (put (put fat off [x]) (off + 1) [y]) = len fat) as Hlen by (intros; len_solve).
  assert (∀ x y i, 0 ≤ i → byte_at (put (put fat off [x]) (off + 1) [y]) i =
     if decide (i = off + 1) then y else if decide (i = off) then x else byte_at fat i) as Hat.
  { intros x y i Hi. rewrite !byte_at_put by (try len_solve; lia). done. }
  change (Z.land v 0xFFF) with (Z.land v (Z.ones 12)). rewrite Z.land_ones by lia.
  change (v mod 2 ^ 12) with w.
  assert (bytes_ok (if Z.odd c then put (put fat off [byte_at fat off mod 16 + 16 * (w mod 16)])
             (off + 1) [w / 16] else put (put fat off [w mod 256]) (off + 1)
             [16 * (byte_at fat (off + 1) / 16) + w / 256])) as Hok'.
  { destruct (Z.odd c); repeat (apply bytes_ok_put); try done;
      repeat constructor; unfold byte_ok; change (2 ^ 8) with 256; divlia. }
  split; [by destruct (Z.odd c)|]. split; [done|]. intros c' [Hc' Hn'].
  assert (0 ≤ c' / 2) by divlia.
  rewrite fat_entry_eq by (first [done | split; [done|]; destruct (Z.odd c); rewrite Hlen; done]).
  assert (∀ x, x = 2 * (x / 2) + if Z.odd x then 1 else 0) as Hodd
    by (intros x; rewrite <-Zmod_odd; divlia).
  pose proof (Hodd c) as Hoc. pose proof (Hodd c') as Hoc'.
  case_decide as Heq.
  - subst c'. fold off. f_equal. unfold entry_value.
    destruct (Z.odd c); rewrite !Hat by lia; clearbody w;
      repeat (first [rewrite decide_True by lia | rewrite decide_False by lia]); divlia.
  - rewrite fat_entry_eq by done. f_equal. unfold entry_value.
    assert (off = c + c / 2) as Hoff by done. clearbody off w.
    destruct (Z.odd c), (Z.odd c'); rewrite !Hat by lia;
      repeat (first [rewrite decide_False by lia | case_decide as E; [rewrite ?E|]]); divlia.
Qed.

(** Reading past the table is Python's [IndexError]. *)
Lemma fat_entry_past_end fat c :
  0 ≤ c → len fat ≤ c + c / 2 + 1 → fat_entry fat c = Err IndexError.
Proof.
  intros Hc Hn. assert (0 ≤ c / 2) by divlia. unfold fat_entry.
  destruct (decide (c + c / 2 < len fat)).
  - rewrite (get_item_byte_at fat (c + c / 2)) by lia. simpl. by rewrite (get_item_out_of_range fat (c + c / 2 + 1)) by lia.
  - by rewrite (get_item_out_of_range fat (c + c / 2)) by lia.
Qed.

(** (C35) Writing entry [c] of a FAT12 table that holds it succeeds, keeps the
    table's size and its bytes in range, makes [c] read back as the low twelve
    bits of the value, and leaves every other entry of the table, the one that
    shares a byte with [c] included, as it was; both verifiers' readers agree. *)
Theorem fat12_write_read fat c v :
  bytes_ok fat → in_table fat c →
  ∃ fat', set_fat12_entry fat c v = Ok fat' ∧ len fat' = len fat ∧ bytes_ok fat' ∧
    fat_entry fat' c = Ok (Z.land v 0xFFF) ∧
    (∀ c', in_table fat c' → c' ≠ c → fat_entry fat' c' = fat_entry fat c') ∧
    (∀ c', entry fat' c' = fat_entry fat' c').
Proof.
  intros Hok Hin. eexists. split; [by apply set_fat12_entry_eq|].
  edestruct set_fat12_entry_ok as (Hl & Hb & Hr); [done|done|by apply set_fat12_entry_eq|].
  split_and!; [done|done|by rewrite Hr, decide_True by done| |done].
  intros c' Hc' Hne. by rewrite Hr, decide_False by done.
Qed.

Lemma fat12_write_read_witness : ∃ fat',
  set_fat12_entry [0xF0; 0xFF; 0xFF; 0x34; 0x12; 0xAB] 3 0xCDE = Ok fat' ∧ fat_entry fat' 3 = Ok 0xCDE.
Proof.
  destruct (fat12_write_read [0xF0; 0xFF; 0xFF; 0x34; 0x12; 0xAB] 3 0xCDE) as (f & H & _ & _ & Hr & _).
  - by apply bytes_okb_spec.
  - split; [lia|reflexivity].
  - exists f. split; [exact H|exact Hr].
Defined.

End Fat12.
