(* ===== verification/LegacyAsm.v ===== *)
(** * The machine-code writer of the legacy programs

    [scripts/create-legacy-fat12.py] writes each ring-3 program as a Python
    function that appends instruction bytes to a [bytearray] called [code] and
    then wraps code and data in a one-segment ELF32 image.  Here the mutable
    [code] is the state of the monad [asm]; [emit], [here] and [patch] are its
    three operations ([code +=], [len(code)], [struct.pack_into]).  The file
    also holds the FNV-1a hash and [build_elf]. *)

From S2P Require Import Prelude PyBytes PyHash.

Module LegacyAsm.

(** [fnv1a32] *)
Definition fnv1a32 (data : bytes) : Z :=
  foldl (λ value byte, Z.land (Z.lxor value byte * 0x01000193) 0xFFFFFFFF) 0x811C9DC5 data.

(** ** The writer *)

Definition asm (A : Type) : Type := bytes → result (A * bytes).

#[export] Instance asm_ret : MRet asm := λ A a code, Ok (a, code).
#[export] Instance asm_bind : MBind asm := λ A B f m code,
  match m code with Ok (a, code) => f a code | Err e => Err e end.

(** [code += b] *)
Definition emit (b : bytes) : asm unit := λ code, Ok (tt, code ++ b).
(** [code += m], where evaluating [m] may raise *)
Definition emit_r (m : result bytes) : asm unit := λ code,
  match m with Ok b => Ok (tt, code ++ b) | Err e => Err e end.
(** [len(code)] *)
Definition here : asm Z := λ code, Ok (len code, code).
(** [struct.pack_into(fmt, code, off, v)] *)
Definition patch (fmt : string) (off v : Z) : asm unit := λ code,
  match pack_into fmt code off [VI v] with Ok code => Ok (tt, code) | Err e => Err e end.

(** [for x in l: body(x)] *)
Fixpoint each {A} (body : A → asm unit) (l : list A) : asm unit :=
  match l with
  | [] => mret tt
  | a :: l => body a;; each body l
  end.

(** The function body from [code = bytearray()] to the last append. *)
Definition assemble (p : asm unit) : result bytes :=
  match p [] with Ok (_, code) => Ok code | Err e => Err e end.

(** [bytes((b,))] *)
Definition byte1 (b : Z) : result bytes :=
  if (0 <=? b) && (b <? 256) then Ok [b]
  else Err (ValueError "bytes must be in range(0, 256)").

Definition mov_imm (reg_opcode value : Z) : result bytes :=
  r ← byte1 reg_opcode; v ← pack "<I" [VI value]; Ok (r ++ v).

(** [code += mov_imm(reg, v)] *)
Definition movi (reg v : Z) : asm unit := emit_r (mov_imm reg v).

(** [code += prefix + struct.pack("<I", v)] *)
Definition emit_abs (prefix : bytes) (v : Z) : asm unit :=
  emit_r (p ← pack "<I" [VI v]; Ok (prefix ++ p)).

(** [code += prefix + struct.pack("<I", a) + struct.pack("<I", b)] *)
Definition emit_abs2 (prefix : bytes) (a b : Z) : asm unit :=
  emit_r (p ← pack "<I" [VI a]; q ← pack "<I" [VI b]; Ok (prefix ++ p ++ q)).

(** The closures [syscall] and [store] every builder declares. *)
Definition syscall (number : Z) : asm unit := movi 0xB8 number;; emit [0xCD; 0x80].
Definition store (results_va index : Z) : asm unit := emit_abs [0xA3] (results_va + index * 4).

(** ** [build_elf] *)

Definition build_elf (segment : bytes) (memory_size : Z) : result bytes :=
  let base := 0x00400000 in
  let file_size := 0x100 + len segment in
  let elf := zeros file_size in
  let elf := set_slice elf 0 16 ([0x7f] ++ B "ELF" ++ [0x01; 0x01; 0x01; 0x00] ++ zeros 8) in
  elf ← pack_into "<HHIIIIIHHHHHH" elf 16
    (map VI [2; 3; 1; base; 52; 0; 0; 52; 32; 1; 0; 0; 0]);
  elf ← pack_into "<IIIIIIII" elf 52
    (map VI [1; 0x100; base; base; len segment; memory_size; 5; 0x1000]);
  Ok (put_tail elf 0x100 segment).

(** ** Lemmas *)

(** The hash is the 32-bit instance of the generic fold. *)
Lemma fnv1a32_fold data : fnv1a32 data = foldl (fnv_step 32 0x01000193) 0x811C9DC5 data.
Proof. reflexivity. Qed.

Definition elf_ident : bytes := [0x7f] ++ B "ELF" ++ [0x01; 0x01; 0x01; 0x00] ++ zeros 8.

Definition elf_header : bytes :=
  [2; 0; 3; 0; 1; 0; 0; 0; 0; 0; 64; 0; 52; 0; 0; 0; 0; 0; 0; 0; 0; 0; 0; 0; 52; 0; 32; 0; 1; 0;
   0; 0; 0; 0; 0; 0].

Definition elf_phdr (filesz memsz : Z) : bytes :=
  [1; 0; 0; 0; 0; 1; 0; 0; 0; 0; 64; 0; 0; 0; 64; 0] ++ le_bytes 4 filesz ++ le_bytes 4 memsz ++
  [5; 0; 0; 0; 0; 16; 0; 0].

(** The layout of the image, field by field. *)
Lemma build_elf_eq segment memory_size :
  len segment < 2 ^ 32 → 0 ≤ memory_size < 2 ^ 32 →
  build_elf segment memory_size =
    Ok (elf_ident ++ elf_header ++ elf_phdr (len segment) memory_size ++ zeros 172 ++ segment).
Proof.
  intros Hs Hm. pose proof (len_nonneg segment). unfold build_elf.
  set (body := zeros 36 ++ zeros 32 ++ zeros 172 ++ zeros (len segment)).
  assert (zeros (0x100 + len segment) = [] ++ zeros 16 ++ body) as ->.
  { unfold body. rewrite <-!zeros_add by lia. simpl. f_equal. lia. }
  change (set_slice ?l 0 16 ?v) with (put l 0 elf_ident).
  rewrite put_mid by done. unfold body. rewrite app_nil_l.
  assert (len (elf_ident ++ zeros 36 ++ zeros 32 ++ zeros 172 ++ zeros (len segment))
          = 256 + len segment) as Hlen.
  { rewrite !len_app, (len_zeros (len segment)) by done. change (len elf_ident) with 16.
    rewrite !len_zeros by lia. lia. }
  rewrite (pack_into_Ok _ [FInt false 2; FInt false 2; FInt false 4; FInt false 4; FInt false 4;
    FInt false 4; FInt false 4; FInt false 2; FInt false 2; FInt false 2; FInt false 2;
    FInt false 2; FInt false 2] _ _ _ elf_header);
    [|reflexivity|reflexivity|by repeat constructor|lia|rewrite Hlen; simpl; lia].
  cbn [mbind result_bind]. rewrite put_mid by done.
  rewrite (pack_into_Ok _ (replicate 8 (FInt false 4)) _ _ _ (elf_phdr (len segment) memory_size));
    [|reflexivity| |by repeat constructor|lia|].
  - cbn [mbind result_bind]. rewrite app_assoc, put_mid; [|done|].
    2: { unfold elf_phdr. rewrite !len_app, !len_le_bytes by lia. done. }
    rewrite !app_assoc, put_tail_app; [by rewrite <-!app_assoc|].
    rewrite !len_app. unfold elf_phdr. rewrite !len_app, !len_le_bytes by lia. reflexivity.
  - change (replicate 8 ?f) with [f; f; f; f; f; f; f; f]. etrans.
    + repeat (eapply pack_fields_cons; [by apply pack_field_uint|]). reflexivity.
    + by rewrite app_nil_r.
  - rewrite !len_app, (len_zeros (len segment)) by done. simpl. unfold len. simpl. lia.
Qed.

(** The checksum the scripts pin for every file and embed in the WRITER and
    PATHS programs detects every substitution of a single byte: two inputs of
    one length that differ in one byte have different hashes. *)
Theorem fnv1a32_substitution pre a b post :
  bytes_ok pre → byte_ok a → byte_ok b → bytes_ok post → a ≠ b →
  fnv1a32 (pre ++ a :: post) ≠ fnv1a32 (pre ++ b :: post).
Proof.
  rewrite !fnv1a32_fold. by apply (fnv_detects 32 0x01000193 0x359c449b).
Qed.

Lemma fnv1a32_substitution_witness :
  fnv1a32 ([1; 2] ++ 3 :: [4]) ≠ fnv1a32 ([1; 2] ++ 7 :: [4]).
Proof.
  apply (fnv1a32_substitution [1; 2] 3 7 [4]); try (by apply bytes_okb_spec); try (by split); lia.
Defined.

End LegacyAsm.
