(* ===== verification/LegacyPrograms.v ===== *)
(** * The ring-3 programs of the legacy volume

    The data files and the program builders of
    [scripts/create-legacy-fat12.py], one definition per [build_*_elf]
    function, each written in the order of the source's appends with the
    writer of [LegacyAsm].  A builder raises when its code would overlap its
    data.  The dictionaries of offsets of the source are local definitions. *)

From S2P Require Import Prelude PyBytes LegacyAsm.

Module LegacyPrograms.
Import LegacyAsm.

Definition OPEN_READ : Z := 0x01.
Definition OPEN_WRITE : Z := 0x02.
Definition OPEN_CREATE : Z := 0x04.
Definition OPEN_TRUNCATE : Z := 0x08.
Definition OPEN_APPEND : Z := 0x10.
Definition OPEN_CLOEXEC : Z := 0x20.

Definition HELLO_NAME : bytes := B "HELLO   TXT".
Definition HELLO : bytes :=
  B "ZigOs legacy FAT12 filesystem is online." ++ CRLF ++
  B "Loaded through ATA PIO by the i686 kernel." ++ CRLF.
Definition INIT_NAME : bytes := B "INIT    ELF".
Definition INIT_MESSAGE : bytes := B "INIT.ELF executed in ring3 via FAT12." ++ CRLF.
Definition CAT_NAME : bytes := B "CAT     ELF".
Definition BIG_NAME : bytes := B "BIG     TXT".
Definition SPINA_NAME : bytes := B "SPINA   ELF".
Definition SPINB_NAME : bytes := B "SPINB   ELF".
Definition FAULT_NAME : bytes := B "FAULT   ELF".
Definition WRITER_NAME : bytes := B "WRITER  ELF".
Definition SERVICE_NAME : bytes := B "SERVICE ELF".
Definition ORCH_NAME : bytes := B "ORCH    ELF".
Definition CHILD_NAME : bytes := B "CHILD   ELF".
Definition ASYNC_NAME : bytes := B "ASYNC   ELF".
Definition WORKA_NAME : bytes := B "WORKA   ELF".
Definition WORKB_NAME : bytes := B "WORKB   ELF".
Definition LEAF_NAME : bytes := B "LEAF    ELF".
Definition GENRUN_NAME : bytes := B "GENRUN  ELF".
Definition REUSE_NAME : bytes := B "REUSE   ELF".
Definition FORKER_NAME : bytes := B "FORKER  ELF".
Definition EXECA_NAME : bytes := B "EXECA   ELF".
Definition EXECB_NAME : bytes := B "EXECB   ELF".
Definition PATHS_NAME : bytes := B "PATHS   ELF".
Definition NOTES_NAME : bytes := B "NOTES   TXT".

Definition BIG_PREFIX : bytes := B "ZigOs multi-cluster FAT12 read contract." ++ CRLF.
Definition BIG : bytes :=
  BIG_PREFIX ++ map (λ i, 65 + i mod 26) (range 0 (1300 - len BIG_PREFIX)).
Definition WRITER_BASE : bytes := map (λ i, 97 + i mod 26) (range 0 700).
Definition WRITER_SUFFIX : bytes := B "APPEND-PERSIST-OK!" ++ CRLF.
Definition WRITER_RESULT : bytes := WRITER_BASE ++ WRITER_SUFFIX.
Definition ORCH_REQUEST : bytes := B "PARENT-TO-CHILD" ++ CRLF.
Definition CHILD_REPLY : bytes := B "CHILD-TO-PARENT" ++ CRLF.

Definition build_init_elf : result bytes :=
  let base := 0x00400000 in
  let message_va := base + 0x80 in
  let pid_va := base + 0x70 in
  code ← assemble (
    emit [0xB8; 0x01; 0x00; 0x00; 0x00];;
    emit_abs [0xBB] message_va;;
    emit_abs [0xB9] (len INIT_MESSAGE);;
    emit [0xCD; 0x80];;
    emit [0xB8; 0x02; 0x00; 0x00; 0x00; 0xCD; 0x80];;
    emit_abs [0xA3] pid_va;;
    emit [0xB8; 0x03; 0x00; 0x00; 0x00];;
    emit [0xBB; 0x33; 0x00; 0x00; 0x00; 0xCD; 0x80; 0xF4]);
  let segment := zeros (0x80 + len INIT_MESSAGE) in
  let segment := put segment 0 code in
  let segment := put_tail segment 0x80 INIT_MESSAGE in
  build_elf segment 0x200.

Definition build_cat_elf : result bytes :=
  let base := 0x00400000 in
  let name_offset := 0x90 in
  let fd_offset := 0xA0 in
  let read_offset := 0xA4 in
  let buffer_offset := 0xA8 in
  let name_va := base + name_offset in
  let fd_va := base + fd_offset in
  let read_va := base + read_offset in
  let buffer_va := base + buffer_offset in
  code ← assemble (
    emit [0xB8; 0x04; 0x00; 0x00; 0x00];;
    emit_abs [0xBB] name_va;;
    emit [0xB9; 0x0B; 0x00; 0x00; 0x00];;
    emit_abs [0xBA] OPEN_READ;;
    emit [0xCD; 0x80];;
    emit_abs [0xA3] fd_va;;
    emit [0x89; 0xC3];;
    emit [0xB8; 0x05; 0x00; 0x00; 0x00];;
    emit_abs [0xB9] buffer_va;;
    emit_abs [0xBA] (len HELLO);;
    emit [0xCD; 0x80];;
    emit_abs [0xA3] read_va;;
    emit [0x89; 0xC1];;
    emit [0xB8; 0x01; 0x00; 0x00; 0x00];;
    emit_abs [0xBB] buffer_va;;
    emit [0xCD; 0x80];;
    emit [0xB8; 0x06; 0x00; 0x00; 0x00];;
    emit_abs [0x8B; 0x1D] fd_va;;
    emit [0xCD; 0x80];;
    emit [0xB8; 0x03; 0x00; 0x00; 0x00];;
    emit [0xBB; 0x44; 0x00; 0x00; 0x00; 0xCD; 0x80; 0xF4]);
  raise_if (name_offset <? len code) (RuntimeError "CAT.ELF code overlaps data");;
  let segment := zeros (buffer_offset + len HELLO) in
  let segment := put segment 0 code in
  let segment := set_slice segment name_offset (name_offset + 11) HELLO_NAME in
  build_elf segment 0x200.

Definition build_spin_elf : result bytes :=
  build_elf [0xFF; 0x05; 0x00; 0x01; 0x40; 0x00; 0xEB; 0xF8] 0x200.

Definition build_fault_elf : result bytes :=
  build_elf [0xA1; 0x00; 0x00; 0x80; 0x00; 0xF4] 0x100.

Definition build_writer_elf : result bytes :=
  let base := 0x00400000 in
  let name_offset := 0x180 in
  let fd_offset := 0x190 in
  let write_result_offset := 0x194 in
  let read_result_offset := 0x198 in
  let payload_offset := 0x200 in
  let verify_offset := 0x600 in
  let name_va := base + name_offset in
  let payload_va := base + payload_offset in
  let verify_va := base + verify_offset in
  let suffix_va := payload_va + len WRITER_BASE in
  code ← assemble (
    (* open NOTES.TXT read/write/create/truncate *)
    movi 0xB8 4;;
    movi 0xBB name_va;;
    movi 0xB9 11;;
    movi 0xBA (Z.lor (Z.lor (Z.lor OPEN_READ OPEN_WRITE) OPEN_CREATE) OPEN_TRUNCATE);;
    emit_abs [0xCD; 0x80; 0xA3] (base + fd_offset);;
    (* write 700 bytes *)
    emit [0x89; 0xC3];;
    movi 0xB8 7;;
    movi 0xB9 payload_va;;
    movi 0xBA (len WRITER_BASE);;
    emit_abs [0xCD; 0x80; 0xA3] (base + write_result_offset);;
    (* seek to beginning *)
    movi 0xB8 8;;
    emit_abs [0x8B; 0x1D] (base + fd_offset);;
    movi 0xB9 0;;
    movi 0xBA 0;;
    emit [0xCD; 0x80];;
    (* read the complete base payload back into BSS *)
    movi 0xB8 5;;
    emit_abs [0x8B; 0x1D] (base + fd_offset);;
    movi 0xB9 verify_va;;
    movi 0xBA (len WRITER_BASE);;
    emit_abs [0xCD; 0x80; 0xA3] (base + read_result_offset);;
    (* close first descriptor *)
    movi 0xB8 6;;
    emit_abs [0x8B; 0x1D] (base + fd_offset);;
    emit [0xCD; 0x80];;
    (* reopen append-only *)
    movi 0xB8 4;;
    movi 0xBB name_va;;
    movi 0xB9 11;;
    movi 0xBA (Z.lor OPEN_WRITE OPEN_APPEND);;
    emit_abs [0xCD; 0x80; 0xA3] (base + fd_offset);;
    (* append suffix *)
    emit [0x89; 0xC3];;
    movi 0xB8 7;;
    movi 0xB9 suffix_va;;
    movi 0xBA (len WRITER_SUFFIX);;
    emit [0xCD; 0x80];;
    (* close and exit *)
    movi 0xB8 6;;
    emit_abs [0x8B; 0x1D] (base + fd_offset);;
    emit [0xCD; 0x80];;
    movi 0xB8 3;;
    movi 0xBB 0x55;;
    emit [0xCD; 0x80; 0xF4]);
  raise_if (name_offset <? len code) (RuntimeError "WRITER.ELF code overlaps data: {len(code)}");;
  let segment := zeros (payload_offset + len WRITER_RESULT) in
  let segment := put segment 0 code in
  let segment := set_slice segment name_offset (name_offset + 11) NOTES_NAME in
  let segment := put segment payload_offset WRITER_RESULT in
  build_elf segment 0x1000.

Definition build_service_elf : result bytes :=
  let base := 0x00400000 in
  let old_name_offset := 0x350 in
  let new_name_offset := 0x360 in
  let payload_offset := 0x380 in
  let pipe_fds_offset := 0x3A0 in
  let stat_offset := 0x3B0 in
  let results_offset := 0x3D0 in
  let read_buffer_offset := 0x440 in
  let old_name_va := base + old_name_offset in
  let new_name_va := base + new_name_offset in
  let payload_va := base + payload_offset in
  let pipe_fds_va := base + pipe_fds_offset in
  let stat_va := base + stat_offset in
  let results_va := base + results_offset in
  let read_buffer_va := base + read_buffer_offset in
  let payload := B "SERVICE-PIPE-OK!" ++ CRLF in
  let store_result := store results_va in
  code ← assemble (
    movi 0xBB 0;;
    syscall 9;; store_result 0;;
    movi 0xBB 0x00405000;;
    syscall 9;; store_result 1;;
    emit_abs2 [0xC7; 0x05] 0x00403000 0xDEADBEEF;;

    movi 0xBB 0x00405000;;
    movi 0xB9 0x1000;;
    movi 0xBA 3;;
    syscall 10;; store_result 2;;
    emit_abs2 [0xC7; 0x05] 0x00405000 0xCAFEBABE;;
    movi 0xBB 0x00405000;;
    movi 0xB9 0x1000;;
    syscall 11;; store_result 3;;

    syscall 12;; store_result 4;;
    syscall 13;; store_result 5;;
    movi 0xBB 2;;
    syscall 14;; store_result 6;;
    syscall 13;; store_result 7;;

    movi 0xBB old_name_va;;
    movi 0xB9 11;;
    movi 0xBA (Z.lor (Z.lor (Z.lor OPEN_READ OPEN_WRITE) OPEN_CREATE) OPEN_TRUNCATE);;
    syscall 4;;
    emit_abs [0xA3] (pipe_fds_va + 8);;
    emit [0x89; 0xC3];;
    movi 0xB9 payload_va;;
    movi 0xBA (len payload);;
    syscall 7;; store_result 8;;
    movi 0xB8 6;;
    emit_abs [0x8B; 0x1D] (pipe_fds_va + 8);;
    emit [0xCD; 0x80];;
    movi 0xBB old_name_va;;
    movi 0xB9 11;;
    movi 0xBA stat_va;;
    syscall 15;; store_result 9;;
    movi 0xBB old_name_va;;
    movi 0xB9 11;;
    movi 0xBA new_name_va;;
    movi 0xBE 11;;
    syscall 16;; store_result 10;;
    movi 0xBB new_name_va;;
    movi 0xB9 11;;
    movi 0xBA stat_va;;
    syscall 15;; store_result 11;;
    movi 0xBB new_name_va;;
    movi 0xB9 11;;
    syscall 17;; store_result 12;;

    movi 0xBB pipe_fds_va;;
    syscall 18;; store_result 13;;
    movi 0xB8 7;;
    emit_abs [0x8B; 0x1D] (pipe_fds_va + 4);;
    movi 0xB9 payload_va;;
    movi 0xBA (len payload);;
    emit [0xCD; 0x80];; store_result 14;;
    movi 0xB8 19;;
    emit_abs [0x8B; 0x1D] pipe_fds_va;;
    emit [0xCD; 0x80];; store_result 15;;
    movi 0xB8 20;;
    emit_abs [0x8B; 0x1D] (pipe_fds_va + 4);;
    movi 0xB9 7;;
    emit [0xCD; 0x80];; store_result 16;;
    movi 0xB8 5;;
    emit_abs [0x8B; 0x1D] (results_va + 15 * 4);;
    movi 0xB9 read_buffer_va;;
    movi 0xBA (len payload);;
    emit [0xCD; 0x80];; store_result 17;;
    each (λ fd_address,
      movi 0xB8 6;;
      emit_abs [0x8B; 0x1D] fd_address;;
      emit [0xCD; 0x80]) [pipe_fds_va; pipe_fds_va + 4];;
    movi 0xB8 6;; movi 0xBB 7;; emit [0xCD; 0x80];;
    movi 0xB8 5;;
    emit_abs [0x8B; 0x1D] (results_va + 15 * 4);;
    movi 0xB9 read_buffer_va;;
    movi 0xBA 1;;
    emit [0xCD; 0x80];; store_result 18;;
    movi 0xB8 6;;
    emit_abs [0x8B; 0x1D] (results_va + 15 * 4);;
    emit [0xCD; 0x80];;

    syscall 2;; store_result 19;;
    emit [0x89; 0xC3];; movi 0xB9 9;;
    syscall 21;; store_result 20;;
    syscall 22;; store_result 21;;
    movi 0xBB 0x00403000;;
    syscall 9;; store_result 22;;
    movi 0xBB 0x66;;
    syscall 3;;
    emit [0xF4]);
  raise_if (old_name_offset <? len code)
    (RuntimeError "SERVICE.ELF code overlaps data: {len(code)}");;
  let segment := zeros (read_buffer_offset + len payload) in
  let segment := put segment 0 code in
  let segment := set_slice segment old_name_offset (old_name_offset + 11) (B "TEMP2   BIN") in
  let segment := set_slice segment new_name_offset (new_name_offset + 11) (B "RENAMED BIN") in
  let segment := put segment payload_offset payload in
  build_elf segment 0x1000.

Definition build_worka_elf : result bytes :=
  let base := 0x00400000 in
  let leaf_name_offset := 0x200 in
  let results_offset := 0x220 in
  let leaf_name_va := base + leaf_name_offset in
  let results_va := base + results_offset in
  let store := store results_va in
  code ← assemble (
    syscall 2;; store 0;;
    syscall 12;; store 1;;
    movi 0xBB leaf_name_va;; movi 0xB9 11;;
    syscall 42;; store 2;;
    syscall 43;; store 3;;
    movi 0xBB 2;;
    syscall 44;; store 4;;
    syscall 12;; store 5;;
    movi 0xBB 0x81;;
    syscall 3;;
    emit [0xF4]);
  raise_if (leaf_name_offset <? len code) (RuntimeError "WORKA.ELF code overlaps data: {len(code)}");;
  let segment := zeros (results_offset + 6 * 4) in
  let segment := put segment 0 code in
  let segment := set_slice segment leaf_name_offset (leaf_name_offset + 11) LEAF_NAME in
  build_elf segment 0x1000.

Definition build_workb_elf : result bytes :=
  let base := 0x00400000 in
  let results_offset := 0x200 in
  let results_va := base + results_offset in
  let store := store results_va in
  code ← assemble (
    syscall 2;; store 0;;
    syscall 12;; store 1;;
    syscall 43;; store 2;;
    movi 0xB9 100000000;;
    spin ← here;
    emit [0x49];;
    jnz_spin ← here;
    emit [0x0F; 0x85; 0x00; 0x00; 0x00; 0x00];;
    patch "<i" (jnz_spin + 2) (spin - (jnz_spin + 6));;
    syscall 22;; store 3;;
    movi 0xBB 0x8F;;
    syscall 3;;
    emit [0xF4]);
  raise_if (results_offset <? len code) (RuntimeError "WORKB.ELF code overlaps data: {len(code)}");;
  let segment := zeros (results_offset + 4 * 4) in
  let segment := put segment 0 code in
  build_elf segment 0x1000.

Definition build_leaf_elf : result bytes :=
  let base := 0x00400000 in
  let results_offset := 0x180 in
  let results_va := base + results_offset in
  let store := store results_va in
  code ← assemble (
    syscall 2;; store 0;;
    syscall 12;; store 1;;
    each (λ index,
      movi 0xBB 20;;
      syscall 44;; store (2 + index)) (range 0 10);;
    syscall 12;; store 12;;
    movi 0xBB 0x83;;
    syscall 3;;
    emit [0xF4]);
  raise_if (results_offset <? len code) (RuntimeError "LEAF.ELF code overlaps data: {len(code)}");;
  let segment := zeros (results_offset + 13 * 4) in
  let segment := put segment 0 code in
  build_elf segment 0x1000.

Definition build_async_elf : result bytes :=
  let base := 0x00400000 in
  let worka := 0x600 in
  let workb := 0x610 in
  let missing := 0x620 in
  let results := 0x680 in
  let status_a_poll := 0x740 in
  let status_a_wait := 0x760 in
  let status_b := 0x780 in
  let status_leaf_before := 0x7A0 in
  let info_leaf := 0x7C0 in
  let status_leaf_after := 0x7E0 in
  let scratch := 0x800 in
  let results_va := base + results in
  let store := store results_va in
  let load_result_ebx index := emit_abs [0x8B; 0x1D] (results_va + index * 4) in
  code ← assemble (
    movi 0xBB (base + worka);; movi 0xB9 11;;
    syscall 42;; store 0;;
    movi 0xBB (base + workb);; movi 0xB9 11;;
    syscall 42;; store 1;;
    emit_abs [0xA1] (results_va + 4);; emit [0x40];;
    store 2;;

    load_result_ebx 0;;
    movi 0xB9 (base + status_a_poll);;
    syscall 45;; store 3;;

    movi 0xBB (base + status_a_wait);;
    syscall 47;; store 4;;

    load_result_ebx 2;;
    movi 0xB9 (base + info_leaf);;
    syscall 31;; store 5;;
    load_result_ebx 2;;
    movi 0xB9 (base + status_leaf_before);;
    syscall 45;; store 6;;

    load_result_ebx 1;;
    movi 0xB9 15;;
    syscall 21;; store 7;;
    load_result_ebx 1;;
    movi 0xB9 (base + status_b);;
    syscall 46;; store 8;;

    syscall 48;; store 9;;
    load_result_ebx 2;;
    movi 0xB9 (base + status_leaf_after);;
    syscall 45;; store 10;;

    load_result_ebx 0;;
    movi 0xB9 (base + scratch);;
    syscall 46;; store 11;;
    movi 0xBB (base + scratch);;
    syscall 47;; store 12;;

    movi 0xBB (base + missing);; movi 0xB9 11;;
    syscall 42;; store 13;;
    movi 0xBB 0xFFFF;; movi 0xB9 (base + scratch);;
    syscall 45;; store 14;;

    syscall 2;; store 15;;
    syscall 12;; store 16;;
    movi 0xBB 0x73;;
    syscall 3;;
    emit [0xF4]);
  raise_if (worka <? len code) (RuntimeError "ASYNC.ELF code overlaps data: {len(code)}");;
  let segment := zeros (scratch + 32) in
  let segment := put segment 0 code in
  let segment := set_slice segment worka (worka + 11) WORKA_NAME in
  let segment := set_slice segment workb (workb + 11) WORKB_NAME in
  let segment := set_slice segment missing (missing + 11) (B "MISSING ELF") in
  build_elf segment 0x1000.

Definition build_reuse_elf : result bytes :=
  let base := 0x00400000 in
  let results_offset := 0x180 in
  let results_va := base + results_offset in
  let store := store results_va in
  code ← assemble (
    syscall 52;; store 0;;
    syscall 2;; store 1;;
    syscall 12;; store 2;;
    syscall 22;; store 3;;
    syscall 43;; store 4;;
    movi 0xBB 1;;
    syscall 44;; store 5;;
    movi 0xBB 0x90;;
    syscall 3;;
    emit [0xF4]);
  raise_if (results_offset <? len code) (RuntimeError "REUSE.ELF code overlaps data: {len(code)}");;
  let segment := zeros (results_offset + 6 * 4) in
  let segment := put segment 0 code in
  build_elf segment 0x1000.

Definition build_exec_elf (exit_code sleep_ticks : Z) : result bytes :=
  let base := 0x00400000 in
  let results_offset := 0x180 in
  let results_va := base + results_offset in
  let store := store results_va in
  code ← assemble (
    syscall 52;; store 0;;
    syscall 2;; store 1;;
    syscall 12;; store 2;;
    movi 0xBB 0;;
    syscall 29;; store 3;;
    movi 0xBB sleep_ticks;;
    syscall 44;; store 4;;
    movi 0xBB exit_code;;
    syscall 3;;
    emit [0xF4]);
  raise_if (results_offset <? len code) (RuntimeError "exec workload overlaps data: {len(code)}");;
  let segment := zeros (results_offset + 5 * 4) in
  let segment := put segment 0 code in
  build_elf segment 0x1000.

Definition build_forker_elf : result bytes :=
  let base := 0x00400000 in
  let hello := 0x300 in
  let missing := 0x310 in
  let execa := 0x320 in
  let execb := 0x330 in
  let pipe := 0x340 in
  let results := 0x360 in
  let results_va := base + results in
  let store := store results_va in
  code ← assemble (
    movi 0xBB (base + hello);; movi 0xB9 11;; movi 0xBA OPEN_READ;;
    syscall 4;; store 0;;
    movi 0xBB (base + hello);; movi 0xB9 11;; movi 0xBA (Z.lor OPEN_READ OPEN_CLOEXEC);;
    syscall 4;; store 1;;
    movi 0xBB (base + pipe);;
    syscall 18;; store 2;;
    syscall 50;; store 3;;
    emit [0x85; 0xC0];;
    child_jump ← here;
    emit [0x0F; 0x84; 0x00; 0x00; 0x00; 0x00];;

    (* Parent branch: failed exec must leave the image intact, then EXECA
       replaces it. *)
    movi 0xBB (base + missing);; movi 0xB9 11;;
    syscall 51;; store 4;;
    movi 0xBB (base + execa);; movi 0xB9 11;;
    syscall 51;;
    emit [0xF4];;

    child_target ← here;
    patch "<i" (child_jump + 2) (child_target - (child_jump + 6));;
    (* Child branch: same atomic failure proof, then a different replacement
       image. *)
    movi 0xBB (base + missing);; movi 0xB9 11;;
    syscall 51;; store 5;;
    movi 0xBB (base + execb);; movi 0xB9 11;;
    syscall 51;;
    emit [0xF4]);
  raise_if (hello <? len code) (RuntimeError "FORKER.ELF code overlaps data: {len(code)}");;
  let segment := zeros (results + 6 * 4) in
  let segment := put segment 0 code in
  let segment := set_slice segment hello (hello + 11) HELLO_NAME in
  let segment := set_slice segment missing (missing + 11) (B "MISSING ELF") in
  let segment := set_slice segment execa (execa + 11) EXECA_NAME in
  let segment := set_slice segment execb (execb + 11) EXECB_NAME in
  build_elf segment 0x1000.

Definition build_genrun_elf : result bytes :=
  let base := 0x00400000 in
  let reuse := 0x700 in
  let forker := 0x710 in
  let fault := 0x720 in
  let missing := 0x730 in
  let results := 0x800 in
  let status := 0xA00 in
  let results_va := base + results in
  let status_va := base + status in
  let store := store results_va in
  let load_handle index := emit_abs [0x8B; 0x1D] (results_va + index * 4) in
  let spawn name_offset result_index :=
    movi 0xBB (base + name_offset);;
    movi 0xB9 11;;
    syscall 49;; store result_index in
  code ← assemble (
    syscall 2;; store 0;;
    syscall 12;; store 1;;
    syscall 52;; store 2;;  (* outer synchronous parent has no task handle *)

    (* Six sequential generations all reuse slot zero. *)
    each (λ generation,
      let handle_index := 3 + generation in
      let poll_index := 9 + generation in
      let wait_index := 15 + generation in
      spawn reuse handle_index;;
      load_handle handle_index;; movi 0xB9 status_va;; syscall 53;; store poll_index;;
      (if generation =? 2 then
         load_handle handle_index;; movi 0xB9 7;; syscall 55;; store 21
       else mret tt);;
      load_handle handle_index;; movi 0xB9 status_va;; syscall 54;; store wait_index;;
      (if generation =? 0 then
         load_handle handle_index;; movi 0xB9 status_va;; syscall 53;; store 22
       else mret tt);;
      (if generation =? 5 then
         load_handle handle_index;; movi 0xB9 status_va;; syscall 53;; store 23
       else mret tt)) (range 0 6);;

    spawn missing 24;;
    spawn forker 25;;
    load_handle 25;; movi 0xB9 status_va;; syscall 54;; store 26;;
    syscall 48;; store 27;;
    load_handle 25;; movi 0xB9 status_va;; syscall 53;; store 28;;

    spawn fault 29;;
    load_handle 29;; movi 0xB9 status_va;; syscall 54;; store 30;;
    load_handle 29;; movi 0xB9 9;; syscall 55;; store 31;;
    load_handle 29;; movi 0xB9 status_va;; syscall 54;; store 32;;

    spawn reuse 33;;
    load_handle 33;; movi 0xB9 status_va;; syscall 54;; store 34;;
    syscall 2;; store 35;;
    syscall 12;; store 36;;
    movi 0xBB 0x74;;
    syscall 3;;
    emit [0xF4]);
  raise_if (reuse <? len code) (RuntimeError "GENRUN.ELF code overlaps data: {len(code)}");;
  let segment := zeros (status + 48) in
  let segment := put segment 0 code in
  let segment := set_slice segment reuse (reuse + 11) REUSE_NAME in
  let segment := set_slice segment forker (forker + 11) FORKER_NAME in
  let segment := set_slice segment fault (fault + 11) FAULT_NAME in
  let segment := set_slice segment missing (missing + 11) (B "MISSING ELF") in
  build_elf segment 0x1000.

(** The keys [strings] and [offsets] of [build_paths_elf] share: the path of
    each key and its offset. *)
Definition paths_strings : list (Z * bytes) := [
  (0x600, B "/"); (0x610, B "/HOME"); (0x620, B "DOCS"); (0x630, B "./DOCS");
  (0x640, B "../EMPTY"); (0x650, B "TEMP.BIN"); (0x660, B "./TEMP.BIN");
  (0x670, B "../MOVED.BIN"); (0x680, B "ARCHIVE"); (0x690, B "MOVED.BIN");
  (0x6A0, B "ARCHIVE/LOG.TXT"); (0x6B0, B "RENAMED.BIN"); (0x6C0, B "DOCS/SCRATCH.BIN");
  (0x6D8, B "DOCS/REUSE.BIN"); (0x6F0, B "/HOME//ARCHIVE///LOG.TXT")].

Definition build_paths_elf : result bytes :=
  let base := 0x00400000 in
  let root := (0x600, B "/") in
  let home := (0x610, B "/HOME") in
  let docs := (0x620, B "DOCS") in
  let dot_docs := (0x630, B "./DOCS") in
  let empty := (0x640, B "../EMPTY") in
  let temp := (0x650, B "TEMP.BIN") in
  let dot_temp := (0x660, B "./TEMP.BIN") in
  let moved_up := (0x670, B "../MOVED.BIN") in
  let archive := (0x680, B "ARCHIVE") in
  let moved := (0x690, B "MOVED.BIN") in
  let log_target := (0x6A0, B "ARCHIVE/LOG.TXT") in
  let renamed := (0x6B0, B "RENAMED.BIN") in
  let scratch := (0x6C0, B "DOCS/SCRATCH.BIN") in
  let reuse := (0x6D8, B "DOCS/REUSE.BIN") in
  let log_abs := (0x6F0, B "/HOME//ARCHIVE///LOG.TXT") in
  let results := 0x740 in
  let cwd0 := 0x7C0 in
  let cwd1 := 0x7F0 in
  let cwd2 := 0x820 in
  let stat := 0x850 in
  let list0 := 0x880 in
  let list1 := 0x900 in
  let payload_offset := 0xA00 in
  let readback := 0xC60 in
  let payload := map (λ index, Z.land (index * 29 + 7) 0xFF) (range 0 600) in
  let store := store (base + results) in
  let path_args (key : Z * bytes) := movi 0xBB (base + key.1);; movi 0xB9 (len key.2) in
  code ← assemble (
    (* getcwd("/") *)
    movi 0xBB (base + cwd0);; movi 0xB9 48;;
    syscall 32;; store 0;;
    path_args home;; syscall 34;; store 1;;
    path_args home;; syscall 33;; store 2;;
    movi 0xBB (base + cwd1);; movi 0xB9 48;;
    syscall 32;; store 3;;
    path_args docs;; syscall 34;; store 4;;
    path_args dot_docs;; syscall 33;; store 5;;
    movi 0xBB (base + cwd2);; movi 0xB9 48;;
    syscall 32;; store 6;;
    path_args empty;; syscall 34;; store 7;;
    path_args empty;; syscall 35;; store 8;;

    (* Create/truncate and write 600 bytes through a relative path. *)
    path_args temp;;
    movi 0xBA (base + payload_offset);;
    movi 0xBE (len payload);; movi 0xBF 3;;
    syscall 37;; store 9;;
    path_args dot_temp;;
    movi 0xBA (base + stat);;
    syscall 36;; store 10;;
    path_args temp;;
    movi 0xBA (base + readback);; movi 0xBE (len payload);;
    syscall 38;; store 11;;

    (* Cross-directory move to parent, then into a newly created sibling
       directory. *)
    path_args temp;;
    movi 0xBA (base + renamed.1);; movi 0xBE (len renamed.2);;
    syscall 39;; store 12;;
    path_args renamed;;
    movi 0xBA (base + moved_up.1);; movi 0xBE (len moved_up.2);;
    syscall 39;; store 13;;
    path_args empty;; syscall 33;; store 14;;  (* expected failure: EMPTY was removed *)
    path_args root;; syscall 33;; store 15;;
    path_args home;; syscall 33;; store 16;;
    path_args archive;; syscall 34;; store 17;;
    path_args moved;;
    movi 0xBA (base + log_target.1);; movi 0xBE (len log_target.2);;
    syscall 39;; store 18;;
    path_args archive;; syscall 35;; store 19;;  (* expected ENOTEMPTY *)

    (* Enumerate parent and child directories, then read/stat the persistent
       file absolutely. *)
    movi 0xBB (base + home.1);; movi 0xB9 (len home.2);;
    movi 0xBA (base + list0);; movi 0xBE 128;;
    syscall 41;; store 20;;
    path_args archive;;
    movi 0xBA (base + list1);; movi 0xBE 128;;
    syscall 41;; store 21;;
    path_args log_abs;;
    movi 0xBA (base + stat);;
    syscall 36;; store 22;;
    path_args log_abs;;
    movi 0xBA (base + readback);; movi 0xBE (len payload);;
    syscall 38;; store 23;;

    (* Reclaim and first-fit reuse one temporary cluster. *)
    path_args scratch;;
    movi 0xBA (base + payload_offset);; movi 0xBE 1;; movi 0xBF 3;;
    syscall 37;; store 24;;
    path_args scratch;; syscall 40;; store 25;;
    path_args reuse;;
    movi 0xBA (base + payload_offset);; movi 0xBE 1;; movi 0xBF 3;;
    syscall 37;; store 26;;
    path_args reuse;; syscall 40;; store 27;;
    path_args root;; syscall 33;; store 28;;
    movi 0xBB (base + cwd0);; movi 0xB9 48;;
    syscall 32;; store 29;;
    movi 0xBB 0x72;; syscall 3;;
    emit [0xF4]);
  raise_if (root.1 <? len code) (RuntimeError "PATHS.ELF code overlaps data: {len(code)}");;
  let segment := zeros (readback + len payload) in
  let segment := put segment 0 code in
  let segment := foldl (λ segment key, put segment key.1 key.2) segment paths_strings in
  let segment := put segment payload_offset payload in
  build_elf segment 0x1000.

Definition build_child_elf : result bytes :=
  let base := 0x00400000 in
  let patch_offset := 0x200 in
  let results_offset := 0x220 in
  let request_offset := 0x260 in
  let reply_offset := 0x280 in
  let patch_va := base + patch_offset in
  let results_va := base + results_offset in
  let request_va := base + request_offset in
  let reply_va := base + reply_offset in
  let store := store results_va in
  code ← assemble (
    syscall 2;; store 0;;
    syscall 12;; store 1;;
    emit_abs [0x8B; 0x1D] (patch_va + 8);;
    syscall 29;; store 2;;
    syscall 22;; store 3;;
    movi 0xB8 5;;
    emit_abs [0x8B; 0x1D] patch_va;;
    movi 0xB9 request_va;;
    movi 0xBA (len ORCH_REQUEST);;
    emit [0xCD; 0x80];; store 4;;
    movi 0xB8 7;;
    emit_abs [0x8B; 0x1D] (patch_va + 4);;
    movi 0xB9 reply_va;;
    movi 0xBA (len CHILD_REPLY);;
    emit [0xCD; 0x80];; store 5;;
    movi 0xB8 3;; movi 0xBB 0x77;; emit [0xCD; 0x80; 0xF4]);
  raise_if (patch_offset <? len code) (RuntimeError "CHILD.ELF code overlaps patch data: {len(code)}");;
  let segment := zeros (reply_offset + len CHILD_REPLY) in
  let segment := put segment 0 code in
  let segment := put segment reply_offset CHILD_REPLY in
  build_elf segment 0x1000.

Definition build_orch_elf : result bytes :=
  let base := 0x00400000 in
  let child_name_offset := 0x500 in
  let hello_name_offset := 0x510 in
  let request_offset := 0x530 in
  let pipe_fds_offset := 0x550 in
  let file_fd_offset := 0x558 in
  let results_offset := 0x580 in
  let status_offset := 0x620 in
  let info_offset := 0x640 in
  let reply_offset := 0x680 in
  let child_name_va := base + child_name_offset in
  let hello_name_va := base + hello_name_offset in
  let request_va := base + request_offset in
  let pipe_fds_va := base + pipe_fds_offset in
  let file_fd_va := base + file_fd_offset in
  let results_va := base + results_offset in
  let status_va := base + status_offset in
  let info_va := base + info_offset in
  let reply_va := base + reply_offset in
  let store := store results_va in
  code ← assemble (
    movi 0xBB 0;; syscall 9;; store 0;;
    movi 0xBB 0x00405000;; syscall 9;; store 1;;
    emit_abs2 [0xC7; 0x05] 0x00403000 0xDEADBEEF;;
    movi 0xBB 0x00405000;; movi 0xB9 0x1000;; movi 0xBA 3;;
    syscall 10;; store 2;;
    emit_abs2 [0xC7; 0x05] 0x00405000 0xCAFEBABE;;

    movi 0xBB hello_name_va;; movi 0xB9 11;; movi 0xBA (Z.lor OPEN_READ OPEN_CLOEXEC);;
    syscall 4;; store 3;;
    emit_abs [0xA3] file_fd_va;;
    movi 0xBB pipe_fds_va;; syscall 18;; store 4;;
    movi 0xB8 7;;
    emit_abs [0x8B; 0x1D] (pipe_fds_va + 4);;
    movi 0xB9 request_va;; movi 0xBA (len ORCH_REQUEST);;
    emit [0xCD; 0x80];; store 5;;

    syscall 23;; store 6;;
    movi 0xB8 24;;
    emit_abs [0x8B; 0x1D] (results_va + 6 * 4);;
    movi 0xB9 0x00403000;; emit [0xCD; 0x80];; store 7;;
    movi 0xB8 25;;
    emit_abs [0x8B; 0x1D] (results_va + 6 * 4);;
    movi 0xB9 0x00403000;; movi 0xBA 0xAABBCCDD;;
    emit [0xCD; 0x80];; store 8;;
    movi 0xB8 24;;
    emit_abs [0x8B; 0x1D] (results_va + 6 * 4);;
    movi 0xB9 0x00403000;; emit [0xCD; 0x80];; store 9;;
    emit_abs [0xA1] 0x00403000;; store 10;;

    movi 0xB8 28;;
    emit_abs [0x8B; 0x1D] (results_va + 6 * 4);;
    emit [0x89; 0xD9; 0xCD; 0x80];; store 11;;
    movi 0xB8 29;;
    emit_abs [0x8B; 0x1D] (results_va + 6 * 4);;
    emit [0xCD; 0x80];; store 12;;
    movi 0xB8 30;;
    emit_abs [0x8B; 0x1D] (results_va + 6 * 4);;
    movi 0xB9 12;; emit [0xCD; 0x80];; store 13;;

    movi 0xB8 26;;
    emit_abs [0x8B; 0x1D] (results_va + 6 * 4);;
    movi 0xB9 child_name_va;; movi 0xBA 11;;
    emit [0xCD; 0x80];; store 14;;
    movi 0xB8 31;;
    emit_abs [0x8B; 0x1D] (results_va + 6 * 4);;
    movi 0xB9 info_va;; emit [0xCD; 0x80];; store 15;;
    movi 0xB8 27;;
    emit_abs [0x8B; 0x1D] (results_va + 6 * 4);;
    movi 0xB9 status_va;; emit [0xCD; 0x80];; store 16;;

    movi 0xB8 5;;
    emit_abs [0x8B; 0x1D] pipe_fds_va;;
    movi 0xB9 reply_va;; movi 0xBA (len CHILD_REPLY);;
    emit [0xCD; 0x80];; store 17;;
    each (λ fd_va,
      movi 0xB8 6;;
      emit_abs [0x8B; 0x1D] fd_va;;
      emit [0xCD; 0x80];;
      store (18 + (if fd_va =? file_fd_va then 0 else 1)
                + (if fd_va =? pipe_fds_va + 4 then 1 else 0)))
      [file_fd_va; pipe_fds_va; pipe_fds_va + 4];;

    movi 0xBB 0x00405000;; movi 0xB9 0x1000;;
    syscall 11;; store 21;;
    movi 0xBB 0x00403000;; syscall 9;; store 22;;
    movi 0xBB 0x70;; syscall 3;;
    emit [0xF4]);
  raise_if (child_name_offset <? len code) (RuntimeError "ORCH.ELF code overlaps data: {len(code)}");;
  let segment := zeros (reply_offset + len CHILD_REPLY) in
  let segment := put segment 0 code in
  let segment := set_slice segment child_name_offset (child_name_offset + 11) CHILD_NAME in
  let segment := set_slice segment hello_name_offset (hello_name_offset + 11) HELLO_NAME in
  let segment := put segment request_offset ORCH_REQUEST in
  build_elf segment 0x1000.

End LegacyPrograms.
