(* ===== verification/LegacyBios.v ===== *)
(** * The verifier of the legacy disk image

    [scripts/verify-legacy-bios.py]: the FAT12 chain reader, the ELF32 check
    and [main], which compares boot sector, stage 1, kernel and volume with the
    disk image and then checks the volume's boot parameter block, tables, root
    directory and file contents.  [main] is one function of the source; its
    consecutive parts are separate definitions here, run in order by [main].

    Theorems: the reader returns every file of a generated volume
    ([read_chain_of_volume]), is sound on an arbitrary volume
    ([read_chain_sound]), and the generated volume passes every check
    ([generated_volume_verifies]). *)

From S2P Require Import Prelude PyBytes Fat12 LegacyAsm LegacyPrograms LegacyVolume.

Module LegacyBios.
Import Fat12.

Definition BPS : Z := 512.
Definition FAT_LBA : Z := 256.
Definition FAT_SECTORS : Z := 2880.
Definition ROOT_START : Z := 19.
Definition DATA_START : Z := 33.
Definition SPF : Z := 9.

Record expected := Expected {
  expected_cluster : Z; expected_size : Z; expected_hash : Z; expected_chain : list Z }.

Definition EXPECTED : list (bytes * expected) := [
  (B "HELLO   TXT", Expected 2 86 0xA9F660F2 [2]);
  (B "INIT    ELF", Expected 3 423 0x4E34353F [3]);
  (B "CAT     ELF", Expected 4 510 0x9CD11469 [4]);
  (B "BIG     TXT", Expected 5 1300 0xE5D120DF [5; 6; 7]);
  (B "SPINA   ELF", Expected 8 264 0xFD5D48A0 [8]);
  (B "SPINB   ELF", Expected 9 264 0xFD5D48A0 [9]);
  (B "FAULT   ELF", Expected 10 262 0x3A59C4D6 [10]);
  (B "WRITER  ELF", Expected 11 1488 0x267B866B [11; 12; 13]);
  (B "SERVICE ELF", Expected 14 1362 0x7C65C5CE [14; 15; 16]);
  (B "ORCH    ELF", Expected 17 1937 0x11986FD8 [17; 18; 19; 20]);
  (B "CHILD   ELF", Expected 21 913 0x7E1C062C [21; 22]);
  (B "ASYNC   ELF", Expected 23 2336 0x21F68871 [23; 24; 25; 26; 27]);
  (B "WORKA   ELF", Expected 28 824 0xC83AFC14 [28; 29]);
  (B "WORKB   ELF", Expected 30 784 0xCD43E95A [30; 31]);
  (B "LEAF    ELF", Expected 32 692 0x769A282E [32; 33]);
  (B "GENRUN  ELF", Expected 34 2864 0xD84697C0 [34; 35; 36; 37; 38; 39]);
  (B "REUSE   ELF", Expected 40 664 0x30A2BF85 [40; 41]);
  (B "FORKER  ELF", Expected 42 1144 0xADB21589 [42; 43; 44]);
  (B "EXECA   ELF", Expected 45 660 0x8E043930 [45; 46]);
  (B "EXECB   ELF", Expected 47 660 0x21F7AB51 [47; 48]);
  (B "PATHS   ELF", Expected 49 4024 0x38C1C0AD [49; 50; 51; 52; 53; 54; 55; 56])].

(** [fail(message)] when the test holds. *)
Definition fail_if (b : bool) (message : string) : result unit := raise_if b (SystemExit message).

Definition fnv1a32 (data : bytes) : Z :=
  foldl (λ value byte, Z.land (Z.lxor value byte * 0x01000193) 0xFFFFFFFF) 0x811C9DC5 data.

(** ** The chain reader *)

(** The loop of [read_chain], with its own bound [limit]: [result], [chain]
    and [cluster] are the loop's variables. *)
Fixpoint chain_loop (limit : nat) (volume fat : bytes) (size cluster : Z) (result : bytes)
    (chain : list Z) : Prelude.result (bytes * list Z) :=
  match limit with
  | O => Err (SystemExit "FAT12 chain loop")
  | Datatypes.S limit =>
      if len result <? size then
        fail_if ((cluster <? 2) || (0xFF0 <=? cluster)) "invalid FAT12 data cluster {cluster:#x}";;
        let chain := chain ++ [cluster] in
        let offset := (DATA_START + cluster - 2) * BPS in
        let result := result ++ slice volume offset (offset + BPS) in
        nxt ← fat_entry fat cluster;
        if size <=? len result then
          fail_if (nxt <? 0xFF8) "file chain does not terminate at cluster {cluster}: {nxt:#x}";;
          Ok (slice result 0 size, chain)
        else
          fail_if (0xFF8 <=? nxt) "file chain ended early at cluster {cluster}";;
          chain_loop limit volume fat size nxt result chain
      else Ok (slice result 0 size, chain)
  end.

Definition read_chain (volume : bytes) (first size : Z) : result (bytes * list Z) :=
  let fat := slice volume BPS ((1 + SPF) * BPS) in
  chain_loop (Z.to_nat FAT_SECTORS) volume fat size first [] [].

(** ** [verify_elf] *)

Definition verify_elf (name data : bytes) : result unit :=
  label ← decode_ascii name;
  fail_if ((len data <? 84) || negb (beq (slice data 0 4) ([0x7f] ++ B "ELF")))
    "{label} ELF identity invalid";;
  fail_if (negb (beq (slice data 4 7) [0x01; 0x01; 0x01])) "{label} ELF class/data/version invalid";;
  e_type ← unpack_int "<H" data 16;
  e_machine ← unpack_int "<H" data 18;
  fail_if (negb (e_type =? 2) || negb (e_machine =? 3)) "{label} ELF type/machine invalid";;
  e_entry ← unpack_int "<I" data 24;
  fail_if (negb (e_entry =? 0x00400000)) "{label} entry invalid";;
  e_phoff ← unpack_int "<I" data 28;
  fail_if (negb (e_phoff =? 52)) "{label} program-header offset invalid";;
  e_phentsize ← unpack_int "<H" data 42;
  e_phnum ← unpack_int "<H" data 44;
  fail_if (negb (e_phentsize =? 32) || negb (e_phnum =? 1)) "{label} program-header geometry invalid";;
  ph ← unpack_ints "<IIIIIIII" data 52;
  match ph with
  | [p_type; p_offset; p_vaddr; _; p_filesz; p_memsz; p_flags; _] =>
      fail_if (negb (p_type =? 1) || negb (p_offset =? 0x100) || negb (p_vaddr =? 0x00400000))
        "{label} PT_LOAD identity invalid";;
      fail_if (negb (p_offset + p_filesz =? len data) || (p_memsz <? p_filesz) || (4096 <? p_memsz)
               || negb (p_flags =? 5))
        "{label} PT_LOAD bounds/flags invalid"
  | _ => Err (ValueError "unpack")
  end.

(** ** [main], part by part *)

(** Sizes of the inputs, and the disk image against them. *)
Definition verify_image (boot stage1 kernel volume image : bytes) : result unit :=
  fail_if (negb (len boot =? 512) || negb (beq (slice boot 510 512) [0x55; 0xAA]))
    "stage0 size/signature invalid";;
  fail_if (negb (len stage1 =? 4096)) "stage1 must be exactly 4096 bytes";;
  fail_if (negb ((0 <? len kernel) && (len kernel <=? 247 * BPS))) "kernel payload size invalid";;
  fail_if (negb (len volume =? FAT_SECTORS * BPS)) "FAT12 volume size invalid";;
  fail_if (negb (len image =? 2 * 1024 * 1024)) "disk image size invalid";;
  fail_if (negb (beq (slice boot 0 446) (slice image 0 446))
           || negb (beq (slice boot 462 510) (slice image 462 510))
           || negb (beq (slice image 510 512) [0x55; 0xAA])) "stage0/MBR bytes differ";;
  fail_if (negb (beq (slice image BPS (9 * BPS)) stage1)) "stage1 image bytes differ";;
  fail_if (negb (beq (slice image (9 * BPS) (9 * BPS + len kernel)) kernel)) "kernel image bytes differ";;
  let fat_offset := FAT_LBA * BPS in
  fail_if (negb (beq (slice image fat_offset (fat_offset + len volume)) volume))
    "FAT12 volume bytes differ from disk".

Definition verify_partition (image : bytes) : result unit :=
  let partition := 446 in
  kind ← get_item image (partition + 4);
  fail_if (negb (kind =? 0x01)) "partition is not FAT12 type 0x01";;
  lba ← unpack_int "<I" image (partition + 8);
  fail_if (negb (lba =? FAT_LBA)) "partition LBA invalid";;
  sectors ← unpack_int "<I" image (partition + 12);
  fail_if (negb (sectors =? FAT_SECTORS)) "partition sector count invalid".

(** The boot parameter block and the two tables. *)
Definition verify_bpb (volume : bytes) : result unit :=
  fail_if (negb (beq (slice volume 510 512) [0x55; 0xAA])) "FAT12 boot signature invalid";;
  bps ← unpack_int "<H" volume 11;
  spc ← get_item volume 13;
  reserved ← unpack_int "<H" volume 14;
  fats ← get_item volume 16;
  root ← unpack_int "<H" volume 17;
  total ← unpack_int "<H" volume 19;
  spf ← unpack_int "<H" volume 22;
  hidden ← unpack_int "<I" volume 28;
  fail_if (negb (beq [bps; spc; reserved; fats; root; total; spf; hidden]
                     [512; 1; 1; 2; 224; 2880; 9; 256])) "FAT12 BPB invalid: {bpb}";;
  let fat1 := slice volume BPS ((1 + SPF) * BPS) in
  let fat2 := slice volume ((1 + SPF) * BPS) ((1 + 2 * SPF) * BPS) in
  fail_if (negb (beq fat1 fat2) || negb (beq (slice fat1 0 3) [0xF0; 0xFF; 0xFF]))
    "FAT12 copies/reserved entries invalid".

(** One iteration of the loop over [EXPECTED]. *)
Definition verify_root_entry (volume : bytes) (item : Z * (bytes * expected)) : result unit :=
  let '(index, (name, Expected expected_cluster expected_size expected_hash expected_chain)) := item in
  let root_offset := ROOT_START * BPS in
  let offset := root_offset + index * 32 in
  let actual_name := slice volume offset (offset + 11) in
  attributes ← get_item volume (offset + 11);
  cluster ← unpack_int "<H" volume (offset + 26);
  size ← unpack_int "<I" volume (offset + 28);
  fail_if (negb (beq actual_name name) || negb (attributes =? 0x20)
           || negb (cluster =? expected_cluster) || negb (size =? expected_size))
    "root entry {index} invalid for {name!r}";;
  '(data, chain) ← read_chain volume cluster size;
  fail_if (negb (beq chain expected_chain)) "chain mismatch for {name!r}: {chain}";;
  fail_if (negb (fnv1a32 data =? expected_hash)) "hash mismatch for {name!r}: {fnv1a32(data):08X}";;
  if ends_with name (B "ELF") then verify_elf name data else Ok tt.

Definition verify_root (volume : bytes) : result unit :=
  forM_ (verify_root_entry volume) (enumerate EXPECTED);;
  let root_offset := ROOT_START * BPS in
  let notes_slot := root_offset + len EXPECTED * 32 in
  notes ← get_item volume notes_slot;
  fail_if (negb (notes =? 0)) "initial NOTES.TXT root slot is not free";;
  let fat1 := slice volume BPS ((1 + SPF) * BPS) in
  forM_ (λ cluster,
    value ← fat_entry fat1 cluster;
    fail_if (negb (value =? 0)) "runtime-reserved cluster {cluster} is not initially free")
    (range 57 64).

(** [l[a:b] != s] *)
Definition differs (l : bytes) (a b : Z) (s : bytes) : bool := negb (beq (slice l a b) s).

(** The instruction bytes [mov eax, n; int 0x80]. *)
Definition call (n : Z) : bytes := [0xB8; n; 0x00; 0x00; 0x00; 0xCD; 0x80].

(** Contents checked file by file: HELLO to CHILD. *)
Definition verify_contents_1 (volume : bytes) : result unit :=
  '(hello, _) ← read_chain volume 2 86;
  fail_if (negb (beq hello (B "ZigOs legacy FAT12 filesystem is online." ++ CRLF ++
                            B "Loaded through ATA PIO by the i686 kernel." ++ CRLF)))
    "HELLO.TXT content invalid";;
  '(cat, _) ← read_chain volume 4 510;
  fail_if (differs cat 0x190 0x19B (B "HELLO   TXT")) "CAT.ELF embedded filename invalid";;
  '(writer, _) ← read_chain volume 11 1488;
  fail_if (differs writer 0x280 0x28B (B "NOTES   TXT")) "WRITER.ELF embedded filename invalid";;
  '(service, _) ← read_chain volume 14 1362;
  fail_if (differs service 0x450 0x45B (B "TEMP2   BIN")
           || differs service 0x460 0x46B (B "RENAMED BIN"))
    "SERVICE.ELF embedded namespace names invalid";;
  fail_if (differs service 0x480 0x492 (B "SERVICE-PIPE-OK!" ++ CRLF))
    "SERVICE.ELF embedded payload invalid";;
  '(orch, _) ← read_chain volume 17 1937;
  fail_if (differs orch 0x600 0x60B (B "CHILD   ELF") || differs orch 0x610 0x61B (B "HELLO   TXT"))
    "ORCH.ELF embedded filenames invalid";;
  fail_if (differs orch 0x630 0x641 (B "PARENT-TO-CHILD" ++ CRLF))
    "ORCH.ELF embedded request invalid";;
  '(child, _) ← read_chain volume 21 913;
  fail_if (differs child 0x380 0x391 (B "CHILD-TO-PARENT" ++ CRLF)) "CHILD.ELF embedded reply invalid".

(** ASYNC to LEAF. *)
Definition verify_contents_2 (volume : bytes) : result unit :=
  '(async_parent, _) ← read_chain volume 23 2336;
  fail_if (differs async_parent 0x700 0x70B (B "WORKA   ELF")
           || differs async_parent 0x710 0x71B (B "WORKB   ELF")) "ASYNC.ELF worker names invalid";;
  fail_if (differs async_parent 0x720 0x72B (B "MISSING ELF")) "ASYNC.ELF rejection name invalid";;
  fail_if (negb (count async_parent (call 0x2A) =? 3)) "ASYNC.ELF spawn syscall sequence invalid";;
  '(worka, _) ← read_chain volume 28 824;
  fail_if (differs worka 0x300 0x30B (B "LEAF    ELF")) "WORKA.ELF leaf name invalid";;
  fail_if (negb (count worka (call 0x2B) =? 1)) "WORKA.ELF yield syscall invalid";;
  '(workb, _) ← read_chain volume 30 784;
  bound ← pack "<I" [VI 100000000];
  fail_if (negb (contains workb bound)) "WORKB.ELF preemption loop bound invalid";;
  fail_if (negb (count workb (call 0x16) =? 1)) "WORKB.ELF signal consume invalid";;
  '(leaf, _) ← read_chain volume 32 692;
  fail_if (negb (count leaf [0xBB; 0x14; 0x00; 0x00; 0x00] =? 10) || negb (count leaf (call 0x2C) =? 10))
    "LEAF.ELF bounded sleep sequence invalid".

(** GENRUN to EXECB. *)
Definition verify_contents_3 (volume : bytes) : result unit :=
  '(genrun, _) ← read_chain volume 34 2864;
  fail_if (differs genrun 0x800 0x80B (B "REUSE   ELF") || differs genrun 0x810 0x81B (B "FORKER  ELF"))
    "GENRUN.ELF reusable/forker names invalid";;
  fail_if (differs genrun 0x820 0x82B (B "FAULT   ELF") || differs genrun 0x830 0x83B (B "MISSING ELF"))
    "GENRUN.ELF fault/rejection names invalid";;
  fail_if (negb (count genrun (call 0x31) =? 10)) "GENRUN.ELF handle-spawn sequence invalid";;
  fail_if (negb (count genrun (call 0x35) =? 9)) "GENRUN.ELF handle-poll sequence invalid";;
  fail_if (negb (count genrun (call 0x36) =? 10)) "GENRUN.ELF handle-wait sequence invalid";;
  fail_if (negb (count genrun (call 0x37) =? 2)) "GENRUN.ELF handle-signal sequence invalid";;
  '(reuse, _) ← read_chain volume 40 664;
  fail_if (negb (count reuse (call 0x34) =? 1)) "REUSE.ELF current-handle call invalid";;
  fail_if (negb (count reuse (call 0x2B) =? 1) || negb (count reuse (call 0x2C) =? 1))
    "REUSE.ELF yield/sleep sequence invalid";;
  '(forker, _) ← read_chain volume 42 1144;
  fail_if (differs forker 0x400 0x40B (B "HELLO   TXT") || differs forker 0x410 0x41B (B "MISSING ELF"))
    "FORKER.ELF inherited/rejection names invalid";;
  fail_if (differs forker 0x420 0x42B (B "EXECA   ELF") || differs forker 0x430 0x43B (B "EXECB   ELF"))
    "FORKER.ELF replacement names invalid";;
  fail_if (negb (count forker (call 0x32) =? 1)) "FORKER.ELF fork-current sequence invalid";;
  fail_if (negb (count forker (call 0x33) =? 4)) "FORKER.ELF atomic exec sequence invalid";;
  '(execa, _) ← read_chain volume 45 660;
  '(execb, _) ← read_chain volume 47 660;
  fail_if (negb (contains execa [0xBB; 0xA1; 0x00; 0x00; 0x00])
           || negb (contains execa [0xBB; 0x01; 0x00; 0x00; 0x00])) "EXECA.ELF exit/sleep contract invalid";;
  fail_if (negb (contains execb [0xBB; 0xB2; 0x00; 0x00; 0x00])
           || negb (contains execb [0xBB; 0x05; 0x00; 0x00; 0x00])) "EXECB.ELF exit/sleep contract invalid".

Definition verify_contents_4 (volume : bytes) : result unit :=
  '(paths, _) ← read_chain volume 49 4024;
  fail_if (differs paths 0x700 0x701 (B "/") || differs paths 0x710 0x715 (B "/HOME")
           || differs paths 0x720 0x724 (B "DOCS")) "PATHS.ELF root/home/docs strings invalid";;
  fail_if (differs paths 0x730 0x736 (B "./DOCS") || differs paths 0x740 0x748 (B "../EMPTY"))
    "PATHS.ELF relative path strings invalid";;
  fail_if (differs paths 0x750 0x758 (B "TEMP.BIN") || differs paths 0x770 0x77C (B "../MOVED.BIN"))
    "PATHS.ELF move source/target strings invalid";;
  fail_if (differs paths 0x7B0 0x7BB (B "RENAMED.BIN")) "PATHS.ELF same-directory rename string invalid";;
  fail_if (differs paths 0x780 0x787 (B "ARCHIVE") || differs paths 0x7A0 0x7AF (B "ARCHIVE/LOG.TXT"))
    "PATHS.ELF archive strings invalid";;
  fail_if (differs paths 0x7F0 0x808 (B "/HOME//ARCHIVE///LOG.TXT")) "PATHS.ELF absolute log path invalid";;
  let path_payload := slice paths 0xB00 (0xB00 + 600) in
  fail_if (negb (fnv1a32 path_payload =? 0x36F73195)) "PATHS.ELF embedded payload invalid".

(** The kernel's sectors; the result is the sector count, the printed
    checksum and the last LBA. *)
Definition verify_kernel (kernel image : bytes) : result (Z * Z * Z) :=
  let kernel_sectors := ceil_div (len kernel) BPS in
  let padded := kernel ++ zeros (kernel_sectors * BPS - len kernel) in
  total ← foldM (λ sum k, w ← unpack_int "<H" padded (2 * k); Ok (sum + w)) 0
            (range 0 (ceil_div (len padded) 2));
  let checksum := Z.land total 0xFFFF in
  let kernel_end_lba := 9 + kernel_sectors - 1 in
  fail_if (FAT_LBA <=? kernel_end_lba) "kernel overlaps FAT12 partition";;
  fail_if (any (slice image ((9 + kernel_sectors) * BPS) (FAT_LBA * BPS)))
    "protected kernel/FAT gap is not zero";;
  Ok (kernel_sectors, checksum, kernel_end_lba).

(** The checks that depend on the volume alone. *)
Definition verify_volume (volume : bytes) : result unit :=
  verify_bpb volume;;
  verify_root volume;;
  verify_contents_1 volume;;
  verify_contents_2 volume;;
  verify_contents_3 volume;;
  verify_contents_4 volume.

(** [main] on the contents of [--boot], [--stage1], [--kernel], [--fat] and
    [--image]. *)
Definition main (boot stage1 kernel volume image : bytes) : result (Z * Z * Z) :=
  verify_image boot stage1 kernel volume image;;
  verify_partition image;;
  verify_volume volume;;
  verify_kernel kernel image.

(** ** The chain reader on a generated volume *)

Lemma fail_if_false b m : b = false → fail_if b m = Ok tt.
Proof. by intros ->. Qed.

Section of_volume.
Context (files : list (bytes * bytes)) (hidden : Z) (vol : bytes).
Context (Hvol : LegacyVolume.volume_spec files hidden vol) (Hfit : LegacyVolume.files_fit files).
Context (k : nat) (name data : bytes) (Hk : files !! k = Some (name, data)).
Let s := LegacyVolume.start files k.
Let n := LegacyVolume.cluster_count data.

Lemma chain_bounds : 2 ≤ s ∧ 1 ≤ n ∧ s + n ≤ 2849 ∧ len data ≤ n * 512.
Proof using Hfit Hk.
  pose proof (LegacyVolume.start_bound _ _ _ Hk) as [Hs Hm]. simpl in Hm. fold s n in Hs, Hm.
  pose proof (LegacyVolume.cluster_count_bounds data) as (Hc & Hl & _). fold n in Hc, Hl.
  pose proof (LegacyVolume.fit_data _ Hfit). unfold LegacyVolume.TOTAL, LegacyVolume.DATA_START,
    LegacyVolume.BPS in *. lia.
Qed.

(** The loop from its iteration number [i] on. *)
Lemma chain_loop_of_file limit i :
  0 ≤ i < n → (Z.to_nat (n - i) ≤ limit)%nat → 0 < len data →
  chain_loop limit vol (slice vol BPS ((1 + SPF) * BPS)) (len data) (s + i)
    (slice data 0 (i * BPS)) (range s (s + i)) = Ok (data, range s (s + n)).
Proof using Hvol Hfit Hk.
  pose proof chain_bounds as (Hs & Hn & Hmax & Hlen).
  pose proof (LegacyVolume.cluster_count_bounds data) as (_ & _ & Hlast). fold n in Hlast.
  revert i. induction limit as [|limit IH]; intros i Hi Hlim Hpos; [lia|].
  specialize (Hlast Hpos). unfold LegacyVolume.BPS, BPS in *. cbn [chain_loop].
  rewrite (proj2 (Z.ltb_lt _ _)) by (rewrite len_slice by lia; lia).
  rewrite fail_if_false by lia. cbn [mbind result_bind].
  pose proof (LegacyVolume.spec_data _ _ _ Hvol (s + i)) as Hsec.
  rewrite (LegacyVolume.sector_value_in _ _ _ _ Hk) in Hsec by (simpl; fold s n; lia).
  fold s in Hsec. unfold LegacyVolume.TOTAL, LegacyVolume.DATA_START, LegacyVolume.BPS in Hsec.
  simpl in Hsec. unfold DATA_START, BPS.
  replace ((33 + (s + i) - 2) * 512 + 512) with ((33 + (s + i) - 1) * 512) by lia.
  rewrite Hsec by lia. replace (s + i - s) with i by lia.
  pose proof (LegacyVolume.spec_table _ _ _ Hvol (s + i)) as Hent.
  unfold LegacyVolume.SPF, LegacyVolume.BPS in Hent. unfold SPF, BPS. rewrite Hent by lia.
  rewrite (LegacyVolume.table_value_in _ _ _ _ Hk) by (simpl; fold s n; lia).
  fold s. simpl. fold n. rewrite <-range_snoc by lia. unfold LegacyVolume.pad.
  destruct (Z.ltb_spec (s + i + 1) (s + n)) as [Hmore|Hend].
  - rewrite !(len_slice data (i * 512)), (zeros_nonpos (512 - _)), app_nil_r by lia.
    rewrite slice_app_join by lia. rewrite len_slice by lia.
    rewrite (proj2 (Z.leb_gt _ _)) by lia. rewrite fail_if_false by lia. cbn [mbind result_bind].
    rewrite <-!Z.add_assoc. apply IH; lia.
  - rewrite app_assoc, slice_app_join by lia. rewrite (slice_ge data) by lia.
    set (z := zeros _). pose proof (len_nonneg z).
    rewrite (proj2 (Z.leb_le _ (len (data ++ z)))) by (rewrite len_app; lia).
    simpl. rewrite slice_app_l by lia. rewrite slice_full by done. f_equal. f_equal. f_equal. lia.
Qed.

Lemma read_chain_file :
  0 < len data → read_chain vol s (len data) = Ok (data, range s (s + n)).
Proof using Hvol Hfit Hk.
  intros Hpos. pose proof chain_bounds as (Hs & Hn & Hmax & _).
  pose proof (chain_loop_of_file (Z.to_nat FAT_SECTORS) 0) as H.
  change (0 * BPS) with 0 in H. rewrite Z.add_0_r, range_empty, (slice_empty data) in H by lia.
  unfold read_chain. rewrite H by (unfold FAT_SECTORS; lia). done.
Qed.
End of_volume.

(** ** The chain reader on an arbitrary volume *)

(** The data sector of a cluster, as far as the volume reaches. *)
Definition sector (volume : bytes) (cluster : Z) : bytes :=
  slice volume ((DATA_START + cluster - 2) * BPS) ((DATA_START + cluster - 2) * BPS + BPS).

(** A chain of clusters from 2 to 0xFEF that follows the table from [first] to an
    end-of-chain mark. *)
Fixpoint linked (fat : bytes) (first : Z) (chain : list Z) : Prop :=
  match chain with
  | [] => True
  | c :: rest =>
      c = first ∧ 2 ≤ c < 0xFF0 ∧ ∃ nxt, fat_entry fat c = Ok nxt ∧
        match rest with [] => 0xFF8 ≤ nxt | _ => nxt < 0xFF8 ∧ linked fat nxt rest end
  end.

Lemma linked_functional fat first a b :
  a ≠ [] → b ≠ [] → linked fat first a → linked fat first b → a = b.
Proof.
  revert first b. induction a as [|x a IH]; intros first [|y b] Ha Hb; [done..|].
  simpl. intros (-> & _ & n1 & E1 & H1) (-> & _ & n2 & E2 & H2). rewrite E1 in E2.
  injection E2 as <-. f_equal. destruct a, b; [done|lia|lia|].
  destruct H1 as [_ H1], H2 as [_ H2]. by apply (IH n1).
Qed.

Lemma linked_suffix fat first l c r : linked fat first (l ++ c :: r) → linked fat c (c :: r).
Proof.
  revert first. induction l as [|x l IH]; intros first H.
  - simpl in H. destruct H as (-> & H). simpl. done.
  - simpl in H. destruct H as (_ & _ & n & _ & H). apply (IH n). destruct l; apply H.
Qed.

(** A chain that follows the table to its end visits no cluster twice. *)
Lemma linked_NoDup fat first chain : linked fat first chain → NoDup chain.
Proof.
  revert first. induction chain as [|c rest IH]; intros first H; [constructor|].
  constructor.
  - intros (l1 & l2 & ->)%list_elem_of_split.
    pose proof (linked_suffix fat first (c :: l1) c l2 H) as H2.
    assert (linked fat c (c :: l1 ++ c :: l2)) as H1 by (exact (linked_suffix fat first [] _ _ H)).
    assert (c :: l1 ++ c :: l2 = c :: l2) as E by (by eapply linked_functional).
    apply (f_equal length) in E. simpl in E. rewrite length_app in E. simpl in E. lia.
  - simpl in H. destruct H as (_ & _ & n & _ & H). apply (IH n). destruct rest; [done|apply H].
Qed.

Lemma chain_loop_sound limit vol fat size cluster result chain data chain' :
  chain_loop limit vol fat size cluster result chain = Ok (data, chain') →
  ∃ rest, chain' = chain ++ rest ∧ linked fat cluster rest ∧ (length rest ≤ limit)%nat ∧
    size ≤ len (result ++ concat (sector vol <$> rest)) ∧
    (rest = [] ↔ size ≤ len result) ∧
    data = slice (result ++ concat (sector vol <$> rest)) 0 size.
Proof.
  revert cluster result chain. induction limit as [|limit IH]; intros cluster result chain; [done|].
  cbn [chain_loop]. destruct (Z.ltb_spec (len result) size) as [Hlt|Hge].
  2: { intros [= <- <-]. exists []. rewrite !app_nil_r. simpl. split_and!; try done; lia. }
  intros H. unfold fail_if in H. result_inv. to_prop. fold (sector vol cluster) in *.
  destruct (Z.leb_spec size (len (result ++ sector vol cluster))) as [Hdone|Hmore]; result_inv.
  - to_prop. exists [cluster]. simpl. rewrite app_nil_r. split_and!; try done; try lia.
    + eexists. split; [eassumption|lia].
    + split; [done|lia].
  - to_prop. match goal with Hl : chain_loop _ _ _ _ _ _ _ = _ |- _ =>
      apply IH in Hl as (rest & -> & Hlk & Hlen & Hsz & Hnil & ->) end.
    destruct rest as [|c rest]; [destruct Hnil as [Hnil _]; specialize (Hnil eq_refl); lia|].
    exists (cluster :: c :: rest). rewrite <-app_assoc. rewrite !fmap_cons in *. cbn [concat] in *.
    rewrite <-app_assoc in Hsz. rewrite <-app_assoc.
    split_and!; try done; try (simpl in *; lia); [|split; [done|lia]].
    split; [done|]. split; [lia|]. eexists. split; [eassumption|]. split; [lia|done].
Qed.

(** One iteration that takes a sector and goes on, and one that ends. *)
Lemma chain_loop_next limit vol fat size c result chain nxt :
  2 ≤ c < 0xFF0 → fat_entry fat c = Ok nxt → nxt < 0xFF8 →
  len (result ++ sector vol c) < size →
  chain_loop (Datatypes.S limit) vol fat size c result chain =
    chain_loop limit vol fat size nxt (result ++ sector vol c) (chain ++ [c]).
Proof.
  intros Hc Hn Hm Hl. rewrite len_app in Hl. pose proof (len_nonneg (sector vol c)).
  cbn [chain_loop]. fold (sector vol c). rewrite (proj2 (Z.ltb_lt _ _)) by lia.
  rewrite fail_if_false by lia. cbn [mbind result_bind]. rewrite Hn. cbn [mbind result_bind].
  rewrite (proj2 (Z.leb_gt _ _)) by (rewrite len_app; lia).
  by rewrite fail_if_false by lia.
Qed.

Lemma chain_loop_last limit vol fat size c result chain nxt :
  2 ≤ c < 0xFF0 → fat_entry fat c = Ok nxt → 0xFF8 ≤ nxt → len result < size →
  size ≤ len (result ++ sector vol c) →
  chain_loop (Datatypes.S limit) vol fat size c result chain =
    Ok (slice (result ++ sector vol c) 0 size, chain ++ [c]).
Proof.
  intros Hc Hn Hm Hr Hl. cbn [chain_loop]. fold (sector vol c).
  rewrite (proj2 (Z.ltb_lt _ _)) by lia.
  rewrite fail_if_false by lia. cbn [mbind result_bind]. rewrite Hn. cbn [mbind result_bind].
  rewrite (proj2 (Z.leb_le _ _)) by lia. by rewrite fail_if_false by lia.
Qed.

(** ** [verify_elf] *)

(** An image [build_elf] lays out passes the check. *)
Lemma verify_elf_build segment memory name image :
  LegacyAsm.build_elf segment memory = Ok image → len segment ≤ memory → memory ≤ 4096 →
  is_ok (decode_ascii name) = true → verify_elf name image = Ok tt.
Proof.
  intros Hb Hlm Hm Hname. pose proof (len_nonneg segment).
  rewrite LegacyAsm.build_elf_eq in Hb by lia. set (r := zeros 172 ++ segment) in *.
  set (ph := LegacyAsm.elf_phdr (len segment) memory) in *.
  assert (len ph = 32) as Hph.
  { unfold ph, LegacyAsm.elf_phdr. rewrite !len_app, !len_le_bytes by lia. done. }
  assert (len r = 172 + len segment) as Hr.
  { unfold r. rewrite len_app, len_zeros by lia. done. }
  rewrite (app_assoc LegacyAsm.elf_ident) in Hb.
  set (h := LegacyAsm.elf_ident ++ LegacyAsm.elf_header) in *.
  assert (len h = 52) as Hh by done. apply (inj Ok) in Hb as <-.
  unfold verify_elf. destruct (decode_ascii name) as [label|]; [|done].
  cbn [mbind result_bind].
  rewrite !slice_app_l, !(unpack_int_app_l "<H" 2), !(unpack_int_app_l "<I" 4) by (done || lia).
  rewrite !len_app, Hh, Hph, Hr. rewrite (proj2 (Z.ltb_ge _ _)) by lia.
  change (unpack_int "<H" h 16) with (Ok 2). change (unpack_int "<H" h 18) with (Ok 3).
  change (unpack_int "<I" h 24) with (Ok 0x400000). change (unpack_int "<I" h 28) with (Ok 52).
  change (unpack_int "<H" h 42) with (Ok 32). change (unpack_int "<H" h 44) with (Ok 1).
  change (slice h 0 4) with ([0x7f] ++ B "ELF"). change (slice h 4 7) with [1; 1; 1].
  cbn [mbind result_bind].
  unfold unpack_ints. rewrite (unpack_from_eq _ (replicate 8 (FInt false 4))) by
    (done || (rewrite !len_app; simpl; lia)).
  rewrite slice_app_r, Hh, slice_app_l, slice_full by (rewrite ?Hph; simpl; lia).
  assert (ph = le_bytes 4 1 ++ le_bytes 4 0x100 ++ le_bytes 4 0x400000 ++ le_bytes 4 0x400000 ++
    le_bytes 4 (len segment) ++ le_bytes 4 memory ++ le_bytes 4 5 ++ le_bytes 4 0x1000 ++ []) as ->.
  { unfold ph, LegacyAsm.elf_phdr. rewrite app_nil_r. reflexivity. }
  cbn [replicate]. rewrite !unpack_fields_uint by (done || lia). simpl.
  unfold fail_if. rewrite raise_if_false; [done|].
  rewrite (proj2 (Z.eqb_eq _ _)), (proj2 (Z.ltb_ge _ _)), (proj2 (Z.ltb_ge _ _)) by lia. done.
Qed.

(** ** The generated volume *)

(** The files of the builder against [EXPECTED], the first cluster of the
    head of the list being [next]. *)
Fixpoint matches (next : Z) (files : list (bytes * bytes)) (items : list (bytes * expected)) : bool :=
  match files, items with
  | [], [] => true
  | (name, data) :: files, (name', Expected cluster size hash chain) :: items =>
      let e := next + LegacyVolume.cluster_count data in
      beq name name' && (cluster =? next) && (size =? len data) && (0 <? len data) &&
      (cluster <? 2 ^ 16) && (size <? 2 ^ 32) &&
      (hash =? fnv1a32 data) && beq chain (range next e) &&
      (if ends_with name' (B "ELF") then bool_decide (verify_elf name' data = Ok tt) else true) &&
      matches e files items
  | _, _ => false
  end.

Lemma matches_lookup next files items k name e :
  matches next files items = true → items !! k = Some (name, e) →
  ∃ data, files !! k = Some (name, data) ∧
    expected_cluster e = next + LegacyVolume.total_clusters (take k files) ∧
    expected_size e = len data ∧ 0 < len data ∧ expected_cluster e < 2 ^ 16 ∧ len data < 2 ^ 32 ∧
    expected_hash e = fnv1a32 data ∧
    expected_chain e = range (expected_cluster e) (expected_cluster e + LegacyVolume.cluster_count data) ∧
    (ends_with name (B "ELF") = true → verify_elf name data = Ok tt).
Proof.
  revert next items k. induction files as [|[n d] files IH]; intros next [|[n' [c z h ch]] items] k;
    try done. cbn [matches]. intros H Hk.
  apply andb_true_iff in H as [H Hrest]. apply andb_true_iff in H as [H Helf]. to_prop.
  match goal with Hn : beq n n' = true |- _ => apply beq_spec in Hn; subst n' end.
  match goal with Hn : beq ch _ = true |- _ => apply beq_spec in Hn; subst ch end.
  destruct k as [|k].
  - assert (ends_with n (B "ELF") = true → verify_elf n d = Ok tt) as Helf'.
    { intros E. rewrite E in Helf. by to_prop. }
    injection Hk as <- <-. exists d. simpl. subst. split_and!; try done; try lia.
  - simpl in Hk. destruct (IH _ _ k Hrest Hk) as (data & Hf & Hc & Hall).
    exists data. simpl. split; [done|]. split; [lia|done].
Qed.

(** The data of the builder's file number [k]. *)
Definition file_data (k : nat) : bytes := default [] (snd <$> LegacyVolume.FILES !! k).

Lemma generated_files :
  LegacyVolume.files_fitb LegacyVolume.FILES && (len LegacyVolume.FILES =? 21) &&
  (LegacyVolume.total_clusters LegacyVolume.FILES =? 55) &&
  matches 2 LegacyVolume.FILES EXPECTED = true.
Proof. vm_compute. reflexivity. Qed.

#[local] Opaque LegacyVolume.FILES.

Lemma FILES_fit : LegacyVolume.files_fit LegacyVolume.FILES.
Proof. apply LegacyVolume.files_fitb_spec. pose proof generated_files. to_prop. assumption. Qed.
Lemma FILES_matches : matches 2 LegacyVolume.FILES EXPECTED = true.
Proof. pose proof generated_files. to_prop. assumption. Qed.
Lemma FILES_count : len LegacyVolume.FILES = 21 ∧ LegacyVolume.total_clusters LegacyVolume.FILES = 55.
Proof. pose proof generated_files. to_prop. split; assumption. Qed.

Section generated.
Context (vol : bytes) (Hvol : LegacyVolume.volume_spec LegacyVolume.FILES 256 vol).

Lemma read_generated k name e :
  EXPECTED !! k = Some (name, e) →
  read_chain vol (expected_cluster e) (expected_size e) = Ok (file_data k, expected_chain e).
Proof using Hvol.
  intros Hk. pose proof FILES_matches as Hg.
  destruct (matches_lookup _ _ _ _ _ _ Hg Hk) as (data & Hf & Hc & -> & Hpos & _ & _ & _ & -> & _).
  rewrite Hc. fold (LegacyVolume.start LegacyVolume.FILES k).
  rewrite (read_chain_file _ _ _ Hvol FILES_fit k name data Hf Hpos).
  unfold file_data. by rewrite Hf.
Qed.

Lemma root_entry_generated k name e :
  EXPECTED !! k = Some (name, e) → verify_root_entry vol (Z.of_nat k, (name, e)) = Ok tt.
Proof using Hvol.
  intros Hk. pose proof (read_generated k name e Hk) as Hread.
  pose proof FILES_matches as Hg.
  destruct (matches_lookup _ _ _ _ _ _ Hg Hk)
    as (data & Hf & Hc & Hs & Hpos & Hc16 & Hs32 & Hh & Hch & Helf).
  assert (file_data k = data) as Hd by (unfold file_data; by rewrite Hf). rewrite Hd in Hread.
  destruct e as [c z h ch].
  cbn [expected_cluster expected_size expected_hash expected_chain] in *. unfold verify_root_entry.
  pose proof (LegacyVolume.fit_files _ FILES_fit) as Hall.
  rewrite Forall_forall in Hall. pose proof (Hall _ (list_elem_of_lookup_2 _ _ _ Hf)) as (Hn & _).
  cbn [fst] in Hn.
  assert (0 ≤ c) by (pose proof (LegacyVolume.total_clusters_ge (take k LegacyVolume.FILES));
    pose proof (len_nonneg (take k LegacyVolume.FILES)); lia).
  assert (Z.of_nat k < 224).
  { apply lookup_lt_Some in Hk. change (length EXPECTED) with 21%nat in Hk. lia. }
  pose proof (LegacyVolume.spec_root _ _ _ Hvol (Z.of_nat k)) as Hroot.
  rewrite Nat2Z.id, (LegacyVolume.root_value_in _ _ _ Hf) in Hroot.
  unfold LegacyVolume.ROOT_ENTRIES, LegacyVolume.start, LegacyVolume.ROOT_START, LegacyVolume.BPS in Hroot.
  simpl in Hroot. rewrite <-Hc in Hroot. specialize (Hroot ltac:(lia)).
  unfold ROOT_START, BPS. set (off := 19 * 512 + Z.of_nat k * 32) in *.
  pose proof (LegacyVolume.spec_len _ _ _ Hvol) as Hl. unfold LegacyVolume.TOTAL, LegacyVolume.BPS in Hl.
  assert (slice vol off (off + 32) =
    name ++ [32] ++ zeros 14 ++ le_bytes 2 c ++ le_bytes 4 (len data)) as Hent by exact Hroot.
  assert (slice vol off (off + 11) = name) as ->.
  { rewrite <-(slice_slice_prefix vol off (off + 32) 11), Hent by lia.
    rewrite slice_app_l by lia. by apply slice_full. }
  assert (slice vol (off + 11) (off + 11 + 1) = [32]) as Hattr.
  { rewrite <-(Z.add_assoc off 11 1), <-(slice_slice vol off (off + 32)), Hent by lia.
    rewrite slice_app_r, Hn by lia. reflexivity. }
  rewrite (get_item_of_slice vol (off + 11) 32) by (exact Hattr || lia). cbn [mbind result_bind].
  rewrite (unpack_int_eq "<H" 2), (unpack_int_eq "<I" 4)
    by (apply parse_fmt_H || apply parse_fmt_I || lia).
  cbn [mbind result_bind].
  rewrite <-!Z.add_assoc, <-!(slice_slice vol off (off + 32)), Hent by lia.
  rewrite !app_assoc. rewrite (slice_app_r _ (le_bytes 4 _) 28) by (len_solve).
  rewrite slice_app_l by len_solve. rewrite slice_app_r by len_solve.
  replace (len (((name ++ [32]) ++ zeros 14) ++ le_bytes 2 c)) with 28 by len_solve.
  replace (len ((name ++ [32]) ++ zeros 14)) with 26 by len_solve.
  rewrite !slice_full by len_solve. rewrite !le_int_le_bytes by lia.
  rewrite <-Hs, !beq_refl, !Z.eqb_refl. cbn [negb orb fail_if raise_if mbind result_bind].
  rewrite Hread. cbn [mbind result_bind]. rewrite beq_refl, <-Hh, Z.eqb_refl.
  cbn [negb fail_if raise_if mbind result_bind].
  destruct (ends_with name (B "ELF")); [by apply Helf|done].
Qed.

Lemma verify_root_generated : verify_root vol = Ok tt.
Proof using Hvol.
  assert (forM_ (verify_root_entry vol) (enumerate EXPECTED) = Ok tt) as Hall.
  { apply forM_Ok. apply (proj2 (Forall_lookup _ _)). intros i x Hi.
    apply lookup_enumerate in Hi as [Hj He]. destruct x as [j [name e]]. cbn [fst snd] in Hj, He.
    subst j. by apply root_entry_generated. }
  unfold verify_root. rewrite Hall.
  cbn [mbind result_bind]. change (len EXPECTED) with 21. unfold ROOT_START, BPS, SPF.
  destruct FILES_count as [Hn Htot].
  pose proof (LegacyVolume.spec_root _ _ _ Hvol 21) as Hfree.
  unfold LegacyVolume.ROOT_ENTRIES, LegacyVolume.ROOT_START, LegacyVolume.BPS in Hfree.
  rewrite LegacyVolume.root_value_after in Hfree by (unfold len in Hn; lia).
  rewrite (get_item_of_slice vol (19 * 512 + 21 * 32) 0).
  2: lia.
  2: { rewrite <-(Z.add_0_r (19 * 512 + 21 * 32)) at 1.
       rewrite <-(slice_slice vol _ (19 * 512 + 21 * 32 + 32)), Hfree by lia. reflexivity. }
  cbn [mbind result_bind]. change (negb (0 =? 0)) with false.
  cbn [fail_if raise_if mbind result_bind]. apply forM_Ok, Forall_forall.
  intros c Hc%elem_of_range.
  pose proof (LegacyVolume.spec_table _ _ _ Hvol c) as Hent.
  unfold LegacyVolume.SPF, LegacyVolume.BPS in Hent. rewrite Hent by lia.
  rewrite LegacyVolume.table_value_ge by lia. done.
Qed.

Lemma verify_bpb_generated : verify_bpb vol = Ok tt.
Proof using Hvol.
  pose proof (LegacyVolume.spec_boot _ _ _ Hvol) as Hboot.
  pose proof (LegacyVolume.spec_len _ _ _ Hvol) as Hl.
  pose proof (LegacyVolume.spec_mirror _ _ _ Hvol) as Hmir.
  pose proof (LegacyVolume.spec_reserved _ _ _ Hvol) as Hres.
  unfold LegacyVolume.TOTAL, LegacyVolume.SPF, LegacyVolume.BPS in *.
  set (boot := LegacyVolume.boot_head ++ le_bytes 4 256 ++ LegacyVolume.boot_tail) in Hboot.
  unfold verify_bpb, SPF, BPS.
  assert (∀ fmt w off, parse_fmt fmt = Ok [FInt false w] → 0 ≤ w → 0 ≤ off → off + w ≤ 512 →
    unpack_int fmt vol off = unpack_int fmt boot off) as Hu.
  { intros. rewrite <-Hboot. unfold unpack_int.
    rewrite (unpack_from_slice fmt [FInt false w]) by (cbn [fields_size field_size]; done || lia).
    by rewrite Z.add_0_l. }
  assert (∀ i, 0 ≤ i < 512 → get_item vol i = get_item boot i) as Hg.
  { intros. rewrite <-Hboot. apply get_item_slice; [lia| |lia]. by rewrite slice_slice by lia. }
  assert (slice vol 510 512 = [0x55; 0xAA]) as ->.
  { change (slice vol 510 512) with (slice vol (0 + 510) (0 + 512)).
    rewrite <-(slice_slice vol 0 512), Hboot by lia. reflexivity. }
  rewrite !(Hu "<H" 2), (Hu "<I" 4), !Hg by (apply parse_fmt_H || apply parse_fmt_I || lia).
  change (unpack_int "<H" boot 11) with (Ok 512). change (get_item boot 13) with (Ok 1).
  change (unpack_int "<H" boot 14) with (Ok 1). change (get_item boot 16) with (Ok 2).
  change (unpack_int "<H" boot 17) with (Ok 224). change (unpack_int "<H" boot 19) with (Ok 2880).
  change (unpack_int "<H" boot 22) with (Ok 9). change (unpack_int "<I" boot 28) with (Ok 256).
  cbn [beq negb fail_if raise_if mbind result_bind Z.eqb Pos.eqb andb].
  rewrite Hmir, beq_refl, slice_slice_prefix by lia. rewrite Hres. done.
Qed.

Ltac read_at k :=
  match eval cbv in (EXPECTED !! k) with
  | Some (?n, ?e) =>
      let H := fresh in
      pose proof (read_generated k n e eq_refl) as H;
      cbn [expected_cluster expected_size expected_chain] in H; rewrite H; clear H
  end.

Lemma verify_contents_generated :
  (verify_contents_1 vol;; verify_contents_2 vol;; verify_contents_3 vol;; verify_contents_4 vol) = Ok tt.
Proof using Hvol.
  unfold verify_contents_1, verify_contents_2, verify_contents_3, verify_contents_4.
  read_at 0%nat. read_at 2%nat. read_at 7%nat. read_at 8%nat. read_at 9%nat. read_at 10%nat.
  read_at 11%nat. read_at 12%nat. read_at 13%nat. read_at 14%nat. read_at 15%nat. read_at 16%nat.
  read_at 17%nat. read_at 18%nat. read_at 19%nat. read_at 20%nat.
  vm_compute. reflexivity.
Qed.

Lemma verify_volume_generated : verify_volume vol = Ok tt.
Proof using Hvol.
  unfold verify_volume. rewrite verify_bpb_generated, verify_root_generated.
  exact verify_contents_generated.
Qed.
End generated.

(** ** Properties *)

(** (C29) On a volume that holds a list of files as the builder lays them out,
    the chain reader given a non-empty file's first cluster and size returns
    exactly the file's bytes and its cluster numbers; in particular it does not
    raise and its loop bound is not reached. *)
Theorem read_chain_of_volume files hidden vol k name data :
  LegacyVolume.volume_spec files hidden vol → LegacyVolume.files_fit files →
  files !! k = Some (name, data) → 0 < len data →
  let s := LegacyVolume.start files k in
  read_chain vol s (len data) = Ok (data, range s (s + LegacyVolume.cluster_count data)).
Proof. intros Hv Hf Hk Hpos s. by apply (read_chain_file files hidden vol Hv Hf k name data). Qed.

Lemma read_chain_of_volume_witness :
  ∃ vol, LegacyVolume.build_volume_of [(B "A       TXT", [1; 2; 3])] 256 = Ok vol ∧
    read_chain vol 2 3 = Ok ([1; 2; 3], [2]).
Proof.
  destruct (LegacyVolume.build_volume_of_layout [(B "A       TXT", [1; 2; 3])] 256) as (vol & Hb & Hv).
  - by apply LegacyVolume.files_fitb_spec.
  - lia.
  - exists vol. split; [exact Hb|].
    apply (read_chain_of_volume _ 256 vol 0 (B "A       TXT") [1; 2; 3] Hv); [|reflexivity|reflexivity].
    by apply LegacyVolume.files_fitb_spec.
Defined.

(** (C18) On an arbitrary volume, whatever the chain reader accepts is sound: the
    data has the requested size and is the prefix of the sectors of the chain
    it returns; the chain starts at [first], contains clusters from 2 to 0xFEF only,
    follows the table link by link up to an end-of-chain mark and visits no
    cluster twice.  A chain that is cyclic, leaves that range or continues
    past the last sector is therefore never accepted. *)
Theorem read_chain_sound volume first size data chain :
  0 ≤ size → read_chain volume first size = Ok (data, chain) →
  len data = size ∧ data = slice (concat (sector volume <$> chain)) 0 size ∧
  linked (slice volume BPS ((1 + SPF) * BPS)) first chain ∧ NoDup chain ∧
  (chain = [] ↔ size = 0) ∧ len chain ≤ FAT_SECTORS.
Proof.
  intros Hs H. apply chain_loop_sound in H as (rest & -> & Hl & Hlen & Hsz & Hnil & ->).
  rewrite !app_nil_l in *. change (len []) with 0 in Hnil. split_and!; try done.
  - rewrite len_slice by (cbn in *; lia). lia.
  - by eapply linked_NoDup.
  - rewrite Hnil. lia.
  - unfold len, FAT_SECTORS in *. lia.
Qed.

(** A volume of one file of three sectors, up to its data area. *)
Definition example_volume : bytes :=
  zeros 512 ++ [0xF0; 0xFF; 0xFF; 0x03; 0x40; 0x00; 0xFF; 0x0F] ++ zeros 16376 ++ zeros 1024 ++ [7].

Lemma read_chain_sound_witness : NoDup [2; 3; 4].
Proof.
  apply (read_chain_sound example_volume 2 1025 (zeros 1024 ++ [7]) [2; 3; 4]);
    [lia|vm_compute; reflexivity].
Defined.

(** Every image the program builder assembles from a segment no longer than
    its memory size, which is at most a page, passes the verifier's ELF32
    check under every ASCII name. *)
Theorem built_elf_verifies segment memory name image :
  LegacyAsm.build_elf segment memory = Ok image → len segment ≤ memory → memory ≤ 4096 →
  is_ok (decode_ascii name) = true → verify_elf name image = Ok tt.
Proof. apply verify_elf_build. Qed.

Lemma built_elf_verifies_witness :
  ∃ image, LegacyAsm.build_elf [0xCD; 0x80] 4096 = Ok image ∧ verify_elf (B "T       ELF") image = Ok tt.
Proof.
  eexists. split; [vm_compute; reflexivity|].
  apply (built_elf_verifies [0xCD; 0x80] 4096); [vm_compute; reflexivity|vm_compute; discriminate..|reflexivity].
Defined.

(** (C13) The builder run with the partition's 256 hidden sectors returns a
    volume, and the verifier accepts it: boot parameter block, tables, root
    directory, the chain, hash and ELF header of all 21 files, and every
    content check. *)
Theorem generated_volume_verifies :
  ∃ vol, LegacyVolume.main 256 = Ok vol ∧ verify_volume vol = Ok tt.
Proof.
  destruct (LegacyVolume.build_volume_of_layout LegacyVolume.FILES 256 FILES_fit) as (vol & Hb & Hv);
    [lia|].
  exists vol. split; [exact Hb|]. by apply verify_volume_generated.
Qed.

(** The builder's command line: outside 64..65535 hidden sectors it exits
    with the range message, inside it always writes a volume of 1474560
    bytes that holds [FILES] and that hidden-sector count. *)
Theorem legacy_main_total hidden :
  if (64 <=? hidden) && (hidden <=? 0xFFFF)
  then ∃ vol, LegacyVolume.main hidden = Ok vol ∧ len vol = 1474560 ∧
         LegacyVolume.volume_spec LegacyVolume.FILES hidden vol
  else LegacyVolume.main hidden = Err (SystemExit "hidden sector count outside supported range").
Proof.
  unfold LegacyVolume.main. destruct (Z.leb_spec 64 hidden), (Z.leb_spec hidden 0xFFFF); cbn [andb].
  - rewrite raise_if_false by (apply orb_false_iff; lia). cbn [mbind result_bind].
    destruct (LegacyVolume.build_volume_of_layout LegacyVolume.FILES hidden FILES_fit) as (vol & Hb & Hv);
      [lia|]. exists vol. split; [exact Hb|]. split; [apply (LegacyVolume.spec_len _ _ _ Hv)|done].
  - by rewrite raise_if_true by (apply orb_true_iff; lia).
  - by rewrite raise_if_true by (apply orb_true_iff; lia).
  - by rewrite raise_if_true by (apply orb_true_iff; lia).
Qed.

End LegacyBios.
