(* ===== verification/LegacyPersistence.v ===== *)
(** * The verifier of the persisted FAT12 hierarchy

    [scripts/verify-legacy-persistence.py]: what the disk image must hold after
    the legacy system has run WRITER and PATHS.  [main] takes the bytes of
    [--image]; its parts are separate definitions, run in its order.  The
    reader [entry] of this script is in [Fat12].

    Theorem: an accepted image holds LOG.TXT and NOTES.TXT in the sense of the
    other verifier's chain reader, reached from their directory entries. *)

From S2P Require Import Prelude PyBytes Fat12 LegacyAsm LegacyPrograms LegacyVolume LegacyBios.

Module LegacyPersistence.
Import Fat12.

Definition BPS : Z := 512.
Definition FAT_LBA : Z := 256.
Definition ROOT_START : Z := 19.
Definition DATA_START : Z := 33.
Definition SPF : Z := 9.
Definition NOTES : bytes := map (λ i, 97 + i mod 26) (range 0 700) ++ B "APPEND-PERSIST-OK!" ++ CRLF.
Definition NOTES_HASH : Z := 0xC6181D2F.
Definition PATH_PAYLOAD : bytes := map (λ index, Z.land (index * 29 + 7) 0xFF) (range 0 600).
Definition PATH_HASH : Z := 0x36F73195.

(** [fail(message)] when the test holds. *)
Definition fail_if (b : bool) (message : string) : result unit := raise_if b (SystemExit message).

Definition fnv1a32 (data : bytes) : Z :=
  foldl (λ value byte, Z.land (Z.lxor value byte * 0x01000193) 0xFFFFFFFF) 0x811C9DC5 data.

Definition cluster_sector (volume : bytes) (cluster : Z) : bytes :=
  let offset := (DATA_START + cluster - 2) * BPS in
  slice volume offset (offset + BPS).

Definition check_dir_entry (sector : bytes) (index : Z) (name : bytes) (attributes cluster size : Z) :
    result unit :=
  let offset := index * 32 in
  let actual := slice sector offset (offset + 11) in
  attr ← get_item sector (offset + 11);
  first ← unpack_int "<H" sector (offset + 26);
  actual_size ← unpack_int "<I" sector (offset + 28);
  fail_if (negb (beq actual name) || negb (attr =? attributes) || negb (first =? cluster)
           || negb (actual_size =? size))
    "directory entry {index} invalid: {actual!r}/{attr:#x}/{first}/{actual_size}".

Definition read_two_clusters (volume : bytes) (first second size : Z) : bytes :=
  slice (cluster_sector volume first ++ cluster_sector volume second) 0 size.

(** [if sector[i] != v: fail(message)] *)
Definition check_byte (sector : bytes) (i v : Z) (message : string) : result unit :=
  b ← get_item sector i; fail_if (negb (b =? v)) message.

Definition verify_root (root : bytes) : result unit :=
  let paths_offset := 20 * 32 in
  fail_if (negb (beq (slice root paths_offset (paths_offset + 11)) (B "PATHS   ELF")))
    "PATHS.ELF static root slot invalid";;
  check_dir_entry root 21 (B "HOME       ") 0x10 57 0;;
  check_dir_entry root 22 (B "NOTES   TXT") 0x20 62 720;;
  check_byte root (23 * 32) 0 "unexpected root entry beyond HOME and NOTES.TXT".

Definition verify_home (home : bytes) : result unit :=
  check_dir_entry home 0 (B ".          ") 0x10 57 0;;
  check_dir_entry home 1 (B "..         ") 0x10 0 0;;
  check_dir_entry home 2 (B "DOCS       ") 0x10 58 0;;
  check_byte home (3 * 32) 0xE5 "cross-directory source slot was not deleted";;
  check_dir_entry home 4 (B "ARCHIVE    ") 0x10 61 0;;
  check_byte home (5 * 32) 0 "unexpected HOME directory residue".

Definition verify_docs (docs : bytes) : result unit :=
  check_dir_entry docs 0 (B ".          ") 0x10 58 0;;
  check_dir_entry docs 1 (B "..         ") 0x10 57 0;;
  b2 ← get_item docs (2 * 32);
  if negb (b2 =? 0xE5) then Err (SystemExit "DOCS temporary reuse residue invalid")
  else check_byte docs (3 * 32) 0 "DOCS temporary reuse residue invalid".

Definition verify_archive (archive : bytes) : result unit :=
  check_dir_entry archive 0 (B ".          ") 0x10 61 0;;
  check_dir_entry archive 1 (B "..         ") 0x10 57 0;;
  check_dir_entry archive 2 (B "LOG     TXT") 0x20 59 600;;
  check_byte archive (3 * 32) 0 "unexpected ARCHIVE directory residue".

Definition expected_fat : list (Z * Z) :=
  [(57, 0xFFF); (58, 0xFFF); (59, 60); (60, 0xFFF); (61, 0xFFF); (62, 63); (63, 0xFFF); (64, 0)].

Definition check_fat_entry (fat1 : bytes) (item : Z * Z) : result unit :=
  let '(cluster, expected) := item in
  actual ← entry fat1 cluster;
  if (0xFF8 <=? actual) && (0xFF8 <=? expected) then Ok tt
  else fail_if (negb (actual =? expected))
         "persistent FAT entry {cluster} invalid: {actual:#x} != {expected:#x}".

Definition verify_data (volume : bytes) : result unit :=
  let log := read_two_clusters volume 59 60 600 in
  fail_if (negb (beq log PATH_PAYLOAD) || negb (fnv1a32 log =? PATH_HASH))
    "persistent /HOME/ARCHIVE/LOG.TXT content invalid";;
  let notes := read_two_clusters volume 62 63 720 in
  fail_if (negb (beq notes NOTES) || negb (fnv1a32 notes =? NOTES_HASH))
    "persistent NOTES.TXT content invalid".

(** [main] on the extracted volume. *)
Definition verify_volume (volume : bytes) : result unit :=
  let fat1 := slice volume BPS ((1 + SPF) * BPS) in
  let fat2 := slice volume ((1 + SPF) * BPS) ((1 + 2 * SPF) * BPS) in
  fail_if (negb (beq fat1 fat2)) "persistent FAT12 copies differ";;
  verify_root (slice volume (ROOT_START * BPS) (ROOT_START * BPS + 14 * BPS));;
  verify_home (cluster_sector volume 57);;
  verify_docs (cluster_sector volume 58);;
  verify_archive (cluster_sector volume 61);;
  forM_ (check_fat_entry fat1) expected_fat;;
  verify_data volume.

Definition main (image : bytes) : result unit :=
  fail_if (negb (len image =? 2 * 1024 * 1024)) "persistent disk image size invalid";;
  verify_volume (slice image (FAT_LBA * BPS) ((FAT_LBA + 2880) * BPS)).

(** ** What acceptance means *)

(** The directory entry [name], of the given attributes, at [index]. *)
Record dir_entry (sector : bytes) (index : Z) (name : bytes) (attributes cluster size : Z) : Prop := {
  dir_name : slice sector (index * 32) (index * 32 + 11) = name;
  dir_attributes : get_item sector (index * 32 + 11) = Ok attributes;
  dir_cluster : unpack_int "<H" sector (index * 32 + 26) = Ok cluster;
  dir_size : unpack_int "<I" sector (index * 32 + 28) = Ok size }.

Lemma check_dir_entry_Ok sector index name attributes cluster size :
  check_dir_entry sector index name attributes cluster size = Ok tt ↔
  dir_entry sector index name attributes cluster size.
Proof.
  unfold check_dir_entry. split.
  - intros H. unfold fail_if in H. result_inv. to_prop.
    match goal with H : beq _ _ = true |- _ => apply beq_spec in H end. subst. by split.
  - intros [<- -> -> ->]. cbn [mbind result_bind]. by rewrite beq_refl, !Z.eqb_refl.
Qed.

Lemma check_fat_entry_Ok fat c v :
  check_fat_entry fat (c, v) = Ok tt →
  ∃ a, fat_entry fat c = Ok a ∧ (a = v ∨ 0xFF8 ≤ a ∧ 0xFF8 ≤ v).
Proof.
  unfold check_fat_entry. intros (a & Ha & H)%bind_Ok_inv. exists a. split; [exact Ha|].
  destruct ((4088 <=? a) && (4088 <=? v)) eqn:E; to_prop; [by right|].
  unfold fail_if in H. apply raise_if_Ok in H. to_prop. by left.
Qed.

(** Two linked clusters are a chain of the chain reader. *)
Lemma read_two volume a b size va vb :
  2 ≤ a < 0xFF0 → 2 ≤ b < 0xFF0 → 512 < size ≤ 1024 →
  len (cluster_sector volume a) = 512 → len (cluster_sector volume b) = 512 →
  let fat := slice volume BPS ((1 + SPF) * BPS) in
  fat_entry fat a = Ok va → va = b → fat_entry fat b = Ok vb → 0xFF8 ≤ vb →
  LegacyBios.read_chain volume a size = Ok (read_two_clusters volume a b size, [a; b]).
Proof.
  intros Ha Hb Hs Hla Hlb fat Hva -> Hvb Hend.
  change (cluster_sector volume a) with (LegacyBios.sector volume a) in Hla.
  change (cluster_sector volume b) with (LegacyBios.sector volume b) in Hlb.
  unfold LegacyBios.read_chain, read_two_clusters.
  change (cluster_sector volume) with (LegacyBios.sector volume).
  replace (Z.to_nat LegacyBios.FAT_SECTORS) with (Datatypes.S (Datatypes.S 2878)) by reflexivity.
  rewrite (LegacyBios.chain_loop_next _ _ _ _ a _ _ b) by (exact Hva || (rewrite ?app_nil_l; lia)).
  rewrite (LegacyBios.chain_loop_last _ _ _ _ b _ _ vb)
    by (exact Hvb || (rewrite ?app_nil_l, ?len_app; lia)).
  done.
Qed.

(** A hierarchy of the persisted files: HOME, its ARCHIVE with LOG.TXT, and
    NOTES.TXT, each reached from its directory entry, the data as the chain
    reader of [LegacyBios] returns it. *)
Record persisted (volume : bytes) : Prop := {
  p_mirror : slice volume ((1 + SPF) * BPS) ((1 + 2 * SPF) * BPS) = slice volume BPS ((1 + SPF) * BPS);
  p_home : dir_entry (slice volume (ROOT_START * BPS) (ROOT_START * BPS + 14 * BPS)) 21
             (B "HOME       ") 0x10 57 0;
  p_notes : dir_entry (slice volume (ROOT_START * BPS) (ROOT_START * BPS + 14 * BPS)) 22
              (B "NOTES   TXT") 0x20 62 720;
  p_archive : dir_entry (cluster_sector volume 57) 4 (B "ARCHIVE    ") 0x10 61 0;
  p_parent : dir_entry (cluster_sector volume 61) 1 (B "..         ") 0x10 57 0;
  p_log : dir_entry (cluster_sector volume 61) 2 (B "LOG     TXT") 0x20 59 600;
  p_log_data : LegacyBios.read_chain volume 59 600 = Ok (PATH_PAYLOAD, [59; 60]);
  p_notes_data : LegacyBios.read_chain volume 62 720 = Ok (LegacyPrograms.WRITER_RESULT, [62; 63]) }.

Lemma NOTES_written : NOTES = LegacyPrograms.WRITER_RESULT.
Proof. vm_compute. reflexivity. Qed.

Lemma len_cluster_sector volume c :
  len volume = 1474560 → 2 ≤ c < 100 → len (cluster_sector volume c) = 512.
Proof. intros Hl ?. unfold cluster_sector, DATA_START, BPS. rewrite len_slice by lia. lia. Qed.

Lemma verify_data_Ok volume :
  verify_data volume = Ok tt →
  read_two_clusters volume 59 60 600 = PATH_PAYLOAD ∧ read_two_clusters volume 62 63 720 = NOTES.
Proof.
  unfold verify_data, fail_if. intros H. result_inv. to_prop.
  repeat match goal with H : beq _ _ = true |- _ => apply beq_spec in H end. done.
Qed.

Lemma verify_volume_persisted volume :
  len volume = 1474560 → verify_volume volume = Ok tt → persisted volume.
Proof.
  intros Hlen H. unfold verify_volume in H.
  apply bind_Ok_inv in H as ([] & Hmir & H). apply bind_Ok_inv in H as ([] & Hroot & H).
  apply bind_Ok_inv in H as ([] & Hhome & H). apply bind_Ok_inv in H as ([] & Hdocs & H).
  apply bind_Ok_inv in H as ([] & Harch & H). apply bind_Ok_inv in H as ([] & Hfat & Hdata).
  unfold fail_if in Hmir. apply raise_if_Ok, negb_false_iff, beq_spec in Hmir.
  unfold verify_root in Hroot. apply bind_Ok_inv in Hroot as ([] & _ & Hroot).
  apply bind_Ok_inv in Hroot as ([] & Hh & Hroot). apply bind_Ok_inv in Hroot as ([] & Hn & _).
  unfold verify_home in Hhome. do 4 apply bind_Ok_inv in Hhome as ([] & _ & Hhome).
  apply bind_Ok_inv in Hhome as ([] & Ha & _).
  unfold verify_archive in Harch. apply bind_Ok_inv in Harch as ([] & _ & Harch).
  apply bind_Ok_inv in Harch as ([] & Hp & Harch). apply bind_Ok_inv in Harch as ([] & Hlog & _).
  apply forM_Ok in Hfat. unfold expected_fat in Hfat. rewrite !Forall_cons in Hfat.
  destruct Hfat as (_ & _ & F59 & F60 & _ & F62 & F63 & _).
  apply check_fat_entry_Ok in F59 as (a59 & E59 & F59). apply check_fat_entry_Ok in F60 as (a60 & E60 & F60).
  apply check_fat_entry_Ok in F62 as (a62 & E62 & F62). apply check_fat_entry_Ok in F63 as (a63 & E63 & F63).
  apply verify_data_Ok in Hdata as [Dlog Dnotes].
  apply check_dir_entry_Ok in Hh, Hn, Ha, Hp, Hlog.
  split; try assumption; [done|..].
  - rewrite <-Dlog. apply (read_two _ _ _ _ a59 a60); try (rewrite len_cluster_sector by lia);
      (exact E59 || exact E60 || lia).
  - rewrite <-NOTES_written, <-Dnotes.
    apply (read_two _ _ _ _ a62 a63); try (rewrite len_cluster_sector by lia);
      (exact E62 || exact E63 || lia).
Qed.

(** ** A persisted image *)

Definition entry_bytes (name : bytes) (attributes cluster size : Z) : bytes :=
  name ++ [attributes] ++ zeros 14 ++ le_bytes 2 cluster ++ le_bytes 4 size.

(** A directory sector or region of [n] bytes. *)
Definition directory (n : Z) (entries : list bytes) : bytes := LegacyVolume.pad n (concat entries).

(** The packed entries 57 to 64 and the bytes around them. *)
Definition example_fat : bytes :=
  match foldM (λ fat '(c, v), set_fat12_entry fat c v) (zeros (SPF * BPS)) expected_fat with
  | Ok fat => fat
  | Err _ => []
  end.

(** The volume up to cluster 63. *)
Definition example_volume : bytes :=
  zeros 512 ++ example_fat ++ example_fat ++
  directory (14 * 512) (replicate 20 (zeros 32) ++
    [entry_bytes (B "PATHS   ELF") 0x20 49 4024; entry_bytes (B "HOME       ") 0x10 57 0;
     entry_bytes (B "NOTES   TXT") 0x20 62 720]) ++
  zeros (55 * 512) ++
  directory 512 [entry_bytes (B ".          ") 0x10 57 0; entry_bytes (B "..         ") 0x10 0 0;
    entry_bytes (B "DOCS       ") 0x10 58 0; 0xE5 :: zeros 31;
    entry_bytes (B "ARCHIVE    ") 0x10 61 0] ++
  directory 512 [entry_bytes (B ".          ") 0x10 58 0; entry_bytes (B "..         ") 0x10 57 0;
    0xE5 :: zeros 31] ++
  LegacyVolume.pad 1024 PATH_PAYLOAD ++
  directory 512 [entry_bytes (B ".          ") 0x10 61 0; entry_bytes (B "..         ") 0x10 57 0;
    entry_bytes (B "LOG     TXT") 0x20 59 600] ++
  LegacyVolume.pad 1024 NOTES.

Definition example_image : bytes :=
  zeros (256 * 512) ++ (example_volume ++ zeros 1425920) ++ zeros 491520.

Lemma example_volume_len : len example_volume = 48640.
Proof. vm_compute. reflexivity. Qed.

Lemma example_image_len : len example_image = 2 * 1024 * 1024.
Proof. unfold example_image. rewrite !len_app, example_volume_len, !len_zeros by lia. done. Qed.

Lemma example_image_volume :
  slice example_image (FAT_LBA * BPS) ((FAT_LBA + 2880) * BPS) = example_volume ++ zeros 1425920.
Proof.
  unfold example_image, FAT_LBA, BPS. rewrite slice_app_r by (rewrite ?len_zeros by lia; lia).
  rewrite len_zeros by lia. apply eq_trans with (slice (example_volume ++ zeros 1425920) 0 1474560).
  - apply slice_app_l; [lia|lia|]. rewrite len_app, example_volume_len, len_zeros by lia. lia.
  - apply slice_full. rewrite len_app, example_volume_len, len_zeros by lia. done.
Qed.

Lemma cluster_sector_prefix core rest c :
  2 ≤ c → (33 + c - 1) * 512 ≤ len core → cluster_sector (core ++ rest) c = cluster_sector core c.
Proof. intros. unfold cluster_sector, DATA_START, BPS. apply slice_app_l; lia. Qed.

(** The checks read nothing past cluster 63. *)
Lemma verify_volume_prefix core rest :
  len core = 48640 → verify_volume (core ++ rest) = verify_volume core.
Proof.
  intros Hl. unfold verify_volume, verify_data, read_two_clusters.
  rewrite !(cluster_sector_prefix core) by lia. unfold SPF, BPS, ROOT_START.
  rewrite !(slice_app_l core) by lia. done.
Qed.

Lemma example_volume_accepted : verify_volume example_volume = Ok tt.
Proof. vm_compute. reflexivity. Qed.

Lemma example_image_accepted : main example_image = Ok tt.
Proof.
  unfold main. rewrite example_image_len, example_image_volume. cbn [mbind result_bind].
  rewrite verify_volume_prefix by exact example_volume_len. exact example_volume_accepted.
Qed.

(** ** Properties *)

(** (C36) A disk image the persistence verifier accepts holds the persisted
    hierarchy: both tables agree, HOME, ARCHIVE, LOG.TXT and NOTES.TXT are
    reached from their directory entries, and the chain reader of the other
    verifier, from those entries' clusters and sizes, returns PATHS' payload
    for LOG.TXT and the 720 bytes WRITER writes for NOTES.TXT. *)
Theorem accepted_image_persists image :
  main image = Ok tt → persisted (slice image (FAT_LBA * BPS) ((FAT_LBA + 2880) * BPS)).
Proof.
  unfold main. intros ([] & Hl & H)%bind_Ok_inv. unfold fail_if in Hl.
  apply raise_if_Ok in Hl. to_prop. apply verify_volume_persisted; [|exact H].
  unfold FAT_LBA, BPS. rewrite len_slice by lia. lia.
Qed.

Lemma accepted_image_persists_witness :
  persisted (slice example_image (FAT_LBA * BPS) ((FAT_LBA + 2880) * BPS)).
Proof. apply accepted_image_persists. exact example_image_accepted. Defined.

End LegacyPersistence.
