(* ===== verification/NvmeImage.v ===== *)
(** * The GPT and FAT16 test image

    [scripts/create-nvme-test-image.py]: the partition layout, the two GPT
    headers with their CRCs, the FAT16 boot partition with its tables,
    directories and files, and the order of the writes to the image file.
    The contents of [--efi] are a parameter; the image is the file [build_image]
    leaves, a byte list of [total_bytes].

    Lemmas: the layouts are well formed, and each part of the image in closed
    form; the whole image and the properties are in [NvmeSpec]. *)

From S2P Require Import Prelude PyBytes PyHash.

Module NvmeImage.

(** [bytes.fromhex] on an even number of lower-case digits. *)
Definition hex_value (c : Ascii.ascii) : Z :=
  let n := Z.of_N (Ascii.N_of_ascii c) in if n <? 58 then n - 48 else n - 87.
Fixpoint fromhex (s : string) : bytes :=
  match s with
  | String a (String b s) => (16 * hex_value a + hex_value b) :: fromhex s
  | _ => []
  end.

(** [s.encode("utf-16le")] of ASCII text. *)
Definition utf16le (l : bytes) : bytes := b ← l; [b; 0].

Definition EFI_SYSTEM_PARTITION_GUID : bytes := fromhex "28732ac11ff8d211ba4b00a0c93ec93b".
Definition ZIGOS_DATA_PARTITION_GUID : bytes := fromhex "5a49474f534441544150415254303031".
Definition EFI_PARTITION_GUID : bytes := fromhex "443322116655887799aabbccddeef001".
Definition DATA_PARTITION_GUID : bytes := fromhex "887766554433221100ffeeddccbbaa99".
Definition DISK_GUID : bytes := fromhex "78563412bc9af0de1122334455667788".
Definition MARKER : bytes := B "ZIGOS-NVME-LBA0!".
Definition FNV_OFFSET : Z := 0xCBF29CE484222325.
Definition FNV_PRIME : Z := 0x100000001B3.

Definition le16 (buffer : bytes) (offset value : Z) : result bytes :=
  pack_into "<H" buffer offset [VI value].
Definition le32 (buffer : bytes) (offset value : Z) : result bytes :=
  pack_into "<I" buffer offset [VI value].
Definition le64 (buffer : bytes) (offset value : Z) : result bytes :=
  pack_into "<Q" buffer offset [VI value].

Definition fnv1a64 (data : bytes) : Z :=
  foldl (λ value byte, Z.land (Z.lxor value byte * FNV_PRIME) 0xFFFFFFFFFFFFFFFF) FNV_OFFSET data.

Definition set_fat16_entry (fat : bytes) (cluster value : Z) : result bytes :=
  le16 fat (cluster * 2) value.

Definition set_directory_entry (buffer : bytes) (offset : Z) (short_name : bytes)
    (attributes first_cluster file_size : Z) : result bytes :=
  raise_if (negb (len short_name =? 11)) (ValueError "FAT short names must contain exactly 11 bytes");;
  let buffer := set_slice buffer offset (offset + 11) short_name in
  buffer ← set_item buffer (offset + 11) attributes;
  buffer ← le16 buffer (offset + 20) 0;
  buffer ← le16 buffer (offset + 26) first_cluster;
  le32 buffer (offset + 28) file_size.

Definition make_gpt_header (block_size current_lba backup_lba first_usable_lba last_usable_lba
    entry_lba entry_array_crc : Z) : result bytes :=
  let header := zeros block_size in
  let header := set_slice header 0 8 (B "EFI PART") in
  header ← le32 header 8 0x00010000;
  header ← le32 header 12 92;
  header ← le64 header 24 current_lba;
  header ← le64 header 32 backup_lba;
  header ← le64 header 40 first_usable_lba;
  header ← le64 header 48 last_usable_lba;
  let header := set_slice header 56 72 DISK_GUID in
  header ← le64 header 72 entry_lba;
  header ← le32 header 80 128;
  header ← le32 header 84 128;
  header ← le32 header 88 entry_array_crc;
  le32 header 16 (Z.land (crc32 (slice header 0 92)) 0xFFFFFFFF).

(** ** The layout *)

(** The dictionary [layout_for] returns; the three transitional aliases of the
    partition's bounds are [efi_partition_*] here. *)
Record layout := Layout {
  block_size : Z; total_bytes : Z; total_lbas : Z; last_lba : Z;
  entry_array_sectors : Z; primary_entry_lba : Z; backup_entry_lba : Z;
  first_usable_lba : Z; last_usable_lba : Z;
  efi_partition_first_lba : Z; efi_partition_last_lba : Z; efi_partition_sectors : Z;
  data_partition_first_lba : Z; data_partition_last_lba : Z; data_partition_sectors : Z;
  partition_first_lba : Z; partition_last_lba : Z; partition_sectors : Z;
  sectors_per_cluster : Z; sectors_per_fat : Z; root_entry_count : Z; root_directory_sectors : Z;
  first_fat_lba : Z; root_directory_lba : Z; first_data_lba : Z; cluster_count : Z }.

(** The constants of a block size: [total_bytes], the first sector, sectors and
    alignment of the partitions, [sectors_per_fat] and [root_entry_count]. *)
Definition geometry (block_size : Z) : result (Z * Z * Z * Z * Z * Z) :=
  if block_size =? 512 then Ok (16 * 1024 * 1024, 2048, 16384, 2048, 120, 512)
  else if block_size =? 4096 then Ok (64 * 1024 * 1024, 256, 8192, 256, 8, 512)
  else Err (ValueError "block size must be 512 or 4096").

Definition layout_for (block_size : Z) : result layout :=
  '(total_bytes, efi_partition_first_lba, efi_partition_sectors, data_partition_alignment,
    sectors_per_fat, root_entry_count) ← geometry block_size;
  let total_lbas := total_bytes / block_size in
  let entry_array_bytes := 128 * 128 in
  let entry_array_sectors := ceil_div entry_array_bytes block_size in
  let first_usable_lba := 2 + entry_array_sectors in
  let backup_entry_lba := total_lbas - 1 - entry_array_sectors in
  let last_usable_lba := backup_entry_lba - 1 in
  let efi_partition_last_lba := efi_partition_first_lba + efi_partition_sectors - 1 in
  let data_partition_first_lba :=
    ceil_div (efi_partition_last_lba + 1) data_partition_alignment * data_partition_alignment in
  let data_partition_last_lba := last_usable_lba in
  let data_partition_sectors := data_partition_last_lba - data_partition_first_lba + 1 in
  raise_if ((data_partition_first_lba <=? efi_partition_last_lba) || (data_partition_sectors <? 16))
    (ValueError "the deterministic GPT split left no usable data partition");;
  let root_directory_sectors := ceil_div (root_entry_count * 32) block_size in
  let metadata_sectors := 1 + 2 * sectors_per_fat + root_directory_sectors in
  let first_fat_lba := efi_partition_first_lba + 1 in
  let root_directory_lba := efi_partition_first_lba + 1 + 2 * sectors_per_fat in
  let first_data_lba := efi_partition_first_lba + metadata_sectors in
  let cluster_count := efi_partition_sectors - metadata_sectors in
  raise_if (negb ((4085 <=? cluster_count) && (cluster_count <? 65525)))
    (ValueError "layout does not classify as FAT16: {cluster_count} clusters");;
  Ok {| block_size := block_size; total_bytes := total_bytes; total_lbas := total_lbas;
        last_lba := total_lbas - 1; entry_array_sectors := entry_array_sectors;
        primary_entry_lba := 2; backup_entry_lba := backup_entry_lba;
        first_usable_lba := first_usable_lba; last_usable_lba := last_usable_lba;
        efi_partition_first_lba := efi_partition_first_lba;
        efi_partition_last_lba := efi_partition_last_lba;
        efi_partition_sectors := efi_partition_sectors;
        data_partition_first_lba := data_partition_first_lba;
        data_partition_last_lba := data_partition_last_lba;
        data_partition_sectors := data_partition_sectors;
        partition_first_lba := efi_partition_first_lba;
        partition_last_lba := efi_partition_last_lba;
        partition_sectors := efi_partition_sectors;
        sectors_per_cluster := 1; sectors_per_fat := sectors_per_fat;
        root_entry_count := root_entry_count; root_directory_sectors := root_directory_sectors;
        first_fat_lba := first_fat_lba; root_directory_lba := root_directory_lba;
        first_data_lba := first_data_lba; cluster_count := cluster_count |}.

(** ** [build_image], part by part *)

Definition protective_mbr (L : layout) : result bytes :=
  let mbr := zeros (block_size L) in
  let mbr := set_slice mbr 0 (len MARKER) MARKER in
  let mbr := set_slice mbr 446 450 [0x00; 0x00; 0x02; 0x00] in
  mbr ← set_item mbr 450 0xEE;
  let mbr := set_slice mbr 451 454 [0xFF; 0xFF; 0xFF] in
  mbr ← le32 mbr 454 1;
  mbr ← le32 mbr 458 (Z.min (total_lbas L - 1) 0xFFFFFFFF);
  Ok (set_slice mbr 510 512 [0x55; 0xAA]).

Definition partition_entries (L : layout) : result bytes :=
  let entries := zeros (128 * 128) in
  let entries := set_slice entries 0 16 EFI_SYSTEM_PARTITION_GUID in
  let entries := set_slice entries 16 32 EFI_PARTITION_GUID in
  entries ← le64 entries 32 (efi_partition_first_lba L);
  entries ← le64 entries 40 (efi_partition_last_lba L);
  let name := utf16le (B "ZigOs NVMe FAT") in
  let entries := set_slice entries 56 (56 + len name) name in
  let data_offset := 128 in
  let entries := set_slice entries data_offset (data_offset + 16) ZIGOS_DATA_PARTITION_GUID in
  let entries := set_slice entries (data_offset + 16) (data_offset + 32) DATA_PARTITION_GUID in
  entries ← le64 entries (data_offset + 32) (data_partition_first_lba L);
  entries ← le64 entries (data_offset + 40) (data_partition_last_lba L);
  let data_name := utf16le (B "ZigOs Data") in
  Ok (set_slice entries (data_offset + 56) (data_offset + 56 + len data_name) data_name).

Definition boot_sector (L : layout) : result bytes :=
  let boot := zeros (block_size L) in
  let boot := set_slice boot 0 3 [0xEB; 0x3C; 0x90] in
  let boot := set_slice boot 3 11 (B "ZIGOS   ") in
  boot ← le16 boot 11 (block_size L);
  boot ← set_item boot 13 1;
  boot ← le16 boot 14 1;
  boot ← set_item boot 16 2;
  boot ← le16 boot 17 (root_entry_count L);
  boot ← (if partition_sectors L <=? 0xFFFF then le16 boot 19 (partition_sectors L)
          else boot ← le16 boot 19 0; le32 boot 32 (partition_sectors L));
  boot ← set_item boot 21 0xF8;
  boot ← le16 boot 22 (sectors_per_fat L);
  boot ← le16 boot 24 63;
  boot ← le16 boot 26 255;
  boot ← le32 boot 28 (partition_first_lba L);
  boot ← set_item boot 36 0x80;
  boot ← set_item boot 38 0x29;
  boot ← le32 boot 39 0x5A49474F;
  let boot := set_slice boot 43 54 (B "ZIGOSNVME  ") in
  let boot := set_slice boot 54 62 (B "FAT16   ") in
  Ok (set_slice boot 510 512 [0x55; 0xAA]).

Definition first_file_cluster : Z := 4.
Definition readme_bytes : bytes := B "ZigOs block-backed FAT16 runtime mount" ++ [10].
Definition config_bytes : bytes := B "source=nvme0p1" ++ [10] ++ B "mode=readonly" ++ [10].

Definition fat_table (L : layout) (last_file_cluster readme_cluster config_cluster : Z) : result bytes :=
  let fat := zeros (sectors_per_fat L * block_size L) in
  fat ← set_fat16_entry fat 0 0xFFF8;
  fat ← set_fat16_entry fat 1 0xFFFF;
  fat ← set_fat16_entry fat 2 0xFFFF;
  fat ← set_fat16_entry fat 3 0xFFFF;
  fat ← foldM (λ fat cluster, set_fat16_entry fat cluster (cluster + 1)) fat
          (range first_file_cluster last_file_cluster);
  fat ← set_fat16_entry fat last_file_cluster 0xFFFF;
  fat ← set_fat16_entry fat readme_cluster 0xFFFF;
  set_fat16_entry fat config_cluster 0xFFFF.

(** [--boot-fat-corruption] *)
Inductive corruption := none | cross_link.

Definition root_directory (L : layout) (readme_cluster : Z) : result bytes :=
  let root := zeros (root_directory_sectors L * block_size L) in
  root ← set_directory_entry root 0 (B "EFI        ") 0x10 2 0;
  root ← set_directory_entry root 32 (B "README  TXT") 0x21 readme_cluster (len readme_bytes);
  set_item root 64 0.

Definition efi_directory (L : layout) : result bytes :=
  efi ← set_directory_entry (zeros (block_size L)) 0 (B "BOOT       ") 0x10 3 0;
  set_item efi 32 0.

Definition boot_directory (L : layout) (efi_size config_directory_cluster : Z) : result bytes :=
  boot ← set_directory_entry (zeros (block_size L)) 0 (B "BOOTX64 EFI") 0x20 first_file_cluster efi_size;
  boot ← set_directory_entry boot 32 (B "BOOT    CFG") 0x21 config_directory_cluster (len config_bytes);
  set_item boot 64 0.

(** [stream.seek(offset); stream.write(data)] on the contents of the file. *)
Definition file_write (file : bytes) (w : Z * bytes) : bytes :=
  let '(offset, data) := w in
  if len data =? 0 then file else put (file ++ zeros (offset - len file)) offset data.

Definition write_lba (L : layout) (lba : Z) (data : bytes) : Z * bytes := (lba * block_size L, data).

Record metadata := Metadata {
  md_layout : layout;
  partition_array_crc : Z; primary_header_crc : Z; backup_header_crc : Z; lba0_fnv1a64 : Z;
  efi_size : Z; efi_fnv1a64 : Z; file_cluster_count : Z; file_first_cluster : Z; file_last_cluster : Z;
  md_runtime_file_gap_clusters : Z; md_runtime_file_first_cluster : Z; runtime_readme_cluster : Z;
  runtime_readme_size : Z; runtime_config_cluster : Z; runtime_config_directory_cluster : Z;
  runtime_config_size : Z; md_boot_fat_corruption : corruption }.

(** The image file and the metadata, for the contents [efi_bytes] of [--efi]. *)
Definition build_image (efi_bytes : bytes) (bs : Z) (boot_fat_corruption : corruption)
    (runtime_file_gap_clusters : Z) (runtime_file_first_cluster : option Z) : result (bytes * metadata) :=
  L ← layout_for bs;
  mbr ← protective_mbr L;
  entries ← partition_entries L;
  let partition_array_crc := Z.land (crc32 entries) 0xFFFFFFFF in
  primary_header ← make_gpt_header bs 1 (last_lba L) (first_usable_lba L) (last_usable_lba L)
                     (primary_entry_lba L) partition_array_crc;
  backup_header ← make_gpt_header bs (last_lba L) 1 (first_usable_lba L) (last_usable_lba L)
                    (backup_entry_lba L) partition_array_crc;
  boot ← boot_sector L;
  let file_clusters := ceil_div (len efi_bytes) bs in
  let last_file_cluster := first_file_cluster + file_clusters - 1 in
  raise_if (runtime_file_gap_clusters <? 0) (ValueError "runtime file gap must be non-negative");;
  let readme_cluster :=
    default (last_file_cluster + 1 + runtime_file_gap_clusters) runtime_file_first_cluster in
  raise_if (readme_cluster <=? last_file_cluster)
    (ValueError "runtime FAT fixtures must begin after the EFI chain");;
  let config_cluster := readme_cluster + 1 in
  raise_if (cluster_count L + 2 <=? config_cluster)
    (ValueError "EFI image and runtime FAT fixtures do not fit in FAT16 data area");;
  fat ← fat_table L last_file_cluster readme_cluster config_cluster;
  root ← root_directory L readme_cluster;
  efi_dir ← efi_directory L;
  let config_directory_cluster :=
    match boot_fat_corruption with cross_link => readme_cluster | none => config_cluster end in
  boot_dir ← boot_directory L (len efi_bytes) config_directory_cluster;
  let image := foldl file_write (zeros (total_bytes L)) [
    write_lba L 0 mbr;
    write_lba L 1 primary_header;
    write_lba L (primary_entry_lba L) entries;
    write_lba L (backup_entry_lba L) entries;
    write_lba L (last_lba L) backup_header;
    write_lba L (efi_partition_first_lba L) boot;
    write_lba L (first_fat_lba L) fat;
    write_lba L (first_fat_lba L + sectors_per_fat L) fat;
    write_lba L (root_directory_lba L) root;
    write_lba L (first_data_lba L) efi_dir;
    write_lba L (first_data_lba L + 1) boot_dir;
    write_lba L (first_data_lba L + 2) efi_bytes;
    write_lba L (first_data_lba L + readme_cluster - 2) readme_bytes;
    write_lba L (first_data_lba L + config_cluster - 2) config_bytes] in
  primary_crc ← unpack_int "<I" primary_header 16;
  backup_crc ← unpack_int "<I" backup_header 16;
  Ok (image, {|
    md_layout := L; partition_array_crc := partition_array_crc; primary_header_crc := primary_crc;
    backup_header_crc := backup_crc; lba0_fnv1a64 := fnv1a64 mbr; efi_size := len efi_bytes;
    efi_fnv1a64 := fnv1a64 efi_bytes; file_cluster_count := file_clusters;
    file_first_cluster := first_file_cluster; file_last_cluster := last_file_cluster;
    md_runtime_file_gap_clusters := readme_cluster - last_file_cluster - 1;
    md_runtime_file_first_cluster := readme_cluster; runtime_readme_cluster := readme_cluster;
    runtime_readme_size := len readme_bytes; runtime_config_cluster := config_cluster;
    runtime_config_directory_cluster := config_directory_cluster;
    runtime_config_size := len config_bytes; md_boot_fat_corruption := boot_fat_corruption |}).

(** ** The layouts *)

(** The regions of a layout in order, and the bounds FAT16 asks for. *)
Record layout_ok (L : layout) : Prop := {
  lo_block : block_size L = 512 ∨ block_size L = 4096;
  lo_total : total_bytes L = total_lbas L * block_size L;
  lo_last : last_lba L = total_lbas L - 1 ∧ total_lbas L < 2 ^ 32;
  lo_primary : primary_entry_lba L = 2 ∧ 2 + entry_array_sectors L = first_usable_lba L;
  lo_array : entry_array_sectors L * block_size L = 128 * 128;
  lo_backup : backup_entry_lba L + entry_array_sectors L = last_lba L;
  lo_usable : last_usable_lba L + 1 = backup_entry_lba L;
  lo_efi : first_usable_lba L ≤ efi_partition_first_lba L ≤ efi_partition_last_lba L;
  lo_data : efi_partition_last_lba L < data_partition_first_lba L ∧
    data_partition_first_lba L < data_partition_last_lba L ∧
    data_partition_last_lba L = last_usable_lba L;
  lo_sectors : efi_partition_last_lba L = efi_partition_first_lba L + efi_partition_sectors L - 1 ∧
    data_partition_last_lba L = data_partition_first_lba L + data_partition_sectors L - 1;
  lo_aliases : partition_first_lba L = efi_partition_first_lba L ∧
    partition_last_lba L = efi_partition_last_lba L ∧ partition_sectors L = efi_partition_sectors L;
  lo_fat : first_fat_lba L = efi_partition_first_lba L + 1;
  lo_root : root_directory_lba L = first_fat_lba L + 2 * sectors_per_fat L;
  lo_first_data : first_data_lba L = root_directory_lba L + root_directory_sectors L;
  lo_clusters : first_data_lba L + cluster_count L = efi_partition_last_lba L + 1;
  lo_table : 2 * (cluster_count L + 2) ≤ sectors_per_fat L * block_size L;
  lo_directory : root_directory_sectors L * block_size L = root_entry_count L * 32;
  lo_small : sectors_per_fat L < 2 ^ 16 ∧ root_entry_count L = 512 ∧ partition_sectors L ≤ 0xFFFF;
  lo_fat16 : 4085 ≤ cluster_count L < 65525 }.

Definition layout_512 : layout := Eval vm_compute in
  match layout_for 512 with Ok L => L | Err _ => Layout 0 0 0 0 0 0 0 0 0 0 0 0 0 0 0 0 0 0 0 0 0 0 0 0 0 0 end.
Definition layout_4096 : layout := Eval vm_compute in
  match layout_for 4096 with Ok L => L | Err _ => Layout 0 0 0 0 0 0 0 0 0 0 0 0 0 0 0 0 0 0 0 0 0 0 0 0 0 0 end.

Lemma layout_512_ok : layout_for 512 = Ok layout_512 ∧ layout_ok layout_512.
Proof. split; [reflexivity|]. split; cbn; lia. Qed.
Lemma layout_4096_ok : layout_for 4096 = Ok layout_4096 ∧ layout_ok layout_4096.
Proof. split; [reflexivity|]. split; cbn; lia. Qed.

Lemma layout_for_cases bs :
  (∃ L, layout_for bs = Ok L ∧ block_size L = bs ∧ layout_ok L ∧ (bs = 512 ∨ bs = 4096)) ∨
  (layout_for bs = Err (ValueError "block size must be 512 or 4096") ∧ bs ≠ 512 ∧ bs ≠ 4096).
Proof.
  destruct (decide (bs = 512)) as [->|H1]; [|destruct (decide (bs = 4096)) as [->|H2]].
  - left. exists layout_512. destruct layout_512_ok. split_and!; [done|done|done|by left].
  - left. exists layout_4096. destruct layout_4096_ok. split_and!; [done|done|done|by right].
  - right. split; [|done]. unfold layout_for, geometry.
    by rewrite (proj2 (Z.eqb_neq _ _) H1), (proj2 (Z.eqb_neq _ _) H2).
Qed.

(** ** The GPT header *)

(** The 92 bytes of a header. *)
Definition gpt_bytes (crc current backup first last entry array_crc : Z) : bytes :=
  (B "EFI PART" ++ le_bytes 4 0x00010000 ++ le_bytes 4 92) ++ le_bytes 4 crc ++
  (zeros 4 ++ le_bytes 8 current ++ le_bytes 8 backup ++ le_bytes 8 first ++ le_bytes 8 last ++
   DISK_GUID ++ le_bytes 8 entry ++ le_bytes 4 128 ++ le_bytes 4 128 ++ le_bytes 4 array_crc).

Lemma len_gpt_bytes crc current backup first last entry array_crc :
  len (gpt_bytes crc current backup first last entry array_crc) = 92.
Proof. unfold gpt_bytes. rewrite !len_app, !len_le_bytes by lia. done. Qed.

Lemma bytes_ok_gpt_bytes crc current backup first last entry array_crc :
  bytes_ok (gpt_bytes crc current backup first last entry array_crc).
Proof.
  unfold gpt_bytes. rewrite !bytes_ok_app. split_and!; try (by apply bytes_ok_le_bytes; lia);
    by apply bytes_okb_spec.
Qed.

Ltac write_int fmt w :=
  rewrite (pack_into_int fmt w) by (apply parse_fmt_H || apply parse_fmt_I || apply parse_fmt_Q || len_solve);
  cbn [mbind result_bind].

Lemma make_gpt_header_eq bs current backup first last entry array_crc :
  92 ≤ bs → 0 ≤ current < 2 ^ 64 → 0 ≤ backup < 2 ^ 64 → 0 ≤ first < 2 ^ 64 → 0 ≤ last < 2 ^ 64 →
  0 ≤ entry < 2 ^ 64 → 0 ≤ array_crc < 2 ^ 32 →
  let g crc := gpt_bytes crc current backup first last entry array_crc in
  make_gpt_header bs current backup first last entry array_crc = Ok (g (crc32 (g 0)) ++ zeros (bs - 92)).
Proof.
  intros Hbs ? ? ? ? ? ? g. unfold make_gpt_header, le32, le64.
  assert (len (B "EFI PART") = 8) as Hsig by done. assert (len DISK_GUID = 16) as Hguid by done.
  rewrite <-(app_nil_l (zeros bs)).
  rewrite (set_slice_put _ _ 0 8) by len_solve. rewrite (put_grow _ _ _ 0 0 (bs - 8)) by len_solve.
  write_int "<I" 4. rewrite (put_grow _ _ _ 8 0 (bs - 12)) by len_solve.
  write_int "<I" 4. rewrite (put_grow _ _ _ 12 0 (bs - 16)) by len_solve.
  write_int "<Q" 8. rewrite (put_grow _ _ _ 24 8 (bs - 32)) by len_solve.
  write_int "<Q" 8. rewrite (put_grow _ _ _ 32 0 (bs - 40)) by len_solve.
  write_int "<Q" 8. rewrite (put_grow _ _ _ 40 0 (bs - 48)) by len_solve.
  write_int "<Q" 8. rewrite (put_grow _ _ _ 48 0 (bs - 56)) by len_solve.
  rewrite (set_slice_put _ _ 56 72) by len_solve. rewrite (put_grow _ _ _ 56 0 (bs - 72)) by len_solve.
  write_int "<Q" 8. rewrite (put_grow _ _ _ 72 0 (bs - 80)) by len_solve.
  write_int "<I" 4. rewrite (put_grow _ _ _ 80 0 (bs - 84)) by len_solve.
  write_int "<I" 4. rewrite (put_grow _ _ _ 84 0 (bs - 88)) by len_solve.
  write_int "<I" 4. rewrite (put_grow _ _ _ 88 0 (bs - 92)) by len_solve.
  match goal with |- context [?p ++ zeros (bs - 92)] => assert (p = g 0) as -> end.
  { unfold g, gpt_bytes. rewrite <-!app_assoc. reflexivity. }
  pose proof (len_gpt_bytes 0 current backup first last entry array_crc) as Hl. fold (g 0) in Hl.
  rewrite slice_app_l, (slice_full (g 0)) by lia.
  pose proof (crc32_word32 (g 0) (bytes_ok_gpt_bytes _ _ _ _ _ _ _)) as Hcrc. unfold word32 in Hcrc.
  change 0xFFFFFFFF with (Z.ones 32). rewrite land_ones_small by lia.
  rewrite (pack_into_int "<I" 4) by (apply parse_fmt_I || (rewrite ?len_app, ?Hl, ?len_zeros by lia; lia)).
  f_equal. unfold g at 1 3, gpt_bytes. rewrite <-!(app_assoc _ _ (zeros (bs - 92))).
  apply put_mid; [done|]. by rewrite !len_le_bytes by lia.
Qed.

(** ** The fixed sectors *)

Definition mbr_bytes (L : layout) : bytes :=
  MARKER ++ zeros 430 ++ [0x00; 0x00; 0x02; 0x00; 0xEE; 0xFF; 0xFF; 0xFF] ++ le_bytes 4 1 ++
  le_bytes 4 (total_lbas L - 1) ++ zeros 48 ++ [0x55; 0xAA] ++ zeros (block_size L - 512).

Definition entry_bytes (type_guid guid : bytes) (first last : Z) (name : bytes) : bytes :=
  type_guid ++ guid ++ le_bytes 8 first ++ le_bytes 8 last ++ zeros 8 ++ name ++ zeros (72 - len name).

Definition entries_bytes (L : layout) : bytes :=
  entry_bytes EFI_SYSTEM_PARTITION_GUID EFI_PARTITION_GUID
    (efi_partition_first_lba L) (efi_partition_last_lba L) (utf16le (B "ZigOs NVMe FAT")) ++
  entry_bytes ZIGOS_DATA_PARTITION_GUID DATA_PARTITION_GUID
    (data_partition_first_lba L) (data_partition_last_lba L) (utf16le (B "ZigOs Data")) ++
  zeros (126 * 128).

Definition boot_bytes (L : layout) : bytes :=
  [0xEB; 0x3C; 0x90] ++ B "ZIGOS   " ++ le_bytes 2 (block_size L) ++ [1] ++ le_bytes 2 1 ++ [2] ++
  le_bytes 2 (root_entry_count L) ++ le_bytes 2 (partition_sectors L) ++ [0xF8] ++
  le_bytes 2 (sectors_per_fat L) ++ le_bytes 2 63 ++ le_bytes 2 255 ++
  le_bytes 4 (partition_first_lba L) ++ zeros 4 ++ [0x80; 0; 0x29] ++ le_bytes 4 0x5A49474F ++
  B "ZIGOSNVME  " ++ B "FAT16   " ++ zeros 448 ++ [0x55; 0xAA] ++ zeros (block_size L - 512).

Ltac write_item :=
  rewrite set_item_Ok by len_solve; cbn [mbind result_bind].

Lemma protective_mbr_eq L :
  512 ≤ block_size L → 1 ≤ total_lbas L < 2 ^ 32 → protective_mbr L = Ok (mbr_bytes L).
Proof.
  intros Hbs Ht. unfold protective_mbr, le32. set (bs := block_size L) in *.
  assert (len MARKER = 16) as Hm by done. rewrite Hm.
  rewrite <-(app_nil_l (zeros bs)).
  change (set_slice ?l 0 16 MARKER) with (put l 0 MARKER).
  rewrite (put_grow _ _ _ 0 0 (bs - 16)) by len_solve.
  rewrite (set_slice_put _ _ 446 450) by len_solve.
  rewrite (put_grow _ _ _ 446 430 (bs - 450)) by len_solve.
  write_item. rewrite (put_grow _ _ _ 450 0 (bs - 451)) by len_solve.
  rewrite (set_slice_put _ _ 451 454) by len_solve.
  rewrite (put_grow _ _ _ 451 0 (bs - 454)) by len_solve.
  write_int "<I" 4. rewrite (put_grow _ _ _ 454 0 (bs - 458)) by len_solve.
  rewrite Z.min_l by lia.
  write_int "<I" 4. rewrite (put_grow _ _ _ 458 0 (bs - 462)) by len_solve.
  rewrite (set_slice_put _ _ 510 512) by len_solve.
  rewrite (put_grow _ _ _ 510 48 (bs - 512)) by len_solve.
  unfold mbr_bytes. fold bs. rewrite <-!app_assoc. reflexivity.
Qed.

Lemma partition_entries_eq L :
  0 ≤ efi_partition_first_lba L < 2 ^ 64 → 0 ≤ efi_partition_last_lba L < 2 ^ 64 →
  0 ≤ data_partition_first_lba L < 2 ^ 64 → 0 ≤ data_partition_last_lba L < 2 ^ 64 →
  partition_entries L = Ok (entries_bytes L).
Proof.
  intros ? ? ? ?. unfold partition_entries, le64.
  assert (len EFI_SYSTEM_PARTITION_GUID = 16) as G1 by done.
  assert (len EFI_PARTITION_GUID = 16) as G2 by done.
  assert (len ZIGOS_DATA_PARTITION_GUID = 16) as G3 by done.
  assert (len DATA_PARTITION_GUID = 16) as G4 by done.
  set (name := utf16le (B "ZigOs NVMe FAT")). assert (len name = 28) as G5 by done.
  set (data_name := utf16le (B "ZigOs Data")). assert (len data_name = 20) as G6 by done.
  assert (∃ N, N = 128 * 128) as [N HN] by eauto. rewrite <-HN, <-(app_nil_l (zeros N)).
  rewrite (set_slice_put _ _ 0 16) by len_solve. rewrite (put_grow _ _ _ 0 0 (N - 16)) by len_solve.
  rewrite (set_slice_put _ _ 16 32) by len_solve. rewrite (put_grow _ _ _ 16 0 (N - 32)) by len_solve.
  write_int "<Q" 8. rewrite (put_grow _ _ _ 32 0 (N - 40)) by len_solve.
  write_int "<Q" 8. rewrite (put_grow _ _ _ 40 0 (N - 48)) by len_solve.
  rewrite (set_slice_put _ _ 56 (56 + len name)) by len_solve.
  rewrite (put_grow _ _ _ 56 8 (N - 84)) by len_solve.
  rewrite (set_slice_put _ _ 128 (128 + 16)) by len_solve.
  rewrite (put_grow _ _ _ 128 44 (N - 144)) by len_solve.
  rewrite (set_slice_put _ _ (128 + 16) (128 + 32)) by len_solve.
  rewrite (put_grow _ _ _ 144 0 (N - 160)) by len_solve.
  write_int "<Q" 8. rewrite (put_grow _ _ _ (128 + 32) 0 (N - 168)) by len_solve.
  write_int "<Q" 8. rewrite (put_grow _ _ _ (128 + 40) 0 (N - 176)) by len_solve.
  rewrite (set_slice_put _ _ (128 + 56) (128 + 56 + len data_name)) by len_solve.
  rewrite (put_grow _ _ _ 184 8 (N - 204)) by len_solve.
  unfold entries_bytes, entry_bytes. fold name data_name. rewrite G5, G6.
  replace (zeros (N - 204)) with (zeros (72 - 20) ++ zeros (126 * 128)) by (rewrite <-zeros_add by lia; f_equal; lia).
  rewrite <-!app_assoc. reflexivity.
Qed.

Lemma boot_sector_bytes L :
  layout_ok L → 0 ≤ partition_first_lba L < 2 ^ 32 → 0 ≤ partition_sectors L → 0 ≤ sectors_per_fat L →
  boot_sector L = Ok (boot_bytes L).
Proof.
  intros HL ? ? ?. destruct (lo_small _ HL) as (Hspf & Hroot & Hps). pose proof (lo_block _ HL) as Hb.
  unfold boot_sector, le16, le32. set (bs := block_size L) in *.
  rewrite (proj2 (Z.leb_le _ _) Hps).
  assert (len (B "ZIGOS   ") = 8) as G1 by done. assert (len (B "ZIGOSNVME  ") = 11) as G2 by done.
  assert (len (B "FAT16   ") = 8) as G3 by done.
  rewrite <-(app_nil_l (zeros bs)).
  rewrite (set_slice_put _ _ 0 3) by len_solve. rewrite (put_grow _ _ _ 0 0 (bs - 3)) by len_solve.
  rewrite (set_slice_put _ _ 3 11) by len_solve. rewrite (put_grow _ _ _ 3 0 (bs - 11)) by len_solve.
  write_int "<H" 2. rewrite (put_grow _ _ _ 11 0 (bs - 13)) by len_solve.
  write_item. rewrite (put_grow _ _ _ 13 0 (bs - 14)) by len_solve.
  write_int "<H" 2. rewrite (put_grow _ _ _ 14 0 (bs - 16)) by len_solve.
  write_item. rewrite (put_grow _ _ _ 16 0 (bs - 17)) by len_solve.
  write_int "<H" 2. rewrite (put_grow _ _ _ 17 0 (bs - 19)) by len_solve.
  write_int "<H" 2. rewrite (put_grow _ _ _ 19 0 (bs - 21)) by len_solve.
  write_item. rewrite (put_grow _ _ _ 21 0 (bs - 22)) by len_solve.
  write_int "<H" 2. rewrite (put_grow _ _ _ 22 0 (bs - 24)) by len_solve.
  write_int "<H" 2. rewrite (put_grow _ _ _ 24 0 (bs - 26)) by len_solve.
  write_int "<H" 2. rewrite (put_grow _ _ _ 26 0 (bs - 28)) by len_solve.
  write_int "<I" 4. rewrite (put_grow _ _ _ 28 0 (bs - 32)) by len_solve.
  write_item. rewrite (put_grow _ _ _ 36 4 (bs - 37)) by len_solve.
  write_item. rewrite (put_grow _ _ _ 38 1 (bs - 39)) by len_solve.
  write_int "<I" 4. rewrite (put_grow _ _ _ 39 0 (bs - 43)) by len_solve.
  rewrite (set_slice_put _ _ 43 54) by len_solve. rewrite (put_grow _ _ _ 43 0 (bs - 54)) by len_solve.
  rewrite (set_slice_put _ _ 54 62) by len_solve. rewrite (put_grow _ _ _ 54 0 (bs - 62)) by len_solve.
  rewrite (set_slice_put _ _ 510 512) by len_solve.
  rewrite (put_grow _ _ _ 510 448 (bs - 512)) by len_solve.
  unfold boot_bytes. fold bs. rewrite <-!app_assoc. reflexivity.
Qed.

(** ** Directories *)

Definition dir_bytes (name : bytes) (attributes first size : Z) : bytes :=
  name ++ [attributes] ++ zeros 14 ++ le_bytes 2 first ++ le_bytes 4 size.

Lemma len_dir_bytes name attributes first size :
  len name = 11 → len (dir_bytes name attributes first size) = 32.
Proof. intros. unfold dir_bytes. rewrite !len_app, !len_le_bytes by lia. len_solve. Qed.

Lemma set_directory_entry_eq p n offset name attributes first size :
  offset = len p → 32 ≤ n → len name = 11 → 0 ≤ attributes < 256 → 0 ≤ first < 2 ^ 16 →
  0 ≤ size < 2 ^ 32 →
  set_directory_entry (p ++ zeros n) offset name attributes first size =
    Ok ((p ++ dir_bytes name attributes first size) ++ zeros (n - 32)).
Proof.
  intros -> ? Hname ? ? ?. unfold set_directory_entry, le16, le32. rewrite Hname.
  cbn [mbind result_bind raise_if Z.eqb negb Pos.eqb]. pose proof (len_nonneg p).
  rewrite <-Hname. fold (put (p ++ zeros n) (len p) name).
  rewrite (put_grow _ _ _ (len p) 0 (n - 11)) by len_solve. rewrite Hname.
  write_item. rewrite (put_grow _ _ _ (len p + 11) 0 (n - 12)) by len_solve.
  write_int "<H" 2. rewrite (put_grow _ _ _ (len p + 20) 8 (n - 22)) by len_solve.
  write_int "<H" 2. rewrite (put_grow _ _ _ (len p + 26) 4 (n - 28)) by len_solve.
  write_int "<I" 4. rewrite (put_grow _ _ _ (len p + 28) 0 (n - 32)) by len_solve.
  unfold dir_bytes. rewrite <-!app_assoc. reflexivity.
Qed.

Lemma set_item_zero p n : 1 ≤ n → set_item (p ++ zeros n) (len p) 0 = Ok (p ++ zeros n).
Proof.
  intros. pose proof (len_nonneg p). rewrite set_item_Ok by len_solve.
  rewrite (put_grow _ _ _ (len p) 0 (n - 1)) by len_solve. rewrite <-app_assoc. f_equal. f_equal.
  replace n with (1 + (n - 1)) at 2 by lia. by rewrite zeros_add by lia.
Qed.

(** The three directories. *)
Lemma root_directory_eq L readme :
  64 < root_directory_sectors L * block_size L → 0 ≤ readme < 2 ^ 16 →
  root_directory L readme = Ok (dir_bytes (B "EFI        ") 0x10 2 0 ++
    dir_bytes (B "README  TXT") 0x21 readme (len readme_bytes) ++
    zeros (root_directory_sectors L * block_size L - 64)).
Proof.
  intros Hn Hr. unfold root_directory. set (n := root_directory_sectors L * block_size L) in *.
  assert (len readme_bytes = 39) as Hl by done. rewrite Hl.
  pose proof (len_dir_bytes (B "EFI        ") 0x10 2 0 eq_refl) as H1.
  pose proof (len_dir_bytes (B "README  TXT") 0x21 readme 39 eq_refl) as H2.
  rewrite <-(app_nil_l (zeros n)), set_directory_entry_eq by (done || lia). cbn [mbind result_bind].
  rewrite set_directory_entry_eq by (done || (rewrite ?len_app, ?H1; done || lia)). cbn [mbind result_bind].
  set (p := ([] ++ dir_bytes _ _ _ _) ++ dir_bytes _ _ _ _).
  replace 64 with (len p) at 1 by (unfold p; rewrite !len_app, H1, H2; done).
  rewrite set_item_zero by lia. unfold p. rewrite app_nil_l, <-app_assoc.
  by replace (n - 32 - 32) with (n - 64) by lia.
Qed.

Lemma efi_directory_eq L :
  32 < block_size L →
  efi_directory L = Ok (dir_bytes (B "BOOT       ") 0x10 3 0 ++ zeros (block_size L - 32)).
Proof.
  intros Hn. unfold efi_directory.
  pose proof (len_dir_bytes (B "BOOT       ") 0x10 3 0 eq_refl) as H1.
  rewrite <-(app_nil_l (zeros _)), set_directory_entry_eq by (done || lia). cbn [mbind result_bind].
  rewrite app_nil_l. rewrite <-H1 at 2. rewrite set_item_zero by lia. done.
Qed.

Lemma boot_directory_eq L size config :
  64 < block_size L → 0 ≤ size < 2 ^ 32 → 0 ≤ config < 2 ^ 16 →
  boot_directory L size config = Ok (dir_bytes (B "BOOTX64 EFI") 0x20 first_file_cluster size ++
    dir_bytes (B "BOOT    CFG") 0x21 config (len config_bytes) ++ zeros (block_size L - 64)).
Proof.
  intros Hn Hs Hc. unfold boot_directory. set (n := block_size L) in *.
  assert (len config_bytes = 29) as Hl by done. rewrite Hl.
  pose proof (len_dir_bytes (B "BOOTX64 EFI") 0x20 first_file_cluster size eq_refl) as H1.
  pose proof (len_dir_bytes (B "BOOT    CFG") 0x21 config 29 eq_refl) as H2.
  rewrite <-(app_nil_l (zeros n)), set_directory_entry_eq by (done || lia). cbn [mbind result_bind].
  rewrite set_directory_entry_eq by (done || (rewrite ?len_app, ?H1; done || lia)). cbn [mbind result_bind].
  set (p := ([] ++ dir_bytes _ _ _ _) ++ dir_bytes _ _ _ _).
  replace 64 with (len p) at 1 by (unfold p; rewrite !len_app, H1, H2; done).
  rewrite set_item_zero by lia. unfold p. rewrite app_nil_l, <-app_assoc.
  by replace (n - 32 - 32) with (n - 64) by lia.
Qed.

(** ** The FAT16 table *)

Definition fat16_get (fat : bytes) (c : Z) : Z := le_int (slice fat (2 * c) (2 * c + 2)).

Lemma set_fat16_entry_ok fat c v :
  0 ≤ c → 2 * c + 2 ≤ len fat → 0 ≤ v < 2 ^ 16 →
  ∃ fat', set_fat16_entry fat c v = Ok fat' ∧ len fat' = len fat ∧
    ∀ c', 0 ≤ c' → 2 * c' + 2 ≤ len fat →
      fat16_get fat' c' = if decide (c' = c) then v else fat16_get fat c'.
Proof.
  intros Hc Hl Hv. unfold set_fat16_entry, le16. rewrite (Z.mul_comm c 2).
  rewrite (pack_into_int "<H" 2) by (apply parse_fmt_H || lia).
  eexists. split; [done|]. split; [len_solve|]. intros c' Hc' Hl'. unfold fat16_get.
  case_decide as E.
  - subst c'. rewrite slice_put_same by len_solve. by apply le_int_le_bytes.
  - by rewrite slice_put_ne by len_solve.
Qed.

(** The table value of each cluster. *)
Definition fat16_value (last_file readme config c : Z) : Z :=
  if c =? 0 then 0xFFF8
  else if (c <? first_file_cluster) then 0xFFFF
  else if (c <? last_file) then c + 1
  else if (c =? last_file) || (c =? readme) || (c =? config) then 0xFFFF
  else 0.

Lemma fat_table_spec L last_file readme config :
  3 ≤ last_file → last_file < readme → config = readme + 1 → config < 0xFFF8 →
  2 * config + 2 ≤ sectors_per_fat L * block_size L →
  ∃ fat, fat_table L last_file readme config = Ok fat ∧
    len fat = sectors_per_fat L * block_size L ∧
    ∀ c, 0 ≤ c → 2 * c + 2 ≤ len fat → fat16_get fat c = fat16_value last_file readme config c.
Proof.
  intros Hl Hr Hc Hmax Hn. unfold fat_table, first_file_cluster.
  set (n := sectors_per_fat L * block_size L) in *.
  assert (∀ c, 0 ≤ c → 2 * c + 2 ≤ n → fat16_get (zeros n) c = 0) as F.
  { intros c H1 H2. unfold fat16_get. rewrite slice_zeros by lia.
    replace (2 * c + 2 - 2 * c) with 2 by lia. reflexivity. }
  assert (len (zeros n) = n) as Hz by (rewrite len_zeros; lia).
  destruct (set_fat16_entry_ok (zeros n) 0 0xFFF8) as (f0 & -> & L0 & F0); try lia. cbn [mbind result_bind].
  destruct (set_fat16_entry_ok f0 1 0xFFFF) as (f1 & -> & L1 & F1); try lia. cbn [mbind result_bind].
  destruct (set_fat16_entry_ok f1 2 0xFFFF) as (f2 & -> & L2 & F2); try lia. cbn [mbind result_bind].
  destruct (set_fat16_entry_ok f2 3 0xFFFF) as (f3 & -> & L3 & F3); try lia. cbn [mbind result_bind].
  destruct (foldM_range (λ i fat, len fat = n ∧ ∀ c, 0 ≤ c → 2 * c + 2 ≤ n →
      fat16_get fat c = if (4 <=? c) && (c <? i) then c + 1 else fat16_get f3 c)
    (λ fat cluster, set_fat16_entry fat cluster (cluster + 1)) 4 (Z.max 4 last_file) f3)
    as (f4 & E4 & L4 & F4); [lia|split; [lia|]| |].
  { intros c ? ?. by destruct (Z.leb_spec 4 c), (Z.ltb_spec c 4); try lia. }
  { intros i f Hi [Lf Ff].
    destruct (set_fat16_entry_ok f i (i + 1)) as (f' & E & L' & F'); try lia.
    exists f'. split; [exact E|]. split; [lia|]. intros c H1 H2. rewrite F' by lia. rewrite Ff by lia.
    case_decide; destruct (Z.leb_spec 4 c), (Z.ltb_spec c i), (Z.ltb_spec c (i + 1)); cbn [andb]; lia. }
  assert (range 4 last_file = range 4 (Z.max 4 last_file)) as ->.
  { destruct (decide (last_file = 3)) as [->|]; [reflexivity|]. by rewrite Z.max_r by lia. }
  rewrite E4. cbn [mbind result_bind].
  destruct (set_fat16_entry_ok f4 last_file 0xFFFF) as (f5 & -> & L5 & F5); try lia. cbn [mbind result_bind].
  destruct (set_fat16_entry_ok f5 readme 0xFFFF) as (f6 & -> & L6 & F6); try lia. cbn [mbind result_bind].
  destruct (set_fat16_entry_ok f6 config 0xFFFF) as (f7 & E7 & L7 & F7); try lia.
  exists f7. split; [exact E7|]. split; [lia|]. intros c H1 H2.
  rewrite F7, F6, F5, F4, F3, F2, F1, F0, F by lia. unfold fat16_value, first_file_cluster.
  repeat case_decide; subst; repeat match goal with
    | |- context [?a =? ?b] => destruct (Z.eqb_spec a b)
    | |- context [?a <? ?b] => destruct (Z.ltb_spec a b)
    | |- context [?a <=? ?b] => destruct (Z.leb_spec a b)
    end; cbn [andb orb]; lia.
Qed.

(** ** Writes to the image file *)

Definition in_file (n : Z) (w : Z * bytes) : Prop := 0 ≤ w.1 ∧ w.1 + len w.2 ≤ n.
Definition apart (off n : Z) (w : Z * bytes) : Prop := w.1 + len w.2 ≤ off ∨ off + n ≤ w.1.

Lemma file_write_put file w : in_file (len file) w → file_write file w = put file w.1 w.2.
Proof.
  destruct w as [off d]. unfold in_file; simpl. intros [? ?].
  pose proof (len_nonneg d). destruct (Z.eqb_spec (len d) 0) as [E|E].
  - destruct d; [|rewrite len_cons in E; pose proof (len_nonneg d); lia].
    rewrite put_eq by (change (len []) with 0; lia). change (len []) with 0. rewrite Z.add_0_r.
    rewrite app_nil_l. by rewrite take_drop.
  - by rewrite zeros_nonpos, app_nil_r by lia.
Qed.

Lemma len_writes ws file :
  Forall (in_file (len file)) ws → len (foldl file_write file ws) = len file.
Proof.
  revert file. induction ws as [|w ws IH]; intros file; [done|].
  intros [Hw Hws]%Forall_cons. cbn [foldl]. rewrite file_write_put by done.
  destruct Hw as [? ?]. assert (len (put file w.1 w.2) = len file) as E by (rewrite len_put by lia; done).
  rewrite IH; [done|]. by rewrite E.
Qed.

(** A region no write touches, and the region of the last write to touch it. *)
Lemma writes_apart ws file off n :
  Forall (in_file (len file)) ws → Forall (apart off n) ws → 0 ≤ off → 0 ≤ n →
  slice (foldl file_write file ws) off (off + n) = slice file off (off + n).
Proof.
  revert file. induction ws as [|w ws IH]; intros file; [done|].
  intros [Hw Hws]%Forall_cons [Ha Has]%Forall_cons Ho Hn. cbn [foldl].
  rewrite file_write_put by done. destruct Hw as [? ?]. unfold apart in Ha.
  assert (len (put file w.1 w.2) = len file) as E by (rewrite len_put by lia; done).
  rewrite IH by (rewrite ?E; done). apply slice_put_ne; lia.
Qed.

Lemma writes_read ws1 off d ws2 file :
  Forall (in_file (len file)) (ws1 ++ (off, d) :: ws2) → Forall (apart off (len d)) ws2 →
  slice (foldl file_write file (ws1 ++ (off, d) :: ws2)) off (off + len d) = d.
Proof.
  intros Hin Hap. rewrite foldl_app. apply Forall_app in Hin as [H1 [Hw H2]%Forall_cons].
  cbn [foldl]. pose proof (len_writes ws1 file H1) as E. pose proof (len_nonneg d).
  set (f := foldl file_write file ws1) in *. destruct Hw as [? ?]; cbn [fst snd] in *.
  rewrite file_write_put by (split; cbn [fst snd]; lia). cbn [fst snd].
  assert (len (put f off d) = len file) as E' by (rewrite len_put by lia; done).
  rewrite writes_apart by (rewrite ?E'; done || lia). apply slice_put_same; lia.
Qed.

End NvmeImage.
