(* ===== verification/NvmeSpec.v ===== *)
(** * What the NVMe test image holds

    The specification [image_spec] of the image [NvmeImage.build_image] leaves
    and the properties of the tool: the image holds what the specification says
    for every EFI image that fits, the other inputs raise the stated exceptions,
    the GPT headers carry valid CRCs that detect a changed byte, and a reader of
    the FAT16 partition finds the files. *)

From S2P Require Import Prelude PyBytes PyHash NvmeImage.

Module NvmeSpec.
Import NvmeImage.

(** ** The image *)

Definition region (L : layout) (image : bytes) (lba n : Z) : bytes :=
  slice image (lba * block_size L) (lba * block_size L + n).

(** The sectors each write of [build_image] covers: first sector and count. *)
Definition spans (L : layout) (last_file readme : Z) : list (Z * Z) := [
  (0, 1); (1, 1); (primary_entry_lba L, entry_array_sectors L);
  (backup_entry_lba L, entry_array_sectors L); (last_lba L, 1);
  (efi_partition_first_lba L, 1); (first_fat_lba L, sectors_per_fat L);
  (first_fat_lba L + sectors_per_fat L, sectors_per_fat L);
  (root_directory_lba L, root_directory_sectors L); (first_data_lba L, 1); (first_data_lba L + 1, 1);
  (first_data_lba L + 2, last_file - 3); (first_data_lba L + readme - 2, 1);
  (first_data_lba L + (readme + 1) - 2, 1)].

Definition spans_apart (s t : Z * Z) : Prop := t.1 + t.2 ≤ s.1 ∨ s.1 + s.2 ≤ t.1.

Fixpoint pairwise (l : list (Z * Z)) : Prop :=
  match l with [] => True | s :: l => Forall (spans_apart s) l ∧ pairwise l end.

Lemma pairwise_lookup l i s : pairwise l → l !! i = Some s → Forall (spans_apart s) (drop (Datatypes.S i) l).
Proof.
  revert i. induction l as [|t l IH]; intros i; [done|]. intros [H Hp].
  destruct i as [|i]; intros Hi; simplify_eq/=; [done|by apply IH].
Qed.

Lemma sectors_positive L : layout_ok L →
  0 < entry_array_sectors L ∧ 0 ≤ sectors_per_fat L ∧ 0 ≤ root_directory_sectors L ∧ 0 < block_size L.
Proof.
  intros HL. pose proof (lo_array _ HL). pose proof (lo_table _ HL). pose proof (lo_directory _ HL).
  pose proof (lo_small _ HL). pose proof (lo_fat16 _ HL).
  destruct (lo_block _ HL) as [Hb|Hb]; rewrite Hb in *; lia.
Qed.

(** No two writes overlap, and all are inside the file. *)
Lemma spans_ok L last_file readme :
  layout_ok L → 3 ≤ last_file < readme → readme + 1 < cluster_count L + 2 →
  pairwise (spans L last_file readme) ∧
  Forall (λ s, 0 ≤ s.1 ∧ 0 ≤ s.2 ∧ s.1 + s.2 ≤ total_lbas L) (spans L last_file readme).
Proof.
  intros HL Hlast Hfit. pose proof (sectors_positive L HL) as (P1 & P2 & P3 & _).
  pose proof (lo_last _ HL) as [F1 _]. pose proof (lo_primary _ HL) as [F2 F2'].
  pose proof (lo_backup _ HL) as F3. pose proof (lo_usable _ HL) as F4. pose proof (lo_efi _ HL) as F5.
  pose proof (lo_data _ HL) as F6. pose proof (lo_fat _ HL) as F7. pose proof (lo_root _ HL) as F8.
  pose proof (lo_first_data _ HL) as F9. pose proof (lo_clusters _ HL) as F10. clear HL.
  unfold spans; split; cbn [pairwise];
    repeat match goal with
    | |- _ ∧ _ => split
    | |- Forall _ (_ :: _) => apply Forall_cons_2
    | |- Forall _ [] => apply Forall_nil_2
    | |- True => exact I
    end; unfold spans_apart; cbn [fst snd]; lia.
Qed.

Section regions.
Context (L : layout) (HL : layout_ok L).
Context (mbr header1 entries header2 boot fat root efi_dir boot_dir efi readme_data config_data : bytes).
Context (last_file readme : Z).
Context (Hlast : 3 ≤ last_file < readme) (Hfit : readme + 1 < cluster_count L + 2).

Definition pieces : list bytes :=
  [mbr; header1; entries; entries; header2; boot; fat; fat; root; efi_dir; boot_dir; efi; readme_data;
   config_data].

(** Each piece fits the sectors of its write. *)
Context (Hpieces : Forall2 (λ s d, len d ≤ s.2 * block_size L) (spans L last_file readme) pieces).

Definition all_writes : list (Z * bytes) := [
  write_lba L 0 mbr; write_lba L 1 header1; write_lba L (primary_entry_lba L) entries;
  write_lba L (backup_entry_lba L) entries; write_lba L (last_lba L) header2;
  write_lba L (efi_partition_first_lba L) boot; write_lba L (first_fat_lba L) fat;
  write_lba L (first_fat_lba L + sectors_per_fat L) fat; write_lba L (root_directory_lba L) root;
  write_lba L (first_data_lba L) efi_dir; write_lba L (first_data_lba L + 1) boot_dir;
  write_lba L (first_data_lba L + 2) efi; write_lba L (first_data_lba L + readme - 2) readme_data;
  write_lba L (first_data_lba L + (readme + 1) - 2) config_data].

Lemma all_writes_zip :
  all_writes = zip_with (λ s d, write_lba L s.1 d) (spans L last_file readme) pieces.
Proof using Type. reflexivity. Qed.

Definition written : bytes := foldl file_write (zeros (total_bytes L)) all_writes.

Lemma all_writes_lookup i w :
  all_writes !! i = Some w →
  ∃ s d, spans L last_file readme !! i = Some s ∧ pieces !! i = Some d ∧ w = write_lba L s.1 d ∧
    len d ≤ s.2 * block_size L.
Proof using Hpieces.
  rewrite all_writes_zip. intros H. apply lookup_zip_with_Some in H as (s & d & -> & Hs & Hd).
  exists s, d. split_and!; try done. by apply (Forall2_lookup_lr _ _ _ _ _ _ Hpieces Hs Hd).
Qed.

Lemma len_image_zeros : len (zeros (total_bytes L)) = total_lbas L * block_size L.
Proof using HL Hlast Hfit.
  pose proof (sectors_positive L HL) as (_ & _ & _ & Hb).
  destruct (spans_ok L last_file readme HL Hlast Hfit) as [_ H].
  apply Forall_cons in H as [H _]. cbn [fst snd] in H. rewrite (lo_total _ HL). apply len_zeros. nia.
Qed.

Lemma all_writes_in_file : Forall (in_file (len (zeros (total_bytes L)))) all_writes.
Proof using All.
  apply (proj2 (Forall_lookup _ _)). intros i w Hi.
  destruct (all_writes_lookup i w Hi) as (s & d & Hs & _ & -> & Hd).
  destruct (spans_ok L last_file readme HL Hlast Hfit) as [_ Hin].
  pose proof (Forall_lookup_1 _ _ _ _ Hin Hs) as (H1 & H2 & H3).
  pose proof (sectors_positive L HL) as (_ & _ & _ & Hb). rewrite len_image_zeros.
  unfold in_file, write_lba; cbn [fst snd]. nia.
Qed.

Lemma len_written : len written = total_lbas L * block_size L.
Proof using All.
  unfold written. rewrite len_writes by apply all_writes_in_file. apply len_image_zeros.
Qed.

(** Each region holds what its write wrote. *)
Lemma region_written i s d :
  spans L last_file readme !! i = Some s → pieces !! i = Some d →
  region L written s.1 (len d) = d.
Proof using All.
  intros Hs Hd. assert (all_writes !! i = Some (write_lba L s.1 d)) as Hi.
  { rewrite all_writes_zip. apply lookup_zip_with_Some. by exists s, d. }
  unfold region, written. rewrite <-(take_drop_middle _ _ _ Hi). apply writes_read.
  - fold (write_lba L s.1 d). rewrite (take_drop_middle _ _ _ Hi). apply all_writes_in_file.
  - apply (proj2 (Forall_lookup _ _)). intros j w Hj. rewrite lookup_drop in Hj.
    destruct (all_writes_lookup _ w Hj) as (t & d' & Ht & _ & -> & Hd').
    destruct (spans_ok L last_file readme HL Hlast Hfit) as [Hp _].
    pose proof (pairwise_lookup _ _ _ Hp Hs) as Hap.
    assert (drop (Datatypes.S i) (spans L last_file readme) !! j = Some t) as Hjt by (by rewrite lookup_drop).
    pose proof (Forall_lookup_1 _ _ _ _ Hap Hjt) as Hst.
    pose proof (Forall2_lookup_lr _ _ _ _ _ _ Hpieces Hs Hd) as Hds. simpl in Hds.
    pose proof (sectors_positive L HL) as (_ & _ & _ & Hb).
    unfold apart, write_lba, spans_apart in *; cbn [fst snd]. nia.
Qed.
End regions.

(** What the image of [build_image] should hold, sector by sector: [config_dir]
    is the cluster the directory records for BOOT.CFG. *)
Record image_spec (L : layout) (efi : bytes) (readme config_dir : Z) (image : bytes) : Prop := {
  is_size : len image = total_bytes L;
  is_mbr : region L image 0 (block_size L) = mbr_bytes L;
  is_primary :
    let g crc := gpt_bytes crc 1 (last_lba L) (first_usable_lba L) (last_usable_lba L)
                   (primary_entry_lba L) (crc32 (entries_bytes L)) in
    region L image 1 (block_size L) = g (crc32 (g 0)) ++ zeros (block_size L - 92);
  is_backup :
    let g crc := gpt_bytes crc (last_lba L) 1 (first_usable_lba L) (last_usable_lba L)
                   (backup_entry_lba L) (crc32 (entries_bytes L)) in
    region L image (last_lba L) (block_size L) = g (crc32 (g 0)) ++ zeros (block_size L - 92);
  is_entries : region L image (primary_entry_lba L) (128 * 128) = entries_bytes L ∧
    region L image (backup_entry_lba L) (128 * 128) = entries_bytes L;
  is_boot : region L image (efi_partition_first_lba L) (block_size L) = boot_bytes L;
  is_fat_copies : let n := sectors_per_fat L * block_size L in
    region L image (first_fat_lba L + sectors_per_fat L) n = region L image (first_fat_lba L) n;
  is_fat : ∀ c, 0 ≤ c < cluster_count L + 2 →
    fat16_get (region L image (first_fat_lba L) (sectors_per_fat L * block_size L)) c =
      fat16_value (3 + ceil_div (len efi) (block_size L)) readme (readme + 1) c;
  is_root : region L image (root_directory_lba L) 64 =
    dir_bytes (B "EFI        ") 0x10 2 0 ++ dir_bytes (B "README  TXT") 0x21 readme (len readme_bytes);
  is_efi_dir : region L image (first_data_lba L) 32 = dir_bytes (B "BOOT       ") 0x10 3 0;
  is_boot_dir : region L image (first_data_lba L + 1) 64 =
    dir_bytes (B "BOOTX64 EFI") 0x20 first_file_cluster (len efi) ++
    dir_bytes (B "BOOT    CFG") 0x21 config_dir (len config_bytes);
  is_efi : region L image (first_data_lba L + first_file_cluster - 2) (len efi) = efi;
  is_readme : region L image (first_data_lba L + readme - 2) (len readme_bytes) = readme_bytes;
  is_config : region L image (first_data_lba L + (readme + 1) - 2) (len config_bytes) = config_bytes }.

Lemma region_prefix L image lba n k d rest :
  0 ≤ lba → 0 ≤ k → k ≤ n → 0 < block_size L →
  region L image lba n = d ++ rest → len d = k → region L image lba k = d.
Proof.
  intros ? ? ? ? H <-. unfold region in *. pose proof (len_nonneg d). assert (0 ≤ lba * block_size L) by nia.
  rewrite <-(slice_slice_prefix image _ (lba * block_size L + n)), H by lia.
  rewrite slice_app_l by lia. by apply slice_full.
Qed.

Lemma len_mbr_bytes L : 512 ≤ block_size L → len (mbr_bytes L) = block_size L.
Proof. intros. unfold mbr_bytes. assert (len MARKER = 16) by done. len_solve. Qed.
Lemma len_boot_bytes L : 512 ≤ block_size L → len (boot_bytes L) = block_size L.
Proof.
  intros. unfold boot_bytes. assert (len (B "ZIGOS   ") = 8) as G1 by done.
  assert (len (B "ZIGOSNVME  ") = 11) as G2 by done. assert (len (B "FAT16   ") = 8) as G3 by done.
  len_solve.
Qed.
Lemma len_entries_bytes L : len (entries_bytes L) = 128 * 128.
Proof.
  unfold entries_bytes, entry_bytes. assert (len EFI_SYSTEM_PARTITION_GUID = 16) as G1 by done.
  assert (len EFI_PARTITION_GUID = 16) as G2 by done.
  assert (len ZIGOS_DATA_PARTITION_GUID = 16) as G3 by done.
  assert (len DATA_PARTITION_GUID = 16) as G4 by done.
  assert (len (utf16le (B "ZigOs NVMe FAT")) = 28) as G5 by done.
  assert (len (utf16le (B "ZigOs Data")) = 20) as G6 by done. rewrite G5, G6. len_solve.
Qed.
Lemma bytes_ok_entries_bytes L : bytes_ok (entries_bytes L).
Proof.
  unfold entries_bytes, entry_bytes. rewrite !bytes_ok_app.
  split_and!; try (by apply bytes_ok_le_bytes; lia); try apply bytes_ok_zeros; by apply bytes_okb_spec.
Qed.

(** The cluster number [build_image] gives README.TXT. *)
Definition readme_cluster (bs efi_len gap : Z) (first : option Z) : Z :=
  default (3 + ceil_div efi_len bs + 1 + gap) first.
Definition config_dir_cluster (c : corruption) (readme : Z) : Z :=
  match c with cross_link => readme | none => readme + 1 end.

Lemma layout_bounds L : layout_ok L →
  512 ≤ block_size L ∧ 1 ≤ total_lbas L < 2 ^ 32 ∧ 0 ≤ first_usable_lba L ∧
  0 ≤ efi_partition_first_lba L ∧ 0 ≤ efi_partition_last_lba L < 2 ^ 32 ∧
  0 ≤ data_partition_first_lba L ∧ 0 ≤ last_usable_lba L ∧ data_partition_last_lba L < 2 ^ 32 ∧
  first_usable_lba L < 2 ^ 32 ∧ backup_entry_lba L < 2 ^ 32 ∧ 0 ≤ first_data_lba L ∧
  64 < root_directory_sectors L * block_size L ∧ 0 < efi_partition_sectors L.
Proof.
  intros HL. pose proof (sectors_positive L HL) as (P1 & P2 & P3 & _).
  pose proof (lo_last _ HL) as [F1 F1']. pose proof (lo_primary _ HL) as [F2 F2'].
  pose proof (lo_backup _ HL) as F3. pose proof (lo_usable _ HL) as F4. pose proof (lo_efi _ HL) as F5.
  pose proof (lo_data _ HL) as F6. pose proof (lo_fat _ HL) as F7. pose proof (lo_root _ HL) as F8.
  pose proof (lo_first_data _ HL) as F9. pose proof (lo_directory _ HL) as F10.
  pose proof (lo_small _ HL) as (_ & F11 & _). pose proof (lo_block _ HL) as F12.
  pose proof (lo_sectors _ HL) as [F13 _]. pose proof (lo_clusters _ HL) as F14.
  pose proof (lo_fat16 _ HL) as F15. clear HL. lia.
Qed.

Lemma land_word32 x : word32 x → Z.land x 0xFFFFFFFF = x.
Proof. unfold word32. intros. exact (land_ones_small x 32 ltac:(lia) ltac:(lia)). Qed.

(** The run of [build_image] once its parts have succeeded. *)
Lemma build_image_run L efi corr gap first mbr h1 entries h2 boot fat root efi_dir boot_dir c1 c2 :
  let bs := block_size L in
  let last_file := first_file_cluster + ceil_div (len efi) bs - 1 in
  let readme := default (last_file + 1 + gap) first in
  let config_dir := config_dir_cluster corr readme in
  let acrc := Z.land (crc32 entries) 0xFFFFFFFF in
  layout_for bs = Ok L → protective_mbr L = Ok mbr → partition_entries L = Ok entries →
  make_gpt_header bs 1 (last_lba L) (first_usable_lba L) (last_usable_lba L) (primary_entry_lba L) acrc
    = Ok h1 →
  make_gpt_header bs (last_lba L) 1 (first_usable_lba L) (last_usable_lba L) (backup_entry_lba L) acrc
    = Ok h2 →
  boot_sector L = Ok boot → 0 ≤ gap → last_file < readme → readme + 1 < cluster_count L + 2 →
  fat_table L last_file readme (readme + 1) = Ok fat → root_directory L readme = Ok root →
  efi_directory L = Ok efi_dir → boot_directory L (len efi) config_dir = Ok boot_dir →
  unpack_int "<I" h1 16 = Ok c1 → unpack_int "<I" h2 16 = Ok c2 →
  ∃ md, build_image efi bs corr gap first =
      Ok (written L mbr h1 entries h2 boot fat root efi_dir boot_dir efi readme_bytes config_bytes readme, md) ∧
    md_layout md = L ∧ runtime_readme_cluster md = readme ∧
    runtime_config_directory_cluster md = config_dir ∧ partition_array_crc md = acrc ∧
    primary_header_crc md = c1 ∧ backup_header_crc md = c2.
Proof.
  intros bs last_file readme config_dir acrc E1 E2 E3 E4 E5 E6 Hg Hr Hf E7 E8 E9 E10 E11 E12.
  eexists. split.
  - unfold build_image. rewrite E1. cbn [mbind result_bind]. rewrite E2. cbn [mbind result_bind].
    rewrite E3. cbn [mbind result_bind]. fold acrc. rewrite E4. cbn [mbind result_bind].
    rewrite E5. cbn [mbind result_bind]. rewrite E6. cbn [mbind result_bind]. fold last_file. fold readme.
    rewrite (raise_if_false (gap <? 0)) by lia. cbn [mbind result_bind].
    rewrite (raise_if_false (readme <=? last_file)) by lia. cbn [mbind result_bind].
    rewrite (raise_if_false (cluster_count L + 2 <=? readme + 1)) by lia. cbn [mbind result_bind].
    rewrite E7. cbn [mbind result_bind]. rewrite E8. cbn [mbind result_bind].
    rewrite E9. cbn [mbind result_bind].
    change (match corr with none => readme + 1 | cross_link => readme end) with config_dir.
    rewrite E10. cbn [mbind result_bind]. rewrite E11. cbn [mbind result_bind].
    rewrite E12. cbn [mbind result_bind]. reflexivity.
  - cbn [md_layout runtime_readme_cluster runtime_config_directory_cluster partition_array_crc
      primary_header_crc backup_header_crc].
    repeat split.
Qed.

Lemma gpt_crc_field crc current backup first last entry array_crc rest :
  0 ≤ crc < 2 ^ 32 →
  unpack_int "<I" (gpt_bytes crc current backup first last entry array_crc ++ rest) 16 = Ok crc.
Proof.
  intros. unfold gpt_bytes. set (h := B "EFI PART" ++ _). set (t := zeros 4 ++ _).
  rewrite <-!app_assoc. assert (len h = 16) as Hh by done.
  pose proof (len_nonneg t). pose proof (len_nonneg rest). pose proof (len_le_bytes 4 crc ltac:(lia)) as Hc.
  rewrite (unpack_int_eq "<I" 4) by (apply parse_fmt_I || (rewrite ?len_app; lia)).
  rewrite slice_app_r, Hh, slice_app_l by lia. change (16 - 16) with 0.
  rewrite slice_full by lia. by rewrite le_int_le_bytes.
Qed.

Section spec.
Context (L : layout) (HL : layout_ok L) (HLf : layout_for (block_size L) = Ok L).
Context (efi : bytes) (corr : corruption) (gap : Z) (first : option Z).
Let last_file : Z := first_file_cluster + ceil_div (len efi) (block_size L) - 1.
Let readme : Z := default (last_file + 1 + gap) first.
Let config_dir : Z := config_dir_cluster corr readme.
Context (Hgap : 0 ≤ gap) (Hlast : last_file < readme) (Hfit : readme + 1 < cluster_count L + 2).

Let g1 crc := gpt_bytes crc 1 (last_lba L) (first_usable_lba L) (last_usable_lba L)
                (primary_entry_lba L) (crc32 (entries_bytes L)).
Let g2 crc := gpt_bytes crc (last_lba L) 1 (first_usable_lba L) (last_usable_lba L)
                (backup_entry_lba L) (crc32 (entries_bytes L)).

Lemma file_clusters_bounds :
  3 ≤ last_file ∧ len efi ≤ (last_file - 3) * block_size L ∧ len efi < 2 ^ 32.
Proof using All.
  pose proof (layout_bounds L HL) as (B1 & _). pose proof (lo_fat16 _ HL) as F. pose proof (len_nonneg efi).
  pose proof (ceil_div_spec (len efi) (block_size L) ltac:(lia)) as C.
  assert (last_file - 3 = ceil_div (len efi) (block_size L)) as E by (unfold last_file, first_file_cluster; lia).
  rewrite <-E in C. destruct (lo_block _ HL) as [Hb|Hb]; rewrite Hb in *; lia.
Qed.

(** The pieces exist, and the image is their writes. *)
Lemma build_image_pieces :
  ∃ fat md,
    let root := dir_bytes (B "EFI        ") 0x10 2 0 ++
      dir_bytes (B "README  TXT") 0x21 readme (len readme_bytes) ++
      zeros (root_directory_sectors L * block_size L - 64) in
    let efi_dir := dir_bytes (B "BOOT       ") 0x10 3 0 ++ zeros (block_size L - 32) in
    let boot_dir := dir_bytes (B "BOOTX64 EFI") 0x20 first_file_cluster (len efi) ++
      dir_bytes (B "BOOT    CFG") 0x21 config_dir (len config_bytes) ++ zeros (block_size L - 64) in
    build_image efi (block_size L) corr gap first =
      Ok (written L (mbr_bytes L) (g1 (crc32 (g1 0)) ++ zeros (block_size L - 92)) (entries_bytes L)
            (g2 (crc32 (g2 0)) ++ zeros (block_size L - 92)) (boot_bytes L) fat root efi_dir boot_dir
            efi readme_bytes config_bytes readme, md) ∧
    len fat = sectors_per_fat L * block_size L ∧
    (∀ c, 0 ≤ c → 2 * c + 2 ≤ len fat → fat16_get fat c = fat16_value last_file readme (readme + 1) c) ∧
    md_layout md = L ∧ runtime_readme_cluster md = readme ∧
    runtime_config_directory_cluster md = config_dir ∧ partition_array_crc md = crc32 (entries_bytes L) ∧
    primary_header_crc md = crc32 (g1 0) ∧ backup_header_crc md = crc32 (g2 0).
Proof using All.
  pose proof (layout_bounds L HL) as (B1 & B2 & B3 & B4 & B5 & B6 & B7 & B8 & B9 & B10 & B11 & B12 & B13).
  pose proof (sectors_positive L HL) as (P1 & P2 & P3 & _). pose proof (lo_aliases _ HL) as (A1 & A2 & A3).
  pose proof (lo_last _ HL) as [F1 _]. pose proof (lo_fat16 _ HL) as F2. pose proof (lo_table _ HL) as F3.
  pose proof (lo_primary _ HL) as [F4 F4']. pose proof (lo_data _ HL) as F5. pose proof (lo_efi _ HL) as F6.
  pose proof (lo_usable _ HL) as F7. pose proof (lo_backup _ HL) as F8.
  pose proof file_clusters_bounds as (C1 & C2 & C3).
  pose proof (len_nonneg efi) as C0.
  assert (0 ≤ config_dir < 2 ^ 16) as Hcd by (unfold config_dir, config_dir_cluster; destruct corr; lia).
  pose proof (crc32_word32 _ (bytes_ok_entries_bytes L)) as Hcrc.
  pose proof (land_word32 _ Hcrc) as Hland. unfold word32 in Hcrc.
  destruct (fat_table_spec L last_file readme (readme + 1)) as (fat & Hfat & Lfat & Efat); try lia.
  destruct (build_image_run L efi corr gap first (mbr_bytes L)
    (g1 (crc32 (g1 0)) ++ zeros (block_size L - 92)) (entries_bytes L)
    (g2 (crc32 (g2 0)) ++ zeros (block_size L - 92)) (boot_bytes L) fat
    (dir_bytes (B "EFI        ") 0x10 2 0 ++ dir_bytes (B "README  TXT") 0x21 readme (len readme_bytes) ++
      zeros (root_directory_sectors L * block_size L - 64))
    (dir_bytes (B "BOOT       ") 0x10 3 0 ++ zeros (block_size L - 32))
    (dir_bytes (B "BOOTX64 EFI") 0x20 first_file_cluster (len efi) ++
      dir_bytes (B "BOOT    CFG") 0x21 config_dir (len config_bytes) ++ zeros (block_size L - 64))
    (crc32 (g1 0)) (crc32 (g2 0)))
    as (md & Hrun & M1 & M2 & M3 & M4 & M5 & M6).
  - exact HLf.
  - apply protective_mbr_eq; lia.
  - apply partition_entries_eq; lia.
  - rewrite Hland. apply make_gpt_header_eq; lia.
  - rewrite Hland. apply make_gpt_header_eq; lia.
  - apply boot_sector_bytes; [exact HL|lia|lia|lia].
  - exact Hgap.
  - exact Hlast.
  - exact Hfit.
  - exact Hfat.
  - apply root_directory_eq; lia.
  - apply efi_directory_eq; lia.
  - apply boot_directory_eq; lia.
  - apply gpt_crc_field. apply crc32_word32, bytes_ok_gpt_bytes.
  - apply gpt_crc_field. apply crc32_word32, bytes_ok_gpt_bytes.
  - exists fat, md. rewrite Hland in M4. split_and!; assumption.
Qed.

Lemma build_image_holds :
  ∃ image md, build_image efi (block_size L) corr gap first = Ok (image, md) ∧
    image_spec L efi readme config_dir image ∧
    md_layout md = L ∧ runtime_readme_cluster md = readme ∧
    runtime_config_directory_cluster md = config_dir ∧ partition_array_crc md = crc32 (entries_bytes L) ∧
    primary_header_crc md = crc32 (g1 0) ∧ backup_header_crc md = crc32 (g2 0).
Proof using All.
  destruct build_image_pieces as (fat & md & Hrun & Lfat & Efat & Hmd).
  pose proof file_clusters_bounds as (C1 & C2 & C3).
  pose proof (layout_bounds L HL) as (B1 & B2 & B3 & B4 & B5 & B6 & B7 & B8 & B9 & B10 & B11 & B12 & B13).
  pose proof (sectors_positive L HL) as (P1 & P2 & P3 & P4). pose proof (lo_array _ HL) as F1.
  set (root := dir_bytes (B "EFI        ") 0x10 2 0 ++
      dir_bytes (B "README  TXT") 0x21 readme (len readme_bytes) ++
      zeros (root_directory_sectors L * block_size L - 64)) in Hrun.
  set (efi_dir := dir_bytes (B "BOOT       ") 0x10 3 0 ++ zeros (block_size L - 32)) in Hrun.
  set (boot_dir := dir_bytes (B "BOOTX64 EFI") 0x20 first_file_cluster (len efi) ++
      dir_bytes (B "BOOT    CFG") 0x21 config_dir (len config_bytes) ++ zeros (block_size L - 64)) in Hrun.
  set (h1 := g1 (crc32 (g1 0)) ++ zeros (block_size L - 92)) in Hrun.
  set (h2 := g2 (crc32 (g2 0)) ++ zeros (block_size L - 92)) in Hrun.
  assert (len root = root_directory_sectors L * block_size L) as Lr.
  { unfold root. rewrite !len_app, !len_dir_bytes by done. rewrite len_zeros by lia. lia. }
  assert (len efi_dir = block_size L) as Le.
  { unfold efi_dir. rewrite len_app, len_dir_bytes by done. rewrite len_zeros by lia. lia. }
  assert (len boot_dir = block_size L) as Lb.
  { unfold boot_dir. rewrite !len_app, !len_dir_bytes by done. rewrite len_zeros by lia. lia. }
  assert (len h1 = block_size L ∧ len h2 = block_size L) as [Lh1 Lh2].
  { unfold h1, h2, g1, g2. rewrite !len_app, !len_gpt_bytes, len_zeros by lia. lia. }
  pose proof (len_mbr_bytes L B1) as Lm. pose proof (len_boot_bytes L B1) as Lbs.
  pose proof (len_entries_bytes L) as Len.
  assert (len readme_bytes = 39 ∧ len config_bytes = 29) as [Lrd Lcf] by done.
  assert (Forall2 (λ s d, len d ≤ s.2 * block_size L) (spans L last_file readme)
    (pieces (mbr_bytes L) h1 (entries_bytes L) h2 (boot_bytes L) fat root efi_dir boot_dir efi
       readme_bytes config_bytes)) as Hp.
  { unfold spans, pieces. repeat apply Forall2_cons_2; try apply Forall2_nil_2; cbn [snd]; lia. }
  assert (3 ≤ last_file < readme) as Hl by lia.
  pose proof (region_written L HL _ _ _ _ _ _ _ _ _ _ _ _ last_file readme Hl Hfit Hp) as HR.
  pose proof (len_written L HL _ _ _ _ _ _ _ _ _ _ _ _ last_file readme Hl Hfit Hp) as HN.
  set (image := written L _ _ _ _ _ _ _ _ _ _ _ _ _) in *.
  exists image, md. split; [exact Hrun|]. split; [|exact Hmd].
  pose proof (HR 0%nat _ _ eq_refl eq_refl) as R0. pose proof (HR 1%nat _ _ eq_refl eq_refl) as R1.
  pose proof (HR 2%nat _ _ eq_refl eq_refl) as R2. pose proof (HR 3%nat _ _ eq_refl eq_refl) as R3.
  pose proof (HR 4%nat _ _ eq_refl eq_refl) as R4. pose proof (HR 5%nat _ _ eq_refl eq_refl) as R5.
  pose proof (HR 6%nat _ _ eq_refl eq_refl) as R6. pose proof (HR 7%nat _ _ eq_refl eq_refl) as R7.
  pose proof (HR 8%nat _ _ eq_refl eq_refl) as R8. pose proof (HR 9%nat _ _ eq_refl eq_refl) as R9.
  pose proof (HR 10%nat _ _ eq_refl eq_refl) as R10. pose proof (HR 11%nat _ _ eq_refl eq_refl) as R11.
  pose proof (HR 12%nat _ _ eq_refl eq_refl) as R12. pose proof (HR 13%nat _ _ eq_refl eq_refl) as R13.
  clear HR. cbn [fst] in *. clearbody image.
  split.
  - rewrite HN. symmetry. apply (lo_total _ HL).
  - rewrite Lm in R0. exact R0.
  - rewrite Lh1 in R1. exact R1.
  - rewrite Lh2 in R4. exact R4.
  - rewrite Len in R2, R3. split; assumption.
  - rewrite Lbs in R5. exact R5.
  - rewrite <-Lfat. cbv zeta. by rewrite R6, R7.
  - intros c Hc. rewrite <-Lfat, R6. pose proof (lo_table _ HL).
    replace (3 + ceil_div (len efi) (block_size L)) with last_file by (unfold last_file, first_file_cluster; lia).
    apply Efat; lia.
  - rewrite Lr in R8. eapply (region_prefix L image _ _ 64 _ _);
      [pose proof (lo_root _ HL); pose proof (lo_fat _ HL); lia|lia| |lia|
       rewrite R8; unfold root; rewrite app_assoc; reflexivity|by rewrite len_app, !len_dir_bytes]. lia.
  - rewrite Le in R9. eapply (region_prefix L image _ _ 32 _ _);
      [lia|lia| |lia|rewrite R9; reflexivity|by rewrite len_dir_bytes]. lia.
  - rewrite Lb in R10. eapply (region_prefix L image _ _ 64 _ _);
      [lia|lia| |lia|rewrite R10; unfold boot_dir; rewrite app_assoc; reflexivity|
       by rewrite len_app, !len_dir_bytes]. lia.
  - replace (first_data_lba L + first_file_cluster - 2) with (first_data_lba L + 2)
      by (unfold first_file_cluster; lia). exact R11.
  - exact R12.
  - exact R13.
Qed.
End spec.

(** ** GPT header integrity *)

(** The check firmware makes of a header: the CRC field is the CRC of the 92
    bytes with the field zeroed. *)
Definition zeroed (h : bytes) : bytes := slice h 0 16 ++ zeros 4 ++ slice h 20 92.
Definition gpt_valid (h : bytes) : Prop := unpack_int "<I" h 16 = Ok (crc32 (zeroed h)).

Lemma zeroed_app h f t rest :
  len h = 16 → len f = 4 → len t = 72 → zeroed ((h ++ f ++ t) ++ rest) = h ++ zeros 4 ++ t.
Proof.
  intros Hh Hf Ht. unfold zeroed. f_equal; [|f_equal].
  - rewrite <-!app_assoc, slice_app_l by lia. apply slice_full. lia.
  - rewrite app_assoc, <-app_assoc, slice_app_r by (rewrite ?len_app; lia). rewrite len_app, Hh, Hf.
    rewrite slice_app_l by lia. apply slice_full. lia.
Qed.

Lemma gpt_bytes_valid current backup first last entry array_crc rest :
  let g crc := gpt_bytes crc current backup first last entry array_crc in
  gpt_valid (g (crc32 (g 0)) ++ rest).
Proof.
  intros g. unfold gpt_valid. unfold g at 1.
  rewrite gpt_crc_field by apply crc32_word32, bytes_ok_gpt_bytes. f_equal. f_equal.
  symmetry. unfold g at 1, gpt_bytes. rewrite zeroed_app.
  - reflexivity.
  - reflexivity.
  - by rewrite len_le_bytes by lia.
  - assert (len DISK_GUID = 16) as Hd by done. len_solve.
Qed.

(** One changed byte in the header makes it invalid. *)
Lemma gpt_valid_detects pre a b post :
  bytes_ok (pre ++ a :: post) → byte_ok b → a ≠ b → 92 ≤ len (pre ++ a :: post) → len pre < 92 →
  gpt_valid (pre ++ a :: post) → ¬ gpt_valid (pre ++ b :: post).
Proof.
  intros Hok Hb Hne Hlen Hpre Hv Hv'. unfold gpt_valid in *. pose proof (len_nonneg pre).
  apply bytes_ok_app in Hok as [Hp Hap]. inversion Hap as [|? ? Ha Hq]; subst.
  assert (len (pre ++ b :: post) = len (pre ++ a :: post)) as El by (by rewrite !len_app).
  rewrite (unpack_int_eq "<I" 4) in Hv, Hv' by (apply parse_fmt_I || lia).
  apply (inj Ok) in Hv, Hv'. unfold zeroed in Hv, Hv'. change (16 + 4) with 20 in *.
  destruct (decide (16 ≤ len pre < 20)) as [Hin|Hout].
  - rewrite (slice_beside pre post b a 0 16), (slice_beside pre post b a 20 92) in Hv' by lia.
    rewrite <-Hv in Hv'. apply le_int_inj in Hv'.
    + rewrite !slice_around in Hv' by lia. apply app_inv_head in Hv'. congruence.
    + apply bytes_ok_slice, bytes_ok_app. by split; [|constructor].
    + apply bytes_ok_slice, bytes_ok_app. by split; [|constructor].
    + by rewrite !len_slice by lia.
  - assert (crc32 (slice (pre ++ b :: post) 0 16 ++ zeros 4 ++ slice (pre ++ b :: post) 20 92) =
      crc32 (slice (pre ++ a :: post) 0 16 ++ zeros 4 ++ slice (pre ++ a :: post) 20 92)) as E.
    { rewrite <-Hv, <-Hv'. by rewrite (slice_beside pre post b a 16 20) by lia. }
    clear Hv Hv'. destruct (decide (len pre < 16)).
    + rewrite (slice_beside pre post b a 20 92), (slice_around pre post b 0 16),
        (slice_around pre post a 0 16), <-!app_assoc in E by lia. cbn [app] in E.
      revert E. apply crc32_detects; try done; [by apply bytes_ok_slice|].
      repeat (apply bytes_ok_app; split); try apply bytes_ok_zeros; apply bytes_ok_slice; [done|].
      apply bytes_ok_app. by split; [|constructor].
    + rewrite (slice_beside pre post b a 0 16), (slice_around pre post b 20 92),
        (slice_around pre post a 20 92), !app_assoc in E by lia.
      revert E. apply crc32_detects; try done.
      * repeat (apply bytes_ok_app; split); try apply bytes_ok_zeros; apply bytes_ok_slice; [|done].
        apply bytes_ok_app. by split; [|constructor].
      * by apply bytes_ok_slice.
Qed.

(** ** Reading files from the partition *)

(** The chain of a FAT16 table from [c], at most [fuel] clusters. *)
Fixpoint fat16_chain (fuel : nat) (fat : bytes) (c : Z) : list Z :=
  match fuel with
  | O => []
  | Datatypes.S fuel =>
      let v := fat16_get fat c in c :: (if 0xFFF8 <=? v then [] else fat16_chain fuel fat v)
  end.

Definition cluster_bytes (L : layout) (image : bytes) (c : Z) : bytes :=
  region L image (first_data_lba L + c - 2) (block_size L).

(** The file of a directory entry: its chain's clusters, cut to its size. *)
Definition fat16_file (L : layout) (image : bytes) (first size : Z) : bytes :=
  let fat := region L image (first_fat_lba L) (sectors_per_fat L * block_size L) in
  slice (concat (cluster_bytes L image <$> fat16_chain (Z.to_nat (cluster_count L)) fat first)) 0 size.

Lemma fat16_chain_range fat a b n :
  0 ≤ a < b → b - a ≤ Z.of_nat n →
  (∀ c, a ≤ c < b → fat16_get fat c = if c + 1 <? b then c + 1 else 0xFFFF) → b < 0xFFF8 →
  fat16_chain n fat a = range a b.
Proof.
  revert a. induction n as [|n IH]; intros a Hab Hn Hf Hb; [lia|].
  cbn [fat16_chain]. rewrite range_cons by lia. f_equal. rewrite Hf by lia.
  destruct (Z.ltb_spec (a + 1) b).
  - rewrite (proj2 (Z.leb_gt _ _)) by lia. apply IH; [lia|lia| |lia]. intros c Hc. apply Hf. lia.
  - rewrite range_empty by lia. done.
Qed.

Lemma cluster_bytes_range L image a b :
  0 < block_size L → 0 ≤ first_data_lba L → 2 ≤ a ≤ b →
  concat (cluster_bytes L image <$> range a b) =
    slice image ((first_data_lba L + a - 2) * block_size L) ((first_data_lba L + b - 2) * block_size L).
Proof.
  intros Hb Hf Hab. remember (Z.to_nat (b - a)) as n eqn:En. revert a Hab En.
  induction n as [|n IH]; intros a Hab En.
  - rewrite range_empty, slice_empty by nia. done.
  - rewrite range_cons by lia. rewrite fmap_cons. cbn [concat]. rewrite IH by lia.
    unfold cluster_bytes, region.
    replace ((first_data_lba L + (a + 1) - 2) * block_size L)
      with ((first_data_lba L + a - 2) * block_size L + block_size L) by lia.
    apply slice_app_join; nia.
Qed.

Lemma efi_file_read L efi readme config_dir image :
  layout_ok L → image_spec L efi readme config_dir image → 0 < len efi →
  3 + ceil_div (len efi) (block_size L) < readme → readme + 1 < cluster_count L + 2 →
  fat16_file L image first_file_cluster (len efi) = efi.
Proof.
  intros HL H Hpos Hr Hfit. pose proof (layout_bounds L HL) as (B1 & _ & _ & B4 & _ & _ & _ & _ & _ & _ & B11 & _).
  set (n := ceil_div (len efi) (block_size L)) in *.
  pose proof (ceil_div_spec (len efi) (block_size L) ltac:(lia)) as C. fold n in C.
  assert (1 ≤ n) as Hn by nia. pose proof (lo_fat16 _ HL) as F.
  unfold fat16_file. rewrite (fat16_chain_range _ 4 (4 + n)).
  - rewrite cluster_bytes_range by lia. pose proof (is_efi _ _ _ _ _ H) as He. unfold region in He.
    unfold first_file_cluster in He. set (o := (first_data_lba L + 4 - 2) * block_size L) in *.
    replace ((first_data_lba L + (4 + n) - 2) * block_size L) with (o + n * block_size L) by (unfold o; lia).
    assert (0 ≤ o) by (unfold o; nia).
    rewrite slice_slice_prefix by lia. exact He.
  - lia.
  - lia.
  - intros c Hc. rewrite (is_fat _ _ _ _ _ H) by lia. fold n. unfold fat16_value, first_file_cluster.
    rewrite (proj2 (Z.eqb_neq c 0)), (proj2 (Z.ltb_ge c 4)) by lia.
    destruct (Z.ltb_spec c (3 + n)), (Z.ltb_spec (c + 1) (4 + n)), (Z.eqb_spec c (3 + n)); try lia; done.
  - lia.
Qed.

(** A file of one cluster. *)
Lemma short_file_read L efi readme config_dir image c data k :
  layout_ok L → image_spec L efi readme config_dir image →
  3 + ceil_div (len efi) (block_size L) < readme → readme + 1 < cluster_count L + 2 →
  c = readme ∨ c = readme + 1 → region L image (first_data_lba L + c - 2) (len data) = data →
  0 ≤ k ≤ len data → len data ≤ block_size L → fat16_file L image c k = slice data 0 k.
Proof.
  intros HL H Hr Hfit Hc Hd Hk Hlen. pose proof (layout_bounds L HL) as (B1 & _ & _ & _ & _ & _ & _ & _ & _ & _ & B11 & _).
  pose proof (ceil_div_spec (len efi) (block_size L) ltac:(lia)) as C. pose proof (len_nonneg efi).
  assert (0 ≤ ceil_div (len efi) (block_size L)) by nia. pose proof (lo_fat16 _ HL) as F.
  unfold fat16_file. rewrite (fat16_chain_range _ c (c + 1)).
  - rewrite cluster_bytes_range by lia. unfold region in Hd.
    set (o := (first_data_lba L + c - 2) * block_size L) in *. assert (0 ≤ o) by (unfold o; nia).
    replace ((first_data_lba L + (c + 1) - 2) * block_size L) with (o + block_size L) by (unfold o; lia).
    rewrite slice_slice_prefix by lia. rewrite <-Hd. by rewrite slice_slice_prefix by lia.
  - lia.
  - lia.
  - intros c' Hc'. assert (c' = c) as -> by lia. rewrite (is_fat _ _ _ _ _ H) by lia.
    unfold fat16_value, first_file_cluster. rewrite (proj2 (Z.ltb_ge (c + 1) (c + 1))) by lia.
    rewrite (proj2 (Z.eqb_neq c 0)), (proj2 (Z.ltb_ge c 4)), (proj2 (Z.ltb_ge c (3 + _))) by lia.
    destruct Hc as [-> | ->]; rewrite ?Z.eqb_refl, ?orb_true_r; done.
  - lia.
Qed.

(** *** By path *)

(** The contents of a directory's chain, and the fields of its 32-byte entries. *)
Definition directory_bytes (L : layout) (image : bytes) (first : Z) : bytes :=
  let fat := region L image (first_fat_lba L) (sectors_per_fat L * block_size L) in
  concat (cluster_bytes L image <$> fat16_chain (Z.to_nat (cluster_count L)) fat first).

Definition entry_attributes (e : bytes) : Z := le_int (slice e 11 12).
Definition entry_cluster (e : bytes) : Z := le_int (slice e 26 28).
Definition entry_size (e : bytes) : Z := le_int (slice e 28 32).

(** The entry of that name among the [n] from the [i]-th on; a zero byte ends the search. *)
Fixpoint find_entry (n : nat) (dir : bytes) (i : Z) (name : bytes) : option bytes :=
  match n with
  | O => None
  | Datatypes.S n =>
      let e := slice dir (32 * i) (32 * i + 32) in
      if beq (slice e 0 1) [0] then None
      else if beq (slice e 0 11) name then Some e else find_entry n dir (i + 1) name
  end.

(** The file at the end of a path, from the contents of the directory it starts in: the
    names before the last are those of directories, the last is that of a file. *)
Fixpoint read_path (L : layout) (image dir : bytes) (path : list bytes) : option bytes :=
  match path with
  | [] => None
  | name :: path =>
      match find_entry (Z.to_nat (len dir / 32)) dir 0 name, path with
      | None, _ => None
      | Some e, [] =>
          if truthy (Z.land (entry_attributes e) 0x10) then None else Some (fat16_file L image (entry_cluster e) (entry_size e))
      | Some e, _ =>
          if truthy (Z.land (entry_attributes e) 0x10) then read_path L image (directory_bytes L image (entry_cluster e)) path
          else None
      end
  end.

Definition read_file (L : layout) (image : bytes) (path : list bytes) : option bytes :=
  read_path L image (region L image (root_directory_lba L) (root_directory_sectors L * block_size L)) path.

(** The first two entries of a directory. *)
Lemma slice_at {A} (p v q : list A) a b : a = len p → b = len p + len v → slice (p ++ v ++ q) a b = v.
Proof.
  intros -> ->. pose proof (len_nonneg p). pose proof (len_nonneg v). rewrite slice_app_r by lia.
  rewrite Z.sub_diag. replace (len p + len v - len p) with (len v) by lia. rewrite slice_app_l by lia. by apply slice_full.
Qed.

Section entries.
Context (name : bytes) (attributes first size : Z).
Context (Hname : len name = 11) (Hfirst : 0 ≤ first < 2 ^ 16) (Hsize : 0 ≤ size < 2 ^ 32).

Lemma dir_bytes_fields : let e := dir_bytes name attributes first size in
  slice e 0 11 = name ∧ entry_attributes e = attributes ∧ entry_cluster e = first ∧ entry_size e = size.
Proof using All.
  unfold dir_bytes, entry_attributes, entry_cluster, entry_size.
  assert (len (le_bytes 2 first) = 2 ∧ len (le_bytes 4 size) = 4) as [L2 L4] by by rewrite !len_le_bytes.
  split_and!.
  - rewrite slice_app_l by lia. by apply slice_full.
  - rewrite slice_at by (rewrite ?Hname; done).
    unfold le_int. cbn [little_endian_to_Z]. by rewrite Z.shiftl_0_l, Z.lor_0_r.
  - rewrite (app_assoc [attributes]), (app_assoc name), slice_at by (rewrite ?L2, !len_app, len_zeros, Hname by lia; done).
    by apply le_int_le_bytes.
  - rewrite (app_assoc (zeros 14)), (app_assoc [attributes]), (app_assoc name).
    rewrite <-(app_nil_r (le_bytes 4 size)), slice_at by (rewrite ?L4, !len_app, len_zeros, L2, Hname by lia; done).
    by apply le_int_le_bytes.
Qed.

Lemma slice_first_byte : slice (dir_bytes name attributes first size) 0 1 = slice name 0 1.
Proof using Hname. unfold dir_bytes. by rewrite slice_app_l by lia. Qed.

(** The first entry, and the second when the first has another name. *)
Lemma find_entry_first dir rest n : slice name 0 1 ≠ [0] → (0 < n)%nat → dir = dir_bytes name attributes first size ++ rest →
  find_entry n dir 0 name = Some (dir_bytes name attributes first size).
Proof using All.
  intros Hz Hn ->. destruct n as [|n]; [lia|]. cbn [find_entry]. change (32 * 0) with 0. change (0 + 32) with 32.
  rewrite slice_app_l by (rewrite ?len_dir_bytes by done; lia). rewrite (slice_full (dir_bytes _ _ _ _)) by by rewrite len_dir_bytes.
  rewrite slice_first_byte. apply beq_false in Hz. rewrite Hz. destruct dir_bytes_fields as [-> _]. by rewrite beq_refl.
Qed.

Lemma find_entry_second dir other attributes' first' size' rest n :
  slice name 0 1 ≠ [0] → (1 < n)%nat → len other = 11 → slice other 0 1 ≠ [0] → other ≠ name →
  dir = dir_bytes other attributes' first' size' ++ dir_bytes name attributes first size ++ rest →
  find_entry n dir 0 name = Some (dir_bytes name attributes first size).
Proof using All.
  intros Hz Hn Ho Hoz Hne ->. destruct n as [|n]; [lia|]. cbn [find_entry]. change (32 * 0) with 0. change (0 + 32) with 32.
  assert (len (dir_bytes other attributes' first' size') = 32) as Le by by apply len_dir_bytes.
  rewrite slice_app_l by lia. rewrite (slice_full (dir_bytes other _ _ _)) by done.
  assert (slice (dir_bytes other attributes' first' size') 0 1 = slice other 0 1) as -> by (unfold dir_bytes; by rewrite slice_app_l by lia).
  apply beq_false in Hoz. rewrite Hoz.
  assert (slice (dir_bytes other attributes' first' size') 0 11 = other) as ->.
  { unfold dir_bytes. rewrite slice_app_l by lia. by apply slice_full. }
  apply beq_false in Hne. rewrite Hne. destruct n as [|n]; [lia|]. cbn [find_entry].
  rewrite slice_at by (rewrite ?Le, ?len_dir_bytes by done; lia).
  rewrite slice_first_byte. apply beq_false in Hz. rewrite Hz. destruct dir_bytes_fields as [-> _]. by rewrite beq_refl.
Qed.
End entries.

(** A region that starts with what a shorter one holds. *)
Lemma region_longer L image lba n k d :
  0 ≤ lba * block_size L → 0 ≤ k ≤ n → region L image lba k = d → region L image lba n = d ++ slice image (lba * block_size L + k) (lba * block_size L + n).
Proof. intros Hl Hk <-. unfold region. symmetry. apply slice_app_join; lia. Qed.

(** ** Properties *)

(** What [build_image] rejects, in the order of its tests. *)
Definition image_error (efi_len bs gap : Z) (first : option Z) : option exn :=
  match layout_for bs with
  | Err e => Some e
  | Ok L =>
      let last_file := first_file_cluster + ceil_div efi_len bs - 1 in
      let readme := default (last_file + 1 + gap) first in
      if gap <? 0 then Some (ValueError "runtime file gap must be non-negative")
      else if readme <=? last_file
      then Some (ValueError "runtime FAT fixtures must begin after the EFI chain")
      else if cluster_count L + 2 <=? readme + 1
      then Some (ValueError "EFI image and runtime FAT fixtures do not fit in FAT16 data area")
      else None
  end.

Lemma build_image_rejects L efi corr gap first e :
  layout_ok L → layout_for (block_size L) = Ok L →
  image_error (len efi) (block_size L) gap first = Some e →
  build_image efi (block_size L) corr gap first = Err e.
Proof.
  intros HL HLf He. unfold image_error in He. rewrite HLf in He. cbv zeta in He.
  pose proof (layout_bounds L HL) as (B1 & B2 & B3 & B4 & B5 & B6 & B7 & B8 & B9 & B10 & B11 & B12 & B13).
  pose proof (sectors_positive L HL) as (P1 & P2 & P3 & _). pose proof (lo_aliases _ HL) as (A1 & A2 & A3).
  pose proof (lo_last _ HL) as [F1 _]. pose proof (lo_data _ HL) as F5. pose proof (lo_efi _ HL) as F6.
  pose proof (lo_primary _ HL) as [F4 F4']. pose proof (lo_usable _ HL) as F7. pose proof (lo_backup _ HL) as F8.
  pose proof (crc32_word32 _ (bytes_ok_entries_bytes L)) as Hcrc.
  pose proof (land_word32 _ Hcrc) as Hland. unfold word32 in Hcrc.
  assert (∃ m, protective_mbr L = Ok m) as [mbr E2] by (eexists; apply protective_mbr_eq; lia).
  assert (partition_entries L = Ok (entries_bytes L)) as E3 by (apply partition_entries_eq; lia).
  assert (∃ h, make_gpt_header (block_size L) 1 (last_lba L) (first_usable_lba L) (last_usable_lba L)
    (primary_entry_lba L) (Z.land (crc32 (entries_bytes L)) 0xFFFFFFFF) = Ok h) as [h1 E4]
    by (rewrite Hland; eexists; apply make_gpt_header_eq; lia).
  assert (∃ h, make_gpt_header (block_size L) (last_lba L) 1 (first_usable_lba L) (last_usable_lba L)
    (backup_entry_lba L) (Z.land (crc32 (entries_bytes L)) 0xFFFFFFFF) = Ok h) as [h2 E5]
    by (rewrite Hland; eexists; apply make_gpt_header_eq; lia).
  assert (∃ b, boot_sector L = Ok b) as [boot E6] by (eexists; apply boot_sector_bytes; [exact HL|lia..]).
  clear - HLf He E2 E3 E4 E5 E6.
  unfold build_image. rewrite HLf. cbn [mbind result_bind]. rewrite E2. cbn [mbind result_bind].
  rewrite E3. cbn [mbind result_bind]. rewrite E4. cbn [mbind result_bind].
  rewrite E5. cbn [mbind result_bind]. rewrite E6. cbn [mbind result_bind].
  set (last_file := first_file_cluster + ceil_div (len efi) (block_size L) - 1) in *.
  set (readme := default (last_file + 1 + gap) first) in *. clearbody readme last_file.
  destruct (gap <? 0); [apply (inj Some) in He as <-; reflexivity|].
  destruct (readme <=? last_file); [apply (inj Some) in He as <-; reflexivity|].
  destruct (cluster_count L + 2 <=? readme + 1); [apply (inj Some) in He as <-; reflexivity|].
  discriminate He.
Qed.

(** (C38) Exactly the block sizes 512 and 4096 have a layout; it is well formed:
    the protective MBR, primary header, entry array, boot partition, data
    partition, backup array and backup header follow each other without
    overlap inside the disk, the boot partition is FAT16 by its cluster count,
    and its tables hold an entry for every cluster. *)
Theorem nvme_layout_total bs :
  if (bs =? 512) || (bs =? 4096)
  then ∃ L, layout_for bs = Ok L ∧ block_size L = bs ∧ layout_ok L
  else layout_for bs = Err (ValueError "block size must be 512 or 4096").
Proof.
  destruct (layout_for_cases bs) as [(L & HL & Hb & Hok & Hc)|(He & H1 & H2)].
  - destruct Hc as [-> | ->]; simpl; eauto.
  - by rewrite (proj2 (Z.eqb_neq _ _) H1), (proj2 (Z.eqb_neq _ _) H2).
Qed.

(** (C15) The image builder is total on its inputs: for every EFI image, block
    size, corruption mode, gap and first cluster it either raises exactly the
    stated [ValueError], or returns an image that holds what the specification
    says (headers, mirrored arrays, boot sector, both tables entry by entry,
    directories and files) with metadata whose layout, first cluster of README.TXT
    and checksum of the partition array are those of the image. *)
Theorem nvme_image_total efi bs corr gap first :
  match image_error (len efi) bs gap first with
  | Some e => build_image efi bs corr gap first = Err e
  | None => ∃ L image md, layout_for bs = Ok L ∧ build_image efi bs corr gap first = Ok (image, md) ∧
      let readme := readme_cluster bs (len efi) gap first in
      image_spec L efi readme (config_dir_cluster corr readme) image ∧
      md_layout md = L ∧ runtime_readme_cluster md = readme ∧
      partition_array_crc md = crc32 (entries_bytes L)
  end.
Proof.
  destruct (layout_for_cases bs) as [(L & HLf & Hb & HL & _)|(He & _)].
  2: { unfold image_error. rewrite He. unfold build_image. by rewrite He. }
  subst bs. destruct (image_error (len efi) (block_size L) gap first) as [e|] eqn:E;
    [by apply build_image_rejects|].
  unfold image_error in E. rewrite HLf in E. cbv zeta in E.
  set (readme := default (first_file_cluster + ceil_div (len efi) (block_size L) - 1 + 1 + gap) first) in *.
  assert (readme = readme_cluster (block_size L) (len efi) gap first) as Er.
  { unfold readme, readme_cluster, first_file_cluster. f_equal. lia. }
  destruct (Z.ltb_spec gap 0) as [|Hg]; [done|]. destruct (Z.leb_spec readme (first_file_cluster + ceil_div (len efi) (block_size L) - 1)) as [|Hr]; [done|].
  destruct (Z.leb_spec (cluster_count L + 2) (readme + 1)) as [|Hf]; [done|].
  destruct (build_image_holds L HL HLf efi corr gap first Hg Hr Hf)
    as (image & md & Hrun & Hs & M1 & M2 & _ & M4 & _).
  exists L, image, md. rewrite <-Er. fold readme in Hs, M2. split; [exact HLf|]. split; [exact Hrun|]. cbv zeta. split_and!; assumption.
Qed.

(** What is known of an image that the builder returned. *)
Lemma build_image_returned efi bs corr gap first L image md :
  layout_for bs = Ok L → build_image efi bs corr gap first = Ok (image, md) →
  block_size L = bs ∧ layout_ok L ∧
  let readme := readme_cluster bs (len efi) gap first in
  3 + ceil_div (len efi) bs < readme ∧ readme + 1 < cluster_count L + 2 ∧
  image_spec L efi readme (config_dir_cluster corr readme) image ∧ md_layout md = L ∧
  runtime_readme_cluster md = readme ∧ runtime_config_directory_cluster md = config_dir_cluster corr readme.
Proof.
  intros HLf Hrun. destruct (layout_for_cases bs) as [(L' & HLf' & Hb & HL & _)|(He & _)]; [|congruence].
  rewrite HLf in HLf'. apply (inj Ok) in HLf'. subst L' bs. split; [done|]. split; [done|]. cbv zeta.
  destruct (image_error (len efi) (block_size L) gap first) as [e|] eqn:E.
  { by rewrite (build_image_rejects L efi corr gap first e HL HLf E) in Hrun. }
  unfold image_error in E. rewrite HLf in E. cbv zeta in E.
  assert (readme_cluster (block_size L) (len efi) gap first =
          default (first_file_cluster + ceil_div (len efi) (block_size L) - 1 + 1 + gap) first) as ->
    by (unfold readme_cluster, first_file_cluster; f_equal; lia).
  set (readme := default _ first) in *.
  destruct (Z.ltb_spec gap 0) as [|Hg]; [done|].
  destruct (Z.leb_spec readme (first_file_cluster + ceil_div (len efi) (block_size L) - 1)) as [|Hr]; [done|].
  destruct (Z.leb_spec (cluster_count L + 2) (readme + 1)) as [|Hf]; [done|].
  destruct (build_image_holds L HL HLf efi corr gap first Hg Hr Hf)
    as (image' & md' & Hrun' & Hs & M1 & M2 & M3 & _).
  rewrite Hrun in Hrun'. apply (inj Ok) in Hrun'. injection Hrun' as <- <-.
  split_and!; try assumption. unfold first_file_cluster in Hr. lia.
Qed.

(** The parameters that the metadata repeats. *)
Lemma build_image_parameters efi bs corr gap first image md :
  build_image efi bs corr gap first = Ok (image, md) →
  md_runtime_file_first_cluster md = runtime_readme_cluster md ∧ md_boot_fat_corruption md = corr.
Proof.
  unfold build_image. intros H. repeat (apply bind_Ok_inv in H as (? & _ & H)).
  apply (inj Ok) in H. apply (f_equal snd) in H. cbn [snd] in H. by rewrite <-H.
Qed.

(** The two directories of the path to the application are one cluster each. *)
Lemma directory_read L efi readme config_dir image c :
  layout_ok L → image_spec L efi readme config_dir image → c = 2 ∨ c = 3 →
  directory_bytes L image c = region L image (first_data_lba L + c - 2) (block_size L).
Proof.
  intros HL H Hc. pose proof (layout_bounds L HL) as (B1 & _ & _ & _ & _ & _ & _ & _ & _ & _ & B11 & _).
  pose proof (lo_fat16 _ HL) as F. unfold directory_bytes. rewrite (fat16_chain_range _ c (c + 1)); [|lia|lia| |lia].
  - rewrite cluster_bytes_range by lia. unfold region. f_equal. lia.
  - intros c' Hc'. assert (c' = c) as -> by lia. rewrite (is_fat _ _ _ _ _ H) by lia. unfold fat16_value, first_file_cluster.
    rewrite (proj2 (Z.ltb_ge (c + 1) (c + 1))), (proj2 (Z.eqb_neq c 0)), (proj2 (Z.ltb_lt c 4)) by lia. done.
Qed.

Lemma root_paths L efi readme config_dir image :
  layout_ok L → image_spec L efi readme config_dir image → 0 ≤ readme < 2 ^ 16 →
  read_file L image [B "README  TXT"] = Some (fat16_file L image readme (len readme_bytes)) ∧
  ∀ path, path ≠ [] → read_file L image (B "EFI        " :: path) = read_path L image (directory_bytes L image 2) path.
Proof.
  intros HL H Hr. pose proof (layout_bounds L HL) as (B1 & _ & _ & B4 & _ & _ & _ & _ & _ & _ & _ & B12 & _).
  pose proof (lo_root _ HL). pose proof (lo_fat _ HL). pose proof (sectors_positive L HL) as (P1 & P2 & P3 & P4).
  pose proof (region_longer L image (root_directory_lba L) (root_directory_sectors L * block_size L) 64 _
    ltac:(nia) ltac:(lia) (is_root _ _ _ _ _ H)) as E.
  unfold read_file. set (dir := region L image (root_directory_lba L) (root_directory_sectors L * block_size L)) in *.
  set (rest := slice image _ _) in E. clearbody rest. rewrite <-app_assoc in E.
  assert (len readme_bytes = 39) as Lr by done.
  assert (1 < Z.to_nat (len dir / 32))%nat as Hn.
  { rewrite E, !len_app, !len_dir_bytes by done. pose proof (len_nonneg rest). divlia. }
  split.
  - cbn [read_path]. rewrite (find_entry_second (B "README  TXT") 0x21 readme (len readme_bytes) eq_refl Hr ltac:(lia) dir
      (B "EFI        ") 0x10 2 0 rest _ ltac:(done) Hn eq_refl ltac:(done) ltac:(done) E).
    destruct (dir_bytes_fields (B "README  TXT") 0x21 readme (len readme_bytes) eq_refl Hr ltac:(lia)) as (_ & -> & -> & ->). done.
  - intros path Hp. cbn [read_path].
    rewrite (find_entry_first (B "EFI        ") 0x10 2 0 eq_refl ltac:(lia) ltac:(lia) dir _ (Z.to_nat (len dir / 32)) ltac:(done) ltac:(lia) E).
    destruct (dir_bytes_fields (B "EFI        ") 0x10 2 0 eq_refl ltac:(lia) ltac:(lia)) as (_ & -> & -> & _).
    by destruct path.
Qed.

Lemma boot_paths L efi readme config_dir image :
  layout_ok L → image_spec L efi readme config_dir image → 0 ≤ config_dir < 2 ^ 16 → len efi < 2 ^ 32 →
  read_path L image (directory_bytes L image 2) [B "BOOT       "; B "BOOTX64 EFI"] =
    Some (fat16_file L image first_file_cluster (len efi)) ∧
  read_path L image (directory_bytes L image 2) [B "BOOT       "; B "BOOT    CFG"] =
    Some (fat16_file L image config_dir (len config_bytes)).
Proof.
  intros HL H Hc Hl. pose proof (layout_bounds L HL) as (B1 & _ & _ & _ & _ & _ & _ & _ & _ & _ & B11 & _).
  pose proof (len_nonneg efi) as Hl0. assert (len config_bytes = 29) as Lc by done.
  assert (∀ path, path ≠ [] → read_path L image (directory_bytes L image 2) (B "BOOT       " :: path) =
    read_path L image (directory_bytes L image 3) path) as Hstep.
  { intros path Hp. rewrite (directory_read _ _ _ _ _ 2 HL H) by auto. replace (first_data_lba L + 2 - 2) with (first_data_lba L) by lia.
    pose proof (region_longer L image (first_data_lba L) (block_size L) 32 _ ltac:(nia) ltac:(lia) (is_efi_dir _ _ _ _ _ H)) as E.
    set (dir := region _ _ _ _) in *. set (rest := slice image _ _) in E. clearbody rest.
    assert (0 < Z.to_nat (len dir / 32))%nat as Hn.
    { rewrite E, !len_app, !len_dir_bytes by done. pose proof (len_nonneg rest). divlia. }
    cbn [read_path]. rewrite (find_entry_first (B "BOOT       ") 0x10 3 0 eq_refl ltac:(lia) ltac:(lia) dir _ _ ltac:(done) Hn E).
    destruct (dir_bytes_fields (B "BOOT       ") 0x10 3 0 eq_refl ltac:(lia) ltac:(lia)) as (_ & -> & -> & _). by destruct path. }
  rewrite !Hstep by done. rewrite (directory_read _ _ _ _ _ 3 HL H) by auto.
  replace (first_data_lba L + 3 - 2) with (first_data_lba L + 1) by lia.
  pose proof (region_longer L image (first_data_lba L + 1) (block_size L) 64 _ ltac:(nia) ltac:(lia) (is_boot_dir _ _ _ _ _ H)) as E.
  set (dir := region _ _ _ _) in *. set (rest := slice image _ _) in E. clearbody rest. rewrite <-app_assoc in E.
  assert (1 < Z.to_nat (len dir / 32))%nat as Hn.
  { rewrite E, !len_app, !len_dir_bytes by done. pose proof (len_nonneg rest). divlia. }
  assert (0 ≤ first_file_cluster < 2 ^ 16) as Hf by (unfold first_file_cluster; lia). cbn [read_path]. split.
  - rewrite (find_entry_first (B "BOOTX64 EFI") 0x20 first_file_cluster (len efi) eq_refl Hf ltac:(lia) dir _ (Z.to_nat (len dir / 32)) ltac:(done) ltac:(lia) E).
    destruct (dir_bytes_fields (B "BOOTX64 EFI") 0x20 first_file_cluster (len efi) eq_refl Hf ltac:(lia)) as (_ & -> & -> & ->). done.
  - rewrite (find_entry_second (B "BOOT    CFG") 0x21 config_dir (len config_bytes) eq_refl Hc ltac:(lia) dir
      (B "BOOTX64 EFI") 0x20 first_file_cluster (len efi) rest _ ltac:(done) Hn eq_refl ltac:(done) ltac:(done) E).
    destruct (dir_bytes_fields (B "BOOT    CFG") 0x21 config_dir (len config_bytes) eq_refl Hc ltac:(lia)) as (_ & -> & -> & ->). done.
Qed.

Lemma efi_file_empty L image c : fat16_file L image c 0 = [].
Proof. unfold fat16_file. by apply slice_empty. Qed.

(** (C30) The files are found by reading the partition.  In every image the builder
    returns, for any application, the empty one included: looking up EFI, BOOT and
    BOOTX64.EFI - each name in the directory that the entry found before leads to, from
    the root directory on, each cluster after the first from the FAT - gives the
    application; README.TXT in the root directory gives its text; and BOOT.CFG beside
    the application gives its text, or with [cross_link] as many bytes of README.TXT's. *)
Theorem nvme_files_read efi bs corr gap first L image md :
  layout_for bs = Ok L → build_image efi bs corr gap first = Ok (image, md) →
  read_file L image [B "EFI        "; B "BOOT       "; B "BOOTX64 EFI"] = Some efi ∧
  read_file L image [B "README  TXT"] = Some readme_bytes ∧
  read_file L image [B "EFI        "; B "BOOT       "; B "BOOT    CFG"] =
    Some match corr with none => config_bytes | cross_link => slice readme_bytes 0 (len config_bytes) end.
Proof.
  intros HLf Hrun.
  destruct (build_image_returned efi bs corr gap first L image md HLf Hrun) as (<- & HL & Hr' & Hf & Hs & _).
  set (readme := readme_cluster (block_size L) (len efi) gap first) in *. pose proof (layout_bounds L HL) as (B1 & _).
  pose proof (ceil_div_spec (len efi) (block_size L) ltac:(lia)) as C. pose proof (lo_fat16 _ HL) as F. pose proof (len_nonneg efi).
  assert (len readme_bytes = 39 ∧ len config_bytes = 29) as [Lr Lc] by done.
  assert (block_size L = 512 ∨ block_size L = 4096) as Hbs.
  { destruct (layout_for_cases (block_size L)) as [(? & _ & _ & _ & ?)|[E _]]; [done|congruence]. }
  assert (0 ≤ ceil_div (len efi) (block_size L)) by nia. assert (len efi < 2 ^ 32) as Hle by nia.
  assert (0 ≤ config_dir_cluster corr readme < 2 ^ 16) as Hc by (destruct corr; cbn; lia).
  destruct (root_paths L efi readme _ image HL Hs ltac:(lia)) as [-> Hroot]. rewrite !Hroot by done.
  destruct (boot_paths L efi readme _ image HL Hs Hc Hle) as [-> ->]. split; [|split].
  - f_equal. destruct (decide (len efi = 0)) as [E|]; [|by apply (efi_file_read L efi readme _ image HL Hs); [lia|..]].
    rewrite E, efi_file_empty. by destruct efi.
  - f_equal. rewrite (short_file_read L efi readme _ image readme readme_bytes _ HL Hs Hr' Hf);
      [by apply slice_full|by left|apply (is_readme _ _ _ _ _ Hs)|lia|lia].
  - f_equal. destruct corr; cbn [config_dir_cluster].
    + rewrite (short_file_read L efi readme _ image (readme + 1) config_bytes _ HL Hs Hr' Hf);
        [by apply slice_full|by right|apply (is_config _ _ _ _ _ Hs)|lia|lia].
    + rewrite (short_file_read L efi readme _ image readme readme_bytes _ HL Hs Hr' Hf);
        [done|by left|apply (is_readme _ _ _ _ _ Hs)|lia|lia].
Qed.

Lemma nvme_files_read_witness :
  ∃ image md, build_image [1; 2; 3] 512 cross_link 0 None = Ok (image, md) ∧
    read_file layout_512 image [B "EFI        "; B "BOOT       "; B "BOOTX64 EFI"] = Some [1; 2; 3].
Proof.
  destruct layout_512_ok as [HLf HL].
  destruct (build_image_holds layout_512 HL HLf [1; 2; 3] cross_link 0 None) as (image & md & Hrun & _);
    [vm_compute; discriminate|vm_compute; reflexivity|vm_compute; reflexivity|].
  exists image, md. split; [exact Hrun|].
  apply (nvme_files_read [1; 2; 3] 512 cross_link 0 None layout_512 image md HLf Hrun).
Defined.

(** (C37) Both GPT headers of every image carry a valid CRC, and changing any one
    of the 92 bytes of a header makes it invalid. *)
Theorem gpt_headers_detect efi bs corr gap first L image md :
  layout_for bs = Ok L → build_image efi bs corr gap first = Ok (image, md) →
  ∀ lba, lba = 1 ∨ lba = last_lba L → let h := region L image lba bs in
  gpt_valid h ∧
  ∀ pre a post b, h = pre ++ a :: post → len pre < 92 → byte_ok b → a ≠ b → ¬ gpt_valid (pre ++ b :: post).
Proof.
  intros HLf Hrun lba Hlba h.
  destruct (build_image_returned efi bs corr gap first L image md HLf Hrun) as (<- & HL & _ & _ & Hs & _).
  pose proof (layout_bounds L HL) as (B1 & _).
  assert (gpt_valid h ∧ bytes_ok h ∧ 92 ≤ len h) as (Hv & Hok & Hl).
  { unfold h. destruct Hlba as [-> | ->];
      [rewrite (is_primary _ _ _ _ _ Hs)|rewrite (is_backup _ _ _ _ _ Hs)];
      (split; [apply gpt_bytes_valid|]); rewrite bytes_ok_app, len_app, len_gpt_bytes, len_zeros by lia;
      (split; [split; [apply bytes_ok_gpt_bytes|apply bytes_ok_zeros]|lia]). }
  split; [exact Hv|]. intros pre a post b Eh Hpre Hb Hne. rewrite Eh in Hv, Hok, Hl.
  by apply (gpt_valid_detects pre a b post).
Qed.

Lemma gpt_headers_detect_witness :
  ∃ image md, build_image [1; 2; 3] 4096 none 0 None = Ok (image, md) ∧
    gpt_valid (region layout_4096 image 1 4096).
Proof.
  destruct layout_4096_ok as [HLf HL].
  destruct (build_image_holds layout_4096 HL HLf [1; 2; 3] none 0 None) as (image & md & Hrun & _);
    [vm_compute; discriminate|vm_compute; reflexivity|vm_compute; reflexivity|].
  exists image, md. split; [exact Hrun|].
  apply (gpt_headers_detect [1; 2; 3] 4096 none 0 None layout_4096 image md HLf Hrun). by left.
Defined.

(** With an empty EFI image BOOTX64.EFI's directory entry still names cluster 4,
    and without a gap cluster 4 is README.TXT's. *)
Lemma empty_efi_shares_cluster :
  image_error 0 512 0 None = None ∧ readme_cluster 512 0 0 None = first_file_cluster.
Proof. split; reflexivity. Qed.

End NvmeSpec.
