(* ===== verification/Elf64.v ===== *)
(** * The two-segment ELF64 images

    [RuntimeElf] models [create-runtime-user-elf.py] and its independent
    verifier [verify-runtime-user-elf.py].  [Elf64] holds what it shares with the
    creators and verifiers of [UserElfs]: the closed form of the header, of the
    program headers and of the whole image, and what reading them back gives.

    Files are byte lists.  [verify] returns the code size the script prints about
    an accepted image. *)

From S2P Require Import Prelude PyBytes PyHash.

(** ** The shared layout *)

Module Elf64.

Definition fnv1a64 (data : bytes) : Z :=
  foldl (λ value byte, Z.land (Z.lxor value byte * 0x100000001B3) 0xFFFFFFFFFFFFFFFF)
    0xCBF29CE484222325 data.

Definition header_format : string := "<16sHHIQQQIHHHHHH".
Definition segment_format : string := "<IIQQQQQQ".

(** The first 64 bytes of an image: the identification and the other fields. *)
Definition ident_bytes : bytes := [0x7f] ++ B "ELF" ++ [2; 1; 1; 0] ++ zeros 8.
Definition tail_bytes (entry : Z) : bytes :=
  le_bytes 2 2 ++ le_bytes 2 0x3E ++ le_bytes 4 1 ++
  le_bytes 8 entry ++ le_bytes 8 64 ++ le_bytes 8 0 ++ le_bytes 4 0 ++ le_bytes 2 64 ++ le_bytes 2 56 ++
  le_bytes 2 2 ++ le_bytes 2 0 ++ le_bytes 2 0 ++ le_bytes 2 0.
Definition header_bytes (entry : Z) : bytes := ident_bytes ++ tail_bytes entry.

(** A program header. *)
Definition segment_bytes (flags offset virtual file_size memory_size alignment : Z) : bytes :=
  le_bytes 4 1 ++ le_bytes 4 flags ++ le_bytes 8 offset ++ le_bytes 8 virtual ++ le_bytes 8 0 ++
  le_bytes 8 file_size ++ le_bytes 8 memory_size ++ le_bytes 8 alignment.

Definition header_values (entry : Z) : list pval :=
  [VS ([0x7f] ++ B "ELF" ++ [2; 1; 1; 0] ++ zeros 8); VI 2; VI 0x3E; VI 1; VI entry; VI 64; VI 0; VI 0;
   VI 64; VI 56; VI 2; VI 0; VI 0; VI 0].
Definition segment_values (flags offset virtual file_size memory_size alignment : Z) : list Z :=
  [1; flags; offset; virtual; 0; file_size; memory_size; alignment].

Definition header_fields : list field :=
  [FBytes 16; FInt false 2; FInt false 2; FInt false 4; FInt false 8; FInt false 8; FInt false 8;
   FInt false 4; FInt false 2; FInt false 2; FInt false 2; FInt false 2; FInt false 2; FInt false 2].
Definition segment_fields : list field :=
  [FInt false 4; FInt false 4; FInt false 8; FInt false 8; FInt false 8; FInt false 8; FInt false 8;
   FInt false 8].

Lemma parse_header_format : parse_fmt header_format = Ok header_fields.
Proof. reflexivity. Qed.
Lemma parse_segment_format : parse_fmt segment_format = Ok segment_fields.
Proof. reflexivity. Qed.

Lemma header_pack entry :
  0 ≤ entry < 2 ^ 64 → pack header_format (header_values entry) = Ok (header_bytes entry).
Proof.
  intros. unfold pack. rewrite parse_header_format. cbn [mbind result_bind].
  unfold header_fields, header_values. etrans.
  - eapply pack_fields_cons; [reflexivity|].
    repeat (eapply pack_fields_cons; [apply pack_field_uint; lia|]). reflexivity.
  - reflexivity.
Qed.

Lemma segment_pack flags offset virtual file_size memory_size alignment :
  0 ≤ flags < 2 ^ 32 → 0 ≤ offset < 2 ^ 64 → 0 ≤ virtual < 2 ^ 64 → 0 ≤ file_size < 2 ^ 64 →
  0 ≤ memory_size < 2 ^ 64 → 0 ≤ alignment < 2 ^ 64 →
  pack segment_format (VI <$> segment_values flags offset virtual file_size memory_size alignment) =
    Ok (segment_bytes flags offset virtual file_size memory_size alignment).
Proof.
  intros. unfold pack. rewrite parse_segment_format. cbn [mbind result_bind].
  unfold segment_fields, segment_values. cbn [fmap list_fmap]. etrans.
  - repeat (eapply pack_fields_cons; [apply pack_field_uint; lia|]). reflexivity.
  - reflexivity.
Qed.

Lemma len_header_bytes entry : len (header_bytes entry) = 64.
Proof. unfold header_bytes, tail_bytes. rewrite !len_app, !len_le_bytes by lia. reflexivity. Qed.
Lemma len_segment_bytes flags offset virtual file_size memory_size alignment :
  len (segment_bytes flags offset virtual file_size memory_size alignment) = 56.
Proof. unfold segment_bytes. rewrite !len_app, !len_le_bytes by lia. reflexivity. Qed.

(** The image of a code segment and a data segment. *)
Definition image_bytes (entry : Z) (segment1 segment2 code data : bytes) : bytes :=
  header_bytes entry ++ segment1 ++ segment2 ++ zeros (0x1000 - 176) ++ code ++
  zeros (0x1000 - len code) ++ data.

(** The writes of the creators. *)
Lemma image_writes header segment1 segment2 code data :
  len header = 64 → len segment1 = 56 → len segment2 = 56 → len code ≤ 0x1000 →
  let image := zeros (0x2000 + len data) in
  let image := set_slice image 0 64 header in
  let image := set_slice image 64 120 segment1 in
  let image := set_slice image 120 176 segment2 in
  let image := set_slice image 0x1000 (0x1000 + len code) code in
  put_tail image 0x2000 data = header ++ segment1 ++ segment2 ++ zeros (0x1000 - 176) ++ code ++
    zeros (0x1000 - len code) ++ data ∧
  set_slice image 0x2000 (0x2000 + len data) data = put_tail image 0x2000 data.
Proof.
  intros Hh H1 H2 Hc. pose proof (len_nonneg code). pose proof (len_nonneg data).
  set (n := len data) in *. cbv zeta.
  rewrite (set_slice_put _ header 0 64) by lia. rewrite (set_slice_put _ segment1 64 120) by lia.
  rewrite (set_slice_put _ segment2 120 176) by lia. rewrite (set_slice_put _ code 0x1000) by lia.
  rewrite <-(app_nil_l (zeros (0x2000 + n))).
  rewrite (put_grow _ _ _ 0 0 (0x2000 + n - 64)) by len_solve.
  rewrite (put_grow _ _ _ 64 0 (0x2000 + n - 120)) by len_solve.
  rewrite (put_grow _ _ _ 120 0 (0x2000 + n - 176)) by len_solve.
  rewrite (put_grow _ _ _ 0x1000 3920 (0x1000 - len code + n)) by len_solve.
  rewrite (zeros_add (0x1000 - len code) n), app_assoc by lia.
  match goal with |- context [(?p ++ zeros n)] => set (q := p) end.
  assert (len q = 0x2000) as Hq by (unfold q; len_solve).
  split.
  - rewrite put_tail_app by lia. unfold q. rewrite !zeros_nonpos by lia.
    rewrite !app_nil_l, <-!app_assoc. reflexivity.
  - rewrite (set_slice_put _ data) by lia. rewrite put_tail_app by lia.
    rewrite <-(app_nil_r (zeros n)), put_mid by (rewrite ?len_zeros; lia). by rewrite app_nil_r.
Qed.

(** One [struct.pack("<Q", v)] of a computation, and where it is stored. *)
Lemma pack_Q_step {A} v (f : bytes → result A) :
  0 ≤ v < 2 ^ 64 → (pack "<Q" [VI v] ≫= f) = f (le_bytes 8 v).
Proof. intros. by rewrite (pack_int "<Q" 8 v parse_fmt_Q), bind_ok. Qed.

Lemma set_slice_Q l a b v : b = a + 8 → set_slice l a b (le_bytes 8 v) = put l a (le_bytes 8 v).
Proof. intros ->. apply set_slice_put. by rewrite len_le_bytes. Qed.

(** ** Reading the headers back *)

Lemma in_range_uint w v : 0 ≤ v < 2 ^ (8 * w) → in_range false w v = true.
Proof. intros. unfold in_range. rewrite (proj2 (Z.leb_le _ _)), (proj2 (Z.ltb_lt _ _)) by lia. done. Qed.

Lemma header_fit entry : 0 ≤ entry < 2 ^ 64 → Forall2 fits header_fields (header_values entry).
Proof.
  intros. unfold header_fields, header_values.
  repeat apply Forall2_cons_2; try apply Forall2_nil_2; try reflexivity;
    split; try lia; apply in_range_uint; lia.
Qed.

Lemma segment_fit flags offset virtual file_size memory_size alignment :
  0 ≤ flags < 2 ^ 32 → 0 ≤ offset < 2 ^ 64 → 0 ≤ virtual < 2 ^ 64 → 0 ≤ file_size < 2 ^ 64 →
  0 ≤ memory_size < 2 ^ 64 → 0 ≤ alignment < 2 ^ 64 →
  Forall2 fits segment_fields (VI <$> segment_values flags offset virtual file_size memory_size alignment).
Proof.
  intros. unfold segment_fields, segment_values. cbn [fmap list_fmap].
  repeat apply Forall2_cons_2; try apply Forall2_nil_2; split; try lia; apply in_range_uint; lia.
Qed.

Lemma header_unpack entry r :
  0 ≤ entry < 2 ^ 64 → unpack_from header_format (header_bytes entry ++ r) 0 = Ok (header_values entry).
Proof.
  intros. apply (unpack_from_packed _ header_fields _ _ [] r); [done|by apply header_fit|
    by apply header_pack|done].
Qed.

(** The header without its identification, as two of the verifiers read it. *)
Definition tail_format : string := "<HHIQQQIHHHHHH".
Definition tail_fields : list field :=
  [FInt false 2; FInt false 2; FInt false 4; FInt false 8; FInt false 8; FInt false 8;
   FInt false 4; FInt false 2; FInt false 2; FInt false 2; FInt false 2; FInt false 2; FInt false 2].
Definition tail_values (entry : Z) : list Z := [2; 0x3E; 1; entry; 64; 0; 0; 64; 56; 2; 0; 0; 0].

Lemma parse_tail_format : parse_fmt tail_format = Ok tail_fields.
Proof. reflexivity. Qed.

Lemma tail_fit entry : 0 ≤ entry < 2 ^ 64 → Forall2 fits tail_fields (VI <$> tail_values entry).
Proof.
  intros. unfold tail_fields, tail_values. cbn [fmap list_fmap].
  repeat apply Forall2_cons_2; try apply Forall2_nil_2; split; try lia; apply in_range_uint; lia.
Qed.

Lemma tail_pack entry :
  0 ≤ entry < 2 ^ 64 → pack tail_format (VI <$> tail_values entry) = Ok (tail_bytes entry).
Proof.
  intros. unfold pack. rewrite parse_tail_format. cbn [mbind result_bind].
  unfold tail_fields, tail_values. cbn [fmap list_fmap]. etrans.
  - repeat (eapply pack_fields_cons; [apply pack_field_uint; lia|]). reflexivity.
  - reflexivity.
Qed.

Lemma tail_unpack entry r :
  0 ≤ entry < 2 ^ 64 → unpack_ints tail_format (header_bytes entry ++ r) 16 = Ok (tail_values entry).
Proof.
  intros H. unfold unpack_ints, header_bytes. rewrite <-app_assoc.
  rewrite (unpack_from_packed _ tail_fields (VI <$> tail_values entry));
    [apply ints_VI|done|by apply tail_fit|by apply tail_pack|done].
Qed.

Lemma segment_unpack l r off flags offset virtual file_size memory_size alignment :
  0 ≤ flags < 2 ^ 32 → 0 ≤ offset < 2 ^ 64 → 0 ≤ virtual < 2 ^ 64 → 0 ≤ file_size < 2 ^ 64 →
  0 ≤ memory_size < 2 ^ 64 → 0 ≤ alignment < 2 ^ 64 → off = len l →
  unpack_ints segment_format
    (l ++ segment_bytes flags offset virtual file_size memory_size alignment ++ r) off =
    Ok (segment_values flags offset virtual file_size memory_size alignment).
Proof.
  intros. unfold unpack_ints.
  rewrite (unpack_from_packed _ segment_fields
    (VI <$> segment_values flags offset virtual file_size memory_size alignment));
    [apply ints_VI|done|by apply segment_fit|by apply segment_pack|done].
Qed.

(** Bytes that read as a format's values are what the values pack to. *)
Lemma packed_of_unpack fmt fs zs b image off :
  parse_fmt fmt = Ok fs → Forall unsigned fs → 0 ≤ fields_size fs → Forall2 fits fs (VI <$> zs) →
  pack fmt (VI <$> zs) = Ok b → bytes_ok b → bytes_ok image → 0 ≤ off → off + fields_size fs ≤ len image →
  unpack_ints fmt image off = Ok zs → slice image off (off + fields_size fs) = b.
Proof.
  intros Hf Hu Hsz Hfit Hp Hb Hi Ho Hl H. unfold unpack_ints in H.
  rewrite (unpack_from_eq _ fs) in H by done. cbn [mbind result_bind] in H. apply ints_Ok in H.
  assert (len b = fields_size fs) as Eb.
  { unfold pack in Hp. rewrite Hf in Hp. cbn [mbind result_bind] in Hp.
    destruct (pack_unpack_fields fs _ Hfit) as (b' & Hb' & Hn & _). congruence. }
  assert (unpack_from fmt b 0 = Ok (VI <$> zs)) as E.
  { pose proof (unpack_from_packed fmt fs (VI <$> zs) b [] [] 0 Hf Hfit Hp eq_refl) as E.
    by rewrite app_nil_r in E. }
  rewrite (unpack_from_eq _ fs), slice_full in E by (done || lia). apply (inj Ok) in E.
  apply (unpack_fields_inj fs); [done|by apply bytes_ok_slice|done|rewrite len_slice by lia; lia|done|].
  congruence.
Qed.

Lemma bytes_ok_segment flags offset virtual file_size memory_size alignment :
  bytes_ok (segment_bytes flags offset virtual file_size memory_size alignment).
Proof. unfold segment_bytes. rewrite !bytes_ok_app. split_and!; apply bytes_ok_le_bytes; lia. Qed.

Lemma bytes_ok_tail entry : bytes_ok (tail_bytes entry).
Proof. unfold tail_bytes. rewrite !bytes_ok_app. split_and!; apply bytes_ok_le_bytes; lia. Qed.

Lemma unpack_slice_segment image off flags offset virtual file_size memory_size alignment :
  bytes_ok image → 0 ≤ off → off + 56 ≤ len image →
  0 ≤ flags < 2 ^ 32 → 0 ≤ offset < 2 ^ 64 → 0 ≤ virtual < 2 ^ 64 → 0 ≤ file_size < 2 ^ 64 →
  0 ≤ memory_size < 2 ^ 64 → 0 ≤ alignment < 2 ^ 64 →
  unpack_ints segment_format image off =
    Ok (segment_values flags offset virtual file_size memory_size alignment) →
  slice image off (off + 56) = segment_bytes flags offset virtual file_size memory_size alignment.
Proof.
  intros Hok Ho Hl ? ? ? ? ? ? H. change 56 with (fields_size segment_fields) in *.
  apply (packed_of_unpack segment_format segment_fields
    (segment_values flags offset virtual file_size memory_size alignment)); try done.
  - unfold segment_fields. repeat constructor; lia.
  - by apply segment_fit.
  - by apply segment_pack.
  - apply bytes_ok_segment.
Qed.

Lemma unpack_slice_tail image entry :
  bytes_ok image → 64 ≤ len image → 0 ≤ entry < 2 ^ 64 →
  unpack_ints tail_format image 16 = Ok (tail_values entry) → slice image 16 64 = tail_bytes entry.
Proof.
  intros Hok Hl ? H. change 64 with (16 + fields_size tail_fields).
  apply (packed_of_unpack tail_format tail_fields (tail_values entry)); try done.
  - unfold tail_fields. repeat constructor; lia.
  - by apply tail_fit.
  - by apply tail_pack.
  - apply bytes_ok_tail.
Qed.

(** ** Reading an image back *)

Section images.
Context (entry flags1 offset1 virtual1 size1 memory1 align1 flags2 offset2 virtual2 size2 memory2 align2 : Z).
Context (code data : bytes).
Hypothesis Hcode : len code ≤ 0x1000.

Let image : bytes := image_bytes entry (segment_bytes flags1 offset1 virtual1 size1 memory1 align1)
  (segment_bytes flags2 offset2 virtual2 size2 memory2 align2) code data.

Lemma len_image : len image = 0x2000 + len data.
Proof using Hcode.
  unfold image, image_bytes. rewrite !len_app, len_header_bytes, !len_segment_bytes, !len_zeros by lia. lia.
Qed.

Lemma image_header : 0 ≤ entry < 2 ^ 64 → unpack_from header_format image 0 = Ok (header_values entry).
Proof using Type. intros. unfold image, image_bytes. by apply header_unpack. Qed.

Lemma image_segment1 :
  0 ≤ flags1 < 2 ^ 32 → 0 ≤ offset1 < 2 ^ 64 → 0 ≤ virtual1 < 2 ^ 64 → 0 ≤ size1 < 2 ^ 64 →
  0 ≤ memory1 < 2 ^ 64 → 0 ≤ align1 < 2 ^ 64 →
  unpack_ints segment_format image 64 = Ok (segment_values flags1 offset1 virtual1 size1 memory1 align1).
Proof using Type.
  intros. unfold image, image_bytes. apply (segment_unpack (header_bytes entry)); [assumption..|]. by rewrite len_header_bytes.
Qed.

Lemma image_segment2 :
  0 ≤ flags2 < 2 ^ 32 → 0 ≤ offset2 < 2 ^ 64 → 0 ≤ virtual2 < 2 ^ 64 → 0 ≤ size2 < 2 ^ 64 →
  0 ≤ memory2 < 2 ^ 64 → 0 ≤ align2 < 2 ^ 64 →
  unpack_ints segment_format image 120 = Ok (segment_values flags2 offset2 virtual2 size2 memory2 align2).
Proof using Type.
  intros. unfold image, image_bytes. rewrite app_assoc.
  apply (segment_unpack (header_bytes entry ++ segment_bytes flags1 offset1 virtual1 size1 memory1 align1));
    [assumption..|]. by rewrite len_app, len_header_bytes, len_segment_bytes.
Qed.

Lemma image_prefix : ∃ p, len p = 0x1000 ∧ image = p ++ code ++ zeros (0x1000 - len code) ++ data.
Proof using Type.
  exists (header_bytes entry ++ segment_bytes flags1 offset1 virtual1 size1 memory1 align1 ++
    segment_bytes flags2 offset2 virtual2 size2 memory2 align2 ++ zeros (0x1000 - 176)).
  rewrite !len_app, len_header_bytes, !len_segment_bytes, len_zeros by lia. split; [lia|].
  unfold image, image_bytes. by rewrite <-!app_assoc.
Qed.

Lemma image_code n : n = len code → slice image 0x1000 (0x1000 + n) = code.
Proof using Type.
  intros ->. destruct image_prefix as (p & Hp & ->). pose proof (len_nonneg code).
  rewrite slice_app_r, Hp, Z.sub_diag by lia. rewrite slice_app_l, slice_full by lia. done.
Qed.

Lemma image_data b : b = 0x2000 + len data → slice image 0x2000 b = data.
Proof using Hcode.
  intros ->. destruct image_prefix as (p & Hp & ->). pose proof (len_nonneg data).
  rewrite slice_app_r, slice_app_r by lia. rewrite slice_app_r by (rewrite ?len_zeros by lia; lia).
  rewrite len_zeros by lia. etrans; [|by apply (slice_full data (len data))]. f_equal; lia.
Qed.
End images.

End Elf64.

(** ** The permanent runtime's images *)

Module RuntimeElf.
Import Elf64.

Definition CODE_BASE : Z := 0x0000008000000000.
Definition DATA_BASE : Z := 0x0000008000002000.
Definition CODE_OFFSET : Z := 0x1000.
Definition DATA_OFFSET : Z := 0x2000.
Definition PAGE_SIZE : Z := 0x1000.
Definition DATA_FILE_SIZE : Z := PAGE_SIZE.
Definition IMAGE_SIZE : Z := 0x3000.

Definition build (code data : bytes) : result bytes :=
  raise_if ((len code =? 0) || (PAGE_SIZE <? len code))
    (ValueError "runtime code must be 1..4096 bytes, got {len(code)}");;
  raise_if (DATA_FILE_SIZE <? len data)
    (ValueError "runtime data must be <=4096 bytes, got {len(data)}");;
  let padded_data := data ++ zeros (DATA_FILE_SIZE - len data) in
  let ident := zeros 16 in
  let ident := set_slice ident 0 4 ([0x7f] ++ B "ELF") in
  let ident := set_slice ident 4 8 [2; 1; 1; 0] in
  header ← pack "<16sHHIQQQIHHHHHH"
    [VS ident; VI 2; VI 0x3E; VI 1; VI CODE_BASE; VI 64; VI 0; VI 0; VI 64; VI 56; VI 2; VI 0; VI 0; VI 0];
  code_header ← pack "<IIQQQQQQ"
    [VI 1; VI 5; VI CODE_OFFSET; VI CODE_BASE; VI 0; VI (len code); VI (len code); VI PAGE_SIZE];
  data_header ← pack "<IIQQQQQQ"
    [VI 1; VI 6; VI DATA_OFFSET; VI DATA_BASE; VI 0; VI (len padded_data); VI (len padded_data);
     VI PAGE_SIZE];
  let image := zeros (DATA_OFFSET + len padded_data) in
  let image := set_slice image 0 64 header in
  let image := set_slice image 64 120 code_header in
  let image := set_slice image 120 176 data_header in
  let image := set_slice image CODE_OFFSET (CODE_OFFSET + len code) code in
  Ok (put_tail image DATA_OFFSET padded_data).

(** [verify-runtime-user-elf.py]'s [main]; the result is [code[5]]. *)
Definition verify (data : bytes) : result Z :=
  raise_if (negb (len data =? IMAGE_SIZE))
    (SystemExit "runtime ELF must be {IMAGE_SIZE} bytes, got {len(data)}");;
  raise_if (negb (beq (slice data 0 16) ([0x7f] ++ B "ELF" ++ [2; 1; 1; 0] ++ zeros 8)))
    (SystemExit "invalid ELF64 identity");;
  fields ← unpack_ints "<HHIQQQIHHHHHH" data 16;
  raise_if (negb (beq fields [2; 0x3E; 1; CODE_BASE; 64; 0; 0; 64; 56; 2; 0; 0; 0]))
    (SystemExit "invalid ELF64 header fields: {fields!r}");;
  code ← unpack_ints "<IIQQQQQQ" data 64;
  rw ← unpack_ints "<IIQQQQQQ" data 120;
  raise_if (negb (beq (slice code 0 5) [1; 5; CODE_OFFSET; CODE_BASE; 0]))
    (SystemExit "invalid executable PT_LOAD: {code!r}");;
  code5 ← get_item code 5;
  code6 ← get_item code 6;
  code7 ← get_item code 7;
  raise_if ((code5 =? 0) || (PAGE_SIZE <? code5) || negb (code6 =? code5) || negb (code7 =? PAGE_SIZE))
    (SystemExit "invalid executable sizes: {code!r}");;
  raise_if (negb (beq rw [1; 6; DATA_OFFSET; DATA_BASE; 0; PAGE_SIZE; PAGE_SIZE; PAGE_SIZE]))
    (SystemExit "invalid writable PT_LOAD: {rw!r}");;
  raise_if (any (slice data 176 CODE_OFFSET)) (SystemExit "non-zero header padding");;
  Ok code5.

(** ** Properties of the runtime's images *)

Definition code_segment (n : Z) : bytes := segment_bytes 5 CODE_OFFSET CODE_BASE n n PAGE_SIZE.
Definition data_segment : bytes :=
  segment_bytes 6 DATA_OFFSET DATA_BASE PAGE_SIZE PAGE_SIZE PAGE_SIZE.

Lemma build_eq code data :
  0 < len code ≤ PAGE_SIZE → len data ≤ DATA_FILE_SIZE →
  build code data = Ok (image_bytes CODE_BASE (code_segment (len code)) data_segment code
    (data ++ zeros (DATA_FILE_SIZE - len data))).
Proof.
  intros Hc Hd. pose proof (len_nonneg data). unfold build, DATA_FILE_SIZE, PAGE_SIZE in *.
  pass_guard lia. pass_guard lia.
  set (padded := data ++ zeros (4096 - len data)).
  assert (len padded = 4096) as Hp by (unfold padded; len_solve). rewrite Hp.
  pose proof (header_pack CODE_BASE ltac:(unfold CODE_BASE; lia)) as Eh.
  unfold header_format, header_values in Eh.
  change (set_slice (set_slice (zeros 16) 0 4 ([127] ++ B "ELF")) 4 8 [2; 1; 1; 0]) with ident_bytes.
  unfold ident_bytes. rewrite Eh. cbn [mbind result_bind].
  pose proof (segment_pack 5 CODE_OFFSET CODE_BASE (len code) (len code) 4096) as E1.
  cbn [fmap list_fmap segment_values] in E1. unfold segment_format in E1.
  rewrite E1 by (unfold CODE_OFFSET, CODE_BASE; lia). cbn [mbind result_bind].
  pose proof (segment_pack 6 DATA_OFFSET DATA_BASE 4096 4096 4096) as E2.
  cbn [fmap list_fmap segment_values] in E2. unfold segment_format in E2.
  rewrite E2 by (unfold DATA_OFFSET, DATA_BASE; lia). cbn [mbind result_bind].
  destruct (image_writes (header_bytes CODE_BASE) (segment_bytes 5 CODE_OFFSET CODE_BASE (len code) (len code) 4096)
    (segment_bytes 6 DATA_OFFSET DATA_BASE 4096 4096 4096) code padded) as [E _];
    [apply len_header_bytes|apply len_segment_bytes|apply len_segment_bytes|lia|].
  rewrite Hp in E. apply (f_equal Ok), E.
Qed.

(** The images the verifier accepts: everything but the code, the bytes after it
    and the data is determined. *)
Definition well_formed (n : Z) (image : bytes) : Prop :=
  1 ≤ n ≤ PAGE_SIZE ∧ ∃ code rest data, len code = n ∧ len rest = PAGE_SIZE - n ∧ len data = PAGE_SIZE ∧
    image = header_bytes CODE_BASE ++ code_segment n ++ data_segment ++ zeros (CODE_OFFSET - 176) ++
            code ++ rest ++ data.

Lemma verify_well_formed n image : well_formed n image → verify image = Ok n.
Proof.
  intros (Hn & code & rest & data & Hc & Hr & Hd & ->). unfold PAGE_SIZE, CODE_OFFSET in *.
  pose proof (len_header_bytes CODE_BASE) as Lh.
  pose proof (len_segment_bytes 5 CODE_OFFSET CODE_BASE n n PAGE_SIZE) as L1. fold (code_segment n) in L1.
  pose proof (len_segment_bytes 6 DATA_OFFSET DATA_BASE PAGE_SIZE PAGE_SIZE PAGE_SIZE) as L2. fold data_segment in L2.
  unfold verify, IMAGE_SIZE, PAGE_SIZE. pass_guard ltac:(rewrite !len_app, Lh, L1, L2, len_zeros by lia; lia).
  assert (slice (header_bytes CODE_BASE ++ code_segment n ++ data_segment ++ zeros (4096 - 176) ++
    code ++ rest ++ data) 0 16 = ident_bytes) as ->.
  { unfold header_bytes. rewrite <-app_assoc. etrans; [apply slice_app_l; unfold len; simpl; lia|].
    by apply slice_full. }
  pass_guard ltac:(exact (eq_refl false)). change "<HHIQQQIHHHHHH" with tail_format. change "<IIQQQQQQ" with segment_format.
  rewrite tail_unpack by (unfold CODE_BASE; lia). cbn [mbind result_bind]. pass_guard ltac:(exact (eq_refl false)).
  pose proof (segment_unpack (header_bytes CODE_BASE)
    (data_segment ++ zeros (4096 - 176) ++ code ++ rest ++ data) 64 5 CODE_OFFSET CODE_BASE n n PAGE_SIZE) as E1.
  fold (code_segment n) in E1. rewrite E1 by (rewrite ?Lh; unfold CODE_OFFSET, CODE_BASE, PAGE_SIZE; lia).
  cbn [mbind result_bind].
  pose proof (segment_unpack (header_bytes CODE_BASE ++ code_segment n)
    (zeros (4096 - 176) ++ code ++ rest ++ data) 120 6 DATA_OFFSET DATA_BASE PAGE_SIZE PAGE_SIZE PAGE_SIZE) as E2.
  fold data_segment in E2. rewrite <-app_assoc in E2.
  rewrite E2 by (rewrite ?len_app, ?Lh, ?L1; unfold DATA_OFFSET, DATA_BASE, PAGE_SIZE; lia).
  cbn [mbind result_bind]. pass_guard ltac:(exact (eq_refl false)).
  change (get_item (segment_values 5 CODE_OFFSET CODE_BASE n n PAGE_SIZE) 5) with (Ok n).
  change (get_item (segment_values 5 CODE_OFFSET CODE_BASE n n PAGE_SIZE) 6) with (Ok n).
  change (get_item (segment_values 5 CODE_OFFSET CODE_BASE n n PAGE_SIZE) 7) with (Ok 4096).
  cbn [mbind result_bind]. pass_guard lia. pass_guard ltac:(exact (eq_refl false)).
  rewrite !app_assoc, <-!app_assoc. rewrite (app_assoc (header_bytes CODE_BASE)), (app_assoc (_ ++ code_segment n)).
  unfold CODE_OFFSET. rewrite slice_app_r by (rewrite ?len_app, ?Lh, ?L1, ?L2; lia).
  rewrite !len_app, Lh, L1, L2, slice_app_l, slice_full by (rewrite ?len_zeros; lia).
  rewrite any_zeros. reflexivity.
Qed.

Lemma verify_accepts n image : bytes_ok image → verify image = Ok n → well_formed n image.
Proof.
  unfold verify, IMAGE_SIZE. intros Hok H. apply bind_Ok_inv in H as ([] & Hlen & H).
  apply bind_Ok_inv in H as ([] & Hid & H). apply bind_Ok_inv in H as (fields & Hf & H).
  apply bind_Ok_inv in H as ([] & Hfe & H). apply bind_Ok_inv in H as (code & Hc & H).
  apply bind_Ok_inv in H as (rw & Hrw & H). apply bind_Ok_inv in H as ([] & Hce & H).
  apply bind_Ok_inv in H as (c5 & H5 & H). apply bind_Ok_inv in H as (c6 & H6 & H).
  apply bind_Ok_inv in H as (c7 & H7 & H). apply bind_Ok_inv in H as ([] & Hs & H).
  apply bind_Ok_inv in H as ([] & Hre & H). apply bind_Ok_inv in H as ([] & Hz & H). apply (inj Ok) in H as ->.
  apply raise_if_Ok in Hlen, Hid, Hfe, Hce, Hs, Hre, Hz.
  apply negb_false_iff in Hlen, Hid, Hfe, Hce, Hre. to_prop.
  apply beq_spec in Hid, Hfe, Hce, Hre. apply any_false in Hz. subst fields rw.
  change "<HHIQQQIHHHHHH" with tail_format in Hf. change "<IIQQQQQQ" with segment_format in *.
  assert (0 ≤ n ∧ code = segment_values 5 CODE_OFFSET CODE_BASE n n PAGE_SIZE) as [Hn ->].
  { assert (Forall uint_field segment_fields) as Hu by (repeat constructor; lia).
    pose proof (unpack_ints_fit _ _ _ _ _ parse_segment_format Hu Hok Hc) as Hfit.
    apply (length_unpack_ints _ _ _ _ _ parse_segment_format) in Hc.
    do 9 (destruct code as [|? code]; try discriminate Hc).
    cbn in H5, H6, H7. injection H5 as ->. injection H6 as ->. injection H7 as ->.
    cbn in Hce. injection Hce as -> -> -> -> ->. subst.
    do 5 apply Forall2_cons_1, proj2 in Hfit. apply Forall2_cons_1, proj1 in Hfit as [_ Hr].
    unfold in_range in Hr. to_prop. split; [lia|done]. }
  assert (slice image 0 4096 = header_bytes CODE_BASE ++ code_segment n ++ data_segment ++ zeros (4096 - 176))
    as Hhead.
  { rewrite <-(slice_app_join image 0 176 4096), <-(slice_app_join image 0 120 176),
      <-(slice_app_join image 0 64 120), <-(slice_app_join image 0 16 64) by lia.
    rewrite Hid. rewrite (unpack_slice_tail image CODE_BASE) by (done || unfold CODE_BASE; lia).
    change 120 with (64 + 56) at 1. change 176 with (120 + 56) at 1.
    rewrite (unpack_slice_segment image 64 5 CODE_OFFSET CODE_BASE n n PAGE_SIZE)
      by (done || unfold PAGE_SIZE, CODE_OFFSET, CODE_BASE in *; lia).
    rewrite (unpack_slice_segment image 120 6 DATA_OFFSET DATA_BASE PAGE_SIZE PAGE_SIZE PAGE_SIZE)
      by (done || unfold PAGE_SIZE, DATA_OFFSET, DATA_BASE in *; lia).
    unfold CODE_OFFSET in Hz. rewrite Hz, len_slice by lia. rewrite <-!app_assoc. reflexivity. }
  unfold well_formed, PAGE_SIZE, CODE_OFFSET in *. split; [lia|].
  exists (slice image 4096 (4096 + n)), (slice image (4096 + n) 8192), (slice image 8192 12288).
  rewrite !len_slice by lia. split_and!; [lia..|].
  rewrite <-(slice_full image 12288) at 1 by lia.
  rewrite <-(slice_app_join image 0 4096 12288), <-(slice_app_join image 4096 (4096 + n) 12288),
    <-(slice_app_join image (4096 + n) 8192 12288) by lia.
  rewrite Hhead, <-!app_assoc. reflexivity.
Qed.

(** (C20) The runtime verifier decides exactly the well-formed images: on bytes,
    it accepts an image with code size [n] if and only if the image is the ELF64
    header, one executable segment of [n] bytes, one writable page, zeros up to
    the code page, and the two pages - nothing else about the file is free. *)
Theorem runtime_verify_iff n image :
  bytes_ok image → verify image = Ok n ↔ well_formed n image.
Proof. intros Hok. split; [by apply verify_accepts|apply verify_well_formed]. Qed.

Lemma build_bounds code data image :
  build code data = Ok image → 0 < len code ≤ PAGE_SIZE ∧ len data ≤ DATA_FILE_SIZE.
Proof.
  intros H. apply bind_Ok_inv in H as ([] & Hb%raise_if_Ok & H). apply bind_Ok_inv in H as ([] & Hd%raise_if_Ok & _).
  pose proof (len_nonneg code). to_prop. lia.
Qed.

Lemma built_well_formed code data image :
  build code data = Ok image → well_formed (len code) image ∧
    slice image CODE_OFFSET (CODE_OFFSET + len code) = code ∧
    slice image DATA_OFFSET IMAGE_SIZE = data ++ zeros (DATA_FILE_SIZE - len data).
Proof.
  intros H. destruct (build_bounds _ _ _ H) as [Hc Hd].
  rewrite build_eq in H by done. apply (inj Ok) in H as <-. pose proof (len_nonneg data).
  unfold CODE_OFFSET, DATA_OFFSET, IMAGE_SIZE, code_segment, data_segment, DATA_FILE_SIZE, PAGE_SIZE in *.
  split_and!.
  - split; [unfold PAGE_SIZE; lia|]. exists code, (zeros (0x1000 - len code)), (data ++ zeros (0x1000 - len data)).
    unfold PAGE_SIZE. rewrite len_app, !len_zeros by lia. split_and!; [lia..|reflexivity].
  - by apply image_code.
  - apply image_data; [lia|]. rewrite len_app, len_zeros by lia. lia.
Qed.

(** The creator of the runtime's images either raises the [ValueError] of
    the first size its inputs violate, or writes an image its independent
    verifier accepts with the size of the code, and from whose pages the code and
    the zero-padded data read back. *)
Theorem runtime_build_verifies code data :
  (len code = 0 ∨ PAGE_SIZE < len code →
    build code data = Err (ValueError "runtime code must be 1..4096 bytes, got {len(code)}")) ∧
  (0 < len code ≤ PAGE_SIZE → DATA_FILE_SIZE < len data →
    build code data = Err (ValueError "runtime data must be <=4096 bytes, got {len(data)}")) ∧
  (0 < len code ≤ PAGE_SIZE → len data ≤ DATA_FILE_SIZE →
    ∃ image, build code data = Ok image ∧ verify image = Ok (len code) ∧
      slice image CODE_OFFSET (CODE_OFFSET + len code) = code ∧
      slice image DATA_OFFSET IMAGE_SIZE = data ++ zeros (DATA_FILE_SIZE - len data)).
Proof.
  split_and!.
  - intros H. unfold build. stop_guard ltac:(by rewrite orb_true_iff, Z.eqb_eq, Z.ltb_lt).
  - intros Hc Hd. unfold build. pass_guard lia. stop_guard lia.
  - intros Hc Hd. eexists. split; [by apply build_eq|].
    destruct (built_well_formed _ _ _ (build_eq _ _ Hc Hd)) as (Hw & Hr). split; [|done].
    by apply verify_well_formed.
Qed.

(** One instruction, and data shorter than its page. *)
Lemma runtime_verify_iff_witness : ∃ image,
  bytes_ok image ∧ (verify image = Ok 1 ↔ well_formed 1 image) ∧ verify image = Ok 1.
Proof.
  exists (image_bytes CODE_BASE (code_segment 1) data_segment [0xF4] (zeros 4096)).
  assert (bytes_okb (image_bytes CODE_BASE (code_segment 1) data_segment [0xF4] (zeros 4096)) = true) as H
    by (vm_compute; reflexivity).
  apply bytes_okb_spec in H. split; [done|]. split; [by apply runtime_verify_iff|].
  vm_compute. reflexivity.
Defined.

Lemma runtime_build_verifies_witness : ∃ image,
  build [0xF4] [1; 2; 3] = Ok image ∧ verify image = Ok 1.
Proof.
  destruct (runtime_build_verifies [0xF4] [1; 2; 3]) as (_ & _ & H).
  destruct H as (image & ? & ? & _); [by split|by apply Z.leb_le|]. eauto.
Defined.

End RuntimeElf.

