(* ===== verification/UserElfs.v ===== *)
(** * The process and service images

    - [ProcessElf]: [create-x86-64-process-elf.py] and [verify-x86-64-process-elf.py];
    - [UserElf]: [create-x86-64-user-elf.py] and [verify-x86-64-user-elf.py].

    Both creators lay one code page and one data page out as [Elf64] describes;
    the data page carries FNV-1a64 hashes of the code and of itself.  Both
    verifiers pin one payload by its size, its hashes and its instruction counts. *)

From S2P Require Import Prelude PyBytes PyHash.
From S2P Require Import Elf64.

(** ** The process images *)

Module ProcessElf.
Import Elf64.

(** [--kind] *)
Inductive kind := main_kind | exec_kind.

Definition CODE_BASE : Z := 0x0000008000000000.
Definition DATA_BASE : Z := 0x0000008000002000.
Definition CODE_OFFSET : Z := 0x1000.
Definition DATA_OFFSET : Z := 0x2000.
Definition PAGE_SIZE : Z := 0x1000.
Definition DATA_FILE_SIZE : Z := 0x800.
Definition DATA_MEMORY_SIZE : Z := 0x2000.
Definition RECORDS : list (Z * bytes) :=
  [(0x500, B "WORKER1!"); (0x508, B "WORKER2!"); (0x510, B "EXECCHLD"); (0x518, B "REUSE003")].
Definition MAGICS (k : kind) : Z :=
  match k with main_kind => 0x4D50524F43363431 | exec_kind => 0x4558454336343031 end.

Definition fnv (data : bytes) : Z :=
  foldl (λ v x, Z.land (Z.lxor v x * 0x100000001B3) 0xffffffffffffffff) 0xCBF29CE484222325 data.

(** The data page of [build]. *)
Definition build_data (code : bytes) (k : kind) : result bytes :=
  let data := zeros DATA_FILE_SIZE in
  let data := foldl (λ data '(off, value), set_slice data off (off + len value) value) data RECORDS in
  word ← pack "<II" [VI 0; VI 1];
  let data := set_slice data 0x200 0x208 word in
  magic ← pack "<Q" [VI (MAGICS k)];
  let data := set_slice data 0x7C0 0x7C8 magic in
  code_hash ← pack "<Q" [VI (fnv code)];
  let data := set_slice data 0x7C8 0x7D0 code_hash in
  data_hash ← pack "<Q" [VI (fnv (slice data 0 0x7D0))];
  Ok (set_slice data 0x7D0 0x7D8 data_hash).

Definition build (code : bytes) (k : kind) : result bytes :=
  raise_if ((len code =? 0) || (PAGE_SIZE <? len code)) (ValueError "{len(code)}");;
  data ← build_data code k;
  let ident := zeros 16 in
  let ident := set_slice ident 0 4 ([0x7f] ++ B "ELF") in
  let ident := set_slice ident 4 8 [2; 1; 1; 0] in
  eh ← pack "<16sHHIQQQIHHHHHH"
    [VS ident; VI 2; VI 0x3E; VI 1; VI CODE_BASE; VI 64; VI 0; VI 0; VI 64; VI 56; VI 2; VI 0; VI 0; VI 0];
  ph1 ← pack "<IIQQQQQQ"
    [VI 1; VI 5; VI CODE_OFFSET; VI CODE_BASE; VI 0; VI (len code); VI (len code); VI PAGE_SIZE];
  ph2 ← pack "<IIQQQQQQ"
    [VI 1; VI 6; VI DATA_OFFSET; VI DATA_BASE; VI 0; VI (len data); VI DATA_MEMORY_SIZE; VI PAGE_SIZE];
  let out := zeros (DATA_OFFSET + len data) in
  let out := set_slice out 0 64 eh in
  let out := set_slice out 64 120 ph1 in
  let out := set_slice out 120 176 ph2 in
  let out := set_slice out CODE_OFFSET (CODE_OFFSET + len code) code in
  Ok (put_tail out DATA_OFFSET data).

Definition EXPECTED_PAYLOAD (k : kind) : Z := match k with main_kind => 1657 | exec_kind => 175 end.
Definition EXPECTED_SYSCALLS (k : kind) : Z := match k with main_kind => 44 | exec_kind => 7 end.
Definition EXPECTED_CODE_FNV (k : kind) : Z :=
  match k with main_kind => 0xD56BC3BAEAFFE340 | exec_kind => 0x98EA5EC32A047A98 end.
Definition EXPECTED_ELF_FNV (k : kind) : Z :=
  match k with main_kind => 0xF4E0D9F25BF74D76 | exec_kind => 0x13F8A5B090C2F18A end.
Definition EXPECTED_SHA (k : kind) : string :=
  match k with
  | main_kind => "A04BEBD46E4C95A9A34A5BD84B2B3A43A2C555FB1601F2A94EBDBA82D3DDDD40"
  | exec_kind => "41D3ED292B1BE84EF3A30969B9CF22D650A22FB8BA92E831C40838B771B97B65"
  end.

Definition fail_if (b : bool) (message : string) : result unit := raise_if b (SystemExit message).

(** The checks of the headers, up to the sizes of the segments; the result is
    [p1[5]]. *)
Definition verify_headers (b : bytes) (k : kind) : result Z :=
  fail_if (negb (len b =? 10240)) "{path}: size {len(b)}";;
  vs ← unpack_from "<16sHHIQQQIHHHHHH" b 0;
  match vs with
  | [VS ident; VI etype; VI machine; VI version; VI entry; VI phoff; VI shoff; VI flags; VI ehsize;
     VI phentsize; VI phnum; _; _; _] =>
      fail_if (negb (beq (slice ident 0 8) ([0x7f] ++ B "ELF" ++ [2; 1; 1; 0])) || negb (etype =? 2)
               || negb (machine =? 0x3E) || negb (version =? 1)) "bad ELF identity";;
      fail_if (negb (entry =? CODE_BASE) || negb (phoff =? 64) || negb (ehsize =? 64)
               || negb (phentsize =? 56) || negb (phnum =? 2) || truthy shoff || truthy flags)
        "bad ELF header"
  | _ => Err StructError
  end;;
  p1 ← unpack_ints "<IIQQQQQQ" b 64;
  p2 ← unpack_ints "<IIQQQQQQ" b 120;
  fail_if (negb (beq (slice p1 0 5) [1; 5; 0x1000; CODE_BASE; 0])
           || negb (beq (slice p2 0 5) [1; 6; 0x2000; DATA_BASE; 0])) "bad program headers";;
  p1_5 ← get_item p1 5;
  p1_6 ← get_item p1 6;
  p1_7 ← get_item p1 7;
  fail_if (negb (p1_5 =? EXPECTED_PAYLOAD k) || negb (p1_6 =? p1_5) || negb (p1_7 =? 0x1000))
    "bad RX sizing";;
  fail_if (negb (beq (slice_from p2 5) [0x800; 0x2000; 0x1000])) "bad RW sizing";;
  Ok p1_5.

(** The checks of the contents. *)
Definition verify_identity (b code : bytes) (k : kind) : result unit :=
  fail_if (negb (count code [0xCD; 0x80] =? EXPECTED_SYSCALLS k)) "bad syscall count";;
  fail_if (negb (fnv code =? EXPECTED_CODE_FNV k)) "unexpected code identity";;
  fail_if (negb (fnv b =? EXPECTED_ELF_FNV k)) "unexpected ELF FNV identity";;
  fail_if (negb (String.eqb (hex_upper (sha256 b)) (EXPECTED_SHA k))) "unexpected ELF SHA-256 identity".

Definition verify_data (code data : bytes) (k : kind) : result unit :=
  magic ← unpack_int "<Q" data 0x7C0;
  fail_if (negb (magic =? MAGICS k)) "bad magic";;
  code_hash ← unpack_int "<Q" data 0x7C8;
  fail_if (negb (code_hash =? fnv code)) "bad code hash";;
  data_hash ← unpack_int "<Q" data 0x7D0;
  fail_if (negb (data_hash =? fnv (slice data 0 0x7D0))) "bad data hash";;
  forM_ (λ '(off, val), fail_if (negb (beq (slice data off (off + 8)) val)) "bad record") RECORDS.

Definition verify (b : bytes) (k : kind) : result unit :=
  p1_5 ← verify_headers b k;
  let code := slice b 0x1000 (0x1000 + p1_5) in
  let data := slice b 0x2000 0x2800 in
  verify_identity b code k;;
  verify_data code data k.

(** ** The creator's images pass every check but the pinned identity *)

Lemma process_fnv_range data : 0 ≤ fnv data < 2 ^ 64.
Proof.
  unfold fnv. apply (foldl_prefix (λ _ v, 0 ≤ v < 2 ^ 64)); [lia|]. intros _ b v _ _.
  change 0xffffffffffffffff with (Z.ones 64). rewrite Z.land_ones by lia. apply Z.mod_pos_bound. lia.
Qed.

Lemma MAGICS_range k : 0 ≤ MAGICS k < 2 ^ 64.
Proof. destruct k; simpl; lia. Qed.

Lemma process_le_int_fnv data : le_int (le_bytes 8 (fnv data)) = fnv data.
Proof. apply le_int_le_bytes; [lia|apply process_fnv_range]. Qed.
Lemma le_int_MAGICS k : le_int (le_bytes 8 (MAGICS k)) = MAGICS k.
Proof. apply le_int_le_bytes; [lia|apply MAGICS_range]. Qed.

(** The data page with its records, with the hash of the code, and complete. *)
Definition records_page : bytes :=
  put (foldl (λ data '(off, value), set_slice data off (off + len value) value) (zeros DATA_FILE_SIZE) RECORDS)
    0x200 (le_bytes 4 0 ++ le_bytes 4 1).
Definition hashed_page (k : kind) (code : bytes) : bytes :=
  put (put records_page 0x7C0 (le_bytes 8 (MAGICS k))) 0x7C8 (le_bytes 8 (fnv code)).
Definition data_page (k : kind) (code : bytes) : bytes :=
  put (hashed_page k code) 0x7D0 (le_bytes 8 (fnv (slice (hashed_page k code) 0 0x7D0))).

Lemma process_build_data_eq code k : build_data code k = Ok (data_page k code).
Proof.
  unfold build_data.
  assert (pack "<II" [VI 0; VI 1] = Ok (le_bytes 4 0 ++ le_bytes 4 1)) as -> by reflexivity.
  rewrite bind_ok.
  etrans; [apply pack_Q_step, MAGICS_range|]. etrans; [apply pack_Q_step, process_fnv_range|].
  etrans; [apply pack_Q_step, process_fnv_range|]. rewrite !set_slice_Q by lia.
  rewrite (set_slice_put _ (le_bytes 4 0 ++ le_bytes 4 1)) by reflexivity.
  unfold data_page, hashed_page, records_page. reflexivity.
Qed.

Lemma len_records_page : len records_page = 0x800.
Proof. vm_compute. reflexivity. Qed.

Lemma records_page_spec :
  forallb (λ '(off, val), (0 <=? off) && (off + 8 <=? 0x7C0) && beq (slice records_page off (off + 8)) val)
    RECORDS = true.
Proof. vm_compute. reflexivity. Qed.

#[local] Opaque records_page.

Lemma process_len_hashed_page k code : len (hashed_page k code) = 0x800.
Proof. unfold hashed_page. pose proof len_records_page. len_solve. Qed.
Lemma process_len_data_page k code : len (data_page k code) = 0x800.
Proof. unfold data_page. pose proof (process_len_hashed_page k code). len_solve. Qed.

Lemma data_page_prefix k code : slice (data_page k code) 0 0x7D0 = slice (hashed_page k code) 0 0x7D0.
Proof. unfold data_page. pose proof (process_len_hashed_page k code). by rewrite slice_put_ne by len_solve. Qed.

Lemma process_fail_neq x y message (m : result unit) :
  x = y → (fail_if (negb (x =? y)) message;; m) = m.
Proof. intros ->. unfold fail_if. by rewrite Z.eqb_refl. Qed.

Lemma data_page_reads k code :
  slice (data_page k code) 0x7C0 (0x7C0 + 8) = le_bytes 8 (MAGICS k) ∧
  slice (data_page k code) 0x7C8 (0x7C8 + 8) = le_bytes 8 (fnv code) ∧
  slice (data_page k code) 0x7D0 (0x7D0 + 8) = le_bytes 8 (fnv (slice (hashed_page k code) 0 0x7D0)).
Proof.
  pose proof (process_len_hashed_page k code) as Lh. pose proof len_records_page as Lr.
  split_and!; unfold data_page, hashed_page in *; by read_writes.
Qed.

Lemma data_page_record k code off :
  0 ≤ off → off + 8 ≤ 0x7C0 → slice (data_page k code) off (off + 8) = slice records_page off (off + 8).
Proof.
  intros. pose proof (process_len_hashed_page k code) as Lh. pose proof len_records_page as Lr.
  unfold data_page, hashed_page in *. by rewrite !slice_put_ne by len_solve.
Qed.

Lemma verify_records k code :
  forM_ (λ '(off, val), fail_if (negb (beq (slice (data_page k code) off (off + 8)) val)) "bad record") RECORDS
    = Ok tt.
Proof.
  apply forM_Ok, Forall_forall. intros [off val] Hin.
  pose proof records_page_spec as Hs. rewrite forallb_forall in Hs.
  specialize (Hs (off, val) (proj1 (list_elem_of_In _ _) Hin)). cbv beta iota in Hs. to_prop.
  apply raise_if_false, negb_false_iff. by rewrite data_page_record.
Qed.

Lemma process_verify_data_page k code : verify_data code (data_page k code) k = Ok tt.
Proof.
  pose proof (process_len_data_page k code) as Ld. pose proof (verify_records k code) as Hr.
  destruct (data_page_reads k code) as (E1 & E2 & E3). rewrite <-data_page_prefix in E3.
  revert Ld Hr E1 E2 E3. generalize (data_page k code). intros data Ld Hr E1 E2 E3. unfold verify_data.
  rewrite (unpack_int_eq "<Q" 8 _ 0x7C0 parse_fmt_Q), bind_ok by lia.
  rewrite E1, le_int_MAGICS, process_fail_neq by reflexivity.
  rewrite (unpack_int_eq "<Q" 8 _ 0x7C8 parse_fmt_Q), bind_ok by lia.
  rewrite E2, process_le_int_fnv, process_fail_neq by reflexivity.
  rewrite (unpack_int_eq "<Q" 8 _ 0x7D0 parse_fmt_Q), bind_ok by lia.
  rewrite E3, process_le_int_fnv, process_fail_neq by reflexivity. exact Hr.
Qed.

Definition code_segment (n : Z) : bytes := segment_bytes 5 CODE_OFFSET CODE_BASE n n PAGE_SIZE.
Definition data_segment : bytes :=
  segment_bytes 6 DATA_OFFSET DATA_BASE DATA_FILE_SIZE DATA_MEMORY_SIZE PAGE_SIZE.

Lemma process_build_eq code k :
  0 < len code ≤ PAGE_SIZE →
  build code k = Ok (image_bytes CODE_BASE (code_segment (len code)) data_segment code (data_page k code)).
Proof.
  intros Hc. unfold build, PAGE_SIZE in *. pass_guard lia.
  rewrite process_build_data_eq, bind_ok.
  generalize (data_page k code), (process_len_data_page k code). intros data Ld. rewrite Ld.
  pose proof (header_pack CODE_BASE ltac:(unfold CODE_BASE; lia)) as Eh.
  unfold header_format, header_values in Eh.
  change (set_slice (set_slice (zeros 16) 0 4 ([127] ++ B "ELF")) 4 8 [2; 1; 1; 0]) with ident_bytes.
  unfold ident_bytes. rewrite Eh. cbn [mbind result_bind].
  pose proof (segment_pack 5 CODE_OFFSET CODE_BASE (len code) (len code) 4096) as E1.
  cbn [fmap list_fmap segment_values] in E1. unfold segment_format in E1.
  rewrite E1 by (unfold CODE_OFFSET, CODE_BASE; lia). cbn [mbind result_bind].
  pose proof (segment_pack 6 DATA_OFFSET DATA_BASE 0x800 DATA_MEMORY_SIZE 4096) as E2.
  cbn [fmap list_fmap segment_values] in E2. unfold segment_format in E2.
  rewrite E2 by (unfold DATA_OFFSET, DATA_BASE, DATA_MEMORY_SIZE; lia). cbn [mbind result_bind].
  destruct (image_writes (header_bytes CODE_BASE) (segment_bytes 5 CODE_OFFSET CODE_BASE (len code) (len code) 4096)
    (segment_bytes 6 DATA_OFFSET DATA_BASE 0x800 DATA_MEMORY_SIZE 4096) code data) as [E _]; [apply len_header_bytes|apply len_segment_bytes|apply len_segment_bytes|lia|].
  rewrite Ld in E. apply (f_equal Ok), E.
Qed.

Lemma process_build_bounds code k image : build code k = Ok image → 0 < len code ≤ PAGE_SIZE.
Proof.
  intros H. apply bind_Ok_inv in H as ([] & Hb%raise_if_Ok & _). pose proof (len_nonneg code). to_prop. lia.
Qed.

(** What the headers of an image must read as. *)
Lemma process_verify_headers_eq b k n :
  len b = 10240 → unpack_from header_format b 0 = Ok (header_values CODE_BASE) →
  unpack_ints segment_format b 64 = Ok (segment_values 5 CODE_OFFSET CODE_BASE n n PAGE_SIZE) →
  unpack_ints segment_format b 120 =
    Ok (segment_values 6 DATA_OFFSET DATA_BASE DATA_FILE_SIZE DATA_MEMORY_SIZE PAGE_SIZE) →
  verify_headers b k = (fail_if (negb (n =? EXPECTED_PAYLOAD k)) "bad RX sizing";; Ok n).
Proof.
  intros Hl Hh H1 H2. unfold verify_headers, fail_if. pass_guard lia.
  change "<16sHHIQQQIHHHHHH" with header_format. change "<IIQQQQQQ" with segment_format.
  rewrite Hh, H1, H2, !bind_ok. unfold header_values.
  replace (segment_values 5 CODE_OFFSET CODE_BASE n n PAGE_SIZE) with [1; 5; 0x1000; CODE_BASE; 0; n; n; 0x1000]
    by reflexivity.
  cbv beta iota.
  match goal with |- mbind _ ?m = _ => replace m with (@Ok unit tt) by reflexivity end. rewrite bind_ok.
  pass_guard ltac:(exact (eq_refl false)).
  change (get_item [1; 5; 0x1000; CODE_BASE; 0; n; n; 0x1000] 5) with (Ok n).
  change (get_item [1; 5; 0x1000; CODE_BASE; 0; n; n; 0x1000] 6) with (Ok n).
  change (get_item [1; 5; 0x1000; CODE_BASE; 0; n; n; 0x1000] 7) with (Ok 0x1000).
  rewrite !bind_ok, (Z.eqb_refl n), !orb_false_r.
  destruct (n =? EXPECTED_PAYLOAD k); [|reflexivity]. exact (eq_refl (Ok n)).
Qed.

(** The process images' creator raises exactly on payloads that do not fit
    the code page; every image it writes passes its independent verifier up to
    the pinned identity: [verify] then fails or succeeds exactly as the payload
    size and the identity checks do, and the data page's magic, hashes and records
    are never the cause. *)
Theorem process_build_verifies code k :
  (len code = 0 ∨ PAGE_SIZE < len code → build code k = Err (ValueError "{len(code)}")) ∧
  (0 < len code ≤ PAGE_SIZE →
    ∃ image, build code k = Ok image ∧ len image = 10240 ∧
      slice image CODE_OFFSET (CODE_OFFSET + len code) = code ∧
      verify image k = (fail_if (negb (len code =? EXPECTED_PAYLOAD k)) "bad RX sizing";;
                        verify_identity image code k)).
Proof.
  split.
  - intros H. unfold build. stop_guard ltac:(by rewrite orb_true_iff, Z.eqb_eq, Z.ltb_lt).
  - intros Hc. eexists. split; [by apply process_build_eq|].
    pose proof (process_verify_data_page k code) as Hv. revert Hv.
    generalize (data_page k code), (process_len_data_page k code). intros data Ld Hv.
    unfold code_segment, data_segment. unfold PAGE_SIZE in Hc. assert (len code ≤ 0x1000) as Hc' by lia.
    split_and!.
    + by rewrite len_image, Ld.
    + by apply image_code.
    + unfold verify. rewrite (process_verify_headers_eq _ _ (len code)).
      * unfold fail_if. destruct (negb (len code =? EXPECTED_PAYLOAD k)); [reflexivity|].
        cbn [raise_if]. rewrite !bind_ok, image_code, image_data by (rewrite ?Ld; lia).
        destruct (verify_identity _ _ _) as [[]|]; [exact Hv|reflexivity].
      * by rewrite len_image, Ld.
      * apply image_header. unfold CODE_BASE. lia.
      * apply image_segment1; unfold CODE_OFFSET, CODE_BASE, PAGE_SIZE; lia.
      * apply image_segment2; unfold DATA_OFFSET, DATA_BASE, DATA_FILE_SIZE, DATA_MEMORY_SIZE, PAGE_SIZE; lia.
Qed.

Lemma process_build_verifies_witness :
  ∃ image, build [0xCD; 0x80] exec_kind = Ok image ∧ verify image exec_kind = Err (SystemExit "bad RX sizing").
Proof.
  destruct (process_build_verifies [0xCD; 0x80] exec_kind) as [_ H].
  destruct H as (image & Hb & _ & _ & Hv); [by split|]. exists image. by split.
Defined.

End ProcessElf.

(** ** The user service image *)

Module UserElf.
Import Elf64.

Definition CODE_BASE : Z := 0x0000008000100000.
Definition DATA_BASE : Z := 0x0000008000102000.
Definition CODE_OFFSET : Z := 0x1000.
Definition DATA_OFFSET : Z := 0x2000.
Definition PAGE_SIZE : Z := 0x1000.
Definition DATA_FILE_SIZE : Z := 0x800.
Definition DATA_MEMORY_SIZE : Z := 0x2000.
Definition MESSAGE_OFFSET : Z := 0x400.
Definition PIPE_OFFSET : Z := 0x440.
Definition MESSAGE : bytes := B "ZigOs x86-64 ELF64 service active.".
Definition PIPE_PAYLOAD : bytes := B "PIPE64-PAYLOAD-VERIFIED!".

(** The data page of [build_elf]. *)
Definition build_data (code : bytes) : result bytes :=
  let data := zeros DATA_FILE_SIZE in
  let data := set_slice data MESSAGE_OFFSET (MESSAGE_OFFSET + len MESSAGE) MESSAGE in
  let data := set_slice data PIPE_OFFSET (PIPE_OFFSET + len PIPE_PAYLOAD) PIPE_PAYLOAD in
  magic ← pack "<Q" [VI 0x4543495652455336];
  let data := set_slice data 0x7C0 0x7C8 magic in
  code_hash ← pack "<Q" [VI (fnv1a64 code)];
  let data := set_slice data 0x7C8 0x7D0 code_hash in
  data_hash ← pack "<Q" [VI (fnv1a64 (slice data 0 0x7D0))];
  Ok (set_slice data 0x7D0 0x7D8 data_hash).

Definition build_elf (code : bytes) : result bytes :=
  raise_if ((len code =? 0) || (PAGE_SIZE <? len code))
    (ValueError "service payload must fit one page, got {len(code)} bytes");;
  raise_if (negb (len MESSAGE =? 34)) AssertionError;;
  raise_if (negb (len PIPE_PAYLOAD =? 24)) AssertionError;;
  data ← build_data code;
  let ident := zeros 16 in
  let ident := set_slice ident 0 4 ([0x7f] ++ B "ELF") in
  ident ← set_item ident 4 2;
  ident ← set_item ident 5 1;
  ident ← set_item ident 6 1;
  ident ← set_item ident 7 0;
  ehdr ← pack "<16sHHIQQQIHHHHHH"
    [VS ident; VI 2; VI 0x3E; VI 1; VI CODE_BASE; VI 64; VI 0; VI 0; VI 64; VI 56; VI 2; VI 0; VI 0; VI 0];
  text_phdr ← pack "<IIQQQQQQ"
    [VI 1; VI 5; VI CODE_OFFSET; VI CODE_BASE; VI 0; VI (len code); VI (len code); VI PAGE_SIZE];
  data_phdr ← pack "<IIQQQQQQ"
    [VI 1; VI 6; VI DATA_OFFSET; VI DATA_BASE; VI 0; VI (len data); VI DATA_MEMORY_SIZE; VI PAGE_SIZE];
  let image := zeros (DATA_OFFSET + len data) in
  let image := set_slice image 0 64 ehdr in
  let image := set_slice image 64 120 text_phdr in
  let image := set_slice image 120 176 data_phdr in
  let image := set_slice image CODE_OFFSET (CODE_OFFSET + len code) code in
  Ok (set_slice image DATA_OFFSET (DATA_OFFSET + len data) data).

Definition EXPECTED_PAYLOAD_BYTES : Z := 2628.
Definition EXPECTED_CODE_FNV : Z := 0x8B9C77E6A0D03758.
Definition EXPECTED_ELF_SHA256 : string :=
  "A166FAE8BCFD94663CA1CE0904AE2BF5D2044E831179910C173F9E4BCA1A8E28".

(** [fail] prefixes its message with the tool's name. *)
Definition fail_if (b : bool) (message : string) : result unit :=
  raise_if b (SystemExit (String.append "x86-64 user ELF verification failed: " message)).

(** [main] up to the alignment of the segments; the result is [text[5]].  The
    [None]s of the expected text segment are never compared. *)
Definition verify_headers (image : bytes) : result Z :=
  fail_if (negb (len image =? 0x2800)) "image size {len(image)} is not 0x2800";;
  vs ← unpack_from "<16sHHIQQQIHHHHHH" image 0;
  match vs with
  | [VS ident; VI e_type; VI machine; VI version; VI entry; VI phoff; VI shoff; VI flags; VI ehsize;
     VI phentsize; VI phnum; VI shentsize; VI shnum; VI shstrndx] =>
      fail_if (negb (beq (slice ident 0 8) ([0x7f] ++ B "ELF" ++ [2; 1; 1; 0])))
        "ELF identification is not ELF64 little-endian System V";;
      fail_if (negb (beq [e_type; machine; version; entry; phoff; shoff; flags]
                         [2; 0x3E; 1; CODE_BASE; 64; 0; 0])) "ELF executable header contract mismatch";;
      fail_if (negb (beq [ehsize; phentsize; phnum; shentsize; shnum; shstrndx] [64; 56; 2; 0; 0; 0]))
        "ELF table sizes/counts mismatch"
  | _ => Err StructError
  end;;
  text ← unpack_ints "<IIQQQQQQ" image (64 + 0 * 56);
  rw ← unpack_ints "<IIQQQQQQ" image (64 + 1 * 56);
  text2 ← get_item text 2;
  text3 ← get_item text 3;
  text5 ← get_item text 5;
  text6 ← get_item text 6;
  text7 ← get_item text 7;
  fail_if (negb (beq (slice text 0 5) [1; 5; 0x1000; CODE_BASE; 0]) || (text5 =? 0) || (0x1000 <? text5)
           || negb (text6 =? text5) || negb (text7 =? 0x1000)) "RX PT_LOAD contract mismatch";;
  fail_if (negb (beq rw [1; 6; 0x2000; DATA_BASE; 0; 0x800; 0x2000; 0x1000]))
    "RW PT_LOAD contract mismatch";;
  rw2 ← get_item rw 2;
  rw3 ← get_item rw 3;
  fail_if (negb (text2 mod text7 =? text3 mod text7) || negb (rw2 mod 0x1000 =? rw3 mod 0x1000))
    "PT_LOAD offset/virtual alignment mismatch";;
  Ok text5.

Definition verify_identity (image code : bytes) : result unit :=
  fail_if (negb (len code =? EXPECTED_PAYLOAD_BYTES)) "payload size {len(code)} is not {EXPECTED_PAYLOAD_BYTES}";;
  fail_if (negb (fnv1a64 code =? EXPECTED_CODE_FNV))
    "payload FNV {fnv1a64(code):016X} is not {EXPECTED_CODE_FNV:016X}";;
  fail_if (negb (String.eqb (hex_upper (sha256 image)) EXPECTED_ELF_SHA256))
    "ELF SHA-256 {image_sha256} is not {EXPECTED_ELF_SHA256}".

Definition verify_data (code data : bytes) : result unit :=
  fail_if (negb (beq (slice data 0x400 (0x400 + len MESSAGE)) MESSAGE)) "message bytes mismatch";;
  fail_if (negb (beq (slice data 0x440 (0x440 + len PIPE_PAYLOAD)) PIPE_PAYLOAD))
    "pipe payload bytes mismatch";;
  magic ← unpack_int "<Q" data 0x7C0;
  fail_if (negb (magic =? 0x4543495652455336)) "data identity marker mismatch";;
  code_hash ← unpack_int "<Q" data 0x7C8;
  fail_if (negb (code_hash =? fnv1a64 code)) "embedded code FNV mismatch";;
  data_hash ← unpack_int "<Q" data 0x7D0;
  fail_if (negb (data_hash =? fnv1a64 (slice data 0 0x7D0))) "embedded data FNV mismatch".

Definition verify_code (code : bytes) : result unit :=
  let syscall_count := count code [0xCD; 0x80] in
  fail_if (negb (syscall_count =? 51)) "expected 51 int 0x80 instructions, found {syscall_count}";;
  fail_if (negb (count code [0x0F; 0x0B] =? 4)) "expected exactly four terminal/fault UD2 guards".

Definition verify (image : bytes) : result unit :=
  text5 ← verify_headers image;
  let code := slice image 0x1000 (0x1000 + text5) in
  let data := slice image 0x2000 0x2800 in
  verify_identity image code;;
  verify_data code data;;
  verify_code code.

(** ** The creator's images pass every check but the pinned identity *)

Lemma user_fnv_range data : 0 ≤ fnv1a64 data < 2 ^ 64.
Proof. apply ProcessElf.process_fnv_range. Qed.
Lemma user_le_int_fnv data : le_int (le_bytes 8 (fnv1a64 data)) = fnv1a64 data.
Proof. apply le_int_le_bytes; [lia|apply user_fnv_range]. Qed.

(** The data page with its messages and marker, with the hash of the code, and
    complete. *)
Definition message_page : bytes :=
  put (set_slice (set_slice (zeros DATA_FILE_SIZE) MESSAGE_OFFSET (MESSAGE_OFFSET + len MESSAGE) MESSAGE)
    PIPE_OFFSET (PIPE_OFFSET + len PIPE_PAYLOAD) PIPE_PAYLOAD) 0x7C0 (le_bytes 8 0x4543495652455336).
Definition hashed_page (code : bytes) : bytes := put message_page 0x7C8 (le_bytes 8 (fnv1a64 code)).
Definition data_page (code : bytes) : bytes :=
  put (hashed_page code) 0x7D0 (le_bytes 8 (fnv1a64 (slice (hashed_page code) 0 0x7D0))).

Lemma user_build_data_eq code : build_data code = Ok (data_page code).
Proof.
  unfold build_data.
  etrans; [apply pack_Q_step; lia|]. etrans; [apply pack_Q_step, user_fnv_range|].
  etrans; [apply pack_Q_step, user_fnv_range|]. rewrite !set_slice_Q by lia.
  unfold data_page, hashed_page, message_page. reflexivity.
Qed.

Lemma message_page_spec :
  (len message_page =? 0x800) &&
  beq (slice message_page 0x400 (0x400 + len MESSAGE)) MESSAGE &&
  beq (slice message_page 0x440 (0x440 + len PIPE_PAYLOAD)) PIPE_PAYLOAD &&
  beq (slice message_page 0x7C0 (0x7C0 + 8)) (le_bytes 8 0x4543495652455336) = true.
Proof. vm_compute. reflexivity. Qed.

#[local] Opaque message_page.

Lemma len_message_page : len message_page = 0x800.
Proof. pose proof message_page_spec as H. to_prop. done. Qed.
Lemma user_len_hashed_page code : len (hashed_page code) = 0x800.
Proof. unfold hashed_page. pose proof len_message_page. len_solve. Qed.
Lemma user_len_data_page code : len (data_page code) = 0x800.
Proof. unfold data_page. pose proof (user_len_hashed_page code). len_solve. Qed.

(** Below the hashes the page is the message page. *)
Lemma data_page_low code a b :
  0 ≤ a → a ≤ b → b ≤ 0x7C8 → slice (data_page code) a b = slice message_page a b.
Proof.
  intros. pose proof (user_len_hashed_page code) as Lh. pose proof len_message_page as Lm.
  unfold data_page, hashed_page in *. by rewrite !slice_put_ne by len_solve.
Qed.

Lemma data_page_hashes code :
  slice (data_page code) 0x7C8 (0x7C8 + 8) = le_bytes 8 (fnv1a64 code) ∧
  slice (data_page code) 0x7D0 (0x7D0 + 8) = le_bytes 8 (fnv1a64 (slice (data_page code) 0 0x7D0)).
Proof.
  pose proof (user_len_hashed_page code) as Lh. pose proof len_message_page as Lm.
  split; unfold data_page, hashed_page in *; by read_writes.
Qed.

Lemma user_fail_neq x y message (m : result unit) :
  x = y → (fail_if (negb (x =? y)) message;; m) = m.
Proof. intros ->. unfold fail_if. by rewrite Z.eqb_refl. Qed.

Lemma fail_bneq l k message (m : result unit) :
  l = k → (fail_if (negb (beq l k)) message;; m) = m.
Proof. intros ->. unfold fail_if. by rewrite beq_refl. Qed.

Lemma user_verify_data_page code : verify_data code (data_page code) = Ok tt.
Proof.
  pose proof (user_len_data_page code) as Ld. destruct (data_page_hashes code) as (E1 & E2).
  pose proof message_page_spec as Hs. to_prop. repeat match goal with H : beq _ _ = true |- _ => apply beq_spec in H end.
  rewrite <-(data_page_low code) in * by (done || lia).
  generalize dependent (data_page code). intros data Ld E1 E2 Em Ep Eq. unfold verify_data.
  do 2 rewrite fail_bneq by assumption.
  rewrite (unpack_int_eq "<Q" 8 _ 0x7C0 parse_fmt_Q), bind_ok by lia.
  rewrite Eq, user_fail_neq by (by rewrite le_int_le_bytes by lia).
  rewrite (unpack_int_eq "<Q" 8 _ 0x7C8 parse_fmt_Q), bind_ok by lia.
  rewrite E1, user_le_int_fnv, user_fail_neq by reflexivity.
  rewrite (unpack_int_eq "<Q" 8 _ 0x7D0 parse_fmt_Q), bind_ok by lia.
  rewrite E2, user_le_int_fnv. unfold fail_if. by rewrite Z.eqb_refl.
Qed.

Definition code_segment (n : Z) : bytes := segment_bytes 5 CODE_OFFSET CODE_BASE n n PAGE_SIZE.
Definition data_segment : bytes :=
  segment_bytes 6 DATA_OFFSET DATA_BASE DATA_FILE_SIZE DATA_MEMORY_SIZE PAGE_SIZE.

Lemma user_build_eq code :
  0 < len code ≤ PAGE_SIZE →
  build_elf code = Ok (image_bytes CODE_BASE (code_segment (len code)) data_segment code (data_page code)).
Proof.
  intros Hc. unfold build_elf, PAGE_SIZE in *. pass_guard lia.
  pass_guard ltac:(exact (eq_refl false)). pass_guard ltac:(exact (eq_refl false)).
  rewrite user_build_data_eq, bind_ok.
  generalize (data_page code), (user_len_data_page code). intros data Ld. rewrite Ld.
  do 4 (match goal with |- context [set_item ?l ?i ?v] =>
    let r := eval vm_compute in (set_item l i v) in replace (set_item l i v) with r by reflexivity end;
    rewrite bind_ok).
  etrans; [apply (f_equal (mbind _)), (header_pack CODE_BASE ltac:(unfold CODE_BASE; lia))|]. rewrite bind_ok.
  pose proof (segment_pack 5 CODE_OFFSET CODE_BASE (len code) (len code) 4096) as E1.
  cbn [fmap list_fmap segment_values] in E1. unfold segment_format in E1.
  rewrite E1, bind_ok by (unfold CODE_OFFSET, CODE_BASE; lia).
  pose proof (segment_pack 6 DATA_OFFSET DATA_BASE 0x800 DATA_MEMORY_SIZE 4096) as E2.
  cbn [fmap list_fmap segment_values] in E2. unfold segment_format in E2.
  rewrite E2, bind_ok by (unfold DATA_OFFSET, DATA_BASE, DATA_MEMORY_SIZE; lia).
  destruct (image_writes (header_bytes CODE_BASE) (segment_bytes 5 CODE_OFFSET CODE_BASE (len code) (len code) 4096)
    (segment_bytes 6 DATA_OFFSET DATA_BASE 0x800 DATA_MEMORY_SIZE 4096) code data) as [E Et];
    [apply len_header_bytes|apply len_segment_bytes|apply len_segment_bytes|lia|].
  rewrite <-Et in E. rewrite Ld in E. apply (f_equal Ok), E.
Qed.

Lemma user_build_bounds code image : build_elf code = Ok image → 0 < len code ≤ PAGE_SIZE.
Proof.
  intros H. apply bind_Ok_inv in H as ([] & Hb%raise_if_Ok & _). pose proof (len_nonneg code). to_prop. lia.
Qed.

(** What the headers of an image must read as. *)
Lemma user_verify_headers_eq b n :
  len b = 0x2800 → 0 < n ≤ 0x1000 → unpack_from header_format b 0 = Ok (header_values CODE_BASE) →
  unpack_ints segment_format b 64 = Ok (segment_values 5 CODE_OFFSET CODE_BASE n n PAGE_SIZE) →
  unpack_ints segment_format b 120 =
    Ok (segment_values 6 DATA_OFFSET DATA_BASE DATA_FILE_SIZE DATA_MEMORY_SIZE PAGE_SIZE) →
  verify_headers b = Ok n.
Proof.
  intros Hl Hn Hh H1 H2. unfold verify_headers, fail_if. pass_guard lia.
  change "<16sHHIQQQIHHHHHH" with header_format. change "<IIQQQQQQ" with segment_format.
  change (64 + 0 * 56) with 64. change (64 + 1 * 56) with 120.
  rewrite Hh, H1, H2, !bind_ok. unfold header_values.
  replace (segment_values 5 CODE_OFFSET CODE_BASE n n PAGE_SIZE) with [1; 5; 0x1000; CODE_BASE; 0; n; n; 0x1000]
    by reflexivity.
  cbv beta iota.
  match goal with |- mbind _ ?m = _ => replace m with (@Ok unit tt) by reflexivity end. rewrite bind_ok.
  do 5 match goal with |- mbind _ (get_item [1; 5; 0x1000; CODE_BASE; 0; n; n; 0x1000] ?i) = _ =>
    let r := eval vm_compute in (get_item [1; 5; 0x1000; CODE_BASE; 0; n; n; 0x1000] i) in
    change (get_item [1; 5; 0x1000; CODE_BASE; 0; n; n; 0x1000] i) with r; rewrite bind_ok end.
  match goal with |- context [negb (beq (slice ?l 0 5) ?k)] =>
    replace (negb (beq (slice l 0 5) k)) with false by reflexivity end.
  pass_guard lia. pass_guard ltac:(exact (eq_refl false)). reflexivity.
Qed.

(** The service image's creator raises exactly on payloads that do not fit
    the code page; every image it writes passes its independent verifier up to
    the pinned identity: the verdict is that of the payload size, the two hashes
    and the instruction counts alone. *)
Theorem user_build_verifies code :
  (len code = 0 ∨ PAGE_SIZE < len code →
    build_elf code = Err (ValueError "service payload must fit one page, got {len(code)} bytes")) ∧
  (0 < len code ≤ PAGE_SIZE →
    ∃ image, build_elf code = Ok image ∧ len image = 0x2800 ∧
      slice image CODE_OFFSET (CODE_OFFSET + len code) = code ∧
      verify image = (verify_identity image code;; verify_code code)).
Proof.
  split.
  - intros H. unfold build_elf. stop_guard ltac:(by rewrite orb_true_iff, Z.eqb_eq, Z.ltb_lt).
  - intros Hc. eexists. split; [by apply user_build_eq|].
    pose proof (user_verify_data_page code) as Hv. revert Hv.
    generalize (data_page code), (user_len_data_page code). intros data Ld Hv.
    unfold code_segment, data_segment. unfold PAGE_SIZE in Hc. assert (len code ≤ 0x1000) as Hc' by lia.
    split_and!.
    + by rewrite len_image, Ld.
    + by apply image_code.
    + unfold verify. rewrite (user_verify_headers_eq _ (len code)), bind_ok.
      * rewrite image_code, image_data by (rewrite ?Ld; lia).
        destruct (verify_identity _ _) as [[]|]; [|reflexivity]. by rewrite !bind_ok, Hv, bind_ok.
      * by rewrite len_image, Ld.
      * lia.
      * apply image_header. unfold CODE_BASE. lia.
      * apply image_segment1; unfold CODE_OFFSET, CODE_BASE, PAGE_SIZE; lia.
      * apply image_segment2; unfold DATA_OFFSET, DATA_BASE, DATA_FILE_SIZE, DATA_MEMORY_SIZE, PAGE_SIZE; lia.
Qed.

Lemma user_build_verifies_witness :
  ∃ image, build_elf [0xCD; 0x80] = Ok image ∧
    verify image = Err (SystemExit
      "x86-64 user ELF verification failed: payload size {len(code)} is not {EXPECTED_PAYLOAD_BYTES}").
Proof.
  destruct (user_build_verifies [0xCD; 0x80]) as [_ H].
  destruct H as (image & Hb & _ & _ & Hv); [by split|]. exists image. by split.
Defined.

End UserElf.
