(* ===== verification/SdkElf.v ===== *)
(** * The SDK ELF verifier and the EFI verifier

    [SdkElf] models [verify-zigos-sdk-elf.py]: the loop over the program headers
    is a fold of [check_segment] over a record of the loop's variables.  The
    specification [policy] says what an accepted image promises its loader: page-
    disjoint segments inside the user window, none both writable and executable,
    and an entry point in an executable segment.  [sdk_image] says the same, with the
    identity of the file and its section table, in the bytes alone.
    [Efi] models [verify-efi.py].  In both the file is a byte list and the result
    is what the script prints about an accepted image. *)

From S2P Require Import Prelude PyBytes PyHash.
From S2P Require Import Elf64 UserElfs.

(** ** [verify-zigos-sdk-elf.py] *)

Module SdkElf.

Definition ELF_HEADER_SIZE : Z := 64.
Definition PROGRAM_HEADER_SIZE : Z := 56.
Definition PT_LOAD : Z := 1.
Definition PF_X : Z := 1.
Definition PF_W : Z := 2.
Definition PF_R : Z := 4.
Definition PAGE_SIZE : Z := 4096.
Definition USER_BASE : Z := 0x0000008000000000.
Definition MMAP_FLOOR : Z := USER_BASE + 64 * 1024 * 1024.

Definition fail_if (b : bool) (message : string) : result unit := raise_if b (SystemExit message).

(** The values of one program header. *)
Record segment := Segment {
  kind : Z; segment_flags : Z; offset : Z; virtual : Z; physical : Z; file_size : Z; memory_size : Z;
  alignment : Z
}.

Definition segment_of (values : list Z) : result segment :=
  match values with
  | [kind; segment_flags; offset; virtual; physical; file_size; memory_size; alignment] =>
      Ok (Segment kind segment_flags offset virtual physical file_size memory_size alignment)
  | _ => Err StructError
  end.

Definition segment_end (s : segment) : Z := virtual s + memory_size s.

(** The variables of the loop. *)
Record state := State {
  previous_end : Z; executable_entry : bool; writable_segments : Z;
  segment_lines : list (Z * string * Z * Z * Z)
}.

Definition initial : state := State USER_BASE false 0 [].

Definition rendered (flags : Z) : string :=
  String.append (if truthy (Z.land flags PF_R) then "R" else "-")
    (String.append (if truthy (Z.land flags PF_W) then "W" else "-")
      (if truthy (Z.land flags PF_X) then "X" else "-")).

(** The checks on one program header, in their order. *)
Definition segment_ok (data : bytes) (previous_end : Z) (s : segment) : result unit :=
  fail_if (negb (kind s =? PT_LOAD)) "SDK ELF program header {index} is not PT_LOAD";;
  fail_if ((segment_flags s =? 0) ||
           truthy (Z.land (segment_flags s) (Z.lnot (Z.lor (Z.lor PF_R PF_W) PF_X))))
    "SDK ELF program header {index} has invalid flags 0x{segment_flags:X}";;
  fail_if (negb (truthy (Z.land (segment_flags s) PF_R)) ||
           truthy (Z.land (segment_flags s) PF_W) && truthy (Z.land (segment_flags s) PF_X))
    "SDK ELF program header {index} violates readable/W^X policy";;
  fail_if (negb ((physical s =? 0) || (physical s =? virtual s)))
    "SDK ELF program header {index} has unsupported physical address";;
  fail_if ((memory_size s =? 0) || (memory_size s <? file_size s))
    "SDK ELF program header {index} has invalid file/memory sizes";;
  fail_if (negb (alignment s =? PAGE_SIZE) || negb (offset s mod PAGE_SIZE =? virtual s mod PAGE_SIZE))
    "SDK ELF program header {index} is not page-congruent";;
  fail_if ((len data <? offset s) || (len data - offset s <? file_size s))
    "SDK ELF program header {index} exceeds the file";;
  fail_if ((virtual s <? USER_BASE) || (segment_end s <=? virtual s) || (MMAP_FLOOR <? segment_end s))
    "SDK ELF program header {index} leaves the image window";;
  fail_if (virtual s <? previous_end) "SDK ELF program header {index} overlaps or is unsorted".

(** The updates at the end of the loop's body. *)
Definition next_state (entry : Z) (st : state) (index : Z) (s : segment) : state :=
  State
    (Z.land (segment_end s + PAGE_SIZE - 1) (Z.lnot (PAGE_SIZE - 1)))
    (if truthy (Z.land (segment_flags s) PF_X) && ((virtual s <=? entry) && (entry <? segment_end s)) then true
     else executable_entry st)
    (if truthy (Z.land (segment_flags s) PF_W) then writable_segments st + 1 else writable_segments st)
    (segment_lines st ++ [(index, rendered (segment_flags s), virtual s, file_size s, memory_size s)]).

Definition read_segment (data : bytes) (phoff index : Z) : result segment :=
  values ← unpack_ints "<IIQQQQQQ" data (phoff + index * PROGRAM_HEADER_SIZE);
  segment_of values.

Definition check_segment (data : bytes) (entry phoff : Z) (st : state) (index : Z) : result state :=
  s ← read_segment data phoff index;
  segment_ok data (previous_end st) s;;
  Ok (next_state entry st index s).

(** The header's [fields]. *)
Record header := Header {
  e_type : Z; machine : Z; version : Z; entry : Z; phoff : Z; shoff : Z; flags : Z; ehsize : Z;
  phentsize : Z; phnum : Z; section_size : Z; section_count : Z; section_name_index : Z
}.

Definition header_of (fields : list Z) : result header :=
  match fields with
  | [e_type; machine; version; entry; phoff; shoff; flags; ehsize; phentsize; phnum; section_size;
     section_count; section_name_index] =>
      Ok (Header e_type machine version entry phoff shoff flags ehsize phentsize phnum section_size
            section_count section_name_index)
  | _ => Err StructError
  end.

Definition read_header (data : bytes) : result header :=
  fail_if (len data <? ELF_HEADER_SIZE) "SDK ELF is smaller than one ELF64 header";;
  fail_if (negb (beq (slice data 0 16) ([0x7f] ++ B "ELF" ++ [2; 1; 1; 0] ++ zeros 8)))
    "SDK ELF identity is not ELF64 little-endian System V";;
  fields ← unpack_ints "<HHIQQQIHHHHHH" data 16;
  header_of fields.

Definition check_header (data : bytes) (h : header) : result unit :=
  fail_if (negb (beq [e_type h; machine h; version h; flags h; ehsize h; phentsize h] [2; 0x3E; 1; 0; 64; 56]))
    "unsupported SDK ELF header fields: {fields!r}";;
  fail_if ((phnum h =? 0) || (4 <? phnum h)) "SDK ELF must contain 1..4 load segments, got {phnum}";;
  fail_if ((len data <? phoff h) || (len data - phoff h <? phnum h * PROGRAM_HEADER_SIZE))
    "SDK ELF program header table exceeds the file";;
  fail_if ((entry h <? USER_BASE) || (MMAP_FLOOR <=? entry h))
    "SDK ELF entry is outside the image window: 0x{entry:X}".

(** The checks after the loop. *)
Definition check_sections (data : bytes) (h : header) : result unit :=
  if truthy (shoff h) then
    fail_if (negb (section_size h =? 64) || (section_count h =? 0) || (256 <? section_count h))
      "SDK ELF section table has invalid dimensions";;
    fail_if ((section_count h <=? section_name_index h) ||
             (len data <? shoff h + section_count h * section_size h))
      "SDK ELF section table exceeds the file"
  else
    fail_if (truthy (section_size h) || truthy (section_count h) || truthy (section_name_index h))
      "SDK ELF has section metadata without a section table".

(** [main]; the result is the entry point, the segment count and the segment
    lines the script prints. *)
Definition main (data : bytes) : result (Z * Z * list (Z * string * Z * Z * Z)) :=
  h ← read_header data;
  check_header data h;;
  st ← foldM (check_segment data (entry h) (phoff h)) initial (range 0 (phnum h));
  fail_if (negb (executable_entry st)) "SDK ELF entry is not contained in an executable segment";;
  fail_if (1 <? writable_segments st) "SDK ELF contains more than one writable segment";;
  check_sections data h;;
  Ok (entry h, phnum h, segment_lines st).

(** ** What acceptance means *)

Definition readable (s : segment) : bool := truthy (Z.land (segment_flags s) PF_R).
Definition writable (s : segment) : bool := truthy (Z.land (segment_flags s) PF_W).
Definition executable (s : segment) : bool := truthy (Z.land (segment_flags s) PF_X).

(** What one program header must say. *)
Record loadable (data : bytes) (s : segment) : Prop := {
  loadable_kind : kind s = PT_LOAD;
  loadable_flags : 0 < segment_flags s < 8;
  loadable_readable : readable s = true;
  loadable_wx : writable s && executable s = false;
  loadable_physical : physical s = 0 ∨ physical s = virtual s;
  loadable_sizes : file_size s ≤ memory_size s ∧ memory_size s ≠ 0;
  loadable_congruent : alignment s = PAGE_SIZE ∧ offset s mod PAGE_SIZE = virtual s mod PAGE_SIZE;
  loadable_file : offset s ≤ len data ∧ offset s + file_size s ≤ len data;
  loadable_window : USER_BASE ≤ virtual s ∧ virtual s < segment_end s ∧ segment_end s ≤ MMAP_FLOOR
}.

(** The first page boundary at or after [a]. *)
Definition page_up (a : Z) : Z := ceil_div a PAGE_SIZE * PAGE_SIZE.

(** Each segment starts at or after the last page of the one before it. *)
Fixpoint sorted_from (previous_end : Z) (segs : list segment) : Prop :=
  match segs with
  | [] => True
  | s :: segs => previous_end ≤ virtual s ∧ sorted_from (page_up (segment_end s)) segs
  end.

Lemma land_lnot_7 f : Z.land f (Z.lnot (Z.lor (Z.lor PF_R PF_W) PF_X)) = 0 ↔ 0 ≤ f < 8.
Proof.
  change (Z.lor (Z.lor PF_R PF_W) PF_X) with (Z.ones 3).
  rewrite <-Z.ldiff_land, Z.ldiff_ones_r, Z.shiftr_div_pow2, Z.shiftl_mul_pow2 by lia.
  change (2 ^ 3) with 8. split; [intros H|intros H]; divlia.
Qed.

Lemma page_up_land a : Z.land (a + PAGE_SIZE - 1) (Z.lnot (PAGE_SIZE - 1)) = page_up a.
Proof.
  unfold page_up, ceil_div, PAGE_SIZE. change (4096 - 1) with (Z.ones 12).
  by rewrite <-Z.ldiff_land, Z.ldiff_ones_r, Z.shiftr_div_pow2, Z.shiftl_mul_pow2 by lia.
Qed.

Lemma page_up_spec a : a ≤ page_up a < a + PAGE_SIZE ∧ page_up a mod PAGE_SIZE = 0.
Proof. unfold page_up. pose proof (ceil_div_spec a PAGE_SIZE). unfold PAGE_SIZE in *. split; [lia|]. by apply Z_mod_mult. Qed.

Lemma segment_ok_iff data p s : segment_ok data p s = Ok tt ↔ loadable data s ∧ p ≤ virtual s.
Proof.
  unfold segment_ok, fail_if. rewrite !guard_iff, last_guard_iff, !orb_false_iff, !negb_false_iff, !Z.eqb_eq,
    !Z.eqb_neq, !Z.ltb_ge, !Z.leb_gt, (truthy_false (Z.land _ (Z.lnot _))), land_lnot_7, orb_true_iff, !Z.eqb_eq.
  split.
  - intros (? & [? ?] & [? ?] & ? & [? ?] & [? ?] & [? ?] & [[? ?] ?] & ?). split; [|done].
    split; try done; lia.
  - intros [[] ?]. split_and!; try done; lia.
Qed.

(** The state after a loop over headers that all pass. *)
Definition final_state (e : Z) (st : state) (l : list (Z * segment)) : state :=
  foldl (λ st '(index, s), next_state e st index s) st l.

Lemma loop_iff data e off indices st st' :
  foldM (check_segment data e off) st indices = Ok st' ↔
  ∃ segs, Forall2 (λ i s, read_segment data off i = Ok s) indices segs ∧ Forall (loadable data) segs ∧
    sorted_from (previous_end st) segs ∧ st' = final_state e st (zip indices segs).
Proof.
  revert st. induction indices as [|i indices IH]; intros st; simpl.
  { split; [intros [= <-]; exists []; repeat split; constructor|].
    by intros (segs & ->%Forall2_nil_inv_l & _ & _ & ->). }
  split.
  - intros (st1 & H & Hloop)%bind_Ok_inv. unfold check_segment in H.
    apply bind_Ok_inv in H as (s & Hr & H). apply bind_Ok_inv in H as ([] & [Hs Hp]%segment_ok_iff & [= <-]).
    apply IH in Hloop as (segs & Hf & Hl & Hsorted & ->). cbn in Hsorted. rewrite page_up_land in Hsorted.
    exists (s :: segs). split_and!; [by constructor..|done|done].
  - intros (segs & Hf & Hl & Hsorted & ->). apply Forall2_cons_inv_l in Hf as (s & segs' & Hr & Hf & ->).
    apply Forall_cons in Hl as [Hs Hl]. destruct Hsorted as [Hp Hsorted].
    assert (check_segment data e off st i = Ok (next_state e st i s)) as ->.
    { unfold check_segment. by rewrite Hr, bind_ok, (proj2 (segment_ok_iff _ _ _)) by done. }
    rewrite bind_ok.
    apply IH. exists segs'. split_and!; try done. cbn. by rewrite page_up_land.
Qed.

Definition holds (e : Z) (s : segment) : bool := executable s && ((virtual s <=? e) && (e <? segment_end s)).

Lemma final_executable e st l :
  executable_entry (final_state e st l) = executable_entry st || existsb (holds e) l.*2.
Proof.
  unfold final_state. revert st. induction l as [|[i s] l IH]; intros st; [by rewrite orb_false_r|].
  cbn [foldl]. rewrite IH, fmap_cons. cbn. fold (executable s) (holds e s).
  destruct (holds e s); [by rewrite orb_true_r|done].
Qed.

Lemma existsb_holds e segs :
  existsb (holds e) segs = true ↔ ∃ s, s ∈ segs ∧ executable s = true ∧ virtual s ≤ e < segment_end s.
Proof.
  rewrite existsb_exists. apply exist_proper. intros s. unfold holds.
  by rewrite list_elem_of_In, !andb_true_iff, Z.leb_le, Z.ltb_lt.
Qed.

Lemma final_writable e st l :
  writable_segments (final_state e st l) = writable_segments st + len (filter (λ s, writable s = true) l.*2).
Proof.
  unfold final_state. revert st. induction l as [|[i s] l IH]; intros st.
  { simpl. by rewrite filter_nil, len_nil, Z.add_0_r. }
  cbn [foldl]. rewrite IH, fmap_cons, filter_cons. cbn. fold (writable s).
  destruct (decide (writable s = true)) as [E|E%not_true_is_false]; rewrite E, ?len_cons; lia.
Qed.

Definition line_of (index : Z) (s : segment) : Z * string * Z * Z * Z :=
  (index, rendered (segment_flags s), virtual s, file_size s, memory_size s).

Lemma final_lines e st indices segs :
  segment_lines (final_state e st (zip indices segs)) = segment_lines st ++ zip_with line_of indices segs.
Proof.
  unfold final_state. revert st segs.
  induction indices as [|i indices IH]; intros st [|s segs]; simpl; try by rewrite app_nil_r.
  rewrite IH. cbn. by rewrite <-app_assoc.
Qed.

(** What the headers of an image must say besides its segments. *)
Definition header_valid (data : bytes) (h : header) : Prop :=
  e_type h = 2 ∧ machine h = 0x3E ∧ version h = 1 ∧ flags h = 0 ∧ ehsize h = 64 ∧ phentsize h = 56 ∧
  phnum h ≠ 0 ∧ phnum h ≤ 4 ∧
  phoff h ≤ len data ∧ phoff h + phnum h * PROGRAM_HEADER_SIZE ≤ len data ∧
  USER_BASE ≤ entry h < MMAP_FLOOR.

Lemma check_header_iff data h : check_header data h = Ok tt ↔ header_valid data h.
Proof.
  unfold check_header, header_valid, fail_if.
  rewrite !guard_iff, last_guard_iff, !orb_false_iff, !negb_false_iff, !Z.eqb_neq, !Z.ltb_ge, Z.leb_gt, beq_spec.
  split; [intros ([= -> -> -> -> -> ->] & ?); lia|intros (-> & -> & -> & -> & -> & -> & ?)].
  split; [done|lia].
Qed.

(** The promise of an accepted image to its loader. *)
Record policy (data : bytes) (h : header) (segs : list segment) : Prop := {
  policy_header : header_valid data h;
  policy_segments : Forall2 (λ i s, read_segment data (phoff h) i = Ok s) (range 0 (phnum h)) segs;
  policy_loadable : Forall (loadable data) segs;
  policy_sorted : sorted_from USER_BASE segs;
  policy_entry : ∃ s, s ∈ segs ∧ executable s = true ∧ virtual s ≤ entry h < segment_end s;
  policy_writable : len (filter (λ s, writable s = true) segs) ≤ 1;
  policy_sections : check_sections data h = Ok tt
}.

Lemma zip_snd {A B} (l : list A) (k : list B) : length l = length k → (zip l k).*2 = k.
Proof. intros. apply snd_zip. lia. Qed.

Lemma sdk_policy data e n lines :
  main data = Ok (e, n, lines) ↔
  ∃ h segs, read_header data = Ok h ∧ policy data h segs ∧ e = entry h ∧ n = phnum h ∧
    lines = zip_with line_of (range 0 n) segs.
Proof.
  unfold main, fail_if. split.
  - intros (h & Hr & H)%bind_Ok_inv. apply bind_Ok_inv in H as ([] & Hh%check_header_iff & H).
    apply bind_Ok_inv in H as (st & Hst & H). apply loop_iff in Hst as (segs & Hf & Hl & Hs & ->).
    apply guard_iff in H as [Hx H]. apply guard_iff in H as [Hw H].
    apply bind_Ok_inv in H as ([] & Hsec & [= <- <- <-]). exists h, segs.
    rewrite final_executable, zip_snd in Hx by by eapply Forall2_length.
    rewrite final_writable, zip_snd in Hw by by eapply Forall2_length. rewrite final_lines.
    apply negb_false_iff, existsb_holds in Hx. apply Z.ltb_ge in Hw. by split_and!.
  - intros (h & segs & Hr & [Hh Hf Hl Hs Hx Hw Hsec] & -> & -> & ->).
    rewrite Hr, bind_ok, (proj2 (check_header_iff _ _) Hh), bind_ok.
    rewrite (proj2 (loop_iff data (entry h) (phoff h) (range 0 (phnum h)) initial
      (final_state (entry h) initial (zip (range 0 (phnum h)) segs)))) by (exists segs; by split_and!).
    rewrite bind_ok. apply guard_iff.
    rewrite final_executable, final_writable, zip_snd, final_lines by by eapply Forall2_length.
    split; [by apply negb_false_iff, existsb_holds|]. apply guard_iff. split; [by apply Z.ltb_ge|].
    by rewrite Hsec, bind_ok.
Qed.

(** ** Pages *)

Lemma sorted_from_below p segs s :
  sorted_from p segs → Forall (λ t, virtual t < segment_end t) segs → s ∈ segs → p ≤ virtual s.
Proof.
  intros Hs Hf Hin. revert p Hs. induction Hf as [|t segs Ht Hf IH]; intros p; [by apply not_elem_of_nil in Hin|].
  intros [Hp Hs]. apply elem_of_cons in Hin as [->|Hin]; [done|].
  specialize (IH Hin _ Hs). pose proof (page_up_spec (segment_end t)). lia.
Qed.

Lemma sorted_pages p segs i j s t a b :
  sorted_from p segs → Forall (λ t, virtual t < segment_end t) segs → (i < j)%nat →
  segs !! i = Some s → segs !! j = Some t → a < segment_end s → virtual t ≤ b →
  a / PAGE_SIZE < b / PAGE_SIZE.
Proof.
  intros Hs Hf. revert p i j Hs. induction Hf as [|u segs Hu Hf IH]; intros p i j Hs Hij Hi Hj Ha Hb; [done|].
  destruct Hs as [Hp Hs]. destruct i as [|i], j as [|j]; try lia; cbn in Hi, Hj.
  - injection Hi as ->. apply list_elem_of_lookup_2 in Hj.
    pose proof (sorted_from_below _ _ _ Hs Hf Hj). destruct (page_up_spec (segment_end s)) as [[H1 _] H2].
    unfold PAGE_SIZE in *. divlia.
  - by apply (IH (page_up (segment_end u)) i j); try lia.
Qed.

(** ** The policy, in the bytes of the file *)

Import Elf64.

Lemma tail_uint : Forall uint_field tail_fields.
Proof. repeat constructor; lia. Qed.
Lemma segment_uint : Forall uint_field segment_fields.
Proof. repeat constructor; lia. Qed.

(** The unsigned little-endian integer in the [w] bytes at [off]. *)
Definition uint_at (data : bytes) (off w : Z) : Z := le_int (slice data off (off + w)).

Lemma uint_at_nonneg data off w : bytes_ok data → 0 ≤ uint_at data off w.
Proof. intros H. by apply le_int_bound, bytes_ok_slice. Qed.

(** Unpacking unsigned fields reads them one after the other. *)
Fixpoint read_uints (fs : list field) (data : bytes) (off : Z) : list Z :=
  match fs with [] => [] | f :: fs => uint_at data off (field_size f) :: read_uints fs data (off + field_size f) end.

Lemma uint_sizes fs : Forall uint_field fs → 0 ≤ fields_size fs.
Proof. induction 1 as [|[s w|n] fs Hw _ IH]; cbn; [done| |done]. destruct Hw. lia. Qed.

Lemma unpack_ints_reads fmt fs data off :
  parse_fmt fmt = Ok fs → Forall uint_field fs → 0 ≤ off → off + fields_size fs ≤ len data →
  unpack_ints fmt data off = Ok (read_uints fs data off).
Proof.
  intros Hf Hu Ho Hl. unfold unpack_ints. rewrite (unpack_from_eq _ fs) by (done || by apply uint_sizes). rewrite bind_ok.
  clear Hf Hl fmt. revert off Ho. induction Hu as [|[sg w|n] fs Hw Hu IH]; intros off Ho; [done| |done].
  destruct Hw as [-> Hw]. pose proof (uint_sizes _ Hu) as Hs. specialize (IH (off + w) ltac:(lia)).
  cbn [unpack_fields read_uints field_size fields_size unpack_field]. unfold uint_at at 1.
  rewrite !slice_eq in * by lia. replace (off + (w + fields_size fs) - off) with (w + fields_size fs) by lia.
  replace (off + w - off) with w by lia. replace (off + w + fields_size fs - (off + w)) with (fields_size fs) in IH by lia.
  rewrite take_take, skipn_firstn_comm, drop_drop. replace (Z.to_nat w `min` Z.to_nat (w + fields_size fs))%nat with (Z.to_nat w) by lia.
  replace (Z.to_nat (w + fields_size fs) - Z.to_nat w)%nat with (Z.to_nat (fields_size fs)) by lia.
  replace (Z.to_nat off + Z.to_nat w)%nat with (Z.to_nat (off + w)) by lia.
  cbn [ints]. by rewrite IH.
Qed.

(** The fields of the ELF header. *)
Definition header_at (data : bytes) : header :=
  Header (uint_at data 16 2) (uint_at data 18 2) (uint_at data 20 4) (uint_at data 24 8) (uint_at data 32 8)
    (uint_at data 40 8) (uint_at data 48 4) (uint_at data 52 2) (uint_at data 54 2) (uint_at data 56 2)
    (uint_at data 58 2) (uint_at data 60 2) (uint_at data 62 2).

Definition segment_at (data : bytes) (off : Z) : segment :=
  Segment (uint_at data off 4) (uint_at data (off + 4) 4) (uint_at data (off + 8) 8) (uint_at data (off + 16) 8)
    (uint_at data (off + 24) 8) (uint_at data (off + 32) 8) (uint_at data (off + 40) 8) (uint_at data (off + 48) 8).

(** Entry [i] of the program header table, and the number of its entries. *)
Definition table_entry (data : bytes) (i : Z) : segment := segment_at data (uint_at data 32 8 + i * 56).
Definition table_count (data : bytes) : Z := uint_at data 56 2.

(** A conjunct to the left of an equivalence may be assumed on both its sides. *)
Lemma and_iff_left (P Q R : Prop) : (P → Q ↔ R) → (P ∧ Q ↔ P ∧ R).
Proof. tauto. Qed.

(** The identification: ELF, 64 bits, little-endian, version 1, System V. *)
Definition elf_identity : bytes := [127; 69; 76; 70; 2; 1; 1; 0; 0; 0; 0; 0; 0; 0; 0; 0].

Lemma read_header_iff data h :
  read_header data = Ok h ↔ 64 ≤ len data ∧ slice data 0 16 = elf_identity ∧ h = header_at data.
Proof.
  unfold read_header, fail_if, ELF_HEADER_SIZE. rewrite guard_iff, Z.ltb_ge. apply and_iff_left. intros Hl.
  rewrite guard_iff, negb_false_iff, beq_spec. apply and_iff_left. intros _.
  change "<HHIQQQIHHHHHH" with tail_format.
  rewrite (unpack_ints_reads _ _ _ _ parse_tail_format tail_uint) by (change (fields_size tail_fields) with 48; lia).
  rewrite bind_ok. change (Ok (header_at data) = Ok h ↔ h = header_at data). split; [by intros [= <-]|by intros ->].
Qed.

Lemma read_segment_eq data off i :
  0 ≤ off → 0 ≤ i → off + (i + 1) * 56 ≤ len data → read_segment data off i = Ok (segment_at data (off + i * 56)).
Proof.
  intros. unfold read_segment, PROGRAM_HEADER_SIZE. change "<IIQQQQQQ" with segment_format.
  rewrite (unpack_ints_reads _ _ _ _ parse_segment_format segment_uint) by (change (fields_size segment_fields) with 56; lia).
  rewrite bind_ok. unfold segment_at. cbn [read_uints segment_fields field_size segment_of]. do 2 f_equal; f_equal; lia.
Qed.

(** What an entry of the table may say: the segment is loaded, with the access rights
    R, RX or RW, page-congruent, from bytes of the file, into the user window. *)
Record entry_valid (data : bytes) (s : segment) : Prop := {
  entry_load : kind s = 1;
  entry_rights : segment_flags s = 4 ∨ segment_flags s = 5 ∨ segment_flags s = 6;
  entry_physical : physical s = 0 ∨ physical s = virtual s;
  entry_sizes : file_size s ≤ memory_size s ∧ 0 < memory_size s;
  entry_alignment : alignment s = 4096 ∧ offset s mod 4096 = virtual s mod 4096;
  entry_bytes : offset s + file_size s ≤ len data;
  entry_window : 0x8000000000 ≤ virtual s ∧ virtual s + memory_size s ≤ 0x8004000000
}.

Lemma flags_rights f :
  (0 < f < 8 ∧ truthy (Z.land f PF_R) = true ∧ truthy (Z.land f PF_W) && truthy (Z.land f PF_X) = false) ↔
  f = 4 ∨ f = 5 ∨ f = 6.
Proof.
  split; [|intros [->|[->| ->]]; split_and!; done || lia].
  intros (Hf & Hr & Hw). assert (f = 1 ∨ f = 2 ∨ f = 3 ∨ f = 4 ∨ f = 5 ∨ f = 6 ∨ f = 7) as Hc by lia.
  repeat destruct Hc as [->|Hc]; try discriminate Hr; try discriminate Hw; try tauto. subst f. discriminate Hw.
Qed.

Lemma entry_valid_iff data off : bytes_ok data → loadable data (segment_at data off) ↔ entry_valid data (segment_at data off).
Proof.
  intros Hok. pose proof (uint_at_nonneg data (off + 8) 8 Hok) as Ho. pose proof (uint_at_nonneg data (off + 32) 8 Hok) as Hf.
  pose proof (uint_at_nonneg data (off + 40) 8 Hok) as Hm.
  change (uint_at data (off + 8) 8) with (offset (segment_at data off)) in Ho.
  change (uint_at data (off + 32) 8) with (file_size (segment_at data off)) in Hf.
  change (uint_at data (off + 40) 8) with (memory_size (segment_at data off)) in Hm.
  generalize dependent (segment_at data off). intros s Ho Hf Hm. split.
  - intros [Hk Hfl Hr Hwx Hp Hs Hc Hfile Hw]. unfold segment_end, MMAP_FLOOR, USER_BASE in Hw.
    split; try done; try lia. by apply flags_rights.
  - intros [Hk (Hfl & Hr & Hwx)%flags_rights Hp Hs Hc Hfile Hw].
    split; try done; unfold segment_end, MMAP_FLOOR, USER_BASE; lia.
Qed.

(** *** Order and counts, entry by entry *)

Lemma page_up_below a b : page_up a ≤ b ↔ (a - 1) / 4096 < b / 4096.
Proof. destruct (page_up_spec a) as [? ?]. unfold PAGE_SIZE in *. split; intros; divlia. Qed.

(** The pages of an earlier segment are below those of a later one. *)
Definition in_order (segs : list segment) : Prop :=
  ∀ i j s t, (i < j)%nat → segs !! i = Some s → segs !! j = Some t →
    (virtual s + memory_size s - 1) / 4096 < virtual t / 4096.

Lemma sorted_from_iff p segs : Forall (λ t, virtual t < segment_end t) segs →
  sorted_from p segs ↔ Forall (λ s, p ≤ virtual s) segs ∧ in_order segs.
Proof.
  intros Hf. split.
  - intros Hs. split; [apply Forall_forall; intros s Hin; by apply (sorted_from_below p segs)|].
    intros i j s t Hij Hi Hj. apply (sorted_pages p segs i j s t _ (virtual t)); try done; unfold segment_end; lia.
  - revert p. induction Hf as [|s segs Hlt Hf IH]; intros p [Hp Ho]; [done|]. apply Forall_cons in Hp as [Hp Hps].
    split; [done|]. apply IH. split; [|intros i j u v Hij Hi Hj; apply (Ho (S i) (S j)); [lia|done..]].
    apply Forall_forall. intros t (k & Hk)%list_elem_of_lookup_1. apply page_up_below, (Ho 0%nat (S k) s t); [lia|done..].
Qed.

Lemma filter_at_most_one {A} (P : A → Prop) `{∀ a, Decision (P a)} (l : list A) :
  len (filter P l) ≤ 1 ↔ ∀ i j a b, l !! i = Some a → l !! j = Some b → P a → P b → i = j.
Proof.
  assert (∀ k : list A, len (filter P k) ≤ 0 ↔ ∀ i a, k !! i = Some a → ¬ P a) as H0.
  { intros k. rewrite <-(Forall_lookup (λ a, ¬ P a)). induction k as [|a k IHk]; [by split; [constructor|]|].
    rewrite filter_cons, Forall_cons. pose proof (len_nonneg (filter P k)).
    destruct (decide (P a)); rewrite ?len_cons; [split; [lia|tauto]|tauto]. }
  induction l as [|a l IH]; [done|]. rewrite filter_cons. destruct (decide (P a)) as [Ha|Ha].
  - rewrite len_cons.
    assert (1 + len (filter P l) ≤ 1 ↔ len (filter P l) ≤ 0) as -> by lia. rewrite H0. split.
    + intros Hn [|i] [|j] x y Hi Hj Hx Hy; cbn in Hi, Hj; [done|by destruct (Hn j y)|by destruct (Hn i x)|by destruct (Hn i x)].
    + intros H' i x Hi Hx. by specialize (H' 0%nat (S i) a x eq_refl Hi Ha Hx).
  - rewrite IH. split.
    + intros Hn [|i] [|j] x y Hi Hj Hx Hy; cbn in Hi, Hj; [done|congruence|congruence|]. f_equal. by apply (Hn _ _ x y).
    + intros H' i j x y Hi Hj Hx Hy. by apply (inj S), (H' (S i) (S j) x y).
Qed.

(** *** The accepted files *)

Record sdk_image (data : bytes) : Prop := {
  image_length : 64 ≤ len data;
  image_identity : slice data 0 16 = elf_identity;
  image_type : uint_at data 16 2 = 2;
  image_machine : uint_at data 18 2 = 62;
  image_version : uint_at data 20 4 = 1;
  image_entry : 0x8000000000 ≤ uint_at data 24 8 < 0x8004000000;
  image_flags : uint_at data 48 4 = 0;
  image_sizes : uint_at data 52 2 = 64 ∧ uint_at data 54 2 = 56;
  image_count : 1 ≤ table_count data ≤ 4;
  image_table : uint_at data 32 8 + table_count data * 56 ≤ len data;
  image_segments : ∀ i, 0 ≤ i < table_count data → entry_valid data (table_entry data i);
  image_order : ∀ i j, 0 ≤ i < j → j < table_count data →
    (virtual (table_entry data i) + memory_size (table_entry data i) - 1) / 4096 < virtual (table_entry data j) / 4096;
  image_start : ∃ i, 0 ≤ i < table_count data ∧ segment_flags (table_entry data i) = 5 ∧
    virtual (table_entry data i) ≤ uint_at data 24 8 < virtual (table_entry data i) + memory_size (table_entry data i);
  image_one_writable : ∀ i j, 0 ≤ i < table_count data → 0 ≤ j < table_count data →
    segment_flags (table_entry data i) = 6 → segment_flags (table_entry data j) = 6 → i = j;
  image_no_sections : uint_at data 40 8 = 0 → uint_at data 58 2 = 0 ∧ uint_at data 60 2 = 0 ∧ uint_at data 62 2 = 0;
  image_sections : uint_at data 40 8 ≠ 0 →
    uint_at data 58 2 = 64 ∧ 1 ≤ uint_at data 60 2 ≤ 256 ∧ uint_at data 62 2 < uint_at data 60 2 ∧
    uint_at data 40 8 + uint_at data 60 2 * 64 ≤ len data
}.

(** The line about entry [i]. *)
Definition printed (data : bytes) (i : Z) : Z * string * Z * Z * Z :=
  let s := table_entry data i in
  (i, if segment_flags s =? 4 then "R--" else if segment_flags s =? 5 then "R-X" else "RW-",
   virtual s, file_size s, memory_size s).

Definition table (data : bytes) : list segment := table_entry data <$> range 0 (table_count data).

Lemma table_lookup data i s :
  table data !! i = Some s ↔ s = table_entry data (Z.of_nat i) ∧ Z.of_nat i < table_count data.
Proof.
  unfold table. rewrite list_lookup_fmap_Some. split.
  - intros (x & -> & [-> ?]%lookup_range_nat). split; [done|lia].
  - intros [-> ?]. exists (Z.of_nat i). split; [done|]. apply lookup_range_nat. lia.
Qed.

Lemma table_Forall data (P : segment → Prop) :
  Forall P (table data) ↔ ∀ i, 0 ≤ i < table_count data → P (table_entry data i).
Proof.
  unfold table. rewrite Forall_fmap, Forall_forall. split; intros H i Hi; [by apply H, elem_of_range|apply H; by apply elem_of_range in Hi].
Qed.

Lemma table_in_order data : in_order (table data) ↔ ∀ i j, 0 ≤ i < j → j < table_count data →
  (virtual (table_entry data i) + memory_size (table_entry data i) - 1) / 4096 < virtual (table_entry data j) / 4096.
Proof.
  split.
  - intros H i j Hi Hj. apply (H (Z.to_nat i) (Z.to_nat j)); [lia|apply table_lookup; rewrite Z2Nat.id by lia; split; [done|lia]..].
  - intros H i j s t Hij [-> Hi]%table_lookup [-> Hj]%table_lookup. apply H; lia.
Qed.

Lemma rights_of f : f = 4 ∨ f = 5 ∨ f = 6 →
  rendered f = (if f =? 4 then "R--" else if f =? 5 then "R-X" else "RW-") ∧
  (truthy (Z.land f PF_X) = true ↔ f = 5) ∧ (truthy (Z.land f PF_W) = true ↔ f = 6).
Proof. intros [->|[->| ->]]; by split_and!. Qed.

Lemma table_lines data : (∀ i, 0 ≤ i < table_count data → entry_valid data (table_entry data i)) →
  zip_with line_of (range 0 (table_count data)) (table data) = printed data <$> range 0 (table_count data).
Proof.
  intros H. unfold table. rewrite zip_with_fmap_r, zip_with_diag. apply list_fmap_ext. intros k i [-> Hi]%lookup_range_nat.
  assert (entry_valid data (table_entry data (0 + Z.of_nat k))) as Hv by (apply H; lia).
  unfold line_of, printed. by rewrite (proj1 (rights_of _ (entry_rights _ _ Hv))).
Qed.

Lemma header_valid_iff data : bytes_ok data →
  header_valid data (header_at data) ↔
  uint_at data 16 2 = 2 ∧ uint_at data 18 2 = 62 ∧ uint_at data 20 4 = 1 ∧ uint_at data 48 4 = 0 ∧
  uint_at data 52 2 = 64 ∧ uint_at data 54 2 = 56 ∧ 1 ≤ table_count data ≤ 4 ∧
  uint_at data 32 8 + table_count data * 56 ≤ len data ∧ 0x8000000000 ≤ uint_at data 24 8 < 0x8004000000.
Proof.
  intros Hok. pose proof (uint_at_nonneg data 56 2 Hok).
  unfold header_valid, header_at, table_count, PROGRAM_HEADER_SIZE, MMAP_FLOOR, USER_BASE.
  cbn [e_type machine version flags ehsize phentsize phnum phoff entry]. lia.
Qed.

Lemma check_sections_iff data : bytes_ok data →
  check_sections data (header_at data) = Ok tt ↔
  (uint_at data 40 8 = 0 → uint_at data 58 2 = 0 ∧ uint_at data 60 2 = 0 ∧ uint_at data 62 2 = 0) ∧
  (uint_at data 40 8 ≠ 0 → uint_at data 58 2 = 64 ∧ 1 ≤ uint_at data 60 2 ≤ 256 ∧ uint_at data 62 2 < uint_at data 60 2 ∧
     uint_at data 40 8 + uint_at data 60 2 * 64 ≤ len data).
Proof.
  intros Hok. pose proof (uint_at_nonneg data 60 2 Hok). unfold check_sections, header_at, fail_if.
  cbn [shoff section_size section_count section_name_index]. destruct (truthy (uint_at data 40 8)) eqn:E.
  - apply truthy_true in E. rewrite guard_iff, last_guard_iff, !orb_false_iff, negb_false_iff, !Z.eqb_neq, Z.eqb_eq, !Z.ltb_ge, Z.leb_gt.
    split.
    + intros ([[Hs ?] ?] & ? & Ht). rewrite Hs in Ht. split; [done|]. intros _. split_and!; lia.
    + intros [_ Hn]. destruct (Hn E) as (Hs & ? & ? & ?). rewrite Hs. split_and!; lia.
  - apply truthy_false in E. rewrite last_guard_iff, !orb_false_iff, !truthy_false. split.
    + intros [[? ?] ?]. split; [done|]. intros Hn. by destruct Hn.
    + intros [H' _]. destruct (H' E) as (? & ? & ?). done.
Qed.

Lemma Forall2_graph {A B} (P : A → B → Prop) (f : A → B) l k :
  (∀ x y, x ∈ l → P x y ↔ y = f x) → Forall2 P l k ↔ k = f <$> l.
Proof.
  revert k. induction l as [|x l IH]; intros k H; cbn [fmap list_fmap].
  { split; [apply Forall2_nil_inv_l|intros ->; constructor]. }
  assert (∀ k', Forall2 P l k' ↔ k' = f <$> l) as IH' by (intros k'; apply IH; intros; apply H; by right).
  split.
  - intros (y & k' & Hy & Hk & ->)%Forall2_cons_inv_l. f_equal; [by apply H; [left|]|by apply IH'].
  - intros ->. constructor; [by apply H; [left|]|by apply IH'].
Qed.

Lemma segments_iff data segs : bytes_ok data → uint_at data 32 8 + table_count data * 56 ≤ len data →
  Forall2 (λ i s, read_segment data (uint_at data 32 8) i = Ok s) (range 0 (table_count data)) segs ↔ segs = table data.
Proof.
  intros Hok Hl. pose proof (uint_at_nonneg data 32 8 Hok). apply Forall2_graph. intros i s Hi%elem_of_range.
  rewrite read_segment_eq by lia. unfold table_entry. split; [by intros [= <-]|by intros ->].
Qed.

Lemma policy_iff data segs : bytes_ok data → 64 ≤ len data → slice data 0 16 = elf_identity →
  policy data (header_at data) segs ↔ sdk_image data ∧ segs = table data.
Proof.
  intros Hok Hl Hid.
  assert (∀ i, loadable data (table_entry data i) ↔ entry_valid data (table_entry data i)) as Hv
    by (intros; by apply entry_valid_iff).
  split.
  - intros [Hh Hf Hload Hs (s & Hin & Hx & He) Hw Hsec%check_sections_iff]; [|done].
    apply header_valid_iff in Hh as (? & ? & ? & ? & ? & ? & ? & Ht & ?); [|done].
    apply (segments_iff data segs Hok Ht) in Hf as ->.
    assert (∀ i, 0 ≤ i < table_count data → entry_valid data (table_entry data i)) as Hall.
    { intros i Hi. apply Hv. by apply (proj1 (table_Forall data _) Hload). }
    apply sorted_from_iff in Hs as [_ Hs]; [|eapply Forall_impl; [exact Hload|intros ? []; lia]].
    split; [|done]. destruct Hsec. split; try done.
    + by apply table_in_order.
    + apply list_elem_of_lookup_1 in Hin as (k & [-> Hk]%table_lookup). exists (Z.of_nat k). split; [lia|]. split; [|done].
      by apply (rights_of _ (entry_rights _ _ (Hall (Z.of_nat k) ltac:(lia)))).
    + rewrite filter_at_most_one in Hw. intros i j Hi Hj Ei Ej.
      assert (Z.to_nat i = Z.to_nat j) as E; [|lia].
      apply (Hw _ _ (table_entry data i) (table_entry data j)); try (apply table_lookup; rewrite Z2Nat.id by lia; split; [done|lia]);
        by apply rights_of; rewrite ?Ei, ?Ej; auto.
  - intros [[_ _ ? ? ? ? ? [? ?] ? Ht Hall Ho (i & Hi & Hx & He) Hw ? ?] ->].
    assert (Forall (loadable data) (table data)) as Hload by (apply table_Forall; intros; by apply Hv, Hall).
    split; [by apply header_valid_iff|by apply segments_iff|done| | | |by apply check_sections_iff].
    + apply sorted_from_iff; [eapply Forall_impl; [exact Hload|intros ? []; lia]|]. split; [|by apply table_in_order].
      eapply Forall_impl; [exact Hload|intros ? []; lia].
    + exists (table_entry data i). split; [apply list_elem_of_fmap; exists i; by rewrite elem_of_range|]. split; [|done].
      by apply (rights_of _ (entry_rights _ _ (Hall i Hi))).
    + apply filter_at_most_one. intros k l s t [-> Hk]%table_lookup [-> Hl']%table_lookup Hs Ht'.
      assert (∀ m : nat, Z.of_nat m < table_count data → writable (table_entry data (Z.of_nat m)) = true →
        segment_flags (table_entry data (Z.of_nat m)) = 6) as H6.
      { intros m Hm Hwr. assert (entry_valid data (table_entry data (Z.of_nat m))) as Hval by (apply Hall; lia).
        by apply (rights_of _ (entry_rights _ _ Hval)). }
      apply (inj Z.of_nat), Hw; try lia; by apply H6.
Qed.

(** (C23) The SDK verifier decides a policy stated on the bytes of the file.  It accepts a
    file exactly when the ELF header is that of a little-endian 64-bit System V executable
    for x86-64 with an entry point in the user window and a program header table of one to
    four entries inside the file; every entry describes a page-congruent segment with the
    rights R, RX or RW whose bytes are in the file and whose addresses are in the window;
    the pages of an earlier segment are below those of a later one; an RX segment holds the
    entry point; at most one is RW; and the section table is either absent, with all its
    fields zero, or of 1 to 256 entries of 64 bytes inside the file, with the index of the
    names among them.  What it prints is the entry point, the count and, per segment, its
    rights, address and sizes. *)
Theorem sdk_verify_iff data e n lines :
  bytes_ok data →
  main data = Ok (e, n, lines) ↔
  sdk_image data ∧ e = uint_at data 24 8 ∧ n = table_count data ∧ lines = printed data <$> range 0 (table_count data).
Proof.
  intros Hok. rewrite sdk_policy. split.
  - intros (h & segs & (Hl & Hid & ->)%read_header_iff & [Hi ->]%policy_iff & -> & -> & ->); try done.
    split; [done|]. split; [done|]. split; [done|]. by apply table_lines, image_segments.
  - intros (Hi & -> & -> & ->). exists (header_at data), (table data). pose proof (image_length _ Hi) as Hl. pose proof (image_identity _ Hi) as Hid.
    split; [by apply read_header_iff|]. split; [by apply policy_iff|]. split; [done|]. split; [done|].
    symmetry. by apply table_lines, image_segments.
Qed.

(** (C4) What the loader may rely on: in an accepted image two addresses of
    different segments never share a page, so a page is never both writable and
    executable; the entry point is in an executable segment and its page is not
    writable; and every segment's bytes come from inside the file. *)
Theorem sdk_accepted_pages data r :
  main data = Ok r →
  ∃ segs, zip_with line_of (range 0 r.1.2) segs = r.2 ∧
    (∀ i j s t a b, segs !! i = Some s → segs !! j = Some t →
       virtual s ≤ a < segment_end s → virtual t ≤ b < segment_end t → a / PAGE_SIZE = b / PAGE_SIZE →
       i = j ∧ (writable s = true → executable t = false)) ∧
    (∃ s, s ∈ segs ∧ executable s = true ∧ writable s = false ∧ virtual s ≤ r.1.1 < segment_end s) ∧
    Forall (λ s, offset s + file_size s ≤ len data ∧ file_size s ≤ memory_size s ∧
                 USER_BASE ≤ virtual s ∧ segment_end s ≤ MMAP_FLOOR) segs.
Proof.
  destruct r as [[e n] lines]. intros H.
  apply sdk_policy in H as (h & segs & _ & [_ _ Hl Hs Hx _ _] & -> & -> & ->). exists segs.
  split; [done|]. assert (Forall (λ t, virtual t < segment_end t) segs) as Hf
    by (eapply Forall_impl; [exact Hl|intros ? []; lia]).
  assert (∀ s, s ∈ segs → writable s = true → executable s = false) as Hwx.
  { intros s Hin Hw. rewrite Forall_forall in Hl. destruct (Hl s Hin). by destruct (executable s), (writable s). }
  split_and!.
  - intros i j s t a b Hi Hj Ha Hb Hab.
    destruct (Nat.lt_trichotomy i j) as [Hij|[->|Hij]].
    + pose proof (sorted_pages _ _ i j s t a b Hs Hf Hij Hi Hj). lia.
    + split; [done|]. rewrite Hi in Hj. injection Hj as ->. by eapply Hwx, list_elem_of_lookup_2.
    + pose proof (sorted_pages _ _ j i t s b a Hs Hf Hij Hj Hi). lia.
  - destruct Hx as (s & Hin & Hx & Hr). exists s. cbn [fst snd].
    destruct (writable s) eqn:E; [|done]. by rewrite (Hwx s Hin E) in Hx.
  - eapply Forall_impl; [exact Hl|]. intros ? []. lia.
Qed.

(** ** Errors *)

(** An exception [fail] raises. *)
Definition system_exit (e : exn) : Prop := ∃ message, e = SystemExit message.

Lemma fail_if_exit b message e : fail_if b message = Err e → system_exit e.
Proof. destruct b; [|done]. intros [= <-]. by eexists. Qed.

Lemma segment_ok_exit data p s e : segment_ok data p s = Err e → system_exit e.
Proof.
  unfold segment_ok. intros H.
  repeat (apply bind_Err_inv in H as [H|(? & _ & H)]; [by apply fail_if_exit in H|]).
  by apply fail_if_exit in H.
Qed.

Lemma read_segment_total data off i :
  0 ≤ off → 0 ≤ i → off + (i + 1) * PROGRAM_HEADER_SIZE ≤ len data → ∃ s, read_segment data off i = Ok s.
Proof.
  unfold PROGRAM_HEADER_SIZE. intros.
  destruct (unpack_ints_total _ segment_fields data (off + i * 56) parse_segment_format segment_uint) as (zs & Hz);
    [lia|by apply Z.leb_le|change (fields_size segment_fields) with 56; lia|].
  unfold read_segment, PROGRAM_HEADER_SIZE. change "<IIQQQQQQ" with segment_format. rewrite Hz, bind_ok.
  apply (length_unpack_ints _ _ _ _ _ parse_segment_format) in Hz.
  do 9 (destruct zs as [|? zs]; try discriminate Hz). by eexists.
Qed.

Lemma loop_exit data en off n st l e :
  0 ≤ off → off + n * PROGRAM_HEADER_SIZE ≤ len data → (∀ i, i ∈ l → 0 ≤ i < n) →
  foldM (check_segment data en off) st l = Err e → system_exit e.
Proof.
  intros Ho Hn. revert st. induction l as [|i l IH]; intros st Hl; simpl; [done|].
  destruct (read_segment_total data off i) as (s & Hs); [done|specialize (Hl i ltac:(left)); lia| |].
  { specialize (Hl i ltac:(left)). unfold PROGRAM_HEADER_SIZE in *. lia. }
  intros [H|(st' & _ & H)]%bind_Err_inv.
  - unfold check_segment in H. rewrite Hs, bind_ok in H. apply bind_Err_inv in H as [H|(? & _ & H)]; [by apply segment_ok_exit in H|done].
  - apply (IH st'); [|done]. intros k Hk. apply Hl. by right.
Qed.

Lemma read_fields_total data :
  ELF_HEADER_SIZE ≤ len data → ∃ zs h, unpack_ints tail_format data 16 = Ok zs ∧ header_of zs = Ok h.
Proof.
  unfold ELF_HEADER_SIZE. intros Hl.
  destruct (unpack_ints_total _ tail_fields data 16 parse_tail_format tail_uint) as (zs & Hz);
    [lia|by apply Z.leb_le|change (fields_size tail_fields) with 48; lia|]. exists zs.
  pose proof (length_unpack_ints _ _ _ _ _ parse_tail_format Hz) as Hn.
  do 14 (destruct zs as [|? zs]; try discriminate Hn). by eexists.
Qed.

Lemma read_header_exit data e : read_header data = Err e → system_exit e.
Proof.
  unfold read_header. intros H. apply bind_Err_inv in H as [H|(? & Hl & H)]; [by apply fail_if_exit in H|].
  apply bind_Err_inv in H as [H|(? & _ & H)]; [by apply fail_if_exit in H|].
  apply raise_if_Ok, Z.ltb_ge in Hl. destruct (read_fields_total data Hl) as (zs & h & Hz & Hh).
  change "<HHIQQQIHHHHHH" with tail_format in H. rewrite Hz, bind_ok in H. congruence.
Qed.

Lemma read_header_phoff data h : bytes_ok data → read_header data = Ok h → 0 ≤ phoff h.
Proof.
  unfold read_header. intros Hok H. apply bind_Ok_inv in H as (? & _ & H). apply bind_Ok_inv in H as (? & _ & H).
  apply bind_Ok_inv in H as (zs & Hz & H). change "<HHIQQQIHHHHHH" with tail_format in Hz.
  pose proof (unpack_ints_fit _ _ _ _ _ parse_tail_format tail_uint Hok Hz) as Hfit.
  apply (length_unpack_ints _ _ _ _ _ parse_tail_format) in Hz.
  do 14 (destruct zs as [|? zs]; try discriminate Hz). injection H as <-. cbn.
  do 4 apply Forall2_cons_1, proj2 in Hfit. apply Forall2_cons_1, proj1 in Hfit as [_ Hr].
  unfold in_range in Hr. to_prop. done.
Qed.

(** Every file the SDK verifier rejects is rejected by its own [fail]: for
    no file does a read leave the buffer or an exception of the standard library
    escape. *)
Theorem sdk_rejects_cleanly data :
  bytes_ok data → (∃ r, main data = Ok r) ∨ (∃ message, main data = Err (SystemExit message)).
Proof.
  intros Hok. destruct (main data) as [r|e] eqn:E; [left; by eexists|right].
  cut (system_exit e); [intros (m & ->); by eexists|]. unfold main in E.
  apply bind_Err_inv in E as [E|(h & Hh & E)].
  { by apply (read_header_exit data). }
  assert (0 ≤ phoff h) as Hph by by apply (read_header_phoff data).
  apply bind_Err_inv in E as [E|([] & Hc & E)].
  { unfold check_header in E.
    do 3 (apply bind_Err_inv in E as [E|(? & _ & E)]; [by apply fail_if_exit in E|]). by apply fail_if_exit in E. }
  apply check_header_iff in Hc as (_ & _ & _ & _ & _ & _ & _ & _ & _ & Hend & _).
  apply bind_Err_inv in E as [E|(st & _ & E)].
  { apply (loop_exit data (entry h) (phoff h) (phnum h)) in E; try done. intros i Hi. by apply elem_of_range in Hi. }
  do 2 (apply bind_Err_inv in E as [E|(? & _ & E)]; [by apply fail_if_exit in E|]).
  apply bind_Err_inv in E as [E|(? & _ & E)]; [|done]. unfold check_sections in E.
  destruct (truthy (shoff h)); [|by apply fail_if_exit in E].
  apply bind_Err_inv in E as [E|(? & _ & E)]; by apply fail_if_exit in E.
Qed.

(** ** The images of the other creators *)

(** Every two-segment image with its code page at [base] and its data two pages
    above is loadable. *)
Lemma two_segments_accepted base n size memory code data :
  USER_BASE ≤ base → base mod PAGE_SIZE = 0 → base + 0x2000 + memory ≤ MMAP_FLOOR →
  0 < n ≤ 0x1000 → n = len code → size = len data → 0 ≤ size ≤ memory → 0 < memory →
  main (image_bytes base (segment_bytes 5 0x1000 base n n 0x1000)
         (segment_bytes 6 0x2000 (base + 0x2000) size memory 0x1000) code data) =
  Ok (base, 2, [(0, "R-X", base, n, n); (1, "RW-", base + 0x2000, size, memory)]).
Proof.
  intros Hb Hm Hend Hn Hc Hd Hs Hmem. set (image := image_bytes _ _ _ _ _).
  pose (h := Header 2 0x3E 1 base 64 0 0 64 56 2 0 0 0).
  pose (s1 := Segment 1 5 0x1000 base 0 n n 0x1000).
  pose (s2 := Segment 1 6 0x2000 (base + 0x2000) 0 size memory 0x1000).
  assert (len image = 0x2000 + len data) as Li by (apply len_image; lia).
  assert (0 ≤ base < 2 ^ 64) as Hbase by (unfold MMAP_FLOOR, USER_BASE in *; lia).
  assert (read_segment image 64 0 = Ok s1) as R1.
  { unfold read_segment. change (64 + 0 * PROGRAM_HEADER_SIZE) with 64. change "<IIQQQQQQ" with segment_format.
    unfold image. rewrite image_segment1 by lia. reflexivity. }
  assert (read_segment image 64 1 = Ok s2) as R2.
  { unfold read_segment. change (64 + 1 * PROGRAM_HEADER_SIZE) with 120. change "<IIQQQQQQ" with segment_format.
    unfold image. rewrite image_segment2 by (unfold MMAP_FLOOR, USER_BASE in *; lia). reflexivity. }
  apply sdk_policy. exists h, [s1; s2]. split_and!; [|split|done..].
  - unfold read_header, fail_if, ELF_HEADER_SIZE. pass_guard ltac:(rewrite Li; lia).
    assert (slice image 0 16 = ident_bytes) as ->.
    { unfold image, image_bytes, header_bytes. rewrite <-!app_assoc. etrans;
        [apply slice_app_l; unfold len; simpl; lia|by apply slice_full]. }
    pass_guard ltac:(exact (eq_refl false)). change "<HHIQQQIHHHHHH" with tail_format.
    unfold image, image_bytes. rewrite tail_unpack by done. reflexivity.
  - unfold header_valid, PROGRAM_HEADER_SIZE. rewrite Li. unfold h. cbn -[len]. unfold MMAP_FLOOR, USER_BASE in *. lia.
  - by repeat constructor.
  - unfold MMAP_FLOOR, USER_BASE, PAGE_SIZE in *. clear R1 R2. clearbody image. pose proof (len_nonneg data).
    repeat apply Forall_cons_2; [split|split|apply Forall_nil_2]; unfold segment_end, s1, s2;
      cbn [kind segment_flags offset virtual physical file_size memory_size alignment]; try reflexivity;
      rewrite ?Li; unfold MMAP_FLOOR, USER_BASE, PAGE_SIZE; try lia; divlia.
  - cbn. split; [done|]. split; [|done]. unfold segment_end. cbn.
    destruct (page_up_spec (base + n)) as [? ?]. unfold PAGE_SIZE in *. divlia.
  - exists s1. split; [by left|]. split; [done|]. unfold segment_end. cbn. lia.
  - done.
  - done.
Qed.

(** (C25) The images of all three creators satisfy the SDK's loading policy: its
    verifier accepts every image they produce, and prints their entry point and
    their two segments, the code readable and executable, the data readable and
    writable. *)
Theorem created_images_accepted :
  (∀ code data image, RuntimeElf.build code data = Ok image →
     main image = Ok (0x8000000000, 2,
       [(0, "R-X", 0x8000000000, len code, len code); (1, "RW-", 0x8000002000, 0x1000, 0x1000)])) ∧
  (∀ code kind image, ProcessElf.build code kind = Ok image →
     main image = Ok (0x8000000000, 2,
       [(0, "R-X", 0x8000000000, len code, len code); (1, "RW-", 0x8000002000, 0x800, 0x2000)])) ∧
  (∀ code image, UserElf.build_elf code = Ok image →
     main image = Ok (0x8000100000, 2,
       [(0, "R-X", 0x8000100000, len code, len code); (1, "RW-", 0x8000102000, 0x800, 0x2000)])).
Proof.
  split_and!; [intros code data image H|intros code kind image H|intros code image H].
  - destruct (RuntimeElf.build_bounds _ _ _ H) as [Hc Hd]. rewrite RuntimeElf.build_eq in H by done.
    apply (inj Ok) in H as <-. unfold RuntimeElf.PAGE_SIZE, RuntimeElf.DATA_FILE_SIZE, RuntimeElf.PAGE_SIZE in *.
    pose proof (len_nonneg data).
    apply (two_segments_accepted 0x8000000000 (len code) 0x1000 0x1000); unfold USER_BASE, MMAP_FLOOR; try lia; try done.
    rewrite len_app, len_zeros; lia.
  - pose proof (ProcessElf.process_build_bounds _ _ _ H) as Hc. rewrite ProcessElf.process_build_eq in H by done.
    apply (inj Ok) in H as <-. unfold ProcessElf.PAGE_SIZE in Hc.
    apply (two_segments_accepted 0x8000000000 (len code) 0x800 0x2000); unfold USER_BASE, MMAP_FLOOR;
      rewrite ?ProcessElf.process_len_data_page; try lia; done.
  - pose proof (UserElf.user_build_bounds _ _ H) as Hc. rewrite UserElf.user_build_eq in H by done.
    apply (inj Ok) in H as <-. unfold UserElf.PAGE_SIZE in Hc.
    apply (two_segments_accepted 0x8000100000 (len code) 0x800 0x2000); unfold USER_BASE, MMAP_FLOOR;
      rewrite ?UserElf.user_len_data_page; try lia; done.
Qed.

Lemma created_images_accepted_witness : ∃ image,
  UserElf.build_elf [0xCD; 0x80] = Ok image ∧
  main image = Ok (0x8000100000, 2, [(0, "R-X", 0x8000100000, 2, 2); (1, "RW-", 0x8000102000, 0x800, 0x2000)]).
Proof.
  eexists. split; [apply UserElf.user_build_eq; by split|].
  apply (proj2 (proj2 created_images_accepted) [0xCD; 0x80]). apply UserElf.user_build_eq. by split.
Defined.

Lemma sdk_accepted_pages_witness : ∃ segs, zip_with line_of (range 0 2) segs =
  [(0, "R-X", 0x8000000000, 1, 1); (1, "RW-", 0x8000002000, 4096, 4096)].
Proof.
  destruct (sdk_accepted_pages (image_bytes RuntimeElf.CODE_BASE (RuntimeElf.code_segment 1)
      RuntimeElf.data_segment [0xF4] (zeros 4096))
    (0x8000000000, 2, [(0, "R-X", 0x8000000000, 1, 1); (1, "RW-", 0x8000002000, 4096, 4096)]))
    as (segs & H & _); [vm_compute; reflexivity|]. exists segs. exact H.
Defined.

(** The image of one instruction is accepted, so it satisfies the policy. *)
Lemma sdk_verify_iff_witness :
  sdk_image (image_bytes RuntimeElf.CODE_BASE (RuntimeElf.code_segment 1) RuntimeElf.data_segment [0xF4] (zeros 4096)).
Proof.
  refine (proj1 (proj1 (sdk_verify_iff _ 0x8000000000 2
    [(0, "R-X", 0x8000000000, 1, 1); (1, "RW-", 0x8000002000, 4096, 4096)] _) _)); [|vm_compute; reflexivity].
  apply bytes_okb_spec. vm_compute. reflexivity.
Defined.

Lemma sdk_rejects_cleanly_witness : ∃ message, main (zeros 64) = Err (SystemExit message).
Proof.
  destruct (sdk_rejects_cleanly (zeros 64)) as [[r H]|H]; [apply bytes_ok_zeros|discriminate H|exact H].
Defined.

End SdkElf.

(** ** [verify-efi.py] *)

Module Efi.

Definition fail_if (b : bool) (message : string) : result unit := raise_if b (SystemExit message).

(** The checks up to the optional header; the result is the machine, the section
    count and the optional header's offset and size. *)
Definition coff_header (data : bytes) : result (Z * Z * Z * Z) :=
  fail_if (len data <? 256) "EFI image is unexpectedly small";;
  fail_if (negb (beq (slice data 0 2) (B "MZ"))) "missing DOS MZ header";;
  pe_offset ← unpack_int "<I" data 0x3C;
  fail_if (len data <? pe_offset + 24) "invalid PE header offset";;
  fail_if (negb (beq (slice data pe_offset (pe_offset + 4)) (B "PE" ++ [0; 0]))) "missing PE signature";;
  machine ← unpack_int "<H" data (pe_offset + 4);
  section_count ← unpack_int "<H" data (pe_offset + 6);
  optional_size ← unpack_int "<H" data (pe_offset + 20);
  let optional := pe_offset + 24 in
  fail_if (len data <? optional + optional_size) "truncated PE optional header";;
  Ok (machine, section_count, optional, optional_size).

Definition optional_header (data : bytes) (optional : Z) : result (Z * Z * Z * Z) :=
  magic ← unpack_int "<H" data optional;
  entry_rva ← unpack_int "<I" data (optional + 16);
  image_size ← unpack_int "<I" data (optional + 56);
  subsystem ← unpack_int "<H" data (optional + 68);
  Ok (magic, entry_rva, image_size, subsystem).

Definition check_fields (machine section_count magic entry_rva image_size subsystem : Z) : result unit :=
  fail_if (negb (machine =? 0x8664)) "wrong machine type: 0x{machine:04X}";;
  fail_if (negb (magic =? 0x020B)) "not PE32+: 0x{magic:04X}";;
  fail_if (negb (subsystem =? 10)) "wrong subsystem: {subsystem}; expected EFI application (10)";;
  fail_if ((section_count =? 0) || (entry_rva =? 0) || (image_size =? 0))
    "PE image has empty sections, entry point, or image size".

(** [main]; the result is the section count, the entry address and the image
    size the script prints. *)
Definition main (data : bytes) : result (Z * Z * Z) :=
  '(machine, section_count, optional, _) ← coff_header data;
  '(magic, entry_rva, image_size, subsystem) ← optional_header data optional;
  check_fields machine section_count magic entry_rva image_size subsystem;;
  Ok (section_count, entry_rva, image_size).

(** ** Properties *)

(** Little-endian fields of a file. *)
Definition u16 (data : bytes) (off : Z) : Z := le_int (slice data off (off + 2)).
Definition u32 (data : bytes) (off : Z) : Z := le_int (slice data off (off + 4)).

Lemma unpack_H data off :
  0 ≤ off → unpack_int "<H" data off =
    if off + 2 <=? len data then Ok (u16 data off) else Err StructError.
Proof.
  intros. destruct (Z.leb_spec (off + 2) (len data)).
  - by apply (unpack_int_eq "<H" 2); [apply parse_fmt_H|..].
  - by apply (unpack_int_short "<H" 2); [apply parse_fmt_H|..].
Qed.

Lemma unpack_I data off :
  0 ≤ off → unpack_int "<I" data off =
    if off + 4 <=? len data then Ok (u32 data off) else Err StructError.
Proof.
  intros. destruct (Z.leb_spec (off + 4) (len data)).
  - by apply (unpack_int_eq "<I" 4); [apply parse_fmt_I|..].
  - by apply (unpack_int_short "<I" 4); [apply parse_fmt_I|..].
Qed.

(** The part of the headers the script reads before the optional header. *)
Definition coff_valid (data : bytes) : Prop :=
  256 ≤ len data ∧ slice data 0 2 = B "MZ" ∧
  let pe := u32 data 0x3C in
  pe + 24 ≤ len data ∧ slice data pe (pe + 4) = B "PE" ++ [0; 0] ∧ pe + 24 + u16 data (pe + 20) ≤ len data.

Lemma coff_header_cases data :
  bytes_ok data →
  let pe := u32 data 0x3C in
  (coff_valid data ∧
    coff_header data = Ok (u16 data (pe + 4), u16 data (pe + 6), pe + 24, u16 data (pe + 20))) ∨
  (¬ coff_valid data ∧ ∃ message, coff_header data = Err (SystemExit message)).
Proof.
  intros Hok pe. assert (0 ≤ pe) as Hpe by (apply le_int_bound, bytes_ok_slice, Hok).
  unfold coff_header, coff_valid, fail_if. fold pe.
  destruct (Z.ltb_spec (len data) 256) as [?|Hl]; [right; split; [lia|by eexists]|].
  cbn [raise_if]. rewrite bind_ok.
  destruct (beq _ (B "MZ")) eqn:Em; [apply beq_spec in Em|right; apply beq_false in Em; split; [tauto|by eexists]].
  cbn [negb raise_if]. rewrite bind_ok, unpack_I, (proj2 (Z.leb_le _ _)), bind_ok by lia. fold pe.
  destruct (Z.ltb_spec (len data) (pe + 24)) as [?|Hp]; [right; split; [lia|by eexists]|].
  cbn [raise_if]. rewrite bind_ok.
  destruct (beq _ (B "PE" ++ [0; 0])) eqn:Es;
    [apply beq_spec in Es|right; apply beq_false in Es; split; [tauto|by eexists]].
  cbn [negb raise_if]. rewrite bind_ok, !unpack_H by lia.
  rewrite !(proj2 (Z.leb_le _ _)) by lia. rewrite !bind_ok. cbv zeta.
  destruct (Z.ltb_spec (len data) (pe + 24 + u16 data (pe + 20))) as [?|Ho]; [right; split; [lia|by eexists]|].
  left. split; [done|reflexivity].
Qed.

Lemma optional_header_cases data optional :
  0 ≤ optional → optional_header data optional =
    if optional + 70 <=? len data
    then Ok (u16 data optional, u32 data (optional + 16), u32 data (optional + 56), u16 data (optional + 68))
    else Err StructError.
Proof.
  intros. unfold optional_header. rewrite !unpack_H, !unpack_I by lia.
  destruct (Z.leb_spec (optional + 70) (len data)).
  - rewrite !(proj2 (Z.leb_le _ _)) by lia. reflexivity.
  - rewrite (proj2 (Z.leb_gt (optional + 68 + 2) _)) by lia. by repeat destruct (_ <=? _).
Qed.

Lemma then_iff {A} (m : result unit) (a b : A) : (m;; Ok a) = Ok b ↔ m = Ok tt ∧ Ok a = Ok b.
Proof. destruct m as [[]|]; [by split; [intros H|intros [_ H]]|by split; [|intros [? _]]]. Qed.

(** (C40) What the EFI verifier decides, and the one way its own error reporting
    fails: on any byte string it accepts exactly the PE32+ AMD64 EFI applications
    with sections, an entry point and an image size; it fails with a message when
    the headers it has read are invalid; and the [struct.error] of an optional
    header that is declared too short and cut by the end of the file escapes. *)
Theorem efi_verdict data :
  bytes_ok data →
  let pe := u32 data 0x3C in
  let complete := pe + 24 + 70 ≤ len data in
  (∀ n rva size, main data = Ok (n, rva, size) ↔
     coff_valid data ∧ complete ∧ u16 data (pe + 4) = 0x8664 ∧ u16 data (pe + 24) = 0x020B ∧
     u16 data (pe + 24 + 68) = 10 ∧ n = u16 data (pe + 6) ∧ rva = u32 data (pe + 24 + 16) ∧
     size = u32 data (pe + 24 + 56) ∧ n ≠ 0 ∧ rva ≠ 0 ∧ size ≠ 0) ∧
  (main data = Err StructError ↔ coff_valid data ∧ ¬ complete) ∧
  (∀ e, main data = Err e → e = StructError ∨ ∃ message, e = SystemExit message).
Proof.
  intros Hok pe complete. assert (0 ≤ pe) as Hpe by (apply le_int_bound, bytes_ok_slice, Hok).
  destruct (coff_header_cases data Hok) as [[Hv Hc]|[Hv (m & Hc)]]; fold pe in Hc; unfold main; rewrite Hc.
  2: { cbn. split_and!; [split; [done|tauto]|split; [done|tauto]|intros e [= <-]; right; by eexists]. }
  rewrite bind_ok, optional_header_cases by lia. unfold complete.
  destruct (Z.leb_spec (pe + 24 + 70) (len data)) as [Hn|Hn].
  2: { cbn. split_and!; [split; [done|lia]|split; [split; [done|lia]|done]|intros e [= <-]; by left]. }
  rewrite bind_ok. unfold check_fields, fail_if. split_and!.
  - intros n rva size. rewrite then_iff, !guard_iff, last_guard_iff, !orb_false_iff, !negb_false_iff, !Z.eqb_eq, !Z.eqb_neq.
    split; [intros ((? & ? & ? & [[? ?] ?]) & [= <- <- <-]); by split_and!|].
    intros (_ & _ & ? & ? & ? & -> & -> & -> & ? & ? & ?). by split_and!.
  - split; [|tauto]. repeat (destruct (_ =? _); cbn); done.
  - intros e. repeat (destruct (_ =? _); cbn); try (intros [= <-]; right; by eexists); done.
Qed.

(** A 256-byte file whose optional header is declared empty at the end of the
    file. *)
Definition cut_image : bytes :=
  let image := put (zeros 256) 0 (B "MZ") in
  let image := put image 0x3C (le_bytes 4 230) in
  let image := put image 230 (B "PE" ++ [0; 0]) in
  put image 234 (le_bytes 2 0x8664).

Lemma efi_verdict_witness : main cut_image = Err StructError.
Proof.
  assert (bytes_okb cut_image = true) as H%bytes_okb_spec by (vm_compute; reflexivity).
  apply (efi_verdict cut_image H). split; [split; [by vm_compute|]; split; [reflexivity|]; split_and!|];
    try (by vm_compute); reflexivity.
Defined.

End Efi.
