(* ===== verification/AbiGen.v ===== *)
(** * The ABI generator

    [generate-abi.py]: the Zig, NASM, SDK and C files it generates from the ABI
    specification, and its [--check] mode.

    The specification is a JSON object of objects of integers: a list of named
    groups, each a list of names and values in the file's order.  A missing key
    raises [KeyError] where the script's lookup does; values of other types are
    not represented.  A generated file is the list of the strings the script
    joins; [ln] ends a line.  The file system of [main] is a map from paths to
    contents. *)

From S2P Require Import Prelude.
From stdpp Require Import pretty.

#[local] Open Scope Z_scope.

Module AbiGen.

(** ** Strings *)

Definition nl : string := String (Ascii.ascii_of_nat 10) EmptyString.
Definition dq : string := String (Ascii.ascii_of_nat 34) EmptyString.
Definition ln (s : string) : string := s +:+ nl.

(** ["".join(lines)] *)
Fixpoint join (lines : list string) : string :=
  match lines with [] => "" | s :: lines => s +:+ join lines end.

(** [f"{value}"] and [f"{value:08X}"] *)
Definition str (value : Z) : string := pretty value.

Definition hex_char (d : Z) : Ascii.ascii :=
  Ascii.ascii_of_nat (Z.to_nat (if d <? 10 then 48 + d else 55 + d)).
Fixpoint hex_digits (fuel : nat) (value : Z) (acc : string) : string :=
  match fuel with
  | O => acc
  | S fuel =>
      let acc := String (hex_char (value mod 16)) acc in
      if value <? 16 then acc else hex_digits fuel (value / 16) acc
  end.
Fixpoint zeros_of (n : nat) : string := match n with O => "" | S n => String "0" (zeros_of n) end.
Definition hex8 (value : Z) : string :=
  let digits := hex_digits (S (Z.to_nat (Z.log2 (Z.abs value)))) (Z.abs value) "" in
  let sign := if value <? 0 then "-" else "" in
  sign +:+ zeros_of (8 - String.length sign - String.length digits) +:+ digits.

(** [str.upper] on ASCII *)
Definition upper_char (c : Ascii.ascii) : Ascii.ascii :=
  let n := Ascii.nat_of_ascii c in
  if (97 <=? n)%nat && (n <=? 122)%nat then Ascii.ascii_of_nat (n - 32) else c.
Fixpoint upper (s : string) : string :=
  match s with EmptyString => EmptyString | String c s => String (upper_char c) (upper s) end.

(** [str.find] *)
Definition find (s sub : string) (start : Z) : Z :=
  let n := Z.of_nat (String.length s) in
  let start := if start <? 0 then Z.max 0 (start + n) else start in
  match String.index (Z.to_nat start) sub s with Some i => Z.of_nat i | None => -1 end.

(** ** The specification *)

Abbreviation entries := (list (string * Z)).
Abbreviation document := (list (string * entries)).

Fixpoint assoc {A} (d : list (string * A)) (name : string) : option A :=
  match d with
  | [] => None
  | (n, a) :: d => if String.eqb n name then Some a else assoc d name
  end.

(** [d[name]] and [d.get(name, {})] *)
Definition key {A} (d : list (string * A)) (name : string) : result A :=
  match assoc d name with Some a => Ok a | None => Err KeyError end.
Definition optional (spec : document) (name : string) : entries := default [] (assoc spec name).

(** [max(values) - min(values) + 1] *)
Definition value_count (e : entries) : result Z :=
  match e.*2 with
  | [] => Err (ValueError "max() iterable argument is empty")
  | v :: vs => Ok (foldl Z.max v vs - foldl Z.min v vs + 1)
  end.

(** A loop over the entries of a group that appends a line to each file. *)
Definition emit (e : entries) (zig_line nasm_line : string → Z → string) (out : list string * list string)
    : list string * list string :=
  (out.1 ++ (uncurry zig_line <$> e), out.2 ++ (uncurry nasm_line <$> e)).
Definition emit_c (e : entries) (line : string → Z → string) (lines : list string) : list string :=
  lines ++ (uncurry line <$> e).

(** ** The Zig and NASM files *)

(** Its argument is one of the keys of [prefixes]. *)
Definition zig_name (group name : string) : string :=
  (if String.eqb group "syscalls" then "syscall_"
   else if String.eqb group "capabilities" then "capability_" else "errno_") +:+ name.

(** [generate] up to the limits: the two lists [zig] and [nasm]. *)
Definition generate_head (spec : document) : result (list string * list string) :=
  abi ← key spec "abi";
  magic ← key abi "magic";
  major ← key abi "major";
  minor ← key abi "minor";
  page_size ← key abi "page_size";
  syscall_base ← key abi "syscall_base";
  let zig := [
    ln "// Generated by scripts/generate-abi.py from abi/zigos-abi.json. Do not edit.";
    ln ("pub const abi_magic: u32 = 0x" +:+ hex8 magic +:+ ";");
    ln ("pub const abi_major: u16 = " +:+ str major +:+ ";");
    ln ("pub const abi_minor: u16 = " +:+ str minor +:+ ";");
    ln ("pub const abi_page_size: u32 = " +:+ str page_size +:+ ";");
    ln ("pub const syscall_base: u16 = " +:+ str syscall_base +:+ ";")] in
  let nasm := [
    ln "; Generated by scripts/generate-abi.py from abi/zigos-abi.json. Do not edit.";
    ln ("%define ZIGOS_ABI_MAGIC 0x" +:+ hex8 magic);
    ln ("%define ZIGOS_ABI_MAJOR " +:+ str major);
    ln ("%define ZIGOS_ABI_MINOR " +:+ str minor);
    ln ("%define ZIGOS_PAGE_SIZE " +:+ str page_size)] in
  limits ← key spec "limits";
  arguments ← key limits "arguments";
  argument_bytes ← key limits "argument_bytes";
  environment ← key limits "environment";
  environment_bytes ← key limits "environment_bytes";
  iovecs ← key limits "iovecs";
  let zig := zig ++ [
    ln ("pub const maximum_arguments: usize = " +:+ str arguments +:+ ";");
    ln ("pub const maximum_argument_bytes: usize = " +:+ str argument_bytes +:+ ";");
    ln ("pub const maximum_environment: usize = " +:+ str environment +:+ ";");
    ln ("pub const maximum_environment_bytes: usize = " +:+ str environment_bytes +:+ ";");
    ln ("pub const maximum_iovecs: usize = " +:+ str iovecs +:+ ";")] in
  let nasm := nasm ++ [
    ln ("%define ZIGOS_MAX_ARGUMENTS " +:+ str arguments);
    ln ("%define ZIGOS_MAX_ARGUMENT_BYTES " +:+ str argument_bytes);
    ln ("%define ZIGOS_MAX_ENVIRONMENT " +:+ str environment);
    ln ("%define ZIGOS_MAX_ENVIRONMENT_BYTES " +:+ str environment_bytes);
    ln ("%define ZIGOS_MAX_IOVECS " +:+ str iovecs)] in
  Ok (zig ++ [ln ""], nasm ++ [ln ""]).

(** The loops over the required groups and the socket groups. *)
Definition generate_groups_1 (spec : document) (out : list string * list string) : result (list string * list string) :=
  entries ← key spec "auxiliary_vector";
  let out := emit entries
    (λ name value, ln ("pub const aux_" +:+ name +:+ ": u64 = " +:+ str value +:+ ";"))
    (λ name value, ln ("%define ZIGOS_AUX_" +:+ upper name +:+ " " +:+ str value)) out in
  let out := (out.1 ++ [ln ""], out.2 ++ [ln ""]) in
  entries ← key spec "seek_whence";
  let out := emit entries
    (λ name value, ln ("pub const seek_" +:+ name +:+ ": u64 = " +:+ str value +:+ ";"))
    (λ name value, ln ("%define ZIGOS_SEEK_" +:+ upper name +:+ " " +:+ str value)) out in
  entries ← key spec "message_flags";
  let out := emit entries
    (λ name value, ln ("pub const message_" +:+ name +:+ ": u64 = " +:+ str value +:+ ";"))
    (λ name value, ln ("%define ZIGOS_MSG_" +:+ upper name +:+ " " +:+ str value)) out in
  let out := emit (optional spec "socket_shutdown")
    (λ name value, ln ("pub const socket_shutdown_" +:+ name +:+ ": u64 = " +:+ str value +:+ ";"))
    (λ name value, ln ("%define ZIGOS_SOCKET_SHUTDOWN_" +:+ upper name +:+ " " +:+ str value)) out in
  let out := emit (optional spec "socket_option_levels")
    (λ name value, ln ("pub const socket_option_level_" +:+ name +:+ ": u64 = " +:+ str value +:+ ";"))
    (λ name value, ln ("%define ZIGOS_SOL_" +:+ upper name +:+ " " +:+ str value)) out in
  let out := emit (optional spec "socket_options")
    (λ name value, ln ("pub const socket_option_" +:+ name +:+ ": u64 = " +:+ str value +:+ ";"))
    (λ name value, ln ("%define ZIGOS_SO_" +:+ upper name +:+ " " +:+ str value)) out in
  let out := (out.1, out.2 ++ [
    ln "%define ZIGOS_AF_INET 2";
    ln "%define ZIGOS_SOCKET_STREAM 1";
    ln "%define ZIGOS_SOCKET_DATAGRAM 2";
    ln "%define ZIGOS_PROTOCOL_TCP 6";
    ln "%define ZIGOS_PROTOCOL_UDP 17"]) in
  Ok out.

(** The loops over the other optional groups. *)
Definition generate_groups_2 (spec : document) (out : list string * list string) : result (list string * list string) :=
  let out := emit (optional spec "spawn_flags")
    (λ name value, ln ("pub const spawn_" +:+ name +:+ ": u16 = @as(u16, 1) << " +:+ str value +:+ ";"))
    (λ name value, ln ("%define ZIGOS_SPAWN_" +:+ upper name +:+ " (1 << " +:+ str value +:+ ")")) out in
  let out := emit (optional spec "spawn_io")
    (λ name value, ln ("pub const spawn_io_" +:+ name +:+ ": u16 = " +:+ str value +:+ ";"))
    (λ name value, ln ("%define ZIGOS_SPAWN_IO_" +:+ upper name +:+ " " +:+ str value)) out in
  let out := emit (optional spec "wait_flags")
    (λ name value, ln ("pub const wait_" +:+ name +:+ ": u64 = @as(u64, 1) << " +:+ str value +:+ ";"))
    (λ name value, ln ("%define ZIGOS_WAIT_" +:+ upper name +:+ " (1 << " +:+ str value +:+ ")")) out in
  let out := emit (optional spec "directory_fds")
    (λ name value, ln ("pub const directory_fd_" +:+ name +:+ ": i64 = " +:+ str value +:+ ";"))
    (λ name value, ln ("%define ZIGOS_AT_" +:+ upper name +:+ " " +:+ str value)) out in
  let out := emit (optional spec "ioctl_requests")
    (λ name value, ln ("pub const ioctl_" +:+ name +:+ ": u64 = " +:+ str value +:+ ";"))
    (λ name value, ln ("%define ZIGOS_IOCTL_" +:+ upper name +:+ " " +:+ str value)) out in
  let out := emit (optional spec "tty_flags")
    (λ name value, ln ("pub const tty_" +:+ name +:+ ": u64 = @as(u64, 1) << " +:+ str value +:+ ";"))
    (λ name value, ln ("%define ZIGOS_TTY_" +:+ upper name +:+ " (1 << " +:+ str value +:+ ")")) out in
  let out := emit (optional spec "fallocate_flags")
    (λ name value, ln ("pub const fallocate_" +:+ name +:+ ": u64 = @as(u64, 1) << " +:+ str value +:+ ";"))
    (λ name value, ln ("%define ZIGOS_FALLOCATE_" +:+ upper name +:+ " (1 << " +:+ str value +:+ ")")) out in
  let out := emit (optional spec "mount_flags")
    (λ name value, ln ("pub const mount_" +:+ name +:+ ": u64 = @as(u64, 1) << " +:+ str value +:+ ";"))
    (λ name value, ln ("%define ZIGOS_MOUNT_" +:+ upper name +:+ " (1 << " +:+ str value +:+ ")")) out in
  let out := emit (optional spec "filesystem_types")
    (λ name value, ln ("pub const filesystem_type_" +:+ name +:+ ": u16 = " +:+ str value +:+ ";"))
    (λ name value, ln ("%define ZIGOS_FS_TYPE_" +:+ upper name +:+ " " +:+ str value)) out in
  let out := emit (optional spec "filesystem_stat_flags")
    (λ name value, ln ("pub const filesystem_stat_" +:+ name +:+ ": u16 = @as(u16, 1) << " +:+ str value +:+ ";"))
    (λ name value, ln ("%define ZIGOS_FS_STAT_" +:+ upper name +:+ " (1 << " +:+ str value +:+ ")")) out in
  let out := emit (optional spec "flock_operations")
    (λ name value, ln ("pub const flock_" +:+ name +:+ ": u64 = " +:+ str value +:+ ";"))
    (λ name value, ln ("%define ZIGOS_LOCK_" +:+ upper name +:+ " " +:+ str value)) out in
  let out := emit (optional spec "directory_event_flags")
    (λ name value, ln ("pub const directory_event_" +:+ name +:+ ": u8 = @as(u8, 1) << " +:+ str value +:+ ";"))
    (λ name value, ln ("%define ZIGOS_DIRECTORY_EVENT_" +:+ upper name +:+ " (1 << " +:+ str value +:+ ")")) out in
  Ok out.

(** The lines of one entry of [capabilities], [syscalls] or [errno]. *)
Definition group_zig (group name : string) (value : Z) : string :=
  if String.eqb group "capabilities" then
    ln ("pub const " +:+ zig_name group name +:+ ": u64 = @as(u64, 1) << " +:+ str value +:+ ";")
  else if String.eqb group "syscalls" then
    ln ("pub const " +:+ zig_name group name +:+ ": u64 = " +:+ str value +:+ ";")
  else
    ln ("pub const " +:+ zig_name group name +:+ ": i64 = " +:+ str value +:+ ";").
Definition group_nasm (group name : string) (value : Z) : string :=
  if String.eqb group "capabilities" then
    ln ("%define ZIGOS_CAP_" +:+ upper name +:+ " (1 << " +:+ str value +:+ ")")
  else if String.eqb group "syscalls" then
    ln ("%define SYS_" +:+ upper name +:+ " " +:+ str value)
  else
    ln ("%define ERRNO_" +:+ upper name +:+ " " +:+ str value).

(** One iteration of the loop over these groups. *)
Definition generate_group (spec : document) (out : list string * list string) (group : string)
    : result (list string * list string) :=
  entries ← key spec group;
  Ok (emit entries (group_zig group) (group_nasm group) (out.1 ++ [ln ""], out.2 ++ [ln ""])).

(** The lines the SDK file has after those of the kernel's file. *)
Definition sdk_lines : list string := [
  ln "pub const open_read: u64 = 1 << 0;";
  ln "pub const open_write: u64 = 1 << 1;";
  ln "pub const open_create: u64 = 1 << 2;";
  ln "pub const open_truncate: u64 = 1 << 3;";
  ln "pub const open_append: u64 = 1 << 4;";
  ln "pub const open_close_on_exec: u64 = 1 << 5;";
  ln "pub const protection_read: u64 = 1 << 0;";
  ln "pub const protection_write: u64 = 1 << 1;";
  ln "pub const protection_execute: u64 = 1 << 2;";
  ln "pub const map_private: u64 = 1 << 0;";
  ln "pub const map_anonymous: u64 = 1 << 1;";
  ln "pub const map_fixed: u64 = 1 << 2;";
  ln "pub const map_fixed_no_replace: u64 = 1 << 3;";
  ln "pub const map_shared: u64 = 1 << 4;";
  ln "pub const poll_readable: u16 = 1 << 0;";
  ln "pub const poll_writable: u16 = 1 << 1;";
  ln "pub const poll_error: u16 = 1 << 2;";
  ln "pub const poll_hangup: u16 = 1 << 3;";
  ln "pub const address_family_ipv4: u16 = 2;";
  ln "pub const socket_stream: u16 = 1;";
  ln "pub const socket_datagram: u16 = 2;";
  ln "pub const protocol_tcp: u16 = 6;";
  ln "pub const protocol_udp: u16 = 17;";
  ln (nl +:+ "pub const AbiInfo = extern struct {");
  ln "    magic: u32,";
  ln "    size: u16,";
  ln "    major: u16,";
  ln "    minor: u16,";
  ln "    reserved0: u16,";
  ln "    page_size: u32,";
  ln "    syscall_base: u16,";
  ln "    syscall_count: u16,";
  ln "    reserved1: u32,";
  ln "    capabilities: u64,";
  ln "    user_base: u64,";
  ln "    user_end: u64,";
  ln "    maximum_io_bytes: u32,";
  ln "    maximum_path_bytes: u32,";
  ln "    maximum_processes: u16,";
  ln "    maximum_descriptors: u16,";
  ln "    maximum_sockets: u16,";
  ln "    reserved2: u16,";
  ln (ln "};");
  ln "pub const WaitStatus = extern struct {";
  ln "    pid: u32,";
  ln "    exit_status: u32,";
  ln "    state: u32,";
  ln "    fault_vector: u32,";
  ln "    fault_address: u64,";
  ln (ln "};");
  ln "pub const Stat = extern struct {";
  ln "    node: u32,";
  ln "    generation: u16,";
  ln "    kind: u8,";
  ln "    readonly: u8,";
  ln "    mode: u16,";
  ln "    mount_id: u8,";
  ln "    link_count: u8,";
  ln "    size: u64,";
  ln "    modified_tick: u64,";
  ln (ln "};");
  ln "pub const FileTimes = extern struct {";
  ln "    created_tick: u64,";
  ln "    modified_tick: u64,";
  ln "    changed_tick: u64,";
  ln "    accessed_tick: u64,";
  ln (ln "};");
  ln "pub const FileOwner = extern struct {";
  ln "    uid: u32,";
  ln "    gid: u32,";
  ln (ln "};");
  ln "pub const FilesystemStat = extern struct {";
  ln "    block_size: u64,";
  ln "    total_blocks: u64,";
  ln "    free_blocks: u64,";
  ln "    available_blocks: u64,";
  ln "    total_nodes: u64,";
  ln "    free_nodes: u64,";
  ln "    mount_id: u32,";
  ln "    filesystem_kind: u16,";
  ln "    flags: u16,";
  ln "    reserved: u64,";
  ln (ln "};");
  ln "pub const DirectoryEntry = extern struct {";
  ln "    node: u32,";
  ln "    kind: u8,";
  ln "    readonly: u8,";
  ln "    name_length: u16,";
  ln "    size: u64,";
  ln "    name: [32]u8,";
  ln (ln "};");
  ln "pub const PollDescriptor = extern struct {";
  ln "    fd: u16,";
  ln "    requested: u16,";
  ln "    returned: u16,";
  ln "    reserved: u16,";
  ln (ln "};");
  ln "pub const DirectoryEvent = extern struct {";
  ln "    sequence: u64,";
  ln "    node: u32,";
  ln "    generation: u16,";
  ln "    kind: u8,";
  ln "    flags: u8,";
  ln "    name_length: u16,";
  ln "    reserved0: [6]u8,";
  ln "    name: [32]u8,";
  ln "    reserved1: [8]u8,";
  ln (ln "};");
  ln "pub const IoVector = extern struct {";
  ln "    pointer: u64,";
  ln "    length: u64,";
  ln (ln "};");
  ln "pub const Ipv4SocketAddress = extern struct {";
  ln "    family: u16,";
  ln "    port_be: u16,";
  ln "    address_be: u32,";
  ln "};";
  ln (nl +:+ "pub const UserString = extern struct {");
  ln "    pointer: u64,";
  ln "    length: u16,";
  ln "    reserved0: u16 = 0,";
  ln "    reserved1: u32 = 0,";
  ln (ln "};");
  ln "pub const SpawnRequest = extern struct {";
  ln "    path_pointer: u64,";
  ln "    arguments_pointer: u64,";
  ln "    environment_pointer: u64,";
  ln "    path_length: u16,";
  ln "    argument_count: u16,";
  ln "    environment_count: u16,";
  ln "    flags: u16 = 0,";
  ln (ln "};");
  ln "pub const AuxvEntry = extern struct {";
  ln "    kind: u64,";
  ln "    value: u64,";
  ln "};"].

Definition generate_lines (spec : document) : result (list string * list string * list string) :=
  out ← generate_head spec;
  out ← generate_groups_1 spec out;
  out ← generate_groups_2 spec out;
  out ← foldM (generate_group spec) out ["capabilities"; "syscalls"; "errno"];
  syscalls ← key spec "syscalls";
  count ← value_count syscalls;
  let zig := out.1 ++ [ln (nl +:+ "pub const syscall_count: u16 = " +:+ str count +:+ ";")] in
  let nasm := out.2 ++ [ln (nl +:+ "%define ZIGOS_SYSCALL_COUNT " +:+ str count)] in
  Ok (zig, nasm, zig ++ sdk_lines).

Definition generate (spec : document) : result (string * string * string) :=
  '(zig, nasm, sdk) ← generate_lines spec;
  Ok (join zig, join nasm, join sdk).

(** ** The C files *)

(** [generate_c] up to the blank line before the groups. *)
Definition generate_c_head (spec : document) : result (list string) :=
  abi ← key spec "abi";
  syscalls ← key spec "syscalls";
  magic ← key abi "magic";
  major ← key abi "major";
  minor ← key abi "minor";
  page_size ← key abi "page_size";
  syscall_base ← key abi "syscall_base";
  count ← value_count syscalls;
  limits ← key spec "limits";
  iovecs ← key limits "iovecs";
  Ok [
    ln "/* Generated by scripts/generate-abi.py from abi/zigos-abi.json. Do not edit. */";
    ln (ln ("#ifndef ZIGOS_H" +:+ nl +:+ "#define ZIGOS_H"));
    ln (ln ("#ifndef ZIGOS_ABI_H" +:+ nl +:+ "#define ZIGOS_ABI_H"));
    ln (ln ("#include <stddef.h>" +:+ nl +:+ "#include <stdint.h>"));
    ln ("#define ZIGOS_ABI_MAGIC UINT32_C(0x" +:+ hex8 magic +:+ ")");
    ln ("#define ZIGOS_ABI_MAJOR UINT16_C(" +:+ str major +:+ ")");
    ln ("#define ZIGOS_ABI_MINOR UINT16_C(" +:+ str minor +:+ ")");
    ln ("#define ZIGOS_PAGE_SIZE UINT32_C(" +:+ str page_size +:+ ")");
    ln ("#define ZIGOS_SYSCALL_BASE UINT16_C(" +:+ str syscall_base +:+ ")");
    ln ("#define ZIGOS_SYSCALL_COUNT UINT16_C(" +:+ str count +:+ ")");
    ln ("#define ZIGOS_MAX_IOVECS UINT64_C(" +:+ str iovecs +:+ ")");
    ln ""].

(** The loops over the groups and the lines between them. *)
Definition generate_c_groups (spec : document) (lines : list string) : result (list string) :=
  entries ← key spec "auxiliary_vector";
  let lines := emit_c entries
    (λ name value, ln ("#define ZIGOS_AUX_" +:+ upper name +:+ " UINT64_C(" +:+ str value +:+ ")")) lines in
  entries ← key spec "seek_whence";
  let lines := emit_c entries
    (λ name value, ln ("#define ZIGOS_SEEK_" +:+ upper name +:+ " UINT64_C(" +:+ str value +:+ ")")) lines in
  entries ← key spec "message_flags";
  let lines := emit_c entries
    (λ name value, ln ("#define ZIGOS_MSG_" +:+ upper name +:+ " UINT64_C(" +:+ str value +:+ ")")) lines in
  let lines := emit_c (optional spec "socket_shutdown")
    (λ name value, ln ("#define ZIGOS_SOCKET_SHUTDOWN_" +:+ upper name +:+ " UINT64_C(" +:+ str value +:+
      ")")) lines in
  let lines := emit_c (optional spec "socket_option_levels")
    (λ name value, ln ("#define ZIGOS_SOL_" +:+ upper name +:+ " UINT64_C(" +:+ str value +:+ ")")) lines in
  let lines := emit_c (optional spec "socket_options")
    (λ name value, ln ("#define ZIGOS_SO_" +:+ upper name +:+ " UINT64_C(" +:+ str value +:+ ")")) lines in
  let lines := emit_c (optional spec "spawn_flags")
    (λ name value, ln ("#define ZIGOS_SPAWN_" +:+ upper name +:+ " (UINT16_C(1) << " +:+ str value +:+ ")")) lines in
  let lines := emit_c (optional spec "spawn_io")
    (λ name value, ln ("#define ZIGOS_SPAWN_IO_" +:+ upper name +:+ " UINT16_C(" +:+ str value +:+ ")")) lines in
  let lines := emit_c (optional spec "directory_fds")
    (λ name value, ln ("#define ZIGOS_AT_" +:+ upper name +:+ " INT64_C(" +:+ str value +:+ ")")) lines in
  let lines := emit_c (optional spec "ioctl_requests")
    (λ name value, ln ("#define ZIGOS_IOCTL_" +:+ upper name +:+ " UINT64_C(" +:+ str value +:+ ")")) lines in
  let lines := emit_c (optional spec "tty_flags")
    (λ name value, ln ("#define ZIGOS_TTY_" +:+ upper name +:+ " (UINT64_C(1) << " +:+ str value +:+ ")")) lines in
  let lines := emit_c (optional spec "fallocate_flags")
    (λ name value, ln ("#define ZIGOS_FALLOCATE_" +:+ upper name +:+ " (UINT64_C(1) << " +:+ str value +:+
      ")")) lines in
  let lines := emit_c (optional spec "mount_flags")
    (λ name value, ln ("#define ZIGOS_MOUNT_" +:+ upper name +:+ " (UINT64_C(1) << " +:+ str value +:+ ")")) lines in
  let lines := emit_c (optional spec "filesystem_types")
    (λ name value, ln ("#define ZIGOS_FS_TYPE_" +:+ upper name +:+ " UINT16_C(" +:+ str value +:+ ")")) lines in
  let lines := emit_c (optional spec "filesystem_stat_flags")
    (λ name value, ln ("#define ZIGOS_FS_STAT_" +:+ upper name +:+ " (UINT16_C(1) << " +:+ str value +:+
      ")")) lines in
  let lines := emit_c (optional spec "flock_operations")
    (λ name value, ln ("#define ZIGOS_LOCK_" +:+ upper name +:+ " UINT64_C(" +:+ str value +:+ ")")) lines in
  let lines := emit_c (optional spec "wait_flags")
    (λ name value, ln ("#define ZIGOS_WAIT_" +:+ upper name +:+ " (UINT64_C(1) << " +:+ str value +:+ ")")) lines in
  let lines := lines ++ [
    ln "#define ZIGOS_AF_INET UINT16_C(2)";
    ln "#define ZIGOS_SOCKET_STREAM UINT16_C(1)";
    ln "#define ZIGOS_SOCKET_DATAGRAM UINT16_C(2)";
    ln "#define ZIGOS_PROTOCOL_TCP UINT16_C(6)";
    ln "#define ZIGOS_PROTOCOL_UDP UINT16_C(17)"] in
  let lines := lines ++ [ln ""] in
  let lines := emit_c (optional spec "directory_event_flags")
    (λ name value, ln ("#define ZIGOS_DIRECTORY_EVENT_" +:+ upper name +:+ " (UINT8_C(1) << " +:+ str value +:+
      ")")) lines in
  let lines := lines ++ [ln ""] in
  entries ← key spec "capabilities";
  let lines := emit_c entries
    (λ name bit, ln ("#define ZIGOS_CAP_" +:+ upper name +:+ " (UINT64_C(1) << " +:+ str bit +:+ ")")) lines in
  let lines := lines ++ [ln ""] in
  entries ← key spec "syscalls";
  let lines := emit_c entries
    (λ name value, ln ("#define ZIGOS_SYS_" +:+ upper name +:+ " UINT64_C(" +:+ str value +:+ ")")) lines in
  let lines := lines ++ [ln ""] in
  entries ← key spec "errno";
  let lines := emit_c entries
    (λ name value, ln ("#define ZIGOS_ERRNO_" +:+ upper name +:+ " INT64_C(" +:+ str value +:+ ")")) lines in
  Ok lines.

(** The types the header declares, up to the end of the [ZIGOS_ABI_H] block. *)
Definition c_types : list string := [
  ln "#define ZIGOS_OPEN_READ (UINT64_C(1) << 0)";
  ln "#define ZIGOS_OPEN_WRITE (UINT64_C(1) << 1)";
  ln "#define ZIGOS_OPEN_CREATE (UINT64_C(1) << 2)";
  ln "#define ZIGOS_OPEN_TRUNCATE (UINT64_C(1) << 3)";
  ln "#define ZIGOS_OPEN_APPEND (UINT64_C(1) << 4)";
  ln "#define ZIGOS_OPEN_CLOSE_ON_EXEC (UINT64_C(1) << 5)";
  ln "#define ZIGOS_PROT_READ (UINT64_C(1) << 0)";
  ln "#define ZIGOS_PROT_WRITE (UINT64_C(1) << 1)";
  ln "#define ZIGOS_PROT_EXECUTE (UINT64_C(1) << 2)";
  ln "#define ZIGOS_MAP_PRIVATE (UINT64_C(1) << 0)";
  ln "#define ZIGOS_MAP_ANONYMOUS (UINT64_C(1) << 1)";
  ln "#define ZIGOS_MAP_FIXED (UINT64_C(1) << 2)";
  ln "#define ZIGOS_MAP_FIXED_NO_REPLACE (UINT64_C(1) << 3)";
  ln "#define ZIGOS_MAP_SHARED (UINT64_C(1) << 4)";
  ln "#define ZIGOS_POLL_READABLE (UINT16_C(1) << 0)";
  ln "#define ZIGOS_POLL_WRITABLE (UINT16_C(1) << 1)";
  ln "#define ZIGOS_POLL_ERROR (UINT16_C(1) << 2)";
  ln (ln "#define ZIGOS_POLL_HANGUP (UINT16_C(1) << 3)");
  ln "typedef struct zigos_abi_info {";
  ln "    uint32_t magic; uint16_t size; uint16_t major; uint16_t minor; uint16_t reserved0;";
  ln "    uint32_t page_size; uint16_t syscall_base; uint16_t syscall_count; uint32_t reserved1;";
  ln "    uint64_t capabilities; uint64_t user_base; uint64_t user_end;";
  ln "    uint32_t maximum_io_bytes; uint32_t maximum_path_bytes;";
  ln "    uint16_t maximum_processes; uint16_t maximum_descriptors; uint16_t maximum_sockets; uint16_t reserved2;";
  ln (ln "} zigos_abi_info;");
  ln "typedef struct zigos_stat {";
  ln "    uint32_t node; uint16_t generation; uint8_t kind; uint8_t readonly;";
  ln "    uint16_t mode; uint8_t mount_id; uint8_t link_count; uint64_t size; uint64_t modified_tick;";
  ln (ln "} zigos_stat;");
  ln "typedef struct zigos_file_times {";
  ln "    uint64_t created_tick; uint64_t modified_tick; uint64_t changed_tick; uint64_t accessed_tick;";
  ln (ln "} zigos_file_times;");
  ln (ln "typedef struct zigos_file_owner { uint32_t uid; uint32_t gid; } zigos_file_owner;");
  ln "typedef struct zigos_filesystem_stat {";
  ln "    uint64_t block_size; uint64_t total_blocks; uint64_t free_blocks; uint64_t available_blocks;";
  ln "    uint64_t total_nodes; uint64_t free_nodes; uint32_t mount_id; uint16_t filesystem_kind; uint16_t flags; uint64_t reserved;";
  ln (ln "} zigos_filesystem_stat;");
  ln "typedef struct zigos_poll_descriptor {";
  ln "    uint16_t fd; uint16_t requested; uint16_t returned; uint16_t reserved;";
  ln (ln "} zigos_poll_descriptor;");
  ln "typedef struct zigos_directory_event {";
  ln "    uint64_t sequence; uint32_t node; uint16_t generation; uint8_t kind; uint8_t flags;";
  ln "    uint16_t name_length; uint8_t reserved0[6]; uint8_t name[32]; uint8_t reserved1[8];";
  ln (ln "} zigos_directory_event;");
  ln (ln "typedef struct zigos_iovec { uint64_t pointer; uint64_t length; } zigos_iovec;");
  ln (ln "typedef struct zigos_auxv_entry { uint64_t kind; uint64_t value; } zigos_auxv_entry;");
  ln (ln "typedef struct zigos_ipv4_socket_address { uint16_t family; uint16_t port_be; uint32_t address_be; } zigos_ipv4_socket_address;");
  ln ("_Static_assert(sizeof(zigos_abi_info) == 64, " +:+ dq +:+ "zigos_abi_info layout" +:+ dq +:+ ");");
  ln ("_Static_assert(sizeof(zigos_stat) == 32, " +:+ dq +:+ "zigos_stat layout" +:+ dq +:+ ");");
  ln ("_Static_assert(sizeof(zigos_file_times) == 32, " +:+ dq +:+ "zigos_file_times layout" +:+ dq +:+ ");");
  ln ("_Static_assert(sizeof(zigos_file_owner) == 8, " +:+ dq +:+ "zigos_file_owner layout" +:+ dq +:+ ");");
  ln ("_Static_assert(sizeof(zigos_filesystem_stat) == 64, " +:+ dq +:+ "zigos_filesystem_stat layout" +:+
      dq +:+ ");");
  ln ("_Static_assert(sizeof(zigos_poll_descriptor) == 8, " +:+ dq +:+ "zigos_poll_descriptor layout" +:+
      dq +:+ ");");
  ln ("_Static_assert(sizeof(zigos_directory_event) == 64, " +:+ dq +:+ "zigos_directory_event layout" +:+
      dq +:+ ");");
  ln ("_Static_assert(sizeof(zigos_iovec) == 16, " +:+ dq +:+ "zigos_iovec layout" +:+ dq +:+ ");");
  ln (ln ("_Static_assert(sizeof(zigos_ipv4_socket_address) == 8, " +:+ dq +:+
      "zigos_ipv4_socket_address layout" +:+ dq +:+ ");"));
  ln (ln "#endif /* ZIGOS_ABI_H */")].

(** The wrappers the header declares after it. *)
Definition c_functions : list string := [
  ln ("#ifdef __cplusplus" +:+ nl +:+ "extern " +:+ dq +:+ "C" +:+ dq +:+ " {" +:+ nl +:+ "#endif");
  ln "uint64_t zigos_syscall6(uint64_t number, uint64_t a1, uint64_t a2, uint64_t a3, uint64_t a4, uint64_t a5, uint64_t a6);";
  ln "int64_t zigos_exit(uint32_t status);";
  ln "int64_t zigos_write(uint16_t fd, const void *bytes, size_t length);";
  ln "int64_t zigos_read(uint16_t fd, void *bytes, size_t length);";
  ln "int64_t zigos_readv(uint16_t fd, const zigos_iovec *vectors, size_t count);";
  ln "int64_t zigos_writev(uint16_t fd, const zigos_iovec *vectors, size_t count);";
  ln "int64_t zigos_close(uint16_t fd);";
  ln "int64_t zigos_socket(uint16_t domain, uint16_t type, uint16_t protocol);";
  ln "int64_t zigos_bind(uint16_t fd, const zigos_ipv4_socket_address *address);";
  ln "int64_t zigos_connect(uint16_t fd, const zigos_ipv4_socket_address *address);";
  ln "int64_t zigos_listen(uint16_t fd, uint16_t backlog);";
  ln "int64_t zigos_accept(uint16_t fd, zigos_ipv4_socket_address *address);";
  ln "int64_t zigos_socket_shutdown(uint16_t fd, uint64_t how);";
  ln "int64_t zigos_getsockopt(uint16_t fd, uint64_t level, uint64_t option);";
  ln "int64_t zigos_setsockopt(uint16_t fd, uint64_t level, uint64_t option, uint64_t value);";
  ln "int64_t zigos_getsockname(uint16_t fd, zigos_ipv4_socket_address *address);";
  ln "int64_t zigos_getpeername(uint16_t fd, zigos_ipv4_socket_address *address);";
  ln "int64_t zigos_open(const char *path, uint64_t flags, uint16_t mode);";
  ln "int64_t zigos_openat(int64_t directory_fd, const char *path, uint64_t flags, uint16_t mode);";
  ln "int64_t zigos_fstat(uint16_t fd, zigos_stat *info);";
  ln "int64_t zigos_stat_path(const char *path, zigos_stat *info);";
  ln "int64_t zigos_stattimes(const char *path, zigos_file_times *times);";
  ln "int64_t zigos_statowner(const char *path, zigos_file_owner *owner);";
  ln "int64_t zigos_statfs(const char *path, zigos_filesystem_stat *info);";
  ln "int64_t zigos_umask(uint16_t mask);";
  ln "int64_t zigos_flock(uint16_t fd, uint64_t operation);";
  ln "int64_t zigos_lockrange(uint16_t fd, uint64_t start, uint64_t length, uint64_t operation);";
  ln "int64_t zigos_watchdir(uint16_t directory_fd);";
  ln "int64_t zigos_kill(uint32_t pid, uint8_t signal);";
  ln "int64_t zigos_fscheck(void);";
  ln "int64_t zigos_ioctl(uint16_t fd, uint64_t request, uint64_t argument);";
  ln "int64_t zigos_fsync(uint16_t fd);";
  ln "int64_t zigos_fdatasync(uint16_t fd);";
  ln "int64_t zigos_mount(const char *source, const char *target, const char *filesystem, uint64_t flags, const void *data);";
  ln "int64_t zigos_umount(const char *target, uint64_t flags);";
  ln "int64_t zigos_fallocate(uint16_t fd, uint64_t mode, uint64_t offset, uint64_t length);";
  ln "int64_t zigos_mmap_file(uint64_t address, size_t length, uint64_t protection, uint64_t flags, uint16_t fd, uint64_t offset);";
  ln "int64_t zigos_munmap(const void *address, size_t length);";
  ln "int64_t zigos_symlink(const char *target, const char *path);";
  ln "int64_t zigos_readlink(const char *path, void *bytes, size_t length);";
  ln "int64_t zigos_link(const char *old_path, const char *new_path);";
  ln "int64_t zigos_abi_query(zigos_abi_info *info);";
  ln "uint32_t zigos_main(size_t argc, const uintptr_t *argv, const uintptr_t *envp, const zigos_auxv_entry *auxv);";
  ln ("#ifdef __cplusplus" +:+ nl +:+ "}" +:+ nl +:+ "#endif" +:+ nl +:+ nl +:+ "#endif")].

Definition generate_c_lines (spec : document) : result (list string) :=
  lines ← generate_c_head spec;
  lines ← generate_c_groups spec lines;
  Ok (lines ++ c_types ++ c_functions).

Definition generate_c (spec : document) : result string :=
  lines ← generate_c_lines spec;
  Ok (join lines).

Definition start_marker : string := ln ("#ifndef ZIGOS_ABI_H" +:+ nl +:+ "#define ZIGOS_ABI_H").
Definition end_marker : string := ln "#endif /* ZIGOS_ABI_H */".

Definition generate_c_abi_description (spec : document) : result string :=
  full ← generate_c spec;
  let start := find full start_marker 0 in
  let stop := find full end_marker start in
  raise_if ((start <? 0) || (stop <? 0)) (ValueError "generated C ABI description markers missing");;
  let abi_block := String.substring (Z.to_nat start) (Z.to_nat (stop - start)) full in
  Ok ((ln "/* Generated by scripts/generate-abi.py from abi/zigos-abi.json. Do not edit. */") +:+
      abi_block +:+
      (ln ("#ifdef __cplusplus" +:+ nl +:+ "extern " +:+ dq +:+ "C" +:+ dq +:+ " {" +:+ nl +:+ "#endif")) +:+
      (ln "uint32_t zigos_main(size_t argc, const uintptr_t *argv, const uintptr_t *envp, const zigos_auxv_entry *auxv);") +:+
      (ln (ln ("#ifdef __cplusplus" +:+ nl +:+ "}" +:+ nl +:+ "#endif"))) +:+
      end_marker).

(** ** The files *)

Definition files := gmap string string.

(** [path.read_text] translates line ends. *)
Fixpoint universal_newlines (s : string) : string :=
  match s with
  | EmptyString => EmptyString
  | String c s' =>
      if Ascii.eqb c (Ascii.ascii_of_nat 13) then
        String (Ascii.ascii_of_nat 10)
          match s' with
          | String c' s'' =>
              if Ascii.eqb c' (Ascii.ascii_of_nat 10) then universal_newlines s'' else universal_newlines s'
          | EmptyString => EmptyString
          end
      else String c (universal_newlines s')
  end.

Definition write_or_check (fs : files) (path content : string) (check : bool) : result files :=
  if check then
    raise_if (match fs !! path with Some text => negb (String.eqb (universal_newlines text) content) | None => true end)
      (SystemExit "generated ABI file is stale: {path}");;
    Ok fs
  else Ok (<[path := content]> fs).

(** [main] on the parsed specification. *)
Definition main (spec : document) (fs : files) (check : bool) : result files :=
  '(zig, nasm, sdk) ← generate spec;
  c_header ← generate_c spec;
  c_abi_description ← generate_c_abi_description spec;
  fs ← write_or_check fs "src/generated/runtime_abi_constants.zig" zig check;
  fs ← write_or_check fs "src/user/zigos_abi.inc" nasm check;
  fs ← write_or_check fs "sdk/zig/abi.zig" sdk check;
  fs ← write_or_check fs "sdk/c/include/zigos.h" c_header check;
  write_or_check fs "sdk/c/include/zigos_abi.h" c_abi_description check.

(** ** What the generator promises *)

(** How a group's constants are declared in each language: the prefixes, the
    types, and whether the value is the constant or the bit that is set. *)
Inductive shape := plain | shift.
Record row := Row {
  group : string; zig_prefix : string; zig_type : string; nasm_prefix : string; c_prefix : string;
  c_macro : string; row_shape : shape
}.

Definition rows_1 : list row :=
  [ Row "auxiliary_vector" "aux_" "u64" "ZIGOS_AUX_" "ZIGOS_AUX_" "UINT64_C" plain;
    Row "seek_whence" "seek_" "u64" "ZIGOS_SEEK_" "ZIGOS_SEEK_" "UINT64_C" plain;
    Row "message_flags" "message_" "u64" "ZIGOS_MSG_" "ZIGOS_MSG_" "UINT64_C" plain;
    Row "socket_shutdown" "socket_shutdown_" "u64" "ZIGOS_SOCKET_SHUTDOWN_" "ZIGOS_SOCKET_SHUTDOWN_" "UINT64_C" plain;
    Row "socket_option_levels" "socket_option_level_" "u64" "ZIGOS_SOL_" "ZIGOS_SOL_" "UINT64_C" plain;
    Row "socket_options" "socket_option_" "u64" "ZIGOS_SO_" "ZIGOS_SO_" "UINT64_C" plain ].
Definition rows_2 : list row :=
  [ Row "spawn_flags" "spawn_" "u16" "ZIGOS_SPAWN_" "ZIGOS_SPAWN_" "UINT16_C" shift;
    Row "spawn_io" "spawn_io_" "u16" "ZIGOS_SPAWN_IO_" "ZIGOS_SPAWN_IO_" "UINT16_C" plain;
    Row "wait_flags" "wait_" "u64" "ZIGOS_WAIT_" "ZIGOS_WAIT_" "UINT64_C" shift;
    Row "directory_fds" "directory_fd_" "i64" "ZIGOS_AT_" "ZIGOS_AT_" "INT64_C" plain;
    Row "ioctl_requests" "ioctl_" "u64" "ZIGOS_IOCTL_" "ZIGOS_IOCTL_" "UINT64_C" plain;
    Row "tty_flags" "tty_" "u64" "ZIGOS_TTY_" "ZIGOS_TTY_" "UINT64_C" shift;
    Row "fallocate_flags" "fallocate_" "u64" "ZIGOS_FALLOCATE_" "ZIGOS_FALLOCATE_" "UINT64_C" shift;
    Row "mount_flags" "mount_" "u64" "ZIGOS_MOUNT_" "ZIGOS_MOUNT_" "UINT64_C" shift;
    Row "filesystem_types" "filesystem_type_" "u16" "ZIGOS_FS_TYPE_" "ZIGOS_FS_TYPE_" "UINT16_C" plain;
    Row "filesystem_stat_flags" "filesystem_stat_" "u16" "ZIGOS_FS_STAT_" "ZIGOS_FS_STAT_" "UINT16_C" shift;
    Row "flock_operations" "flock_" "u64" "ZIGOS_LOCK_" "ZIGOS_LOCK_" "UINT64_C" plain;
    Row "directory_event_flags" "directory_event_" "u8" "ZIGOS_DIRECTORY_EVENT_" "ZIGOS_DIRECTORY_EVENT_"
        "UINT8_C" shift ].
Definition rows_3 : list row :=
  [ Row "capabilities" "capability_" "u64" "ZIGOS_CAP_" "ZIGOS_CAP_" "UINT64_C" shift;
    Row "syscalls" "syscall_" "u64" "SYS_" "ZIGOS_SYS_" "UINT64_C" plain;
    Row "errno" "errno_" "i64" "ERRNO_" "ZIGOS_ERRNO_" "INT64_C" plain ].
Definition rows : list row := rows_1 ++ rows_2 ++ rows_3.

Definition zig_text (r : row) (name : string) (value : Z) : string :=
  "pub const " +:+ zig_prefix r +:+ name +:+ ": " +:+ zig_type r +:+ " = " +:+
  match row_shape r with
  | plain => str value +:+ ";"
  | shift => "@as(" +:+ zig_type r +:+ ", 1) << " +:+ str value +:+ ";"
  end.
Definition nasm_text (r : row) (name : string) (value : Z) : string :=
  "%define " +:+ nasm_prefix r +:+ upper name +:+ " " +:+
  match row_shape r with plain => str value | shift => "(1 << " +:+ str value +:+ ")" end.
Definition c_text (r : row) (name : string) (value : Z) : string :=
  "#define " +:+ c_prefix r +:+ upper name +:+ " " +:+
  match row_shape r with
  | plain => c_macro r +:+ "(" +:+ str value +:+ ")"
  | shift => "(" +:+ c_macro r +:+ "(1) << " +:+ str value +:+ ")"
  end.

(** The constants with names of their own, of the groups [abi] and [limits]: the Zig name
    and type, and the names in NASM and - with the macro - in C, where the constant is
    declared there. *)
Record constant := Constant {
  key_group : string; key_name : string; in_hex : bool; zig_head : string; nasm_name : option string;
  c_name : option (string * string)
}.

Definition constants : list constant :=
  [ Constant "abi" "magic" true "abi_magic: u32" (Some "ZIGOS_ABI_MAGIC") (Some ("ZIGOS_ABI_MAGIC", "UINT32_C"));
    Constant "abi" "major" false "abi_major: u16" (Some "ZIGOS_ABI_MAJOR") (Some ("ZIGOS_ABI_MAJOR", "UINT16_C"));
    Constant "abi" "minor" false "abi_minor: u16" (Some "ZIGOS_ABI_MINOR") (Some ("ZIGOS_ABI_MINOR", "UINT16_C"));
    Constant "abi" "page_size" false "abi_page_size: u32" (Some "ZIGOS_PAGE_SIZE") (Some ("ZIGOS_PAGE_SIZE", "UINT32_C"));
    Constant "abi" "syscall_base" false "syscall_base: u16" None (Some ("ZIGOS_SYSCALL_BASE", "UINT16_C"));
    Constant "limits" "arguments" false "maximum_arguments: usize" (Some "ZIGOS_MAX_ARGUMENTS") None;
    Constant "limits" "argument_bytes" false "maximum_argument_bytes: usize" (Some "ZIGOS_MAX_ARGUMENT_BYTES") None;
    Constant "limits" "environment" false "maximum_environment: usize" (Some "ZIGOS_MAX_ENVIRONMENT") None;
    Constant "limits" "environment_bytes" false "maximum_environment_bytes: usize" (Some "ZIGOS_MAX_ENVIRONMENT_BYTES") None;
    Constant "limits" "iovecs" false "maximum_iovecs: usize" (Some "ZIGOS_MAX_IOVECS") (Some ("ZIGOS_MAX_IOVECS", "UINT64_C")) ].

Definition shown (k : constant) (value : Z) : string := if in_hex k then "0x" +:+ hex8 value else str value.
Definition constant_zig (k : constant) (value : Z) : string := "pub const " +:+ zig_head k +:+ " = " +:+ shown k value +:+ ";".
Definition constant_nasm (name : string) (k : constant) (value : Z) : string := "%define " +:+ name +:+ " " +:+ shown k value.
Definition constant_c (name macro : string) (k : constant) (value : Z) : string :=
  "#define " +:+ name +:+ " " +:+ macro +:+ "(" +:+ shown k value +:+ ")".

(** [text] has [l] as one of its lines. *)
Definition has_line (text l : string) : Prop :=
  ∃ pre post, text = pre +:+ ln l +:+ post ∧ (pre = "" ∨ ∃ p, pre = p +:+ nl).

Lemma sapp_cons a s t : String a s +:+ t = String a (s +:+ t).
Proof. reflexivity. Qed.
Lemma sapp_assoc s t u : (s +:+ t) +:+ u = s +:+ t +:+ u.
Proof. induction s as [|a s IH]; [done|]. by rewrite !sapp_cons, IH. Qed.
Lemma sapp_nil s : s +:+ "" = s.
Proof. induction s as [|a s IH]; [done|]. by rewrite sapp_cons, IH. Qed.

Definition ended (s : string) : Prop := ∃ t, s = t +:+ nl.

Lemma join_app l k : join (l ++ k) = join l +:+ join k.
Proof. induction l as [|s l IH]; simpl; [done|]. by rewrite IH, sapp_assoc. Qed.

Lemma join_ended lines : Forall ended lines → join lines = "" ∨ ended (join lines).
Proof.
  induction 1 as [|s lines [t ->] _ [IH|[u IH]]]; [by left|right..]; simpl; rewrite IH.
  - exists t. by rewrite sapp_nil.
  - exists (t +:+ nl +:+ u). by rewrite !sapp_assoc.
Qed.

Lemma has_line_join lines l : Forall ended lines → ln l ∈ lines → has_line (join lines) l.
Proof.
  intros H (l1 & l2 & ->)%list_elem_of_split. exists (join l1), (join l2).
  rewrite join_app. simpl. split; [done|]. apply join_ended. by apply Forall_app in H as [? _].
Qed.

Lemma ended_ln s : ended (ln s).
Proof. by exists s. Qed.

Lemma emit_zig_here e f g out l a : a ∈ e → l = f a.1 a.2 → l ∈ (emit e f g out).1.
Proof. intros Ha ->. apply elem_of_app. right. apply list_elem_of_fmap. by exists a; destruct a. Qed.
Lemma emit_nasm_here e f g out l a : a ∈ e → l = g a.1 a.2 → l ∈ (emit e f g out).2.
Proof. intros Ha ->. apply elem_of_app. right. apply list_elem_of_fmap. by exists a; destruct a. Qed.
Lemma emit_c_here e f lines l a : a ∈ e → l = f a.1 a.2 → l ∈ emit_c e f lines.
Proof. intros Ha ->. apply elem_of_app. right. apply list_elem_of_fmap. by exists a; destruct a. Qed.
Lemma emit_zig_keep e f g out l : l ∈ out.1 → l ∈ (emit e f g out).1.
Proof. intros. apply elem_of_app. by left. Qed.
Lemma emit_nasm_keep e f g out l : l ∈ out.2 → l ∈ (emit e f g out).2.
Proof. intros. apply elem_of_app. by left. Qed.
Lemma emit_c_keep e f lines l : l ∈ lines → l ∈ emit_c e f lines.
Proof. intros. apply elem_of_app. by left. Qed.

Lemma key_optional spec name e : key spec name = Ok e → optional spec name = e.
Proof. unfold key, optional. destruct (assoc spec name); [by intros [= ->]|done]. Qed.

(** Finds an entry's line in the lists the loops build. *)
Ltac find_line :=
  first [ assumption
        | eapply emit_zig_here; [eassumption|reflexivity] | eapply emit_nasm_here; [eassumption|reflexivity]
        | eapply emit_c_here; [eassumption|reflexivity]
        | apply emit_zig_keep; find_line | apply emit_nasm_keep; find_line | apply emit_c_keep; find_line
        | cbn [fst snd]; apply elem_of_app; left; find_line ].

(** The same key has one value. *)
Ltac same_key :=
  repeat match goal with H1 : key ?d ?n = Ok _, H2 : key ?d ?n = Ok _ |- _ => rewrite H1 in H2; injection H2 as <- end.

(** Finds a line in an explicit list, up to the way its text is put together. *)
Ltac pick_line :=
  cbn [fst snd app]; solve [repeat first [apply list_elem_of_here|apply list_elem_of_further]].

Lemma generate_head_lines spec out k e value :
  generate_head spec = Ok out → k ∈ constants → key spec (key_group k) = Ok e → key e (key_name k) = Ok value →
  ln (constant_zig k value) ∈ out.1 ∧ ∀ n, nasm_name k = Some n → ln (constant_nasm n k value) ∈ out.2.
Proof.
  unfold generate_head. intros H Hk He Hv.
  apply bind_Ok_inv in H as (abi & Habi & H). do 5 (apply bind_Ok_inv in H as (? & ? & H)).
  apply bind_Ok_inv in H as (limits & Hlimits & H). do 5 (apply bind_Ok_inv in H as (? & ? & H)). apply (inj Ok) in H as <-.
  unfold constants in Hk. repeat (apply elem_of_cons in Hk as [->|Hk];
    [cbn [key_group key_name nasm_name] in *; same_key; split; [pick_line|first [done|intros ? [= <-]; pick_line]]|]).
  by apply not_elem_of_nil in Hk.
Qed.

Lemma generate_c_head_lines spec lines k e value :
  generate_c_head spec = Ok lines → k ∈ constants → key spec (key_group k) = Ok e → key e (key_name k) = Ok value →
  ∀ n m, c_name k = Some (n, m) → ln (constant_c n m k value) ∈ lines.
Proof.
  unfold generate_c_head. intros H Hk He Hv. repeat (apply bind_Ok_inv in H as (? & ? & H)). apply (inj Ok) in H as <-.
  unfold constants in Hk. repeat (apply elem_of_cons in Hk as [->|Hk];
    [cbn [key_group key_name c_name] in *; same_key; first [done|intros ? ? [= <- <-]; pick_line]|]).
  by apply not_elem_of_nil in Hk.
Qed.

Lemma generate_groups_1_lines spec out out' :
  generate_groups_1 spec out = Ok out' →
  (∀ l, l ∈ out.1 → l ∈ out'.1) ∧ (∀ l, l ∈ out.2 → l ∈ out'.2) ∧
  (∀ r name value, r ∈ rows_1 → (name, value) ∈ optional spec (group r) →
     ln (zig_text r name value) ∈ out'.1 ∧ ln (nasm_text r name value) ∈ out'.2).
Proof.
  unfold generate_groups_1. intros H.
  do 3 (apply bind_Ok_inv in H as (? & <-%key_optional & H)). apply (inj Ok) in H as <-.
  split_and!; [intros l Hl; find_line..|]. intros r name value Hr He.
  repeat (apply elem_of_cons in Hr as [->|Hr]; [split; find_line|]). by apply not_elem_of_nil in Hr.
Qed.

Lemma generate_groups_2_lines spec out out' :
  generate_groups_2 spec out = Ok out' →
  (∀ l, l ∈ out.1 → l ∈ out'.1) ∧ (∀ l, l ∈ out.2 → l ∈ out'.2) ∧
  (∀ r name value, r ∈ rows_2 → (name, value) ∈ optional spec (group r) →
     ln (zig_text r name value) ∈ out'.1 ∧ ln (nasm_text r name value) ∈ out'.2).
Proof.
  unfold generate_groups_2. intros H. apply (inj Ok) in H as <-.
  split_and!; [intros l Hl; find_line..|]. intros r name value Hr He.
  repeat (apply elem_of_cons in Hr as [->|Hr]; [split; find_line|]). by apply not_elem_of_nil in Hr.
Qed.

Lemma generate_group_lines spec out :
  ∀ out', foldM (generate_group spec) out ["capabilities"; "syscalls"; "errno"] = Ok out' →
  (∀ l, l ∈ out.1 → l ∈ out'.1) ∧ (∀ l, l ∈ out.2 → l ∈ out'.2) ∧
  (∀ r name value, r ∈ rows_3 → (name, value) ∈ optional spec (group r) →
     ln (zig_text r name value) ∈ out'.1 ∧ ln (nasm_text r name value) ∈ out'.2).
Proof.
  intros out' H. cbn [foldM] in H. unfold generate_group in H.
  do 3 (apply bind_Ok_inv in H as (? & (? & <-%key_optional & <-%(inj Ok))%bind_Ok_inv & H)).
  apply (inj Ok) in H as <-.
  split_and!; [intros l Hl; find_line..|]. intros r name value Hr He.
  repeat (apply elem_of_cons in Hr as [->|Hr]; [split; find_line|]). by apply not_elem_of_nil in Hr.
Qed.

Lemma generate_c_groups_lines spec lines lines' :
  generate_c_groups spec lines = Ok lines' →
  ∀ r name value, r ∈ rows → (name, value) ∈ optional spec (group r) → ln (c_text r name value) ∈ lines'.
Proof.
  unfold generate_c_groups. intros H.
  do 6 (apply bind_Ok_inv in H as (? & <-%key_optional & H)). apply (inj Ok) in H as <-.
  intros r name value Hr He. unfold rows, rows_1, rows_2, rows_3 in Hr. cbn [app] in Hr.
  repeat (apply elem_of_cons in Hr as [->|Hr]; [find_line|]). by apply not_elem_of_nil in Hr.
Qed.

Lemma generate_c_groups_keep spec lines lines' :
  generate_c_groups spec lines = Ok lines' → ∀ l, l ∈ lines → l ∈ lines'.
Proof.
  unfold generate_c_groups. intros H.
  do 6 (apply bind_Ok_inv in H as (? & _ & H)). apply (inj Ok) in H as <-. intros l Hl. find_line.
Qed.

(** ** Every line is ended *)

Lemma emit_zig_ended e f g out :
  Forall ended out.1 → (∀ n v, ended (f n v)) → Forall ended (emit e f g out).1.
Proof. intros. apply Forall_app. split; [done|]. apply Forall_fmap, Forall_true. intros []. simpl. auto. Qed.
Lemma emit_nasm_ended e f g out :
  Forall ended out.2 → (∀ n v, ended (g n v)) → Forall ended (emit e f g out).2.
Proof. intros. apply Forall_app. split; [done|]. apply Forall_fmap, Forall_true. intros []. simpl. auto. Qed.
Lemma emit_c_ended e f lines :
  Forall ended lines → (∀ n v, ended (f n v)) → Forall ended (emit_c e f lines).
Proof. intros. apply Forall_app. split; [done|]. apply Forall_fmap, Forall_true. intros []. simpl. auto. Qed.

(** Closes [Forall ended] on the lists of the generator. *)
Ltac all_ended :=
  solve [ repeat first
    [ assumption
    | apply emit_zig_ended | apply emit_nasm_ended | apply emit_c_ended
    | (intros ? ?; apply ended_ln)
    | (cbn [fst snd]; apply Forall_app; split)
    | (apply Forall_cons_2; [apply ended_ln|]) | apply Forall_nil_2 ] ].

Lemma group_ended g name value : ended (group_zig g name value) ∧ ended (group_nasm g name value).
Proof. unfold group_zig, group_nasm. split; destruct (String.eqb g "capabilities"), (String.eqb g "syscalls"); apply ended_ln. Qed.

Lemma generate_lines_ended spec zig nasm sdk :
  generate_lines spec = Ok (zig, nasm, sdk) → Forall ended zig ∧ Forall ended nasm ∧ Forall ended sdk.
Proof.
  unfold generate_lines. intros H.
  apply bind_Ok_inv in H as (o1 & H1 & H). apply bind_Ok_inv in H as (o2 & H2 & H).
  apply bind_Ok_inv in H as (o3 & H3 & H). apply bind_Ok_inv in H as (o4 & H4 & H).
  apply bind_Ok_inv in H as (e & _ & H). apply bind_Ok_inv in H as (count & _ & [= <- <- <-]).
  assert (Forall ended o1.1 ∧ Forall ended o1.2) as [].
  { clear -H1. unfold generate_head in H1.
    repeat (apply bind_Ok_inv in H1 as (? & _ & H1)). apply (inj Ok) in H1 as <-. split; all_ended. }
  assert (Forall ended o2.1 ∧ Forall ended o2.2) as [].
  { clear -H2 H H0. unfold generate_groups_1 in H2.
    repeat (apply bind_Ok_inv in H2 as (? & _ & H2)). apply (inj Ok) in H2 as <-. split; all_ended. }
  assert (Forall ended o3.1 ∧ Forall ended o3.2) as [].
  { clear -H3 H5 H6. unfold generate_groups_2 in H3. apply (inj Ok) in H3 as <-. split; all_ended. }
  assert (Forall ended o4.1 ∧ Forall ended o4.2) as [].
  { clear -H4 H7 H8. revert H4. apply (foldM_inv (λ o : list string * list string, Forall ended o.1 ∧ Forall ended o.2)); [|done].
    intros o g o' _ [] Hg. unfold generate_group in Hg. apply bind_Ok_inv in Hg as (e & _ & [= <-]).
    split; [apply emit_zig_ended|apply emit_nasm_ended]; try all_ended; intros; apply group_ended. }
  assert (Forall ended sdk_lines) by (unfold sdk_lines; all_ended).
  split_and!; all_ended.
Qed.

Lemma generate_c_lines_ended spec lines : generate_c_lines spec = Ok lines → Forall ended lines.
Proof.
  unfold generate_c_lines. intros H.
  apply bind_Ok_inv in H as (l1 & H1 & H). apply bind_Ok_inv in H as (l2 & H2 & [= <-]).
  assert (Forall ended l1).
  { unfold generate_c_head in H1. repeat (apply bind_Ok_inv in H1 as (? & _ & H1)).
    apply (inj Ok) in H1 as <-. all_ended. }
  assert (Forall ended l2).
  { unfold generate_c_groups in H2. repeat (apply bind_Ok_inv in H2 as (? & _ & H2)).
    apply (inj Ok) in H2 as <-. all_ended. }
  assert (Forall ended c_types) by (unfold c_types; all_ended).
  assert (Forall ended c_functions) by (unfold c_functions; all_ended). all_ended.
Qed.

Lemma has_line_blank_first lines s l : Forall ended lines → ln (nl +:+ l) ∈ lines → s = join lines → has_line s l.
Proof.
  intros H (l1 & l2 & ->)%list_elem_of_split ->. exists (join l1 +:+ nl), (join l2).
  rewrite join_app. simpl. split; [unfold ln; by rewrite !sapp_assoc|]. right. by exists (join l1).
Qed.

(** (C27) The four languages agree.  When the files are generated: every constant of the
    twenty-one groups of [rows] - the auxiliary vector, seek, message, socket, spawn, wait,
    directory, ioctl, tty, allocation, mount, file system and lock groups, the
    capabilities, the system calls and the error numbers - is declared on a line of its
    own in the Zig file, the NASM include, the SDK file and the C header, under its group's
    prefix and with the same value - or the same bit - in each; so is the number of
    system calls, the distance from the least to the greatest plus one; and the ten
    constants of the groups [abi] and [limits], which have names of their own, are
    declared with their value in both Zig files, and in the NASM include and the C header
    where [constants] names them - the NASM include has no system call base, the C header
    no limits but that of the I/O vectors. *)
Theorem constants_agree spec zig nasm sdk c :
  generate spec = Ok (zig, nasm, sdk) → generate_c spec = Ok c →
  (∀ r name value, r ∈ rows → (name, value) ∈ optional spec (group r) →
     has_line zig (zig_text r name value) ∧ has_line nasm (nasm_text r name value) ∧
     has_line sdk (zig_text r name value) ∧ has_line c (c_text r name value)) ∧
  (∀ k e value, k ∈ constants → key spec (key_group k) = Ok e → key e (key_name k) = Ok value →
     has_line zig (constant_zig k value) ∧ has_line sdk (constant_zig k value) ∧
     (∀ n, nasm_name k = Some n → has_line nasm (constant_nasm n k value)) ∧
     ∀ n m, c_name k = Some (n, m) → has_line c (constant_c n m k value)) ∧
  ∃ e count, key spec "syscalls" = Ok e ∧ value_count e = Ok count ∧
    has_line zig ("pub const syscall_count: u16 = " +:+ str count +:+ ";") ∧
    has_line sdk ("pub const syscall_count: u16 = " +:+ str count +:+ ";") ∧
    has_line nasm ("%define ZIGOS_SYSCALL_COUNT " +:+ str count) ∧
    has_line c ("#define ZIGOS_SYSCALL_COUNT UINT16_C(" +:+ str count +:+ ")").
Proof.
  intros H Hc. apply bind_Ok_inv in H as ([[zl nl'] sl] & H & [= <- <- <-]).
  apply bind_Ok_inv in Hc as (cl & Hc & [= <-]).
  destruct (generate_lines_ended _ _ _ _ H) as (Ez & En & Es). pose proof (generate_c_lines_ended _ _ Hc) as Ec.
  unfold generate_lines in H. apply bind_Ok_inv in H as (o1 & H1 & H). apply bind_Ok_inv in H as (o2 & H2 & H).
  apply bind_Ok_inv in H as (o3 & H3 & H). apply bind_Ok_inv in H as (o4 & H4 & H).
  apply bind_Ok_inv in H as (e & He & H). apply bind_Ok_inv in H as (count & Hn & [= <- <- <-]).
  unfold generate_c_lines in Hc. apply bind_Ok_inv in Hc as (c1 & Hc1 & Hc). apply bind_Ok_inv in Hc as (c2 & Hc2 & [= <-]).
  destruct (generate_groups_1_lines _ _ _ H2) as (Z1 & N1 & R1).
  destruct (generate_groups_2_lines _ _ _ H3) as (Z2 & N2 & R2).
  destruct (generate_group_lines _ _ _ H4) as (Z3 & N3 & R3).
  pose proof (generate_c_groups_keep _ _ _ Hc2) as Kc.
  assert (∀ l, l ∈ o4.1 → l ∈ (o4.1 ++ [ln (nl +:+ "pub const syscall_count: u16 = " +:+ str count +:+ ";")]) ++ sdk_lines) as Ks
    by (intros l ?; rewrite !elem_of_app; auto).
  split; [|split].
  - intros r name value Hr Hin.
    assert (ln (zig_text r name value) ∈ o4.1 ∧ ln (nasm_text r name value) ∈ o4.2) as [Hz Hm].
    { unfold rows in Hr. rewrite !elem_of_app in Hr.
      destruct Hr as [Hr|[Hr|Hr]]; [destruct (R1 r name value Hr Hin)|destruct (R2 r name value Hr Hin)|]; auto. }
    split_and!; apply has_line_join; try done; try (by apply elem_of_app; left); [by apply Ks|].
    apply elem_of_app. left. by eapply generate_c_groups_lines.
  - intros k entries value Hk Hg Hv. destruct (generate_head_lines _ _ _ _ _ H1 Hk Hg Hv) as [Hz Hm].
    pose proof (generate_c_head_lines _ _ _ _ _ Hc1 Hk Hg Hv) as Hcl.
    split; [apply has_line_join; [done|apply elem_of_app; left; auto]|].
    split; [apply has_line_join; [done|apply Ks; auto]|]. split.
    + intros n Hnn. apply has_line_join; [done|]. apply elem_of_app. left. auto.
    + intros n m Hnm. apply has_line_join; [done|]. apply elem_of_app. left. auto.
  - exists e, count. split; [done|]. split; [done|].
    split; [eapply has_line_blank_first; [exact Ez|by apply elem_of_app; right; left|done]|].
    split; [eapply has_line_blank_first; [exact Es|by rewrite !elem_of_app; left; right; left|done]|].
    split; [eapply has_line_blank_first; [exact En|by apply elem_of_app; right; left|done]|].
    apply has_line_join; [done|]. apply elem_of_app. left. apply Kc. clear -Hc1 He Hn. unfold generate_c_head in Hc1.
    repeat (apply bind_Ok_inv in Hc1 as (? & ? & Hc1)). apply (inj Ok) in Hc1 as <-.
    same_key. match goal with H1 : value_count ?l = Ok _, H2 : value_count ?l = Ok _ |- _ => rewrite H1 in H2; injection H2 as <- end.
    pick_line.
Qed.

(** ** When generation succeeds *)

Definition has_keys {A} (d : list (string * A)) (names : list string) : Prop :=
  Forall (λ name, ∃ a, key d name = Ok a) names.

(** The keys the script looks up without a default. *)
Definition complete (spec : document) : Prop :=
  (∃ abi, key spec "abi" = Ok abi ∧ has_keys abi ["magic"; "major"; "minor"; "page_size"; "syscall_base"]) ∧
  (∃ limits, key spec "limits" = Ok limits ∧
     has_keys limits ["arguments"; "argument_bytes"; "environment"; "environment_bytes"; "iovecs"]) ∧
  has_keys spec ["auxiliary_vector"; "seek_whence"; "message_flags"; "capabilities"; "syscalls"; "errno"] ∧
  key spec "syscalls" ≠ Ok [].

Lemma value_count_iff e : (∃ n, value_count e = Ok n) ↔ e ≠ [].
Proof. unfold value_count. destruct e as [|[s v] e]; simpl; [split; [by intros []|done]|split; [done|by eexists]]. Qed.

Lemma generate_complete spec out : generate spec = Ok out → complete spec.
Proof.
  unfold generate, generate_lines. intros (o & H & _)%bind_Ok_inv.
  apply bind_Ok_inv in H as (o1 & G1 & H). apply bind_Ok_inv in H as (o2 & G2 & H).
  apply bind_Ok_inv in H as (o3 & _ & H). apply bind_Ok_inv in H as (o4 & G4 & H).
  apply bind_Ok_inv in H as (e & He & H). apply bind_Ok_inv in H as (count & Hn & _).
  unfold generate_head in G1. repeat (apply bind_Ok_inv in G1 as (? & ? & G1)).
  unfold generate_groups_1 in G2. repeat (apply bind_Ok_inv in G2 as (? & ? & G2)).
  cbn [foldM] in G4. unfold generate_group in G4.
  do 3 (apply bind_Ok_inv in G4 as (? & (? & ? & _)%bind_Ok_inv & G4)).
  split; [|split; [|split]].
  - eexists. split; [eassumption|]. repeat constructor; eauto.
  - eexists. split; [eassumption|]. repeat constructor; eauto.
  - repeat constructor; eauto.
  - rewrite He. intros [= ->]. by destruct (proj1 (value_count_iff []) (ex_intro _ _ Hn)).
Qed.

Ltac rewrite_key :=
  match goal with H : key ?d ?k = Ok ?v |- context [@key ?A ?d ?k] => rewrite (H : @key A d k = Ok v) end.

Lemma complete_generates spec :
  complete spec → ∃ zig nasm sdk c, generate spec = Ok (zig, nasm, sdk) ∧ generate_c spec = Ok c.
Proof.
  intros ((abi & Ha & Hak) & (limits & Hl & Hlk) & Hk & Hs).
  unfold has_keys in *. repeat match goal with H : Forall _ (_ :: _) |- _ => apply Forall_cons in H as [[? ?] ?] end.
  match goal with H : key spec "syscalls" = Ok ?e |- _ =>
    assert (∃ n, value_count e = Ok n) as [n Hn] by (apply value_count_iff; intros ->; by apply Hs) end.
  unfold generate, generate_lines, generate_c, generate_c_lines.
  assert (∃ o, generate_head spec = Ok o) as [o1 ->].
  { unfold generate_head. repeat first [rewrite bind_ok|rewrite_key]. by eexists. }
  assert (∃ o, generate_c_head spec = Ok o) as [c1 ->].
  { unfold generate_c_head.
    repeat first [rewrite bind_ok|rewrite_key|rewrite Hn]. by eexists. }
  rewrite !bind_ok.
  assert (∃ o, generate_groups_1 spec o1 = Ok o) as [o2 ->].
  { unfold generate_groups_1. repeat first [rewrite bind_ok|rewrite_key]. by eexists. }
  assert (∃ o, generate_c_groups spec c1 = Ok o) as [c2 ->].
  { unfold generate_c_groups. repeat first [rewrite bind_ok|rewrite_key]. by eexists. }
  rewrite !bind_ok. unfold generate_groups_2 at 1. rewrite bind_ok. cbn [foldM]. unfold generate_group.
  repeat first [rewrite bind_ok|rewrite_key|rewrite Hn]. repeat eexists.
Qed.

(** ** The C ABI description *)

Lemma slength_app s t : String.length (s +:+ t) = (String.length s + String.length t)%nat.
Proof. induction s as [|a s IH]; [done|]. rewrite sapp_cons. simpl. by rewrite IH. Qed.

Lemma substring_skip s t n : String.substring (String.length s) n (s +:+ t) = String.substring 0 n t.
Proof. induction s as [|a s IH]; [done|]. rewrite sapp_cons. simpl. exact IH. Qed.

Lemma substring_skip_add s t k n :
  String.substring (String.length s + k) n (s +:+ t) = String.substring k n t.
Proof. induction s as [|a s IH]; [done|]. rewrite sapp_cons. simpl. exact IH. Qed.

Lemma substring_nil n s : String.substring n 0 s = "".
Proof. revert n. induction s as [|a s IH]; intros [|n]; simpl; auto. Qed.

Lemma substring_add n a b s :
  String.substring n (a + b) s = String.substring n a s +:+ String.substring (n + a) b s.
Proof.
  revert n a. induction s as [|c s IH]; intros [|n] [|a]; try done.
  - simpl. by rewrite sapp_cons, IH.
  - simpl. by rewrite substring_nil, Nat.add_0_r.
  - exact (IH n (S a)).
Qed.

Lemma substring_full t u : String.substring 0 (String.length t) (t +:+ u) = t.
Proof. induction t as [|a t IH]; [apply substring_nil|]. rewrite sapp_cons. simpl. by rewrite IH. Qed.

Lemma substring_all s : String.substring 0 (String.length s) s = s.
Proof. rewrite <-(sapp_nil s) at 2. apply substring_full. Qed.

(** A position splits a string. *)
Lemma substring_cut n s :
  (n ≤ String.length s)%nat →
  s = String.substring 0 n s +:+ String.substring n (String.length s - n) s.
Proof.
  revert n. induction s as [|a s IH]; intros [|n] H; simpl in *; try lia; try done.
  - by rewrite substring_all.
  - rewrite sapp_cons. f_equal. apply IH. lia.
Qed.

Lemma length_substring n m s :
  (n + m ≤ String.length s)%nat → String.length (String.substring n m s) = m.
Proof.
  revert n m. induction s as [|a s IH]; intros [|n] [|m] H; simpl in *; try lia; try done.
  - by rewrite (IH O m) by lia.
  - rewrite IH; lia.
  - rewrite IH; lia.
Qed.

Lemma index_ge n sub s m : String.index n sub s = Some m → (n ≤ m)%nat.
Proof.
  revert n m. induction s as [|a s IH]; intros [|n] m H; simpl in H; try lia; try discriminate.
  destruct (String.index n sub s) as [k|] eqn:E; [|discriminate]. injection H as <-. apply IH in E. lia.
Qed.

(** [str.find] finds a string that occurs, and no later than it occurs. *)
Lemma find_occurs pre sub post start :
  sub ≠ "" → 0 ≤ start ≤ Z.of_nat (String.length pre) →
  let s := pre +:+ sub +:+ post in
  start ≤ find s sub start ≤ Z.of_nat (String.length pre) ∧
  String.substring (Z.to_nat (find s sub start)) (String.length sub) s = sub.
Proof.
  intros Hs Hb s. unfold find. rewrite (proj2 (Z.ltb_ge start 0)) by lia.
  destruct (String.index (Z.to_nat start) sub s) as [i|] eqn:E.
  - rewrite Nat2Z.id. split; [|by eapply String.index_correct1]. pose proof (index_ge _ _ _ _ E).
    split; [lia|]. destruct (decide (i ≤ String.length pre)%nat); [lia|].
    destruct (String.index_correct2 _ _ _ _ E (String.length pre)); [lia..|].
    unfold s. by rewrite substring_skip, substring_full.
  - destruct (String.index_correct3 _ (String.length pre) _ _ E Hs); [lia|].
    unfold s. by rewrite substring_skip, substring_full.
Qed.

#[local] Opaque c_types c_functions.

(** The lines of [zigos.h] before its [ZIGOS_ABI_H] guard. *)
Definition c_opening : string :=
  ln "/* Generated by scripts/generate-abi.py from abi/zigos-abi.json. Do not edit. */" +:+
  ln (ln ("#ifndef ZIGOS_H" +:+ nl +:+ "#define ZIGOS_H")).

Lemma generate_c_shape spec full :
  generate_c spec = Ok full → ∃ middle post, full = c_opening +:+ start_marker +:+ middle +:+ end_marker +:+ post.
Proof.
  unfold generate_c, generate_c_lines. intros (lines & H & [= <-])%bind_Ok_inv.
  apply bind_Ok_inv in H as (l1 & H1 & H). apply bind_Ok_inv in H as (l2 & H2 & <-%(inj Ok)).
  unfold generate_c_head in H1. repeat (apply bind_Ok_inv in H1 as (? & _ & H1)). apply (inj Ok) in H1 as <-.
  assert (∃ k, l2 = ln "/* Generated by scripts/generate-abi.py from abi/zigos-abi.json. Do not edit. */" ::
    ln (ln ("#ifndef ZIGOS_H" +:+ nl +:+ "#define ZIGOS_H")) ::
    ln (ln ("#ifndef ZIGOS_ABI_H" +:+ nl +:+ "#define ZIGOS_ABI_H")) :: k) as (k & ->).
  { unfold generate_c_groups in H2. repeat (apply bind_Ok_inv in H2 as (? & _ & H2)). apply (inj Ok) in H2 as <-.
    unfold emit_c. rewrite <-!app_assoc. cbn [app]. by eexists. }
  assert (∃ p, join c_types = p +:+ end_marker +:+ nl) as (p & Hp).
  { exists (join (removelast c_types)). vm_compute. reflexivity. }
  rewrite !join_app, Hp. cbn [join].
  exists (nl +:+ join k +:+ p), (nl +:+ join c_functions).
  unfold c_opening, start_marker, ln. rewrite !sapp_assoc. reflexivity.
Qed.

(** The text of the header-only description. *)
Definition description_of (block : string) : string :=
  ln "/* Generated by scripts/generate-abi.py from abi/zigos-abi.json. Do not edit. */" +:+ block +:+
  ln ("#ifdef __cplusplus" +:+ nl +:+ "extern " +:+ dq +:+ "C" +:+ dq +:+ " {" +:+ nl +:+ "#endif") +:+
  ln "uint32_t zigos_main(size_t argc, const uintptr_t *argv, const uintptr_t *envp, const zigos_auxv_entry *auxv);" +:+
  ln (ln ("#ifdef __cplusplus" +:+ nl +:+ "}" +:+ nl +:+ "#endif")) +:+ end_marker.

Lemma description_shape spec full :
  generate_c spec = Ok full →
  ∃ block post, full = c_opening +:+ block +:+ end_marker +:+ post ∧
    generate_c_abi_description spec = Ok (description_of block).
Proof.
  intros H. destruct (generate_c_shape _ _ H) as (middle & post & E).
  assert (find full start_marker 0 = Z.of_nat (String.length c_opening)) as Estart.
  { rewrite E. unfold find. change (Z.to_nat (if 0 <? 0 then Z.max 0 _ else 0)) with O.
    generalize (middle +:+ end_marker +:+ post). intros [|a r]; reflexivity. }
  set (start := find full start_marker 0) in *.
  destruct (find_occurs (c_opening +:+ start_marker +:+ middle) end_marker post start) as [Hb Hsub];
    [done|rewrite !slength_app; lia|].
  rewrite !sapp_assoc, <-E in Hb, Hsub. set (stop := find full end_marker start) in *. rewrite slength_app in Hb.
  assert (Z.to_nat stop + String.length end_marker ≤ String.length full)%nat as Hlen
    by (rewrite E, !slength_app; rewrite slength_app in Hb; lia).
  set (block := String.substring (Z.to_nat start) (Z.to_nat (stop - start)) full).
  exists block, (String.substring (Z.to_nat (stop - start) + String.length end_marker)
    (String.length (start_marker +:+ middle +:+ end_marker +:+ post) -
     (Z.to_nat (stop - start) + String.length end_marker)) (start_marker +:+ middle +:+ end_marker +:+ post)).
  set (rest := start_marker +:+ middle +:+ end_marker +:+ post) in *. clearbody rest.
  set (k := Z.to_nat (stop - start)) in *.
  assert (Z.to_nat start = (String.length c_opening + 0)%nat) as Es by lia.
  assert (Z.to_nat stop = (String.length c_opening + k)%nat) as Et by lia.
  unfold block. rewrite Es. rewrite Et in Hsub, Hlen. rewrite E in Hsub, Hlen |- *.
  rewrite substring_skip_add in Hsub |- *. rewrite slength_app in Hlen.
  split.
  - f_equal. set (n := String.length end_marker) in *.
    assert (rest = String.substring 0 k rest +:+ String.substring k n rest +:+
      String.substring (k + n) (String.length rest - (k + n)) rest) as R; [|by rewrite Hsub in R].
    rewrite <-(substring_add k n), <-(substring_add 0 k).
    replace (k + (n + (String.length rest - (k + n))))%nat with (String.length rest) by lia.
    by rewrite substring_all.
  - unfold generate_c_abi_description. rewrite H, bind_ok. cbv zeta. fold start. fold stop.
    rewrite (proj2 (Z.ltb_ge start 0)), (proj2 (Z.ltb_ge stop 0)) by lia. cbn [orb raise_if]. rewrite bind_ok.
    fold k. rewrite Es, E, substring_skip_add. reflexivity.
Qed.

(** The header-only C description always exists when the C header does - the
    markers are never missing, whatever the specification - and its ABI block is
    the text of [zigos.h] from its [ZIGOS_ABI_H] guard up to an end marker. *)
Theorem c_description_total spec full :
  generate_c spec = Ok full →
  ∃ block post, full = c_opening +:+ block +:+ end_marker +:+ post ∧
    generate_c_abi_description spec = Ok (description_of block).
Proof. apply description_shape. Qed.

(** ** Writing and checking the files *)

(** The files of a specification with their contents, in the order of [main]. *)
Definition outputs (spec : document) : result (list (string * string)) :=
  '(zig, nasm, sdk) ← generate spec;
  c_header ← generate_c spec;
  c_abi_description ← generate_c_abi_description spec;
  Ok [("src/generated/runtime_abi_constants.zig", zig); ("src/user/zigos_abi.inc", nasm);
      ("sdk/zig/abi.zig", sdk); ("sdk/c/include/zigos.h", c_header);
      ("sdk/c/include/zigos_abi.h", c_abi_description)].

Lemma main_outputs spec fs check :
  main spec fs check =
  (outs ← outputs spec; foldM (λ fs '(path, content), write_or_check fs path content check) fs outs).
Proof.
  unfold main, outputs. destruct (generate spec) as [[[zig nasm] sdk]|]; [|done]. rewrite !bind_ok.
  destruct (generate_c spec); [|done]. rewrite !bind_ok.
  destruct (generate_c_abi_description spec); [|done]. rewrite !bind_ok. cbn [foldM].
  do 4 (destruct (write_or_check _ _ _ _); [rewrite !bind_ok|done]). by destruct (write_or_check _ _ _ _).
Qed.

Lemma complete_outputs spec : complete spec ↔ ∃ outs, outputs spec = Ok outs.
Proof.
  split.
  - intros (zig & nasm & sdk & c & Hg & Hc)%complete_generates.
    destruct (description_shape _ _ Hc) as (block & post & _ & Hd).
    unfold outputs. rewrite Hg, bind_ok, Hc, bind_ok, Hd. by eexists.
  - intros (outs & H). unfold outputs in H. apply bind_Ok_inv in H as (o & H & _). by eapply generate_complete.
Qed.

Definition up_to_date (fs : files) (o : string * string) : Prop :=
  ∃ text, fs !! o.1 = Some text ∧ universal_newlines text = o.2.

Lemma check_iff fs path content fs' :
  write_or_check fs path content true = Ok fs' ↔ fs' = fs ∧ up_to_date fs (path, content).
Proof.
  unfold write_or_check. rewrite guard_iff. unfold up_to_date. cbn [fst snd].
  destruct (fs !! path) as [text|]; [|by split; [intros [? ?]|intros [_ (? & ? & _)]]]. rewrite negb_false_iff, String.eqb_eq.
  split; [intros [E [= <-]]; split; [done|by exists text]|intros [-> (t & [= <-] & E)]; done].
Qed.

Lemma checks_iff fs outs fs' :
  foldM (λ fs '(path, content), write_or_check fs path content true) fs outs = Ok fs' ↔
  fs' = fs ∧ Forall (up_to_date fs) outs.
Proof.
  revert fs. induction outs as [|[path content] outs IH]; intros fs; cbn [foldM].
  - split; [intros [= <-]; by split|by intros [-> _]].
  - rewrite Forall_cons. split.
    + intros (fs1 & [-> H1]%check_iff & H)%bind_Ok_inv. apply IH in H as [-> H]. done.
    + intros (-> & H1 & H). rewrite (proj2 (check_iff _ _ _ fs)), bind_ok by done. by apply IH.
Qed.

Lemma writes_lookup outs fs fs' p c :
  foldM (λ fs '(path, content), write_or_check fs path content false) fs outs = Ok fs' →
  NoDup outs.*1 → (p, c) ∈ outs → fs' !! p = Some c.
Proof.
  assert (∀ outs fs fs' p, foldM (λ fs '(path, content), write_or_check fs path content false) fs outs = Ok fs' →
    p ∉ outs.*1 → fs' !! p = fs !! p) as Hkeep.
  { clear. induction outs as [|[path content] outs IH]; intros fs fs' p H Hp; cbn [foldM] in H; [by injection H as <-|].
    cbn in H. apply not_elem_of_cons in Hp as [Hne Hp]. rewrite (IH _ _ _ H Hp). by apply lookup_insert_ne. }
  revert fs. induction outs as [|[path content] outs IH]; intros fs H Hn Hin; [by apply elem_of_nil in Hin|].
  cbn [foldM] in H. cbn in H. apply NoDup_cons in Hn as [Hp Hn]. apply elem_of_cons in Hin as [[= -> ->]|Hin].
  - rewrite (Hkeep outs _ fs' path H Hp). apply lookup_insert_eq.
  - by apply (IH _ H Hn Hin).
Qed.

(** (C32) Generation and the [--check] mode.  Generation succeeds exactly for
    specifications with all the keys the script looks up and at least one system
    call; checking succeeds exactly when every generated file exists and reads,
    line ends translated, as what would be generated, and changes no file; and
    files just generated, where their texts have no carriage returns, pass the check. *)
Theorem generate_check spec fs fs' outs :
  ((∃ fs', main spec fs false = Ok fs') ↔ complete spec) ∧
  (main spec fs true = Ok fs' ↔
    fs' = fs ∧ ∃ outs, outputs spec = Ok outs ∧ Forall (up_to_date fs) outs) ∧
  (outputs spec = Ok outs → Forall (λ o, universal_newlines o.2 = o.2) outs →
    main spec fs false = Ok fs' → main spec fs' true = Ok fs').
Proof.
  rewrite !main_outputs. split_and!.
  - rewrite complete_outputs. split.
    + intros (f & (o & H & _)%bind_Ok_inv). by exists o.
    + intros (o & ->). rewrite bind_ok. clear. revert fs.
      induction o as [|[p c] o IH]; intros fs; [by eexists|]. apply IH.
  - destruct (outputs spec) as [o|e]; [rewrite bind_ok, checks_iff|split; [done|by intros [_ (? & ? & _)]]].
    split; [intros [-> H]; eauto|intros [-> (o' & [= <-] & H)]; done].
  - intros Ho Hcr. rewrite Ho, !bind_ok. intros H. apply checks_iff. split; [done|].
    assert (NoDup outs.*1) as Hn.
    { unfold outputs in Ho. apply bind_Ok_inv in Ho as ([[? ?] ?] & _ & Ho).
      apply bind_Ok_inv in Ho as (? & _ & Ho). apply bind_Ok_inv in Ho as (? & _ & [= <-]).
      cbn. apply (bool_decide_unpack _). vm_compute. exact I. }
    rewrite Forall_forall in Hcr |- *. intros [p c] Hin. exists c.
    split; [by eapply writes_lookup|]. exact (Hcr _ Hin).
Qed.

(** A small specification: one system call, no optional group but a wait flag. *)
Definition example_spec : document :=
  [("abi", [("magic", 0x5A49474F); ("major", 1); ("minor", 14); ("page_size", 4096); ("syscall_base", 64)]);
   ("capabilities", [("files", 0)]); ("syscalls", [("exit", 64); ("wait_child", 66)]); ("errno", [("inval", -22)]);
   ("limits", [("arguments", 8); ("argument_bytes", 256); ("environment", 8); ("environment_bytes", 512);
               ("iovecs", 16)]);
   ("auxiliary_vector", [("null", 0)]); ("seek_whence", [("set", 0)]); ("message_flags", [("dontwait", 64)]);
   ("wait_flags", [("no_hang", 0)])].

Lemma constants_agree_witness : ∃ zig nasm sdk c,
  generate example_spec = Ok (zig, nasm, sdk) ∧ generate_c example_spec = Ok c ∧
  has_line zig "pub const wait_no_hang: u64 = @as(u64, 1) << 0;" ∧
  has_line nasm "%define ZIGOS_WAIT_NO_HANG (1 << 0)" ∧
  has_line sdk "pub const wait_no_hang: u64 = @as(u64, 1) << 0;" ∧
  has_line c "#define ZIGOS_WAIT_NO_HANG (UINT64_C(1) << 0)" ∧
  has_line nasm "%define ZIGOS_ABI_MAGIC 0x5A49474F".
Proof.
  destruct (generate example_spec) as [[[zig nasm] sdk]|] eqn:Hg; [|vm_compute in Hg; discriminate Hg].
  destruct (generate_c example_spec) as [c|] eqn:Hc; [|vm_compute in Hc; discriminate Hc].
  destruct (constants_agree _ _ _ _ _ Hg Hc) as (Hr & Hk & _).
  exists zig, nasm, sdk, c. split; [done|]. split; [done|].
  destruct (Hr (Row "wait_flags" "wait_" "u64" "ZIGOS_WAIT_" "ZIGOS_WAIT_" "UINT64_C" shift) "no_hang" 0) as (? & ? & ? & ?).
  - unfold rows, rows_2. apply elem_of_app. right. apply elem_of_app. left. do 2 right. by left.
  - by left.
  - do 4 (split; [assumption|]).
    exact (proj1 (proj2 (proj2 (Hk (Constant "abi" "magic" true "abi_magic: u32" (Some "ZIGOS_ABI_MAGIC")
      (Some ("ZIGOS_ABI_MAGIC", "UINT32_C"))) _ 0x5A49474F (list_elem_of_here _ _) eq_refl eq_refl))) _ eq_refl).
Defined.

Lemma c_description_total_witness : ∃ block, generate_c_abi_description example_spec = Ok (description_of block).
Proof.
  destruct (generate_c example_spec) as [full|] eqn:Hc; [|vm_compute in Hc; discriminate Hc].
  destruct (c_description_total _ _ Hc) as (block & post & _ & H). by exists block.
Defined.

(** Its outputs have no carriage returns. *)
Lemma example_outputs :
  match outputs example_spec with
  | Ok outs => forallb (λ o, String.eqb (universal_newlines o.2) o.2) outs
  | Err _ => false
  end = true.
Proof. vm_compute. reflexivity. Qed.

Lemma example_complete : complete example_spec.
Proof.
  split; [|split; [|split]]; [eexists; split; [reflexivity|]..| |by vm_compute];
    repeat constructor; eexists; reflexivity.
Qed.

Lemma generate_check_witness : ∃ fs', main example_spec ∅ false = Ok fs' ∧ main example_spec fs' true = Ok fs'.
Proof.
  destruct (proj2 (proj1 (generate_check example_spec ∅ ∅ [])) example_complete) as (fs' & Hm).
  pose proof example_outputs as Ho. destruct (outputs example_spec) as [outs|] eqn:E; [|discriminate Ho].
  exists fs'. split; [exact Hm|]. apply (generate_check example_spec ∅ fs' outs); [exact E| |exact Hm].
  apply Forall_forall. intros o Hin. rewrite forallb_forall in Ho.
  apply String.eqb_eq, Ho, list_elem_of_In, Hin.
Defined.

End AbiGen.
