(* ===== verification/BuildAssets.v ===== *)
(** * The asset pipeline

    [build-assets.py]: the data of the twelve permanent-runtime programs, and [main] -
    the ABI generator and its check, the assembler, the three ELF64 creators and their
    verifiers, the copies under [src/generated] and the manifest of sizes and hashes.

    The repository is the map [texts] of the files of the ABI generator and the map
    [files] of the binary ones, by path.  NASM is a parameter: what it makes of a source
    file in a repository, [None] when it fails.  The creators and verifiers run as
    processes, whose exceptions end [main] with their exit code. *)

From S2P Require Import Prelude PyBytes PyHash Elf64 UserElfs AbiGen.
From stdpp Require Import pretty.

#[local] Open Scope Z_scope.

Module BuildAssets.

(** ** The data of the runtime programs *)

(** [for offset, value in fields.items(): data[offset : offset + len(value)] = value] *)
Definition set_fields (data : bytes) (fields : list (Z * bytes)) : bytes :=
  foldl (λ data '(offset, value), set_slice data offset (offset + len value) value) data fields.

(** [for index in range(n): data[base + index] = (index * a + b) & 0xFF] *)
Definition set_pattern (data : bytes) (base n a b : Z) : result bytes :=
  foldM (λ data index, set_item data (base + index) (Z.land (index * a + b) 0xFF)) data (range 0 n).

Definition CRLF : bytes := [13; 10].

Definition wait_fields : list (Z * bytes) :=
    [(0, B "wait-api: start" ++ CRLF);
     (32, B "wait-api: concurrent wait-any ordering passed" ++ CRLF);
     (128, B "/bin/runtime-sleep.elf");
     (160, B "/bin/wait-short.elf")].
Definition runtime_wait_data : result bytes := Ok (set_fields (zeros 280) wait_fields).

Definition tty_fields : list (Z * bytes) :=
    [(0, B "tty-api: start" ++ CRLF);
     (64, B "tty-api: blocking read/poll/line discipline passed" ++ CRLF)].
Definition runtime_tty_data : result bytes := Ok (set_fields (zeros 512) tty_fields).

Definition socket_fields : list (Z * bytes) :=
    [(0, B "socket-api: start" ++ CRLF);
     (64, B "socket-api: UDP partial-send + TCP connect/listen/accept/shutdown + sockopt + txwake passed" ++ CRLF);
     (160, B "UDP-CPL3");
     (192, [0x5A; 0x5A; 0x01; 0x00; 0x00; 0x01; 0x00; 0x00; 0x00; 0x00; 0x00; 0x00; 0x09; 0x6C; 0x6F; 0x63; 0x61;
            0x6C; 0x68; 0x6F; 0x73; 0x74; 0x00; 0x00; 0x01; 0x00; 0x01])].
Definition runtime_socket_data : result bytes :=
  let data := set_fields (zeros 4096) socket_fields in
  data ← set_pattern data 1024 1476 3 7;
  set_pattern data 3072 1024 5 11.

Definition io_fields : list (Z * bytes) :=
    [(0, B "io-api: start" ++ CRLF);
     (64, B "io-api: open/read/fstat/getdents/poll passed" ++ CRLF);
     (160, B "/proc/version" ++ [0]);
     (192, B "/bin" ++ [0]);
     (224, B "/dev/zero" ++ [0])].
Definition runtime_io_data : result bytes := Ok (set_fields (zeros 2048) io_fields).

Definition vm_fields : list (Z * bytes) :=
    [(0, B "vm-api: start" ++ CRLF);
     (64, B "vm-api: ABI/mmap/mprotect/munmap/brk passed" ++ CRLF)].
Definition runtime_vm_data : result bytes := Ok (set_fields (zeros 512) vm_fields).

Definition runtime_program_data : result (list (string * bytes)) :=
  wait ← runtime_wait_data;
  vm ← runtime_vm_data;
  io ← runtime_io_data;
  tty ← runtime_tty_data;
  socket ← runtime_socket_data;
  Ok [("hello", B "hello from VFS-loaded CPL3 ELF64" ++ CRLF);
      ("sleep", B "sleep: before" ++ CRLF ++ zeros 17 ++ B "sleep: after" ++ CRLF);
      ("wait-short", B "wait-any short child");
      ("crash", B "crash: real page fault follows" ++ CRLF);
      ("spin", B "runtime spin loop");
      ("pipe-reader", B "pipe reader data");
      ("pipe-writer", B "PIPE-CPL");
      ("wait", wait); ("vm", vm); ("io", io); ("tty", tty); ("socket", socket)].

(** ** The repository and the tools *)

Record repository := Repository { texts : AbiGen.files; files : gmap string bytes }.

Definition read_bytes (w : repository) (path : string) : result bytes :=
  match files w !! path with Some contents => Ok contents | None => Err (OSError "No such file or directory") end.
Definition write_bytes (w : repository) (path : string) (contents : bytes) : repository :=
  Repository (texts w) (<[path := contents]> (files w)).

(** [run(command, cwd)], whose [CalledProcessError] becomes the script's exit code. *)
Definition failed : exn := SystemExit "{error.returncode}".
Definition run {A} (m : result A) : result A := match m with Ok a => Ok a | Err _ => Err failed end.

(** [shutil.copyfile(source, destination)] *)
Definition copyfile (w : repository) (copy : string * string) : result repository :=
  contents ← read_bytes w copy.2;
  Ok (write_bytes w copy.1 contents).

(** The [main] of a creator that takes only a payload, and of a verifier. *)
Definition create (build : bytes → result bytes) (w : repository) (payload output : string) : result repository :=
  code ← read_bytes w payload;
  image ← build code;
  Ok (write_bytes w output image).
Definition check {A} (verify : bytes → result A) (w : repository) (path : string) : result A :=
  image ← read_bytes w path;
  verify image.

(** [create-runtime-user-elf.py]'s [main] *)
Definition create_runtime (w : repository) (code data output : string) : result repository :=
  code ← read_bytes w code;
  data ← read_bytes w data;
  image ← RuntimeElf.build code data;
  Ok (write_bytes w output image).

(** ** The paths *)

Definition code_path (name : string) : string := "build/runtime-" +:+ name +:+ ".bin".
Definition data_path (name : string) : string := "build/runtime-" +:+ name +:+ ".data".
Definition elf_path (name : string) : string := "build/runtime-" +:+ name +:+ ".elf".
Definition source_path (name : string) : string := "src/user/runtime-" +:+ name +:+ ".asm".

(** [runtime_elf.name.replace("-", "_")] *)
Fixpoint replace_dashes (s : string) : string :=
  match s with
  | EmptyString => EmptyString
  | String a s => String (if Ascii.eqb a "-"%char then "_"%char else a) (replace_dashes s)
  end.
Definition generated_path (name : string) : string := "src/generated/" +:+ replace_dashes ("runtime-" +:+ name +:+ ".elf").

(** ** [main] *)

Section Pipeline.
Context (nasm : repository → string → string → option bytes).

Definition assemble (w : repository) (format source output : string) : result repository :=
  match nasm w format source with
  | Some contents => Ok (write_bytes w output contents)
  | None => Err failed
  end.

(** The body of the loop over the runtime programs. *)
Definition build_program (w : repository) (program : string * bytes) : result repository :=
  let '(name, data) := program in
  let w := write_bytes w (data_path name) data in
  w ← assemble w "bin" (source_path name) (code_path name);
  w ← run (create_runtime w (code_path name) (data_path name) (elf_path name));
  _ ← run (check RuntimeElf.verify w (elf_path name));
  Ok w.

(** The service and process images. *)
Definition build_service (w : repository) : result repository :=
  w ← assemble w "bin" "src/user/service.asm" "build/service-user.bin";
  w ← run (create UserElf.build_elf w "build/service-user.bin" "build/service-user.elf");
  run (check UserElf.verify w "build/service-user.elf");;
  Ok w.

Definition build_process (w : repository) : result repository :=
  w ← assemble w "bin" "src/user/process.asm" "build/process-user.bin";
  w ← assemble w "bin" "src/user/process-exec.asm" "build/process-exec.bin";
  w ← run (create (λ code, ProcessElf.build code ProcessElf.main_kind) w "build/process-user.bin" "build/process-user.elf");
  w ← run (create (λ code, ProcessElf.build code ProcessElf.exec_kind) w "build/process-exec.bin" "build/process-exec.elf");
  run (check (λ image, ProcessElf.verify image ProcessElf.main_kind) w "build/process-user.elf");;
  run (check (λ image, ProcessElf.verify image ProcessElf.exec_kind) w "build/process-exec.elf");;
  Ok w.

Definition trampoline : string := "src/generated/ap_trampoline.bin".

Definition build_objects (w : repository) : result repository :=
  w ← assemble w "elf64" "sdk/zig/syscall.asm" "build/sdk/syscall.o";
  w ← assemble w "win64" "src/arch/x86_64/cpu.asm" "build/cpu.obj";
  w ← assemble w "bin" "src/arch/x86_64/ap_trampoline.asm" trampoline;
  contents ← read_bytes w trampoline;
  raise_if (negb (len contents =? 4096)) (SystemExit "AP trampoline must be exactly 4096 bytes, got {trampoline.stat().st_size}");;
  Ok w.

(** [embedded], destinations first. *)
Definition embedded (names : list string) : list (string * string) :=
  [("src/generated/service_user.elf", "build/service-user.elf");
   ("src/generated/process_user.elf", "build/process-user.elf");
   ("src/generated/process_exec.elf", "build/process-exec.elf")] ++
  ((λ name, (generated_path name, elf_path name)) <$> names).

Definition outputs (names : list string) : list string :=
  ["build/service-user.elf"; "build/process-user.elf"; "build/process-exec.elf"] ++
  (elf_path <$> names) ++ [trampoline] ++ (embedded names).*1.

End Pipeline.

(** ** The manifest *)

(** [json.dumps(manifest, indent=2, sort_keys=True)] and the line end: the paths in
    order, each with its size and SHA-256. *)
Fixpoint insert_sorted (path : string) (paths : list string) : list string :=
  match paths with
  | [] => [path]
  | p :: ps => match String.compare path p with Gt => p :: insert_sorted path ps | _ => path :: paths end
  end.
Definition sorted_paths (paths : list string) : list string := foldr insert_sorted [] paths.

Definition hex_lower_digit (d : Z) : Ascii.ascii := Ascii.ascii_of_N (Z.to_N (if d <? 10 then 48 + d else 87 + d)).
Fixpoint hex_lower (l : bytes) : string :=
  match l with
  | [] => ""
  | b :: l => String (hex_lower_digit (b / 16)) (String (hex_lower_digit (b mod 16)) (hex_lower l))
  end.

Definition quoted (s : string) : string := AbiGen.dq +:+ s +:+ AbiGen.dq.
Definition manifest_entry (path : string) (contents : bytes) : string :=
  "    " +:+ quoted path +:+ ": {" +:+ AbiGen.nl +:+
  "      " +:+ quoted "bytes" +:+ ": " +:+ AbiGen.str (len contents) +:+ "," +:+ AbiGen.nl +:+
  "      " +:+ quoted "sha256" +:+ ": " +:+ quoted (hex_lower (sha256 contents)) +:+ AbiGen.nl +:+
  "    }".

(** [",\n".join(entries)] *)
Fixpoint join_entries (entries : list string) : string :=
  match entries with
  | [] => ""
  | [e] => e
  | e :: es => e +:+ "," +:+ AbiGen.nl +:+ join_entries es
  end.

Definition manifest_text (entries : list string) : string :=
  "{" +:+ AbiGen.nl +:+ "  " +:+ quoted "outputs" +:+ ": {" +:+ AbiGen.nl +:+
  join_entries entries +:+ AbiGen.nl +:+ "  }," +:+ AbiGen.nl +:+ "  " +:+ quoted "schema" +:+ ": 2" +:+ AbiGen.nl +:+ "}" +:+ AbiGen.nl.

(** The loop over the outputs. *)
Fixpoint manifest_entries (w : repository) (paths : list string) : result (list string) :=
  match paths with
  | [] => Ok []
  | path :: paths =>
      contents ← read_bytes w path;
      entries ← manifest_entries w paths;
      Ok (manifest_entry path contents :: entries)
  end.

Definition manifest_path : string := "build/assets-manifest.json".

Definition write_manifest (w : repository) (outputs : list string) : result repository :=
  entries ← manifest_entries w (sorted_paths outputs);
  Ok (write_bytes w manifest_path (B (manifest_text entries))).

Definition main (nasm : repository → string → string → option bytes) (nasm_found : bool) (spec : AbiGen.document)
    (w : repository) : result repository :=
  raise_if (negb nasm_found) (SystemExit "required build tool not found in PATH: {name}");;
  texts ← run (AbiGen.main spec (texts w) false);
  texts ← run (AbiGen.main spec texts true);
  let w := Repository texts (files w) in
  programs ← runtime_program_data;
  w ← build_service nasm w;
  w ← build_process nasm w;
  w ← foldM (build_program nasm) w programs;
  w ← build_objects nasm w;
  w ← foldM copyfile w (embedded programs.*1);
  write_manifest w (outputs programs.*1).

(** ** The program table *)

Definition program_names : list string :=
  ["hello"; "sleep"; "wait-short"; "crash"; "spin"; "pipe-reader"; "pipe-writer"; "wait"; "vm"; "io"; "tty"; "socket"].
Definition declared_sizes : list Z := [34; 46; 20; 32; 17; 16; 8; 280; 512; 2048; 512; 4096].

(** The table as it comes out: the names, the sizes, and that every entry is a byte
    string. *)
Definition table_checks (m : result (list (string * bytes))) : bool :=
  match m with
  | Ok programs =>
      bool_decide (programs.*1 = program_names) && beq ((λ p, len p.2) <$> programs) declared_sizes &&
      forallb (λ p, bytes_okb p.2) programs
  | Err _ => false
  end.

Lemma table_checks_spec m : table_checks m = true →
  ∃ programs, m = Ok programs ∧ programs.*1 = program_names ∧ (λ p, len p.2) <$> programs = declared_sizes ∧
    Forall (λ p, bytes_ok p.2) programs.
Proof.
  destruct m as [programs|]; [|done]. unfold table_checks. rewrite !andb_true_iff, bool_decide_eq_true, beq_spec.
  intros [[Hn Hs] Hb]. exists programs. split_and!; try done. apply Forall_forall. intros p Hp. apply bytes_okb_spec.
  rewrite forallb_forall in Hb. by apply Hb, list_elem_of_In.
Qed.

Lemma table_checked : table_checks runtime_program_data = true.
Proof. vm_compute. reflexivity. Qed.

Lemma program_table : ∃ programs, runtime_program_data = Ok programs ∧ programs.*1 = program_names ∧
  (λ p, len p.2) <$> programs = declared_sizes ∧ Forall (λ p, bytes_ok p.2) programs.
Proof. exact (table_checks_spec _ table_checked). Qed.

Lemma table_fits programs p : runtime_program_data = Ok programs → p ∈ programs → len p.2 ≤ 4096.
Proof.
  intros H Hp. destruct program_table as (l & E & _ & Hs & _). rewrite E in H. injection H as ->.
  assert (Forall (λ n, n ≤ 4096) declared_sizes) as Hd by (repeat constructor; discriminate).
  rewrite <-Hs, Forall_fmap, Forall_forall in Hd. by apply (Hd p).
Qed.

(** A buffer of the declared size that holds every field where the script put it. *)
Definition holds_fields (size : Z) (fields : list (Z * bytes)) (data : bytes) : Prop :=
  bytes_ok data ∧ len data = size ∧ Forall (λ f, slice data f.1 (f.1 + len f.2) = f.2) fields.

Definition holds_fieldsb (size : Z) (fields : list (Z * bytes)) (m : result bytes) : bool :=
  match m with
  | Ok data => bytes_okb data && (len data =? size) && forallb (λ f, beq (slice data f.1 (f.1 + len f.2)) f.2) fields
  | Err _ => false
  end.

Lemma holds_fieldsb_spec size fields m : holds_fieldsb size fields m = true → ∃ data, m = Ok data ∧ holds_fields size fields data.
Proof.
  destruct m as [data|]; [|done]. unfold holds_fieldsb. rewrite !andb_true_iff, bytes_okb_spec, Z.eqb_eq.
  intros [[Ho Hl] H]. exists data. split; [done|]. split; [done|]. split; [done|]. apply Forall_forall. intros f Hf.
  rewrite forallb_forall in H. by apply beq_spec, H, list_elem_of_In.
Qed.

(** The payload patterns of the socket program. *)
Definition pattern (n a b : Z) : bytes := (λ i, (i * a + b) mod 256) <$> range 0 n.

(** The five buffers, as they come out: each of its declared size, with every field - and
    in the socket program's both patterns - at its offset. *)
Lemma runtime_data_holds :
  (∃ data, runtime_wait_data = Ok data ∧ holds_fields 280 wait_fields data) ∧
  (∃ data, runtime_tty_data = Ok data ∧ holds_fields 512 tty_fields data) ∧
  (∃ data, runtime_io_data = Ok data ∧ holds_fields 2048 io_fields data) ∧
  (∃ data, runtime_vm_data = Ok data ∧ holds_fields 512 vm_fields data) ∧
  ∃ data, runtime_socket_data = Ok data ∧
    holds_fields 4096 (socket_fields ++ [(1024, pattern 1476 3 7); (3072, pattern 1024 5 11)]) data.
Proof. split_and!; apply holds_fieldsb_spec; vm_compute; reflexivity. Qed.

(** *** Any table of fields *)









(** *** A pattern *)










(** ** One runtime program *)

Lemma lookup_write w path contents : files (write_bytes w path contents) !! path = Some contents.
Proof. apply lookup_insert_eq. Qed.
Lemma lookup_write_ne w path path' contents :
  path ≠ path' → files (write_bytes w path contents) !! path' = files w !! path'.
Proof. apply lookup_insert_ne. Qed.
Lemma read_Ok w path contents : read_bytes w path = Ok contents ↔ files w !! path = Some contents.
Proof. unfold read_bytes. destruct (files w !! path); naive_solver. Qed.

Definition program_paths (name : string) : list string := [data_path name; code_path name; elf_path name].

Lemma program_paths_differ name :
  data_path name ≠ code_path name ∧ data_path name ≠ elf_path name ∧ code_path name ≠ elf_path name.
Proof.
  unfold data_path, code_path, elf_path. split_and!; intros E; repeat apply (inj (String.append _)) in E; discriminate E.
Qed.

(** The files of a program that has been built. *)
Definition program_built (w : repository) (p : string * bytes) : Prop :=
  ∃ code image, files w !! code_path p.1 = Some code ∧ 0 < len code ≤ 4096 ∧
    files w !! data_path p.1 = Some p.2 ∧ files w !! elf_path p.1 = Some image ∧
    RuntimeElf.verify image = Ok (len code) ∧ slice image 0x1000 (0x1000 + len code) = code ∧
    slice image 0x2000 0x3000 = p.2 ++ zeros (4096 - len p.2).

(** ** What the loop does, step by step *)

(** The assembler's output for a program's source, in a repository that holds the
    program's data already. *)
Definition assembled (nasm : repository → string → string → option bytes) (w : repository) (p : string * bytes)
    : option bytes :=
  nasm (write_bytes w (data_path p.1) p.2) "bin" (source_path p.1).

(** An accepted image of [code] and [data]. *)
Definition image_of (code data image : bytes) : Prop :=
  0 < len code ≤ 4096 ∧ RuntimeElf.verify image = Ok (len code) ∧ slice image 0x1000 (0x1000 + len code) = code ∧
  slice image 0x2000 0x3000 = data ++ zeros (4096 - len data).

(** The three files of a program, written in this order. *)
Definition with_program (w : repository) (p : string * bytes) (code image : bytes) : repository :=
  write_bytes (write_bytes (write_bytes w (data_path p.1) p.2) (code_path p.1) code) (elf_path p.1) image.

(** The programs of [l] are built one after the other: each from what the assembler
    makes of its own source in the repository the previous one left. *)
Inductive programs_built (nasm : repository → string → string → option bytes)
    : repository → list (string * bytes) → repository → Prop :=
| none_built w : programs_built nasm w [] w
| next_built w p code image l w' :
    assembled nasm w p = Some code → image_of code p.2 image →
    programs_built nasm (with_program w p code image) l w' → programs_built nasm w (p :: l) w'.

(** The assembler failed on a program's source, or its output does not fit a page. *)
Definition source_rejected (nasm : repository → string → string → option bytes) (w : repository) (p : string * bytes) : Prop :=
  match assembled nasm w p with None => True | Some code => len code = 0 ∨ 4096 < len code end.

Lemma build_program_cases nasm w p :
  len p.2 ≤ 4096 →
  (∃ code image, assembled nasm w p = Some code ∧ image_of code p.2 image ∧ build_program nasm w p = Ok (with_program w p code image)) ∨
  (build_program nasm w p = Err failed ∧ source_rejected nasm w p).
Proof.
  destruct p as [name data]. unfold build_program, assemble, source_rejected, assembled, with_program. cbn [fst snd]. intros Hd.
  set (w1 := write_bytes w (data_path name) data). destruct (program_paths_differ name) as (D1 & D2 & D3).
  destruct (nasm w1 "bin" (source_path name)) as [code|] eqn:En; [|by right].
  rewrite bind_ok. set (w2 := write_bytes w1 (code_path name) code).
  assert (read_bytes w2 (code_path name) = Ok code) as Hc by (apply read_Ok, lookup_write).
  assert (read_bytes w2 (data_path name) = Ok data) as Hr.
  { apply read_Ok. unfold w2. rewrite lookup_write_ne by done. apply lookup_write. }
  unfold create_runtime. rewrite Hc, bind_ok, Hr, bind_ok.
  destruct (RuntimeElf.runtime_build_verifies code data) as (Hempty & _ & Hok).
  unfold RuntimeElf.PAGE_SIZE, RuntimeElf.DATA_FILE_SIZE, RuntimeElf.PAGE_SIZE in *.
  destruct (decide (0 < len code ≤ 4096)) as [Hl|Hl].
  2: { right. assert (len code = 0 ∨ 4096 < len code) as Hl' by (pose proof (len_nonneg code); lia). by rewrite Hempty. }
  left. destruct (Hok Hl Hd) as (image & -> & Hv & Hcode & Hdata). rewrite bind_ok. cbn [run]. rewrite bind_ok.
  unfold check. set (w3 := write_bytes w2 (elf_path name) image).
  assert (read_bytes w3 (elf_path name) = Ok image) as -> by (apply read_Ok, lookup_write).
  rewrite bind_ok, Hv. cbn [run]. rewrite bind_ok. by exists code, image.
Qed.

(** ** The loop *)

Definition all_paths (names : list string) : list string := names ≫= program_paths.

Lemma program_built_frame w w' p :
  program_built w p → (∀ path, path ∈ program_paths p.1 → files w' !! path = files w !! path) → program_built w' p.
Proof.
  intros (code & image & Hc & Hl & Hd & He & H) Hf. exists code, image. unfold program_paths in Hf.
  rewrite !Hf by (rewrite !elem_of_cons; auto). done.
Qed.

Lemma with_program_built w p code image : image_of code p.2 image → program_built (with_program w p code image) p.
Proof.
  intros (Hl & Hv & Hc & Hd). destruct (program_paths_differ p.1) as (D1 & D2 & D3). exists code, image.
  unfold with_program. split_and!; try done; try lia; rewrite ?lookup_write_ne by done; apply lookup_write.
Qed.

Lemma with_program_frame w p code image path :
  path ∉ program_paths p.1 → files (with_program w p code image) !! path = files w !! path.
Proof.
  unfold program_paths, with_program. rewrite !not_elem_of_cons. intros (? & ? & ? & _). by rewrite !lookup_write_ne by done.
Qed.

(** The code in [w'] is what the assembler made of that program's source, when the
    programs before it had been built. *)
Definition assembled_into nasm (w : repository) (l : list (string * bytes)) (w' : repository) (p : string * bytes) : Prop :=
  ∃ l1 l2 w1 code, l = l1 ++ p :: l2 ∧ programs_built nasm w l1 w1 ∧ assembled nasm w1 p = Some code ∧
    files w' !! code_path p.1 = Some code.

Lemma programs_built_files nasm w l w' :
  programs_built nasm w l w' → NoDup (all_paths l.*1) →
  Forall (program_built w') l ∧ Forall (assembled_into nasm w l w') l ∧ texts w' = texts w ∧
  ∀ path, path ∉ all_paths l.*1 → files w' !! path = files w !! path.
Proof.
  unfold all_paths. induction 1 as [w|w p code image l w' Ha Hi Hs IH]; intros Hd; [done|].
  cbn [fmap list_fmap] in Hd |- *. rewrite bind_cons in Hd |- *. apply NoDup_app in Hd as (_ & Hdis & Hd).
  destruct (IH Hd) as (Hb & Hc & Ht & Hf).
  assert (∀ path, path ∈ program_paths p.1 → files w' !! path = files (with_program w p code image) !! path) as Hkeep.
  { intros path Hin. by apply Hf, Hdis. }
  split; [|split; [|split; [done|]]].
  - constructor; [|done]. by apply (program_built_frame (with_program w p code image)); [apply with_program_built|].
  - constructor.
    + exists [], l, w, code. split; [done|]. split; [constructor|]. split; [done|].
      destruct (program_paths_differ p.1) as (_ & _ & ?). rewrite Hkeep by (unfold program_paths; rewrite !elem_of_cons; auto).
      unfold with_program. rewrite lookup_write_ne by done. apply lookup_write.
    + apply (Forall_impl _ _ _ Hc). intros q (l1 & l2 & w1 & c & -> & Hl1 & Hq & Hcode).
      exists (p :: l1), l2, w1, c. split; [done|]. split; [by apply (next_built _ _ _ code image)|done].
  - intros path [? ?]%not_elem_of_app. rewrite Hf by done. by apply with_program_frame.
Qed.

Lemma build_programs_cases nasm l w :
  Forall (λ p, len p.2 ≤ 4096) l →
  (∃ w', foldM (build_program nasm) w l = Ok w' ∧ programs_built nasm w l w') ∨
  (foldM (build_program nasm) w l = Err failed ∧
   ∃ l1 p l2 w1, l = l1 ++ p :: l2 ∧ programs_built nasm w l1 w1 ∧ source_rejected nasm w1 p).
Proof.
  revert w. induction l as [|p l IH]; intros w Hl; cbn [foldM]; [left; exists w; split; [done|constructor]|].
  apply Forall_cons in Hl as [Hp Hl].
  destruct (build_program_cases nasm w p Hp) as [(code & image & Ha & Hi & ->)|[-> Hr]].
  2: { right. split; [done|]. exists [], p, l, w. split; [done|]. split; [constructor|done]. }
  rewrite bind_ok. destruct (IH (with_program w p code image) Hl) as [(w' & -> & Hs)|[-> (l1 & q & l2 & w1 & -> & Hs & Hr)]].
  - left. exists w'. split; [done|]. by apply (next_built _ _ _ code image).
  - right. split; [done|]. exists (p :: l1), q, l2, w1. split; [done|]. split; [by apply (next_built _ _ _ code image)|done].
Qed.

Lemma paths_distinct : NoDup (all_paths program_names).
Proof. apply (bool_decide_unpack _). vm_compute. exact I. Qed.

(** (C22) The runtime programs are built or their assembly is to blame.  Whatever the
    assembler does, and whatever the repository holds, the loop over the twelve programs
    either ends with every program's code, data and image files in place - the code the
    assembler's output for [src/user/runtime-<name>.asm] in the repository that the
    programs before it and the program's own data file had left, the image accepted by
    the verifier, with that code and the program's data, padded with zeros, in it - and
    every other file as it was; or it stops with the exit code of a tool at a program
    whose predecessors were all built, because there the assembler failed on its source
    or made nothing or more than a page of it.  The data of the programs, the image
    builder and the verifier are never the reason. *)
Theorem runtime_programs_built nasm w :
  ∃ programs, runtime_program_data = Ok programs ∧ programs.*1 = program_names ∧
  match foldM (build_program nasm) w programs with
  | Ok w' => Forall (assembled_into nasm w programs w') programs ∧ Forall (program_built w') programs ∧ texts w' = texts w ∧
             ∀ path, path ∉ all_paths program_names → files w' !! path = files w !! path
  | Err e => e = failed ∧
             ∃ l1 p l2 w1, programs = l1 ++ p :: l2 ∧ programs_built nasm w l1 w1 ∧ source_rejected nasm w1 p
  end.
Proof.
  destruct program_table as (programs & Hp & Hn & _ & _). exists programs. split; [done|]. split; [done|].
  assert (Forall (λ p, len p.2 ≤ 4096) programs) as Hl.
  { apply Forall_forall. intros p. by apply table_fits. }
  assert (NoDup (all_paths programs.*1)) as Hd by (rewrite Hn; exact paths_distinct).
  destruct (build_programs_cases nasm programs w Hl) as [(w' & -> & Hs)|[-> Hr]]; [|by split].
  destruct (programs_built_files _ _ _ _ Hs Hd) as (Hb & Hc & Ht & Hf). rewrite Hn in Hf. by split_and!.
Qed.

(** An assembler that makes one instruction of every source. *)
Lemma runtime_programs_built_witness : ∃ programs w',
  foldM (build_program (λ _ _ _, Some [0xF4])) (Repository ∅ ∅) programs = Ok w' ∧
  Forall (assembled_into (λ _ _ _, Some [0xF4]) (Repository ∅ ∅) programs w') programs.
Proof.
  destruct (runtime_programs_built (λ _ _ _, Some [0xF4]) (Repository ∅ ∅)) as (programs & _ & _ & H).
  destruct (foldM _ _ programs) as [w'|e] eqn:E; [exists programs, w'; exact (conj E (proj1 H))|].
  exfalso. destruct H as (_ & l1 & p & l2 & w1 & _ & _ & [Hc|Hc]); discriminate Hc.
Defined.

(** ** The whole pipeline *)

(** Only the files at [paths] may differ. *)
Definition frame (w w' : repository) (paths : list string) : Prop :=
  texts w' = texts w ∧ ∀ path, path ∉ paths → files w' !! path = files w !! path.

Lemma frame_refl w : frame w w [].
Proof. done. Qed.

Lemma frame_write w path contents : frame w (write_bytes w path contents) [path].
Proof. split; [done|]. intros p Hp. apply lookup_write_ne. intros ->. apply Hp. by left. Qed.

Lemma frame_trans w1 w2 w3 l k : frame w1 w2 l → frame w2 w3 k → frame w1 w3 (l ++ k).
Proof.
  intros [T1 F1] [T2 F2]. split; [by rewrite T2|]. intros p. rewrite not_elem_of_app. intros [? ?]. by rewrite F2, F1.
Qed.

(** What a file holds after steps that do not touch it. *)
Lemma frame_keeps w w' l path contents :
  frame w w' l → bool_decide (path ∈ l) = false → files w !! path = Some contents → files w' !! path = Some contents.
Proof. intros [_ F] Hp%bool_decide_eq_false H. by rewrite F. Qed.

Definition exits (e : exn) : Prop := ∃ message, e = SystemExit message.
Lemma failed_exits : exits failed. Proof. by eexists. Qed.

Lemma run_Err {A} (m : result A) e : run m = Err e → exits e.
Proof. destruct m; [done|]. intros [= <-]. apply failed_exits. Qed.
Lemma run_Ok {A} (m : result A) a : run m = Ok a → m = Ok a.
Proof. by destruct m. Qed.

Section Steps.
Context (nasm : repository → string → string → option bytes).

Lemma assemble_Ok w format source output w' :
  assemble nasm w format source output = Ok w' →
  frame w w' [output] ∧ ∃ contents, files w' !! output = Some contents.
Proof.
  unfold assemble. destruct (nasm w format source) as [c|]; [|done]. intros [= <-].
  split; [apply frame_write|]. exists c. apply lookup_write.
Qed.

Lemma assemble_Err w format source output e : assemble nasm w format source output = Err e → exits e.
Proof. unfold assemble. destruct (nasm w format source) as [c|]; [done|]. intros [= <-]. apply failed_exits. Qed.

Lemma create_Ok build w payload output w' :
  run (create build w payload output) = Ok w' → frame w w' [output].
Proof.
  intros H%run_Ok. unfold create in H. apply bind_Ok_inv in H as (code & _ & H). apply bind_Ok_inv in H as (image & _ & [= <-]).
  apply frame_write.
Qed.

Lemma check_Ok {A} (verify : bytes → result A) w path a :
  run (check verify w path) = Ok a → ∃ image, files w !! path = Some image ∧ verify image = Ok a.
Proof.
  intros H%run_Ok. unfold check in H. apply bind_Ok_inv in H as (image & Hi & H). exists image. by split; [apply read_Ok|].
Qed.

End Steps.

(** An [Err] of a chain of steps comes from one of them. *)
Ltac exit_steps H :=
  repeat (apply bind_Err_inv in H as [H|(? & _ & H)];
    [first [by apply run_Err in H|by apply assemble_Err in H]|]).

Section Stages.
Context (nasm : repository → string → string → option bytes).

Definition service_paths : list string := ["build/service-user.bin"; "build/service-user.elf"].

Lemma build_service_Ok w w' :
  build_service nasm w = Ok w' → frame w w' service_paths ∧
  ∃ image, files w' !! "build/service-user.elf" = Some image ∧ UserElf.verify image = Ok tt.
Proof.
  unfold build_service. intros (w1 & [F1 _]%assemble_Ok & H)%bind_Ok_inv.
  apply bind_Ok_inv in H as (w2 & F2%create_Ok & H). apply bind_Ok_inv in H as ([] & Hc%check_Ok & [= <-]).
  split; [|done]. exact (frame_trans _ _ _ _ _ F1 F2).
Qed.

Lemma build_service_Err w e : build_service nasm w = Err e → exits e.
Proof. unfold build_service. intros H. exit_steps H. done. Qed.

Definition process_paths : list string :=
  ["build/process-user.bin"; "build/process-exec.bin"; "build/process-user.elf"; "build/process-exec.elf"].

Lemma build_process_Ok w w' :
  build_process nasm w = Ok w' → frame w w' process_paths ∧
  (∃ image, files w' !! "build/process-user.elf" = Some image ∧ ProcessElf.verify image ProcessElf.main_kind = Ok tt) ∧
  ∃ image, files w' !! "build/process-exec.elf" = Some image ∧ ProcessElf.verify image ProcessElf.exec_kind = Ok tt.
Proof.
  unfold build_process. intros (w1 & [F1 _]%assemble_Ok & H)%bind_Ok_inv. apply bind_Ok_inv in H as (w2 & [F2 _]%assemble_Ok & H).
  apply bind_Ok_inv in H as (w3 & F3%create_Ok & H). apply bind_Ok_inv in H as (w4 & F4%create_Ok & H).
  apply bind_Ok_inv in H as ([] & Hm%check_Ok & H). apply bind_Ok_inv in H as ([] & He%check_Ok & [= <-]).
  split; [|by split]. exact (frame_trans _ _ _ _ _ (frame_trans _ _ _ _ _ (frame_trans _ _ _ _ _ F1 F2) F3) F4).
Qed.

Lemma build_process_Err w e : build_process nasm w = Err e → exits e.
Proof. unfold build_process. intros H. exit_steps H. done. Qed.

Definition object_paths : list string := ["build/sdk/syscall.o"; "build/cpu.obj"; trampoline].

Lemma build_objects_Ok w w' :
  build_objects nasm w = Ok w' → frame w w' object_paths ∧
  ∃ contents, files w' !! trampoline = Some contents ∧ len contents = 4096.
Proof.
  unfold build_objects. intros (w1 & [F1 _]%assemble_Ok & H)%bind_Ok_inv. apply bind_Ok_inv in H as (w2 & [F2 _]%assemble_Ok & H).
  apply bind_Ok_inv in H as (w3 & [F3 _]%assemble_Ok & H). apply bind_Ok_inv in H as (contents & Hc%read_Ok & H).
  rewrite guard_iff, negb_false_iff, Z.eqb_eq in H. destruct H as [Hl [= <-]].
  split; [|by exists contents]. exact (frame_trans _ _ _ _ _ (frame_trans _ _ _ _ _ F1 F2) F3).
Qed.

Lemma build_objects_Err w e : build_objects nasm w = Err e → exits e.
Proof.
  unfold build_objects. intros H. do 2 (apply bind_Err_inv in H as [H|(? & _ & H)]; [by apply assemble_Err in H|]).
  apply bind_Err_inv in H as [H|(w3 & [_ (c & Hc)]%assemble_Ok & H)]; [by apply assemble_Err in H|].
  apply read_Ok in Hc. rewrite Hc, bind_ok in H. apply bind_Err_inv in H as [H|(? & _ & H)]; [|done].
  destruct (negb _); [|done]. injection H as <-. by eexists.
Qed.

End Stages.

(** *** The copies *)

Lemma copies_Ok (l : list (string * string)) w :
  NoDup l.*1 → (∀ d, d ∈ l.*1 → d ∉ l.*2) → (∀ c, c ∈ l → is_Some (files w !! c.2)) →
  ∃ w', foldM copyfile w l = Ok w' ∧ frame w w' l.*1 ∧ ∀ c, c ∈ l → files w' !! c.1 = files w !! c.2.
Proof.
  revert w. induction l as [|c l IH]; intros w Hd Hs Hw.
  { exists w. split; [done|]. split; [done|]. by intros c ?%elem_of_nil. }
  cbn [fmap list_fmap] in Hd, Hs. apply NoDup_cons in Hd as [Hc Hd]. cbn [foldM].
  destruct (Hw c) as [contents Hr]; [by left|]. set (w1 := write_bytes w c.1 contents).
  assert (copyfile w c = Ok w1) as -> by (unfold copyfile; by rewrite (proj2 (read_Ok _ _ _) Hr)). rewrite bind_ok.
  assert (∀ s, s ∈ (c :: l).*2 → files w1 !! s = files w !! s) as Hw1.
  { intros s Hin. apply lookup_write_ne. intros <-. apply (Hs c.1); [by left|done]. }
  destruct (IH w1 Hd) as (w' & -> & [Ht Hf] & Hcp).
  { intros d Hin Hin'. apply (Hs d); [by right|by right]. }
  { intros c' Hin. rewrite Hw1 by (right; by apply list_elem_of_fmap_2). apply Hw. by right. }
  exists w'. split; [done|]. split.
  - split; [by rewrite Ht|]. intros path Hp. cbn [fmap list_fmap] in Hp. apply not_elem_of_cons in Hp as [? ?].
    rewrite Hf by done. by apply lookup_write_ne.
  - intros c' [->|Hin]%elem_of_cons.
    + rewrite Hf by done. unfold w1. by rewrite lookup_write.
    + rewrite Hcp by done. apply Hw1. right. by apply list_elem_of_fmap_2.
Qed.

(** *** The manifest *)

Lemma elem_of_insert p q ps : p ∈ insert_sorted q ps → p = q ∨ p ∈ ps.
Proof.
  induction ps as [|r ps IH]; cbn [insert_sorted]; [rewrite list_elem_of_singleton; auto|].
  destruct (String.compare q r); rewrite !elem_of_cons; tauto.
Qed.

Lemma elem_of_sorted p ps : p ∈ sorted_paths ps → p ∈ ps.
Proof.
  induction ps as [|q ps IH]; [done|]. cbn [sorted_paths foldr]. intros [->|H]%elem_of_insert; [by left|right; by apply IH].
Qed.

(** The entries of the manifest describe the files. *)
Definition describes (w : repository) (path entry : string) : Prop :=
  ∃ contents, files w !! path = Some contents ∧ entry = manifest_entry path contents.

Lemma manifest_entries_Ok w paths :
  (∀ path, path ∈ paths → is_Some (files w !! path)) →
  ∃ entries, manifest_entries w paths = Ok entries ∧ Forall2 (describes w) paths entries.
Proof.
  induction paths as [|path paths IH]; intros Hp; [by exists []|]. cbn [manifest_entries].
  destruct (Hp path) as [contents Hc]; [by left|]. rewrite (proj2 (read_Ok _ _ _) Hc), bind_ok.
  destruct IH as (entries & -> & Hf); [intros p ?; apply Hp; by right|]. rewrite bind_ok.
  eexists. split; [done|]. constructor; [by exists contents|done].
Qed.

Lemma write_manifest_Ok w paths :
  (∀ path, path ∈ paths → is_Some (files w !! path)) → manifest_path ∉ paths →
  ∃ w' entries, write_manifest w paths = Ok w' ∧ frame w w' [manifest_path] ∧
    files w' !! manifest_path = Some (B (manifest_text entries)) ∧ Forall2 (describes w') (sorted_paths paths) entries.
Proof.
  intros Hp Hm. destruct (manifest_entries_Ok w (sorted_paths paths)) as (entries & He & Hf).
  { intros path ?%elem_of_sorted. by apply Hp. }
  unfold write_manifest. rewrite He, bind_ok. eexists _, entries. split; [done|].
  split; [apply frame_write|]. split; [apply lookup_write|].
  apply Forall2_same_length_lookup. split; [by apply Forall2_length in Hf|]. intros i path entry H1 H2.
  destruct (Forall2_lookup_lr _ _ _ _ _ _ Hf H1 H2) as (contents & Hc & ->). exists contents. split; [|done].
  rewrite lookup_write_ne; [done|]. intros <-. apply Hm, elem_of_sorted. by eapply list_elem_of_lookup_2.
Qed.

(** *** [main] *)

(** The verified images of a finished build. *)
Definition assets_built (programs : list (string * bytes)) (w : repository) : Prop :=
  (∃ image, files w !! "build/service-user.elf" = Some image ∧ UserElf.verify image = Ok tt) ∧
  (∃ image, files w !! "build/process-user.elf" = Some image ∧ ProcessElf.verify image ProcessElf.main_kind = Ok tt) ∧
  (∃ image, files w !! "build/process-exec.elf" = Some image ∧ ProcessElf.verify image ProcessElf.exec_kind = Ok tt) ∧
  Forall (program_built w) programs ∧
  (∃ contents, files w !! trampoline = Some contents ∧ len contents = 4096).

(** No step after the one that writes them touches the files it relies on. *)
Definition copies : list (string * string) := embedded program_names.
Definition later_paths : list string := object_paths ++ copies.*1 ++ [manifest_path].

Definition paths_apart : bool :=
  forallb (λ path, negb (bool_decide (path ∈ process_paths ++ all_paths program_names ++ later_paths))) ["build/service-user.elf"] &&
  forallb (λ path, negb (bool_decide (path ∈ all_paths program_names ++ later_paths))) ["build/process-user.elf"; "build/process-exec.elf"] &&
  forallb (λ path, negb (bool_decide (path ∈ later_paths))) (all_paths program_names) &&
  negb (bool_decide (trampoline ∈ copies.*1 ++ [manifest_path])) &&
  bool_decide (NoDup copies.*1) && forallb (λ d, negb (bool_decide (d ∈ copies.*2))) copies.*1 &&
  negb (bool_decide (manifest_path ∈ outputs program_names)).

Lemma paths_apart_true : paths_apart = true.
Proof. vm_compute. reflexivity. Qed.

Lemma apart_spec (l k : list string) :
  forallb (λ path, negb (bool_decide (path ∈ k))) l = true → ∀ path, path ∈ l → path ∉ k.
Proof.
  rewrite forallb_forall. intros H path Hp%list_elem_of_In. by apply H, negb_true_iff, bool_decide_eq_false in Hp.
Qed.

Lemma frame_get w w' l path : frame w w' l → path ∉ l → files w' !! path = files w !! path.
Proof. intros [_ F]. apply F. Qed.

(** The stages before the copies leave every image verified. *)
Lemma stages_Ok nasm programs w w1 w2 w3 w4 :
  programs.*1 = program_names → Forall (λ p, len p.2 ≤ 4096) programs →
  build_service nasm w = Ok w1 → build_process nasm w1 = Ok w2 → foldM (build_program nasm) w2 programs = Ok w3 →
  build_objects nasm w3 = Ok w4 → texts w4 = texts w ∧ assets_built programs w4.
Proof.
  intros Hn Hl [[T1 F1] Hs]%build_service_Ok [[T2 F2] [Hm He]]%build_process_Ok H3 [[T4 F4] Ht]%build_objects_Ok.
  pose proof paths_apart_true as Ha. unfold paths_apart in Ha. rewrite !andb_true_iff in Ha.
  destruct Ha as [[[[[[A1 A2] A3] _] _] _] _]. pose proof (apart_spec _ _ A1) as A1'. pose proof (apart_spec _ _ A2) as A2'.
  pose proof (apart_spec _ _ A3) as A3'. clear A1 A2 A3.
  destruct (build_programs_cases nasm programs w2 Hl) as [(w3' & E & Hpb)|[E _]]; rewrite E in H3; [injection H3 as ->|done].
  destruct (programs_built_files _ _ _ _ Hpb) as (Hb & _ & T3 & F3); [rewrite Hn; exact paths_distinct|]. rewrite Hn in F3. split; [congruence|].
  assert (∀ path, path ∉ later_paths → files w4 !! path = files w3 !! path) as G4.
  { intros path Hp. apply F4. unfold later_paths in Hp. rewrite !not_elem_of_app in Hp. tauto. }
  assert (∀ path, path ∉ all_paths program_names ++ later_paths → files w4 !! path = files w2 !! path) as G3.
  { intros path [? ?]%not_elem_of_app. by rewrite G4, F3. }
  split; [|split; [|split; [|split; [|done]]]].
  - destruct Hs as (image & Hi & Hv). exists image. split; [|done].
    pose proof (A1' "build/service-user.elf" ltac:(by left)) as [? ?]%not_elem_of_app. by rewrite G3, F2.
  - destruct Hm as (image & Hi & Hv). exists image. split; [|done]. rewrite G3; [done|]. apply A2'. by left.
  - destruct He as (image & Hi & Hv). exists image. split; [|done]. rewrite G3; [done|]. apply A2'. by right; left.
  - rewrite Forall_forall in Hb |- *. intros p Hp. apply (program_built_frame w3); [by apply Hb|].
    intros path Hin. apply G4, A3'. rewrite <-Hn. apply list_elem_of_bind. exists p.1. split; [done|by apply list_elem_of_fmap_2].
Qed.

Lemma built_sources programs w c :
  programs.*1 = program_names → assets_built programs w → c ∈ copies → is_Some (files w !! c.2).
Proof.
  intros Hn ((i1 & H1 & _) & (i2 & H2 & _) & (i3 & H3 & _) & Hb & _). unfold copies, embedded.
  rewrite elem_of_app, !elem_of_cons, elem_of_nil. intros [[->|[->|[->|[]]]]|Hc]; [by exists i1|by exists i2|by exists i3|].
  apply list_elem_of_fmap in Hc as (name & -> & Hin). rewrite <-Hn in Hin. apply list_elem_of_fmap in Hin as (p & -> & Hp).
  rewrite Forall_forall in Hb. destruct (Hb p Hp) as (_ & image & _ & _ & _ & He & _). by exists image.
Qed.

(** The images, where their creators put them. *)
Definition kept_paths : list string :=
  "build/service-user.elf" :: "build/process-user.elf" :: "build/process-exec.elf" :: trampoline :: all_paths program_names.

Lemma copies_apart : NoDup copies.*1 ∧ (∀ d, d ∈ copies.*1 → d ∉ copies.*2) ∧
  (manifest_path ∉ outputs program_names) ∧
  ∀ path, path ∈ kept_paths →
    path ∉ copies.*1 ++ [manifest_path].
Proof.
  pose proof paths_apart_true as Ha. unfold paths_apart in Ha. rewrite !andb_true_iff in Ha.
  destruct Ha as [[[[[[A1 A2] A3] A4] A5] A6] A7]. split; [by apply bool_decide_eq_true in A5|].
  split; [exact (apart_spec _ _ A6)|]. split; [by apply negb_true_iff, bool_decide_eq_false in A7|].
  pose proof (apart_spec _ _ A1) as A1'. pose proof (apart_spec _ _ A2) as A2'. pose proof (apart_spec _ _ A3) as A3'.
  apply negb_true_iff, bool_decide_eq_false in A4. clear -A1' A2' A3' A4.
  assert (∀ p l, p ∉ l ++ later_paths → p ∉ copies.*1 ++ [manifest_path]) as Hs.
  { intros p l. unfold later_paths. rewrite !not_elem_of_app. tauto. }
  intros path. unfold kept_paths. rewrite !elem_of_cons. intros [->|[->|[->|[->|Hp]]]].
  - specialize (A1' _ (list_elem_of_here _ _)). rewrite app_assoc in A1'. by apply Hs in A1'.
  - apply (Hs _ (all_paths program_names)), A2'. by left.
  - apply (Hs _ (all_paths program_names)), A2'. by right; left.
  - done.
  - apply (Hs _ []), A3', Hp.
Qed.

(** The copies and the manifest do not disturb the images they describe. *)
Lemma built_frame programs w w' :
  programs.*1 = program_names → assets_built programs w → frame w w' (copies.*1 ++ [manifest_path]) → assets_built programs w'.
Proof.
  intros Hn (H1 & H2 & H3 & Hb & H4) F. destruct copies_apart as (_ & _ & _ & Ha).
  assert (∀ path, path ∈ kept_paths →
    files w' !! path = files w !! path) as G by (intros path Hp; by apply (frame_get _ _ _ _ F), Ha).
  unfold assets_built. rewrite !G by (unfold kept_paths; rewrite !elem_of_cons; tauto). split_and!; try done.
  rewrite Forall_forall in Hb |- *. intros p Hp. apply (program_built_frame w); [by apply Hb|].
  intros path Hin. apply G. unfold kept_paths. rewrite !elem_of_cons. do 4 right. rewrite <-Hn. apply list_elem_of_bind. exists p.1.
  split; [done|by apply list_elem_of_fmap_2].
Qed.

Lemma outputs_present programs w path :
  programs.*1 = program_names → assets_built programs w →
  (∀ c, c ∈ copies → is_Some (files w !! c.1)) → path ∈ outputs program_names → is_Some (files w !! path).
Proof.
  intros Hn ((i1 & H1 & _) & (i2 & H2 & _) & (i3 & H3 & _) & Hb & (t & Ht & _)) Hc. unfold outputs. fold copies.
  rewrite !elem_of_app, !elem_of_cons, elem_of_nil.
  intros [[->|[->|[->|[]]]]|[Hp|[[->|[]]|Hp]]]; [by exists i1|by exists i2|by exists i3| |by exists t|].
  - apply list_elem_of_fmap in Hp as (name & -> & Hin). rewrite <-Hn in Hin. apply list_elem_of_fmap in Hin as (p & -> & Hp).
    rewrite Forall_forall in Hb. destruct (Hb p Hp) as (_ & image & _ & _ & _ & He & _). by exists image.
  - apply list_elem_of_fmap in Hp as (c & -> & Hin). by apply Hc.
Qed.

(** The last two stages, on a repository with the images built. *)
Lemma finish_Ok programs w :
  programs.*1 = program_names → assets_built programs w →
  ∃ w1 w' entries, foldM copyfile w copies = Ok w1 ∧ write_manifest w1 (outputs program_names) = Ok w' ∧
    texts w' = texts w ∧ assets_built programs w' ∧
    (∀ c, c ∈ copies → files w' !! c.1 = files w' !! c.2 ∧ is_Some (files w' !! c.2)) ∧
    files w' !! manifest_path = Some (B (manifest_text entries)) ∧
    Forall2 (describes w') (sorted_paths (outputs program_names)) entries.
Proof.
  intros Hn Hb. destruct copies_apart as (Hd & Hs & Hm & _).
  assert (∀ c, c ∈ copies → is_Some (files w !! c.2)) as Hw by (intros c; by apply (built_sources programs)).
  destruct (copies_Ok copies w Hd Hs Hw) as (w1 & E1 & F1 & Hc).
  assert (frame w w1 (copies.*1 ++ [manifest_path])) as F1'.
  { destruct F1 as [T F]. split; [done|]. intros p [? _]%not_elem_of_app. by apply F. }
  pose proof (built_frame programs w w1 Hn Hb F1') as Hb1.
  destruct (write_manifest_Ok w1 (outputs program_names)) as (w' & entries & E2 & F2 & Hmf & He); [|done|].
  { intros path. apply (outputs_present programs w1 path Hn Hb1). intros c Hin. rewrite (Hc c Hin). by apply Hw. }
  pose proof (frame_trans _ _ _ _ _ F1 F2) as F. exists w1, w', entries. split; [done|]. split; [done|].
  split; [apply F|]. split; [by apply (built_frame programs w)|]. split; [|done].
  intros c Hin. assert (c.1 ≠ manifest_path ∧ c.2 ≠ manifest_path) as [N1 N2].
  { split; intros E; apply Hm; rewrite <-E; unfold outputs; fold copies; rewrite !elem_of_app.
    - right; right; right. by apply list_elem_of_fmap_2.
    - unfold copies, embedded in Hin. rewrite elem_of_app, !elem_of_cons, elem_of_nil in Hin.
      destruct Hin as [[->|[->|[->|[]]]]|Hin]; [left; by left|left; by right; left|left; by right; right; left|].
      right; left. apply list_elem_of_fmap in Hin as (name & -> & Hin). apply list_elem_of_fmap. by exists name. }
  rewrite !(frame_get _ _ _ _ F2) by (by intros ?%list_elem_of_singleton).
  rewrite Hc by done. rewrite (frame_get _ _ _ _ F1) by (intros Hin'; apply (Hs _ Hin'); by apply list_elem_of_fmap_2).
  split; [done|by apply Hw].
Qed.

(** (C7) What the kernel embeds has been verified.  For any assembler, specification and
    repository: when [main] returns, the five kinds of image and object are in place and
    accepted - the service and both process images by their pinned verifiers, the twelve
    runtime images with their code and data in them, the trampoline of one page - every
    file under [src/generated] that the kernel embeds is equal to the verified image it
    was copied from, the ABI files pass the generator's own check, and the manifest
    gives the size and SHA-256 of each output as it is in the repository.  When it does
    not return, it is by [SystemExit]: no other exception escapes. *)
Theorem assets_verified nasm nasm_found spec w :
  match main nasm nasm_found spec w with
  | Ok w' =>
      ∃ programs texts1 entries, runtime_program_data = Ok programs ∧ programs.*1 = program_names ∧
        assets_built programs w' ∧ (∀ c, c ∈ copies → files w' !! c.1 = files w' !! c.2 ∧ is_Some (files w' !! c.2)) ∧
        AbiGen.main spec (texts w) false = Ok texts1 ∧ AbiGen.main spec texts1 true = Ok (texts w') ∧
        files w' !! manifest_path = Some (B (manifest_text entries)) ∧
        Forall2 (describes w') (sorted_paths (outputs program_names)) entries
  | Err e => ∃ message, e = SystemExit message
  end.
Proof.
  destruct program_table as (programs & Hp & Hn & _ & _).
  assert (Forall (λ p, len p.2 ≤ 4096) programs) as Hl by (apply Forall_forall; intros p; by apply table_fits).
  destruct (main nasm nasm_found spec w) as [w'|e] eqn:E; unfold main in E.
  - rewrite guard_iff in E. destruct E as [_ E].
    apply bind_Ok_inv in E as (t1 & A1%run_Ok & E). apply bind_Ok_inv in E as (t2 & A2%run_Ok & E). rewrite Hp, bind_ok in E.
    apply bind_Ok_inv in E as (w1 & S1 & E). apply bind_Ok_inv in E as (w2 & S2 & E).
    apply bind_Ok_inv in E as (w3 & S3 & E). apply bind_Ok_inv in E as (w4 & S4 & E).
    destruct (stages_Ok _ _ _ _ _ _ _ Hn Hl S1 S2 S3 S4) as [Ht Hb]. rewrite Hn in E. fold copies in E.
    destruct (finish_Ok programs w4 Hn Hb) as (w5 & w6 & entries & E5 & E6 & Ht6 & H6). rewrite E5, bind_ok, E6 in E.
    injection E as <-. exists programs, t1, entries. rewrite Ht6, Ht. destruct H6 as (Hb6 & Hc6 & Hm6 & He6).
    exact (conj Hp (conj Hn (conj Hb6 (conj Hc6 (conj A1 (conj A2 (conj Hm6 He6))))))).
  - apply bind_Err_inv in E as [E|(? & _ & E)]; [destruct (negb nasm_found); [injection E as <-; by eexists|done]|].
    apply bind_Err_inv in E as [E|(t1 & _ & E)]; [by apply run_Err in E|].
    apply bind_Err_inv in E as [E|(t2 & _ & E)]; [by apply run_Err in E|]. rewrite Hp, bind_ok in E.
    apply bind_Err_inv in E as [E|(w1 & S1 & E)]; [by apply build_service_Err in E|].
    apply bind_Err_inv in E as [E|(w2 & S2 & E)]; [by apply build_process_Err in E|].
    apply bind_Err_inv in E as [E|(w3 & S3 & E)].
    { destruct (build_programs_cases nasm programs w2 Hl) as [(? & E' & _)|[E' _]]; rewrite E' in E; [done|]. injection E as <-. apply failed_exits. }
    apply bind_Err_inv in E as [E|(w4 & S4 & E)]; [by apply build_objects_Err in E|].
    destruct (stages_Ok _ _ _ _ _ _ _ Hn Hl S1 S2 S3 S4) as [Ht Hb]. rewrite Hn in E. fold copies in E.
    destruct (finish_Ok programs w4 Hn Hb) as (w5 & w6 & entries & E5 & E6 & _). rewrite E5, bind_ok, E6 in E. done.
Qed.

End BuildAssets.
