(* ===== verification/Serial.v ===== *)
(** * The serial console of the QEMU tests

    The functions the test scripts share for talking to a booted guest, from
    [test-x86_64-persistence.py].  The guest is the environment: what it sends and
    when it exits is an arbitrary transcript, and the theorems hold for every
    transcript.  A [turn] is one iteration of [wait_for]'s loop - the chunks that
    arrived since the last read, and what [process.poll] returned - and the list
    of the turns before the deadline is finite, as the loop sleeps 0.05 s in each.
    [sent] is the list of the bytes written to the socket, with how much output
    had been received when they were. *)

From S2P Require Import Prelude PyBytes.

Module Serial.

(** ** The guest *)

Record turn := Turn { arrived : list bytes; exit_code : option Z }.

(** The turns of one [wait_for], and the chunks that arrive during the sleep
    after it. *)
Record reply := Reply { turns : list turn; late : list bytes }.

(** One boot: whether the serial port accepts a connection in time, the turns
    until the prompt, and the replies to the commands. *)
Record transcript := Transcript { connects : bool; booting : list turn; replies : list reply }.

(** ** The functions *)

Definition PROMPT : bytes := B "root@zigos:/home/root# ".

(** The socket holds the chunks [recv] will return next; an empty chunk is the end of
    the stream, and when there is none [recv] times out. *)
Fixpoint read_available (socket : list bytes) (output : bytes) : list bytes * bytes :=
  match socket with
  | [] => ([], output)
  | chunk :: socket =>
      if len chunk =? 0 then (socket, output)
      else
        let output := output ++ chunk in
        if len chunk <? 65536 then (socket, output) else read_available socket output
  end.

Fixpoint wait_for (ts : list turn) (socket : list bytes) (output marker : bytes) (start_offset : Z)
    : result (list bytes * bytes) :=
  match ts with
  | [] => Err (RuntimeError "timed out waiting for {marker!r}; serial tail:\n{tail}")
  | t :: ts =>
      let '(socket, output) := read_available (socket ++ arrived t) output in
      if contains (slice_from output start_offset) marker then Ok (socket, output)
      else
        match exit_code t with
        | Some _ => Err (RuntimeError "QEMU exited with code {code} before marker {marker!r}")
        | None => wait_for ts socket output marker start_offset
        end
  end.

(** The state of a session: the socket, the output so far and the log of what was
    sent. *)
Record session := Session { pending : list bytes; received : bytes; sent : list (Z * bytes) }.

Definition send_command (r : reply) (s : session) (command : string) (marker : option string) : result session :=
  let start := len (received s) in
  let sent := sent s ++ [(start, B command ++ [13])] in
  '(socket, output) ← wait_for (turns r) (pending s) (received s)
                        (match marker with None => PROMPT | Some marker => B marker end) start;
  let '(socket, output) := read_available (socket ++ late r) output in
  Ok (Session socket output sent).

(** The loop over the commands; a command the guest has no turns for times out. *)
Fixpoint send_commands (rs : list reply) (s : session) (commands : list (string * option string)) : result session :=
  match commands with
  | [] => Ok s
  | (command, marker) :: commands =>
      s ← send_command (hd (Reply [] []) rs) s command marker;
      send_commands (tl rs) s commands
  end.

(** [bytes(serial).decode("ascii", errors="replace")], as code points. *)
Definition decode_replace (l : bytes) : list Z := (λ b, if b <? 128 then b else 0xFFFD) <$> l.

Definition check_marker (text : list Z) (marker : string) : result unit :=
  raise_if (negb (contains text (B marker))) (RuntimeError "boot {boot_number}: missing marker: {marker}").

(** [run_boot] after the guest has been started; its clean-up in [finally] stops
    the guest and decides nothing. *)
Definition run_boot (t : transcript) (commands : list (string * option string)) (required_markers : list string)
    : result (list Z * session) :=
  raise_if (negb (connects t)) (RuntimeError "boot {boot_number}: serial connection failed");;
  '(socket, output) ← wait_for (booting t) [] [] PROMPT 0;
  s ← send_commands (replies t) (Session socket output []) commands;
  let text := decode_replace (received s) in
  forM_ (check_marker text) required_markers;;
  Ok (text, s).

(** ** Properties *)

Lemma read_available_grows socket output : ∃ more, (read_available socket output).2 = output ++ more.
Proof.
  revert output. induction socket as [|chunk socket IH]; intros output; simpl.
  { exists []. by rewrite app_nil_r. }
  destruct (len chunk =? 0); [exists []; by rewrite app_nil_r|].
  destruct (len chunk <? 65536); [by eexists|].
  destruct (IH (output ++ chunk)) as (more & ->). exists (chunk ++ more). by rewrite app_assoc.
Qed.

Lemma slice_from_app (l k : bytes) : slice_from (l ++ k) (len l) = k.
Proof.
  unfold slice_from. pose proof (len_nonneg l). pose proof (len_nonneg k).
  rewrite slice_app_r by (rewrite ?len_app; lia). rewrite Z.sub_diag.
  apply slice_full. rewrite len_app. lia.
Qed.

(** A successful wait has its marker in the output received since the offset. *)
Lemma wait_for_Ok ts socket output marker start s' o' :
  wait_for ts socket output marker start = Ok (s', o') →
  (∃ more, o' = output ++ more) ∧ contains (slice_from o' start) marker = true.
Proof.
  revert socket output. induction ts as [|t ts IH]; intros socket output; simpl; [done|].
  destruct (read_available_grows (socket ++ arrived t) output) as (more & Hm).
  destruct (read_available _ _) as [s1 o1]. simpl in Hm. subst o1.
  destruct (contains (slice_from (output ++ more) start) marker) eqn:E; [intros [= <- <-]; eauto|].
  destruct (exit_code t); [done|]. intros H. apply IH in H as [(m & ->) Hc].
  split; [|done]. exists (more ++ m). by rewrite app_assoc.
Qed.

(** ... and every failure is one of the two errors [wait_for] raises: the guest
    exited, or the deadline passed with the marker unseen. *)
Lemma wait_for_Err ts socket output marker start e :
  wait_for ts socket output marker start = Err e →
  (∃ t, t ∈ ts ∧ is_Some (exit_code t) ∧
     e = RuntimeError "QEMU exited with code {code} before marker {marker!r}") ∨
  (Forall (λ t, exit_code t = None) ts ∧
     e = RuntimeError "timed out waiting for {marker!r}; serial tail:\n{tail}").
Proof.
  revert socket output. induction ts as [|t ts IH]; intros socket output; simpl; [intros [= <-]; by right|].
  destruct (read_available _ _) as [s1 o1]. destruct (contains _ _); [done|].
  destruct (exit_code t) eqn:E; [intros [= <-]; left; exists t; split; [by left|by rewrite E]|].
  intros [(u & ? & ?)|[? ?]]%IH; [left; exists u; split; [by right|done]|right; split; [by constructor|done]].
Qed.

(** The marker [send_command] waits for. *)
Definition marker_of (marker : option string) : bytes :=
  match marker with None => PROMPT | Some marker => B marker end.

Lemma starts_with_app l k p : starts_with l p = true → starts_with (l ++ k) p = true.
Proof.
  revert l. induction p as [|b p IH]; intros [|a l]; try done; [by destruct k|].
  simpl. rewrite !andb_true_iff. intros [? ?]. split; [done|by apply IH].
Qed.

Lemma contains_app l k p : contains l p = true → contains (l ++ k) p = true.
Proof.
  induction l as [|a l IH]; cbn [contains app].
  - destruct (starts_with [] p) eqn:E; [|done]. intros _. pose proof (starts_with_app [] k p E) as E'.
    cbn [app] in E'. destruct k; cbn [contains]; by rewrite E'.
  - rewrite !orb_true_iff. intros [H|H]; [left|right; auto]. exact (starts_with_app (a :: l) k p H).
Qed.

Lemma send_command_Ok r s command marker s' :
  send_command r s command marker = Ok s' →
  ∃ more, received s' = received s ++ more ∧ contains more (marker_of marker) = true ∧
    sent s' = sent s ++ [(len (received s), B command ++ [13])].
Proof.
  unfold send_command. intros ([socket o] & H & Hs)%bind_Ok_inv.
  apply wait_for_Ok in H as [(more & ->) Hc]. rewrite slice_from_app in Hc.
  destruct (read_available_grows (socket ++ late r) (received s ++ more)) as (tail & Ht).
  destruct (read_available _ _) as [s2 o2]. simpl in Ht. subst o2. apply (inj Ok) in Hs as <-.
  exists (more ++ tail). cbn [received sent]. rewrite app_assoc. split_and!; [done| |done].
  by apply contains_app.
Qed.

(** When each command was sent, in bytes received: where the output of the one
    before it ends. *)
Fixpoint sent_log (start : Z) (commands : list (string * option string)) (outputs : list bytes)
    : list (Z * bytes) :=
  match commands, outputs with
  | (command, _) :: commands, output :: outputs =>
      (start, B command ++ [13]) :: sent_log (start + len output) commands outputs
  | _, _ => []
  end.

Lemma send_commands_Ok rs s commands s' :
  send_commands rs s commands = Ok s' →
  ∃ outputs, received s' = received s ++ mjoin outputs ∧
    Forall2 (λ c output, contains output (marker_of c.2) = true) commands outputs ∧
    sent s' = sent s ++ sent_log (len (received s)) commands outputs.
Proof.
  revert rs s. induction commands as [|[command marker] commands IH]; intros rs s; simpl.
  { intros [= <-]. exists []. rewrite !app_nil_r. by repeat constructor. }
  intros (s1 & (more & Hr & Hc & Hs)%send_command_Ok & H)%bind_Ok_inv.
  apply IH in H as (outputs & Hr' & Hf & Hs'). exists (more :: outputs).
  rewrite Hr', Hs', Hr, Hs. simpl. rewrite len_app, <-!app_assoc. split_and!; [done|by constructor|done].
Qed.

(** The dialogue a passing boot had with its guest, for every guest: what was
    received splits into the boot's output, which ends no earlier than its prompt,
    and one output per command; each command was sent exactly once, in order, when
    the output of the one before it had been received; the marker it waited for is
    in its own output; and every required marker is in the text. *)
Lemma run_boot_dialogue t commands required text s :
  run_boot t commands required = Ok (text, s) →
  ∃ boot outputs, received s = boot ++ mjoin outputs ∧ contains boot PROMPT = true ∧
    Forall2 (λ c output, contains output (marker_of c.2) = true) commands outputs ∧
    sent s = sent_log (len boot) commands outputs ∧
    text = decode_replace (received s) ∧ Forall (λ m, contains text (B m) = true) required.
Proof.
  unfold run_boot. rewrite guard_iff. intros (_ & H).
  apply bind_Ok_inv in H as ([socket boot] & [_ Hc]%wait_for_Ok & H).
  apply bind_Ok_inv in H as (s1 & (outputs & Hr & Hf & Hs)%send_commands_Ok & H).
  apply bind_Ok_inv in H as ([] & Hm%forM_Ok & [= <- <-]). exists boot, outputs. cbn in Hr, Hs.
  unfold slice_from in Hc. rewrite slice_full in Hc by done. split_and!; try done.
  eapply Forall_impl; [exact Hm|]. intros m Hk. apply raise_if_Ok, negb_false_iff in Hk. exact Hk.
Qed.

(** A boot that answers [shutdown] after its prompt; the marker arrives split
    over two reads. *)
Definition example_transcript : transcript :=
  Transcript true [Turn [] None; Turn [B "boot " ++ PROMPT] None]
    [Reply [Turn [B "shut"] None; Turn [B "down complete"] None] [B "!"]].

Lemma run_boot_dialogue_witness : ∃ boot outputs,
  contains boot PROMPT = true ∧ Forall2 (λ c output, contains output (marker_of c.2) = true)
    [("shutdown", Some "down complete")] outputs.
Proof.
  destruct (run_boot example_transcript [("shutdown", Some "down complete")] ["boot root"]) as [[text' s']|] eqn:E';
    [|vm_compute in E'; discriminate E'].
  destruct (run_boot_dialogue _ _ _ _ _ E') as (boot & outputs & _ & Hb & Ho & _). eauto.
Defined.

End Serial.
