(* ===== verification/Journal.v ===== *)
(** * The persistence journal

    The host-side reader of the kernel's A/B journal in [test-x86_64-persistence.py]:
    [parse_header], [parse_records], [timestamp_record], [slot_payload_lba] and the
    one-byte mutation [corrupt_block_byte].  The disk image is a byte list; an
    exception ends the test, so an operation that raises returns no image.  A message
    stands for its format string, with the placeholders not filled in.  The lemmas
    here are about single reads and single bytes; [JournalSpec] has the format and
    the theorems. *)

From S2P Require Import Prelude PyBytes PyHash.

Module Journal.

Definition HEADER_MAGIC : bytes := B "ZIGPERS1".
Definition HEADER_VERSION : Z := 3.
Definition HEADER_SIZE : Z := 48.
Definition COMMIT_MARKER : Z := 0x434F4D54.
Definition PERSIST_MAX_PAYLOAD_BYTES : Z := 64 * 1024.
Definition PERSIST_PAYLOAD_OFFSET_SECTORS : Z := 2.
Definition RECORD_HEADER_SIZE : Z := 48.
Definition TIMESTAMP_TARGET : string := "abi14/renamed.txt".

Record Header := mk_Header {
  slot : Z; generation : Z; payload_length : Z; payload_crc32 : Z; record_count : Z
}.

Record Record_ := mk_Record {
  kind : Z; path : string; mode : Z; created_tick : Z; modified_tick : Z; changed_tick : Z;
  accessed_tick : Z; uid : Z; gid : Z
}.

Definition times (r : Record_) : Z * Z * Z * Z :=
  (created_tick r, modified_tick r, changed_tick r, accessed_tick r).
Definition owner (r : Record_) : Z * Z := (uid r, gid r).

(** [stream.seek(offset); stream.read(size)] *)
Definition read_at (image : bytes) (offset size : Z) : result bytes :=
  if offset <? 0 then Err (OSError "seek")
  else Ok (slice image offset (if size <? 0 then len image else offset + size)).

(** [if b: raise RuntimeError(message)] *)
Definition error_if (b : bool) (message : string) : result unit := raise_if b (RuntimeError message).

(** [int.from_bytes(l[a:b], "little")] *)
Definition field (l : bytes) (a b : Z) : Z := le_int (slice l a b).

Definition parse_header (image : bytes) (first_lba slot block_size : Z) : result (option Header) :=
  block ← read_at image ((first_lba + slot) * block_size) block_size;
  error_if (negb (len block =? block_size)) "persistence header read was truncated";;
  if negb (any block) then Ok None
  else
    error_if (negb (beq (slice block 0 8) HEADER_MAGIC)) "slot {slot}: invalid persistence magic";;
    let version := field block 8 12 in
    let header_size := field block 12 16 in
    let generation := field block 16 24 in
    let payload_length := field block 24 28 in
    error_if ((payload_length <? 4) || (PERSIST_MAX_PAYLOAD_BYTES <? payload_length))
      "slot {slot}: persistence payload length {payload_length} exceeded the 64 KiB journal bound";;
    let payload_crc32 := field block 28 32 in
    let encoded_slot := field block 32 36 in
    let record_count := field block 36 40 in
    let stored_crc := field block 40 44 in
    let marker := field block 44 48 in
    let block := set_slice block 40 44 [0; 0; 0; 0] in
    let calculated_crc := Z.land (crc32 (slice block 0 HEADER_SIZE)) 0xFFFFFFFF in
    error_if (negb (version =? HEADER_VERSION) || negb (header_size =? HEADER_SIZE))
      "slot {slot}: unsupported persistence header version";;
    error_if (negb (encoded_slot =? slot) || negb (marker =? COMMIT_MARKER))
      "slot {slot}: persistence commit fields were invalid";;
    error_if (negb (stored_crc =? calculated_crc)) "slot {slot}: persistence header CRC mismatch";;
    Ok (Some (mk_Header slot generation payload_length payload_crc32 record_count)).

(** The body of the loop of [parse_records]; its variables are the records and
    the offset. *)
Definition parse_record (payload : bytes) (st : gmap string Record_ * Z) (record_index : Z)
    : result (gmap string Record_ * Z) :=
  let '(records, offset) := st in
  error_if (len payload <? offset + RECORD_HEADER_SIZE) "slot {header.slot}: record {record_index} header was truncated";;
  kind ← get_item payload offset;
  path_length ← get_item payload (offset + 1);
  let mode := field payload (offset + 2) (offset + 4) in
  let data_length := field payload (offset + 4) (offset + 8) in
  let created_tick := field payload (offset + 8) (offset + 16) in
  let modified_tick := field payload (offset + 16) (offset + 24) in
  let changed_tick := field payload (offset + 24) (offset + 32) in
  let accessed_tick := field payload (offset + 32) (offset + 40) in
  let uid := field payload (offset + 40) (offset + 44) in
  let gid := field payload (offset + 44) (offset + 48) in
  let offset := offset + RECORD_HEADER_SIZE in
  let stop := offset + path_length + data_length in
  error_if (len payload <? stop) "slot {header.slot}: record {record_index} body was truncated";;
  match decode_ascii (slice payload offset (offset + path_length)) with
  | Err UnicodeDecodeError => Err (RuntimeError "slot {header.slot}: record {record_index} path was not ASCII")
  | Err e => Err e
  | Ok path =>
      error_if (bool_decide (is_Some (records !! path))) "slot {header.slot}: duplicate persisted path {path!r}";;
      Ok (<[path := mk_Record kind path mode created_tick modified_tick changed_tick accessed_tick uid gid]> records,
          stop)
  end.

Definition slot_payload_lba (first_lba slot block_size : Z) : Z :=
  let payload_sectors := (PERSIST_MAX_PAYLOAD_BYTES + block_size - 1) / block_size in
  first_lba + PERSIST_PAYLOAD_OFFSET_SECTORS + slot * payload_sectors.

Definition parse_payload (payload : bytes) (header : Header) : result (gmap string Record_) :=
  error_if (negb (len payload =? payload_length header)) "slot {header.slot}: persistence payload read was truncated";;
  error_if (negb (Z.land (crc32 payload) 0xFFFFFFFF =? payload_crc32 header))
    "slot {header.slot}: persistence payload CRC mismatch";;
  error_if (len payload <? 4) "slot {header.slot}: persistence payload omitted record count";;
  let encoded_count := field payload 0 4 in
  error_if (negb (encoded_count =? record_count header))
    "slot {header.slot}: payload/header record count mismatch: payload={encoded_count} header={header.record_count}";;
  '(records, offset) ← foldM (parse_record payload) (∅, 4) (range 0 encoded_count);
  error_if (negb (offset =? len payload)) "slot {header.slot}: trailing bytes remained after record parsing";;
  Ok records.

Definition parse_records (image : bytes) (first_lba : Z) (header : Header) (block_size : Z)
    : result (gmap string Record_) :=
  let payload_sectors := (PERSIST_MAX_PAYLOAD_BYTES + block_size - 1) / block_size in
  let payload_lba := first_lba + PERSIST_PAYLOAD_OFFSET_SECTORS + slot header * payload_sectors in
  payload ← read_at image (payload_lba * block_size) (payload_length header);
  parse_payload payload header.

Definition timestamp_record (image : bytes) (first_lba : Z) (header : Header) : result Record_ :=
  records ← parse_records image first_lba header 512;
  match records !! TIMESTAMP_TARGET with
  | None => Err (RuntimeError "generation {header.generation}: missing timestamp target {TIMESTAMP_TARGET}")
  | Some record =>
      error_if (negb ((kind record =? 2) || (kind record =? 5)))
        "generation {header.generation}: timestamp target has non-file kind {record.kind}";;
      Ok record
  end.

(** [[index for index, (old, new) in enumerate(zip(before, after)) if old != new]] *)
Fixpoint differences_from (index : Z) (before after : bytes) : list Z :=
  match before, after with
  | old :: before, new :: after =>
      (if old =? new then [] else [index]) ++ differences_from (index + 1) before after
  | _, _ => []
  end.
Definition differences (before after : bytes) : list Z := differences_from 0 before after.

(** The new contents of the image, and the two hashes. *)
Definition corrupt_block_byte (image : bytes) (lba byte_offset xor_mask block_size : Z)
    : result (bytes * (bytes * bytes)) :=
  error_if ((byte_offset <? 0) || (block_size <=? byte_offset))
    "corruption byte offset {byte_offset} was outside one {block_size}-byte block";;
  before ← read_at image (lba * block_size) block_size;
  error_if (negb (len before =? block_size)) "corruption target LBA {lba} was truncated";;
  b ← get_item before byte_offset;
  after ← set_item before byte_offset (Z.lxor b xor_mask);
  error_if (negb (beq (differences before after) [byte_offset]))
    "corruption mutation changed unexpected byte set: {differences}";;
  let image := put image (lba * block_size) after in
  let before_hash := sha256 before in
  let after_hash := sha256 after in
  error_if (beq before_hash after_hash) "corruption mutation did not change the target block hash";;
  Ok (image, (before_hash, after_hash)).

(** ** One changed byte *)

Lemma lookup_split (l : bytes) i a :
  0 ≤ i → l !! Z.to_nat i = Some a → ∃ pre post, l = pre ++ a :: post ∧ len pre = i.
Proof.
  intros Hi H. exists (take (Z.to_nat i) l), (drop (S (Z.to_nat i)) l).
  rewrite take_drop_middle by done. split; [done|]. apply lookup_lt_Some in H.
  unfold len. rewrite length_take. lia.
Qed.

Lemma put_one (pre post : bytes) a b : put (pre ++ a :: post) (len pre) [b] = pre ++ b :: post.
Proof. apply (put_mid pre [a] post [b]); done. Qed.

Lemma differences_same index l : differences_from index l l = [].
Proof. revert index. induction l as [|a l IH]; intros index; simpl; [done|]. by rewrite Z.eqb_refl, IH. Qed.

Lemma differences_one index (pre post : bytes) a b :
  a ≠ b → differences_from index (pre ++ a :: post) (pre ++ b :: post) = [index + len pre].
Proof.
  intros Hab. revert index. induction pre as [|c pre IH]; intros index; simpl.
  - rewrite (proj2 (Z.eqb_neq a b)), differences_same by done. simpl. f_equal. unfold len. simpl. lia.
  - rewrite Z.eqb_refl, IH, len_cons. simpl. f_equal. lia.
Qed.

Lemma crc32_put l i a b :
  bytes_ok l → 0 ≤ i → l !! Z.to_nat i = Some a → byte_ok b → a ≠ b → crc32 (put l i [b]) ≠ crc32 l.
Proof.
  intros Hok Hi Ha Hb Hne. destruct (lookup_split l i a Hi Ha) as (pre & post & -> & <-).
  rewrite put_one. apply bytes_ok_app in Hok as [Hp Hap]. apply Forall_cons in Hap as [? ?].
  apply not_eq_sym, crc32_detects; done.
Qed.

Lemma set_item_put l i v l' : 0 ≤ i → set_item l i v = Ok l' → l' = put l i [v] ∧ i < len l ∧ byte_ok v.
Proof.
  intros Hi H. assert (byte_ok v) as Hv.
  { unfold set_item in H. destruct (Z.ltb_spec v 0), (Z.ltb_spec 255 v); try discriminate. split; lia. }
  destruct (decide (len l ≤ i)) as [?|?]; [by rewrite set_item_out_of_range in H|].
  rewrite set_item_Ok in H by (done || lia). injection H as <-. split; [done|split; [lia|done]].
Qed.

(** Writing back a changed part changes the whole. *)
Lemma put_slice (l : bytes) base n o (v : bytes) :
  0 ≤ base → 0 ≤ o → o + len v ≤ n → base + n ≤ len l →
  put l base (put (slice l base (base + n)) o v) = put l (base + o) v.
Proof.
  intros. pose proof (len_nonneg v).
  assert (len (slice l base (base + n)) = n) as Ln by (rewrite len_slice; lia).
  assert (len (put (slice l base (base + n)) o v) = n) as Lp by (rewrite len_put; lia).
  apply list_eqZ; [rewrite !len_put by lia; done|]. intros i. rewrite len_put by lia. intros Hi.
  rewrite !(lookup_put l) by lia. rewrite Lp. case_decide; case_decide; try lia; try done.
  - rewrite lookup_put by lia. rewrite decide_True by lia. f_equal. lia.
  - rewrite lookup_put, decide_False by lia. rewrite lookup_slice by lia. f_equal. lia.
Qed.

(** What [corrupt_block_byte] did when it returns. *)
Lemma corrupt_Ok image lba o mask bs image' hashes :
  0 ≤ lba → corrupt_block_byte image lba o mask bs = Ok (image', hashes) →
  0 ≤ o < bs ∧ lba * bs + bs ≤ len image ∧
  ∃ a b, image !! Z.to_nat (lba * bs + o) = Some a ∧ b = Z.lxor a mask ∧ a ≠ b ∧ byte_ok b ∧
         image' = put image (lba * bs + o) [b].
Proof.
  intros Hlba. unfold corrupt_block_byte, error_if. rewrite guard_iff. intros (Ho & H). to_prop.
  assert (0 ≤ lba * bs) as Hp by nia.
  unfold read_at in H. rewrite (proj2 (Z.ltb_ge _ _)), bind_ok, (proj2 (Z.ltb_ge bs 0)) in H by lia.
  set (base := lba * bs) in *. set (before := slice image base (base + bs)) in *.
  apply guard_iff in H as [Hl H]. apply negb_false_iff, Z.eqb_eq in Hl.
  apply bind_Ok_inv in H as (a & Ha & H). apply bind_Ok_inv in H as (after & Hset & H).
  apply guard_iff in H as [Hd H]. apply guard_iff in H as [_ H]. injection H as <- _.
  apply get_item_Ok in Ha as [Ha _]; [|lia]. apply set_item_put in Hset as (-> & _ & Hb); [|lia].
  unfold before in Hl. rewrite len_slice_clip in Hl by lia.
  split; [lia|]. split; [lia|]. exists a, (Z.lxor a mask).
  assert (image !! Z.to_nat (base + o) = Some a) as Hi by (rewrite <-(lookup_slice image base (base + bs) o) by lia; done).
  split_and!; try done.
  - intros E. apply negb_false_iff, beq_spec in Hd. destruct (lookup_split before o a ltac:(lia) Ha) as (pre & post & E1 & E2).
    rewrite E1, <-E2, put_one, <-E in Hd. unfold differences in Hd. by rewrite differences_same in Hd.
  - apply put_slice; rewrite ?len_cons, ?len_nil; lia.
Qed.

(** ** Headers *)

(** The fields of a block that holds a committed header of slot [slot]. *)
Definition header_fields (slot : Z) (block : bytes) (h : Header) : Prop :=
  slice block 0 8 = HEADER_MAGIC ∧ field block 8 12 = HEADER_VERSION ∧ field block 12 16 = HEADER_SIZE ∧
  field block 16 24 = generation h ∧ field block 24 28 = payload_length h ∧
  4 ≤ payload_length h ≤ PERSIST_MAX_PAYLOAD_BYTES ∧ field block 28 32 = payload_crc32 h ∧
  field block 32 36 = slot ∧ field block 36 40 = record_count h ∧ field block 44 48 = COMMIT_MARKER ∧
  Journal.slot h = slot.

(** The CRC of a block's header, its own field counted as zero. *)
Definition header_crc (block : bytes) : Z := crc32 (put (slice block 0 48) 40 [0; 0; 0; 0]).

Definition header_block (slot : Z) (block : bytes) (h : Header) : Prop :=
  header_fields slot block h ∧ field block 40 44 = header_crc block.

Lemma any_slice block a b : 0 ≤ a → a ≤ b → any (slice block a b) = true → any block = true.
Proof.
  intros Ha Hb. unfold any. rewrite !existsb_exists. intros (x & Hx & Ht). exists x. split; [|done].
  rewrite slice_eq in Hx by lia. apply list_elem_of_In in Hx. apply list_elem_of_In.
  apply list_elem_of_lookup in Hx as (k & Hk). apply lookup_take_Some in Hk as [Hk _].
  rewrite lookup_drop in Hk. by eapply list_elem_of_lookup_2.
Qed.

Lemma crc_land l : bytes_ok l → Z.land (crc32 l) 0xFFFFFFFF = crc32 l.
Proof. intros H. apply (land_ones_small _ 32); [done|]. by apply crc32_word32. Qed.

Lemma zeroed_block (block : bytes) n :
  48 ≤ n → len block = n →
  slice (set_slice block 40 44 [0; 0; 0; 0]) 0 48 = put (slice block 0 48) 40 [0; 0; 0; 0].
Proof.
  intros Hn Hl. rewrite (set_slice_put _ _ 40 44) by reflexivity.
  apply (slice_put_out block 40 [0; 0; 0; 0] 0 48); rewrite ?Hl, ?len_cons, ?len_nil; lia.
Qed.

Lemma read_block image lba bs :
  0 ≤ lba → 0 ≤ bs → read_at image (lba * bs) bs = Ok (slice image (lba * bs) (lba * bs + bs)).
Proof.
  intros. unfold read_at. rewrite (proj2 (Z.ltb_ge (lba * bs) 0)), (proj2 (Z.ltb_ge bs 0)) by nia. done.
Qed.

Lemma len_block (image : bytes) lba bs :
  0 ≤ lba → 0 < bs → len (slice image (lba * bs) (lba * bs + bs)) = bs ↔ lba * bs + bs ≤ len image.
Proof. intros. assert (0 ≤ lba * bs) by nia. rewrite len_slice_clip by lia. lia. Qed.

Lemma and_proper_l (P Q R : Prop) : (P → Q ↔ R) → P ∧ Q ↔ P ∧ R.
Proof. tauto. Qed.

Lemma header_fields_any slot block h : header_fields slot block h → any block = true.
Proof.
  intros (Hm & _). cut (any (slice block 0 8) = true); [intros Hx; apply any_slice in Hx; [done|lia..]|by rewrite Hm].
Qed.

(** With all other fields in order, the CRC decides. *)
Lemma parse_header_crc image first slot bs h :
  bytes_ok image → 0 ≤ first + slot → 48 ≤ bs →
  let base := (first + slot) * bs in let block := slice image base (base + bs) in
  base + bs ≤ len image → header_fields slot block h →
  parse_header image first slot bs =
    if field block 40 44 =? header_crc block then Ok (Some h)
    else Err (RuntimeError "slot {slot}: persistence header CRC mismatch").
Proof.
  intros Hok Hf Hbs base block Hl Hh. pose proof (header_fields_any _ _ _ Hh) as Ha.
  unfold parse_header, error_if. rewrite read_block, bind_ok by lia. fold base. fold block.
  assert (len block = bs) as Hlb by (apply len_block; lia).
  pass_guard lia. rewrite Ha. cbn [negb]. destruct Hh as (Hm & H1 & H2 & H3 & H4 & H5 & H6 & H7 & H8 & H9 & H10).
  rewrite Hm, beq_refl, H1, H2, H3, H4, H6, H7, H8, H9. cbn [negb raise_if]. rewrite bind_ok.
  pass_guard lia. pass_guard ltac:(exact (eq_refl false)).
  pass_guard ltac:(by rewrite Z.eqb_refl).
  change (slice (set_slice block 40 44 [0; 0; 0; 0]) 0 HEADER_SIZE) with
    (slice (set_slice block 40 44 [0; 0; 0; 0]) 0 48).
  rewrite (zeroed_block block bs) by done.
  rewrite crc_land by (apply bytes_ok_put; [by apply bytes_ok_slice, bytes_ok_slice|repeat constructor; done]).
  fold (header_crc block). destruct (_ =? _); [|reflexivity]. cbn [negb raise_if]. rewrite bind_ok.
  destruct h; cbn in *. congruence.
Qed.

(** A header is returned exactly for blocks that hold a committed one. *)
Lemma parse_header_iff image first slot bs h :
  bytes_ok image → 0 ≤ first + slot → 48 ≤ bs →
  let base := (first + slot) * bs in
  parse_header image first slot bs = Ok (Some h) ↔
  base + bs ≤ len image ∧ header_block slot (slice image base (base + bs)) h.
Proof.
  intros Hok Hf Hbs base. split.
  2: { intros (Hl & Hh & Hc). rewrite (parse_header_crc image first slot bs h) by done. fold base.
       by rewrite Hc, Z.eqb_refl. }
  unfold parse_header, error_if. rewrite read_block, bind_ok by lia.
  rewrite guard_iff, negb_false_iff, Z.eqb_eq, len_block by lia. fold base. intros (Hl & H). split; [done|].
  set (block := slice image base (base + bs)) in *. destruct (any block) eqn:Ha; cbn [negb] in H; [|done].
  revert H. rewrite !guard_iff, !orb_false_iff, !negb_false_iff, !Z.eqb_eq, !Z.ltb_ge, beq_spec.
  change (slice (set_slice block 40 44 [0; 0; 0; 0]) 0 HEADER_SIZE) with
    (slice (set_slice block 40 44 [0; 0; 0; 0]) 0 48).
  assert (len block = bs) as Hlb by (apply len_block; lia).
  rewrite (zeroed_block block bs) by done.
  rewrite crc_land by (apply bytes_ok_put; [by apply bytes_ok_slice, bytes_ok_slice|repeat constructor; done]).
  intros (? & [? ?] & [? ?] & [? ?] & ? & [= <-]). split; [|done]. split_and!; done.
Qed.

(** The reader raises nothing but [RuntimeError]. *)
Definition runtime_error (e : exn) : Prop := ∃ message, e = RuntimeError message.

Lemma error_if_Err b message e : error_if b message = Err e → runtime_error e.
Proof. destruct b; [|done]. intros [= <-]. by eexists. Qed.

Lemma parse_header_Err image first slot bs e :
  0 ≤ first + slot → 0 ≤ bs → parse_header image first slot bs = Err e → runtime_error e.
Proof.
  intros Hf Hbs. unfold parse_header. rewrite read_block, bind_ok by lia. intros H.
  apply bind_Err_inv in H as [H|(? & _ & H)]; [by apply error_if_Err in H|].
  destruct (negb (any _)); [done|].
  repeat (apply bind_Err_inv in H as [H|(? & _ & H)]; [by apply error_if_Err in H|]). done.
Qed.

(** A byte changed in a committed header. *)
Lemma header_byte_detected slot block h o a b :
  bytes_ok block → 48 ≤ len block → header_block slot block h → 0 ≤ o < 48 →
  block !! Z.to_nat o = Some a → byte_ok b → a ≠ b → ∀ h', ¬ header_block slot (put block o [b]) h'.
Proof.
  intros Hok Hl [_ Hc] Ho Ha Hb Hne h' [_ Hc']. set (block' := put block o [b]) in *.
  assert (bytes_ok [b]) as Hb1 by (apply Forall_singleton; done).
  assert (len block' = len block) as Hl' by (unfold block'; apply len_put; rewrite ?len_cons, ?len_nil; lia).
  assert (slice block' 0 48 = put (slice block 0 48) o [b]) as E48.
  { unfold block'. rewrite slice_put_out by (rewrite ?len_cons, ?len_nil; lia). by rewrite Z.sub_0_r. }
  assert (bytes_ok (slice block 0 48)) as Hok48 by by apply bytes_ok_slice.
  assert (len (slice block 0 48) = 48) as L48 by (rewrite len_slice; lia).
  unfold header_crc in Hc, Hc'. rewrite E48 in Hc'.
  destruct (decide (40 ≤ o < 44)) as [Hin|Hout].
  - assert (put (put (slice block 0 48) o [b]) 40 [0; 0; 0; 0] = put (slice block 0 48) 40 [0; 0; 0; 0]) as E.
    { apply list_eqZ; [rewrite !len_put; rewrite ?len_put; rewrite ?len_cons, ?len_nil; lia|]. intros i Hi.
      rewrite !lookup_put by (rewrite ?len_put; rewrite ?len_cons, ?len_nil; lia).
      rewrite ?len_cons, ?len_nil. repeat case_decide; try lia; done. }
    rewrite E, <-Hc in Hc'. unfold field in Hc'.
    apply le_int_inj in Hc'; [|by apply bytes_ok_slice, bytes_ok_put|by apply bytes_ok_slice|by rewrite !len_slice by lia].
    apply Hne. apply (f_equal (λ l, l !! Z.to_nat (o - 40))) in Hc'. unfold block' in Hc'.
    rewrite !lookup_slice, lookup_put in Hc' by (rewrite ?len_cons, ?len_nil; lia).
    replace (40 + (o - 40)) with o in Hc' by lia. rewrite decide_True, Z.sub_diag in Hc' by (rewrite ?len_cons, ?len_nil; lia).
    rewrite Ha in Hc'. by injection Hc'.
  - rewrite put_put_ne in Hc' by (rewrite ?len_cons, ?len_nil; lia).
    assert (field block' 40 44 = field block 40 44) as E.
    { unfold field, block'. by rewrite slice_put_ne by (rewrite ?len_cons, ?len_nil; lia). }
    rewrite E, Hc in Hc'. symmetry in Hc'. revert Hc'. apply (crc32_put _ o a b); try done; try lia.
    + apply bytes_ok_put; [done|repeat constructor; done].
    + rewrite lookup_put, decide_False by (rewrite ?len_cons, ?len_nil; lia).
      replace o with (0 + o) by lia. rewrite lookup_slice by lia. by rewrite Z.add_0_l.
Qed.

Lemma parse_header_frame (image image' : bytes) first slot bs :
  0 ≤ first + slot → 0 ≤ bs →
  (let base := (first + slot) * bs in slice image' base (base + bs) = slice image base (base + bs)) →
  parse_header image' first slot bs = parse_header image first slot bs.
Proof. cbv zeta. intros Hf Hbs E. unfold parse_header. by rewrite !read_block, E by lia. Qed.

Lemma payload_offset first slot :
  slot_payload_lba first slot 512 = first + 2 + slot * 128.
Proof. reflexivity. Qed.

Lemma parse_records_eq image first h :
  0 ≤ first + 2 + slot h * 128 → 0 ≤ payload_length h →
  parse_records image first h 512 =
    (let base := (first + 2 + slot h * 128) * 512 in
     parse_payload (slice image base (base + payload_length h)) h).
Proof.
  intros Hs Hn. unfold parse_records.
  change (first + PERSIST_PAYLOAD_OFFSET_SECTORS + slot h * ((PERSIST_MAX_PAYLOAD_BYTES + 512 - 1) / 512))
    with (first + 2 + slot h * 128).
  unfold read_at. rewrite (proj2 (Z.ltb_ge _ 0)), (proj2 (Z.ltb_ge (payload_length h) 0)) by lia.
  by rewrite bind_ok.
Qed.

(** An image with one changed byte reads the same everywhere else. *)
Lemma slice_changed (image : bytes) i b x y :
  0 ≤ i → i < len image → 0 ≤ x → 0 ≤ y → y ≤ i ∨ i + 1 ≤ x →
  slice (put image i [b]) x y = slice image x y.
Proof. intros. apply slice_put_ne; rewrite ?len_cons, ?len_nil; lia. Qed.

Lemma changed_block (image : bytes) base n o a b :
  0 ≤ base → 0 ≤ o < n → base + n ≤ len image → image !! Z.to_nat (base + o) = Some a →
  slice (put image (base + o) [b]) base (base + n) = put (slice image base (base + n)) o [b] ∧
  slice image base (base + n) !! Z.to_nat o = Some a.
Proof.
  intros. split.
  - rewrite slice_put_out by (rewrite ?len_cons, ?len_nil; lia). f_equal. lia.
  - by rewrite lookup_slice by lia.
Qed.

Lemma header_block_nonzero slot (block : bytes) o a b h :
  48 ≤ len block → 0 ≤ o < 48 → header_block slot block h → block !! Z.to_nat o = Some a →
  any (put block o [b]) = true.
Proof.
  intros Hl Ho [(Hm & Hv & _) _] Ha. destruct (decide (o < 8)).
  - apply (any_slice _ 8 12); [lia..|]. rewrite slice_put_ne by (rewrite ?len_cons, ?len_nil; lia).
    destruct (any (slice block 8 12)) eqn:E; [done|]. apply any_false in E.
    rewrite len_slice in E by lia. unfold field in Hv. by rewrite E in Hv.
  - apply (any_slice _ 0 8); [lia..|]. rewrite slice_put_ne by (rewrite ?len_cons, ?len_nil; lia).
    by rewrite Hm.
Qed.

Lemma parse_header_None (image : bytes) first slot bs :
  0 ≤ first + slot → 0 ≤ bs →
  (let base := (first + slot) * bs in any (slice image base (base + bs)) = true) →
  parse_header image first slot bs ≠ Ok None.
Proof.
  cbv zeta. intros Hf Hbs Ha. unfold parse_header, error_if. rewrite read_block, bind_ok by lia.
  rewrite guard_iff. intros (_ & H). rewrite Ha in H. cbn [negb] in H.
  revert H. rewrite !guard_iff. by intros (_ & _ & _ & _ & _ & ?).
Qed.

End Journal.
