(* ===== verification/JournalSpec.v ===== *)
(** * The on-disk format of the persistence journal

    An abstract specification of what [Journal.parse_header] and
    [Journal.parse_records] read: the journal encodes a list of entries (a record and
    its file contents), [encode_payload] and [encode_header] write one slot, and the
    readers return a result exactly for what these encoders write. *)

From S2P Require Import Prelude PyBytes PyHash Journal.

Module JournalSpec.

Import Journal.

(** ** The encoders *)

(** A record and the data of its file. *)
Abbreviation entry := (Record_ * bytes)%type.

Definition ticks (r : Record_) : bytes :=
  le_bytes 8 (created_tick r) ++ le_bytes 8 (modified_tick r) ++ le_bytes 8 (changed_tick r) ++
  le_bytes 8 (accessed_tick r).

Definition encode_entry (e : entry) : bytes :=
  let '(r, data) := e in
  [kind r; len (B (path r))] ++ le_bytes 2 (mode r) ++ le_bytes 4 (len data) ++ ticks r ++
  le_bytes 4 (uid r) ++ le_bytes 4 (gid r) ++ B (path r) ++ data.

Definition encode_payload (es : list entry) : bytes := le_bytes 4 (len es) ++ concat (encode_entry <$> es).

(** The header with the value [crc] in its CRC field. *)
Definition header_with (h : Header) (crc : Z) : bytes :=
  HEADER_MAGIC ++ le_bytes 4 HEADER_VERSION ++ le_bytes 4 HEADER_SIZE ++ le_bytes 8 (generation h) ++
  le_bytes 4 (payload_length h) ++ le_bytes 4 (payload_crc32 h) ++ le_bytes 4 (slot h) ++
  le_bytes 4 (record_count h) ++ le_bytes 4 crc ++ le_bytes 4 COMMIT_MARKER.
Definition encode_header (h : Header) : bytes := header_with h (crc32 (header_with h 0)).

(** The widths of the fields. *)
Definition record_ok (r : Record_) : Prop :=
  byte_ok (kind r) ∧ 0 ≤ mode r < 2 ^ 16 ∧ 0 ≤ created_tick r < 2 ^ 64 ∧ 0 ≤ modified_tick r < 2 ^ 64 ∧
  0 ≤ changed_tick r < 2 ^ 64 ∧ 0 ≤ accessed_tick r < 2 ^ 64 ∧ 0 ≤ uid r < 2 ^ 32 ∧ 0 ≤ gid r < 2 ^ 32 ∧
  len (B (path r)) < 256 ∧ is_ok (decode_ascii (B (path r))) = true.
Definition entry_ok (e : entry) : Prop := record_ok e.1 ∧ bytes_ok e.2 ∧ len e.2 < 2 ^ 32.

Definition path_of (e : entry) : string := path e.1.
Definition record_map (es : list entry) : gmap string Record_ :=
  list_to_map ((λ e, (path_of e, e.1)) <$> es).

(** ** Little-endian fields *)

Lemma field_head w v (r : bytes) a b :
  a = 0 → b = w → 0 ≤ w → 0 ≤ v < 2 ^ (8 * w) → field (le_bytes w v ++ r) a b = v.
Proof.
  intros -> -> Hw Hv. unfold field. pose proof (len_le_bytes w v Hw).
  rewrite slice_app_l, slice_full by lia. by apply le_int_le_bytes.
Qed.

Lemma field_skip w v (r : bytes) a b :
  0 ≤ w → w ≤ a → a ≤ b → field (le_bytes w v ++ r) a b = field r (a - w) (b - w).
Proof.
  intros Hw ? ?. unfold field. pose proof (len_le_bytes w v Hw) as Hl.
  rewrite slice_app_r by lia. by rewrite Hl.
Qed.

(** Reads field after field from the front of a concatenation. *)
Ltac read_fields :=
  repeat (rewrite field_skip by lia); apply field_head; lia.

Lemma slice_field (l : bytes) a b c w :
  bytes_ok l → 0 ≤ a → a ≤ b → b ≤ c → c ≤ len l → w = b - a →
  slice l a c = le_bytes w (field l a b) ++ slice l b c.
Proof.
  intros Hok ? ? ? ? ->. rewrite <-(slice_app_join l a b c) by lia. f_equal. symmetry.
  apply le_bytes_le_int; [by apply bytes_ok_slice|by rewrite len_slice by lia].
Qed.

Lemma slice_byte (l : bytes) a c x : 0 ≤ a → a < c → l !! Z.to_nat a = Some x → slice l a c = x :: slice l (a + 1) c.
Proof.
  intros Ha Hc Hx. rewrite !slice_eq by lia.
  replace (Z.to_nat (c - a)) with (S (Z.to_nat (c - (a + 1)))) by lia.
  rewrite (drop_S _ x) by done. simpl. by replace (S (Z.to_nat a)) with (Z.to_nat (a + 1)) by lia.
Qed.

Lemma field_bound (l : bytes) a b w :
  bytes_ok l → 0 ≤ a → a ≤ b → b ≤ len l → w = 8 * (b - a) → 0 ≤ field l a b < 2 ^ w.
Proof.
  intros Hok ? ? ? ->. pose proof (le_int_bound (slice l a b)) as Hb. rewrite len_slice in Hb by lia.
  apply Hb. by apply bytes_ok_slice.
Qed.

Lemma B_string_of_bytes (l : bytes) : bytes_ok l → B (string_of_bytes l) = l.
Proof.
  induction 1 as [|b l Hb _ IH]; [done|]. simpl. rewrite IH. f_equal. unfold byte_ok in Hb.
  rewrite Ascii.N_ascii_embedding by lia. lia.
Qed.

Lemma string_of_B s : string_of_bytes (B s) = s.
Proof. induction s as [|c s IH]; [done|]. simpl. by rewrite IH, N2Z.id, Ascii.ascii_N_embedding. Qed.

Lemma decode_ascii_B s : is_ok (decode_ascii (B s)) = true → decode_ascii (B s) = Ok s.
Proof. unfold decode_ascii. destruct (forallb _ _); [|done]. by rewrite string_of_B. Qed.

Lemma decode_ascii_Ok (l : bytes) s :
  bytes_ok l → decode_ascii l = Ok s → B s = l ∧ is_ok (decode_ascii (B s)) = true.
Proof.
  intros Hok H. assert (B s = l) as E.
  { unfold decode_ascii in H. destruct (forallb _ _); [|done]. injection H as <-. by apply B_string_of_bytes. }
  by rewrite E, H.
Qed.

(** ** One record *)

Lemma len_encode_entry e : len (encode_entry e) = 48 + len (B (path_of e)) + len e.2.
Proof.
  destruct e as [r data]. unfold encode_entry, ticks, path_of. rewrite !len_app, !len_cons, len_nil.
  rewrite !len_le_bytes by lia. cbn [fst snd]. lia.
Qed.

Lemma field_slice (l : bytes) off off' a b :
  0 ≤ off → 0 ≤ a → a ≤ b → off + b ≤ off' → field l (off + a) (off + b) = field (slice l off off') a b.
Proof. intros. unfold field. by rewrite slice_slice by lia. Qed.

(** The fields of an encoded entry. *)
Lemma entry_fields e :
  entry_ok e →
  let l := encode_entry e in let r := e.1 in
  l !! 0%nat = Some (kind r) ∧ l !! 1%nat = Some (len (B (path r))) ∧
  field l 2 4 = mode r ∧ field l 4 8 = len e.2 ∧ field l 8 16 = created_tick r ∧
  field l 16 24 = modified_tick r ∧ field l 24 32 = changed_tick r ∧ field l 32 40 = accessed_tick r ∧
  field l 40 44 = uid r ∧ field l 44 48 = gid r ∧ slice l 48 (48 + len (B (path r))) = B (path r).
Proof.
  destruct e as [r data]. intros [(?&?&?&?&?&?&?&?&?&?) [? ?]] l r'. subst l r'. cbn [fst snd] in *.
  pose proof (len_nonneg data). pose proof (len_nonneg (B (path r))).
  unfold encode_entry, ticks. rewrite <-!app_assoc. split; [done|]. split; [done|].
  assert (∀ x y (l : bytes) a b, 2 ≤ a → a ≤ b → field ([x; y] ++ l) a b = field l (a - 2) (b - 2)) as Hskip.
  { intros x y l a b ? ?. unfold field. by rewrite slice_app_r by (rewrite ?len_cons, ?len_nil; lia). }
  rewrite !Hskip by lia. split_and!; try read_fields.
  rewrite !app_assoc. rewrite <-app_assoc. set (pre := _ ++ le_bytes 4 (gid r)).
  assert (len pre = 48) as Hp.
  { unfold pre. rewrite !len_app, !len_cons, len_nil, !len_le_bytes by lia. reflexivity. }
  rewrite slice_app_r, Hp by lia. rewrite slice_app_l, slice_full by lia. done.
Qed.

Lemma parse_record_entry payload records off i e :
  0 ≤ off → entry_ok e → off + len (encode_entry e) ≤ len payload →
  slice payload off (off + len (encode_entry e)) = encode_entry e →
  parse_record payload (records, off) i =
    if bool_decide (is_Some (records !! path_of e))
    then Err (RuntimeError "slot {header.slot}: duplicate persisted path {path!r}")
    else Ok (<[path_of e := e.1]> records, off + len (encode_entry e)).
Proof.
  intros Hoff He Hl Hs. destruct (entry_fields e He) as (H0&H1&H2&H3&H4&H5&H6&H7&H8&H9&H10).
  pose proof (len_encode_entry e) as HL. pose proof (len_nonneg (B (path_of e))). pose proof (len_nonneg e.2).
  assert (∀ a b, 0 ≤ a → a ≤ b → b ≤ 48 → field payload (off + a) (off + b) = field (encode_entry e) a b) as Hfield.
  { intros. rewrite <-Hs. apply field_slice; lia. }
  assert (∀ k x, encode_entry e !! k = Some x → (k < 48)%nat → get_item payload (off + Z.of_nat k) = Ok x) as Hitem.
  { intros k x Hk ?. apply get_item_lookup; [lia|]. rewrite <-Hs in Hk.
    replace k with (Z.to_nat (Z.of_nat k)) in Hk by lia. by rewrite lookup_slice in Hk by lia. }
  unfold parse_record, error_if, RECORD_HEADER_SIZE. pass_guard lia.
  replace (get_item payload off) with (get_item payload (off + Z.of_nat 0)) by (f_equal; lia).
  rewrite (Hitem 0%nat _ H0), bind_ok by lia. rewrite (Hitem 1%nat _ H1 ltac:(lia) : get_item payload (off + 1) = _), bind_ok.
  rewrite !Hfield, H2, H3, H4, H5, H6, H7, H8, H9 by lia. change (path e.1) with (path_of e) in *. cbv zeta.
  pass_guard lia.
  replace (slice payload (off + 48) (off + 48 + len (B (path_of e)))) with (B (path_of e)).
  2: { rewrite <-Z.add_assoc. rewrite <-(slice_slice payload off (off + len (encode_entry e))), Hs by lia. done. }
  destruct He as [(_&_&_&_&_&_&_&_&_&Ha) _]. rewrite (decode_ascii_B (path_of e) Ha).
  case_bool_decide; [reflexivity|]. cbn [raise_if]. rewrite bind_ok.
  replace (off + 48 + len (B (path_of e)) + len e.2) with (off + len (encode_entry e)) by lia.
  do 3 f_equal. by destruct e as [[] ?].
Qed.

Lemma parse_record_Ok (payload : bytes) records off i records' off' :
  bytes_ok payload → 0 ≤ off → parse_record payload (records, off) i = Ok (records', off') →
  ∃ e, entry_ok e ∧ slice payload off off' = encode_entry e ∧ off' = off + len (encode_entry e) ∧
       off' ≤ len payload ∧ records !! path_of e = None ∧ records' = <[path_of e := e.1]> records.
Proof.
  intros Hok Hoff. unfold parse_record, error_if, RECORD_HEADER_SIZE. rewrite guard_iff, Z.ltb_ge.
  intros (Hl & (k & Hk & H)%bind_Ok_inv). apply bind_Ok_inv in H as (pl & Hpl & H).
  apply guard_iff in H as [Hb H]. apply Z.ltb_ge in Hb.
  set (dl := field payload (off + 4) (off + 8)) in *.
  apply get_item_Ok in Hk as [Hk _]; [|lia]. apply get_item_Ok in Hpl as [Hpl _]; [|lia].
  assert (byte_ok k) as Hkb by by eapply bytes_ok_lookup.
  assert (0 ≤ pl < 256) as Hplb by by eapply (bytes_ok_lookup payload).
  assert (0 ≤ dl < 2 ^ 32) as Hdl by (apply field_bound; try done; lia).
  set (p := slice payload (off + 48) (off + 48 + pl)) in *.
  assert (len p = pl) as Hp by (unfold p; rewrite len_slice; lia).
  destruct (decode_ascii p) as [name|[]] eqn:Hd; try done.
  apply decode_ascii_Ok in Hd as [Hd Ha]; [|by apply bytes_ok_slice].
  apply guard_iff in H as [Hn H]. case_bool_decide as Hnone; [done|]. injection H as <- <-.
  set (data := slice payload (off + 48 + pl) (off + 48 + pl + dl)).
  assert (len data = dl) as Hdat by (unfold data; rewrite len_slice; lia).
  eexists (mk_Record _ _ _ _ _ _ _ _ _, data). cbn [path_of fst snd kind path].
  rewrite len_encode_entry. cbn [path_of fst snd path]. rewrite Hd, Hp, Hdat. split_and!; try done; try lia.
  - unfold entry_ok, record_ok.
    cbn [kind path mode created_tick modified_tick changed_tick accessed_tick uid gid fst snd].
    rewrite Hd, Hp, Hdat. rewrite Hd in Ha.
    split; [repeat (apply conj; [first [done|apply field_bound; [done|lia..]|lia]|]); done|].
    split; [by apply bytes_ok_slice|lia].
  - cbn [encode_entry kind path mode created_tick modified_tick changed_tick accessed_tick uid gid].
    rewrite Hd, Hdat.
    rewrite (slice_byte _ _ _ k), (slice_byte _ _ _ pl), <-!Z.add_assoc by (done || lia). cbn [app]. do 2 f_equal; [by rewrite Hp|].
    unfold ticks. rewrite <-!app_assoc. cbn [kind path mode created_tick modified_tick changed_tick accessed_tick uid gid].
    repeat (erewrite slice_field; [f_equal|try done; lia..]).
    rewrite <-slice_app_join with (b := off + (48 + pl)) by lia. unfold p, data. by rewrite <-!Z.add_assoc.
  - by apply eq_None_not_Some.
Qed.

(** ** Payloads *)

Lemma record_map_None es p : record_map es !! p = None ↔ p ∉ path_of <$> es.
Proof.
  unfold record_map. rewrite <-not_elem_of_list_to_map. by rewrite <-list_fmap_compose.
Qed.

Lemma record_map_snoc es e :
  path_of e ∉ path_of <$> es → record_map (es ++ [e]) = <[path_of e := e.1]> (record_map es).
Proof.
  intros H. unfold record_map. rewrite fmap_app. apply list_to_map_snoc.
  by rewrite <-list_fmap_compose.
Qed.

(** The entries that a run of the loop has read up to [off]. *)
Definition entries_read (payload : bytes) (es : list entry) (records : gmap string Record_) (off : Z) : Prop :=
  Forall entry_ok es ∧ NoDup (path_of <$> es) ∧ slice payload 4 off = concat (encode_entry <$> es) ∧
  off = 4 + len (concat (encode_entry <$> es)) ∧ off ≤ len payload ∧ records = record_map es.

Lemma parse_loop_iff (payload : bytes) n records off :
  bytes_ok payload → 4 ≤ len payload →
  foldM (parse_record payload) (∅, 4) (range 0 (Z.of_nat n)) = Ok (records, off) ↔
  ∃ es, length es = n ∧ entries_read payload es records off.
Proof.
  intros Hok Hl. revert records off. induction n as [|n IH]; intros records off.
  { rewrite range_empty by lia. cbn [foldM]. split.
    - intros [= <- <-]. exists []. split; [done|]. split_and!; try done; [constructor..|].
      by apply slice_empty.
    - intros (es & Hn & _ & _ & _ & -> & _ & ->). by destruct es. }
  rewrite Nat2Z.inj_succ, <-Z.add_1_r, range_snoc, foldM_app by lia. split.
  - intros ([recs o] & Hrun & H)%bind_Ok_inv.
    apply IH in Hrun as (es & Hn & Hes & Hnd & Hs & Ho & Hle & ->).
    pose proof (len_nonneg (concat (encode_entry <$> es))).
    cbn [foldM] in H. apply bind_Ok_inv in H as ([recs' o'] & H & [= -> ->]).
    apply parse_record_Ok in H as (e & He & Hse & Hoff & Hle' & Hnone & ->); [|done|lia].
    pose proof (len_nonneg (encode_entry e)). apply record_map_None in Hnone.
    exists (es ++ [e]). split; [rewrite length_app; simpl; lia|]. unfold entries_read.
    rewrite !fmap_app, concat_app, len_app. cbn [concat fmap list_fmap]. rewrite app_nil_r. split_and!; try lia.
    + by apply Forall_app_2, Forall_singleton.
    + apply NoDup_app. split_and!; [done| |apply NoDup_singleton].
      by intros p Hp ->%list_elem_of_singleton.
    + rewrite <-(slice_app_join _ 4 o off) by lia. by rewrite Hs, Hse.
    + by rewrite record_map_snoc.
  - intros (es & Hn & Hes & Hnd & Hs & Ho & Hle & ->).
    destruct es as [|e es' _] using rev_ind; [done|]. rewrite length_app in Hn. simpl in Hn.
    rewrite !fmap_app, concat_app in *. cbn [concat fmap list_fmap] in *. rewrite app_nil_r in *.
    apply Forall_app in Hes as [Hes He]. apply Forall_cons in He as [He _]. apply NoDup_app in Hnd as (Hnd & Hx & _).
    rewrite len_app in Ho. set (mid := 4 + len (concat (encode_entry <$> es'))).
    pose proof (len_nonneg (concat (encode_entry <$> es'))). pose proof (len_nonneg (encode_entry e)).
    assert (path_of e ∉ path_of <$> es') as Hp by (intros Hp; by apply (Hx _ Hp), list_elem_of_singleton).
    assert (slice payload 4 mid = concat (encode_entry <$> es') ∧ slice payload mid off = encode_entry e) as [H1 H2].
    { apply app_inj_1; [|by rewrite slice_app_join by lia].
      assert (len (slice payload 4 mid) = mid - 4) as HL by (rewrite len_slice; lia). unfold len in *. lia. }
    rewrite (proj2 (IH (record_map es') mid)), bind_ok.
    2: { exists es'. split; [lia|]. split_and!; try done; lia. }
    cbn [foldM]. rewrite (parse_record_entry payload _ mid _ e); try done; try lia.
    2: { by replace (mid + len (encode_entry e)) with off by lia. }
    rewrite bool_decide_eq_false_2 by (rewrite <-eq_None_not_Some; by apply record_map_None).
    rewrite bind_ok. rewrite record_map_snoc by done. do 2 f_equal. lia.
Qed.

Lemma encoded_count (es : list entry) l : 0 ≤ len es < 2 ^ 32 → field (le_bytes 4 (len es) ++ l) 0 4 = len es.
Proof. intros. apply field_head; try done; lia. Qed.

(** [parse_payload] accepts exactly the encodings of its header's entries. *)
Lemma parse_payload_iff (payload : bytes) h records :
  bytes_ok payload → len payload < 2 ^ 32 →
  parse_payload payload h = Ok records ↔
  ∃ es, Forall entry_ok es ∧ NoDup (path_of <$> es) ∧ payload = encode_payload es ∧
        len payload = payload_length h ∧ crc32 payload = payload_crc32 h ∧ len es = record_count h ∧
        records = record_map es.
Proof.
  intros Hok Hmax. unfold parse_payload, error_if.
  rewrite !guard_iff, !negb_false_iff, !Z.eqb_eq, Z.ltb_ge, crc_land by done. split.
  - intros (Hn & Hcrc & Hl & Hc & ([recs off] & Hrun & H)%bind_Ok_inv).
    apply guard_iff in H as [Hoff [= ->]]. apply negb_false_iff, Z.eqb_eq in Hoff as ->.
    pose proof (field_bound payload 0 4 32 Hok ltac:(lia) ltac:(lia) ltac:(lia) eq_refl) as Hb.
    rewrite <-(Z2Nat.id (field payload 0 4)) in Hrun by lia.
    apply parse_loop_iff in Hrun as (es & Hes & He & Hnd & Hs & _ & _ & ->); [|done..].
    assert (len es = field payload 0 4) as Hlen by (unfold len; lia).
    exists es. split_and!; try done; [|lia]. unfold encode_payload. rewrite Hlen, <-Hs.
    rewrite <-(slice_field payload 0 4 (len payload)) by (done || lia). by rewrite slice_full.
  - intros (es & He & Hnd & Hp & Hn & Hcrc & Hc & ->).
    set (body := concat (encode_entry <$> es)) in *. pose proof (len_nonneg es). pose proof (len_nonneg body).
    assert (len payload = 4 + len body) as Hl.
    { rewrite Hp. unfold encode_payload. fold body. rewrite len_app, len_le_bytes by lia. done. }
    assert (len es ≤ len body) as Hle.
    { unfold body. clear. induction es as [|e es IH]; [done|]. cbn [fmap list_fmap concat].
      rewrite len_cons, len_app, len_encode_entry.
      pose proof (len_nonneg (B (path_of e))). pose proof (len_nonneg e.2). unfold fmap in *. lia. }
    assert (field payload 0 4 = len es) as Hf by (rewrite Hp; apply encoded_count; lia).
    split; [done|]. split; [done|]. split; [lia|]. split; [lia|].
    rewrite Hf. change (len es) with (Z.of_nat (length es)).
    rewrite (proj2 (parse_loop_iff payload (length es) (record_map es) (len payload) Hok ltac:(lia))), bind_ok.
    + by rewrite guard_iff, negb_false_iff, Z.eqb_eq.
    + exists es. split; [done|]. split_and!; try done.
      rewrite Hp at 1. unfold encode_payload. fold body.
      rewrite slice_app_r by (rewrite ?len_le_bytes; lia). rewrite len_le_bytes by lia.
      apply slice_full. lia.
Qed.

(** ** Headers *)

Lemma len_header_with h crc : len (header_with h crc) = 48.
Proof. unfold header_with. rewrite !len_app, !len_le_bytes by lia. reflexivity. Qed.

Definition header_ok (h : Header) : Prop :=
  0 ≤ generation h < 2 ^ 64 ∧ 4 ≤ payload_length h ≤ PERSIST_MAX_PAYLOAD_BYTES ∧
  0 ≤ payload_crc32 h < 2 ^ 32 ∧ 0 ≤ slot h < 2 ^ 32 ∧ 0 ≤ record_count h < 2 ^ 32.

Lemma header_with_crc h crc : put (header_with h crc) 40 [0; 0; 0; 0] = header_with h 0.
Proof.
  unfold header_with. rewrite !app_assoc. rewrite <-!(app_assoc _ (le_bytes 4 _) (le_bytes 4 COMMIT_MARKER)).
  apply put_mid; [|by rewrite len_le_bytes by lia]. rewrite !len_app, !len_le_bytes by lia. reflexivity.
Qed.

Lemma encoded_header_block h (padding : bytes) :
  header_ok h → header_block (slot h) (encode_header h ++ padding) h.
Proof.
  intros (?&?&?&?&?). pose proof (len_nonneg padding). unfold encode_header.
  set (crc := crc32 (header_with h 0)). pose proof (len_header_with h crc) as HL.
  assert (word32 crc) as Hcrc.
  { apply crc32_word32. unfold header_with. rewrite !bytes_ok_app.
    split_and!; try (apply bytes_ok_le_bytes; lia). apply bytes_ok_B. }
  assert (∀ a b, 0 ≤ a → a ≤ b → b ≤ 48 → field (header_with h crc ++ padding) a b = field (header_with h crc) a b) as Hp.
  { intros. unfold field. by rewrite slice_app_l by lia. }
  assert (∀ a b, 8 ≤ a → a ≤ b → field (header_with h crc) a b =
    field (drop 8 (header_with h crc)) (a - 8) (b - 8)) as Hm.
  { intros. unfold field, header_with. by rewrite slice_app_r by done. }
  unfold header_block, header_fields, header_crc. rewrite !Hp, !Hm by lia.
  rewrite (slice_app_l (header_with h crc) padding 0 48), (slice_full (header_with h crc) 48), header_with_crc by lia.
  unfold word32, PERSIST_MAX_PAYLOAD_BYTES in *. unfold header_with at 2 3 4 5 6 7 8 9 10.
  change (drop 8 (HEADER_MAGIC ++ ?l)) with l.
  split; [|read_fields]. split_and!; try done; try read_fields; try lia.
  rewrite slice_app_l by lia. reflexivity.
Qed.

(** ** The journal in an image *)

Lemma slot_base first s : 0 ≤ first → 0 ≤ s → 0 ≤ (first + 2 + s * 128) * 512.
Proof. nia. Qed.

(** The bytes of the payload that a header names. *)
Definition payload_bytes (image : bytes) (first : Z) (h : Header) : bytes :=
  let base := (first + 2 + slot h * 128) * 512 in slice image base (base + payload_length h).

(** An image in which the slot of [h] holds the entries [es]. *)
Definition slot_holds (image : bytes) (first : Z) (h : Header) (es : list entry) : Prop :=
  header_ok h ∧ Forall entry_ok es ∧ NoDup (path_of <$> es) ∧ len es = record_count h ∧
  len (encode_payload es) = payload_length h ∧ crc32 (encode_payload es) = payload_crc32 h ∧
  (let base := (first + slot h) * 512 in
   base + 512 ≤ len image ∧ slice image base (base + 48) = encode_header h) ∧
  payload_bytes image first h = encode_payload es.

Lemma parse_records_entries image first h records :
  bytes_ok image → 0 ≤ first → 0 ≤ slot h → 0 ≤ payload_length h ≤ PERSIST_MAX_PAYLOAD_BYTES →
  parse_records image first h 512 = Ok records ↔
  ∃ es, Forall entry_ok es ∧ NoDup (path_of <$> es) ∧ payload_bytes image first h = encode_payload es ∧
        len (encode_payload es) = payload_length h ∧ crc32 (encode_payload es) = payload_crc32 h ∧
        len es = record_count h ∧ records = record_map es.
Proof.
  unfold PERSIST_MAX_PAYLOAD_BYTES. intros Hok Hf Hs Hl. rewrite parse_records_eq by lia. cbv zeta.
  fold (payload_bytes image first h). pose proof (slot_base first (slot h) Hf Hs).
  assert (len (payload_bytes image first h) < 2 ^ 32) as Hmax.
  { unfold payload_bytes. rewrite len_slice_clip by lia. lia. }
  rewrite parse_payload_iff; [|by apply bytes_ok_slice|done].
  split; intros (es & ? & ? & E & ? & ? & ? & ->); exists es; rewrite E in *; by split_and!.
Qed.

(** (C21) The reader of the journal accepts exactly the format: the records that
    [parse_records] returns for a header are those of a list of well-formed entries
    with distinct paths whose encoding is the payload in the image, of the length,
    count and CRC that the header gives - and it returns them whenever there is such
    a list. *)
Theorem parse_records_iff image first h records :
  bytes_ok image → 0 ≤ first → 0 ≤ slot h → 0 ≤ payload_length h ≤ PERSIST_MAX_PAYLOAD_BYTES →
  parse_records image first h 512 = Ok records ↔
  ∃ es, Forall entry_ok es ∧ NoDup (path_of <$> es) ∧ payload_bytes image first h = encode_payload es ∧
        len (encode_payload es) = payload_length h ∧ crc32 (encode_payload es) = payload_crc32 h ∧
        len es = record_count h ∧ records = record_map es.
Proof. apply parse_records_entries. Qed.

Lemma slot_holds_reads image first h es :
  bytes_ok image → 0 ≤ first → slot_holds image first h es →
  parse_header image first (slot h) 512 = Ok (Some h) ∧
  parse_records image first h 512 = Ok (record_map es).
Proof.
  intros Hok Hf (Hh & He & Hnd & Hc & Hl & Hcrc & [Hb Hhd] & Hp). split.
  - destruct Hh as (Hg & Hpl & Hpc & Hs & Hrc). apply parse_header_iff; [done|lia..|]. split; [done|].
    set (base := (first + slot h) * 512) in *.
    rewrite <-(slice_app_join _ base (base + 48)), Hhd by lia. by apply encoded_header_block.
  - destruct Hh as (Hg & Hpl & Hpc & Hs & Hrc). apply parse_records_entries; [done|lia..|].
    by exists es.
Qed.

(** (C31) Round trip of a journal slot: a committed slot written in the on-disk
    format - the header and the payload of any entries with distinct ASCII paths -
    reads back as that header and exactly those records. *)
Theorem journal_round_trip image first h es :
  bytes_ok image → 0 ≤ first → slot_holds image first h es →
  parse_header image first (slot h) 512 = Ok (Some h) ∧
  parse_records image first h 512 = Ok (record_map es).
Proof. apply slot_holds_reads. Qed.

Lemma header_corruption_reads (image : bytes) first s h o mask image' hashes :
  bytes_ok image → 0 ≤ first → s = 0 ∨ s = 1 → o < 48 →
  parse_header image first s 512 = Ok (Some h) →
  corrupt_block_byte image (first + s) o mask 512 = Ok (image', hashes) →
  (∃ message, parse_header image' first s 512 = Err (RuntimeError message) ∧
     (40 ≤ o < 44 → message = "slot {slot}: persistence header CRC mismatch")) ∧
  parse_header image' first (1 - s) 512 = parse_header image first (1 - s) 512 ∧
  (∀ h', 0 ≤ slot h' → 0 ≤ payload_length h' → parse_records image' first h' 512 = parse_records image first h' 512).
Proof.
  intros Hok Hf Hs Ho Hp Hc. apply corrupt_Ok in Hc as (Ho' & Hl & a & b & Ha & _ & Hne & Hb & ->); [|lia].
  apply parse_header_iff in Hp as [_ Hh]; [|done|lia..]. set (base := (first + s) * 512) in *.
  destruct (changed_block image base 512 o a b) as [Eb Ea]; [lia..|done|].
  set (block := slice image base (base + 512)) in *. set (image' := put image (base + o) [b]) in *.
  assert (bytes_ok image') as Hok' by (apply bytes_ok_put; [done|by apply Forall_singleton]).
  assert (len block = 512) as Lb by (unfold block; rewrite len_slice; lia).
  assert (bytes_ok block) as Hbk by by apply bytes_ok_slice.
  assert (len image' = len image) as Li by (apply len_put; rewrite ?len_cons, ?len_nil; lia).
  split_and!.
  - destruct (parse_header image' first s 512) as [[h'|]|e] eqn:E.
    + apply parse_header_iff in E as [_ E]; [|done|lia..]. fold base in E. rewrite Eb in E.
      by apply (header_byte_detected s block h o a b Hbk ltac:(lia) Hh ltac:(lia) Ea Hb Hne h') in E.
    + exfalso. revert E. apply parse_header_None; [lia..|]. cbv zeta. fold base. rewrite Eb.
      apply (header_block_nonzero s block o a b h); [lia..|done|done].
    + destruct (parse_header_Err image' first s 512 e ltac:(lia) ltac:(lia) E) as (m & ->). exists m.
      split; [done|]. intros Hcrc. rewrite (parse_header_crc image' first s 512 h) in E; try done; try lia.
      * destruct (_ =? _); [done|]. by injection E.
      * fold base. rewrite Eb. destruct Hh as [Hh _]. revert Hh. unfold header_fields, field.
        by rewrite !slice_put_ne by (rewrite ?len_cons, ?len_nil; lia).
  - apply parse_header_frame; [lia..|]. cbv zeta. apply slice_changed; lia.
  - intros h' ? ?. rewrite !parse_records_eq by lia. cbv zeta. unfold image'. by rewrite slice_changed by lia.
Qed.

(** (C6) The header corruption of the test is always detected.  In an image where
    slot [s] of the journal holds a committed header, whichever byte of that header
    [corrupt_block_byte] changes with whatever mask, the slot is rejected - for a
    byte of the stored CRC, with the CRC error itself - while the other slot's
    header and every payload still read as before. *)
Theorem header_corruption_detected (image : bytes) first s h o mask image' hashes :
  bytes_ok image → 0 ≤ first → s = 0 ∨ s = 1 → o < 48 →
  parse_header image first s 512 = Ok (Some h) →
  corrupt_block_byte image (first + s) o mask 512 = Ok (image', hashes) →
  (∃ message, parse_header image' first s 512 = Err (RuntimeError message) ∧
     (40 ≤ o < 44 → message = "slot {slot}: persistence header CRC mismatch")) ∧
  parse_header image' first (1 - s) 512 = parse_header image first (1 - s) 512 ∧
  (∀ h', 0 ≤ slot h' → 0 ≤ payload_length h' → parse_records image' first h' 512 = parse_records image first h' 512).
Proof. apply header_corruption_reads. Qed.


Lemma payload_corruption_reads (image : bytes) first s h records o mask image' hashes :
  bytes_ok image → 0 ≤ first → s = 0 ∨ s = 1 →
  parse_header image first s 512 = Ok (Some h) → parse_records image first h 512 = Ok records →
  o < payload_length h →
  corrupt_block_byte image (slot_payload_lba first s 512) o mask 512 = Ok (image', hashes) →
  parse_records image' first h 512 = Err (RuntimeError "slot {header.slot}: persistence payload CRC mismatch") ∧
  (∀ s', s' = 0 ∨ s' = 1 → parse_header image' first s' 512 = parse_header image first s' 512) ∧
  (∀ h', slot h' = 1 - s → 0 ≤ payload_length h' ≤ PERSIST_MAX_PAYLOAD_BYTES →
         parse_records image' first h' 512 = parse_records image first h' 512).
Proof.
  intros Hok Hf Hs Hp Hr Ho Hc. rewrite payload_offset in Hc.
  apply corrupt_Ok in Hc as (Ho' & Hl & a & b & Ha & _ & Hne & Hb & ->); [|lia].
  apply parse_header_iff in Hp as [_ [(_&_&_&_&_&Hpl&_&_&_&_&Hsl) _]]; [|done|lia..].
  unfold PERSIST_MAX_PAYLOAD_BYTES in *. set (base := (first + 2 + s * 128) * 512) in *.
  pose proof (slot_base first s Hf ltac:(lia)) as Hbase. fold base in Hbase.
  assert (first * 512 + 1024 ≤ base ∧ base = first * 512 + 1024 + s * 65536) as [Hb1 Hb2] by (unfold base; lia).
  split_and!.
  - rewrite parse_records_eq in Hr |- * by (rewrite ?Hsl; lia). rewrite Hsl in *. cbv zeta in *. fold base in Hr |- *.
    set (payload := slice image base (base + payload_length h)) in *.
    unfold parse_payload, error_if in Hr. rewrite !guard_iff, !negb_false_iff, !Z.eqb_eq in Hr.
    destruct Hr as (Hn & Hcrc & _).
    assert (base + payload_length h ≤ len image) as Hin.
    { unfold payload in Hn. rewrite len_slice_clip in Hn by lia. lia. }
    destruct (changed_block image base (payload_length h) o a b) as [-> Ea]; [lia..|done|]. fold payload in Ea |- *.
    assert (bytes_ok payload) as Hpok by by apply bytes_ok_slice.
    assert (len (put payload o [b]) = payload_length h) as Hlp by (rewrite len_put; rewrite ?len_cons, ?len_nil; lia).
    assert (bytes_ok (put payload o [b])) as Hpok' by (apply bytes_ok_put; [done|by apply Forall_singleton]).
    rewrite crc_land in Hcrc by done. unfold parse_payload, error_if. rewrite crc_land by done. pass_guard lia.
    stop_guard ltac:(apply negb_true_iff, Z.eqb_neq; rewrite <-Hcrc; by apply (crc32_put payload o a b); [|lia|..]).
  - intros s' Hs'. apply parse_header_frame; [lia..|]. cbv zeta. apply slice_changed; lia.
  - intros h' Hs' Hl'. rewrite !parse_records_eq by lia. cbv zeta. rewrite Hs'. rewrite slice_changed; [done|lia..].
Qed.

(** (C9) The payload corruption of the test is always detected.  In an image where
    slot [s] holds a committed header and a payload that reads, whichever of the
    payload's first 512 bytes [corrupt_block_byte] changes with whatever mask, reading
    the payload fails with the CRC error, while both headers and the other slot's
    payload still read as before. *)
Theorem payload_corruption_detected (image : bytes) first s h records o mask image' hashes :
  bytes_ok image → 0 ≤ first → s = 0 ∨ s = 1 →
  parse_header image first s 512 = Ok (Some h) → parse_records image first h 512 = Ok records →
  o < payload_length h →
  corrupt_block_byte image (slot_payload_lba first s 512) o mask 512 = Ok (image', hashes) →
  parse_records image' first h 512 = Err (RuntimeError "slot {header.slot}: persistence payload CRC mismatch") ∧
  (∀ s', s' = 0 ∨ s' = 1 → parse_header image' first s' 512 = parse_header image first s' 512) ∧
  (∀ h', slot h' = 1 - s → 0 ≤ payload_length h' ≤ PERSIST_MAX_PAYLOAD_BYTES →
         parse_records image' first h' 512 = parse_records image first h' 512).
Proof. apply payload_corruption_reads. Qed.

(** ** The errors of the readers *)

Lemma parse_record_Err (payload : bytes) records off i e :
  bytes_ok payload → 0 ≤ off → parse_record payload (records, off) i = Err e → runtime_error e.
Proof.
  intros Hok Hoff. unfold parse_record, RECORD_HEADER_SIZE. intros H.
  apply bind_Err_inv in H as [H|([] & Hg & H)]; [by apply error_if_Err in H|].
  apply raise_if_Ok, Z.ltb_ge in Hg.
  destruct (get_item_in_range payload off ltac:(lia)) as (k & Hk & _).
  destruct (get_item_in_range payload (off + 1) ltac:(lia)) as (pl & Hpl & _).
  rewrite Hk, bind_ok, Hpl, bind_ok in H.
  apply bind_Err_inv in H as [H|([] & _ & H)]; [by apply error_if_Err in H|].
  destruct (decode_ascii _) as [name|err] eqn:Hd.
  - apply bind_Err_inv in H as [H|([] & _ & H)]; [by apply error_if_Err in H|done].
  - unfold decode_ascii in Hd. destruct (forallb _ _); [done|]. injection Hd as <-. injection H as <-. by eexists.
Qed.

Lemma parse_loop_Err (payload : bytes) n e :
  bytes_ok payload → 4 ≤ len payload →
  foldM (parse_record payload) (∅, 4) (range 0 (Z.of_nat n)) = Err e → runtime_error e.
Proof.
  intros Hok Hl. induction n as [|n IH]; [by rewrite range_empty by lia|].
  rewrite Nat2Z.inj_succ, <-Z.add_1_r, range_snoc, foldM_app by lia.
  intros [H|([recs off] & Hrun & H)]%bind_Err_inv; [by apply IH|].
  apply parse_loop_iff in Hrun as (es & _ & _ & _ & _ & -> & _); [|done..].
  cbn [foldM] in H. apply bind_Err_inv in H as [H|([] & _ & ?)]; [|done].
  apply parse_record_Err in H; [done..|]. pose proof (len_nonneg (concat (encode_entry <$> es))). lia.
Qed.

Lemma parse_records_Err image first h e :
  bytes_ok image → 0 ≤ first → 0 ≤ slot h → 0 ≤ payload_length h →
  parse_records image first h 512 = Err e → runtime_error e.
Proof.
  intros Hok Hf Hs Hn. pose proof (slot_base first (slot h) Hf Hs). rewrite parse_records_eq by lia. cbv zeta.
  fold (payload_bytes image first h). set (payload := payload_bytes image first h).
  assert (bytes_ok payload) as Hpok by by apply bytes_ok_slice. unfold parse_payload. intros Herr.
  do 2 (apply bind_Err_inv in Herr as [Herr|([] & _ & Herr)]; [by apply error_if_Err in Herr|]).
  apply bind_Err_inv in Herr as [Herr|([] & Hl & Herr)]; [by apply error_if_Err in Herr|].
  apply raise_if_Ok, Z.ltb_ge in Hl.
  apply bind_Err_inv in Herr as [Herr|([] & _ & Herr)]; [by apply error_if_Err in Herr|].
  apply bind_Err_inv in Herr as [Herr|([recs off] & _ & Herr)].
  - destruct (field_bound payload 0 4 32 Hpok) as [? _]; [lia..|].
    rewrite <-(Z2Nat.id (field payload 0 4)) in Herr by lia. by apply parse_loop_Err in Herr.
  - apply bind_Err_inv in Herr as [Herr|([] & _ & Herr)]; [by apply error_if_Err in Herr|done].
Qed.

(** The readers of the journal are total: on any image, for any slot and any
    header with a non-negative payload length, [parse_header], [parse_records] and
    [timestamp_record] return a result or raise [RuntimeError] - never the
    [IndexError], [UnicodeDecodeError], [KeyError] or [OSError] of the operations they
    are written with. *)
Theorem journal_errors image first s h e :
  bytes_ok image → 0 ≤ first → 0 ≤ s → 0 ≤ slot h → 0 ≤ payload_length h →
  parse_header image first s 512 = Err e ∨ parse_records image first h 512 = Err e ∨
  timestamp_record image first h = Err e → runtime_error e.
Proof.
  intros Hok Hf Hs Hh Hn [H|[H|H]].
  - eapply parse_header_Err; [| |exact H]; lia.
  - by apply parse_records_Err in H.
  - unfold timestamp_record in H. apply bind_Err_inv in H as [H|(records & _ & H)]; [by apply parse_records_Err in H|].
    destruct (records !! TIMESTAMP_TARGET); [|by injection H as <-; eexists].
    apply bind_Err_inv in H as [H|([] & _ & H)]; [by apply error_if_Err in H|done].
Qed.

(** ** An example *)

Definition example_entries : list entry :=
  [(mk_Record 1 "config" 493 1 1 1 1 0 0, []); (mk_Record 2 TIMESTAMP_TARGET 420 2 3 3 2 0 0, B "data")].
Definition example_payload : bytes := encode_payload example_entries.
Definition example_header : Header :=
  mk_Header 0 3 (len example_payload) (crc32 example_payload) (len example_entries).
Definition example_image : bytes := encode_header example_header ++ zeros 976 ++ example_payload ++ zeros 512.

Lemma example_holds : bytes_ok example_image ∧ slot_holds example_image 0 example_header example_entries.
Proof.
  assert (Forall entry_ok example_entries) as He.
  { repeat apply Forall_cons_2; [..|apply Forall_nil_2]; (split; [|split; [by apply bytes_okb_spec|done]]);
      unfold record_ok; by split_and!. }
  assert (len example_payload = 127) as Hl by (vm_compute; reflexivity).
  assert (bytes_ok example_payload) as Hp by (apply bytes_okb_spec; vm_compute; reflexivity).
  pose proof (crc32_word32 _ Hp) as Hc. unfold word32 in Hc.
  assert (header_ok example_header) as Hh.
  { unfold header_ok, example_header. cbn [generation payload_length payload_crc32 slot record_count].
    rewrite Hl. unfold PERSIST_MAX_PAYLOAD_BYTES. change (len example_entries) with 2. clear -Hc.
    revert Hc. generalize (crc32 example_payload) as c. lia. }
  assert (len (encode_header example_header) = 48) as Lh by apply len_header_with.
  split.
  - apply bytes_okb_spec. vm_compute. reflexivity.
  - unfold slot_holds. cbv zeta. change (slot example_header) with 0.
    apply conj; [exact Hh|]. apply conj; [exact He|]. apply conj.
    { apply NoDup_cons. split; [|apply NoDup_singleton]. by intros ?%list_elem_of_singleton. }
    apply conj; [reflexivity|]. apply conj; [exact (eq_refl (len example_payload))|].
    apply conj; [exact (eq_refl (crc32 example_payload))|]. apply conj; [split|].
    + unfold example_image. rewrite !len_app, !len_zeros, Lh, Hl by lia. done.
    + unfold example_image. by rewrite slice_app_l, slice_full by lia.
    + unfold payload_bytes, example_image. change (slot example_header) with 0.
      change (payload_length example_header) with (len example_payload). rewrite Hl.
      rewrite slice_app_r, Lh by lia. rewrite slice_app_r, len_zeros by (rewrite ?len_zeros; lia).
      by rewrite slice_app_l, slice_full by lia.
Qed.

Lemma example_corrupts :
  is_ok (corrupt_block_byte example_image 0 40 0xA5 512) &&
  is_ok (corrupt_block_byte example_image (slot_payload_lba 0 0 512) 4 0xA5 512) = true.
Proof. vm_compute. reflexivity. Qed.

Lemma parse_records_iff_witness :
  parse_records example_image 0 example_header 512 = Ok (record_map example_entries).
Proof.
  destruct example_holds as [Hok (Hh & He & Hnd & Hc & Hl & Hcrc & _ & Hp)]. destruct Hh as (_ & Hlen & _).
  assert (0 ≤ payload_length example_header ≤ PERSIST_MAX_PAYLOAD_BYTES) as Hn by lia.
  apply (parse_records_iff example_image 0 example_header _ Hok (Z.le_refl 0) (Z.le_refl 0) Hn).
  exists example_entries. exact (conj He (conj Hnd (conj Hp (conj Hl (conj Hcrc (conj Hc eq_refl)))))).
Defined.

Lemma journal_round_trip_witness :
  parse_header example_image 0 0 512 = Ok (Some example_header) ∧
  parse_records example_image 0 example_header 512 = Ok (record_map example_entries).
Proof.
  destruct example_holds as [Hok Hh].
  exact (journal_round_trip example_image 0 example_header example_entries Hok (Z.le_refl 0) Hh).
Defined.

Lemma header_corruption_detected_witness :
  ∃ image' hashes, corrupt_block_byte example_image 0 40 0xA5 512 = Ok (image', hashes) ∧
    parse_header image' 0 0 512 = Err (RuntimeError "slot {slot}: persistence header CRC mismatch").
Proof.
  destruct example_holds as [Hok Hh]. destruct (slot_holds_reads _ _ _ _ Hok (Z.le_refl 0) Hh) as [Hp _].
  destruct (andb_prop _ _ example_corrupts) as [Hc _].
  destruct (corrupt_block_byte example_image 0 40 0xA5 512) as [[image' hashes]|] eqn:E; [|discriminate].
  exists image', hashes. split; [done|].
  destruct (header_corruption_detected example_image 0 0 example_header 40 0xA5 image' hashes) as [(m & H & Hm) _];
    [done|lia|by left|lia|done|done|]. rewrite H, Hm by lia. done.
Defined.

Lemma payload_corruption_detected_witness :
  ∃ image' hashes, corrupt_block_byte example_image (slot_payload_lba 0 0 512) 4 0xA5 512 = Ok (image', hashes) ∧
    parse_records image' 0 example_header 512 =
      Err (RuntimeError "slot {header.slot}: persistence payload CRC mismatch").
Proof.
  destruct example_holds as [Hok Hh]. destruct (slot_holds_reads _ _ _ _ Hok (Z.le_refl 0) Hh) as [Hp Hr].
  destruct (andb_prop _ _ example_corrupts) as [_ Hc].
  destruct (corrupt_block_byte example_image (slot_payload_lba 0 0 512) 4 0xA5 512) as [[image' hashes]|] eqn:E;
    [|discriminate]. exists image', hashes. split; [done|].
  destruct (payload_corruption_detected example_image 0 0 example_header (record_map example_entries) 4 0xA5
              image' hashes) as [H _]; [done|lia|by left|done|done|reflexivity|done|done].
Defined.

Lemma journal_errors_witness : ∃ e, parse_header [] 0 0 512 = Err e ∧ runtime_error e.
Proof.
  exists (RuntimeError "persistence header read was truncated"). split; [reflexivity|].
  apply (journal_errors [] 0 0 example_header); [constructor|done|done|done|discriminate|by left].
Defined.


End JournalSpec.
