(* ===== verification/PyText.v ===== *)
(** * Python text operations

    [strip], [split], [splitlines], [find] and [int] on byte strings, and the decimal
    form of an integer ([pretty], an f-string's [{n}]), as far as the test scripts use
    them. *)

From stdpp Require Import pretty.
From S2P Require Import Prelude PyBytes.

#[local] Open Scope Z_scope.

(** ** Numbers *)

Definition is_space (b : Z) : bool := ((9 <=? b) && (b <=? 13)) || ((28 <=? b) && (b <=? 32)).
Definition is_digit (b : Z) : bool := (48 <=? b) && (b <=? 57).

(** White space in a [str] and in a [bytes]. *)
Definition is_blank (b : Z) : bool := ((9 <=? b) && (b <=? 13)) || (b =? 32).

Fixpoint lstrip (space : Z → bool) (l : bytes) : bytes :=
  match l with b :: l' => if space b then lstrip space l' else l | [] => [] end.
Definition strip_by (space : Z → bool) (l : bytes) : bytes := reverse (lstrip space (reverse (lstrip space l))).
(** [str.strip] and [bytes.strip] *)
Definition strip : bytes → bytes := strip_by is_space.
Definition strip_bytes : bytes → bytes := strip_by is_blank.

(** Digits, single underscores allowed between two of them. *)
Fixpoint digits (acc : Z) (after_digit : bool) (l : bytes) : option Z :=
  match l with
  | [] => if after_digit then Some acc else None
  | b :: l =>
      if is_digit b then digits (acc * 10 + (b - 48)) true l
      else if (b =? 95) && after_digit then digits acc false l
      else None
  end.
Definition signed_digits (l : bytes) : option Z :=
  match l with
  | 45 :: l => Z.opp <$> digits 0 false l
  | 43 :: l => digits 0 false l
  | l => digits 0 false l
  end.
(** [int(l)] for a [str] and for a [bytes]; [None] is the [ValueError]; bytes above 127
    do not decode. *)
Definition parse_int (l : bytes) : option Z := signed_digits (strip l).
Definition parse_int_bytes (l : bytes) : option Z := signed_digits (strip_bytes l).

(** [str(pid) and a newline] *)
Definition pid_text (pid : Z) : bytes := B (pretty pid) ++ [10].

(** ** Lines and words *)

(** [bytes.splitlines] *)
Fixpoint splitlines_from (line : bytes) (l : bytes) : list bytes :=
  match l with
  | [] => match line with [] => [] | _ => [reverse line] end
  | 13 :: 10 :: l => reverse line :: splitlines_from [] l
  | b :: l =>
      if (b =? 10) || (b =? 13) then reverse line :: splitlines_from [] l
      else splitlines_from (b :: line) l
  end.
Definition splitlines (l : bytes) : list bytes := splitlines_from [] l.

(** [bytes.split()] on ASCII white space. *)
Fixpoint split_from (word : bytes) (l : bytes) : list bytes :=
  match l with
  | [] => match word with [] => [] | _ => [reverse word] end
  | b :: l =>
      if is_blank b then match word with [] => split_from [] l | _ => reverse word :: split_from [] l end
      else split_from (b :: word) l
  end.
Definition split (l : bytes) : list bytes := split_from [] l.

(** [l.find(p, start)] for a non-negative [start]; -1 when there is none. *)
Fixpoint find_from (index : Z) (l p : bytes) : Z :=
  if starts_with l p then index
  else match l with [] => -1 | _ :: l => find_from (index + 1) l p end.
Definition find (l p : bytes) (start : Z) : Z :=
  if len l <? start then -1 else find_from start (slice_from l start) p.

(** ** Process ids as text *)

Lemma below_10 (P : N → Prop) n : Forall P [0; 1; 2; 3; 4; 5; 6; 7; 8; 9]%N → (n < 10)%N → P n.
Proof.
  intros H Hn. rewrite Forall_forall in H. apply H, list_elem_of_In. simpl. lia.
Qed.

Lemma digits_char acc f n (l : bytes) :
  (n < 10)%N → digits acc f (Z.of_N (Ascii.N_of_ascii (pretty_N_char n)) :: l) = digits (acc * 10 + Z.of_N n) true l.
Proof.
  apply (below_10 (λ n, digits acc f (Z.of_N (Ascii.N_of_ascii (pretty_N_char n)) :: l) =
                       digits (acc * 10 + Z.of_N n) true l)). repeat constructor.
Qed.

Lemma digits_pretty_go (n : N) s f :
  (0 < n)%N → digits 0 f (B (pretty_N_go n s)) = digits (Z.of_N n) true (B s).
Proof.
  revert s f. induction (N.lt_wf_0 n) as [n _ IH]. intros s f Hn.
  rewrite pretty_N_go_step by done. destruct (decide (n < 10)%N) as [H|H].
  - rewrite N.div_small, pretty_N_go_0, N.mod_small by done. cbn [B]. rewrite digits_char by done. f_equal; lia.
  - rewrite IH by (try apply N.div_lt; try apply N.div_str_pos; lia). cbn [B].
    rewrite digits_char by (by apply N.mod_lt). f_equal.
    rewrite N2Z.inj_div, N2Z.inj_mod. pose proof (Z.div_mod (Z.of_N n) 10). lia.
Qed.

Lemma pretty_pos (p : Z) : 0 < p → pretty p = pretty_N_go (Z.to_N p) "".
Proof. intros. destruct p; try lia. reflexivity. Qed.

Definition digit_ok (b : Z) : Prop := is_digit b = true.

Lemma pretty_go_digits (n : N) s : Forall digit_ok (B s) → Forall digit_ok (B (pretty_N_go n s)).
Proof.
  revert s. induction (N.lt_wf_0 n) as [n _ IH]. intros s Hs.
  destruct (decide (n = 0)%N) as [->|Hn]; [by rewrite pretty_N_go_0|].
  rewrite pretty_N_go_step by lia. apply IH; [apply N.div_lt; lia|]. cbn [B]. constructor; [|done].
  assert (n `mod` 10 < 10)%N as Hm by (by apply N.mod_lt). revert Hm. generalize (n `mod` 10)%N as k.
  intros k. apply (below_10 (λ k, digit_ok (Z.of_N (Ascii.N_of_ascii (pretty_N_char k))))). repeat constructor.
Qed.

Lemma lstrip_digit b l : digit_ok b → lstrip is_space (b :: l) = b :: l.
Proof. unfold digit_ok, is_digit. simpl. unfold is_space. intros H. to_prop. by replace (_ || _) with false by lia. Qed.

Lemma parse_pid_text p : 0 < p → parse_int (pid_text p) = Some p.
Proof.
  intros Hp. unfold parse_int, pid_text. rewrite pretty_pos by done.
  set (t := B (pretty_N_go (Z.to_N p) "")).
  assert (Forall digit_ok t) as Ht by (apply pretty_go_digits; constructor).
  assert (digits 0 false t = Some p) as Hd.
  { unfold t. rewrite digits_pretty_go by lia. simpl. f_equal. lia. }
  assert (∀ l, Forall digit_ok l → l ≠ [] → lstrip is_space l = l) as Hl.
  { intros [|b l] Hf ?; [done|]. apply lstrip_digit. by apply Forall_cons in Hf as [? _]. }
  assert (t ≠ []) as Hne by (intros E; by rewrite E in Hd).
  assert (strip (t ++ [10]) = t) as ->.
  { unfold strip, strip_by. destruct t as [|b t']; [done|]. cbn [app]. rewrite lstrip_digit by by apply Forall_cons in Ht as [? _].
    rewrite app_comm_cons, reverse_snoc. change (lstrip is_space (10 :: ?l)) with (lstrip is_space l).
    rewrite Hl; [by rewrite reverse_involutive|by apply Forall_reverse|].
    intros E%(f_equal reverse). by rewrite reverse_involutive in E. }
  destruct t as [|b t']; [done|]. apply Forall_cons in Ht as [Hb _]. unfold digit_ok, is_digit in Hb. to_prop.
  destruct b as [|b|b]; try lia. do 6 (destruct b as [b|b|]; try lia; try exact Hd).
Qed.

