(* ===== verification/RunLock.v ===== *)
(** * The run lock of the fault-injection tests

    [process_is_running], [acquire_run_lock] and [release_run_lock] of
    [test-boot-fat-io-error.py]; [test-persistent-readonly-remount.py] has the same
    three functions with another message.  The lock is a file that holds the process
    id of its owner.

    The functions appear twice: as functions of the state of the directory, for runs
    that are not interleaved, and as a machine whose steps are the file-system calls
    of the source, for runs that are.  The theorems say that the machine run alone is
    the function, that each process finishes within a fixed number of its own steps
    under every schedule, that atomic acquisitions exclude each other - and that
    interleaved ones do not, whenever two begin together. *)

From stdpp Require Import pretty.
From S2P Require Import Prelude PyBytes PyText.

#[local] Open Scope Z_scope.

Module RunLock.

(** ** The functions *)

(** [os.kill(pid, 0)]: the process ids it succeeds for, and the C [int] bound. *)
Definition process_is_running (running : gset Z) (pid : Z) : result bool :=
  if pid <=? 0 then Ok false
  else if 2 ^ 31 <=? pid then Err OverflowError
  else Ok (bool_decide (pid ∈ running)).

(** The owner that a lock file with the given contents names. *)
Definition owner_of (contents : bytes) : Z := default 0 (parse_int contents).

(** The loop of [acquire_run_lock]; the lock file is absent or has contents. *)
Fixpoint acquire_loop (gate : string) (n : nat) (running : gset Z) (pid : Z) (lock : option bytes)
    : result (option bytes) :=
  match n with
  | O => Err (RuntimeError ("could not acquire " +:+ gate +:+ " lock"))
  | S n =>
      match lock with
      | None => Ok (Some (pid_text pid))
      | Some contents =>
          b ← process_is_running running (owner_of contents);
          raise_if b (RuntimeError (gate +:+ " is already running as PID {owner}"));;
          acquire_loop gate n running pid None
      end
  end.
Definition acquire_run_lock (gate : string) := acquire_loop gate 2.

Definition release_run_lock (pid : Z) (lock : option bytes) : option bytes :=
  match lock with
  | None => None
  | Some contents =>
      match parse_int contents with
      | Some owner => if owner =? pid then None else Some contents
      | None => Some contents
      end
  end.

(** The two instances. *)
Definition acquire_eio_lock := acquire_run_lock "FAT EIO gate".
Definition acquire_remount_lock := acquire_run_lock "persistent read-only remount gate".

(** ** The machine *)

(** Where a process is: [tries] counts the passes of the loop that are left after
    this one. *)
Inductive pc :=
  | Opening (tries : nat)
  | Reading (tries : nat)
  | Checking (tries : nat) (owner : Z)
  | Unlinking (tries : nat)
  | Writing (inode : nat)
  | Holding
  | ReadingOwner
  | Releasing
  | Finished
  | Raised (e : exn).

(** An open descriptor keeps writing to its file after the path is unlinked, so files
    have identities: [linked] is the file the lock path names. *)
Record machine := Machine {
  linked : option nat; files : gmap nat bytes; running : gset Z; procs : gmap Z pc
}.

Definition set_pc (m : machine) (p : Z) (s : pc) : machine :=
  Machine (linked m) (files m) (running m) (<[p := s]> (procs m)).
Definition lock_contents (m : machine) : option bytes := linked m ≫= λ i, files m !! i.

(** [continue], or the end of the loop. *)
Definition next_try (gate : string) (tries : nat) : pc :=
  match tries with
  | O => Raised (RuntimeError ("could not acquire " +:+ gate +:+ " lock"))
  | S tries => Opening tries
  end.

(** One system call of process [p]. *)
Definition call (gate : string) (p : Z) (s : pc) (m : machine) : option machine :=
  match s with
  | Opening tries =>
      match linked m with
      | Some _ => Some (set_pc m p (Reading tries))
      | None =>
          let i := fresh (dom (files m)) in
          Some (Machine (Some i) (<[i := []]> (files m)) (running m) (<[p := Writing i]> (procs m)))
      end
  | Reading tries => Some (set_pc m p (Checking tries (default 0 (lock_contents m ≫= parse_int))))
  | Checking tries owner =>
      Some (set_pc m p
        match process_is_running (running m) owner with
        | Err e => Raised e
        | Ok true => Raised (RuntimeError (gate +:+ " is already running as PID {owner}"))
        | Ok false => Unlinking tries
        end)
  | Unlinking tries => Some (Machine None (files m) (running m) (<[p := next_try gate tries]> (procs m)))
  | Writing i => Some (Machine (linked m) (<[i := pid_text p]> (files m)) (running m) (<[p := Holding]> (procs m)))
  | Holding => Some (set_pc m p ReadingOwner)
  | ReadingOwner =>
      Some (set_pc m p
        match lock_contents m ≫= parse_int with
        | Some owner => if owner =? p then Releasing else Finished
        | None => Finished
        end)
  | Releasing => Some (Machine None (files m) (running m) (<[p := Finished]> (procs m)))
  | Finished | Raised _ => None
  end.

Inductive event := Start (p : Z) | Step (p : Z) | Exit (p : Z).

(** A process id is reused only after its process is gone; a process may die anywhere. *)
Definition step (gate : string) (e : event) (m : machine) : option machine :=
  match e with
  | Start p =>
      if bool_decide (p ∈ running m) || (p <=? 0) || (2 ^ 31 <=? p) then None
      else Some (Machine (linked m) (files m) ({[p]} ∪ running m) (<[p := Opening 1]> (procs m)))
  | Step p => s ← procs m !! p; call gate p s m
  | Exit p =>
      if bool_decide (p ∈ running m)
      then Some (Machine (linked m) (files m) (running m ∖ {[p]}) (delete p (procs m)))
      else None
  end.

Fixpoint run (gate : string) (es : list event) (m : machine) : option machine :=
  match es with
  | [] => Some m
  | e :: es => m ← step gate e m; run gate es m
  end.

Definition idle : machine := Machine None ∅ ∅ ∅.
Definition reachable (gate : string) (m : machine) : Prop := ∃ es, run gate es idle = Some m.

(** ** The machine run alone is the functions *)

Section machine.
Context (gate : string).

Lemma acquire_cases running pid lock :
  acquire_run_lock gate running pid lock =
    match lock with
    | None => Ok (Some (pid_text pid))
    | Some contents =>
        match process_is_running running (owner_of contents) with
        | Ok false => Ok (Some (pid_text pid))
        | Ok true => Err (RuntimeError (gate +:+ " is already running as PID {owner}"))
        | Err e => Err e
        end
    end.
Proof. destruct lock as [c|]; [|done]. unfold acquire_run_lock. simpl. by destruct (process_is_running _ _) as [[]|]. Qed.

Definition linked_ok (m : machine) : Prop := ∀ i, linked m = Some i → is_Some (files m !! i).
Definition procs_ok (m : machine) : Prop :=
  ∀ p s, procs m !! p = Some s → p ∈ running m ∧ 0 < p < 2 ^ 31.
Definition inodes_ok (m : machine) : Prop := ∀ p i, procs m !! p = Some (Writing i) → is_Some (files m !! i).

(** What a call changes. *)
Lemma call_other p s m m' q : call gate p s m = Some m' → q ≠ p → procs m' !! q = procs m !! q.
Proof.
  intros H ?. destruct s; cbn [call] in H; try done; repeat (case_match; try done); simplify_eq;
    cbn [procs set_pc]; by rewrite lookup_insert_ne.
Qed.

Lemma call_own p s m m' : call gate p s m = Some m' → is_Some (procs m' !! p) ∧ running m' = running m.
Proof.
  intros H. destruct s; cbn [call] in H; try done; repeat (case_match; try done); simplify_eq;
    cbn [procs set_pc]; rewrite lookup_insert_eq; by split.
Qed.

Lemma files_grow m i c : linked_ok m → ∀ j, is_Some (files m !! j) → is_Some (<[i := c]> (files m) !! j).
Proof. intros _ j ?. destruct (decide (i = j)) as [->|?]; [by rewrite lookup_insert_eq|by rewrite lookup_insert_ne]. Qed.

Lemma linked_ok_step e m m' : linked_ok m → step gate e m = Some m' → linked_ok m'.
Proof.
  intros Hok H j. destruct e as [p|p|p]; cbn [step] in H.
  - case_match; [done|]. simplify_eq. apply Hok.
  - destruct (procs m !! p) as [s|]; [cbn in H|done].
    destruct s; cbn [call] in H; try done; repeat (case_match; try done); simplify_eq; cbn [linked files set_pc]; try done;
      try apply Hok.
    + intros [= <-]. by rewrite lookup_insert_eq.
    + intros Hj. apply files_grow; [done|]. by apply Hok.
  - case_match; [|done]. simplify_eq. apply Hok.
Qed.

Lemma procs_ok_step e m m' : procs_ok m → step gate e m = Some m' → procs_ok m'.
Proof.
  intros Hok H q s. destruct e as [p|p|p]; cbn [step] in H.
  - destruct (_ || _) eqn:E; [done|]. simplify_eq. cbn [procs running].
    rewrite !orb_false_iff, bool_decide_eq_false, Z.leb_gt, Z.leb_gt in E. destruct E as [[? ?] ?].
    rewrite lookup_insert_Some. intros [[<- _]|[? [? ?]%Hok]]; rewrite elem_of_union, elem_of_singleton; auto with lia.
  - destruct (procs m !! p) as [s'|] eqn:Hp; [cbn in H|done].
    destruct (call_own _ _ _ _ H) as [_ ->]. destruct (decide (q = p)) as [->|?]; [intros _; by eapply Hok|].
    rewrite (call_other _ _ _ _ q H) by done. apply Hok.
  - case_bool_decide; [|done]. simplify_eq. cbn [procs running]. rewrite lookup_delete_Some.
    intros [? [? ?]%Hok]. split; [|done]. rewrite elem_of_difference, elem_of_singleton. auto.
Qed.

Lemma run_inv (P : machine → Prop) es m m' :
  (∀ e m m', P m → step gate e m = Some m' → P m') → P m → run gate es m = Some m' → P m'.
Proof.
  intros Hstep. revert m. induction es as [|e es IH]; intros m Hm; cbn [run]; [by intros [= <-]|].
  destruct (step gate e m) as [m1|] eqn:E; [|done]. cbn. apply IH. by eapply Hstep.
Qed.

Lemma reachable_ok m : reachable gate m → linked_ok m ∧ procs_ok m.
Proof.
  intros [es H]. split; [eapply (run_inv linked_ok)|eapply (run_inv procs_ok)]; try exact H.
  - apply linked_ok_step.
  - done.
  - apply procs_ok_step.
  - done.
Qed.

Lemma run_step p s m m' es :
  procs m !! p = Some s → call gate p s m = Some m' → run gate (Step p :: es) m = run gate es m'.
Proof. intros Hp Hc. cbn [run step]. rewrite Hp. cbn. by rewrite Hc. Qed.

Lemma run_app es es' m : run gate (es ++ es') m = (run gate es m ≫= run gate es').
Proof.
  revert m. induction es as [|e es IH]; intros m; [done|]. cbn [run app].
  destruct (step gate e m); cbn; [apply IH|done].
Qed.

(** [n] calls of [p], of which nobody else notices more than the lock file. *)
Definition alone (n : nat) (p : Z) (m m' : machine) : Prop :=
  run gate (replicate n (Step p)) m = Some m' ∧ running m' = running m ∧
  ∀ q, q ≠ p → procs m' !! q = procs m !! q.

Lemma alone_call p s m m' : procs m !! p = Some s → call gate p s m = Some m' → alone 1 p m m'.
Proof.
  intros Hp Hc. split; [|split].
  - cbn [replicate]. by erewrite run_step.
  - by apply call_own in Hc as [_ ?].
  - intros q Hq. by eapply call_other.
Qed.

Lemma alone_trans n k p m m1 m2 : alone n p m m1 → alone k p m1 m2 → alone (n + k) p m m2.
Proof.
  intros (Hr & Hs & Hq) (Hr' & Hs' & Hq'). split; [|split].
  - rewrite replicate_add, run_app, Hr. exact Hr'.
  - by rewrite Hs', Hs.
  - intros q ?. by rewrite Hq', Hq.
Qed.

(** Creating the file and writing it. *)
Lemma alone_create p t m :
  linked m = None → procs m !! p = Some (Opening t) →
  ∃ m', alone 2 p m m' ∧ procs m' !! p = Some Holding ∧ lock_contents m' = Some (pid_text p).
Proof.
  intros Hl Hp. eexists. split.
  - eapply (alone_trans 1 1).
    + eapply alone_call; [exact Hp|cbn [call]; by rewrite Hl].
    + eapply alone_call; [apply lookup_insert_eq|done].
  - split; [apply lookup_insert_eq|]. unfold lock_contents. cbn. by rewrite lookup_insert_eq.
Qed.

(** Reading the owner of an existing file and asking whether it runs. *)
Lemma alone_check p t m c :
  is_Some (linked m) → lock_contents m = Some c → procs m !! p = Some (Opening t) →
  ∃ m', alone 3 p m m' ∧ files m' = files m ∧ lock_contents m' = Some c ∧
    procs m' !! p = Some match process_is_running (running m) (owner_of c) with
      | Err e => Raised e
      | Ok true => Raised (RuntimeError (gate +:+ " is already running as PID {owner}"))
      | Ok false => Unlinking t
      end.
Proof.
  intros [i Hl] Hc Hp. eexists. split.
  - eapply (alone_trans 1 2); [eapply alone_call; [exact Hp|cbn [call]; by rewrite Hl]|].
    eapply (alone_trans 1 1).
    + eapply alone_call; [apply lookup_insert_eq|done].
    + eapply alone_call; [apply lookup_insert_eq|done].
  - change (lock_contents (set_pc m p (Reading t))) with (lock_contents m). rewrite Hc.
    split; [done|]. split; [exact Hc|]. apply lookup_insert_eq.
Qed.

Lemma acquire_alone m p :
  linked_ok m → procs m !! p = Some (Opening 1) → ∃ n m', (n ≤ 6)%nat ∧ alone n p m m' ∧
    match acquire_run_lock gate (running m) p (lock_contents m) with
    | Ok lock => procs m' !! p = Some Holding ∧ lock_contents m' = lock
    | Err e => procs m' !! p = Some (Raised e) ∧ lock_contents m' = lock_contents m
    end.
Proof.
  intros Hlink Hp. rewrite acquire_cases. destruct (linked m) as [i|] eqn:Hl.
  2: { destruct (alone_create p 1 m Hl Hp) as (m' & H & Hs). exists 2%nat, m'.
       unfold lock_contents at 1. rewrite Hl. split; [lia|done]. }
  destruct (Hlink i Hl) as [c Hc]. assert (lock_contents m = Some c) as Hlc by (unfold lock_contents; by rewrite Hl).
  rewrite Hlc. destruct (alone_check p 1 m c) as (m3 & H3 & Hf & Hc3 & Hp3); [by rewrite Hl|done|done|].
  destruct (process_is_running _ _) as [[]|e] eqn:Hrun; [by exists 3%nat, m3; split; [lia|]| |by exists 3%nat, m3; split; [lia|]].
  set (m4 := Machine None (files m3) (running m3) (<[p := Opening 0]> (procs m3))).
  destruct (alone_create p 0 m4) as (m' & H & Hs); [done|apply lookup_insert_eq|].
  exists 6%nat, m'. split; [lia|]. split; [|done].
  apply (alone_trans 3 3 p m m3); [done|]. eapply (alone_trans 1 2 p _ m4); [|done].
  by eapply alone_call.
Qed.

Lemma release_alone m p :
  procs m !! p = Some Holding → ∃ n m', (n ≤ 3)%nat ∧ alone n p m m' ∧
    procs m' !! p = Some Finished ∧ lock_contents m' = release_run_lock p (lock_contents m).
Proof.
  intros Hp. set (m1 := set_pc m p ReadingOwner).
  assert (alone 1 p m m1) as H1 by by eapply alone_call.
  set (v := match lock_contents m ≫= parse_int with
            | Some owner => if owner =? p then Releasing else Finished | None => Finished end).
  assert (alone 2 p m (set_pc m1 p v)) as H2.
  { apply (alone_trans 1 1 p m m1); [done|]. eapply alone_call; [apply lookup_insert_eq|done]. }
  assert (v = Finished → release_run_lock p (lock_contents m) = lock_contents m → ∃ n m', (n ≤ 3)%nat ∧ alone n p m m' ∧
    procs m' !! p = Some Finished ∧ lock_contents m' = release_run_lock p (lock_contents m)) as Hkeep.
  { intros Hv Hrel. exists 2%nat, (set_pc m1 p v). rewrite Hrel. split_and!; [lia|done| |done].
    rewrite Hv. apply lookup_insert_eq. }
  unfold release_run_lock in *. destruct (lock_contents m) as [c|] eqn:Hc; cbn in v; [|by apply Hkeep].
  destruct (parse_int c) as [o|]; [|by apply Hkeep]. destruct (o =? p); [|by apply Hkeep].
  exists 3%nat, (Machine None (files m) (running m) (<[p := Finished]> (procs (set_pc m1 p v)))).
  split; [lia|]. split; [|split; [apply lookup_insert_eq|done]].
  apply (alone_trans 2 1 p m _ _ H2). eapply alone_call; [apply lookup_insert_eq|done].
Qed.

(** (C24) The functions are what the system calls do when nothing else runs: in every
    reachable state, a process about to acquire reaches, after at most six of its own
    calls and with nothing of any other process changed, the lock file and the verdict
    that [acquire_run_lock] computes; and one that holds reaches, after at most three,
    the lock file that [release_run_lock] computes. *)
Theorem machine_refines m p :
  reachable gate m →
  (procs m !! p = Some (Opening 1) → ∃ n m', (n ≤ 6)%nat ∧ alone n p m m' ∧
     match acquire_run_lock gate (running m) p (lock_contents m) with
     | Ok lock => procs m' !! p = Some Holding ∧ lock_contents m' = lock
     | Err e => procs m' !! p = Some (Raised e) ∧ lock_contents m' = lock_contents m
     end) ∧
  (procs m !! p = Some Holding → ∃ n m', (n ≤ 3)%nat ∧ alone n p m m' ∧
     procs m' !! p = Some Finished ∧ lock_contents m' = release_run_lock p (lock_contents m)).
Proof. intros [Hlink _]%reachable_ok. split; [by apply acquire_alone|apply release_alone]. Qed.

(** ** Every schedule *)

(** Own calls that a process can still make. *)
Definition rank (s : pc) : nat :=
  match s with
  | Opening tries => 4 * tries + 8
  | Reading tries => 4 * tries + 7
  | Checking tries _ => 4 * tries + 6
  | Unlinking tries => 4 * tries + 5
  | Writing _ => 4
  | Holding => 3
  | ReadingOwner => 2
  | Releasing => 1
  | Finished | Raised _ => 0
  end.

Lemma call_total p s m : rank s ≠ 0%nat → is_Some (call gate p s m).
Proof. destruct s; cbn [call rank]; try done; intros _; case_match; done. Qed.

Lemma call_rank p s m m' s' :
  call gate p s m = Some m' → procs m' !! p = Some s' → (rank s' < rank s)%nat.
Proof.
  intros H Hs. destruct s; cbn [call] in H; try done; repeat (case_match; try done); simplify_eq;
    cbn [procs set_pc] in Hs; rewrite lookup_insert_eq in Hs; simplify_eq; cbn [rank]; try lia.
  destruct tries; cbn [next_try rank]; lia.
Qed.

Definition own_step (p : Z) (e : event) : nat :=
  match e with Step q => if q =? p then 1 else 0 | _ => 0 end.
Definition own_steps (p : Z) (es : list event) : nat := sum_list_with (own_step p) es.

(** (C26) No schedule keeps a process from finishing, and none lets it loop: whatever
    the other processes do in between, including dying with the lock held, a process
    that still has calls to make can always make the next one, and it makes at most
    [rank] of them - twelve from the start of [acquire_run_lock] to the end of
    [release_run_lock]. *)
Theorem lock_calls_bounded m es m' p s :
  reachable gate m → procs m !! p = Some s → run gate es m = Some m' → Exit p ∉ es →
  ∃ s', procs m' !! p = Some s' ∧ (rank s' + own_steps p es ≤ rank s)%nat ∧
        (rank s' ≠ 0%nat → is_Some (step gate (Step p) m')).
Proof.
  intros [_ Hok]%reachable_ok. revert m s Hok. induction es as [|e es IH]; intros m s Hok Hp Hrun Hx.
  { injection Hrun as <-. exists s. split; [done|]. split; [cbn; lia|]. intros Hr. cbn [step]. rewrite Hp. by apply call_total. }
  cbn [run] in Hrun. destruct (step gate e m) as [m1|] eqn:He; [cbn in Hrun|done].
  apply not_elem_of_cons in Hx as [Hxe Hx]. pose proof (procs_ok_step _ _ _ Hok He) as Hok1.
  assert (∃ s1, procs m1 !! p = Some s1 ∧ (rank s1 + own_step p e ≤ rank s)%nat) as (s1 & Hp1 & Hr1).
  { destruct e as [q|q|q]; cbn [step] in He.
    - destruct (_ || _) eqn:E; [done|]. simplify_eq. cbn [procs]. exists s. split; [|cbn; lia].
      rewrite lookup_insert_ne; [done|]. intros ->. rewrite !orb_false_iff, bool_decide_eq_false in E.
      destruct E as [[E _] _]. by apply E, (Hok p s).
    - destruct (procs m !! q) as [sq|] eqn:Hq; [cbn in He|done]. destruct (decide (q = p)) as [->|Hne].
      + simplify_eq. destruct (call_own _ _ _ _ He) as [[s1 Hs1] _]. exists s1. split; [done|].
        pose proof (call_rank _ _ _ _ _ He Hs1). cbn [own_step]. rewrite Z.eqb_refl. lia.
      + exists s. rewrite (call_other _ _ _ _ p He) by done. split; [done|].
        cbn [own_step]. rewrite (proj2 (Z.eqb_neq _ _)) by done. lia.
    - case_bool_decide; [|done]. simplify_eq. cbn [procs]. exists s. split; [|cbn; lia].
      rewrite lookup_delete_ne; [done|]. congruence. }
  destruct (IH m1 s1 Hok1 Hp1 Hrun Hx) as (s' & Hs' & Hr' & Hn). exists s'. split; [done|].
  split; [|done]. unfold own_steps in *. cbn [sum_list_with]. lia.
Qed.

(** (C28) A lock left behind never blocks: a process that starts to acquire in any
    reachable state in which the lock file is absent, or names no running process,
    and that is then left to run, holds the lock after at most six calls, and the
    file names it. *)
Theorem stale_lock_recovered m p :
  reachable gate m → procs m !! p = Some (Opening 1) →
  match lock_contents m with
  | None => True
  | Some contents => process_is_running (running m) (owner_of contents) = Ok false
  end →
  ∃ n m', (n ≤ 6)%nat ∧ alone n p m m' ∧ procs m' !! p = Some Holding ∧
    lock_contents m' = Some (pid_text p) ∧ owner_of (pid_text p) = p.
Proof.
  intros [Hlink Hok]%reachable_ok Hp Hstale. destruct (Hok p _ Hp) as [_ Hpid].
  destruct (acquire_alone m p Hlink Hp) as (n & m' & Hn & Ha & Hr). rewrite acquire_cases in Hr.
  exists n, m'. assert (owner_of (pid_text p) = p) as Ho by (unfold owner_of; by rewrite parse_pid_text by lia).
  destruct (lock_contents m) as [c|]; [rewrite Hstale in Hr|]; destruct Hr; by split_and!.
Qed.

(** ** Exclusion *)

(** A call that removes the lock file on the way to acquiring it. *)
Definition removes_stale (e : event) (m : machine) : bool :=
  match e with
  | Step p => match procs m !! p with Some (Unlinking _) => true | _ => false end
  | _ => false
  end.
Definition quiet_step (m m' : machine) : Prop := ∃ e, step gate e m = Some m' ∧ removes_stale e m = false.

(** Between creating the lock file and giving it back. *)
Definition owning (s : pc) : bool :=
  match s with Writing _ | Holding | ReadingOwner | Releasing => true | _ => false end.
Definition owns (m : machine) (p : Z) : Prop := ∃ s, procs m !! p = Some s ∧ owning s = true.

Definition exclusive (m : machine) : Prop :=
  ∀ p, owns m p → is_Some (linked m) ∧ ∀ q, owns m q → q = p.

Lemma owns_set m p s q : owns (set_pc m p s) q ↔ if decide (q = p) then owning s = true else owns m q.
Proof.
  unfold owns, set_pc. cbn [procs]. case_decide as H.
  - subst q. rewrite lookup_insert_eq. split; [by intros (? & [= <-] & ?)|by exists s].
  - by rewrite lookup_insert_ne.
Qed.

(** Changing the state of one process without making it an owner. *)
Lemma exclusive_set m p s l f r :
  exclusive m → (owning s = true → owns m p) → (is_Some (linked m) → is_Some l ∨ ∀ q, owns m q → q = p ∧ owning s = false) →
  exclusive (Machine l f r (<[p := s]> (procs m))).
Proof.
  intros Hex Hs Hl q Hq. change (Machine l f r (<[p := s]> (procs m))) with (Machine l f r (procs (set_pc m p s))) in *.
  assert (∀ q, owns (Machine l f r (procs (set_pc m p s))) q ↔ owns (set_pc m p s) q) as E by done.
  assert (∀ q, owns (set_pc m p s) q → owns m q) as Hsub.
  { intros q'. rewrite owns_set. case_decide; [subst; apply Hs|done]. }
  apply E, owns_set in Hq as Hq'. apply E, Hsub in Hq. destruct (Hex q Hq) as [Hlq Huniq]. split.
  - cbn [linked]. destruct (Hl Hlq) as [?|Hf]; [done|]. destruct (Hf q Hq) as [-> Hn].
    rewrite decide_True in Hq' by done. congruence.
  - intros q2 H2%E%Hsub. by apply Huniq.
Qed.

Lemma exclusive_step m m' : exclusive m → quiet_step m m' → exclusive m'.
Proof.
  intros Hex (e & He & Hq). destruct e as [p|p|p]; cbn [step removes_stale] in *.
  - destruct (_ || _); [done|]. injection He as <-. apply exclusive_set; [done|done|by left].
  - destruct (procs m !! p) as [s|] eqn:Hp; [cbn in He|done].
    assert (owning s = true → owns m p) as Hown by (intros; by exists s).
    destruct s; cbn [call] in He; try done; injection He as <- || idtac.
    + destruct (linked m) as [i|] eqn:Hl.
      * injection He as <-. apply exclusive_set; [done|done|]. rewrite Hl. by left.
      * injection He as <-. intros q Hq'. split; [done|]. intros q2 Hq2. revert Hq' Hq2.
        change (owns (set_pc m p (Writing (fresh (dom (files m))))) q →
                owns (set_pc m p (Writing (fresh (dom (files m))))) q2 → q2 = q).
        rewrite !owns_set. repeat case_decide; subst; try done; intros H1 H2;
          exfalso; [destruct (Hex _ H2)|destruct (Hex _ H1)|destruct (Hex _ H1)]; rewrite Hl in *; by destruct (is_Some_None (A:=nat)).
    + apply exclusive_set; [done|done|by left].
    + apply exclusive_set; [done| |by left]. by destruct (process_is_running _ _) as [[]|].
    + apply exclusive_set; [done|by intros; apply Hown|by left].
    + apply exclusive_set; [done|by intros; apply Hown|by left].
    + apply exclusive_set; [done|by intros; apply Hown|by left].
    + apply exclusive_set; [done|done|]. right. intros q Hq'. split; [|done].
      destruct (Hex p (Hown eq_refl)) as [_ Hu]. by apply Hu.
  - case_bool_decide; [|done]. injection He as <-. intros q (s & Hs & Ho).
    assert (∀ q, owns (Machine (linked m) (files m) (running m ∖ {[p]}) (delete p (procs m))) q → owns m q) as Hsub.
    { intros q' (s' & Hs' & ?). cbn [procs] in Hs'. apply lookup_delete_Some in Hs' as [_ Hs']. by exists s'. }
    destruct (Hex q) as [Hl Hu]; [by apply Hsub; exists s|]. split; [exact Hl|]. intros q2 ?%Hsub. by apply Hu.
Qed.

(** (C11) Creating the lock file is what excludes: under every interleaving in which
    no process removes a lock file it believes stale, at most one process is between
    creating the file and giving it back - whatever dies meanwhile - and the file
    exists as long as it is. *)
Theorem lock_exclusive_without_recovery m :
  rtc quiet_step idle m → exclusive m.
Proof.
  intros H. apply (rtc_ind_r (R:=quiet_step) exclusive idle); [| |done].
  - intros p (s & Hs & _). unfold idle in Hs. cbn [procs] in Hs. by apply lookup_empty_Some in Hs.
  - intros m1 m2 _ Hs Hm. by apply (exclusive_step m1).
Qed.

End machine.

(** Acquisitions that do not interleave: what the lock file holds, which processes
    run and which of them hold the lock. *)
Record dir := Dir { lock_file : option bytes; live : gset Z; holders : gset Z }.

Inductive atomic_step (gate : string) : dir → dir → Prop :=
  | atomic_start d p :
      p ∉ live d → 0 < p < 2 ^ 31 → atomic_step gate d (Dir (lock_file d) ({[p]} ∪ live d) (holders d))
  | atomic_acquire d p lock :
      p ∈ live d → p ∉ holders d → 0 < p < 2 ^ 31 → acquire_run_lock gate (live d) p (lock_file d) = Ok lock →
      atomic_step gate d (Dir lock (live d) ({[p]} ∪ holders d))
  | atomic_release d p :
      p ∈ holders d → atomic_step gate d (Dir (release_run_lock p (lock_file d)) (live d) (holders d ∖ {[p]}))
  | atomic_exit d p :
      atomic_step gate d (Dir (lock_file d) (live d ∖ {[p]}) (holders d ∖ {[p]})).

Definition holder_ok (d : dir) : Prop :=
  ∀ p, p ∈ holders d → p ∈ live d ∧ 0 < p < 2 ^ 31 ∧ lock_file d = Some (pid_text p).

Lemma pid_text_inj p q : 0 < p → 0 < q → pid_text p = pid_text q → p = q.
Proof. intros Hp Hq E. apply (f_equal parse_int) in E. rewrite !parse_pid_text in E by done. by injection E. Qed.

Lemma holder_ok_unique d p q : holder_ok d → p ∈ holders d → q ∈ holders d → p = q.
Proof.
  intros H Hp Hq. destruct (H p Hp) as (_ & ? & E). destruct (H q Hq) as (_ & ? & E').
  rewrite E in E'. injection E' as E'. apply pid_text_inj; [lia..|done].
Qed.

Lemma running_owner live p : p ∈ live → 0 < p < 2 ^ 31 → process_is_running live (owner_of (pid_text p)) = Ok true.
Proof.
  intros Hp ?. unfold owner_of, process_is_running. rewrite parse_pid_text by lia. cbn [default from_option id].
  rewrite (proj2 (Z.leb_gt _ _)), (proj2 (Z.leb_gt _ _)) by lia. by rewrite bool_decide_eq_true_2.
Qed.

Lemma holder_ok_step gate d d' : holder_ok d → atomic_step gate d d' → holder_ok d'.
Proof.
  intros Hok H. destruct H as [d p Hp Hr|d p lock Hp Hn Hr Ha|d p Hp|d p]; intros q; cbn [holders live lock_file].
  - intros Hq. destruct (Hok q Hq) as (? & ? & ?). rewrite elem_of_union. by auto.
  - rewrite acquire_cases in Ha. rewrite elem_of_union, elem_of_singleton. intros [->|Hq].
    + split; [done|]. split; [done|]. destruct (lock_file d) as [c|]; [|by injection Ha].
      destruct (process_is_running _ _) as [[]|]; by simplify_eq.
    + destruct (Hok q Hq) as (Hl & Hb & Hf). by rewrite Hf, running_owner in Ha.
  - rewrite elem_of_difference, elem_of_singleton. intros [Hq Hne].
    by destruct (Hne (holder_ok_unique d q p Hok Hq Hp)).
  - rewrite !elem_of_difference, elem_of_singleton. intros [Hq ?]. by destruct (Hok q Hq) as (? & ? & ?).
Qed.

(** (C10) Invariant of the lock when acquisitions do not interleave: starting from any
    lock file, stale or garbage, with nobody holding it, and through any order of
    starts, acquisitions, releases and crashes, a process that holds the lock is
    running, the file names it, and nobody else holds it. *)
Theorem atomic_lock_invariant gate lock running d :
  rtc (atomic_step gate) (Dir lock running ∅) d →
  (∀ p, p ∈ holders d → p ∈ live d ∧ lock_file d = Some (pid_text p)) ∧
  (∀ p q, p ∈ holders d → q ∈ holders d → p = q).
Proof.
  intros H. assert (holder_ok d) as Hok.
  { apply (rtc_ind_r (R:=atomic_step gate) holder_ok (Dir lock running ∅)); [| |done].
    - intros p Hp. by apply not_elem_of_empty in Hp.
    - intros d1 d2 _ Hs Hd. by apply (holder_ok_step gate d1). }
  split; [|by intros p q; apply holder_ok_unique]. intros p Hp. by destruct (Hok p Hp) as (? & _ & ?).
Qed.

(** ** Two owners *)

(** Process 2 finds the file process 1 has created and not yet written. *)
Definition empty_file_race : list event :=
  [Start 1; Start 2; Step 1; Step 2; Step 2; Step 2; Step 2; Step 2; Step 2; Step 1].

(** Process 3 died with the lock; 1 and 2 both find it stale, and 2 removes the file
    that 1 has put in its place. *)
Definition stale_file_race : list event :=
  [Start 3; Step 3; Step 3; Exit 3; Start 1; Start 2; Step 1; Step 1; Step 1; Step 2; Step 2; Step 2;
   Step 1; Step 1; Step 1; Step 2; Step 2; Step 2].

Definition both_hold (m : option machine) : bool :=
  match m with
  | Some m =>
      match procs m !! 1, procs m !! 2 with
      | Some Holding, Some Holding => bool_decide (1 ∈ running m) && bool_decide (2 ∈ running m)
      | _, _ => false
      end
  | None => false
  end.

Lemma races_run :
  both_hold (run "FAT EIO gate" empty_file_race idle) = true ∧
  both_hold (run "FAT EIO gate" stale_file_race idle) = true.
Proof. split; vm_compute; reflexivity. Qed.

(** They are not accidents of the states they start in. *)
Section races.
Context (gate : string).

(** Removing the file found stale, and putting another one in its place. *)
Lemma alone_takeover m p t :
  procs m !! p = Some (Unlinking (S t)) →
  ∃ m', alone gate 3 p m m' ∧ procs m' !! p = Some Holding.
Proof.
  intros Hp. set (m1 := Machine None (files m) (running m) (<[p := Opening t]> (procs m))).
  destruct (alone_create gate p t m1) as (m' & H & Hh & _); [done|apply lookup_insert_eq|]. exists m'. split; [|done].
  apply (alone_trans gate 1 2 p m m1); [|done]. by eapply alone_call.
Qed.

(** Calls of [p] and [q] only. *)
Definition between (p q : Z) (es : list event) : Prop := Forall (λ e, e = Step p ∨ e = Step q) es.

Lemma between_app p q es es' : between p q es → between p q es' → between p q (es ++ es').
Proof. intros. by apply Forall_app. Qed.
Lemma between_l p q n : between p q (replicate n (Step p)).
Proof. apply Forall_replicate. by left. Qed.
Lemma between_r p q n : between p q (replicate n (Step q)).
Proof. apply Forall_replicate. by right. Qed.

(** Both find the file stale, and both put their own in its place. *)
Lemma stale_race m p q c :
  p ≠ q → procs m !! p = Some (Opening 1) → procs m !! q = Some (Opening 1) → lock_contents m = Some c →
  process_is_running (running m) (owner_of c) = Ok false →
  ∃ es m', between p q es ∧ length es = 12%nat ∧ run gate es m = Some m' ∧ running m' = running m ∧
    procs m' !! p = Some Holding ∧ procs m' !! q = Some Holding.
Proof.
  intros Hne Hp Hq Hc Hstale. assert (∀ m, lock_contents m = Some c → is_Some (linked m)) as Hlinked.
  { intros m0. unfold lock_contents. by destruct (linked m0). }
  destruct (alone_check gate p 1 m c) as (m1 & (R1 & S1 & O1) & _ & C1 & P1); [by apply Hlinked|done|done|].
  destruct (alone_check gate q 1 m1 c) as (m2 & (R2 & S2 & O2) & _ & C2 & Q2); [by apply Hlinked|done|by rewrite O1|].
  rewrite Hstale in P1. rewrite S1, Hstale in Q2.
  destruct (alone_takeover m2 p 0) as (m3 & (R3 & S3 & O3) & P3); [by rewrite O2|].
  destruct (alone_takeover m3 q 0) as (m4 & (R4 & S4 & O4) & Q4); [by rewrite O3|].
  exists (replicate 3 (Step p) ++ replicate 3 (Step q) ++ replicate 3 (Step p) ++ replicate 3 (Step q)), m4.
  split; [repeat apply between_app; (apply between_l || apply between_r)|]. split; [done|].
  split; [rewrite !run_app, R1; cbn [mbind option_bind]; rewrite run_app, R2; cbn [mbind option_bind]; by rewrite run_app, R3|].
  split; [congruence|]. split; [by rewrite O4|done].
Qed.

(** The second finds the file the first has created and not yet written. *)
Lemma empty_race m p q :
  p ≠ q → procs m !! p = Some (Opening 1) → procs m !! q = Some (Opening 1) → linked m = None →
  ∃ es m', between p q es ∧ length es = 8%nat ∧ run gate es m = Some m' ∧ running m' = running m ∧
    procs m' !! p = Some Holding ∧ procs m' !! q = Some Holding.
Proof.
  intros Hne Hp Hq Hl. set (i := fresh (dom (files m))).
  set (m1 := Machine (Some i) (<[i := []]> (files m)) (running m) (<[p := Writing i]> (procs m))).
  assert (alone gate 1 p m m1) as (R1 & S1 & O1) by (eapply alone_call; [exact Hp|cbn [call]; by rewrite Hl]).
  destruct (alone_check gate q 1 m1 []) as (m2 & (R2 & S2 & O2) & _ & _ & Q2);
    [done|unfold lock_contents; cbn; apply lookup_insert_eq|by rewrite O1|].
  destruct (alone_takeover m2 q 0) as (m3 & (R3 & S3 & O3) & Q3); [done|].
  assert (procs m3 !! p = Some (Writing i)) as P3 by (rewrite O3, O2 by done; apply lookup_insert_eq).
  set (m4 := Machine (linked m3) (<[i := pid_text p]> (files m3)) (running m3) (<[p := Holding]> (procs m3))).
  assert (alone gate 1 p m3 m4) as (R4 & S4 & O4) by by eapply alone_call.
  exists (replicate 1 (Step p) ++ replicate 3 (Step q) ++ replicate 3 (Step q) ++ replicate 1 (Step p)), m4.
  split; [repeat apply between_app; (apply between_l || apply between_r)|]. split; [done|].
  split; [rewrite !run_app, R1; cbn [mbind option_bind]; rewrite run_app, R2; cbn [mbind option_bind]; by rewrite run_app, R3|].
  split; [congruence|]. split; [apply lookup_insert_eq|by rewrite O4].
Qed.

(** (C14) The lock does not exclude processes that start together.  In every reachable
    state in which two different processes are about to acquire, and the lock file is
    absent or names no running process, there are at most twelve calls of these two alone
    after which both are running and both hold the lock: when the file is absent, the
    second finds it between the creation and the write of the first one's process id; when
    it is stale, both find it so before either replaces it, and the second removes what
    the first has put there. *)
Theorem lock_held_twice m p q :
  reachable gate m → p ≠ q → procs m !! p = Some (Opening 1) → procs m !! q = Some (Opening 1) →
  match lock_contents m with
  | None => True
  | Some contents => process_is_running (running m) (owner_of contents) = Ok false
  end →
  ∃ es m', between p q es ∧ (length es ≤ 12)%nat ∧ run gate es m = Some m' ∧
    p ∈ running m' ∧ q ∈ running m' ∧ procs m' !! p = Some Holding ∧ procs m' !! q = Some Holding.
Proof.
  intros [Hlink Hok]%reachable_ok Hne Hp Hq Hs. destruct (Hok p _ Hp) as [Rp _]. destruct (Hok q _ Hq) as [Rq _].
  destruct (lock_contents m) as [c|] eqn:Hc.
  - destruct (stale_race m p q c Hne Hp Hq Hc Hs) as (es & m' & ? & ? & ? & Hr & ? & ?). exists es, m'. rewrite Hr.
    split_and!; try done. lia.
  - destruct (empty_race m p q Hne Hp Hq) as (es & m' & ? & ? & ? & Hr & ? & ?).
    { unfold lock_contents in Hc. destruct (linked m) as [i|] eqn:E; [|done]. destruct (Hlink i E) as [c E']. cbn in Hc. congruence. }
    exists es, m'. rewrite Hr. split_and!; try done. lia.
Qed.

End races.

(** ** Witnesses *)

Definition example_machine : machine := default idle (run "gate" [Start 3; Step 3; Step 3; Exit 3; Start 1] idle).

Lemma example_reachable : reachable "gate" example_machine ∧ procs example_machine !! 1 = Some (Opening 1).
Proof. split; [by exists [Start 3; Step 3; Step 3; Exit 3; Start 1]|reflexivity]. Qed.

(** Two processes, and the lock that a third left behind. *)
Lemma lock_held_twice_witness :
  let m := default idle (run "gate" [Start 3; Step 3; Step 3; Exit 3; Start 1; Start 2] idle) in
  ∃ es m', run "gate" es m = Some m' ∧ procs m' !! 1 = Some Holding ∧ procs m' !! 2 = Some Holding.
Proof.
  intros m. destruct (lock_held_twice "gate" m 1 2) as (es & m' & _ & _ & H & _ & _ & H1 & H2).
  - exists [Start 3; Step 3; Step 3; Exit 3; Start 1; Start 2]. reflexivity.
  - discriminate.
  - reflexivity.
  - reflexivity.
  - reflexivity.
  - exists es, m'. split; [exact H|]. split; [exact H1|exact H2].
Defined.

Lemma machine_refines_witness : ∃ n m', (n ≤ 6)%nat ∧ alone "gate" n 1 example_machine m' ∧
  procs m' !! 1 = Some Holding ∧ lock_contents m' = Some (B "1" ++ [10]).
Proof.
  destruct example_reachable as [Hr Hp]. destruct (machine_refines "gate" example_machine 1 Hr) as [H _].
  destruct (H Hp) as (n & m' & ? & ? & Hres). exists n, m'.
  change (acquire_run_lock _ _ _ _) with (Ok (Some (B "1" ++ [10]))) in Hres. by destruct Hres.
Defined.

Lemma lock_calls_bounded_witness : ∃ s', procs example_machine !! 1 = Some s' ∧ (rank s' ≤ 12)%nat.
Proof.
  destruct example_reachable as [Hr Hp].
  destruct (lock_calls_bounded "gate" example_machine [] example_machine 1 (Opening 1) Hr Hp eq_refl) as (s' & Hs & Hn & _).
  { apply not_elem_of_nil. }
  exists s'. split; [exact Hs|]. cbn in Hn. lia.
Defined.

Lemma stale_lock_recovered_witness : ∃ n m', (n ≤ 6)%nat ∧ alone "gate" n 1 example_machine m' ∧
  procs m' !! 1 = Some Holding.
Proof.
  destruct example_reachable as [Hr Hp].
  destruct (stale_lock_recovered "gate" example_machine 1 Hr Hp eq_refl) as (n & m' & ? & ? & ? & _). by exists n, m'.
Defined.

Lemma lock_exclusive_without_recovery_witness : ∃ m, rtc (quiet_step "gate") idle m ∧ owns m 1 ∧ ∀ q, owns m q → q = 1.
Proof.
  destruct (run "gate" [Start 1; Step 1] idle) as [m|] eqn:E; [|discriminate E].
  assert (rtc (quiet_step "gate") idle m) as Hq.
  { cbn [run] in E. eapply rtc_l; [exists (Start 1); split; reflexivity|].
    eapply rtc_l; [exists (Step 1); split; [|reflexivity]|apply rtc_refl].
    revert E. cbn. intros [= <-]. reflexivity. }
  assert (owns m 1) as Ho by (exists (Writing 0); by injection E as <-).
  exists m. split; [done|]. split; [done|]. by apply (lock_exclusive_without_recovery "gate" m Hq).
Defined.

Lemma atomic_lock_invariant_witness : ∃ d, rtc (atomic_step "gate") (Dir (Some (B "junk")) {[7]} ∅) d ∧
  7 ∈ holders d ∧ lock_file d = Some (pid_text 7).
Proof.
  assert (7 ∈ ({[7]} : gset Z)) as H7 by by apply elem_of_singleton.
  set (d := Dir (Some (B "junk")) {[7]} ∅). set (d' := Dir (Some (pid_text 7)) (live d) ({[7]} ∪ holders d)).
  assert (rtc (atomic_step "gate") d d') as H.
  { apply rtc_once, atomic_acquire; [exact H7|exact (not_elem_of_empty 7)|done|reflexivity]. }
  assert (7 ∈ holders d') as Hin by exact (elem_of_union_l _ _ _ H7).
  exists d'. split; [exact H|]. split; [exact Hin|].
  destruct (atomic_lock_invariant "gate" _ _ _ H) as [Hok _]. by apply Hok.
Defined.

End RunLock.
