(* ===== verification/Session.v ===== *)
(** * Scripted serial sessions

    The boot tests talk to their guest through [wait_for], [send], [read_available]
    and [client.sendall] on one growing buffer of output.  A session is a computation
    over that buffer, against an arbitrary guest: [waits] gives, for each wait, the
    turns of its loop before its deadline, and [reads] the chunks that arrive before
    each other read.  The helpers are those of [test-boot-fat-io-error.py]; the other
    boot tests have the same ones.  Deadlines and sleeps are in the guest's part. *)

From S2P Require Import Prelude PyBytes Serial.

Module Session.

Import Serial.

Record state := State {
  socket : list bytes; serial : bytes; log : list (Z * bytes);
  waits : list (list turn); reads : list (list bytes)
}.

(** ** The session monad *)

Definition session (A : Type) : Type := state → result (A * state).

#[export] Instance session_ret : MRet session := λ A a s, Ok (a, s).
#[export] Instance session_bind : MBind session := λ A B f m s,
  match m s with Ok (a, s) => f a s | Err e => Err e end.

Definition raise_when (b : bool) (message : string) : session unit :=
  λ s, if b then Err (RuntimeError message) else Ok (tt, s).
(** [serial], [len(serial)] *)
Definition get_serial : session bytes := λ s, Ok (serial s, s).
Definition serial_len : session Z := λ s, Ok (len (serial s), s).

(** [for x in l: f(x)] *)
Fixpoint each {A} (f : A → session unit) (l : list A) : session unit :=
  match l with
  | [] => mret tt
  | a :: l => f a;; each f l
  end.

(** ** The helpers *)

Definition read_available : session unit := λ s,
  let '(socket, output) := Serial.read_available (socket s ++ hd [] (reads s)) (serial s) in
  Ok (tt, State socket output (log s) (waits s) (tl (reads s))).

Definition wait_for (marker : bytes) (start : Z) : session unit := λ s,
  '(socket, output) ← Serial.wait_for (hd [] (waits s)) (socket s) (serial s) marker start;
  Ok (tt, State socket output (log s) (tl (waits s)) (reads s)).

(** [client.sendall(data)] *)
Definition sendall (data : bytes) : session unit := λ s,
  Ok (tt, State (socket s) (serial s) (log s ++ [(len (serial s), data)]) (waits s) (reads s)).

Definition send (command : string) (marker : bytes) : session unit :=
  start ← serial_len;
  sendall (B command ++ [13]);;
  wait_for marker start;;
  read_available.

(** ** What every session does *)

(** The output only grows, and the session has sent exactly [l]. *)
Class Sends {A} (m : session A) (l : list bytes) : Prop := sends s a s' :
  m s = Ok (a, s') → (∃ more, serial s' = serial s ++ more) ∧ ∃ entries, log s' = log s ++ entries ∧ entries.*2 = l.
#[global] Hint Mode Sends + ! - : typeclass_instances.

Lemma sends_nothing {A} (m : session A) :
  (∀ s a s', m s = Ok (a, s') → (∃ more, serial s' = serial s ++ more) ∧ log s' = log s) → Sends m [].
Proof. intros H s a s' [? ->]%H. split; [done|]. exists []. by rewrite app_nil_r. Qed.

(** ... for a session that leaves the state alone. *)
Lemma sends_pure {A} (m : session A) : (∀ s a s', m s = Ok (a, s') → s' = s) → Sends m [].
Proof. intros H. apply sends_nothing. intros s a s' ->%H. split; [exists []; by rewrite app_nil_r|done]. Qed.

#[export] Instance sends_ret {A} (a : A) : Sends (mret a) [].
Proof. apply sends_pure. by intros s b s' [= _ <-]. Qed.

#[export] Instance sends_bind {A C} (m : session A) (f : A → session C) l k :
  Sends m l → (∀ a, Sends (f a) k) → Sends (m ≫= f) (l ++ k).
Proof.
  intros Hm Hf s c s' H. unfold mbind, session_bind in H. destruct (m s) as [[a s1]|e] eqn:E; [|done].
  destruct (Hm _ _ _ E) as [[x Hx] (ex & Hex & <-)]. destruct (Hf a _ _ _ H) as [[y Hy] (ey & Hey & <-)]. split.
  - exists (x ++ y). by rewrite Hy, Hx, app_assoc.
  - exists (ex ++ ey). by rewrite Hey, Hex, fmap_app, app_assoc.
Qed.

#[export] Instance sends_raise b message : Sends (raise_when b message) [].
Proof. apply sends_pure. intros s a s'. unfold raise_when. destruct b; [done|]. by intros [= _ <-]. Qed.

#[export] Instance sends_get : Sends get_serial [].
Proof. apply sends_pure. by intros s a s' [= _ <-]. Qed.

#[export] Instance sends_len : Sends serial_len [].
Proof. apply sends_pure. by intros s a s' [= _ <-]. Qed.

#[export] Instance sends_read : Sends read_available [].
Proof.
  apply sends_nothing. intros s a s'. unfold read_available.
  destruct (read_available_grows (socket s ++ hd [] (reads s)) (serial s)) as (more & Hm).
  destruct (Serial.read_available _ _) as [k o]. simpl in Hm. subst o. intros [= _ <-]. split; [by exists more|done].
Qed.

Lemma wait_for_inv marker start s a s' :
  wait_for marker start s = Ok (a, s') →
  (∃ more, serial s' = serial s ++ more) ∧ log s' = log s ∧ contains (slice_from (serial s') start) marker = true.
Proof.
  unfold wait_for. intros ([k o] & (Hm & Hc)%wait_for_Ok & [= _ <-])%bind_Ok_inv. by split_and!.
Qed.

#[export] Instance sends_wait marker start : Sends (wait_for marker start) [].
Proof. apply sends_nothing. by intros s a s' (? & ? & _)%wait_for_inv. Qed.

#[export] Instance sends_all data : Sends (sendall data) [data].
Proof.
  intros s a s' [= _ <-]. cbn [serial log]. split; [exists []; by rewrite app_nil_r|by eexists].
Qed.

#[export] Instance sends_send command marker : Sends (send command marker) [B command ++ [13]].
Proof. unfold send. change [B command ++ [13]] with ([] ++ [B command ++ [13]] ++ [] ++ []). apply _. Qed.

#[export] Instance sends_each_nothing {A} (f : A → session unit) l : (∀ a, Sends (f a) []) → Sends (each f l) [].
Proof.
  intros Hf. induction l as [|a l IH]; [apply _|]. cbn [each]. change (@nil bytes) with ([] ++ @nil bytes).
  apply sends_bind; [done|]. by intros _.
Qed.

(** A command's own output holds the marker it waited for. *)
Lemma send_inv command marker s a s' :
  send command marker s = Ok (a, s') →
  ∃ more, serial s' = serial s ++ more ∧ contains more marker = true ∧
    log s' = log s ++ [(len (serial s), B command ++ [13])].
Proof.
  unfold send, serial_len, sendall. cbn [mbind session_bind serial log].
  intros H. unfold mbind, session_bind in H.
  destruct (wait_for marker (len (serial s)) _) as [[[] s1]|] eqn:E; [|done].
  apply wait_for_inv in E as ([more Hm] & Hl & Hc). cbn [serial log] in *. rewrite Hm, slice_from_app in Hc.
  destruct (sends_read _ _ _ H) as [[more' Hm'] _].
  assert (log s' = log s1) as Hl'.
  { unfold read_available in H. destruct (Serial.read_available _ _). by injection H as _ <-. }
  exists (more ++ more'). rewrite Hm', Hm, Hl', Hl, app_assoc. split; [done|]. split; [by apply contains_app|done].
Qed.

(** ** What was said in reply *)

(** [talk l start more entries]: in the part [more] of the output that begins at
    [start], with the sends [entries], the pairs of [l] - bytes sent, marker - occur in
    order: each was sent when the output before its piece had been received, and the
    piece holds the marker. *)
Inductive talk : list (bytes * bytes) → Z → bytes → list (Z * bytes) → Prop :=
  | talk_nil start more entries : talk [] start more entries
  | talk_cons x l start o more entries :
      contains o x.2 = true → talk l (start + len o) more entries →
      talk (x :: l) start (o ++ more) ((start, x.1) :: entries)
  | talk_skip l start o more skipped entries :
      talk l (start + len o) more entries → talk l start (o ++ more) (skipped ++ entries).

Lemma talk_app l1 l2 start o1 o2 e1 e2 :
  talk l1 start o1 e1 → talk l2 (start + len o1) o2 e2 → talk (l1 ++ l2) start (o1 ++ o2) (e1 ++ e2).
Proof.
  intros H1. revert l2 o2 e2. induction H1 as [start more entries|x l start o more entries Hc H1 IH|l start o more sk entries H1 IH];
    intros l2 o2 e2 H2.
  - by apply talk_skip.
  - rewrite <-app_assoc. cbn [app]. apply talk_cons; [done|]. apply IH. by rewrite <-Z.add_assoc, <-len_app.
  - rewrite <-!app_assoc. apply talk_skip, IH. by rewrite <-Z.add_assoc, <-len_app.
Qed.

Lemma talk_drop l1 l2 start more entries : talk (l1 ++ l2) start more entries →
  ∃ o rest sk e, more = o ++ rest ∧ entries = sk ++ e ∧ talk l2 (start + len o) rest e.
Proof.
  remember (l1 ++ l2) as l eqn:El. intros H. revert l1 El.
  induction H as [start more entries|x l start o more entries Hc H IH|l start o more sk entries H IH]; intros l1 El.
  - symmetry in El. apply app_nil in El as [-> ->]. exists [], more, [], entries. split_and!; [done..|constructor].
  - destruct l1 as [|y l1].
    + cbn in El. subst l2. exists [], (o ++ more), [], ((start, x.1) :: entries). split_and!; [done..|].
      rewrite len_nil, Z.add_0_r. by constructor.
    + injection El as <- El. destruct (IH l1 El) as (o' & rest & sk & e & -> & -> & Ht).
      exists (o ++ o'), rest, ((start, x.1) :: sk), e. rewrite len_app, Z.add_assoc. by rewrite <-app_assoc.
  - destruct (IH l1 El) as (o' & rest & sk' & e & -> & -> & Ht).
    exists (o ++ o'), rest, (sk ++ sk'), e. rewrite len_app, Z.add_assoc. by rewrite <-!app_assoc.
Qed.

(** The first pair of a talk. *)
Lemma talk_head x l start more entries : talk (x :: l) start more entries →
  ∃ before o rest e sk, more = before ++ o ++ rest ∧ contains o x.2 = true ∧
    entries = sk ++ (start + len before, x.1) :: e ∧ talk l (start + len before + len o) rest e.
Proof.
  remember (x :: l) as k eqn:Ek. intros H.
  induction H as [|y k start o more entries Hc H IH|k start o more sk entries H IH]; [done| |].
  - injection Ek as -> ->. exists [], o, more, entries, []. rewrite len_nil, Z.add_0_r. by split_and!.
  - destruct (IH Ek) as (b & o' & rest & e & sk' & -> & Hc & -> & Ht).
    exists (o ++ b), o', rest, e, (sk ++ sk'). rewrite len_app, !Z.add_assoc, <-!app_assoc. by split_and!.
Qed.

(** Leaving out pairs. *)
Lemma talk_sublist l k start more entries : talk l start more entries → k `sublist_of` l → talk k start more entries.
Proof.
  intros H. revert k. induction H as [start more entries|x l start o more entries Hc H IH|l start o more sk entries H IH]; intros k Hk.
  - apply sublist_nil_r in Hk as ->. constructor.
  - apply sublist_cons_r in Hk as [Hk|(k' & -> & Hk)].
    + apply (talk_skip _ _ _ _ [_]). by apply IH.
    + constructor; [done|]. by apply IH.
  - apply talk_skip. by apply IH.
Qed.

Fixpoint subseq (k l : list (bytes * bytes)) : bool :=
  match k, l with
  | [], _ => true
  | _, [] => false
  | x :: k', y :: l' => if beq x.1 y.1 && beq x.2 y.2 then subseq k' l' else subseq k l'
  end.

Lemma subseq_sublist k l : subseq k l = true → k `sublist_of` l.
Proof.
  revert k. induction l as [|y l IH]; intros [|x k] H; cbn [subseq] in H; try done; [apply sublist_nil_l|].
  destruct (beq x.1 y.1 && beq x.2 y.2) eqn:E; [|by apply sublist_cons, IH].
  apply andb_true_iff in E as [E1%beq_spec E2%beq_spec]. destruct x, y. cbn in *. subst. by apply sublist_skip, IH.
Qed.

Class Talks {A} (m : session A) (l : list (bytes * bytes)) : Prop := talks s a s' :
  m s = Ok (a, s') → ∃ more entries, serial s' = serial s ++ more ∧ log s' = log s ++ entries ∧
    talk l (len (serial s)) more entries.
#[global] Hint Mode Talks + ! - : typeclass_instances.

#[export] Instance talks_bind {A C} (m : session A) (f : A → session C) l k :
  Talks m l → (∀ a, Talks (f a) k) → Talks (m ≫= f) (l ++ k).
Proof.
  intros Hm Hf s c s' H. unfold mbind, session_bind in H. destruct (m s) as [[a s1]|e] eqn:E; [|done].
  destruct (Hm _ _ _ E) as (x & ex & Hx & Hex & Hl). destruct (Hf a _ _ _ H) as (y & ey & Hy & Hey & Hk).
  exists (x ++ y), (ex ++ ey). rewrite Hy, Hx, Hey, Hex, <-!app_assoc. split; [done|]. split; [done|].
  apply talk_app; [done|]. by rewrite Hx, len_app in Hk.
Qed.

(** A session with sends of its own still has some talk; one exchange is a talk. *)
Lemma talks_sends {A} (m : session A) l : Sends m l → Talks m [].
Proof. intros Hm s a s' [[more Hs] (e & He & _)]%Hm. exists more, e. split_and!; [done..|constructor]. Qed.

#[export] Instance talks_ret {A} (a : A) : Talks (mret a) [] := talks_sends _ nil _.
#[export] Instance talks_raise b message : Talks (raise_when b message) [] := talks_sends _ nil _.
#[export] Instance talks_get : Talks get_serial [] := talks_sends _ nil _.
#[export] Instance talks_len : Talks serial_len [] := talks_sends _ nil _.
#[export] Instance talks_read : Talks read_available [] := talks_sends _ nil _.
#[export] Instance talks_wait marker start : Talks (wait_for marker start) [] := talks_sends _ nil _.
#[export] Instance talks_all data : Talks (sendall data) [] := talks_sends _ _ (sends_all data).
#[export] Instance talks_each {A} (f : A → session unit) l `{Hf : ∀ a, Sends (f a) nil} : Talks (each f l) [] :=
  talks_sends _ nil _.

#[export] Instance talks_send command marker : Talks (send command marker) [(B command ++ [13], marker)].
Proof.
  intros s a s' (more & Hs & Hc & Hl)%send_inv. exists more, [(len (serial s), B command ++ [13])].
  split; [done|]. split; [done|]. rewrite <-(app_nil_r more). constructor; [done|constructor].
Qed.

Lemma talks_subseq {A} (m : session A) k l : Talks m l → subseq k l = true → Talks m k.
Proof.
  intros Hl Hs%subseq_sublist s a s' (more & e & ? & ? & ?)%Hl. exists more, e. split_and!; [done..|].
  by eapply talk_sublist.
Qed.

(** A loop of checks. *)
Lemma each_raise {A} (b : A → bool) message l s s' :
  each (λ x, raise_when (b x) message) l s = Ok (tt, s') → s' = s ∧ Forall (λ x, b x = false) l.
Proof.
  induction l as [|a l IH]; cbn [each]; [by intros [= <-]|].
  unfold mbind, session_bind, raise_when at 1. destruct (b a) eqn:E; [done|]. intros [-> ?]%IH. by split; [|constructor].
Qed.

Lemma raise_when_Ok b message s a s' : raise_when b message s = Ok (a, s') → b = false ∧ s' = s.
Proof. unfold raise_when. destruct b; [done|]. by intros [= _ <-]. Qed.

Lemma session_bind_inv {A C} (m : session A) (f : A → session C) s c s' :
  (m ≫= f) s = Ok (c, s') → ∃ a s1, m s = Ok (a, s1) ∧ f a s1 = Ok (c, s').
Proof. unfold mbind, session_bind. destruct (m s) as [[a s1]|]; [eauto|done]. Qed.

End Session.
