(* ===== verification/BootTests.v ===== *)
(** * The fault-injection and recovery boot tests

    [test-boot-fat-io-error.py], [test-persistent-readonly-remount.py],
    [test-boot-fat-quarantine.py] and [test-diskless-normal-boot.py]: a Module each,
    with the dialogue its [main] has with the guest, the markers it requires and
    forbids, and the disk image it builds and checks first.  Building the kernel,
    running QEMU and the log files are in [Harness].  The theorems say that the faults are
    aimed at the sectors the tests mean, whatever the EFI image; and what a passing
    run has seen. *)

From stdpp Require Import pretty.
From S2P Require Import Prelude PyBytes PyText PyHash Serial Session NvmeImage NvmeSpec Journal.

#[local] Open Scope Z_scope.

Module BootTests.

Import Session NvmeImage NvmeSpec Journal.

Definition PROMPT_HOME : bytes := B "root@zigos:/home/root$ ".
Definition PROMPT_ROOT : bytes := B "root@zigos:/$ ".
Definition decode_replace : bytes → list Z := Serial.decode_replace.

(** A session from nothing received, against the given guest. *)
Definition with_guest {A} (m : session A) (guest_waits : list (list Serial.turn)) (guest_reads : list (list bytes))
    : result A :=
  '(a, _) ← m (State [] [] [] guest_waits guest_reads);
  Ok a.

(** ** [test-boot-fat-io-error.py] *)

Module FatIoError.

Definition FAULT_CLUSTER : Z := 15000.
Definition FAULT_LBA : Z := 17319.

Definition dialogue : session unit :=
  wait_for (B "ZigOs userspace init PID 1") 0;;
  wait_for (B "ZigOs userspace shell PID 2") 0;;
  wait_for PROMPT_HOME 0;;
  send "help" (B "help echo pwd cd ls cat cp write append mkdir rm rmdir mv chmod sync pid status fg bg run shutdown");;
  send "pwd" (CRLF ++ B "/home/root" ++ CRLF);;
  send "cd /" PROMPT_ROOT;;
  send "pwd" (CRLF ++ B "/" ++ CRLF);;
  send "cat /boot/README.TXT" (B "cat: input/output error");;
  send "cat /boot/README.TXT" (B "ZigOs block-backed FAT16 runtime");;
  send "ls /bin" (B "sh.elf");;
  send "cat /proc/version" (B "ZigOs 19.0.0 x86_64 persistent runtime");;
  send "pid" (CRLF ++ B "2" ++ CRLF);;
  send "mkdir /persist/shell-state" PROMPT_ROOT;;
  send "write /persist/shell-state/message.txt alpha" PROMPT_ROOT;;
  send "append /persist/shell-state/message.txt beta" PROMPT_ROOT;;
  send "write /persist/shell-state/renamed.txt stale-destination" PROMPT_ROOT;;
  send "mv /persist/shell-state/message.txt /persist/shell-state/renamed.txt" PROMPT_ROOT;;
  send "chmod 600 /persist/shell-state/renamed.txt" PROMPT_ROOT;;
  send "cat /persist/shell-state/renamed.txt" (B "beta");;
  send "rm /persist/shell-state/renamed.txt" PROMPT_ROOT;;
  send "rmdir /persist/shell-state" PROMPT_ROOT;;
  send "run hello" (B "process 3 exited 42");;
  send "cp /bin/sdk.elf /persist/persist-sdk.elf" PROMPT_ROOT;;
  send "sync" (B "writable mounts synchronized");;
  send "persist-sdk alpha beta" (B "process 4 exited 86");;
  send "fs init" (B "process 5 exited 88");;
  send "fs verify-live" (B "process 6 exited 89");;
  send "shutdown" (B "ZigOs normal boot verified:");;
  read_available.

Definition required : list bytes := [
  B "Normal boot selected: skipping kernel heap, scheduler, Capstone 15 and Capstone 16 proof workloads";
  B "ZigOs normal boot profile: userspace init PID 1 supervises userspace shell PID 2; diagnostic software suite skipped";
  B "ZigOs userspace init PID 1";
  B "userspace init launched shell PID 2";
  B "ZigOs userspace shell PID 2";
  B ("NVMe one-shot read error armed: requested LBA " +:+ pretty FAULT_LBA +:+ ", command LBA 32768");
  B "hello from VFS-loaded CPL3 ELF64";
  B "process 3 exited 42";
  B "writable mounts synchronized";
  B "zig-sdk: envp/auxv passed";
  B "zig-sdk: tmpfs mount/umount isolation, statfs and busy policy passed";
  B "zig-sdk: timestamp precision/data/namespace/access ordering passed";
  B "zig-sdk: uid/gid creation and hard-link ownership passed";
  B "zig-sdk: advisory whole-file flock passed";
  B "zig-sdk: advisory byte-range lock passed";
  B "zig-sdk: directory watch notifications passed";
  B "zig-sdk: startup/argv/abi/files/vm/file-mmap/errno/fsync/fdatasync/readv/writev/mount/umount/tmpfs/statfs/stattimes/statowner/umask/setid-metadata/flock/lockrange/watchdir/kill passed";
  B "process 4 exited 86";
  B "fs-api: init/mkdir/write/seek/replace-rename/chmod/link/nlink/symlink/readlink/fallocate/sparse/open-unlink/rmdir/sync passed";
  B "process 5 exited 88";
  B "fs-api: baseline/mode/seek/hard-link/symlink/fallocate/sparse/cleanup passed";
  B "process 6 exited 89";
  B "userspace init reaped shell PID 2 status 0";
  B "ZigOs normal userspace shutdown: init PID 1 status 0 shell PID 2 reaped yes";
  B "cat: input/output error";
  B "ZigOs block-backed FAT16 runtime";
  B "ZigOs NVMe read fault injection: failures 1 armed no clean yes";
  B "ZigOs boot FAT: block-backed yes files/directories 3/2 bytes 5809220 metadata/file/block reads 114/3/115 failures 1 clusters claimed/free/loop/cross/range 11350/4761/0/0/0 lock tickets/outstanding 4/0 quarantine state/reason/events no/none/0 clean yes";
  B "ZigOs live pseudo filesystems: dev/proc/net registrations 3/5/4 publications 3/5/4 withdrawals 0/0/0 failures 0/0/0 clean yes";
  B "ZigOs normal userspace resources: processes 1 descriptors 0 contexts 0 pages 0 alloc/free 144/144 cache-released 13 storage persistent clean yes";
  B "ZigOs normal boot verified: diagnostic-suite skipped yes userspace-init yes userspace-shell yes tty yes vfs yes spawn-wait yes storage persistent cleanup yes"].

Definition forbidden : list bytes := B <$> [
  "Kernel heap active:";
  "Cooperative scheduler active:";
  "Preemptive scheduler active:";
  "ZigOs x86-64 Capstone 15 verified:";
  "ZigOs x86-64 Capstone 16 verified:";
  "init PID 1; serial shell PID 2";
  "ZigOs normal boot profile: init PID 1; userspace shell PID 2"].

Definition check_text (text : list Z) : session unit :=
  each (λ marker, raise_when (negb (contains text marker)) "FAT EIO boot missing marker: {marker}") required;;
  each (λ marker, raise_when (contains text marker) "FAT EIO boot unexpectedly ran diagnostic marker: {marker}") forbidden;;
  raise_when (negb (contains text (B "ZigOs normal userspace resources:")) || negb (contains text (B "clean yes"))) "FAT EIO boot did not report clean resource reclamation".

Definition run_session (connects : bool) : session (list Z) :=
  raise_when (negb connects) "FAT EIO boot serial connection failed";;
  dialogue;;
  output ← get_serial;
  let text := decode_replace output in
  check_text text;;
  mret text.

Definition readme_lba (image_metadata : metadata) : Z :=
  first_data_lba (md_layout image_metadata) +
  (runtime_readme_cluster image_metadata - 2) * sectors_per_cluster (md_layout image_metadata).

Definition check_image (image_metadata : metadata) : result unit :=
  raise_if (negb (md_runtime_file_first_cluster image_metadata =? FAULT_CLUSTER) ||
            negb (readme_lba image_metadata =? FAULT_LBA))
    (RuntimeError "deterministic README.TXT fault target does not match the compiled NVMe trigger").

Definition main (efi : bytes) (connects : bool) (waits : list (list Serial.turn)) (reads : list (list bytes))
    : result (list Z) :=
  '(_, image_metadata) ← build_image efi 512 none 0 (Some FAULT_CLUSTER);
  check_image image_metadata;;
  with_guest (run_session connects) waits reads.

End FatIoError.

(** ** [test-persistent-readonly-remount.py] *)

Module ReadonlyRemount.

Definition FAULT_LBA : Z := 18434.

Definition dialogue : session unit :=
  wait_for (B "ZigOs userspace init PID 1") 0;;
  wait_for (B "ZigOs userspace shell PID 2") 0;;
  wait_for PROMPT_HOME 0;;
  send "help" (B "help echo pwd cd ls cat cp write append mkdir rm rmdir mv chmod sync pid status fg bg run shutdown");;
  send "cd /" PROMPT_ROOT;;
  send "run hello" (B "process 3 exited 42");;
  send "mkdir /persist/damaged" PROMPT_ROOT;;
  send "write /persist/damaged/value.txt before" PROMPT_ROOT;;
  send "cat /persist/damaged/value.txt" (B "before");;
  send "sync" (B "sync: input/output error");;
  send "cat /proc/mounts" (B "nvme-zigos-data on /persist type zigos_persist (ro)");;
  send "write /persist/damaged/value.txt blocked" (B "write: read-only filesystem");;
  send "append /persist/damaged/value.txt blocked" (B "append: read-only filesystem");;
  send "mkdir /persist/new" (B "mkdir: read-only filesystem");;
  send "rm /persist/damaged/value.txt" (B "rm: read-only filesystem");;
  send "cat /persist/damaged/value.txt" (B "before");;
  send "sync" (B "sync: read-only filesystem");;
  send "shutdown" (B "ZigOs normal boot verified:");;
  read_available.

Definition required : list bytes := [
  B ("NVMe one-shot write error armed: requested LBA " +:+ pretty FAULT_LBA +:+ ", command LBA 32768");
  B "process 3 exited 42";
  B "sync: input/output error";
  B "nvme-zigos-data on /persist type zigos_persist (ro)";
  B "write: read-only filesystem";
  B "append: read-only filesystem";
  B "mkdir: read-only filesystem";
  B "rm: read-only filesystem";
  B "sync: read-only filesystem";
  B "ZigOs NVMe write fault injection: failures 1 armed no clean yes";
  B "ZigOs persistent damage containment: damaged yes reason payload_write remounts/failures 1/0 discarded/rejected 2/1 vfs-remount/discard 1/2 mount-readonly yes clean yes";
  B "ZigOs boot FAT: block-backed yes files/directories 3/2 bytes 5809220 metadata/file/block reads 113/0/113 failures 0 clusters claimed/free/loop/cross/range 11350/4761/0/0/0 lock tickets/outstanding 1/0 quarantine state/reason/events no/none/0 clean yes";
  B "ZigOs live pseudo filesystems: dev/proc/net registrations 3/5/4 publications 3/5/4 withdrawals 0/0/0 failures 0/0/0 clean yes";
  B "ZigOs normal userspace resources: processes 1 descriptors 0 contexts 0 pages 0 alloc/free 64/64 cache-released 12 storage persistent-read-only clean yes";
  B "ZigOs normal boot verified: diagnostic-suite skipped yes userspace-init yes userspace-shell yes tty yes vfs yes spawn-wait yes storage persistent-read-only cleanup yes"].

Definition forbidden : list bytes := B <$> [
  "ZigOs NVMe write fault injection: failures 0";
  "mount-readonly no";
  "storage persistent-read-only clean no";
  "storage persistent-read-only cleanup no";
  "Persistent runtime failure:";
  "kernel fault:"].

Definition check_text (text : list Z) : session unit :=
  each (λ marker, raise_when (negb (contains text marker)) "persistent read-only remount boot missing marker: {marker}") required;;
  each (λ marker, raise_when (contains text marker) "persistent read-only remount boot contained forbidden marker: {marker}") forbidden.

Definition run_session (connects : bool) : session (list Z) :=
  raise_when (negb connects) "persistent read-only remount serial connection failed";;
  dialogue;;
  output ← get_serial;
  let text := decode_replace output in
  check_text text;;
  mret text.

Definition check_image (image_metadata : metadata) : result unit :=
  let data_first_lba := data_partition_first_lba (md_layout image_metadata) in
  let payload_lba := data_first_lba + 2 in
  raise_if (negb (data_first_lba =? 18432) || negb (payload_lba =? FAULT_LBA))
    (RuntimeError "deterministic persistent payload write target does not match image geometry").

Definition file_identity (path : option bytes) : option (Z * bytes) :=
  match path with None => None | Some contents => Some (len contents, sha256 contents) end.

(** [shared_efi] is the file under zig-out at the start, after the session and in
    [finally]; what [finally] raises replaces the outcome of the body. *)
Definition main (efi : bytes) (connects : bool) (waits : list (list Serial.turn)) (reads : list (list bytes))
    (shared_efi shared_efi_after shared_efi_finally : option bytes) : result (list Z) :=
  let shared_before := file_identity shared_efi in
  let body :=
    '(_, image_metadata) ← build_image efi 512 none 0 None;
    check_image image_metadata;;
    text ← with_guest (run_session connects) waits reads;
    let shared_after := file_identity shared_efi_after in
    raise_if (negb (bool_decide (shared_after = shared_before)))
      (RuntimeError "private read-only remount build modified shared zig-out");;
    Ok text in
  raise_if (negb (bool_decide (file_identity shared_efi_finally = shared_before)))
    (RuntimeError "shared zig-out changed during persistent read-only remount gate");;
  body.

End ReadonlyRemount.

(** ** [test-boot-fat-quarantine.py] *)

Module Quarantine.

Definition dialogue : session unit :=
  wait_for (B "ZigOs userspace init PID 1") 0;;
  wait_for (B "ZigOs userspace shell PID 2") 0;;
  wait_for PROMPT_HOME 0;;
  send "help" (B "help echo pwd cd ls cat cp write append mkdir rm rmdir mv chmod sync pid status fg bg run shutdown");;
  send "pwd" (CRLF ++ B "/home/root" ++ CRLF);;
  send "cd /" PROMPT_ROOT;;
  send "pwd" (CRLF ++ B "/" ++ CRLF);;
  send "ls /boot" (B "process-exec.elf");;
  send "cat /boot/README.TXT" (B "not found");;
  send "ls /bin" (B "sh.elf");;
  send "cat /proc/version" (B "ZigOs 19.0.0 x86_64 persistent runtime");;
  send "pid" (CRLF ++ B "2" ++ CRLF);;
  send "mkdir /persist/shell-state" PROMPT_ROOT;;
  send "write /persist/shell-state/message.txt alpha" PROMPT_ROOT;;
  send "append /persist/shell-state/message.txt beta" PROMPT_ROOT;;
  send "write /persist/shell-state/renamed.txt stale-destination" PROMPT_ROOT;;
  send "mv /persist/shell-state/message.txt /persist/shell-state/renamed.txt" PROMPT_ROOT;;
  send "chmod 600 /persist/shell-state/renamed.txt" PROMPT_ROOT;;
  send "cat /persist/shell-state/renamed.txt" (B "beta");;
  send "rm /persist/shell-state/renamed.txt" PROMPT_ROOT;;
  send "rmdir /persist/shell-state" PROMPT_ROOT;;
  send "run hello" (B "process 3 exited 42");;
  send "cp /bin/sdk.elf /persist/persist-sdk.elf" PROMPT_ROOT;;
  send "sync" (B "writable mounts synchronized");;
  send "persist-sdk alpha beta" (B "process 4 exited 86");;
  send "fs init" (B "process 5 exited 88");;
  send "fs verify-live" (B "process 6 exited 89");;
  send "shutdown" (B "ZigOs normal boot verified:");;
  read_available.

Definition required : list bytes := B <$> [
  "Normal boot selected: skipping kernel heap, scheduler, Capstone 15 and Capstone 16 proof workloads";
  "ZigOs normal boot profile: userspace init PID 1 supervises userspace shell PID 2; diagnostic software suite skipped";
  "ZigOs userspace init PID 1";
  "userspace init launched shell PID 2";
  "ZigOs userspace shell PID 2";
  "hello from VFS-loaded CPL3 ELF64";
  "process 3 exited 42";
  "writable mounts synchronized";
  "zig-sdk: envp/auxv passed";
  "zig-sdk: tmpfs mount/umount isolation, statfs and busy policy passed";
  "zig-sdk: timestamp precision/data/namespace/access ordering passed";
  "zig-sdk: uid/gid creation and hard-link ownership passed";
  "zig-sdk: advisory whole-file flock passed";
  "zig-sdk: advisory byte-range lock passed";
  "zig-sdk: directory watch notifications passed";
  "zig-sdk: startup/argv/abi/files/vm/file-mmap/errno/fsync/fdatasync/readv/writev/mount/umount/tmpfs/statfs/stattimes/statowner/umask/setid-metadata/flock/lockrange/watchdir/kill passed";
  "process 4 exited 86";
  "fs-api: init/mkdir/write/seek/replace-rename/chmod/link/nlink/symlink/readlink/fallocate/sparse/open-unlink/rmdir/sync passed";
  "process 5 exited 88";
  "fs-api: baseline/mode/seek/hard-link/symlink/fallocate/sparse/cleanup passed";
  "process 6 exited 89";
  "userspace init reaped shell PID 2 status 0";
  "ZigOs normal userspace shutdown: init PID 1 status 0 shell PID 2 reaped yes";
  "ZigOs boot FAT quarantined: cross_link; embedded read-only fallback mounted";
  "process-exec.elf";
  "cat: not found";
  "ZigOs boot FAT: block-backed no files/directories 0/0 bytes 0 metadata/file/block reads 50/0/50 failures 0 clusters claimed/free/loop/cross/range 0/0/0/1/0 lock tickets/outstanding 1/0 quarantine state/reason/events yes/cross_link/1 clean yes";
  "ZigOs live pseudo filesystems: dev/proc/net registrations 3/5/4 publications 3/5/4 withdrawals 0/0/0 failures 0/0/0 clean yes";
  "ZigOs normal userspace resources: processes 1 descriptors 0 contexts 0 pages 0 alloc/free 144/144 cache-released 13 storage persistent clean yes";
  "ZigOs normal boot verified: diagnostic-suite skipped yes userspace-init yes userspace-shell yes tty yes vfs yes spawn-wait yes storage persistent cleanup yes"].

Definition forbidden : list bytes := B <$> [
  "Kernel heap active:";
  "Cooperative scheduler active:";
  "Preemptive scheduler active:";
  "ZigOs x86-64 Capstone 15 verified:";
  "ZigOs x86-64 Capstone 16 verified:";
  "init PID 1; serial shell PID 2";
  "ZigOs normal boot profile: init PID 1; userspace shell PID 2"].

Definition check_text (text : list Z) : session unit :=
  each (λ marker, raise_when (negb (contains text marker)) "quarantine boot missing marker: {marker}") required;;
  each (λ marker, raise_when (contains text marker) "quarantine boot unexpectedly ran diagnostic marker: {marker}") forbidden;;
  raise_when (negb (contains text (B "ZigOs normal userspace resources:")) || negb (contains text (B "clean yes"))) "quarantine boot did not report clean resource reclamation".

Definition run_session (connects : bool) : session (list Z) :=
  raise_when (negb connects) "quarantine boot serial connection failed";;
  dialogue;;
  output ← get_serial;
  let text := decode_replace output in
  check_text text;;
  mret text.

Definition check_image (image_metadata : metadata) : result unit :=
  raise_if (match md_boot_fat_corruption image_metadata with cross_link => false | none => true end ||
            negb (runtime_config_directory_cluster image_metadata =? runtime_readme_cluster image_metadata))
    (RuntimeError "quarantine image did not contain the requested non-boot FAT cross-link").

Definition main (efi : bytes) (connects : bool) (waits : list (list Serial.turn)) (reads : list (list bytes))
    : result (list Z) :=
  '(_, image_metadata) ← build_image efi 512 cross_link 0 None;
  check_image image_metadata;;
  with_guest (run_session connects) waits reads.

End Quarantine.

(** ** [test-diskless-normal-boot.py] *)

Module Diskless.

Definition dialogue : session unit :=
  wait_for (B "ZigOs userspace init PID 1") 0;;
  wait_for (B "ZigOs userspace shell PID 2") 0;;
  wait_for PROMPT_HOME 0;;
  send "pwd" (CRLF ++ B "/home/root" ++ CRLF);;
  send "ls /bin" (B "c-sdk.elf");;
  send "cat /proc/version" (B "ZigOs 19.0.0 x86_64 persistent runtime");;
  send "write /tmp/recovery.txt diskless recovery" PROMPT_HOME;;
  send "cat /tmp/recovery.txt" (B "diskless recovery");;
  send "cat /tmp/recovery.txt" (B "diskless recovery");;
  send "c-sdk alpha beta" (B "process 3 exited 87");;
  send "sync" (B "writable mounts synchronized");;
  send "shutdown" (B "ZigOs normal boot verified:");;
  read_available.

Definition required : list bytes := B <$> [
  "No permanent storage backend usable; continuing normal boot with embedded assets and RAM-backed root";
  "Storage backends ready: NVMe no, AHCI no";
  "Normal boot selected: skipping kernel heap, scheduler, Capstone 15 and Capstone 16 proof workloads";
  "ZigOs normal boot profile: userspace init PID 1 supervises userspace shell PID 2; diagnostic software suite skipped";
  "ZigOs userspace init PID 1";
  "ZigOs userspace shell PID 2";
  "c-sdk: ABI 1.32 discovery passed";
  "c-sdk: advisory whole-file flock passed";
  "c-sdk: advisory byte-range lock passed";
  "c-sdk: directory watch notifications passed";
  "c-sdk: generated header/library/device/ioctl/stat/statfs/stattimes/statowner/umask/setid-metadata/flock/lockrange/watchdir/kill/directory-openat/fsync/fdatasync/symlink/readlink/link/nlink/fallocate/sparse/readv/writev passed";
  "process 3 exited 87";
  "writable mounts synchronized";
  "userspace init reaped shell PID 2 status 0";
  "storage diskless-ram-root clean yes";
  "ZigOs boot FAT: block-backed no files/directories 0/0 bytes 0 metadata/file/block reads 0/0/0 failures 0 clusters claimed/free/loop/cross/range 0/0/0/0/0 lock tickets/outstanding 0/0 quarantine state/reason/events no/none/0 clean yes";
  "ZigOs live pseudo filesystems: dev/proc/net registrations 3/5/4 publications 3/5/4 withdrawals 0/0/0 failures 0/0/0 clean yes";
  "ZigOs normal boot verified: diagnostic-suite skipped yes userspace-init yes userspace-shell yes tty yes vfs yes spawn-wait yes storage diskless-ram-root cleanup yes"].

Definition forbidden : list bytes := B <$> [
  "STORAGE FAILURE";
  "NVMe controller active";
  "NVMe retained for permanent runtime";
  "sync: unsupported";
  "Kernel heap active:";
  "Cooperative scheduler active:";
  "Preemptive scheduler active:";
  "ZigOs x86-64 Capstone 15 verified:";
  "ZigOs x86-64 Capstone 16 verified:"].

Definition check_text (text : list Z) : session unit :=
  each (λ marker, raise_when (negb (contains text marker)) "diskless normal boot missing marker: {marker}") required;;
  each (λ marker, raise_when (contains text marker) "diskless normal boot unexpectedly emitted: {marker}") forbidden.

Definition run_session (connects : bool) : session (list Z) :=
  raise_when (negb connects) "diskless normal-boot serial connection failed";;
  dialogue;;
  output ← get_serial;
  let text := decode_replace output in
  check_text text;;
  mret text.

Definition main (connects : bool) (waits : list (list Serial.turn)) (reads : list (list bytes)) : result (list Z) :=
  with_guest (run_session connects) waits reads.

End Diskless.

(** ** The faults are aimed right *)

(** (C16) The constants of the tests fit the image builder's geometry, for every EFI
    image that the builder accepts: the sector whose first read fails is the one that
    holds README.TXT, the sector whose first write fails is the first payload sector
    of the journal's slot A, the quarantine image has the cross-link it asks for, and
    so none of the checks of the metadata ever fails. *)
Theorem fault_targets efi image md :
  (build_image efi 512 none 0 (Some FatIoError.FAULT_CLUSTER) = Ok (image, md) →
     FatIoError.check_image md = Ok tt ∧
     slice image (FatIoError.FAULT_LBA * 512) (FatIoError.FAULT_LBA * 512 + len readme_bytes) = readme_bytes) ∧
  (build_image efi 512 none 0 None = Ok (image, md) →
     ReadonlyRemount.check_image md = Ok tt ∧
     ReadonlyRemount.FAULT_LBA = Journal.slot_payload_lba (data_partition_first_lba (md_layout md)) 0 512) ∧
  (build_image efi 512 cross_link 0 None = Ok (image, md) → Quarantine.check_image md = Ok tt).
Proof.
  destruct layout_512_ok as [HLf _]. split; [|split]; intros Hrun;
    destruct (build_image_returned _ _ _ _ _ _ _ _ HLf Hrun) as (_ & _ & _ & _ & Hs & Hl & Hr & Hc);
    destruct (build_image_parameters _ _ _ _ _ _ _ Hrun) as [Hf Hcorr]; cbn [config_dir_cluster] in *.
  - change (readme_cluster _ _ _ _) with FatIoError.FAULT_CLUSTER in *. split; [|exact (is_readme _ _ _ _ _ Hs)].
    unfold FatIoError.check_image, FatIoError.readme_lba. by rewrite Hf, Hr, Hl.
  - unfold ReadonlyRemount.check_image. rewrite Hl. by split.
  - unfold Quarantine.check_image. by rewrite Hcorr, Hc, Hr, Z.eqb_refl.
Qed.

Lemma fault_targets_witness : ∃ image md,
  build_image [1; 2; 3] 512 none 0 (Some FatIoError.FAULT_CLUSTER) = Ok (image, md) ∧ FatIoError.check_image md = Ok tt.
Proof.
  destruct layout_512_ok as [HLf HL].
  destruct (build_image_holds layout_512 HL HLf [1; 2; 3] none 0 (Some FatIoError.FAULT_CLUSTER)) as (image & md & Hrun & _);
    [vm_compute; discriminate|vm_compute; reflexivity|vm_compute; reflexivity|].
  exists image, md. split; [exact Hrun|].
  destruct (fault_targets [1; 2; 3] image md) as [H _]. by apply H.
Defined.

(** ** What a passing run has seen *)

(** A command with its carriage return, and the reply it waits for. *)
Definition says (command reply : string) : bytes * bytes := (B command ++ [13], B reply).

(** What a session adds to the output and the log contains the talk [l]. *)
Definition conversation (l : list (bytes * bytes)) (s s' : state) : Prop :=
  ∃ more entries, serial s' = serial s ++ more ∧ log s' = log s ++ entries ∧ talk l (len (serial s)) more entries.

(** The text of the whole output has every required and no forbidden marker. *)
Definition text_accepted (required forbidden : list bytes) (text : list Z) (s : state) : Prop :=
  text = decode_replace (serial s) ∧ Forall (λ marker, contains text marker = true) required ∧
  Forall (λ marker, contains text marker = false) forbidden.

Definition io_error_replies : list (bytes * bytes) :=
  [says "cat /boot/README.TXT" "cat: input/output error";
   says "cat /boot/README.TXT" "ZigOs block-backed FAT16 runtime"].

Definition remount_replies : list (bytes * bytes) :=
  [says "write /persist/damaged/value.txt before" "root@zigos:/$ ";
   says "sync" "sync: input/output error";
   says "cat /proc/mounts" "nvme-zigos-data on /persist type zigos_persist (ro)";
   says "write /persist/damaged/value.txt blocked" "write: read-only filesystem";
   says "append /persist/damaged/value.txt blocked" "append: read-only filesystem";
   says "mkdir /persist/new" "mkdir: read-only filesystem";
   says "rm /persist/damaged/value.txt" "rm: read-only filesystem";
   says "cat /persist/damaged/value.txt" "before"; says "sync" "sync: read-only filesystem"].

Lemma io_error_talks : Talks FatIoError.dialogue io_error_replies.
Proof. eapply talks_subseq; [unfold FatIoError.dialogue; apply _|vm_compute; reflexivity]. Qed.

Lemma remount_talks : Talks ReadonlyRemount.dialogue remount_replies.
Proof. eapply talks_subseq; [unfold ReadonlyRemount.dialogue; apply _|vm_compute; reflexivity]. Qed.

Lemma io_error_accepts text s s' :
  FatIoError.check_text text s = Ok (tt, s') → s' = s ∧
  Forall (λ marker, contains text marker = true) FatIoError.required ∧
  Forall (λ marker, contains text marker = false) FatIoError.forbidden.
Proof.
  unfold FatIoError.check_text. intros ([] & s1 & [-> H1]%each_raise & H)%session_bind_inv.
  apply session_bind_inv in H as ([] & s2 & [-> H2]%each_raise & [_ ->]%raise_when_Ok). split_and!; [done| |done].
  eapply Forall_impl; [exact H1|]. by intros m ?%negb_false_iff.
Qed.

Lemma remount_accepts text s s' :
  ReadonlyRemount.check_text text s = Ok (tt, s') → s' = s ∧
  Forall (λ marker, contains text marker = true) ReadonlyRemount.required ∧
  Forall (λ marker, contains text marker = false) ReadonlyRemount.forbidden.
Proof.
  unfold ReadonlyRemount.check_text. intros ([] & s1 & [-> H1]%each_raise & [-> H2]%each_raise)%session_bind_inv.
  split_and!; [done| |done]. eapply Forall_impl; [exact H1|]. by intros m ?%negb_false_iff.
Qed.

(** (C17) What a passing fault-injection run proves, for every guest.  In the read-error
    test the first read of README.TXT was answered with the I/O error and a later one
    with the file's text; in the write-error test the command that writes before the
    fault was answered with the prompt, the first sync was answered with the I/O error, after which the mount was listed
    read-only, every change was refused, the old contents were still there and a
    second sync was refused - each answer in the part of the output that follows its
    own command and precedes the next.  The whole output has every required marker
    and no forbidden one. *)
Theorem faults_seen connects s text s' :
  (FatIoError.run_session connects s = Ok (text, s') →
     conversation io_error_replies s s' ∧ text_accepted FatIoError.required FatIoError.forbidden text s') ∧
  (ReadonlyRemount.run_session connects s = Ok (text, s') →
     conversation remount_replies s s' ∧ text_accepted ReadonlyRemount.required ReadonlyRemount.forbidden text s').
Proof.
  split; intros ([] & s1 & [_ ->]%raise_when_Ok & H)%session_bind_inv;
    apply session_bind_inv in H as ([] & s2 & Hd & H);
    apply session_bind_inv in H as (output & s3 & [= <- <-] & H); cbv zeta in H;
    apply session_bind_inv in H as ([] & s4 & Hc & [= <- <-]).
  - apply io_error_accepts in Hc as (-> & Hr & Hf). split; [by apply io_error_talks in Hd|by split_and!].
  - apply remount_accepts in Hc as (-> & Hr & Hf). split; [by apply remount_talks in Hd|by split_and!].
Qed.

(** A guest that answers every command at once. *)
Definition example_waits : list (list Serial.turn) :=
  (λ answer, [Serial.Turn [answer] None]) <$>
  (mjoin ((λ marker, marker ++ [10]) <$> FatIoError.required ++ [B "ZigOs userspace init PID 1"]) :: tl [
  B "ZigOs userspace init PID 1";
  B "ZigOs userspace shell PID 2";
  PROMPT_HOME;
  B "help echo pwd cd ls cat cp write append mkdir rm rmdir mv chmod sync pid status fg bg run shutdown";
  CRLF ++ B "/home/root" ++ CRLF;
  PROMPT_ROOT;
  CRLF ++ B "/" ++ CRLF;
  B "cat: input/output error";
  B "ZigOs block-backed FAT16 runtime";
  B "sh.elf";
  B "ZigOs 19.0.0 x86_64 persistent runtime";
  CRLF ++ B "2" ++ CRLF;
  PROMPT_ROOT;
  PROMPT_ROOT;
  PROMPT_ROOT;
  PROMPT_ROOT;
  PROMPT_ROOT;
  PROMPT_ROOT;
  B "beta";
  PROMPT_ROOT;
  PROMPT_ROOT;
  B "process 3 exited 42";
  PROMPT_ROOT;
  B "writable mounts synchronized";
  B "process 4 exited 86";
  B "process 5 exited 88";
  B "process 6 exited 89";
  B "ZigOs normal boot verified:"]).

Lemma example_passes : is_ok (FatIoError.run_session true (State [] [] [] example_waits [])) = true.
Proof. vm_compute. reflexivity. Qed.

Lemma faults_seen_witness : ∃ text s', FatIoError.run_session true (State [] [] [] example_waits []) = Ok (text, s') ∧
  conversation io_error_replies (State [] [] [] example_waits []) s'.
Proof.
  pose proof example_passes as Hok.
  destruct (FatIoError.run_session true (State [] [] [] example_waits [])) as [[text s']|] eqn:E; [|discriminate Hok].
  exists text, s'. split; [exact (eq_refl (Ok (text, s')))|].
  destruct (faults_seen true (State [] [] [] example_waits []) text s') as [H _]. by destruct (H E).
Defined.

End BootTests.
