(* ===== verification/NormalBoot.v ===== *)
(** * The normal boot test

    [test-normal-boot.py]: the dialogue of [main] with the booted userspace shell, in
    the order of the source and cut into the parts its comments and markers name; the
    markers it requires and forbids; and the second boot that recovers the shell
    history.  The theorems are about what the checks establish for every guest - and
    about the ones that establish nothing, because a guest that only echoes what it
    is sent passes them. *)

From stdpp Require Import pretty.
From S2P Require Import Prelude PyBytes PyText Serial Session NvmeImage BootTests.

#[local] Open Scope Z_scope.

Module NormalBoot.

Import Session.

Definition PROMPT_HOME : bytes := B "root@zigos:/home/root$ ".
Definition PROMPT_ROOT : bytes := B "root@zigos:/$ ".
Definition decode_replace : bytes → list Z := Serial.decode_replace.

(** A computation without a guest. *)
Definition lift {A} (m : result A) : session A := λ s, a ← m; Ok (a, s).

(** ** The parsers of the dialogue *)

(** [fields[i]] *)
Definition field_at (fields : list bytes) (i : nat) : bytes := nth i fields [].

(** [int(field)] *)
Definition int_field (l : bytes) : result Z :=
  match parse_int_bytes l with Some n => Ok n | None => Err (ValueError "invalid literal for int()") end.

(** The row of [sleep.elf] in the listing of [ps], and its process id. *)
Fixpoint find_sleep_pid (rows : list bytes) : result (option Z) :=
  match rows with
  | [] => Ok None
  | row :: rows =>
      let fields := split (strip_bytes row) in
      if (7 <=? len fields) && beq (field_at fields 1) (B "2") && beq (List.last fields []) (B "sleep.elf")
      then pid ← int_field (field_at fields 0); Ok (Some pid)
      else find_sleep_pid rows
  end.

(** The rows of [df] that are kept. *)
Definition df_row (df_values : gmap bytes Z) (row : bytes) : result (gmap bytes Z) :=
  let fields := split (strip_bytes row) in
  if (len fields =? 2) &&
     existsb (beq (field_at fields 0)) [B "free"; B "available"; B "free-nodes"]
  then value ← int_field (field_at fields 1); Ok (<[field_at fields 0 := value]> df_values)
  else Ok df_values.
Definition df_blocks_bad (df_values : gmap bytes Z) : bool :=
  match df_values !! B "free" with
  | None => true
  | Some free => negb (bool_decide (df_values !! B "available" = Some free)) || (256 <? free)
  end.
Definition df_nodes_bad (df_values : gmap bytes Z) : bool :=
  match df_values !! B "free-nodes" with None => true | Some nodes => 96 <? nodes end.

(** ** The dialogue *)

Definition boot_and_builtins : session unit :=
  wait_for (B "ZigOs userspace init PID 1") 0;;
  wait_for (B "ZigOs userspace shell PID 2") 0;;
  wait_for PROMPT_HOME 0;;
  send "help" (B "help echo pwd cd ls cat cp write append mkdir rm rmdir mv chmod sync pid status fg bg run shutdown");;
  send "pwd" (CRLF ++ B "/home/root" ++ CRLF);;
  send "cd /" PROMPT_ROOT;;
  send "pwd" (CRLF ++ B "/" ++ CRLF);;
  send "ls /bin" (B "sh.elf");;
  send "cat /proc/version" (B "ZigOs 19.0.0 x86_64 persistent runtime");;
  send "pid" (CRLF ++ B "2" ++ CRLF);;
  send "mkdir /persist/shell-state" PROMPT_ROOT;;
  send "write /persist/shell-state/message.txt alpha" PROMPT_ROOT;;
  send "append /persist/shell-state/message.txt beta" PROMPT_ROOT;;
  send "write /persist/shell-state/renamed.txt stale-destination" PROMPT_ROOT;;
  send "mv /persist/shell-state/message.txt /persist/shell-state/renamed.txt" PROMPT_ROOT;;
  send "chmod 600 /persist/shell-state/renamed.txt" PROMPT_ROOT;;
  send "cat /persist/shell-state/renamed.txt" (B "beta");;
  send "rm /persist/shell-state/renamed.txt" PROMPT_ROOT;;
  send "rmdir /persist/shell-state" PROMPT_ROOT.

Definition conditional_lists : session unit :=
  send "run hello" (B "process 3 exited 42");;
  send "status" (CRLF ++ B "42" ++ CRLF);;
  send "missing-g258-command" (B "run: not found");;
  send "status" (CRLF ++ B "127" ++ CRLF);;
  send "cd /missing-g258-directory" (B "cd: not found");;
  send "status" (CRLF ++ B "1" ++ CRLF);;
  send "pwd" (CRLF ++ B "/" ++ CRLF);;
  send "status" (CRLF ++ B "0" ++ CRLF);;
  send "pwd&&echo G259_AND_RAN" (B "G259_AND_RAN");;
  send "status" (CRLF ++ B "0" ++ CRLF);;
  send "missing-g259-and&&echo G259_AND_SHOULD_NOT_RUN" (B "run: not found");;
  send "status" (CRLF ++ B "127" ++ CRLF);;
  send "pwd||echo G259_OR_SHOULD_NOT_RUN" (CRLF ++ B "/" ++ CRLF);;
  send "status" (CRLF ++ B "0" ++ CRLF);;
  send "missing-g259-or||echo G259_OR_RAN" (B "G259_OR_RAN");;
  send "status" (CRLF ++ B "0" ++ CRLF);;
  send "missing-g259-mixed&&echo G259_MIXED_BAD||echo G259_MIXED_RECOVERED" (B "G259_MIXED_RECOVERED");;
  send "status" (CRLF ++ B "0" ++ CRLF);;
  send "echo G259_TRAILING&&" (B "syntax: invalid conditional list");;
  send "status" (CRLF ++ B "2" ++ CRLF);;
  send "echo G260_FIRST;echo G260_SECOND" (B "G260_SECOND");;
  send "status" (CRLF ++ B "0" ++ CRLF);;
  send "missing-g260;echo G260_AFTER_FAILURE" (B "G260_AFTER_FAILURE");;
  send "status" (CRLF ++ B "0" ++ CRLF);;
  send "missing-g260-status;status" (CRLF ++ B "127" ++ CRLF);;
  send "status" (CRLF ++ B "0" ++ CRLF);;
  send "missing-g260-and&&echo G260_COND_SKIP;echo G260_AFTER_COND" (B "G260_AFTER_COND");;
  send "status" (CRLF ++ B "0" ++ CRLF);;
  send "echo G260_TRAILING_OK;" (B "G260_TRAILING_OK");;
  send "status" (CRLF ++ B "0" ++ CRLF);;
  send "echo G260_PREFIX_SHOULD_NOT_RUN;;echo G260_SUFFIX_SHOULD_NOT_RUN" (B "syntax: invalid conditional list");;
  send "status" (CRLF ++ B "2" ++ CRLF);;
  send "echo G260_OVER1;echo G260_OVER2;echo G260_OVER3;echo G260_OVER4;echo G260_OVER5" (B "syntax: invalid conditional list");;
  send "status" (CRLF ++ B "2" ++ CRLF).

Definition programs_and_pipelines : session unit :=
  send "cp /bin/sdk.elf /persist/persist-sdk.elf" PROMPT_ROOT;;
  send "sync" (B "writable mounts synchronized");;
  send "persist-sdk alpha beta" (B "process 4 exited 86");;
  send "fs init" (B "process 5 exited 88");;
  send "fs verify-live" (B "process 6 exited 89");;
  send "hello|hello" PROMPT_ROOT;;
  send "status" (CRLF ++ B "42" ++ CRLF);;
  send "echo G261_BUILTIN_SHOULD_NOT_RUN|hello" (B "pipeline: external stages only");;
  send "status" (CRLF ++ B "2" ++ CRLF);;
  send "hello|" (B "syntax: invalid conditional list");;
  send "status" (CRLF ++ B "2" ++ CRLF);;
  send "pipe-writer.elf|pipe-reader.elf" PROMPT_ROOT;;
  send "status" (CRLF ++ B "0" ++ CRLF).

Definition foreground_pipeline : session unit :=
  foreground_start ← serial_len;
  sendall (B "pipe-reader.elf|pipe-reader.elf" ++ [13]);;
  wait_for (B "pipeline" ++ CRLF) foreground_start;;
  read_available;;
  output ← get_serial;
  raise_when (contains (slice_from output foreground_start) PROMPT_ROOT) "G263 shell prompt returned before foreground pipeline received terminal input";;
  sendall (B "TTYPIPE" ++ [13]);;
  wait_for PROMPT_ROOT foreground_start;;
  send "status" (CRLF ++ B "0" ++ CRLF);;
  rollback_start ← serial_len;
  send "pipe-reader.elf|missing-g263-rollback" PROMPT_ROOT;;
  output ← get_serial;
  raise_when (negb (contains (slice_from output rollback_start) PROMPT_ROOT)) "G263 partial foreground pipeline did not restore the shell prompt";;
  send "status" (CRLF ++ B "127" ++ CRLF).

Definition background_job : session unit :=
  background_start ← serial_len;
  sendall (B "runtime-sleep.elf &" ++ [13]);;
  wait_for PROMPT_ROOT background_start;;
  read_available;;
  output ← get_serial;
  raise_when (contains (slice_from output background_start) (B "[1] done 7")) "G264 background job completed before the shell returned its prompt";;
  wait_for (B "[1] done 7") background_start;;
  wait_for PROMPT_ROOT background_start;;
  send "status" (CRLF ++ B "0" ++ CRLF);;
  send "echo G264_BUILTIN_SHOULD_NOT_RUN &" (B "syntax: invalid conditional list");;
  send "status" (CRLF ++ B "2" ++ CRLF).

Definition job_control : session unit :=
  fg_launch ← serial_len;
  sendall (B "runtime-sleep.elf &" ++ [13]);;
  wait_for PROMPT_ROOT fg_launch;;
  read_available;;
  output ← get_serial;
  raise_when (contains (slice_from output fg_launch) (B "[1] done 7")) "G265 fg fixture completed before adoption";;
  fg_wait ← serial_len;
  sendall (B "fg 1" ++ [13]);;
  wait_for (B "sleep: after") fg_wait;;
  output ← get_serial;
  let after_index := find output (B "sleep: after") fg_wait in
  output ← get_serial;
  raise_when ((after_index <? 0) || contains (slice output fg_wait after_index) PROMPT_ROOT) "G265 fg returned the shell prompt before the adopted job completed";;
  wait_for PROMPT_ROOT after_index;;
  send "status" (CRLF ++ B "7" ++ CRLF);;
  bg_launch ← serial_len;
  sendall (B "runtime-sleep.elf &" ++ [13]);;
  wait_for PROMPT_ROOT bg_launch;;
  bg_command ← serial_len;
  sendall (B "bg 1" ++ [13]);;
  wait_for PROMPT_ROOT bg_command;;
  read_available;;
  output ← get_serial;
  raise_when (contains (slice_from output bg_command) (B "[1] done 7")) "G265 bg job completed before detached prompt return";;
  wait_for (B "[1] done 7") bg_command;;
  wait_for PROMPT_ROOT bg_command;;
  send "status" (CRLF ++ B "0" ++ CRLF);;
  send "fg 4" PROMPT_ROOT;;
  send "status" (CRLF ++ B "1" ++ CRLF);;
  send "bg 0" PROMPT_ROOT;;
  send "status" (CRLF ++ B "2" ++ CRLF).

Definition environment : session unit :=
  send "PATH=/missing" PROMPT_ROOT;;
  send "status" (CRLF ++ B "0" ++ CRLF);;
  send "/bin/sdk.elf alpha beta" (B "zig-sdk: bad envp/auxv");;
  send "status" (CRLF ++ B "233" ++ CRLF);;
  send "hello" (B "run: not found");;
  send "status" (CRLF ++ B "127" ++ CRLF);;
  send "PATH=/bin:/persist" PROMPT_ROOT;;
  send "status" (CRLF ++ B "0" ++ CRLF);;
  send "G267_A=one" PROMPT_ROOT;;
  send "status" (CRLF ++ B "0" ++ CRLF);;
  send "G267_A=two" PROMPT_ROOT;;
  send "status" (CRLF ++ B "0" ++ CRLF);;
  send "G267_B=two" PROMPT_ROOT;;
  send "G267_C=three" PROMPT_ROOT;;
  send "G267_D=four" PROMPT_ROOT;;
  send "status" (CRLF ++ B "1" ++ CRLF);;
  send "PATH=/blocked &" (B "syntax: invalid conditional list");;
  send "status" (CRLF ++ B "2" ++ CRLF);;
  send "hello" (B "hello from VFS-loaded CPL3 ELF64");;
  send "status" (CRLF ++ B "42" ++ CRLF).

Definition substitution : session unit :=
  send "write /tmp/g268.txt $(pipe-writer.elf)" PROMPT_ROOT;;
  send "status" (CRLF ++ B "0" ++ CRLF);;
  send "cat /tmp/g268.txt" (B "PIPE-CPL");;
  send "rm /tmp/g268.txt" PROMPT_ROOT;;
  overflow_start ← serial_len;
  send "echo $(hello)" PROMPT_ROOT;;
  output ← get_serial;
  raise_when (contains (slice_from output overflow_start) (B "hello from VFS-loaded CPL3 ELF64")) "G268 overflow capture leaked child stdout to the terminal";;
  send "status" (CRLF ++ B "1" ++ CRLF);;
  background_substitution ← serial_len;
  send "hello $(pipe-writer.elf) &" (B "syntax: invalid conditional list");;
  output ← get_serial;
  raise_when (contains (slice_from output background_substitution) (B "hello from VFS-loaded CPL3 ELF64") || contains (slice_from output background_substitution) (B "PIPE-CPL")) "G268 background substitution executed before rejection";;
  send "status" (CRLF ++ B "2" ++ CRLF);;
  pipeline_substitution ← serial_len;
  send "hello $(pipe-writer.elf)|hello" (B "pipeline: external stages only");;
  output ← get_serial;
  raise_when (contains (slice_from output pipeline_substitution) (B "hello from VFS-loaded CPL3 ELF64") || contains (slice_from output pipeline_substitution) (B "PIPE-CPL")) "G268 pipeline substitution executed before rejection";;
  send "status" (CRLF ++ B "2" ++ CRLF).

Definition wildcards : session unit :=
  send "write /tmp/g269-a.txt alpha" PROMPT_ROOT;;
  send "write /tmp/g269-b.txt beta" PROMPT_ROOT;;
  send "write /tmp/g269-list.txt /tmp/g269-*.txt" PROMPT_ROOT;;
  send "status" (CRLF ++ B "0" ++ CRLF);;
  glob_list_start ← serial_len;
  send "cat /tmp/g269-list.txt" PROMPT_ROOT;;
  output ← get_serial;
  let glob_list := slice_from output glob_list_start in
  raise_when (negb (contains glob_list (B "/tmp/g269-a.txt")) || negb (contains glob_list (B "/tmp/g269-b.txt"))) "G269 wildcard expansion did not produce both directory matches";;
  no_match_start ← serial_len;
  send "echo /tmp/g269-none-*.txt" PROMPT_ROOT;;
  output ← get_serial;
  raise_when (negb (count (slice_from output no_match_start) (B "/tmp/g269-none-*.txt") =? 1)) "G269 unmatched wildcard appeared beyond the terminal command echo";;
  send "status" (CRLF ++ B "1" ++ CRLF);;
  double_star_start ← serial_len;
  send "echo /tmp/g269-**.txt" PROMPT_ROOT;;
  output ← get_serial;
  raise_when (negb (count (slice_from output double_star_start) (B "/tmp/g269-**.txt") =? 1)) "G269 second wildcard escaped failure-closed validation";;
  send "status" (CRLF ++ B "1" ++ CRLF);;
  prefix_star_start ← serial_len;
  send "echo /tmp/*/g269-a.txt" PROMPT_ROOT;;
  output ← get_serial;
  raise_when (negb (count (slice_from output prefix_star_start) (B "/tmp/*/g269-a.txt") =? 1)) "G269 directory-prefix wildcard escaped failure-closed validation";;
  send "status" (CRLF ++ B "1" ++ CRLF);;
  command_glob_start ← serial_len;
  send "g269-*" PROMPT_ROOT;;
  output ← get_serial;
  raise_when (negb (count (slice_from output command_glob_start) (B "g269-*") =? 1)) "G269 command-name wildcard executed or leaked as an outer argument";;
  send "status" (CRLF ++ B "1" ++ CRLF);;
  background_glob ← serial_len;
  send "hello /tmp/g269-*.txt &" (B "syntax: invalid conditional list");;
  output ← get_serial;
  raise_when (contains (slice_from output background_glob) (B "hello from VFS-loaded CPL3 ELF64")) "G269 background wildcard executed before rejection";;
  send "status" (CRLF ++ B "2" ++ CRLF);;
  pipeline_glob ← serial_len;
  send "hello /tmp/g269-*.txt|hello" (B "pipeline: external stages only");;
  output ← get_serial;
  raise_when (contains (slice_from output pipeline_glob) (B "hello from VFS-loaded CPL3 ELF64")) "G269 pipeline wildcard executed before rejection";;
  send "status" (CRLF ++ B "2" ++ CRLF);;
  send "rm /tmp/g269-list.txt" PROMPT_ROOT;;
  send "rm /tmp/g269-a.txt" PROMPT_ROOT;;
  send "rm /tmp/g269-b.txt" PROMPT_ROOT.

Definition tilde_and_history : session unit :=
  send "cd ~" PROMPT_HOME;;
  send "pwd" (CRLF ++ B "/home/root" ++ CRLF);;
  send "cd /" PROMPT_ROOT;;
  send "cd ~/.." (B "root@zigos:/home$ ");;
  send "pwd" (CRLF ++ B "/home" ++ CRLF);;
  send "cd /" PROMPT_ROOT;;
  named_tilde_start ← serial_len;
  send "echo ~nobody" PROMPT_ROOT;;
  output ← get_serial;
  raise_when (negb (count (slice_from output named_tilde_start) (B "~nobody") =? 1)) "G270 named-user tilde escaped failure-closed validation";;
  send "status" (CRLF ++ B "1" ++ CRLF);;
  let long_tilde := "~/123456789012345678901" in
  tilde_overflow_start ← serial_len;
  send ("echo " +:+ long_tilde) PROMPT_ROOT;;
  output ← get_serial;
  raise_when (negb (count (slice_from output tilde_overflow_start) (B long_tilde) =? 1)) "G270 overlong tilde expansion escaped the 31-byte argument bound";;
  send "status" (CRLF ++ B "1" ++ CRLF);;
  background_tilde ← serial_len;
  send "hello ~ &" (B "syntax: invalid conditional list");;
  output ← get_serial;
  raise_when (contains (slice_from output background_tilde) (B "hello from VFS-loaded CPL3 ELF64")) "G270 background tilde expansion executed before rejection";;
  send "status" (CRLF ++ B "2" ++ CRLF);;
  pipeline_tilde ← serial_len;
  send "hello ~|hello" (B "pipeline: external stages only");;
  output ← get_serial;
  raise_when (contains (slice_from output pipeline_tilde) (B "hello from VFS-loaded CPL3 ELF64")) "G270 pipeline tilde expansion executed before rejection";;
  send "status" (CRLF ++ B "2" ++ CRLF);;
  history_start ← serial_len;
  send "cat /persist/.sh_history" PROMPT_ROOT;;
  output ← get_serial;
  raise_when (negb (contains (slice_from output history_start) (B "cd ~"))) "G272 persistent history did not contain an earlier interactive command".

Definition file_tools : session unit :=
  ls_start ← serial_len;
  sendall (B "/bin/ls.elf /home/root" ++ [13]);;
  wait_for (CRLF ++ B "readme.txt" ++ CRLF) ls_start;;
  wait_for PROMPT_ROOT ls_start;;
  output ← get_serial;
  raise_when (contains (slice_from output ls_start) (B "ls: ")) "G273 standalone ls reported an unexpected filesystem error";;
  send "status" (CRLF ++ B "0" ++ CRLF);;
  cat_start ← serial_len;
  sendall (B "/bin/cat.elf /home/root/readme.txt" ++ [13]);;
  wait_for (B "This filesystem remains available after boot validation.") cat_start;;
  wait_for PROMPT_ROOT cat_start;;
  output ← get_serial;
  raise_when (contains (slice_from output cat_start) (B "cat: ")) "G274 standalone cat reported an unexpected filesystem error";;
  send "status" (CRLF ++ B "0" ++ CRLF);;
  echo_start ← serial_len;
  sendall (B "/bin/echo.elf G275_ALPHA G275_BETA" ++ [13]);;
  wait_for (CRLF ++ B "G275_ALPHA G275_BETA" ++ CRLF) echo_start;;
  wait_for PROMPT_ROOT echo_start;;
  send "status" (CRLF ++ B "0" ++ CRLF);;
  pwd_start ← serial_len;
  sendall (B "/bin/pwd.elf" ++ [13]);;
  wait_for (CRLF ++ B "/" ++ CRLF) pwd_start;;
  wait_for PROMPT_ROOT pwd_start;;
  send "status" (CRLF ++ B "0" ++ CRLF);;
  mkdir_start ← serial_len;
  sendall (B "/bin/mkdir.elf /tmp/g277-dir" ++ [13]);;
  wait_for PROMPT_ROOT mkdir_start;;
  output ← get_serial;
  raise_when (contains (slice_from output mkdir_start) (B "mkdir: ")) "G277 standalone mkdir reported an unexpected filesystem error";;
  send "status" (CRLF ++ B "0" ++ CRLF);;
  mkdir_check ← serial_len;
  send "ls /tmp" PROMPT_ROOT;;
  output ← get_serial;
  raise_when (negb (contains (slice_from output mkdir_check) (B "g277-dir/"))) "G277 standalone mkdir did not publish the created directory";;
  send "rmdir /tmp/g277-dir" PROMPT_ROOT;;
  send "write /tmp/g278-file G278_PAYLOAD" PROMPT_ROOT;;
  send "mkdir /tmp/g278-dir" PROMPT_ROOT;;
  rm_start ← serial_len;
  sendall (B "/bin/rm.elf /tmp/g278-file" ++ [13]);;
  wait_for PROMPT_ROOT rm_start;;
  output ← get_serial;
  raise_when (contains (slice_from output rm_start) (B "rm: ")) "G278 standalone rm reported an unexpected filesystem error";;
  send "status" (CRLF ++ B "0" ++ CRLF);;
  rmdir_start ← serial_len;
  sendall (B "/bin/rmdir.elf /tmp/g278-dir" ++ [13]);;
  wait_for PROMPT_ROOT rmdir_start;;
  output ← get_serial;
  raise_when (contains (slice_from output rmdir_start) (B "rmdir: ")) "G278 standalone rmdir reported an unexpected filesystem error";;
  send "status" (CRLF ++ B "0" ++ CRLF);;
  remove_check ← serial_len;
  send "ls /tmp" PROMPT_ROOT;;
  output ← get_serial;
  let removed_listing := slice_from output remove_check in
  raise_when (contains removed_listing (B "g278-file") || contains removed_listing (B "g278-dir")) "G278 standalone removal left a proof path visible".

Definition copy_and_move : session unit :=
  send "write /tmp/g279-source G279_PAYLOAD" PROMPT_ROOT;;
  same_cp_start ← serial_len;
  sendall (B "/bin/cp.elf /tmp/g279-source /tmp/g279-source" ++ [13]);;
  wait_for (B "cp: same file" ++ CRLF) same_cp_start;;
  wait_for PROMPT_ROOT same_cp_start;;
  send "status" (CRLF ++ B "1" ++ CRLF);;
  same_cp_check ← serial_len;
  send "cat /tmp/g279-source" PROMPT_ROOT;;
  output ← get_serial;
  raise_when (negb (contains (slice_from output same_cp_check) (B "G279_PAYLOAD"))) "G279 standalone cp self-copy guard damaged the source";;
  cp_start ← serial_len;
  sendall (B "/bin/cp.elf /tmp/g279-source /tmp/g279-copy" ++ [13]);;
  wait_for PROMPT_ROOT cp_start;;
  output ← get_serial;
  raise_when (contains (slice_from output cp_start) (B "cp: ")) "G279 standalone cp reported an unexpected filesystem error";;
  send "status" (CRLF ++ B "0" ++ CRLF);;
  cp_check ← serial_len;
  send "cat /tmp/g279-copy" PROMPT_ROOT;;
  output ← get_serial;
  raise_when (negb (contains (slice_from output cp_check) (B "G279_PAYLOAD"))) "G279 standalone cp did not preserve source bytes";;
  mv_start ← serial_len;
  sendall (B "/bin/mv.elf /tmp/g279-copy /tmp/g279-moved" ++ [13]);;
  wait_for PROMPT_ROOT mv_start;;
  output ← get_serial;
  raise_when (contains (slice_from output mv_start) (B "mv: ")) "G279 standalone mv reported an unexpected filesystem error";;
  send "status" (CRLF ++ B "0" ++ CRLF);;
  mv_check ← serial_len;
  send "ls /tmp" PROMPT_ROOT;;
  output ← get_serial;
  let moved_listing := slice_from output mv_check in
  raise_when (contains moved_listing (B "g279-copy") || negb (contains moved_listing (B "g279-moved"))) "G279 standalone mv did not move the copied namespace entry";;
  moved_check ← serial_len;
  send "cat /tmp/g279-moved" PROMPT_ROOT;;
  output ← get_serial;
  raise_when (negb (contains (slice_from output moved_check) (B "G279_PAYLOAD"))) "G279 standalone mv did not preserve copied file bytes";;
  send "rm /tmp/g279-source" PROMPT_ROOT;;
  send "rm /tmp/g279-moved" PROMPT_ROOT.

Definition text_tools : session unit :=
  stat_start ← serial_len;
  sendall (B "/bin/stat.elf /home/root/readme.txt" ++ [13]);;
  wait_for (B "type file" ++ CRLF) stat_start;;
  wait_for (B "mode 0644" ++ CRLF) stat_start;;
  wait_for (B "size 57" ++ CRLF) stat_start;;
  wait_for (B "links 1" ++ CRLF) stat_start;;
  wait_for (B "owner 0:0" ++ CRLF) stat_start;;
  wait_for (B "readonly no" ++ CRLF) stat_start;;
  wait_for (B "times ") stat_start;;
  wait_for PROMPT_ROOT stat_start;;
  output ← get_serial;
  raise_when (contains (slice_from output stat_start) (B "stat: ")) "G280 standalone stat reported an unexpected metadata error";;
  send "status" (CRLF ++ B "0" ++ CRLF);;
  send "write /tmp/g281-text G281_L01" PROMPT_ROOT;;
  send "append /tmp/g281-text G281_L02" PROMPT_ROOT;;
  send "append /tmp/g281-text G281_MATCH_A" PROMPT_ROOT;;
  send "append /tmp/g281-text G281_L04" PROMPT_ROOT;;
  send "append /tmp/g281-text G281_L05" PROMPT_ROOT;;
  send "append /tmp/g281-text G281_L06" PROMPT_ROOT;;
  send "append /tmp/g281-text G281_L07" PROMPT_ROOT;;
  send "append /tmp/g281-text G281_L08" PROMPT_ROOT;;
  send "append /tmp/g281-text G281_MATCH_B" PROMPT_ROOT;;
  send "append /tmp/g281-text G281_L10" PROMPT_ROOT;;
  send "append /tmp/g281-text G281_L11" PROMPT_ROOT;;
  send "append /tmp/g281-text G281_L12" PROMPT_ROOT;;
  head_start ← serial_len;
  sendall (B "/bin/head.elf /tmp/g281-text" ++ [13]);;
  wait_for (B "G281_L01") head_start;;
  wait_for (B "G281_L10") head_start;;
  wait_for PROMPT_ROOT head_start;;
  output ← get_serial;
  let head_output := slice_from output head_start in
  raise_when (contains head_output (B "G281_L11") || contains head_output (B "head: ")) "G281 standalone head did not stop after ten lines";;
  send "status" (CRLF ++ B "0" ++ CRLF);;
  tail_start ← serial_len;
  sendall (B "/bin/tail.elf /tmp/g281-text" ++ [13]);;
  wait_for (B "G281_MATCH_A") tail_start;;
  wait_for (B "G281_L12") tail_start;;
  wait_for PROMPT_ROOT tail_start;;
  output ← get_serial;
  let tail_output := slice_from output tail_start in
  raise_when (contains tail_output (B "G281_L02") || contains tail_output (B "tail: ")) "G281 standalone tail did not emit the final ten lines";;
  send "status" (CRLF ++ B "0" ++ CRLF);;
  wc_start ← serial_len;
  sendall (B "/bin/wc.elf /tmp/g281-text" ++ [13]);;
  wait_for (B "12 12 116" ++ CRLF) wc_start;;
  wait_for PROMPT_ROOT wc_start;;
  output ← get_serial;
  raise_when (contains (slice_from output wc_start) (B "wc: ")) "G281 standalone wc reported an unexpected read error";;
  send "status" (CRLF ++ B "0" ++ CRLF);;
  grep_start ← serial_len;
  sendall (B "/bin/grep.elf MATCH /tmp/g281-text" ++ [13]);;
  wait_for (B "G281_MATCH_A") grep_start;;
  wait_for (B "G281_MATCH_B") grep_start;;
  wait_for PROMPT_ROOT grep_start;;
  output ← get_serial;
  let grep_output := slice_from output grep_start in
  raise_when (contains grep_output (B "G281_L04") || contains grep_output (B "grep: ")) "G281 standalone grep emitted a nonmatching line";;
  send "status" (CRLF ++ B "0" ++ CRLF);;
  grep_none_start ← serial_len;
  sendall (B "/bin/grep.elf ABSENT /tmp/g281-text" ++ [13]);;
  wait_for PROMPT_ROOT grep_none_start;;
  output ← get_serial;
  raise_when (contains (slice_from output grep_none_start) (B "grep: ")) "G281 standalone grep no-match path reported an error";;
  send "status" (CRLF ++ B "1" ++ CRLF);;
  send "rm /tmp/g281-text" PROMPT_ROOT.

Definition hexdump_tool : session unit :=
  send "write /tmp/g282-hex ABCDEFGHIJKLMNOP" PROMPT_ROOT;;
  send "append /tmp/g282-hex ABCDEFGHIJKLMNOP" PROMPT_ROOT;;
  send "append /tmp/g282-hex ABCDEFGHIJKLMNOP" PROMPT_ROOT;;
  send "append /tmp/g282-hex ABCDEFGHIJKLMNOP" PROMPT_ROOT;;
  send "append /tmp/g282-hex ABCDEFGHIJKLMNOP" PROMPT_ROOT;;
  send "append /tmp/g282-hex ABCDEFGHIJKLMNOP" PROMPT_ROOT;;
  send "append /tmp/g282-hex ABCDEFGHIJKLMNOP" PROMPT_ROOT;;
  send "append /tmp/g282-hex ABCDEFGHIJKLMNOP" PROMPT_ROOT;;
  send "append /tmp/g282-hex ABCDEFGHIJKLMNOP" PROMPT_ROOT;;
  send "append /tmp/g282-hex ABCDEFGHIJKLMNOP" PROMPT_ROOT;;
  send "append /tmp/g282-hex ABCDEFGHIJKLMNOP" PROMPT_ROOT;;
  send "append /tmp/g282-hex ABCDEFGHIJKLMNOP" PROMPT_ROOT;;
  send "append /tmp/g282-hex ABCDEFGHIJKLMNOP" PROMPT_ROOT;;
  send "append /tmp/g282-hex ABCDEFGHIJKLMNOP" PROMPT_ROOT;;
  send "append /tmp/g282-hex ABCDEFGHIJKLMNOP" PROMPT_ROOT;;
  send "append /tmp/g282-hex ABCDEFGHIJKLMNOP" PROMPT_ROOT;;
  hexdump_start ← serial_len;
  sendall (B "/bin/hexdump.elf /tmp/g282-hex" ++ [13]);;
  wait_for (B "0000  41 42 43 44 45 46 47 48") hexdump_start;;
  wait_for (B "49 4A 4B 4C 4D 4E 4F 50") hexdump_start;;
  wait_for (B "ABCDEFGHIJKLMNOP" ++ CRLF) hexdump_start;;
  wait_for (B "00F0  ") hexdump_start;;
  wait_for PROMPT_ROOT hexdump_start;;
  output ← get_serial;
  let hexdump_output := slice_from output hexdump_start in
  raise_when (contains hexdump_output (B "0100  ") || contains hexdump_output (B "hexdump: ")) "G282 standalone hexdump exceeded its 256-byte ceiling or reported an error";;
  send "status" (CRLF ++ B "0" ++ CRLF);;
  send "rm /tmp/g282-hex" PROMPT_ROOT.

Definition process_tools : session unit :=
  ps_start ← serial_len;
  sendall (B "/bin/ps.elf" ++ [13]);;
  wait_for (B "PID PPID STATE      TICKS FDS SOCK NAME" ++ CRLF) ps_start;;
  wait_for (B "1 0 blocked") ps_start;;
  wait_for (B "2 1 blocked") ps_start;;
  wait_for (B " 2 running   ") ps_start;;
  wait_for (B " 4 0 ps.elf" ++ CRLF) ps_start;;
  wait_for PROMPT_ROOT ps_start;;
  output ← get_serial;
  raise_when (contains (slice_from output ps_start) (B "ps: ")) "G283 standalone ps reported an unexpected procfs error";;
  send "status" (CRLF ++ B "0" ++ CRLF);;
  sleep_start ← serial_len;
  sendall (B "/bin/sleep.elf 2" ++ [13]);;
  wait_for PROMPT_ROOT sleep_start;;
  output ← get_serial;
  raise_when (contains (slice_from output sleep_start) (B "sleep: ")) "G284 standalone sleep reported an unexpected syscall error";;
  send "status" (CRLF ++ B "0" ++ CRLF);;
  background_start ← serial_len;
  sendall (B "/bin/sleep.elf 1000 &" ++ [13]);;
  wait_for PROMPT_ROOT background_start;;
  ps_kill_start ← serial_len;
  sendall (B "/bin/ps.elf" ++ [13]);;
  wait_for (B " sleep.elf" ++ CRLF) ps_kill_start;;
  wait_for PROMPT_ROOT ps_kill_start;;
  output ← get_serial;
  sleep_pid ← lift (find_sleep_pid (splitlines (slice_from output ps_kill_start)));
  raise_when (match sleep_pid with None => true | Some sleep_pid => sleep_pid <=? 2 end)
    "G284 could not discover the live standalone sleep PID through procfs";;
  kill_start ← serial_len;
  sendall (B ("/bin/kill.elf " +:+ pretty (default 0 sleep_pid)) ++ [13]);;
  wait_for (B "] done 137" ++ CRLF) kill_start;;
  wait_for PROMPT_ROOT kill_start;;
  output ← get_serial;
  raise_when (contains (slice_from output kill_start) (B "kill: ")) "G284 standalone kill reported an unexpected signal error";;
  send "status" (CRLF ++ B "0" ++ CRLF).

Definition mount_and_space : session unit :=
  mount_start ← serial_len;
  sendall (B "/bin/mount.elf" ++ [13]);;
  wait_for (B "ramfs on / type ramfs (rw)" ++ CRLF) mount_start;;
  wait_for (B "process-table on /proc type procfs (ro)" ++ CRLF) mount_start;;
  wait_for PROMPT_ROOT mount_start;;
  output ← get_serial;
  raise_when (contains (slice_from output mount_start) (B "mount: ")) "G285 standalone mount reported an unexpected procfs error";;
  send "status" (CRLF ++ B "0" ++ CRLF);;
  df_start ← serial_len;
  sendall (B "/bin/df.elf /" ++ [13]);;
  wait_for (B "type ramfs" ++ CRLF) df_start;;
  wait_for (B "block-size 4096" ++ CRLF) df_start;;
  wait_for (B "blocks 256" ++ CRLF) df_start;;
  wait_for (B "nodes 128" ++ CRLF) df_start;;
  wait_for (B "mount 1" ++ CRLF) df_start;;
  wait_for (B "flags rw shared-blocks shared-nodes" ++ CRLF) df_start;;
  wait_for PROMPT_ROOT df_start;;
  output ← get_serial;
  let df_output := splitlines (slice_from output df_start) in
  df_values ← lift (foldM df_row ∅ df_output);
  raise_when (df_blocks_bad df_values) "G286 standalone df reported invalid shared block availability";;
  raise_when (df_nodes_bad df_values) "G286 standalone df reported invalid node availability";;
  output ← get_serial;
  raise_when (contains (slice_from output df_start) (B "df: ")) "G286 standalone df reported an unexpected statfs error";;
  send "status" (CRLF ++ B "0" ++ CRLF);;
  fsck_start ← serial_len;
  sendall (B "/bin/fsck.elf" ++ [13]);;
  wait_for (B "fsck: clean" ++ CRLF) fsck_start;;
  wait_for PROMPT_ROOT fsck_start;;
  output ← get_serial;
  raise_when (contains (slice_from output fsck_start) (B "fsck: corrupt") || contains (slice_from output fsck_start) (B "fsck: unavailable") || contains (slice_from output fsck_start) (B "fsck: input/output error") || contains (slice_from output fsck_start) (B "fsck: error")) "G287 standalone fsck reported a filesystem consistency failure";;
  send "status" (CRLF ++ B "0" ++ CRLF).

Definition environment_and_editor : session unit :=
  uname_start ← serial_len;
  sendall (B "/bin/uname.elf" ++ [13]);;
  wait_for (B "ZigOs 19.0.0 x86_64 persistent runtime" ++ CRLF) uname_start;;
  wait_for PROMPT_ROOT uname_start;;
  output ← get_serial;
  raise_when (contains (slice_from output uname_start) (B "uname: ")) "G288 standalone uname reported an unexpected procfs error";;
  send "status" (CRLF ++ B "0" ++ CRLF);;
  env_start ← serial_len;
  sendall (B "/bin/env.elf" ++ [13]);;
  each (λ marker, wait_for marker env_start) [
      B "PATH=/bin:/persist" ++ CRLF;
      B "HOME=/home/root" ++ CRLF;
      B "TERM=zigos" ++ CRLF;
      B "SHELL=/bin/sh.elf" ++ CRLF;
      B "G267_A=two" ++ CRLF;
      B "G267_B=two" ++ CRLF;
      B "G267_C=three" ++ CRLF];;
  wait_for PROMPT_ROOT env_start;;
  output ← get_serial;
  let env_output := slice_from output env_start in
  raise_when (contains env_output (B "G267_D=four") || contains env_output (B "env: ")) "G289 standalone env exposed rejected or malformed environment state";;
  send "status" (CRLF ++ B "0" ++ CRLF);;
  send "write /tmp/g290-edit BASE" PROMPT_ROOT;;
  edit_start ← serial_len;
  sendall (B "/bin/edit.elf /tmp/g290-edit" ++ [13]);;
  wait_for (B "edit: 5 bytes" ++ CRLF) edit_start;;
  wait_for (B "edit> ") edit_start;;
  edit_print ← serial_len;
  sendall (B "p" ++ [13]);;
  wait_for (B "BASE" ++ [10]) edit_print;;
  wait_for (B "edit> ") edit_print;;
  edit_burst ← serial_len;
  let maximum_append := B "a " ++ replicate 254 88 ++ [13] in
  sendall (maximum_append ++ B "d" ++ [13] ++ B "a REMOVE" ++ [13] ++ B "d" ++ [13] ++ B "a FINAL" ++ [13] ++ B "wq" ++ [13]);;
  wait_for (B "edit: wrote 11 bytes" ++ CRLF) edit_burst;;
  wait_for PROMPT_ROOT edit_burst;;
  output ← get_serial;
  let edit_output := slice_from output edit_start in
  each (λ forbidden_edit, raise_when (contains edit_output forbidden_edit) "G290 standalone editor failed bounded command framing") [
      B "edit: error";
      B "edit: input/output error";
      B "edit: command too long";
      B "edit: command must be"];;
  send "status" (CRLF ++ B "0" ++ CRLF);;
  edit_cat ← serial_len;
  sendall (B "cat /tmp/g290-edit" ++ [13]);;
  wait_for (B "BASE" ++ [10] ++ B "FINAL" ++ [10]) edit_cat;;
  wait_for PROMPT_ROOT edit_cat;;
  output ← get_serial;
  raise_when (contains (slice_from output edit_cat) (B "REMOVE")) "G290 standalone editor failed to delete the discarded line";;
  send "rm /tmp/g290-edit" PROMPT_ROOT.

Definition startup_files : session unit :=
  send "write /etc/shrc write /tmp/g271-order SYSTEM" PROMPT_ROOT;;
  send "write /home/root/.shrc append /tmp/g271-order USER" PROMPT_ROOT;;
  send "append /home/root/.shrc echo G271US" PROMPT_ROOT;;
  startup ← serial_len;
  sendall (B "sh|pipe-reader.elf" ++ [13]);;
  wait_for (B "pipeline" ++ CRLF) startup;;
  wait_for (B "G271US" ++ CRLF) startup;;
  sendall ([3]);;
  wait_for PROMPT_ROOT startup;;
  send "status" (CRLF ++ B "0" ++ CRLF);;
  order_start ← serial_len;
  send "cat /tmp/g271-order" PROMPT_ROOT;;
  output ← get_serial;
  let order_output := slice_from output order_start in
  let system_index := find order_output (B "SYSTEM") 0 in
  let user_index := find order_output (B "USER") 0 in
  raise_when ((system_index <? 0) || (user_index <? 0) || (user_index <=? system_index)) "G271 startup files did not execute system-before-user side effects";;
  send "rm /etc/shrc" PROMPT_ROOT;;
  send "rm /home/root/.shrc" PROMPT_ROOT;;
  send "rm /tmp/g271-order" PROMPT_ROOT;;
  send "shutdown" (B "ZigOs normal boot verified:");;
  read_available.

Definition required : list bytes := B <$> [
  "Normal boot selected: skipping kernel heap, scheduler, Capstone 15 and Capstone 16 proof workloads";
  "ZigOs normal boot profile: userspace init PID 1 supervises userspace shell PID 2; diagnostic software suite skipped";
  "ZigOs userspace init PID 1";
  "userspace init launched shell PID 2";
  "ZigOs userspace shell PID 2";
  "hello from VFS-loaded CPL3 ELF64";
  "process 3 exited 42";
  "help echo pwd cd ls cat cp write append mkdir rm rmdir mv chmod sync pid status fg bg run shutdown";
  "run: not found";
  "cd: not found";
  "G259_AND_RAN";
  "G259_OR_RAN";
  "G259_MIXED_RECOVERED";
  "syntax: invalid conditional list";
  "G260_FIRST";
  "G260_SECOND";
  "G260_AFTER_FAILURE";
  "G260_AFTER_COND";
  "G260_TRAILING_OK";
  "writable mounts synchronized";
  "zig-sdk: envp/auxv passed";
  "zig-sdk: tmpfs mount/umount isolation, statfs and busy policy passed";
  "zig-sdk: timestamp precision/data/namespace/access ordering passed";
  "zig-sdk: uid/gid creation and hard-link ownership passed";
  "zig-sdk: process umask file/directory creation passed";
  "zig-sdk: setuid/setgid metadata inert-exec policy passed";
  "zig-sdk: advisory whole-file flock passed";
  "zig-sdk: advisory byte-range lock passed";
  "zig-sdk: directory watch notifications passed";
  "zig-sdk: startup/argv/abi/files/vm/file-mmap/errno/fsync/fdatasync/readv/writev/mount/umount/tmpfs/statfs/stattimes/statowner/umask/setid-metadata/flock/lockrange/watchdir/kill passed";
  "process 4 exited 86";
  "fs-api: init/mkdir/write/seek/replace-rename/chmod/link/nlink/symlink/readlink/fallocate/sparse/open-unlink/rmdir/sync passed";
  "process 5 exited 88";
  "fs-api: baseline/mode/seek/hard-link/symlink/fallocate/sparse/cleanup passed";
  "process 6 exited 89";
  "pipeline";
  "pipeline: external stages only";
  "pipeline";
  "PIPE-CPL";
  "pipeline";
  "TTYPIPE";
  "[1] done 7";
  "zig-sdk: bad envp/auxv";
  "G271US";
  "userspace init reaped shell PID 2 status 0";
  "ZigOs normal userspace shutdown: init PID 1 status 0 shell PID 2 reaped yes";
  "ZigOs boot FAT: block-backed yes files/directories 3/2 bytes ";
  " metadata/file/block reads 113/0/113 failures 0 clusters claimed/free/loop/cross/range 11348/4763/0/0/0 lock tickets/outstanding 1/0 quarantine state/reason/events no/none/0 clean yes";
  "ZigOs live pseudo filesystems: dev/proc/net registrations 3/5/4 publications 3/5/4 withdrawals 0/0/0 failures 0/0/0 clean yes";
  "ZigOs normal userspace resources: processes 1 descriptors 0 contexts 0 pages 0 alloc/free 929/929 cache-released 13 storage persistent clean yes";
  "ZigOs normal boot verified: diagnostic-suite skipped yes userspace-init yes userspace-shell yes tty yes vfs yes spawn-wait yes storage persistent cleanup yes"].

Definition forbidden : list bytes := [
  B "Kernel heap active:";
  B "Cooperative scheduler active:";
  B "Preemptive scheduler active:";
  B "ZigOs x86-64 Capstone 15 verified:";
  B "ZigOs x86-64 Capstone 16 verified:";
  B "init PID 1; serial shell PID 2";
  B "ZigOs normal boot profile: init PID 1; userspace shell PID 2";
  CRLF ++ B "G259_AND_SHOULD_NOT_RUN" ++ CRLF;
  CRLF ++ B "G259_OR_SHOULD_NOT_RUN" ++ CRLF;
  CRLF ++ B "G259_MIXED_BAD" ++ CRLF;
  CRLF ++ B "G264_BUILTIN_SHOULD_NOT_RUN" ++ CRLF;
  CRLF ++ B "G259_TRAILING" ++ CRLF;
  CRLF ++ B "G260_COND_SKIP" ++ CRLF;
  CRLF ++ B "G260_PREFIX_SHOULD_NOT_RUN" ++ CRLF;
  CRLF ++ B "G260_SUFFIX_SHOULD_NOT_RUN" ++ CRLF;
  CRLF ++ B "G260_OVER1" ++ CRLF;
  CRLF ++ B "G260_OVER2" ++ CRLF;
  CRLF ++ B "G260_OVER3" ++ CRLF;
  CRLF ++ B "G260_OVER4" ++ CRLF;
  CRLF ++ B "G260_OVER5" ++ CRLF;
  CRLF ++ B "G261_BUILTIN_SHOULD_NOT_RUN" ++ CRLF].

Definition check_text (text : list Z) : session unit :=
  each (λ marker, raise_when (negb (contains text marker)) "normal boot missing marker: {marker}") required;;
  each (λ marker, raise_when (contains text marker) "normal boot unexpectedly ran diagnostic marker: {marker}") forbidden;;
  raise_when ((count text (B "hello from VFS-loaded CPL3 ELF64") <? 2)) "G261 grouped pipeline did not retain visible final-stage execution";;
  raise_when (negb (contains text (B "ZigOs normal userspace resources:")) || negb (contains text (B "clean yes"))) "normal boot did not report clean resource reclamation".

Definition dialogue : session unit :=
  boot_and_builtins;;
  conditional_lists;;
  programs_and_pipelines;;
  foreground_pipeline;;
  background_job;;
  job_control;;
  environment;;
  substitution;;
  wildcards;;
  tilde_and_history;;
  file_tools;;
  copy_and_move;;
  text_tools;;
  hexdump_tool;;
  process_tools;;
  mount_and_space;;
  environment_and_editor;;
  startup_files.

Definition run_session (connects : bool) : session (list Z) :=
  raise_when (negb connects) "normal boot serial connection failed";;
  dialogue;;
  output ← get_serial;
  let text := decode_replace output in
  check_text text;;
  mret text.

(** The second boot from the same image. *)
Definition recover_history (connects : bool) : session unit :=
  raise_when (negb connects) "G272 history-recovery serial connection failed";;
  wait_for (B "ZigOs userspace init PID 1") 0;;
  wait_for PROMPT_HOME 0;;
  history_start ← serial_len;
  send "cat /persist/.sh_history" (B "cd ~");;
  output ← get_serial;
  let recovered := slice_from output history_start in
  raise_when (negb (contains recovered (B "cd ~"))) "G272 reboot did not recover first-session shell history";;
  send "sync" (B "writable mounts synchronized");;
  send "hello" (B "process 3 exited 42");;
  send "shutdown" (B "ZigOs normal boot verified:");;
  read_available;;
  output ← get_serial;
  let history_text := decode_replace output in
  raise_when (negb (contains history_text (B "storage persistent cleanup yes")) || negb (contains history_text (B "clean yes"))) "G272 recovery boot did not finish with clean persistent shutdown".

(** The transcripts are those of the two guests. *)
Definition main (efi : bytes) (connects : bool) (waits : list (list Serial.turn)) (reads : list (list bytes))
    (history_connects : bool) (history_waits : list (list Serial.turn)) (history_reads : list (list bytes))
    : result unit :=
  '(_, _) ← NvmeImage.build_image efi 512 NvmeImage.none 0 None;
  _ ← BootTests.with_guest (run_session connects) waits reads;
  BootTests.with_guest (recover_history history_connects) history_waits history_reads.

(** ** Checks that an echo passes *)

(** The terminal echoes what it is sent; the test's own checks count on it. *)
Definition echo_of (command : string) : bytes := B command ++ CRLF.

Lemma send_echo command marker s :
  contains (B command) marker = true → socket s = [] → hd [] (waits s) = [Serial.Turn [echo_of command] None] →
  ∃ s', send command marker s = Ok (tt, s').
Proof.
  intros Hc Hs Hw. unfold send, serial_len, sendall. unfold mbind, session_bind. cbn [serial].
  unfold wait_for. cbn [socket waits serial]. rewrite Hw, Hs. cbn [Serial.wait_for Serial.arrived app].
  assert (∃ k o, Serial.read_available [echo_of command] (serial s) = (k, serial s ++ echo_of command ++ o)) as (k & o & ->).
  { exists [], []. rewrite app_nil_r. cbn [Serial.read_available]. destruct (len (echo_of command) =? 0) eqn:E.
    - apply Z.eqb_eq in E. unfold echo_of in E. rewrite len_app in E. pose proof (len_nonneg (B command)).
      change (len CRLF) with 2 in E. lia.
    - by destruct (_ <? _). }
  assert (contains (echo_of command ++ o) marker = true) as Hm.
  { unfold echo_of. rewrite <-app_assoc. by apply Serial.contains_app. }
  rewrite Serial.slice_from_app, Hm. cbn [mbind result_bind].
  unfold read_available. destruct (Serial.read_available _ _). eauto.
Qed.

Definition echoed_checks : list (string * string) :=
  [("pwd&&echo G259_AND_RAN", "G259_AND_RAN"); ("missing-g259-or||echo G259_OR_RAN", "G259_OR_RAN");
   ("missing-g259-mixed&&echo G259_MIXED_BAD||echo G259_MIXED_RECOVERED", "G259_MIXED_RECOVERED");
   ("echo G260_FIRST;echo G260_SECOND", "G260_SECOND");
   ("missing-g260;echo G260_AFTER_FAILURE", "G260_AFTER_FAILURE");
   ("missing-g260-and&&echo G260_COND_SKIP;echo G260_AFTER_COND", "G260_AFTER_COND");
   ("echo G260_TRAILING_OK;", "G260_TRAILING_OK")].

(** (C34) Seven of the checks of conditional and sequential lists check nothing: each is
    in the dialogue, and its wait is satisfied by a guest that does no more than echo
    the command line, because the marker is a part of it. *)
Theorem echo_passes_checks :
  Talks conditional_lists ((λ c, (B c.1 ++ [13], B c.2)) <$> echoed_checks) ∧
  ∀ command marker, (command, marker) ∈ echoed_checks →
    ∀ s, socket s = [] → hd [] (waits s) = [Serial.Turn [echo_of command] None] →
    ∃ s', send command (B marker) s = Ok (tt, s').
Proof.
  split.
  - eapply talks_subseq; [unfold conditional_lists; apply _|vm_compute; reflexivity].
  - assert (Forall (λ c, contains (B c.1) (B c.2) = true) echoed_checks) as H by (repeat constructor).
    rewrite Forall_forall in H. intros command marker Hin s. apply send_echo. by apply (H (command, marker)).
Qed.

(** ** Checks that establish something *)

(** A [sendall] after which the session goes on. *)
Lemma sendall_inv data s a s' :
  sendall data s = Ok (a, s') → serial s' = serial s ∧ log s' = log s ++ [(len (serial s), data)].
Proof. by intros [= _ <-]. Qed.

Lemma read_inv s a s' : read_available s = Ok (a, s') → (∃ more, serial s' = serial s ++ more) ∧ log s' = log s.
Proof.
  intros H. destruct (sends_read s a s' H) as [? _]. split; [done|]. unfold read_available in H.
  destruct (Serial.read_available _ _). by injection H as _ <-.
Qed.

Lemma lift_inv {A} (m : result A) s a s' : lift m s = Ok (a, s') → m = Ok a ∧ s' = s.
Proof. unfold lift. intros (b & Hb & [= <- <-])%bind_Ok_inv. done. Qed.

(** Takes the next operation off a session that has returned. *)
Ltac session_step H :=
  let a := fresh "a" in let t := fresh "t" in let Hop := fresh "Hop" in
  apply session_bind_inv in H as (a & t & Hop & H);
  lazymatch type of Hop with
  | serial_len _ = Ok _ => injection Hop as <- <-
  | get_serial _ = Ok _ => injection Hop as <- <-
  | raise_when _ _ _ = Ok _ => apply raise_when_Ok in Hop as [? ->]
  | sendall _ _ = Ok _ => apply sendall_inv in Hop as [? ?]
  | wait_for _ _ _ = Ok _ => apply wait_for_inv in Hop as ([? ?] & ? & ?)
  | read_available _ = Ok _ => apply read_inv in Hop as [[? ?] ?]
  | lift _ _ = Ok _ => apply lift_inv in Hop as [? ->]
  | send _ _ _ = Ok _ => apply send_inv in Hop as (? & ? & ? & ?)
  | _ => idtac
  end.

Lemma find_sleep_pid_row rows pid :
  find_sleep_pid rows = Ok (Some pid) →
  ∃ row, row ∈ rows ∧ parse_int_bytes (field_at (split (strip_bytes row)) 0) = Some pid ∧ field_at (split (strip_bytes row)) 1 = B "2" ∧
    List.last (split (strip_bytes row)) [] = B "sleep.elf".
Proof.
  induction rows as [|row rows IH]; cbn [find_sleep_pid]; [done|].
  destruct (_ && _) eqn:E; [|intros (r & ? & ?)%IH; exists r; split; [by right|done]].
  rewrite !andb_true_iff, !beq_spec in E. destruct E as [[_ E1] E2].
  unfold int_field. destruct (parse_int_bytes _) as [n|] eqn:Hp; [|done]. intros [= <-].
  exists row. by split_and!; [left|..].
Qed.

(** What is left of a session, or the part of it that is not of interest, only adds to
    the output and to the log. *)
Definition extends (s s' : state) : Prop :=
  ∃ more entries, serial s' = serial s ++ more ∧ log s' = log s ++ entries.

#[export] Instance extends_preorder : PreOrder extends.
Proof.
  split; [intros s; exists [], []; by rewrite !app_nil_r|].
  intros s1 s2 s3 (m1 & e1 & H1 & L1) (m2 & e2 & H2 & L2). exists (m1 ++ m2), (e1 ++ e2).
  by rewrite H2, H1, L2, L1, !app_assoc.
Qed.

Lemma sends_extends {A} (m : session A) l `{!Sends m l} s a s' : m s = Ok (a, s') → extends s s'.
Proof. intros H. destruct (sends s a s' H) as [[more ?] (entries & ? & _)]. by exists more, entries. Qed.

(** Passes over the next operation of a session that has returned. *)
Ltac session_skip H :=
  let t := fresh "t" in let Hop := fresh "Hop" in
  apply session_bind_inv in H as (? & t & Hop & H); apply (sends_extends _ _) in Hop;
  match goal with Hx : extends ?s0 ?s1, Hy : extends ?s1 t |- _ =>
    let Hz := fresh "Hx" in pose proof (transitivity Hx Hy) as Hz; clear Hx Hy; clear dependent s1
  | _ => idtac end.

Lemma slice_from_parts (l k m : bytes) : l = k ++ m → slice_from l (len k) = m.
Proof. intros ->. apply Serial.slice_from_app. Qed.

(** Rewrites the states of the steps to extensions of the first one. *)
Ltac session_output :=
  repeat match goal with Ht : serial _ = _ |- _ => rewrite Ht in * end;
  repeat match goal with Ht : log _ = _ |- _ => rewrite Ht in * end;
  rewrite <-?app_assoc, ?Serial.slice_from_app in *.

(** A background job really runs in the background: when the part of the test that
    starts one passes, the shell had returned its prompt in reply to the command before
    any of the job's completion notice had been received, and the notice came later, in
    the same stretch of output. *)
Theorem background_prompt_first s s' :
  background_job s = Ok (tt, s') →
  ∃ before after, serial s' = serial s ++ before ++ after ∧
    contains before PROMPT_ROOT = true ∧ contains before (B "[1] done 7") = false ∧
    contains (before ++ after) (B "[1] done 7") = true ∧
    (len (serial s), B "runtime-sleep.elf &" ++ [13]) ∈ log s'.
Proof.
  unfold background_job. intros H. do 7 session_step H.
  apply (sends_extends _ _) in H as (more & entries & Hm & Hl).
  session_output. exists (x ++ x0), (x1 ++ more). rewrite <-!app_assoc. split; [done|].
  split; [by apply Serial.contains_app|]. split; [done|]. replace (x ++ x0 ++ x1 ++ more) with ((x ++ x0 ++ x1) ++ more) by (by rewrite <-!app_assoc).
  split; [by apply Serial.contains_app|]. rewrite !elem_of_app, list_elem_of_singleton. by right; left.
Qed.

(** (C33) The process the test kills is the one it means to kill: when the part of the
    test on [ps], [sleep] and [kill] passes, the listing received in reply to its second
    [ps] has a row whose parent is the shell, whose name is [sleep.elf] and whose first
    field is a process id above 2; only after that listing was [kill] sent, with that id;
    and the notice of a job that died of the signal came after the command. *)
Theorem sleeper_killed s s' :
  process_tools s = Ok (tt, s') →
  ∃ before listing after row pid, serial s' = serial s ++ before ++ listing ++ after ∧
    row ∈ splitlines listing ∧ parse_int_bytes (field_at (split (strip_bytes row)) 0) = Some pid ∧ field_at (split (strip_bytes row)) 1 = B "2" ∧
    List.last (split (strip_bytes row)) [] = B "sleep.elf" ∧ 2 < pid ∧
    (len (serial s ++ before), B "/bin/ps.elf" ++ [13]) ∈ log s' ∧
    (len (serial s ++ before ++ listing), B ("/bin/kill.elf " +:+ pretty pid) ++ [13]) ∈ log s' ∧
    contains after (B "] done 137" ++ CRLF) = true.
Proof.
  unfold process_tools. intros H. do 20 session_skip H. destruct Hx as (before & ? & ? & ?). do 13 session_step H.
  apply (sends_extends _ _) in H as (more & entries & Hm & Hl).
  session_output. destruct a2 as [pid|]; [|done]. apply Z.leb_gt in H11. cbn [default] in *.
  rewrite (slice_from_parts _ _ (x20 ++ x21)) in H10 by (by rewrite <-?app_assoc).
  rewrite (slice_from_parts _ _ x22) in H16 by (by rewrite <-?app_assoc).
  apply find_sleep_pid_row in H10 as (row & ? & ? & ? & ?).
  exists before, (x20 ++ x21), (x22 ++ x23 ++ more), row, pid. rewrite <-!app_assoc.
  rewrite !elem_of_app, !list_elem_of_singleton. split_and!; try done; [by right; right; left|by right; right; right; left|].
  by apply Serial.contains_app.
Qed.

(** ** Guests that pass the parts *)

Definition line (l : string) : bytes := B l ++ CRLF.
(** A guest that answers each wait with one chunk. *)
Definition answers (l : list bytes) : state := State [] [] [] ((λ o, [Serial.Turn [o] None]) <$> l) [].

Definition job_guest : state := answers
  [line "runtime-sleep.elf &" ++ PROMPT_ROOT; line "[1] done 7"; PROMPT_ROOT; CRLF ++ line "0" ++ PROMPT_ROOT;
   line "syntax: invalid conditional list"; CRLF ++ line "2"].

Definition sleep_row : string := "7 2 sleeping 12 3 0 sleep.elf".
Definition process_guest : state := answers
  ([line "PID PPID STATE      TICKS FDS SOCK NAME" ++ line "1 0 blocked    10 3 0 init.elf" ++
      line "2 1 blocked    90 3 0 zsh.elf" ++ line "6 2 running   4 4 0 ps.elf" ++ PROMPT_ROOT] ++ replicate 5 [] ++
   [CRLF ++ line "0"; PROMPT_ROOT; CRLF ++ line "0"; line "[1] 7" ++ PROMPT_ROOT;
    line "2 1 blocked    90 3 0 zsh.elf" ++ line sleep_row ++ line "8 2 running   4 4 0 ps.elf" ++ PROMPT_ROOT; [];
    line "[1] done 137" ++ PROMPT_ROOT; []; CRLF ++ line "0"]).

Lemma guests_pass :
  match background_job job_guest, process_tools process_guest with Ok _, Ok _ => true | _, _ => false end = true.
Proof. vm_compute. reflexivity. Qed.

Lemma background_prompt_first_witness : ∃ s',
  background_job job_guest = Ok (tt, s') ∧
  ∃ before after, serial s' = serial job_guest ++ before ++ after ∧
    contains before PROMPT_ROOT = true ∧ contains before (B "[1] done 7") = false ∧
    contains (before ++ after) (B "[1] done 7") = true ∧
    (len (serial job_guest), B "runtime-sleep.elf &" ++ [13]) ∈ log s'.
Proof.
  pose proof guests_pass as Hok.
  destruct (background_job job_guest) as [[[] s']|] eqn:E; [|discriminate Hok].
  exists s'. split; [exact (eq_refl (Ok (tt, s')))|exact (background_prompt_first _ _ E)].
Defined.

Lemma sleeper_killed_witness : ∃ s' row pid,
  process_tools process_guest = Ok (tt, s') ∧ parse_int_bytes (field_at (split (strip_bytes row)) 0) = Some pid ∧ 2 < pid.
Proof.
  pose proof guests_pass as Hok.
  destruct (background_job job_guest) as [[[] ?]|]; [|discriminate Hok].
  destruct (process_tools process_guest) as [[[] s']|] eqn:E; [|discriminate Hok].
  destruct (sleeper_killed _ _ E) as (_ & _ & _ & row & pid & _ & _ & Hp & _ & _ & Hpid & _).
  exists s', row, pid. split; [exact (eq_refl (Ok (tt, s')))|exact (conj Hp Hpid)].
Defined.

End NormalBoot.
