(* ===== verification/Harness.v ===== *)
(** * The harness of the boot tests

    What [main] of the boot tests does around the dialogue with the guest: the run lock,
    the private build, the disk image, the search for QEMU and its firmware, the QEMU
    process with its clean-up in [finally], the log files, and what runs at exit.  The
    dialogues are those of [BootTests] and [NormalBoot].

    A script is a computation over the files and a log of what it did to processes; an
    exception keeps the state, so that [finally] and [atexit] are functions of scripts.
    The host is arbitrary: what the Zig compiler leaves or whether it fails, what the
    guest says and writes, when QEMU is seen to have exited, which files cannot be
    deleted.  Directories are not represented; paths have forward slashes. *)

From stdpp Require Import pretty.
From S2P Require Import Prelude PyBytes PyText PyHash Serial Session NvmeImage RunLock BootTests NormalBoot.

#[local] Open Scope Z_scope.

Module Harness.

Import Session NvmeImage.

(** ** Scripts *)

Inductive event :=
  | Ran (command : list string)
  | Started (command : list string)
  | Connected
  | Closed
  | Polled
  | Waited
  | Terminated
  | Killed
  | TaskKilled.

Record world := World { files : gmap string bytes; events : list event }.

Definition script (A : Type) : Type := world → result A * world.

#[export] Instance script_ret : MRet script := λ A a w, (Ok a, w).
#[export] Instance script_bind : MBind script := λ A B f m w,
  match m w with (Ok a, w) => f a w | (Err e, w) => (Err e, w) end.

Definition lift {A} (m : result A) : script A := λ w, (m, w).
Definition raise {A} (e : exn) : script A := λ w, (Err e, w).
Definition raise_when (b : bool) (e : exn) : script unit := if b then raise e else mret tt.
Definition record (e : event) : script unit := λ w, (Ok tt, World (files w) (events w ++ [e])).
Definition get_files : script (gmap string bytes) := λ w, (Ok (files w), w).
Definition change_files (f : gmap string bytes → gmap string bytes) : script unit :=
  λ w, (Ok tt, World (f (files w)) (events w)).

(** [try: m finally: f], where [f] knows whether the body returned; an exception of [f]
    replaces the outcome of [m]. *)
Definition finally {A} (m : script A) (f : bool → script unit) : script A := λ w,
  let (r, w) := m w in
  match f (is_ok r) w with (Ok _, w) => (r, w) | (Err e, w) => (Err e, w) end.

(** [atexit]: a handler's exception does not change how the script ends. *)
Definition at_exit {A} (m : script A) (f : script unit) : script A := λ w,
  let (r, w) := m w in (r, snd (f w)).

(** ** Files *)

Definition join (directory name : string) : string := directory +:+ "/" +:+ name.

Definition is_file (path : string) : script bool := fs ← get_files; mret (bool_decide (is_Some (fs !! path))).
Definition read_bytes (path : string) : script bytes :=
  fs ← get_files;
  lift (match fs !! path with Some contents => Ok contents | None => Err (OSError "No such file or directory") end).
Definition write_bytes (path : string) (contents : bytes) : script unit := change_files <[path := contents]>.
(** [shutil.copyfile(source, destination)] *)
Definition copyfile (source destination : string) : script unit := contents ← read_bytes source; write_bytes destination contents.

(** A decoded text in UTF-8; its characters are ASCII and U+FFFD. *)
Definition encode (text : list Z) : bytes := c ← text; if c <? 128 then [c] else [0xEF; 0xBF; 0xBD].

(** ** The host *)

(** One start of QEMU: [free_tcp_port], each attempt to connect before the deadline, what
    the guest says, and what QEMU leaves in the files. *)
Record guest := Guest {
  port : Z; connects : list bool;
  waits : list (list Serial.turn); reads : list (list bytes);
  leaves : gmap string bytes → gmap string bytes
}.

Record host := Host {
  root : string; windows : bool; pid : Z; running : gset Z;
  executable : string; which : option string; unique : string; undeletable : string → bool;
  zig : list string → gmap string bytes → option (gmap string bytes);
  status : list event → option Z
}.

Section Host.
Context (h : host).

Definition build_dir : string := join (root h) "build".
(** [tempfile.mkdtemp(prefix=prefix, dir=build_dir)] *)
Definition mkdtemp (prefix : string) : string := join build_dir (prefix +:+ unique h).

Definition inside (directory path : string) : bool := starts_with (B path) (B (directory +:+ "/")).
Definition deleted (p : string → bool) (fs : gmap string bytes) : gmap string bytes :=
  filter (λ f : string * bytes, p f.1 && negb (undeletable h f.1) = false) fs.
(** [shutil.rmtree(directory, ignore_errors=True)] *)
Definition rmtree (directory : string) : script unit := change_files (deleted (inside directory)).

(** The directories [build_dir/prefix*]: a file in one has a slash after the prefix. *)
Definition in_workdir (prefix path : string) : bool :=
  let start := B (join build_dir prefix) in
  starts_with (B path) start && contains (slice_from (B path) (len start)) [47].
Definition remove_stale_workdirs (prefix : string) : script unit := change_files (deleted (in_workdir prefix)).

(** ** The lock *)

Definition acquire_run_lock (gate lock_path : string) : script unit :=
  fs ← get_files;
  lock ← lift (RunLock.acquire_run_lock gate (running h) (pid h) (fs !! lock_path));
  change_files (partial_alter (λ _, lock) lock_path).
Definition release_run_lock (lock_path : string) : script unit :=
  change_files (partial_alter (RunLock.release_run_lock (pid h)) lock_path).

(** ** Building *)

(** [subprocess.run([zig, ...], check=True)] *)
Definition run_zig (command : list string) : script unit :=
  record (Ran command);;
  fs ← get_files;
  match zig h command fs with
  | Some fs' => change_files (λ _, fs')
  | None => raise CalledProcessError
  end.

Definition toolchain : script string :=
  text ← read_bytes (join (root h) ".toolchain-version");
  let version := string_of_bytes (strip text) in
  mret (join (root h) (".toolchains/zig-canonical/zig-x86_64-windows-" +:+ version +:+ "/zig.exe")).

(** [create-nvme-test-image.py] as a process; the JSON it writes to [metadata_path] is read
    back as the metadata it stands for, and that file is left out. *)
Definition create_image (image efi metadata_path : string) (options : list string) (boot_fat_corruption : corruption)
    (runtime_file_first_cluster : option Z) : script metadata :=
  record (Ran ([executable h; join (root h) "scripts/create-nvme-test-image.py"; "--output"; image; "--efi"; efi;
                "--block-size"; "512"; "--metadata"; metadata_path] ++ options));;
  fs ← get_files;
  match fs !! efi with
  | None => raise CalledProcessError
  | Some contents =>
      match build_image contents 512 boot_fat_corruption 0 runtime_file_first_cluster with
      | Ok (bytes, image_metadata) => write_bytes image bytes;; mret image_metadata
      | Err _ => raise CalledProcessError
      end
  end.

(** ** QEMU *)

Fixpoint first_file (candidates : list string) : script (option string) :=
  match candidates with
  | [] => mret None
  | path :: candidates => b ← is_file path; if (b : bool) then mret (Some path) else first_file candidates
  end.

Definition find_qemu : script string :=
  found ← first_file ((match which h with Some (String c s) => [String c s] | _ => [] end) ++ ["C:\Program Files\qemu\qemu-system-x86_64.exe"]);
  match found with Some path => mret path | None => raise (RuntimeError "qemu-system-x86_64 was not found") end.

(** [path.parent]; Windows has two separators. *)
Definition is_separator (c : Z) : bool := (c =? 47) || (windows h && (c =? 92)).
Fixpoint drop_name (l : bytes) : bytes :=
  match l with [] => B "." | c :: l => if is_separator c then l else drop_name l end.
Definition parent (path : string) : string := string_of_bytes (reverse (drop_name (reverse (B path)))).

Definition find_firmware (qemu : string) : script (string * string) :=
  let share := join (parent qemu) "share" in
  code ← first_file (join share <$> ["edk2-x86_64-code.fd"; "edk2-x86_64-secure-code.fd"; "OVMF_CODE.fd"]);
  variables ← first_file (join share <$> ["edk2-i386-vars.fd"; "OVMF_VARS.fd"]);
  match code, variables with
  | Some code, Some variables => mret (code, variables)
  | _, _ => raise (RuntimeError "compatible split OVMF images were not found")
  end.

(** The arguments: the machine, the boot disk, firmware and consoles. *)
Definition machine_arguments (qemu : string) : list string :=
  [qemu; "-machine"; "q35,i8042=off,hpet=off"; "-m"; "256M"; "-cpu"; "max"; "-smp"; "1"; "-device"; "qemu-xhci,id=xhci"].
Definition nvme_arguments (image options : string) : list string :=
  ["-drive"; "file=" +:+ image +:+ ",if=none,id=nvme0,format=raw,cache=unsafe";
   "-device"; "nvme,drive=nvme0,serial=ZIGOSNVME,logical_block_size=512,physical_block_size=512" +:+ options].
Definition usb_arguments (fat_path : string) : list string :=
  ["-drive"; "if=none,id=bootusb,format=raw,file=fat:rw:" +:+ fat_path;
   "-device"; "usb-storage,drive=bootusb,bus=xhci.0,bootindex=1"].
Definition console_arguments (code_image vars_image debug_log : string) (port : Z) : list string :=
  ["-drive"; "if=pflash,format=raw,unit=0,readonly=on,file=" +:+ code_image;
   "-drive"; "if=pflash,format=raw,unit=1,file=" +:+ vars_image;
   "-debugcon"; "file:" +:+ debug_log; "-global"; "isa-debugcon.iobase=0xe9"; "-display"; "none"; "-vga"; "none";
   "-serial"; "tcp:127.0.0.1:" +:+ pretty port +:+ ",server=on,wait=off"; "-monitor"; "none"; "-no-reboot"; "-net"; "none"].

(** *** The process *)

(** [process.poll()] and [process.wait(timeout)]: the exit code if the process is seen
    to have one, after all that was done to it so far. *)
Definition exit_code : script (option Z) := λ w, (Ok (status h (events w)), w).
Definition poll : script (option Z) := record Polled;; exit_code.
Definition wait : script unit :=
  record Waited;;
  code ← exit_code;
  match code with Some _ => mret tt | None => raise TimeoutExpired end.
(** [try: m except TimeoutExpired: f] *)
Definition on_timeout (m f : script unit) : script unit := λ w,
  match m w with (Err TimeoutExpired, w) => f w | (r, w) => (r, w) end.

(** The clean-ups: of [test-persistent-readonly-remount.py], of [run_boot] in
    [test-x86_64-persistence.py], and of the other boot tests. *)
Definition terminate_process_tree : script unit :=
  code ← poll;
  match code with
  | Some _ => mret tt
  | None =>
      (if windows h then record TaskKilled else record Terminated;; on_timeout wait (record Killed));;
      on_timeout wait (raise (RuntimeError "QEMU process tree did not terminate"))
  end.
Definition kill_or_terminate : script unit :=
  code ← poll;
  match code with
  | Some _ => mret tt
  | None => record Killed;; on_timeout wait (record Terminated)
  end.
Definition kill_and_wait : script unit :=
  code ← poll;
  match code with
  | Some _ => mret tt
  | None => record Killed;; wait
  end.

(** [Popen], the attempts to connect and the rest of the [try], and its [finally]; the
    body is told whether a connection was made. *)
Definition with_qemu {A} (command : list string) (g : guest) (stop : script unit) (body : bool → script A) : script A :=
  record (Started command);;
  change_files (leaves g);;
  let connected := existsb id (connects g) in
  finally ((if connected then record Connected else mret tt);; body connected)
    (λ _, (if connected then record Closed else mret tt);; stop).

(** The dialogue, the decoded output, and the checks of it. *)
Definition converse (g : guest) (dialogue : session unit) : script (list Z) :=
  lift (BootTests.with_guest (dialogue;; output ← get_serial; mret (Serial.decode_replace output)) (waits g) (reads g)).
Definition check_output (check : session unit) : script unit := lift (BootTests.with_guest check [] []).

(** The firmware, copied to the work directory; and the arguments after the disk. *)
Definition prepare_firmware (qemu work : string) : script string :=
  '(code_source, vars_source) ← find_firmware qemu;
  copyfile code_source (join work "code.fd");;
  copyfile vars_source (join work "vars.fd");;
  mret vars_source.
Definition console (work : string) (g : guest) : list string :=
  console_arguments (join work "code.fd") (join work "vars.fd") (join work "debug.log") (port g).

(** *** The command of each boot *)

Definition remount_command (qemu work : string) (g : guest) : list string :=
  machine_arguments qemu ++ nvme_arguments "readonly-remount-nvme.img" ",bootindex=1" ++ console work g.
Definition io_error_command (qemu work : string) (g : guest) : list string :=
  machine_arguments qemu ++ nvme_arguments "io-error-nvme.img" ",bootindex=1" ++ console work g.
Definition quarantine_command (qemu work : string) (g : guest) : list string :=
  machine_arguments qemu ++ nvme_arguments (join work "quarantine-nvme.img") "" ++ console work g.
Definition diskless_command (qemu work : string) (g : guest) : list string :=
  machine_arguments qemu ++ usb_arguments (join (root h) "zig-out") ++ console work g.
Definition normal_command (qemu work : string) (g : guest) : list string :=
  machine_arguments qemu ++ nvme_arguments (join work "normal-nvme.img") "" ++ console work g.
Definition history_command (qemu work : string) (history : guest) : list string :=
  machine_arguments qemu ++ nvme_arguments (join work "normal-nvme.img") "" ++
  console_arguments (join work "code.fd") (join work "history-vars.fd") (join work "history-debug.log") (port history).
Definition boot_file (work : string) (boot_number : Z) (name : string) : string :=
  join work ("boot" +:+ pretty boot_number +:+ "-" +:+ name).
Definition persistence_command (qemu work image : string) (boot_number : Z) (g : guest) : list string :=
  let file := boot_file work boot_number in
  machine_arguments qemu ++ nvme_arguments image "" ++
  console_arguments (file "code.fd") (file "vars.fd") (file "debug.log") (port g).

(** ** [test-persistent-readonly-remount.py] *)

Section Remount.
Import BootTests.ReadonlyRemount.

Definition remount_lock : string := join build_dir "test-persistent-readonly-remount.lock".
Definition remount_work : string := mkdtemp "persistent-readonly-remount-".
Definition shared_efi : string := join (root h) "zig-out/EFI/BOOT/BOOTX64.EFI".
Definition identity (path : string) : script (option (Z * bytes)) := fs ← get_files; mret (file_identity (fs !! path)).

Definition remount_boot (g : guest) (command : list string) : script unit :=
  with_qemu command g terminate_process_tree (λ connected,
    raise_when (negb connected) (RuntimeError "persistent read-only remount serial connection failed");;
    text ← converse g dialogue;
    write_bytes (join remount_work "serial.log") (encode text);;
    copyfile (join remount_work "serial.log") (join build_dir "test-persistent-readonly-remount.serial.log");;
    check_output (check_text text)).

Definition remount_body (g : guest) (zig : string) (shared_before : option (Z * bytes)) : script unit :=
  let work := remount_work in
  let install := join work "install" in
  run_zig [zig; "build"; "-Doptimize=ReleaseSmall"; "-Dnormal-boot=true"; "-Dnvme-write-fault-lba=" +:+ pretty FAULT_LBA;
           "--prefix"; install; "--cache-dir"; join work "zig-cache"; "--summary"; "all"];;
  let efi := join install "EFI/BOOT/BOOTX64.EFI" in
  built ← is_file efi;
  raise_when (negb built) (RuntimeError "private read-only remount profile produced no BOOTX64.EFI");;
  let image := join work "readonly-remount-nvme.img" in
  image_metadata ← create_image image efi (join work "readonly-remount-nvme.json") [] none None;
  lift (check_image image_metadata);;
  qemu ← find_qemu;
  _ ← prepare_firmware qemu work;
  remount_boot g (remount_command qemu work g);;
  shared_after ← identity shared_efi;
  raise_when (negb (bool_decide (shared_after = shared_before)))
    (RuntimeError "private read-only remount build modified shared zig-out").

Definition remount_main (g : guest) : script unit :=
  zig ← toolchain;
  present ← is_file zig;
  raise_when (negb present) (RuntimeError "canonical Zig toolchain is missing: {zig}");;
  acquire_run_lock "persistent read-only remount gate" remount_lock;;
  at_exit
    (remove_stale_workdirs "persistent-readonly-remount-";;
     shared_before ← identity shared_efi;
     finally (remount_body g zig shared_before) (λ success,
       shared ← identity shared_efi;
       raise_when (negb (bool_decide (shared = shared_before)))
         (RuntimeError "shared zig-out changed during persistent read-only remount gate");;
       release_run_lock remount_lock;;
       if success then rmtree remount_work else mret tt))
    (release_run_lock remount_lock).

End Remount.

(** ** [test-boot-fat-io-error.py] *)

Section IoError.
Import BootTests.FatIoError.

Definition io_error_lock : string := join build_dir "test-boot-fat-io-error.lock".
Definition io_error_work : string := mkdtemp "boot-fat-io-error-".

(** The boot of this test and of the three below: the dialogue, the log, the checks. *)
Definition plain_boot (g : guest) (command : list string) (work message : string)
    (dialogue : session unit) (check_text : list Z → session unit) : script unit :=
  with_qemu command g kill_and_wait (λ connected,
    raise_when (negb connected) (RuntimeError message);;
    text ← converse g dialogue;
    write_bytes (join work "serial.log") (encode text);;
    check_output (check_text text)).

Definition io_error_main (g : guest) : script unit :=
  zig ← toolchain;
  acquire_run_lock "FAT EIO gate" io_error_lock;;
  at_exit
    (let work := io_error_work in
     let install := join work "install" in
     remove_stale_workdirs "boot-fat-io-error-";;
     run_zig [zig; "build"; "-Doptimize=ReleaseSmall"; "-Dnormal-boot=true"; "-Dnvme-read-fault-lba=" +:+ pretty FAULT_LBA;
              "--prefix"; install; "--cache-dir"; join work "zig-cache"; "--summary"; "all"];;
     let efi := join install "EFI/BOOT/BOOTX64.EFI" in
     built ← is_file efi;
     raise_when (negb built) (RuntimeError "private normal profile produced no BOOTX64.EFI");;
     sdk ← is_file (join install "artifacts/sdk.elf");
     raise_when (negb sdk) (RuntimeError "private normal profile produced no sdk.elf");;
     let image := join work "io-error-nvme.img" in
     image_metadata ← create_image image efi (join work "io-error-nvme.json")
       ["--runtime-file-first-cluster"; pretty FAULT_CLUSTER] none (Some FAULT_CLUSTER);
     lift (check_image image_metadata);;
     qemu ← find_qemu;
     _ ← prepare_firmware qemu work;
     plain_boot g (io_error_command qemu work g) work
       "FAT EIO boot serial connection failed" dialogue check_text)
    (release_run_lock io_error_lock).

End IoError.

(** ** The tests of the shared build *)

(** The build in the repository, unless [--skip-build]. *)
Definition shared_build (skip_build : bool) : script unit :=
  zig ← toolchain;
  if skip_build then mret tt
  else run_zig [zig; "build"; "-Doptimize=ReleaseSmall"; "-Dnormal-boot=true"; "--summary"; "all"].
Definition require_file (path message : string) : script unit :=
  b ← is_file path;
  raise_when (negb b) (RuntimeError message).

Definition sdk_elf : string := join (root h) "zig-out/artifacts/sdk.elf".

Definition quarantine_main (skip_build : bool) (g : guest) : script unit :=
  shared_build skip_build;;
  require_file shared_efi "normal profile produced no BOOTX64.EFI";;
  require_file sdk_elf "normal profile produced no sdk.elf";;
  let work := mkdtemp "boot-fat-quarantine-" in
  let image := join work "quarantine-nvme.img" in
  image_metadata ← create_image image shared_efi (join work "quarantine-nvme.json")
    ["--boot-fat-corruption"; "cross-link"] cross_link None;
  lift (BootTests.Quarantine.check_image image_metadata);;
  qemu ← find_qemu;
  _ ← prepare_firmware qemu work;
  plain_boot g (quarantine_command qemu work g) work
    "quarantine boot serial connection failed" BootTests.Quarantine.dialogue BootTests.Quarantine.check_text.

Definition diskless_main (skip_build : bool) (g : guest) : script unit :=
  shared_build skip_build;;
  require_file shared_efi "normal profile produced no BOOTX64.EFI";;
  let work := mkdtemp "diskless-normal-" in
  qemu ← find_qemu;
  _ ← prepare_firmware qemu work;
  plain_boot g (diskless_command qemu work g) work
    "diskless normal-boot serial connection failed" BootTests.Diskless.dialogue BootTests.Diskless.check_text.

(** Two boots from one image; the second with fresh firmware variables. *)
Definition normal_main (skip_build : bool) (g history : guest) : script unit :=
  shared_build skip_build;;
  require_file shared_efi "normal profile produced no BOOTX64.EFI";;
  require_file sdk_elf "normal profile produced no sdk.elf";;
  let work := mkdtemp "normal-boot-" in
  let image := join work "normal-nvme.img" in
  _ ← create_image image shared_efi (join work "normal-nvme.json") [] none None;
  qemu ← find_qemu;
  vars_source ← prepare_firmware qemu work;
  plain_boot g (normal_command qemu work g) work
    "normal boot serial connection failed" NormalBoot.dialogue NormalBoot.check_text;;
  copyfile vars_source (join work "history-vars.fd");;
  with_qemu (history_command qemu work history) history kill_and_wait (λ connected,
      output ← lift (BootTests.with_guest (NormalBoot.recover_history connected;; get_serial) (waits history) (reads history));
      write_bytes (join work "history-serial.log") output).

(** ** [run_boot] of [test-x86_64-persistence.py] *)

Definition run_boot (boot_number : Z) (qemu code_source vars_source work image : string)
    (commands : list (string * option string)) (required_markers : list string) (g : guest) (t : Serial.transcript)
    : script (list Z) :=
  let file := boot_file work boot_number in
  copyfile code_source (file "code.fd");;
  copyfile vars_source (file "vars.fd");;
  with_qemu (persistence_command qemu work image boot_number g) g kill_or_terminate (λ connected,
      '(text, _) ← lift (Serial.run_boot (Serial.Transcript connected (Serial.booting t) (Serial.replies t)) commands required_markers);
      write_bytes (file "serial.log") (encode text);;
      mret text).

End Host.

(** A host whose QEMU never exits, and a guest that only prints the prompt. *)
Definition hung_host : host := Host "" false 1 ∅ "python" None "" (λ _, false) (λ _ _, None) (λ _, None).
Definition hung_guest : guest := Guest 4444 [true] [] [] id.
Definition hung_transcript : Serial.transcript := Serial.Transcript true [Serial.Turn [Serial.PROMPT] None] [].
Definition hung_world : world := World (list_to_map [("code.fd", []); ("vars.fd", [])]) [].

(** A host on which the diskless test passes, and one whose compiler fails while a lock of
    a dead process is in the way. *)
Definition prepared_files : gmap string bytes := list_to_map
  [("r/.toolchain-version", B "0.16.0"); ("r/zig-out/EFI/BOOT/BOOTX64.EFI", B "MZ"); ("/q/qemu", []);
   ("/q/share/OVMF_CODE.fd", [1]); ("/q/share/OVMF_VARS.fd", [2])].
Definition example_host : host :=
  Host "r" false 7 {[7]} "python" (Some "/q/qemu") "x" (λ _, false) (λ _ _, None) (λ _, Some 0).
Definition example_guest : guest := Guest 4444 [false; true]
  ((λ answer, [Serial.Turn [answer] None]) <$>
   (mjoin ((λ marker, marker ++ [10]) <$> BootTests.Diskless.required) :: [
    []; BootTests.PROMPT_HOME; CRLF ++ B "/home/root" ++ CRLF; B "c-sdk.elf"; B "ZigOs 19.0.0 x86_64 persistent runtime";
    BootTests.PROMPT_HOME; B "diskless recovery"; B "diskless recovery"; B "process 3 exited 87";
    B "writable mounts synchronized"; B "ZigOs normal boot verified:"])) [] id.
Definition stale_files : gmap string bytes := <["r/build/test-persistent-readonly-remount.lock" := pid_text 9]>
  (<["r/.toolchains/zig-canonical/zig-x86_64-windows-0.16.0/zig.exe" := []]> prepared_files).

(** ** Scripts keep a relation between the states before and after *)

Class Keeps {A} (R : relation world) (m : script A) : Prop := keeps w r w' : m w = (r, w') → R w w'.
#[global] Hint Mode Keeps ! + ! : typeclass_instances.

Section keeps.
Context (R : relation world) `{!PreOrder R}.
#[local] Set Default Proof Using "Type*".

#[export] Instance keeps_ret {A} (a : A) : Keeps R (mret a).
Proof. by intros w r w' [= _ <-]. Qed.
#[export] Instance keeps_lift {A} (m : result A) : Keeps R (lift m).
Proof. by intros w r w' [= _ <-]. Qed.
#[export] Instance keeps_raise {A} e : Keeps R (@raise A e).
Proof. by intros w r w' [= _ <-]. Qed.
#[export] Instance keeps_raise_when b e : Keeps R (raise_when b e).
Proof. by destruct b; intros w r w' [= _ <-]. Qed.
#[export] Instance keeps_get : Keeps R get_files.
Proof. by intros w r w' [= _ <-]. Qed.
#[export] Instance keeps_exit_code h : Keeps R (exit_code h).
Proof. by intros w r w' [= _ <-]. Qed.

#[export] Instance keeps_bind {A C} (m : script A) (f : A → script C) :
  Keeps R m → (∀ a, Keeps R (f a)) → Keeps R (m ≫= f).
Proof.
  intros Hm Hf w r w'. unfold mbind, script_bind. destruct (m w) as [[a|e] w1] eqn:E.
  - intros H. etrans; [by eapply Hm|by eapply Hf].
  - intros [= _ <-]. by eapply Hm.
Qed.

#[export] Instance keeps_finally {A} (m : script A) f : Keeps R m → (∀ b, Keeps R (f b)) → Keeps R (finally m f).
Proof.
  intros Hm Hf w r w'. unfold finally. destruct (m w) as [r1 w1] eqn:E. destruct (f (is_ok r1) w1) as [r2 w2] eqn:F.
  destruct r2; intros [= _ <-]; (etrans; [by eapply Hm|by eapply Hf]).
Qed.

#[export] Instance keeps_at_exit {A} (m : script A) f : Keeps R m → Keeps R f → Keeps R (at_exit m f).
Proof.
  intros Hm Hf w r w'. unfold at_exit. destruct (m w) as [r1 w1] eqn:E. destruct (f w1) as [r2 w2] eqn:F.
  intros [= _ <-]. cbn. etrans; [by eapply Hm|by eapply Hf].
Qed.

#[export] Instance keeps_on_timeout m f : Keeps R m → Keeps R f → Keeps R (on_timeout m f).
Proof.
  intros Hm Hf w r w'. unfold on_timeout. destruct (m w) as [r1 w1] eqn:E. apply Hm in E.
  destruct r1 as [|[]]; try by intros [= _ <-]. intros H. etrans; [done|by eapply Hf].
Qed.

#[export] Instance keeps_if {A} (b : bool) (m k : script A) : Keeps R m → Keeps R k → Keeps R (if b then m else k).
Proof. by destruct b. Qed.
End keeps.

(** The log of events grows. *)
Definition grows : relation world := λ w w', events w `prefix_of` events w'.
#[export] Instance grows_preorder : PreOrder grows.
Proof. split; unfold grows; [by intros w|]. intros w1 w2 w3 H12 H23. by etrans. Qed.

#[export] Instance grows_record e : Keeps grows (record e).
Proof. intros w r w' [= _ <-]. unfold grows. by apply prefix_app_r. Qed.
#[export] Instance grows_files f : Keeps grows (change_files f).
Proof. intros w r w' [= _ <-]. unfold grows. cbn. reflexivity. Qed.


#[global] Hint Extern 0 (Keeps _ (match ?x with _ => _ end)) => destruct x : typeclass_instances.

Section qemu.
Context (h : host).

(** ** QEMU does not outlive its test *)

(** Between the logs [l] and [l'], a [poll] or a [wait] found that QEMU had exited. *)
Definition gone (l l' : list event) : Prop :=
  ∃ m e, l `prefix_of` m ∧ m ++ [e] `prefix_of` l' ∧ (e = Polled ∨ e = Waited) ∧ is_Some (status h (m ++ [e])).
(** [e] happened between them. *)
Definition did (e : event) (l l' : list event) : Prop := ∃ k, l' = l ++ k ∧ e ∈ k.

Lemma gone_weaken l1 l2 l' : l1 `prefix_of` l2 → gone l2 l' → gone l1 l'.
Proof. intros H (m & e & Hm & ?). exists m, e. split; [by etrans|done]. Qed.
Lemma did_weaken e l1 l2 l' : l1 `prefix_of` l2 → did e l2 l' → did e l1 l'.
Proof. intros [k1 ->] (k & -> & He). exists (k1 ++ k). rewrite app_assoc. split; [done|]. apply elem_of_app. by right. Qed.

Ltac run_stop := lazy beta iota zeta delta [mbind script_bind poll wait record exit_code raise mret script_ret on_timeout]; cbn [events files].
Ltac in_log := eexists; split; [rewrite <-?app_assoc; reflexivity|]; cbn; set_solver.

Lemma kill_and_wait_spec w r w' :
  kill_and_wait h w = (r, w') →
  r = Ok tt ∧ gone (events w) (events w') ∨ r = Err TimeoutExpired ∧ did Killed (events w) (events w').
Proof.
  unfold kill_and_wait, poll, wait. run_stop.
  destruct (status h (events w ++ [Polled])) as [c|] eqn:E1; run_stop.
  - intros [= <- <-]. left. split; [done|]. exists (events w), Polled. cbn. rewrite E1. eauto.
  - destruct (status h (_ ++ [Waited])) as [c|] eqn:E2; run_stop; intros [= <- <-]; cbn.
    + left. split; [done|]. eexists _, Waited. rewrite E2. split_and!; [|done|by right|done].
      rewrite <-app_assoc. by apply prefix_app_r.
    + right. split; [done|]. in_log.
Qed.

Lemma gone_at l k (e : event) l' : e = Polled ∨ e = Waited → is_Some (status h (l ++ k ++ [e])) →
  l ++ k ++ [e] `prefix_of` l' → gone l l'.
Proof.
  intros He Hs Hp. exists (l ++ k), e. rewrite <-app_assoc. split_and!; [by apply prefix_app_r|done..].
Qed.

Lemma terminate_process_tree_spec w r w' :
  terminate_process_tree h w = (r, w') →
  r = Ok tt ∧ gone (events w) (events w') ∨
  r = Err (RuntimeError "QEMU process tree did not terminate") ∧
    (did TaskKilled (events w) (events w') ∨ did Terminated (events w) (events w')).
Proof.
  unfold terminate_process_tree, poll, wait. run_stop.
  destruct (status h (events w ++ [Polled])) as [c|] eqn:E1; run_stop.
  { intros [= <- <-]. left. split; [done|]. apply (gone_at _ [] Polled); [by left|by cbn [app]; rewrite E1|done]. }
  clear E1. destruct (windows h); run_stop.
  - rewrite <-!app_assoc. cbn [app].
    destruct (status h _) as [c|] eqn:E2; run_stop; intros [= <- <-]; cbn [events].
    + left. split; [done|]. apply (gone_at _ [Polled; TaskKilled] Waited); [by right|by cbn [app]; rewrite E2|done].
    + right. split; [done|]. left. in_log.
  - destruct (status h ((_ ++ [Terminated]) ++ [Waited])) as [c|] eqn:E2; run_stop;
      clear E2; rewrite <-!app_assoc; cbn [app];
      (destruct (status h _) as [c'|] eqn:E3; run_stop; intros [= <- <-]; cbn [events]);
      [left|right|left|right]; (split; [done|]); try (right; in_log).
    + apply (gone_at _ [Polled; Terminated; Waited] Waited); [by right|by cbn [app]; rewrite E3|done].
    + apply (gone_at _ [Polled; Terminated; Waited; Killed] Waited); [by right|by cbn [app]; rewrite E3|done].
Qed.

Lemma kill_or_terminate_spec w r w' :
  kill_or_terminate h w = (r, w') →
  r = Ok tt ∧ (gone (events w) (events w') ∨ did Killed (events w) (events w') ∧ did Terminated (events w) (events w')).
Proof.
  unfold kill_or_terminate, poll, wait. run_stop.
  destruct (status h (events w ++ [Polled])) as [c|] eqn:E1; run_stop.
  { intros [= <- <-]. split; [done|]. left. apply (gone_at _ [] Polled); [by left|by cbn [app]; rewrite E1|done]. }
  clear E1. rewrite <-!app_assoc. cbn [app].
  destruct (status h _) as [c|] eqn:E2; run_stop; intros [= <- <-]; (split; [done|]); cbn [events].
  - left. apply (gone_at _ [Polled; Killed] Waited); [by right|by cbn [app]; rewrite E2|done].
  - right. split; in_log.
Qed.

Lemma finally_spec {A} (m : script A) f w r w' : finally m f w = (r, w') →
  ∃ r1 w1 rs, m w = (r1, w1) ∧ f (is_ok r1) w1 = (rs, w') ∧ r = match rs with Ok _ => r1 | Err e => Err e end.
Proof.
  unfold finally. destruct (m w) as [r1 w1]. destruct (f (is_ok r1) w1) as [rs w2] eqn:E. intros H.
  exists r1, w1, rs. rewrite E. by destruct rs; injection H as <- <-.
Qed.

(** What [with_qemu] comes to: the body, then the clean-up, from a log in which QEMU has
    been started; the clean-up's exception is the outcome. *)
Lemma with_qemu_spec {A} command g stop (body : bool → script A) w r w' :
  (∀ c, Keeps grows (body c)) → with_qemu command g stop body w = (r, w') →
  ∃ w1 rs, events w ++ [Started command] `prefix_of` events w1 ∧ stop w1 = (rs, w') ∧ ∀ e, rs = Err e → r = Err e.
Proof.
  intros Hb H.
  pose proof (finally_spec _ _ (World (leaves g (files w)) (events w ++ [Started command])) _ _ H) as (r1 & w1 & rs & Hm & Hf & ->).
  assert (Hw1 : events w ++ [Started command] `prefix_of` events w1).
  { assert (K : Keeps grows ((if existsb id (connects g) then record Connected else mret tt);; body (existsb id (connects g)))) by apply _.
    apply (K _ _ _ Hm). }
  destruct (existsb id (connects g)).
  - exists (World (files w1) (events w1 ++ [Closed])), rs. split; [by apply prefix_app_r|]. split; [exact Hf|]. by intros e ->.
  - exists w1, rs. split; [done|]. split; [exact Hf|]. by intros e ->.
Qed.

Lemma plain_body_grows g work message dialogue (check : list Z → session unit) connected : Keeps grows (
    raise_when (negb connected) (RuntimeError message);;
    text ← converse g dialogue;
    write_bytes (join work "serial.log") (encode text);;
    check_output (check text)).
Proof. unfold converse, check_output, write_bytes. apply _. Qed.

(** Every QEMU started between the two states has since been seen to have exited, or has
    been sent a signal. *)
Definition stopped (l l' : list event) : Prop := gone l l' ∨ did Killed l l' ∨ did TaskKilled l l' ∨ did Terminated l l'.
Definition tidy : relation world := λ w w', grows w w' ∧
  ∀ l command, events w `prefix_of` l → l ++ [Started command] `prefix_of` events w' →
    stopped (l ++ [Started command]) (events w').

Lemma gone_later l l1 l2 : l1 `prefix_of` l2 → gone l l1 → gone l l2.
Proof. intros H (m & e & ? & ? & ? & ?). exists m, e. split_and!; try done; by etrans. Qed.
Lemma did_later e l l1 l2 : l1 `prefix_of` l2 → did e l l1 → did e l l2.
Proof. intros [k2 ->] (k & -> & He). exists (k ++ k2). rewrite app_assoc. split; [done|]. apply elem_of_app. by left. Qed.
Lemma stopped_later l l1 l2 : l1 `prefix_of` l2 → stopped l l1 → stopped l l2.
Proof. intros H [?|[?|[?|?]]]; [left; by eapply gone_later|right..]; [left|right; left|right; right]; by eapply did_later. Qed.
Lemma stopped_weaken l1 l2 l' : l1 `prefix_of` l2 → stopped l2 l' → stopped l1 l'.
Proof. intros H [?|[?|[?|?]]]; [left; by eapply gone_weaken|right..]; [left|right; left|right; right]; by eapply did_weaken. Qed.

(** An element of a log was there before, or comes after. *)
Lemma prefix_snoc_cases {A} (l k n : list A) (x : A) :
  l ++ [x] `prefix_of` n → k `prefix_of` n → l ++ [x] `prefix_of` k ∨ k `prefix_of` l.
Proof.
  intros H1 H2. destruct (prefix_weak_total _ _ _ H1 H2) as [?|[z Hz]]; [by left|].
  destruct z as [|y z] using rev_ind; [rewrite app_nil_r in Hz; left; by rewrite Hz|].
  rewrite app_assoc in Hz. apply app_inj_tail in Hz as [-> ->]. right. by apply prefix_app_r.
Qed.

#[export] Instance tidy_preorder : PreOrder tidy.
Proof.
  split.
  - intros w. split; [done|]. intros l command [k Hk] H%prefix_length. rewrite Hk, length_app in H.
    apply (f_equal length) in Hk. rewrite !length_app in *. cbn in *. lia.
  - intros w1 w2 w3 [G1 T1] [G2 T2]. split; [by etrans|]. intros l command Hl Hs.
    destruct (prefix_snoc_cases _ _ _ _ Hs G2); [|by apply T2].
    eapply stopped_later; [exact G2|by apply T1].
Qed.

Lemma quiet_tidy w w' e : (∀ command, e ≠ Started command) → events w' = events w ++ [e] → tidy w w'.
Proof.
  intros He E. unfold tidy, grows. rewrite E. split; [by apply prefix_app_r|]. intros l command Hl Hs.
  destruct (prefix_snoc_cases _ (events w) _ _ Hs) as [H|H]; [by apply prefix_app_r|..].
  - apply prefix_length in Hl, H. rewrite length_app in H. cbn in H. lia.
  - destruct H as [k ->], Hs as [k' Hs]. rewrite <-!app_assoc in Hs. apply app_inv_head in Hs.
    destruct k; [by injection Hs as ->; destruct (He command)|]. by destruct k.
Qed.

End qemu.

#[global] Hint Extern 1 (Keeps (tidy _) (record _)) =>
  intros ? ? ? [= _ <-]; eapply quiet_tidy; [|reflexivity]; done : typeclass_instances.
#[export] Instance tidy_files h f : Keeps (tidy h) (change_files f).
Proof. intros w r w' [= _ <-]. apply (reflexivity (R := tidy h) w). Qed.


(** ** Running scripts *)

Lemma bind_runs {A C} (m : script A) (f : A → script C) w r w' :
  (m ≫= f) w = (r, w') → (∃ a w1, m w = (Ok a, w1) ∧ f a w1 = (r, w')) ∨ (∃ e, m w = (Err e, w') ∧ r = Err e).
Proof.
  unfold mbind, script_bind. destruct (m w) as [[a|e] w1]; [left; by exists a, w1|]. intros [= <- <-]. right. by exists e.
Qed.

Lemma bind_returns {A C} (m : script A) (f : A → script C) w c w' :
  (m ≫= f) w = (Ok c, w') → ∃ a w1, m w = (Ok a, w1) ∧ f a w1 = (Ok c, w').
Proof. unfold mbind, script_bind. destruct (m w) as [[a|] w1]; [by exists a, w1|done]. Qed.
Lemma raise_when_returns b e w a w' : raise_when b e w = (Ok a, w') → b = false ∧ w' = w.
Proof. destruct b; [done|]. by intros [= _ <-]. Qed.
Lemma lift_returns {A} (m : result A) w a w' : lift m w = (Ok a, w') → m = Ok a ∧ w' = w.
Proof. by intros [= -> <-]. Qed.
Lemma finally_returns {A} (m : script A) f w a w' :
  finally m f w = (Ok a, w') → ∃ w1 u, m w = (Ok a, w1) ∧ f true w1 = (Ok u, w').
Proof.
  intros (r1 & w1 & [u|] & Hm & Hf & Hr)%finally_spec; [|done]. subst r1. by exists w1, u.
Qed.
Lemma at_exit_returns {A} (m : script A) f w r w' : at_exit m f w = (r, w') → ∃ w1, m w = (r, w1) ∧ w' = snd (f w1).
Proof. unfold at_exit. destruct (m w) as [r1 w1]. intros [= -> <-]. by exists w1. Qed.

#[local] Tactic Notation "step" hyp(H) ident(x) ident(w') ident(H1) := apply bind_returns in H as (x & w' & H1 & H).

Section mains.
Context (h : host).

Class Stops (stop : script unit) : Prop := stops w r w' : stop w = (r, w') → stopped h (events w) (events w').

#[export] Instance stops_kill_and_wait : Stops (kill_and_wait h).
Proof. intros w r w' [[_ ?]|[_ ?]]%kill_and_wait_spec; [by left|right; by left]. Qed.
#[export] Instance stops_kill_or_terminate : Stops (kill_or_terminate h).
Proof. intros w r w' [_ [?|[? _]]]%kill_or_terminate_spec; [by left|right; by left]. Qed.
#[export] Instance stops_terminate_process_tree : Stops (terminate_process_tree h).
Proof. intros w r w' [[_ ?]|[_ [?|?]]]%terminate_process_tree_spec; [by left|right; right; by left|by do 3 right]. Qed.

#[export] Instance tidy_terminate_process_tree : Keeps (tidy h) (terminate_process_tree h).
Proof. unfold terminate_process_tree, poll, wait. apply _. Qed.
#[export] Instance tidy_kill_or_terminate : Keeps (tidy h) (kill_or_terminate h).
Proof. unfold kill_or_terminate, poll, wait. apply _. Qed.
#[export] Instance tidy_kill_and_wait : Keeps (tidy h) (kill_and_wait h).
Proof. unfold kill_and_wait, poll, wait. apply _. Qed.

#[export] Instance tidy_grows {A} (m : script A) : Keeps (tidy h) m → Keeps grows m.
Proof. intros H w r w' Hm. by destruct (H _ _ _ Hm). Qed.

(** A boot leaves nothing running: it starts QEMU in its first step. *)
#[export] Instance tidy_with_qemu {A} command g stop (body : bool → script A) :
  Stops stop → Keeps (tidy h) stop → (∀ c, Keeps (tidy h) (body c)) → Keeps (tidy h) (with_qemu command g stop body).
Proof.
  intros Hstop Hs Hb w r w' H.
  set (w0 := World (leaves g (files w)) (events w ++ [Started command])).
  assert (T : tidy h w0 w').
  { assert (K : Keeps (tidy h) (finally ((if existsb id (connects g) then record Connected else mret tt);; body (existsb id (connects g)))
      (λ _, (if existsb id (connects g) then record Closed else mret tt);; stop))) by apply _.
    by eapply K. }
  split; [destruct T as [G _]; unfold grows in *; by eapply prefix_app_l in G|].
  intros l c Hl Hc. destruct T as [G T].
  destruct (prefix_snoc_cases _ _ _ _ Hc G) as [Hx|]; [|by apply T].
  cbn in Hx. assert (l = events w ∧ c = command) as [-> ->].
  { destruct Hl as [k ->], Hx as [k' Hx]. rewrite <-!app_assoc in Hx. apply app_inv_head in Hx.
    destruct k as [|x [|]]; [injection Hx as ->; by rewrite app_nil_r|done..]. }
  apply with_qemu_spec in H as (w1 & rs & Hp & Hst & _); [|apply _].
  eapply stopped_weaken; [exact Hp|by eapply Hstop].
Qed.


#[export] Instance tidy_read path : Keeps (tidy h) (read_bytes path).
Proof. unfold read_bytes. apply _. Qed.
#[export] Instance tidy_write path contents : Keeps (tidy h) (write_bytes path contents).
Proof. unfold write_bytes. apply _. Qed.
#[export] Instance tidy_copy source destination : Keeps (tidy h) (copyfile source destination).
Proof. unfold copyfile. apply _. Qed.
#[export] Instance tidy_is_file path : Keeps (tidy h) (is_file path).
Proof. unfold is_file. apply _. Qed.
#[export] Instance tidy_toolchain : Keeps (tidy h) (toolchain h).
Proof. unfold toolchain. cbv zeta. apply _. Qed.
#[export] Instance tidy_zig command : Keeps (tidy h) (run_zig h command).
Proof. unfold run_zig. apply _. Qed.
#[export] Instance tidy_image image efi metadata options corruption first :
  Keeps (tidy h) (create_image h image efi metadata options corruption first).
Proof. unfold create_image. apply _. Qed.
#[export] Instance tidy_first_file candidates : Keeps (tidy h) (first_file candidates).
Proof. induction candidates as [|path candidates IH]; cbn [first_file]; apply _. Qed.
#[export] Instance tidy_qemu : Keeps (tidy h) (find_qemu h).
Proof. unfold find_qemu. apply _. Qed.
#[export] Instance tidy_firmware qemu work : Keeps (tidy h) (prepare_firmware h qemu work).
Proof.
  assert (Keeps (tidy h) (find_firmware h qemu)); [|unfold prepare_firmware; apply _].
  unfold find_firmware. do 2 (apply keeps_bind; [apply _..|intros []]); apply _.
Qed.

Ltac open_script := unfold remount_main, remount_body, remount_boot, io_error_main, quarantine_main, diskless_main, normal_main,
  run_boot, plain_boot, shared_build, require_file, identity, acquire_run_lock, release_run_lock, remove_stale_workdirs, rmtree,
  converse, check_output.

Lemma tidy_mains g history skip_build :
  Keeps (tidy h) (remount_main h g) ∧ Keeps (tidy h) (io_error_main h g) ∧ Keeps (tidy h) (quarantine_main h skip_build g) ∧
  Keeps (tidy h) (diskless_main h skip_build g) ∧ Keeps (tidy h) (normal_main h skip_build g history).
Proof. split_and!; open_script; cbv zeta; apply _. Qed.

Lemma tidy_run_boot n qemu code vars work image commands markers g t :
  Keeps (tidy h) (run_boot h n qemu code vars work image commands markers g t).
Proof. open_script; cbv zeta; apply _. Qed.


(** ** What a passing script has done *)

Lemma create_image_returns image efi metadata_path options corruption first w image_metadata w' :
  create_image h image efi metadata_path options corruption first w = (Ok image_metadata, w') →
  ∃ contents bytes, files w !! efi = Some contents ∧ build_image contents 512 corruption 0 first = Ok (bytes, image_metadata).
Proof.
  unfold create_image. intros (? & w1 & [= _ <-] & H)%bind_returns.
  apply bind_returns in H as (fs & w2 & [= <- <-] & H). cbn [files] in H.
  destruct (files w !! efi) as [contents|]; [|done]. exists contents.
  generalize dependent (build_image contents 512 corruption 0 first).
  intros [[bytes md]|] H; [|done]. exists bytes.
  apply bind_returns in H as (? & ? & _ & H). by injection H as <- _.
Qed.

Lemma with_qemu_returns {A} command g stop (body : bool → script A) w a w' :
  with_qemu command g stop body w = (Ok a, w') → ∃ w1 w2, body (existsb id (connects g)) w1 = (Ok a, w2).
Proof.
  intros (? & w1 & _ & H)%bind_returns. apply bind_returns in H as (? & w2 & _ & H).
  apply finally_returns in H as (w3 & ? & H & _). apply bind_returns in H as (? & w4 & _ & H). by exists w4, w3.
Qed.

(** The checks of an output do not look at the session. *)
Class Stateless (m : session unit) : Prop := stateless s s' u s1 : m s = Ok (u, s1) → m s' = Ok (tt, s').

#[export] Instance stateless_raise b message : Stateless (Session.raise_when b message).
Proof. intros s s' u s1. unfold Session.raise_when. by destruct b. Qed.
#[export] Instance stateless_bind (m k : session unit) : Stateless m → Stateless k → Stateless (m;; k).
Proof.
  intros Hm Hk s s' u s1 ([] & s2 & H1 & H2)%session_bind_inv.
  unfold mbind, session_bind. rewrite (Hm _ s' _ _ H1). by eapply Hk.
Qed.
#[export] Instance stateless_each {A} (f : A → session unit) l : (∀ a, Stateless (f a)) → Stateless (each f l).
Proof. intros Hf. induction l as [|a l IH]; cbn [each]; [by intros s s' u s1|apply _]. Qed.

Lemma converse_accepts message (dialogue : session unit) (check : list Z → session unit) g text :
  Stateless (check text) →
  BootTests.with_guest (dialogue;; output ← get_serial; mret (Serial.decode_replace output)) (waits g) (reads g) = Ok text →
  BootTests.with_guest (check text) [] [] = Ok tt →
  BootTests.with_guest (Session.raise_when false message;; dialogue;; output ← get_serial;
    check (Serial.decode_replace output);; mret (Serial.decode_replace output)) (waits g) (reads g) = Ok text.
Proof.
  intros Hs ([t s] & Hd & [= ->])%bind_Ok_inv ([u s1] & Hc & _)%bind_Ok_inv.
  unfold BootTests.with_guest, mbind at 1 2, session_bind at 1. cbn [Session.raise_when].
  apply session_bind_inv in Hd as (u' & s2 & Hd & Ho). apply session_bind_inv in Ho as (o & s3 & [= <- <-] & [= <- <-]).
  unfold mbind at 1, session_bind at 1. rewrite Hd. cbn.
  unfold mbind, session_bind. cbn. by rewrite (Hs _ s2 _ _ Hc).
Qed.



(** The body of a boot, once it has returned. *)
Lemma boot_body_returns g message dialogue (check : list Z → session unit) (k : list Z → script unit) c w u w' :
  (∀ text, Stateless (check text)) →
  (raise_when (negb c) (RuntimeError message);; text ← converse g dialogue; k text;; check_output (check text)) w = (Ok u, w') →
  c = true ∧ ∃ text, BootTests.with_guest (Session.raise_when false message;; dialogue;; output ← get_serial;
    check (Serial.decode_replace output);; mret (Serial.decode_replace output)) (waits g) (reads g) = Ok text.
Proof.
  intros Hs H. step H u1 w1 H1. apply raise_when_returns in H1 as [Hc%negb_false_iff ->]. split; [done|].
  step H text w2 H2. apply lift_returns in H2 as [H2 ->]. step H u3 w3 H3. apply lift_returns in H as [H _].
  exists text. destruct u. by apply converse_accepts.
Qed.

Lemma plain_boot_returns g command work message dialogue check_text w u w' :
  (∀ text, Stateless (check_text text)) →
  plain_boot h g command work message dialogue check_text w = (Ok u, w') →
  existsb id (connects g) = true ∧ ∃ text,
  BootTests.with_guest (Session.raise_when false message;; dialogue;; output ← get_serial;
    check_text (Serial.decode_replace output);; mret (Serial.decode_replace output)) (waits g) (reads g) = Ok text.
Proof. intros Hs (w1 & w2 & H)%with_qemu_returns. by eapply boot_body_returns in H. Qed.

Lemma remount_refines g w u w' : remount_main h g w = (Ok u, w') →
  ∃ efi text s, BootTests.ReadonlyRemount.main efi (existsb id (connects g)) (waits g) (reads g) s s s = Ok text.
Proof.
  intros H. step H zig w1 H1. step H present w2 H2. step H u3 w3 H3. step H u4 w4 H4.
  apply at_exit_returns in H as (w5 & H & _). step H u6 w6 H6. step H shared w7 H7.
  apply finally_returns in H as (w8 & u8 & H & _). unfold remount_body in H.
  step H u9 w9 H9. step H built w10 H10. step H u11 w11 H11. step H md w12 H12.
  apply create_image_returns in H12 as (efi & image & _ & Himage).
  step H u13 w13 H13. apply lift_returns in H13 as [Hcheck ->]. step H qemu w14 H14. step H vars w15 H15.
  step H u16 w16 H16. apply with_qemu_returns in H16 as (w17 & w18 & H17).
  step H17 u18 w19 H18. apply raise_when_returns in H18 as [Hc%negb_false_iff ->]. rewrite Hc.
  step H17 text w20 H20. apply lift_returns in H20 as [H20 ->]. step H17 u21 w21 H21. step H17 u22 w22 H22.
  apply lift_returns in H17 as [H17 _]. destruct u16, u13.
  exists efi, text, None. unfold BootTests.ReadonlyRemount.main. rewrite Himage. cbn [mbind result_bind]. rewrite Hcheck.
  cbn [mbind result_bind].
  assert (Hs : Stateless (BootTests.ReadonlyRemount.check_text text)) by (unfold BootTests.ReadonlyRemount.check_text; apply _).
  pose proof (converse_accepts "persistent read-only remount serial connection failed" _ _ g text Hs H20 H17) as Hrun.
  change (BootTests.with_guest (BootTests.ReadonlyRemount.run_session true) (waits g) (reads g) = Ok text) in Hrun.
  rewrite Hrun. reflexivity.
Qed.

Ltac is_stateless m := intros; unfold m; apply _.

Lemma io_error_refines g w u w' : io_error_main h g w = (Ok u, w') →
  ∃ efi text, BootTests.FatIoError.main efi (existsb id (connects g)) (waits g) (reads g) = Ok text.
Proof.
  intros H. step H zig w1 H1. step H u2 w2 H2. apply at_exit_returns in H as (w3 & H & _).
  step H u4 w4 H4. step H u5 w5 H5. step H built w6 H6. step H u7 w7 H7. step H sdk w8 H8. step H u9 w9 H9.
  step H md w10 H10. apply create_image_returns in H10 as (efi & image & _ & Himage).
  step H u11 w11 H11. apply lift_returns in H11 as [Hcheck ->]. step H qemu w12 H12. step H vars w13 H13.
  apply plain_boot_returns in H as [Hc (text & H)]; [|is_stateless BootTests.FatIoError.check_text].
  destruct u11. exists efi, text. unfold BootTests.FatIoError.main. rewrite Himage, Hc. cbn [mbind result_bind]. rewrite Hcheck.
  exact H.
Qed.

Lemma quarantine_refines skip_build g w u w' : quarantine_main h skip_build g w = (Ok u, w') →
  ∃ efi text, BootTests.Quarantine.main efi (existsb id (connects g)) (waits g) (reads g) = Ok text.
Proof.
  intros H. step H u1 w1 H1. step H u2 w2 H2. step H u3 w3 H3.
  step H md w4 H4. apply create_image_returns in H4 as (efi & image & _ & Himage).
  step H u5 w5 H5. apply lift_returns in H5 as [Hcheck ->]. step H qemu w6 H6. step H vars w7 H7.
  apply plain_boot_returns in H as [Hc (text & H)]; [|is_stateless BootTests.Quarantine.check_text].
  destruct u5. exists efi, text. unfold BootTests.Quarantine.main. rewrite Himage, Hc. cbn [mbind result_bind]. rewrite Hcheck.
  exact H.
Qed.

Lemma diskless_refines skip_build g w u w' : diskless_main h skip_build g w = (Ok u, w') →
  ∃ text, BootTests.Diskless.main (existsb id (connects g)) (waits g) (reads g) = Ok text.
Proof.
  intros H. step H u1 w1 H1. step H u2 w2 H2. step H qemu w3 H3. step H vars w4 H4.
  apply plain_boot_returns in H as [Hc (text & H)]; [|is_stateless BootTests.Diskless.check_text].
  exists text. rewrite Hc. exact H.
Qed.

Lemma normal_refines skip_build g history w u w' : normal_main h skip_build g history w = (Ok u, w') →
  ∃ efi, NormalBoot.main efi (existsb id (connects g)) (waits g) (reads g)
    (existsb id (connects history)) (waits history) (reads history) = Ok tt.
Proof.
  intros H. step H u1 w1 H1. step H u2 w2 H2. step H u3 w3 H3.
  step H md w4 H4. apply create_image_returns in H4 as (efi & image & _ & Himage).
  step H qemu w6 H6. step H vars w7 H7. step H u8 w8 H8.
  apply plain_boot_returns in H8 as [Hc (text & H8)]; [|is_stateless NormalBoot.check_text].
  step H u9 w9 H9. apply with_qemu_returns in H as (w10 & w11 & H). step H output w12 H12.
  apply lift_returns in H12 as [H12 _].
  apply bind_Ok_inv in H12 as ([o s] & H12 & _). apply session_bind_inv in H12 as ([] & s1 & H12 & _).
  exists efi. unfold NormalBoot.main. rewrite Himage, Hc. cbn [mbind result_bind].
  change (BootTests.with_guest (NormalBoot.run_session true) (waits g) (reads g) = Ok text) in H8. rewrite H8.
  cbn [mbind result_bind]. unfold BootTests.with_guest. rewrite H12. reflexivity.
Qed.

(** Copying a file and failing to leaves the log as it is. *)
Lemma copyfile_events source destination w r w' : copyfile source destination w = (r, w') → events w' = events w.
Proof.
  unfold copyfile, read_bytes, write_bytes, mbind, script_bind. cbn. by destruct (files w !! source); intros [= _ <-].
Qed.

Lemma run_boot_ends n qemu code vars work image commands markers g t w r w' command :
  run_boot h n qemu code vars work image commands markers g t w = (r, w') →
  events w ++ [Started command] `prefix_of` events w' →
  gone h (events w ++ [Started command]) (events w') ∨
  did Killed (events w ++ [Started command]) (events w') ∧ did Terminated (events w ++ [Started command]) (events w').
Proof.
  assert (Hno : ∀ l : list event, events w = l → events w ++ [Started command] `prefix_of` l → False).
  { intros l <- Hl%prefix_length. rewrite length_app in Hl. cbn in Hl. lia. }
  unfold run_boot. intros H Hc.
  apply bind_runs in H as [(u1 & w1 & H1%copyfile_events & H)|(e & H%copyfile_events & _)]; [|by destruct (Hno _ (eq_sym H))].
  apply bind_runs in H as [(u2 & w2 & H2%copyfile_events & H)|(e & H%copyfile_events & _)];
    [|rewrite H1 in H; by destruct (Hno _ (eq_sym H))].
  rewrite <-H1, <-H2 in *. apply with_qemu_spec in H as (w3 & rs & Hp & Hs & _); [|intros; unfold write_bytes; apply _].
  assert (Hw : events w3 `prefix_of` events w') by by apply (tidy_kill_or_terminate _ _ _ Hs).
  apply kill_or_terminate_spec in Hs as [_ Hs].
  match type of Hp with events w2 ++ [Started ?c] `prefix_of` _ => assert (c = command) as <- end.
  { destruct Hc as [k Hc], (transitivity Hp Hw) as [k' Hk]. rewrite Hc, <-!app_assoc in Hk. apply app_inv_head in Hk. by injection Hk. }
  destruct Hs as [Hg|[Hk Ht]]; [left; eapply gone_weaken; [exact Hp|exact Hg]|right; split; (eapply did_weaken; [exact Hp|done])].
Qed.

End mains.

(** (C5) No boot leaves QEMU behind unnoticed, whatever the guest does.  Each QEMU that a
    test starts is, when the test ends, known to have exited or has been sent a signal.
    A boot of the four tests that kill it is over when it has exited, or the boot ends in
    [TimeoutExpired]; that of the remount test, or it ends in an error.  Only a boot of
    the persistence test may pass while QEMU is still running: when it has not exited in
    the time after the kill, one more signal is sent and nothing is said. *)
Theorem qemu_stopped :
  (∀ h g history skip_build main w r w' l command,
     main ∈ [remount_main h g; io_error_main h g; quarantine_main h skip_build g; diskless_main h skip_build g;
             normal_main h skip_build g history] →
     main w = (r, w') → events w `prefix_of` l → l ++ [Started command] `prefix_of` events w' →
     stopped h (l ++ [Started command]) (events w')) ∧
  (∀ h g command work message dialogue check_text w r w',
     plain_boot h g command work message dialogue check_text w = (r, w') →
     gone h (events w ++ [Started command]) (events w') ∨
     r = Err TimeoutExpired ∧ did Killed (events w ++ [Started command]) (events w')) ∧
  (∀ h g command w r w', remount_boot h g command w = (r, w') →
     gone h (events w ++ [Started command]) (events w') ∨
     r = Err (RuntimeError "QEMU process tree did not terminate") ∧ ∃ e, (e = TaskKilled ∨ e = Terminated) ∧
       did e (events w ++ [Started command]) (events w')) ∧
  (∀ h n qemu code vars work image commands markers g t w r w' command,
     run_boot h n qemu code vars work image commands markers g t w = (r, w') →
     events w ++ [Started command] `prefix_of` events w' →
     gone h (events w ++ [Started command]) (events w') ∨
     did Killed (events w ++ [Started command]) (events w') ∧ did Terminated (events w ++ [Started command]) (events w')) ∧
  (∃ text, fst (run_boot hung_host 1 "qemu" "code.fd" "vars.fd" "work" "image" [] [] hung_guest hung_transcript hung_world) = Ok text ∧
     ∀ l, status hung_host l = None).
Proof.
  split_and!.
  - intros * Hm H Hl Hc. destruct (tidy_mains h g history skip_build) as (T1 & T2 & T3 & T4 & T5).
    repeat (apply elem_of_cons in Hm as [->|Hm]); [..|by apply not_elem_of_nil in Hm].
    + by apply (T1 _ _ _ H). + by apply (T2 _ _ _ H). + by apply (T3 _ _ _ H). + by apply (T4 _ _ _ H). + by apply (T5 _ _ _ H).
  - intros * (w1 & rs & Hp & Hs & He)%with_qemu_spec; [|intros; apply plain_body_grows].
    apply kill_and_wait_spec in Hs as [[_ Hg]|[-> Hd]]; [left; by eapply gone_weaken|].
    right. split; [by apply He|by eapply did_weaken].
  - intros * (w1 & rs & Hp & Hs & He)%with_qemu_spec;
      [|intros; unfold converse, check_output, copyfile, write_bytes, read_bytes; apply _].
    apply terminate_process_tree_spec in Hs as [[_ Hg]|[-> Hd]]; [left; by eapply gone_weaken|].
    right. split; [by apply He|]. destruct Hd; eexists; (split; [|by eapply did_weaken]); eauto.
  - intros * H Hc. by eapply run_boot_ends.
  - eexists. split; [vm_compute; reflexivity|done].
Qed.

(** (C8) A script that passes has done what its model without the harness does: it built
    an image from some application, aimed its faults at it, connected, and had the whole
    dialogue and all its checks with this guest.  That the shared build is left as it was
    found is [remount_leaves]. *)
Theorem mains_refine h skip_build g history w w' :
  (remount_main h g w = (Ok tt, w') → ∃ efi text s,
     BootTests.ReadonlyRemount.main efi (existsb id (connects g)) (waits g) (reads g) s s s = Ok text) ∧
  (io_error_main h g w = (Ok tt, w') → ∃ efi text,
     BootTests.FatIoError.main efi (existsb id (connects g)) (waits g) (reads g) = Ok text) ∧
  (quarantine_main h skip_build g w = (Ok tt, w') → ∃ efi text,
     BootTests.Quarantine.main efi (existsb id (connects g)) (waits g) (reads g) = Ok text) ∧
  (diskless_main h skip_build g w = (Ok tt, w') → ∃ text,
     BootTests.Diskless.main (existsb id (connects g)) (waits g) (reads g) = Ok text) ∧
  (normal_main h skip_build g history w = (Ok tt, w') → ∃ efi,
     NormalBoot.main efi (existsb id (connects g)) (waits g) (reads g)
       (existsb id (connects history)) (waits history) (reads history) = Ok tt).
Proof.
  split_and!; intros H.
  - by eapply remount_refines.
  - by eapply io_error_refines.
  - by eapply quarantine_refines.
  - by eapply diskless_refines.
  - by eapply normal_refines.
Qed.

(** ** What the remount test leaves *)

Lemma B_join directory name : B (join directory name) = B directory ++ 47 :: B name.
Proof. unfold join. by rewrite !B_app. Qed.
Lemma starts_with_cancel l a b : starts_with (l ++ a) (l ++ b) = starts_with a b.
Proof. induction l as [|x l IH]; [done|]. cbn. by rewrite Z.eqb_refl. Qed.

Section leaves.
Context (h : host).

Lemma lookup_deleted p fs path : p path = false → deleted h p fs !! path = fs !! path.
Proof.
  intros Hp. unfold deleted. destruct (fs !! path) as [c|] eqn:E.
  - apply map_lookup_filter_Some. split; [done|]. cbn. by rewrite Hp.
  - apply map_lookup_filter_None. by left.
Qed.
Lemma deleted_inside p fs path : p path = true → is_Some (deleted h p fs !! path) → undeletable h path = true.
Proof.
  intros Hp [c [_ H]%map_lookup_filter_Some]. cbn in H. rewrite Hp in H. cbn in H. by apply negb_false_iff in H.
Qed.

(** The shared image, the lock and the work directories are apart. *)
Ltac in_repository := unfold in_workdir, inside, shared_efi, remount_lock, remount_work, mkdtemp, build_dir;
  rewrite ?B_app, ?B_join, ?B_app, ?B_join, <-?app_assoc, ?starts_with_cancel.
Lemma shared_not_lock : shared_efi h ≠ remount_lock h.
Proof.
  intros H%(f_equal B). unfold shared_efi, remount_lock, build_dir in H. rewrite !B_join, <-!app_assoc in H.
  by apply app_inv_head in H.
Qed.
Lemma shared_not_stale : in_workdir h "persistent-readonly-remount-" (shared_efi h) = false.
Proof. in_repository. reflexivity. Qed.
Lemma shared_not_inside : inside (remount_work h) (shared_efi h) = false.
Proof. in_repository. reflexivity. Qed.
Lemma lock_not_inside : inside (remount_work h) (remount_lock h) = false.
Proof. in_repository. reflexivity. Qed.


(** The steps before the lock is taken do not change the files. *)
Definition same_files : relation world := λ w w', files w' = files w.
#[local] Instance same_files_preorder : PreOrder same_files.
Proof. split; unfold same_files; [done|]. intros w1 w2 w3 H12 H23. congruence. Qed.
Lemma same_toolchain : Keeps same_files (toolchain h).
Proof. unfold toolchain, read_bytes. cbv zeta. apply _. Qed.

Lemma released lock contents :
  RunLock.release_run_lock (pid h) lock = Some contents → parse_int contents ≠ Some (pid h).
Proof.
  destruct lock as [c|]; [|done]. cbn. destruct (parse_int c) as [owner|] eqn:E.
  - destruct (Z.eqb_spec owner (pid h)) as [->|Hne]; [done|]. intros [= <-]. congruence.
  - intros [= <-]. congruence.
Qed.

(** What [main] does before it has the lock, and then. *)
Lemma remount_starts g w r w' : remount_main h g w = (r, w') →
  (files w' = files w ∧ ∃ e, r = Err e) ∨
  (∃ w1, files w' = partial_alter (RunLock.release_run_lock (pid h)) (remount_lock h) (files w1)).
Proof.
  intros [(zig & w1 & H1 & H)|(e & H & ->)]%bind_runs; [|left; split; [by eapply same_toolchain|by exists e]].
  apply same_toolchain in H1. apply bind_runs in H as [(present & w2 & [= _ <-] & H)|(e & [=] & _)].
  apply bind_runs in H as [(u & w3 & [_ ->]%raise_when_returns & H)|(e & H & ->)].
  2: { left. split; [|by exists e]. by destruct (negb present); injection H as _ <-. }
  apply bind_runs in H as [(u4 & w4 & _ & H)|(e & H & ->)].
  - right. apply at_exit_returns in H as (w5 & _ & ->). by exists w5.
  - left. split; [|by exists e]. unfold acquire_run_lock in H. apply bind_runs in H as [(fs & w5 & [= <- <-] & H)|(e' & [=] & _)].
    apply bind_runs in H as [(lock & w6 & [_ ->]%lift_returns & [=])|(e' & [= _ <-] & _)]. done.
Qed.

Lemma remount_passes g w w' : remount_main h g w = (Ok tt, w') →
  let identity w := BootTests.ReadonlyRemount.file_identity (files w !! shared_efi h) in
  identity w' = identity w ∧ ∀ path, inside (remount_work h) path = true → is_Some (files w' !! path) → undeletable h path = true.
Proof.
  intros H identity. step H zig w1 H1. apply same_toolchain in H1. step H present w2 H2. injection H2 as _ <-.
  step H u3 w3 H3. apply raise_when_returns in H3 as [_ ->]. step H u4 w4 H4.
  unfold acquire_run_lock in H4. step H4 fs w5 H5. injection H5 as _ <-. step H4 lock w6 H6.
  apply lift_returns in H6 as [_ ->]. injection H4 as <-. apply at_exit_returns in H as (w7 & H & ->).
  step H u8 w8 H8. injection H8 as <-. step H before w9 H9. injection H9 as <- <-.
  apply finally_returns in H as (w10 & u10 & _ & H). step H after w11 H11. injection H11 as <- <-.
  step H u12 w12 H12. apply raise_when_returns in H12 as [Hsame%negb_false_iff%bool_decide_eq_true ->].
  step H u13 w13 H13. injection H13 as <-. injection H as _ <-. cbn [files] in Hsame. unfold identity. cbn [files].
  subst w4 w8 w13. cbn [files] in Hsame.
  pose proof shared_not_lock as Hl. split.
  - cbn. rewrite lookup_partial_alter_ne by done. rewrite lookup_deleted by apply shared_not_inside.
    rewrite lookup_partial_alter_ne by done. rewrite Hsame, lookup_deleted by apply shared_not_stale.
    rewrite lookup_partial_alter_ne by done. by rewrite H1.
  - intros path Hp. cbn. rewrite lookup_partial_alter_ne by (intros <-; by rewrite lock_not_inside in Hp).
    by apply deleted_inside.
Qed.

End leaves.

(** (C19) However the remount test ends, its lock does not name it, unless the lock did so
    before and the test refused to run; and when it passes, the application image of the
    shared build is the one it found, and nothing that can be deleted is left in its work
    directory. *)
Theorem remount_leaves h g w r w' : remount_main h g w = (r, w') →
  (∀ contents, files w' !! remount_lock h = Some contents → parse_int contents = Some (pid h) →
     files w !! remount_lock h = Some contents ∧ ∃ e, r = Err e) ∧
  (r = Ok tt →
     BootTests.ReadonlyRemount.file_identity (files w' !! shared_efi h) =
       BootTests.ReadonlyRemount.file_identity (files w !! shared_efi h) ∧
     ∀ path, inside (remount_work h) path = true → is_Some (files w' !! path) → undeletable h path = true).
Proof.
  intros H. split.
  - intros contents Hc Hp. apply remount_starts in H as [[Hw He]|[w1 Hw]]; [by rewrite Hw in Hc|].
    rewrite Hw, lookup_partial_alter_eq in Hc. by apply released in Hc.
  - intros ->. by apply remount_passes in H.
Qed.

(** ** Witnesses *)

Lemma diskless_passes : is_ok (fst (diskless_main example_host true example_guest (World prepared_files []))) = true.
Proof. vm_compute. reflexivity. Qed.

Lemma mains_refine_witness : ∃ text,
  BootTests.Diskless.main (existsb id (connects example_guest)) (waits example_guest) (reads example_guest) = Ok text.
Proof.
  pose proof diskless_passes as Hok.
  destruct (diskless_main example_host true example_guest (World prepared_files [])) as [[[]|] w'] eqn:E; [|discriminate Hok].
  by apply (mains_refine example_host true example_guest example_guest (World prepared_files []) w').
Defined.

Lemma remount_fails :
  fst (remount_main example_host example_guest (World stale_files [])) = Err CalledProcessError.
Proof. vm_compute. reflexivity. Qed.

Lemma remount_leaves_witness : ∃ w', remount_main example_host example_guest (World stale_files []) = (Err CalledProcessError, w') ∧
  ∀ contents, files w' !! remount_lock example_host = Some contents → parse_int contents ≠ Some 7.
Proof.
  pose proof remount_fails as Hr.
  destruct (remount_main example_host example_guest (World stale_files [])) as [r w'] eqn:E. cbn in Hr. subst r.
  exists w'. split; [exact (eq_refl (Err CalledProcessError, w'))|]. intros contents Hc Hp.
  destruct (remount_leaves example_host example_guest (World stale_files []) (Err CalledProcessError) w' E) as [Hl _].
  destruct (Hl contents Hc Hp) as [Hs _]. assert (pid_text 9 = contents) as <-; [|discriminate Hp].
  enough (Some (pid_text 9) = Some contents) as [= ->] by done. rewrite <-Hs. vm_compute. reflexivity.
Defined.

End Harness.
