(* ===== verification/PersistenceTest.v ===== *)
(** * The four-boot persistence test

    [main] of [test-x86_64-persistence.py]: the four boots that write generations 1 to
    4 of the journal into alternating slots, the checks of the headers and of the
    records after each, the two corrupted copies of the last image (G250) and the two
    boots that must recover generation 3 from them.  A boot is its transcript and what
    it leaves in the image file, both arbitrary; the file starts as the image of
    [create-nvme-test-image.py].  The checks compare the file's SHA-256 before and
    after a boot; the session is defined for any [hash], and [main] takes [sha256]. *)

From S2P Require Import Prelude PyBytes PyHash NvmeImage Serial Journal JournalSpec.

Module PersistenceTest.

Import Serial Journal JournalSpec.

(** ** The boots *)

Record boot := Boot { guest : transcript; image_after : bytes }.

Definition first_commands : list (string * option string) :=
  [("mkdir /persist/config", None);
   ("write /persist/config/message.txt survived-generation-one", None);
   ("cp /bin/sdk.elf /persist/persist-sdk.elf", None);
   ("exec /bin/fs.elf init", Some "exec: PID 3 state zombie status 0x58");
   ("fsck", Some "fsck ramfs/persist: clean");
   ("cat /persist/config/message.txt", Some "survived-generation-one");
   ("shutdown", Some "ZigOs persistent storage: mounted yes generation/slot 1/0")].

Definition first_markers : list string :=
  ["fs-api: init/mkdir/write/seek/replace-rename/chmod/link/nlink/symlink/readlink/fallocate/sparse/open-unlink/rmdir/sync passed";
   "exec: PID 3 state zombie status 0x58";
   "ZigOs persistent storage: mounted yes generation/slot 1/0 records/payload 8/";
   "errors 0/0 clean yes";
   "persistent-storage yes canned-results no explicit-shutdown yes"].

Definition second_commands : list (string * option string) :=
  [("exec /bin/fs.elf fsync", Some "exec: PID 3 state zombie status 0x5B")].

Definition second_markers : list string :=
  ["fs-api: file-fsync target data/mode committed unrelated dirty state excluded";
   "exec: PID 3 state zombie status 0x5B"].

Definition third_commands : list (string * option string) :=
  [("sleep 1", Some "sleep complete");
   ("exec /bin/fs.elf fdatasync", Some "exec: PID 3 state zombie status 0x5C")].

Definition third_markers : list string :=
  ["sleep complete";
   "fs-api: recovered fsync metadata then fdatasync data/size committed dirty mode and unrelated data excluded";
   "exec: PID 3 state zombie status 0x5C"].

Definition fourth_commands : list (string * option string) :=
  [("cat /persist/config/message.txt", Some "survived-generation-one");
   ("exec /persist/persist-sdk.elf alpha beta", Some "exec: PID 3 state zombie status 0x56");
   ("append /persist/config/message.txt survived-generation-four", None);
   ("exec /bin/fs.elf verify", Some "exec: PID 4 state zombie status 0x59");
   ("fsck", Some "fsck ramfs/persist: clean");
   ("cat /persist/config/message.txt", Some "survived-generation-four");
   ("shutdown", Some "ZigOs persistent storage: mounted yes generation/slot 4/1")].

Definition fourth_markers : list string :=
  ["survived-generation-one";
   "survived-generation-four";
   "zig-sdk: envp/auxv passed";
   "exec: PID 3 state zombie status 0x56";
   "fs-api: recovery/fsync-metadata/fdatasync-data-only/hard-link/symlink/sparse-isolation/cleanup passed";
   "exec: PID 4 state zombie status 0x59";
   "ZigOs persistent storage: mounted yes generation/slot 4/1 records/payload 3/";
   "errors 0/0 clean yes";
   "persistent-storage yes canned-results no explicit-shutdown yes"].

Definition recovery_commands : list (string * option string) :=
  [("cat /persist/config/message.txt", Some "survived-generation-one");
   ("shutdown", Some "ZigOs persistent storage: mounted yes generation/slot 3/0")].

Definition header_recovery_markers : list string :=
  ["ZigOs persistent storage: mounted yes generation/slot 3/0 records/payload 8/";
   "mounts/syncs/checks/recoveries 1/0/0/1";
   "errors 0/1 clean no"].

Definition payload_recovery_markers : list string :=
  ["ZigOs persistent storage: mounted yes generation/slot 3/0 records/payload 8/";
   "mounts/syncs/checks/recoveries 1/0/0/1";
   "errors 0/0 clean no"].

(** ** The checks *)

(** Both headers, committed. *)
Definition committed_headers (image : bytes) (first_lba : Z) (message : string) : result (Header * Header) :=
  header_a ← parse_header image first_lba 0 512;
  header_b ← parse_header image first_lba 1 512;
  match header_a, header_b with
  | Some header_a, Some header_b => Ok (header_a, header_b)
  | _, _ => Err (RuntimeError message)
  end.

(** [(header_a.generation, header_b.generation) != (a, b)], and the record counts. *)
Definition generations_differ (headers : Header * Header) (a b : Z) : bool :=
  negb (generation headers.1 =? a) || negb (generation headers.2 =? b).
Definition counts_differ (headers : Header * Header) (a b : Z) : bool :=
  negb (record_count headers.1 =? a) || negb (record_count headers.2 =? b).

Definition owner_differs (r s : Record_) : bool :=
  negb (uid r =? uid s) || negb (gid r =? gid s).

Section Checks.
Context (hash : bytes → bytes) (data_first_lba : Z).

Definition check_first (image : bytes) : result Record_ :=
  header_a ← parse_header image data_first_lba 0 512;
  header_b ← parse_header image data_first_lba 1 512;
  match header_a, header_b with
  | Some header_a, None =>
      error_if (negb (generation header_a =? 1) || negb (record_count header_a =? 8))
        "unexpected generation-1 headers: A={header_a}, B={header_b}";;
      generation_one_target ← timestamp_record image data_first_lba header_a;
      let '(created, modified, changed, accessed) := times generation_one_target in
      error_if (negb (forallb (λ value, 0 <? value) [created; modified; changed; accessed]))
        "generation 1 target timestamps were not initialized: {generation_one_target}";;
      error_if (negb (uid generation_one_target =? 0) || negb (gid generation_one_target =? 0))
        "generation 1 target ownership was not root: {generation_one_target}";;
      Ok generation_one_target
  | _, _ => Err (RuntimeError "unexpected generation-1 headers: A={header_a}, B={header_b}")
  end.

Definition check_second (image : bytes) (generation_one_target : Record_) : result Record_ :=
  headers ← committed_headers image data_first_lba "file fsync did not leave both A/B headers committed: A={header_a}, B={header_b}";
  error_if (generations_differ headers 1 2) "unexpected post-fsync A/B generations: A={header_a}, B={header_b}";;
  error_if (counts_differ headers 8 8) "file fsync changed persistent namespace cardinality: A={header_a}, B={header_b}";;
  generation_two_target ← timestamp_record image data_first_lba headers.2;
  error_if (owner_differs generation_two_target generation_one_target) "fsync changed committed file ownership";;
  error_if (negb (created_tick generation_two_target =? created_tick generation_one_target))
    "fsync changed file creation timestamp";;
  error_if (modified_tick generation_two_target =? modified_tick generation_one_target)
    "fsync did not persist a changed file modification timestamp";;
  error_if (changed_tick generation_two_target =? changed_tick generation_one_target)
    "fsync did not persist a changed file change timestamp";;
  error_if (negb (accessed_tick generation_two_target =? accessed_tick generation_one_target))
    "fsync unexpectedly changed committed file access timestamp";;
  Ok generation_two_target.

Definition check_third (image : bytes) (generation_two_target : Record_) : result Record_ :=
  headers ← committed_headers image data_first_lba "file fdatasync did not leave both A/B headers committed: A={header_a}, B={header_b}";
  error_if (generations_differ headers 3 2) "unexpected post-fdatasync A/B generations: A={header_a}, B={header_b}";;
  error_if (counts_differ headers 8 8) "file fdatasync changed persistent namespace cardinality: A={header_a}, B={header_b}";;
  generation_three_target ← timestamp_record image data_first_lba headers.1;
  error_if (owner_differs generation_three_target generation_two_target) "fdatasync changed committed file ownership";;
  error_if (negb (created_tick generation_three_target =? created_tick generation_two_target))
    "fdatasync changed committed file creation timestamp";;
  error_if (modified_tick generation_three_target =? modified_tick generation_two_target)
    "fdatasync did not persist a changed file modification timestamp";;
  error_if (negb (changed_tick generation_three_target =? changed_tick generation_two_target))
    "fdatasync committed dirty change timestamp metadata";;
  error_if (negb (accessed_tick generation_three_target =? accessed_tick generation_two_target))
    "fdatasync committed dirty access timestamp metadata";;
  Ok generation_three_target.

Definition check_fourth (image : bytes) : result (Header * Header) :=
  headers ← committed_headers image data_first_lba "both A/B headers were not committed: A={header_a}, B={header_b}";
  error_if (generations_differ headers 3 4) "unexpected final A/B generations: A={header_a}, B={header_b}";;
  error_if (counts_differ headers 8 3) "unexpected final A/B record counts: A={header_a}, B={header_b}";;
  Ok headers.

(** [try: m; except RuntimeError as error: if part not in str(error): raise; else:
    raise RuntimeError(message)] *)
Definition expect_error {A} (m : result A) (part message : string) : result unit :=
  match m with
  | Ok _ => Err (RuntimeError message)
  | Err (RuntimeError error) => if contains (B error) (B part) then Ok tt else Err (RuntimeError error)
  | Err e => Err e
  end.

(** The two corrupted copies. *)
Definition corrupt_copies (image : bytes) (header_b : Header) : result (bytes * bytes) :=
  let newest_slot := slot header_b in
  error_if (negb (newest_slot =? 1) || negb (generation header_b =? 4))
    "G250 expected newest slot B generation 4, got {header_b}";;
  let header_lba := data_first_lba + newest_slot in
  let payload_lba := slot_payload_lba data_first_lba newest_slot 512 in
  '(header_corrupt_image, _) ← corrupt_block_byte image header_lba 40 0xA5 512;
  '(payload_corrupt_image, _) ← corrupt_block_byte image payload_lba 4 0xA5 512;
  header_fallback ← parse_header header_corrupt_image data_first_lba 0 512;
  payload_fallback ← parse_header payload_corrupt_image data_first_lba 0 512;
  error_if
    (match header_fallback, payload_fallback with
     | Some header_fallback, Some payload_fallback =>
         negb (generation header_fallback =? 3) || negb (generation payload_fallback =? 3)
     | _, _ => true
     end) "G250 corruption copies lost the older valid generation 3 slot";;
  expect_error (parse_header header_corrupt_image data_first_lba newest_slot 512) "header CRC mismatch"
    "G250 header corruption did not invalidate the newest header CRC";;
  payload_newest ← parse_header payload_corrupt_image data_first_lba newest_slot 512;
  match payload_newest with
  | Some payload_newest =>
      error_if (negb (generation payload_newest =? 4)) "G250 payload corruption unexpectedly invalidated the newest header";;
      expect_error (parse_records payload_corrupt_image data_first_lba payload_newest 512) "payload CRC mismatch"
        "G250 payload corruption did not invalidate the newest payload CRC";;
      Ok (header_corrupt_image, payload_corrupt_image)
  | None => Err (RuntimeError "G250 payload corruption unexpectedly invalidated the newest header")
  end.

(** ** The session *)

(** A boot whose commands and markers were all answered. *)
Definition commit (b : boot) (commands : list (string * option string)) (markers : list string) (before : bytes)
    (message : string) : result bytes :=
  _ ← run_boot (guest b) commands markers;
  error_if (beq (hash (image_after b)) (hash before)) message;;
  Ok (image_after b).

Definition recover (b : boot) (image : bytes) (markers : list string) (exposed rewrote : string) : result unit :=
  '(text, _) ← run_boot (guest b) recovery_commands markers;
  error_if (contains text (B "survived-generation-four")) exposed;;
  error_if (negb (beq (hash (image_after b)) (hash image))) rewrote.

Definition run_session (image : bytes) (b1 b2 b3 b4 b5 b6 : boot) : result (Header * Header) :=
  image ← commit b1 first_commands first_markers image "boot 1 did not modify the NVMe image";
  generation_one_target ← check_first image;
  image ← commit b2 second_commands second_markers image "boot 2 file fsync did not commit a new NVMe generation";
  generation_two_target ← check_second image generation_one_target;
  image ← commit b3 third_commands third_markers image "boot 3 file fdatasync did not commit a new NVMe generation";
  _ ← check_third image generation_two_target;
  image ← commit b4 fourth_commands fourth_markers image "boot 4 did not commit a new NVMe generation";
  headers ← check_fourth image;
  '(header_corrupt_image, payload_corrupt_image) ← corrupt_copies image headers.2;
  recover b5 header_corrupt_image header_recovery_markers
    "G250 header-corruption recovery exposed rejected generation-4 data"
    "G250 header-corruption recovery unexpectedly rewrote the damaged image";;
  recover b6 payload_corrupt_image payload_recovery_markers
    "G250 payload-corruption recovery exposed rejected generation-4 data"
    "G250 payload-corruption recovery unexpectedly rewrote the damaged image";;
  Ok headers.

End Checks.

(** [main] after the build, and whether the lock file exists afterwards; a missing
    file is [None]; the image is built by another process, whose failure stands for the
    error of [build_image]. *)
Definition main (lock : bool) (efi sdk_elf : option bytes) (b1 b2 b3 b4 b5 b6 : boot)
    : result (Header * Header) * bool :=
  if lock then (Err (RuntimeError "persistence test lock already exists: {lock}"), lock)
  else
    (match efi, sdk_elf with
     | None, _ => Err (RuntimeError "installed BOOTX64.EFI is missing")
     | _, None => Err (RuntimeError "installed sdk.elf is missing")
     | Some efi, Some _ =>
         '(image, metadata) ← NvmeImage.build_image efi 512 NvmeImage.none 0 None;
         run_session sha256 (NvmeImage.data_partition_first_lba (NvmeImage.md_layout metadata)) image b1 b2 b3 b4 b5 b6
     end, false).

(** ** What an accepted session shows of the journal *)

Lemma committed_headers_Ok image first message headers :
  committed_headers image first message = Ok headers →
  parse_header image first 0 512 = Ok (Some headers.1) ∧ parse_header image first 1 512 = Ok (Some headers.2).
Proof.
  unfold committed_headers. intros (a & Ha & (b & Hb & H)%bind_Ok_inv)%bind_Ok_inv.
  destruct a, b; try done. injection H as <-. done.
Qed.

(** Slot [s] of the image holds a header of generation [g] with [n] records. *)
Definition slot_has (image : bytes) (first s : Z) (h : Header) (g n : Z) : Prop :=
  parse_header image first s 512 = Ok (Some h) ∧ generation h = g ∧ record_count h = n.

Lemma both_slots image first message headers ga gb na nb :
  committed_headers image first message = Ok headers →
  generations_differ headers ga gb = false → counts_differ headers na nb = false →
  slot_has image first 0 headers.1 ga na ∧ slot_has image first 1 headers.2 gb nb.
Proof.
  intros [? ?]%committed_headers_Ok. unfold generations_differ, counts_differ.
  rewrite !orb_false_iff, !negb_false_iff, !Z.eqb_eq. intros [? ?] [? ?]. by split; split_and!.
Qed.

Lemma owner_same r s : owner_differs r s = false → owner r = owner s.
Proof. unfold owner_differs, owner. rewrite orb_false_iff, !negb_false_iff, !Z.eqb_eq. by intros [-> ->]. Qed.

(** The target's record in each of the first three generations: [fsync] in the second
    boot writes new modification and change times, [fdatasync] in the third a new
    modification time only. *)
Definition target_history (r1 r2 r3 : Record_) : Prop :=
  owner r1 = (0, 0) ∧ owner r2 = owner r1 ∧ owner r3 = owner r1 ∧
  created_tick r2 = created_tick r1 ∧ created_tick r3 = created_tick r1 ∧
  accessed_tick r2 = accessed_tick r1 ∧ accessed_tick r3 = accessed_tick r1 ∧
  modified_tick r2 ≠ modified_tick r1 ∧ modified_tick r3 ≠ modified_tick r2 ∧
  changed_tick r2 ≠ changed_tick r1 ∧ changed_tick r3 = changed_tick r2 ∧
  0 < created_tick r1 ∧ 0 < modified_tick r1 ∧ 0 < changed_tick r1 ∧ 0 < accessed_tick r1.

Lemma check_first_Ok first image r :
  check_first first image = Ok r →
  ∃ h, slot_has image first 0 h 1 8 ∧ parse_header image first 1 512 = Ok None ∧
    timestamp_record image first h = Ok r ∧ owner r = (0, 0) ∧
    0 < created_tick r ∧ 0 < modified_tick r ∧ 0 < changed_tick r ∧ 0 < accessed_tick r.
Proof.
  unfold check_first. intros (a & Ha & (b & Hb & H)%bind_Ok_inv)%bind_Ok_inv. destruct a as [h|], b; try done.
  unfold error_if in H. rewrite guard_iff, orb_false_iff, !negb_false_iff, !Z.eqb_eq in H.
  destruct H as [[Hg Hc] (r1 & Hr & H)%bind_Ok_inv]. cbn [times] in H. cbn [forallb] in H.
  rewrite !guard_iff, orb_false_iff, !negb_false_iff, !andb_true_iff, !Z.eqb_eq, !Z.ltb_lt in H.
  destruct H as ((? & ? & ? & ? & _) & [? ?] & [= <-]). exists h. unfold owner. split_and!; try done. congruence.
Qed.

Lemma check_second_Ok first image r1 r2 :
  check_second first image r1 = Ok r2 →
  ∃ a b, slot_has image first 0 a 1 8 ∧ slot_has image first 1 b 2 8 ∧ timestamp_record image first b = Ok r2 ∧
    owner r2 = owner r1 ∧ created_tick r2 = created_tick r1 ∧ modified_tick r2 ≠ modified_tick r1 ∧
    changed_tick r2 ≠ changed_tick r1 ∧ accessed_tick r2 = accessed_tick r1.
Proof.
  unfold check_second, error_if. intros ([a b] & Hh & H)%bind_Ok_inv. rewrite !guard_iff in H.
  destruct H as (Hg & Hc & (r & Hr & H)%bind_Ok_inv). destruct (both_slots _ _ _ _ _ _ _ _ Hh Hg Hc).
  rewrite !guard_iff, !negb_false_iff, !Z.eqb_eq, !Z.eqb_neq in H. destruct H as (Ho%owner_same & ? & ? & ? & ? & [= <-]).
  exists a, b. by split_and!.
Qed.

Lemma check_third_Ok first image r2 r3 :
  check_third first image r2 = Ok r3 →
  ∃ a b, slot_has image first 0 a 3 8 ∧ slot_has image first 1 b 2 8 ∧ timestamp_record image first a = Ok r3 ∧
    owner r3 = owner r2 ∧ created_tick r3 = created_tick r2 ∧ modified_tick r3 ≠ modified_tick r2 ∧
    changed_tick r3 = changed_tick r2 ∧ accessed_tick r3 = accessed_tick r2.
Proof.
  unfold check_third, error_if. intros ([a b] & Hh & H)%bind_Ok_inv. rewrite !guard_iff in H.
  destruct H as (Hg & Hc & (r & Hr & H)%bind_Ok_inv). destruct (both_slots _ _ _ _ _ _ _ _ Hh Hg Hc).
  rewrite !guard_iff, !negb_false_iff, !Z.eqb_eq, !Z.eqb_neq in H. destruct H as (Ho%owner_same & ? & ? & ? & ? & [= <-]).
  exists a, b. by split_and!.
Qed.

Lemma check_fourth_Ok first image headers :
  check_fourth first image = Ok headers →
  slot_has image first 0 headers.1 3 8 ∧ slot_has image first 1 headers.2 4 3.
Proof.
  unfold check_fourth, error_if. intros (hs & Hh & H)%bind_Ok_inv. rewrite !guard_iff in H.
  destruct H as (Hg & Hc & [= <-]). by destruct (both_slots _ _ _ _ _ _ _ _ Hh Hg Hc).
Qed.

Lemma commit_Ok hash b commands markers image message image' :
  commit hash b commands markers image message = Ok image' →
  image' = image_after b ∧ hash (image_after b) ≠ hash image ∧ ∃ text s, run_boot (guest b) commands markers = Ok (text, s).
Proof.
  unfold commit, error_if. intros ([text s] & Hr & H)%bind_Ok_inv. rewrite guard_iff in H. destruct H as [Hh [= <-]].
  split_and!; [done| |eauto]. intros E. by rewrite E, beq_refl in Hh.
Qed.

(** The dialogue of a boot. *)
Definition answered (t : transcript) (commands : list (string * option string)) (markers : list string)
    (text : list Z) (boot : bytes) (outputs : list bytes) : Prop :=
  ∃ s, run_boot t commands markers = Ok (text, s) ∧
    received s = boot ++ mjoin outputs ∧ contains boot PROMPT = true ∧
    Forall2 (λ c output, contains output (marker_of c.2) = true) commands outputs ∧
    sent s = sent_log (len boot) commands outputs ∧
    text = decode_replace (received s) ∧ Forall (λ m, contains text (B m) = true) markers.

Lemma run_boot_answered t commands markers text s :
  run_boot t commands markers = Ok (text, s) → ∃ boot outputs, answered t commands markers text boot outputs.
Proof. intros H. destruct (run_boot_dialogue _ _ _ _ _ H) as (boot & outputs & ?). by exists boot, outputs, s. Qed.

(** A copy from which a boot recovered an older generation, and left it alone. *)
Definition recovered (hash : bytes → bytes) (b : boot) (image : bytes) (markers : list string) : Prop :=
  hash (image_after b) = hash image ∧
  ∃ text boot outputs, answered (guest b) recovery_commands markers text boot outputs ∧
    contains text (B "survived-generation-four") = false.

Lemma recover_Ok hash b image markers exposed rewrote :
  recover hash b image markers exposed rewrote = Ok tt → recovered hash b image markers.
Proof.
  unfold recover, error_if. intros ([text s] & Hr & H)%bind_Ok_inv. rewrite guard_iff, last_guard_iff in H.
  destruct H as [He Hh]. apply negb_false_iff, beq_spec in Hh. apply run_boot_answered in Hr as (boot & outputs & Ha).
  split; [done|]. eauto.
Qed.

(** The whole of an accepted session. *)
Definition history (hash : bytes → bytes) (first : Z) (image : bytes) (b1 b2 b3 b4 b5 b6 : boot)
    (headers : Header * Header) : Prop :=
  (hash (image_after b1) ≠ hash image ∧ hash (image_after b2) ≠ hash (image_after b1) ∧
   hash (image_after b3) ≠ hash (image_after b2) ∧ hash (image_after b4) ≠ hash (image_after b3)) ∧
  (∃ a1 a2 b2' a3 b3' r1 r2 r3,
     (slot_has (image_after b1) first 0 a1 1 8 ∧ parse_header (image_after b1) first 1 512 = Ok None) ∧
     (slot_has (image_after b2) first 0 a2 1 8 ∧ slot_has (image_after b2) first 1 b2' 2 8) ∧
     (slot_has (image_after b3) first 0 a3 3 8 ∧ slot_has (image_after b3) first 1 b3' 2 8) ∧
     timestamp_record (image_after b1) first a1 = Ok r1 ∧ timestamp_record (image_after b2) first b2' = Ok r2 ∧
     timestamp_record (image_after b3) first a3 = Ok r3 ∧ target_history r1 r2 r3) ∧
  (slot_has (image_after b4) first 0 headers.1 3 8 ∧ slot_has (image_after b4) first 1 headers.2 4 3) ∧
  (∃ header_copy payload_copy,
     corrupt_copies first (image_after b4) headers.2 = Ok (header_copy, payload_copy) ∧
     recovered hash b5 header_copy header_recovery_markers ∧
     recovered hash b6 payload_copy payload_recovery_markers) ∧
  (∃ text boot outputs, answered (guest b4) fourth_commands fourth_markers text boot outputs).

Lemma session_history hash first image b1 b2 b3 b4 b5 b6 headers :
  run_session hash first image b1 b2 b3 b4 b5 b6 = Ok headers → history hash first image b1 b2 b3 b4 b5 b6 headers.
Proof.
  unfold run_session. intros (i1 & (-> & Hh1 & _)%commit_Ok & Hrun)%bind_Ok_inv.
  apply bind_Ok_inv in Hrun as (r1 & (a1 & ? & ? & ? & ? & ? & ? & ? & ?)%check_first_Ok & Hrun).
  apply bind_Ok_inv in Hrun as (i2 & (-> & Hh2 & _)%commit_Ok & Hrun).
  apply bind_Ok_inv in Hrun as (r2 & (a2 & b2' & ? & ? & ? & Ho2 & ? & ? & ? & ?)%check_second_Ok & Hrun).
  apply bind_Ok_inv in Hrun as (i3 & (-> & Hh3 & _)%commit_Ok & Hrun).
  apply bind_Ok_inv in Hrun as (r3 & (a3 & b3' & ? & ? & ? & Ho3 & ? & ? & ? & ?)%check_third_Ok & Hrun).
  apply bind_Ok_inv in Hrun as (i4 & (-> & Hh4 & text & s & Ht)%commit_Ok & Hrun).
  apply bind_Ok_inv in Hrun as (hs & [? ?]%check_fourth_Ok & Hrun).
  apply bind_Ok_inv in Hrun as ([hc pc] & Hcopies & Hrun).
  apply bind_Ok_inv in Hrun as ([] & Hboot5%recover_Ok & Hrun). apply bind_Ok_inv in Hrun as ([] & Hboot6%recover_Ok & [= <-]).
  apply run_boot_answered in Ht as (boot & outputs & Ht).
  split; [done|]. split; [exists a1, a2, b2', a3, b3', r1, r2, r3; unfold target_history; split_and!; congruence|].
  split; [done|]. split; [by exists hc, pc|eauto].
Qed.

(** (C2) The journal of an accepted session alternates its slots.  Whatever the guests
    do, when the test passes, the image after boot [k + 1] (of the four that write) holds
    generation [k + 1] in slot [k mod 2], and the other slot still holds generation [k] -
    or nothing, after the first boot; no boot left the image as it was; and the record of
    the target file - read, after boots 1, 2 and 3, through the header that the image then
    holds in slot A, B and A - went through the three generations as [fsync] and
    [fdatasync] promise: the owner, the creation and the access time never change, [fsync]
    changes both other times, [fdatasync] the modification time only. *)
Theorem generations_alternate hash first image b1 b2 b3 b4 b5 b6 headers :
  run_session hash first image b1 b2 b3 b4 b5 b6 = Ok headers →
  (∀ k b, [b1; b2; b3; b4] !! k = Some b →
     (∃ h n, slot_has (image_after b) first (Z.of_nat k mod 2) h (Z.of_nat k + 1) n) ∧
     (match k with
      | O => parse_header (image_after b) first 1 512 = Ok None
      | S _ => ∃ h n, slot_has (image_after b) first ((Z.of_nat k + 1) mod 2) h (Z.of_nat k) n
      end) ∧
     ∃ before, (image :: (image_after <$> [b1; b2; b3])) !! k = Some before ∧ image_after b ≠ before) ∧
  ∃ h1 h2 h3 n1 n2 n3 r1 r2 r3,
    slot_has (image_after b1) first 0 h1 1 n1 ∧ timestamp_record (image_after b1) first h1 = Ok r1 ∧
    slot_has (image_after b2) first 1 h2 2 n2 ∧ timestamp_record (image_after b2) first h2 = Ok r2 ∧
    slot_has (image_after b3) first 0 h3 3 n3 ∧ timestamp_record (image_after b3) first h3 = Ok r3 ∧
    target_history r1 r2 r3.
Proof.
  intros ((Hh1 & Hh2 & Hh3 & Hh4) & (a1 & a2 & b2' & a3 & b3' & r1 & r2 & r3 & [S1 N1] & [S2 T2] & [S3 T3] & R1 & R2 & R3 & Ht) & [S4 T4] & _)%session_history.
  split.
  - assert (∀ i j, hash i ≠ hash j → i ≠ j) as Hne by (intros i j H E; by rewrite E in H).
    intros [|[|[|[|[]]]]] b [= <-]; (split; [eauto|]); (split; [eauto|]); eexists; (split; [done|]); by apply Hne.
  - by exists a1, b2', a3, 8, 8, 8, r1, r2, r3.
Qed.

(** ** What it shows of the data *)

(** A boot whose first command, sent once the prompt had been received, read the
    message of the first boot back: it is in that command's own output. *)
Definition reads_message (t : transcript) (commands : list (string * option string)) (markers : list string)
    (forbidden : bytes → Prop) : Prop :=
  ∃ text s boot output rest entries,
    run_boot t commands markers = Ok (text, s) ∧ received s = boot ++ output ++ rest ∧ contains boot PROMPT = true ∧
    sent s = (len boot, B "cat /persist/config/message.txt" ++ [13]) :: entries ∧
    contains output (B "survived-generation-one") = true ∧ ¬ forbidden (received s).

Lemma first_output t commands markers text boot outputs (P : bytes → Prop) :
  answered t (("cat /persist/config/message.txt", Some "survived-generation-one") :: commands) markers text boot outputs →
  (∀ l, text = decode_replace l → ¬ P l) →
  reads_message t (("cat /persist/config/message.txt", Some "survived-generation-one") :: commands) markers P.
Proof.
  intros (s & Hrun & Hr & Hb & Hf & Hs & Ht & _) HP. apply Forall2_cons_inv_l in Hf as (output & rest & Hc & _ & ->).
  exists text, s, boot, output, (mjoin rest), (sent_log (len boot + len output) commands rest). split_and!; try done. by apply HP.
Qed.

(** An ASCII marker that occurs in the output occurs in its text. *)
Lemma decode_prefix l m : Forall (λ b, b < 128) m → starts_with l m = true → starts_with (decode_replace l) m = true.
Proof.
  intros Hm. revert l. induction Hm as [|b m Hb Hm IH]; intros [|a l]; try done. cbn [starts_with decode_replace fmap list_fmap].
  rewrite !andb_true_iff, !Z.eqb_eq. intros [-> H]. rewrite (proj2 (Z.ltb_lt _ _) Hb). split; [done|]. by apply IH.
Qed.

Lemma decode_contains l m : Forall (λ b, b < 128) m → contains l m = true → contains (decode_replace l) m = true.
Proof.
  intros Hm. induction l as [|a l IH]; [by destruct m|]. cbn [contains]. rewrite !orb_true_iff.
  unfold decode_replace in *. cbn [fmap list_fmap contains]. intros [H|H]; apply orb_true_iff; [left|right; auto].
  by apply (decode_prefix (a :: l)).
Qed.

(** The corrupted copies. *)
Lemma corrupt_copies_bytes first image h hc pc :
  0 ≤ first → corrupt_copies first image h = Ok (hc, pc) →
  ∃ x y, image !! Z.to_nat ((first + 1) * 512 + 40) = Some x ∧ hc = put image ((first + 1) * 512 + 40) [Z.lxor x 0xA5] ∧
    image !! Z.to_nat ((first + 130) * 512 + 4) = Some y ∧ pc = put image ((first + 130) * 512 + 4) [Z.lxor y 0xA5].
Proof.
  intros Hf. unfold corrupt_copies, error_if. rewrite guard_iff, orb_false_iff, !negb_false_iff, !Z.eqb_eq.
  intros ([Hs Hg] & H). rewrite Hs in H. apply bind_Ok_inv in H as ([hi hh] & Hh & H).
  apply bind_Ok_inv in H as ([pi ph] & Hp & H).
  apply corrupt_Ok in Hh as (_ & _ & x & ? & Hx & -> & _ & _ & ->); [|lia].
  rewrite payload_offset in Hp. apply corrupt_Ok in Hp as (_ & _ & y & ? & Hy & -> & _ & _ & ->); [|lia].
  apply bind_Ok_inv in H as (hf & _ & H). apply bind_Ok_inv in H as (pf & _ & H).
  rewrite guard_iff in H. destruct H as [_ H]. apply bind_Ok_inv in H as ([] & _ & H).
  apply bind_Ok_inv in H as ([pn|] & _ & H); [|done]. rewrite guard_iff in H. destruct H as [_ H].
  apply bind_Ok_inv in H as ([] & _ & [= <- <-]). exists x, y. replace (first + 2 + 1 * 128) with (first + 130) in Hy |- * by lia. done.
Qed.

Definition generation_four (l : bytes) : Prop := contains l (B "survived-generation-four") = true.

Lemma recovered_reads hash b image markers :
  recovered hash b image markers → reads_message (guest b) recovery_commands markers generation_four.
Proof.
  intros (_ & text & boot & outputs & Ha & Hn). eapply first_output; [exact Ha|]. intros l -> H.
  rewrite decode_contains in Hn; [done|by repeat constructor|done].
Qed.

(** (C3) The data of an accepted session survives.  When the test passes, the message
    written in the first boot was read back - in the output of the [cat] that was the
    first command after the prompt - in the fourth boot and in both recovery boots; the
    recovery boots started from copies of the fourth boot's image with one byte changed,
    of slot B's header and of its payload, left those copies with the hash they had, and
    no output of theirs shows the data of generation 4. *)
Theorem data_survives hash first image b1 b2 b3 b4 b5 b6 headers :
  0 ≤ first → run_session hash first image b1 b2 b3 b4 b5 b6 = Ok headers →
  reads_message (guest b4) fourth_commands fourth_markers (λ _, False) ∧
  reads_message (guest b5) recovery_commands header_recovery_markers generation_four ∧
  reads_message (guest b6) recovery_commands payload_recovery_markers generation_four ∧
  ∃ x y,
    hash (image_after b5) = hash (put (image_after b4) ((first + 1) * 512 + 40) [Z.lxor x 0xA5]) ∧
    image_after b4 !! Z.to_nat ((first + 1) * 512 + 40) = Some x ∧
    hash (image_after b6) = hash (put (image_after b4) ((first + 130) * 512 + 4) [Z.lxor y 0xA5]) ∧
    image_after b4 !! Z.to_nat ((first + 130) * 512 + 4) = Some y.
Proof.
  intros Hf (_ & _ & _ & (hc & pc & Hcopies & H5 & H6) & (text & boot & outputs & H4))%session_history.
  split; [eapply first_output; [exact H4|by intros ? _ []]|]. split; [by eapply recovered_reads|].
  split; [by eapply recovered_reads|]. apply corrupt_copies_bytes in Hcopies as (x & y & Hx & -> & Hy & ->); [|done].
  exists x, y. destruct H5 as [-> _], H6 as [-> _]. done.
Qed.

(** ** The corruption phase on a healthy image *)

Lemma lxor_mask a : byte_ok a → byte_ok (Z.lxor a 0xA5) ∧ a ≠ Z.lxor a 0xA5.
Proof.
  intros H. split.
  - assert (0 ≤ Z.lxor a 0xA5 < 2 ^ 8) as Hb by (apply lxor_bound; unfold byte_ok in H; lia). unfold byte_ok. lia.
  - intros E. apply (f_equal (Z.lxor a)) in E. by rewrite <-Z.lxor_assoc, Z.lxor_nilpotent, Z.lxor_0_l in E.
Qed.

(** Passes the first guard of a computation in the goal. *)
Ltac skip_guard solve :=
  match goal with
  | |- context [mbind _ (raise_if ?b ?e)] => rewrite (raise_if_false b e) by solve; rewrite bind_ok
  end.

(** The hash check is the only one of [corrupt_block_byte] that can fail. *)
Definition hash_collision : exn := RuntimeError "corruption mutation did not change the target block hash".

Lemma corrupt_eq image lba o before :
  bytes_ok before → 0 ≤ lba → 0 ≤ o < 512 → lba * 512 + 512 ≤ len image →
  slice image (lba * 512) (lba * 512 + 512) = before →
  ∃ a, before !! Z.to_nat o = Some a ∧
  corrupt_block_byte image lba o 0xA5 512 =
    (let after := put before o [Z.lxor a 0xA5] in
     if beq (sha256 before) (sha256 after) then Err hash_collision
     else Ok (put image (lba * 512) after, (sha256 before, sha256 after))).
Proof.
  intros Hbok Hlba Ho Hl Hs. unfold corrupt_block_byte, error_if. skip_guard lia. rewrite read_block, bind_ok, Hs by lia.
  assert (len before = 512) as Hb by (rewrite <-Hs, len_slice; lia). skip_guard lia.
  destruct (get_item_in_range before o) as (a & -> & Ha); [lia|]. rewrite bind_ok. exists a. split; [done|].
  assert (byte_ok a) as Hak by (by eapply Forall_lookup_1).
  destruct (lxor_mask a Hak) as [Hx Hne]. rewrite set_item_Ok, bind_ok by (unfold byte_ok in Hx; lia).
  destruct (lookup_split before o a) as (pre & post & E & Ep); [lia|done|]. rewrite E, <-Ep, put_one.
  unfold differences. rewrite differences_one, Z.add_0_l by done. skip_guard ltac:(by rewrite beq_refl). cbv zeta.
  by destruct (beq (sha256 _) (sha256 _)).
Qed.

Lemma corrupt_verdict image lba o :
  bytes_ok image → 0 ≤ lba → 0 ≤ o < 512 → lba * 512 + 512 ≤ len image →
  (∃ image' hashes, corrupt_block_byte image lba o 0xA5 512 = Ok (image', hashes)) ∨
  corrupt_block_byte image lba o 0xA5 512 = Err hash_collision.
Proof.
  intros Hok Hlba Ho Hl.
  destruct (corrupt_eq image lba o (slice image (lba * 512) (lba * 512 + 512))) as (a & _ & ->); [by apply bytes_ok_slice|done..|].
  cbv zeta. destruct (beq _ _); eauto.
Qed.

(** A payload with a record reaches past its count. *)
Lemma payload_longer image first h records :
  bytes_ok image → 0 ≤ first → 0 ≤ slot h → 0 ≤ payload_length h ≤ PERSIST_MAX_PAYLOAD_BYTES →
  parse_records image first h 512 = Ok records → 0 < record_count h → 52 ≤ payload_length h.
Proof.
  intros Hok Hf Hs Hl (es & _ & _ & _ & <- & _ & <- & _)%parse_records_entries Hc; [|done..].
  destruct es as [|e es]; [unfold len in Hc; cbn in Hc; lia|]. unfold encode_payload. rewrite len_app, len_le_bytes by lia.
  rewrite fmap_cons. cbn [concat]. rewrite len_app, len_encode_entry.
  pose proof (len_nonneg (B (path_of e))). pose proof (len_nonneg e.2). pose proof (len_nonneg (concat (encode_entry <$> es))). lia.
Qed.

Definition payload_crc_error : exn := RuntimeError "slot {header.slot}: persistence payload CRC mismatch".

(** Changing a byte of slot B's payload leaves the headers as they are. *)
Lemma headers_kept image first o pi ph s :
  0 ≤ first → s = 0 ∨ s = 1 → corrupt_block_byte image (slot_payload_lba first 1 512) o 0xA5 512 = Ok (pi, ph) →
  parse_header pi first s 512 = parse_header image first s 512.
Proof.
  intros Hf Hs H. rewrite payload_offset in H. apply corrupt_Ok in H as (? & ? & x & y & _ & _ & _ & _ & ->); [|lia].
  apply parse_header_frame; [lia..|]. cbv zeta. apply slice_changed; lia.
Qed.

(** The phase passes once the payload of its second copy is rejected. *)
Lemma copies_accepted image first a b hi hh pi ph :
  bytes_ok image → 0 ≤ first →
  parse_header image first 0 512 = Ok (Some a) → generation a = 3 →
  parse_header image first 1 512 = Ok (Some b) → generation b = 4 →
  corrupt_block_byte image (first + 1) 40 0xA5 512 = Ok (hi, hh) →
  corrupt_block_byte image (slot_payload_lba first 1 512) 4 0xA5 512 = Ok (pi, ph) →
  parse_records pi first b 512 = Err payload_crc_error →
  corrupt_copies first image b = Ok (hi, pi).
Proof.
  intros Hok Hf Ha Hga Hb Hgb Eh Ep Er.
  pose proof Hb as [_ [(_&_&_&_&_&_&_&_&_&_&Hsl) _]]%parse_header_iff; [|done|lia..].
  unfold corrupt_copies, error_if. rewrite Hsl, Hgb. skip_guard ltac:(done).
  rewrite Eh, bind_ok, Ep, bind_ok.
  destruct (header_corruption_reads image first 1 b 40 0xA5 hi hh) as ((m & Em & Hm) & Eo & _); try done; try lia.
  change (1 - 1) with 0 in Eo. rewrite Eo, !(headers_kept image first 4 pi ph) by auto. rewrite Ha, !bind_ok, Hga.
  skip_guard ltac:(done). rewrite Em, Hm by lia. cbn [expect_error].
  replace (contains _ _) with true by (vm_compute; reflexivity). rewrite !bind_ok, Hb, bind_ok, Hgb.
  skip_guard ltac:(done). rewrite Er. cbn [expect_error payload_crc_error].
  replace (contains _ _) with true by (vm_compute; reflexivity). by rewrite bind_ok.
Qed.

(** The corruption phase never fails on a healthy image.  When slot A holds
    generation 3 and slot B generation 4 with at least one record and a payload that
    reads, all of the phase's checks succeed: it returns the two copies with one byte
    changed each, or stops because SHA-256 has the same value for the two versions of
    the changed block.  The errors that blame the corruption for not being detected, or
    for damaging the other slot, are unreachable. *)
Theorem corruption_phase_succeeds image first a b records :
  bytes_ok image → 0 ≤ first → (first + 130) * 512 + 512 ≤ len image →
  parse_header image first 0 512 = Ok (Some a) → generation a = 3 →
  parse_header image first 1 512 = Ok (Some b) → generation b = 4 → 0 < record_count b →
  parse_records image first b 512 = Ok records →
  (∃ copies, corrupt_copies first image b = Ok copies) ∨ corrupt_copies first image b = Err hash_collision.
Proof.
  intros Hok Hf Hl Ha Hga Hb Hgb Hc Hr.
  pose proof Hb as [_ [(_&_&_&_&_&Hpl&_&_&_&_&Hsl) _]]%parse_header_iff; [|done|lia..].
  assert (0 ≤ payload_length b) as Hp0 by lia.
  pose proof (payload_longer image first b records Hok Hf ltac:(lia) ltac:(lia) Hr Hc) as Hlong.
  assert (corrupt_copies first image b = Err hash_collision ∨ ∃ hi hh pi ph,
    corrupt_block_byte image (first + 1) 40 0xA5 512 = Ok (hi, hh) ∧
    corrupt_block_byte image (slot_payload_lba first 1 512) 4 0xA5 512 = Ok (pi, ph)) as [E|(hi & hh & pi & ph & Eh & Ep)];
    [|by right|].
  - unfold corrupt_copies, error_if. rewrite Hsl, Hgb. skip_guard ltac:(done).
    destruct (corrupt_verdict image (first + 1) 40) as [(hi & hh & Eh)| ->]; [done|lia..| |by left]. rewrite Eh, bind_ok.
    destruct (corrupt_verdict image (slot_payload_lba first 1 512) 4) as [(pi & ph & Ep)| ->];
      [done|try rewrite payload_offset; lia..| |by left]. right. by exists hi, hh, pi, ph.
  - left. eexists. eapply copies_accepted; try done.
    destruct (payload_corruption_reads image first 1 b records 4 0xA5 pi ph) as (Er & _); try done; lia || by right.
Qed.

(** ** An example: the images of a kernel that commits as the test expects *)

Definition slot_block (h : option Header) : bytes :=
  match h with None => zeros 512 | Some h => encode_header h ++ zeros 464 end.

(** The sectors of the journal: both headers, the payload of slot A, and the first
    sector of the payload of slot B. *)
Definition disk (a : option Header) (pa : bytes) (b : option Header) (pb : bytes) : bytes :=
  slot_block a ++ slot_block b ++ pa ++ zeros (65536 - len pa) ++ pb ++ zeros (512 - len pb).

Definition header_of (s g : Z) (es : list entry) : Header :=
  mk_Header s g (len (encode_payload es)) (crc32 (encode_payload es)) (len es).

Lemma len_slot_block h : len (slot_block h) = 512.
Proof. destruct h; cbn [slot_block]; [|by rewrite len_zeros]. unfold encode_header. by rewrite len_app, len_header_with, len_zeros. Qed.

(** The slice that is left is the whole part. *)
Ltac whole_part :=
  match goal with |- slice _ ?x _ = _ => replace x with 0 by lia end; apply slice_full; lia.

Section Disk.
Context (a b : option Header) (pa pb : bytes) (Ha : len pa ≤ 65536) (Hb : len pb ≤ 512).

Lemma len_disk : len (disk a pa b pb) = 67072.
Proof using Type*.
  unfold disk. rewrite !len_app, !len_slot_block, !len_zeros by lia. lia.
Qed.

Lemma disk_slot_a : slice (disk a pa b pb) 0 512 = slot_block a.
Proof using Type*. unfold disk. pose proof (len_slot_block a). by rewrite slice_app_l, slice_full by lia. Qed.

Lemma disk_slot_b : slice (disk a pa b pb) 512 1024 = slot_block b.
Proof using Type*.
  unfold disk. pose proof (len_slot_block a). pose proof (len_slot_block b).
  rewrite slice_app_r, slice_app_l by lia. whole_part.
Qed.

Lemma disk_payload_a : slice (disk a pa b pb) 1024 (1024 + len pa) = pa.
Proof using Type*.
  unfold disk. pose proof (len_slot_block a). pose proof (len_slot_block b). pose proof (len_nonneg pa).
  rewrite slice_app_r, slice_app_r, slice_app_l by lia. whole_part.
Qed.

Lemma disk_payload_b : slice (disk a pa b pb) 66560 (66560 + len pb) = pb.
Proof using Type*.
  unfold disk. pose proof (len_slot_block a). pose proof (len_slot_block b). pose proof (len_nonneg pa). pose proof (len_nonneg pb).
  pose proof (len_zeros (65536 - len pa)).
  rewrite slice_app_r, slice_app_r, slice_app_r, slice_app_r, slice_app_l by lia. whole_part.
Qed.

Lemma disk_sector_b : slice (disk a pa b pb) 66560 67072 = pb ++ zeros (512 - len pb).
Proof using Type*.
  unfold disk. pose proof (len_slot_block a). pose proof (len_slot_block b). pose proof (len_nonneg pa). pose proof (len_nonneg pb).
  pose proof (len_zeros (65536 - len pa)). pose proof (len_zeros (512 - len pb)).
  rewrite slice_app_r, slice_app_r, slice_app_r, slice_app_r by lia.
  match goal with |- slice _ ?x _ = _ => replace x with 0 by lia end. apply slice_full. rewrite len_app. lia.
Qed.
End Disk.

(** A generation's entries, with a payload of one sector at most. *)
Definition fits (es : list entry) : Prop :=
  Forall entry_ok es ∧ NoDup (path_of <$> es) ∧ len (encode_payload es) ≤ 512.

Lemma bytes_ok_payload es : Forall entry_ok es → bytes_ok (encode_payload es).
Proof.
  intros He. unfold encode_payload. apply bytes_ok_app. split; [by apply bytes_ok_le_bytes|].
  induction He as [|[r data] es [Hr [Hd _]] _ IH]; [constructor|]. cbn [fmap list_fmap concat].
  apply bytes_ok_app. split; [|done]. destruct Hr as (? & _ & _ & _ & _ & _ & _ & _ & ? & _). pose proof (len_nonneg (B (path r))).
  unfold encode_entry, ticks. rewrite !bytes_ok_app. cbn [fst snd] in *.
  split_and!; try (by apply bytes_ok_le_bytes); try done; try apply bytes_ok_B.
  apply Forall_cons. split; [done|]. apply Forall_singleton. unfold byte_ok. lia.
Qed.

Lemma payload_min es : 4 ≤ len (encode_payload es) ∧ len es ≤ len (encode_payload es).
Proof.
  unfold encode_payload. rewrite len_app, len_le_bytes by lia.
  assert (len es ≤ len (concat (encode_entry <$> es))); [|pose proof (len_nonneg (concat (encode_entry <$> es))); lia].
  induction es as [|e es IH]; [done|]. cbn [fmap list_fmap concat]. rewrite len_app, len_cons, len_encode_entry.
  pose proof (len_nonneg (B (path_of e))). pose proof (len_nonneg e.2). lia.
Qed.

Lemma header_of_ok s g es : 0 ≤ s < 2 → 0 ≤ g < 2 ^ 64 → fits es → header_ok (header_of s g es).
Proof.
  intros Hs Hg (He & _ & Hl). destruct (payload_min es) as [? ?]. pose proof (len_nonneg es).
  pose proof (crc32_word32 _ (bytes_ok_payload es He)) as Hc. unfold word32 in Hc.
  unfold header_ok, header_of. cbn [generation payload_length payload_crc32 slot record_count].
  unfold PERSIST_MAX_PAYLOAD_BYTES. lia.
Qed.

Lemma bytes_ok_slot h : header_ok h → bytes_ok (slot_block (Some h)).
Proof.
  intros _. cbn [slot_block]. apply bytes_ok_app. split; [|apply bytes_ok_zeros].
  unfold encode_header, header_with. rewrite !bytes_ok_app.
  split_and!; try (by apply bytes_ok_le_bytes). apply bytes_ok_B.
Qed.

(** What the slots of a disk read as, when the other slot holds anything. *)
Lemma disk_reads_a g es b pb :
  0 ≤ g < 2 ^ 64 → fits es → len pb ≤ 512 → let h := header_of 0 g es in
  let image := disk (Some h) (encode_payload es) b pb in bytes_ok image →
  parse_header image 0 0 512 = Ok (Some h) ∧ parse_records image 0 h 512 = Ok (record_map es).
Proof.
  intros Hg Hf Hp h image Hok. pose proof (header_of_ok 0 g es ltac:(lia) Hg Hf) as Hh. destruct Hf as (He & Hd & Hl).
  assert (len (encode_payload es) ≤ 65536) as Hl' by lia. apply (slot_holds_reads image 0 h es); [done|done|].
  split; [done|]. split; [done|]. split; [done|]. split; [done|]. split; [done|]. split; [done|]. split.
  - change (slot h) with 0. unfold image. rewrite len_disk by done. split; [lia|].
    change ((0 + 0) * 512) with 0. pose proof (disk_slot_a (Some h) b (encode_payload es) pb Hl' Hp) as E.
    rewrite <-(slice_slice_prefix _ 0 512 48), E by lia. unfold slot_block, encode_header.
    rewrite slice_app_l; rewrite ?len_header_with; try lia. apply slice_full. by rewrite len_header_with.
  - unfold payload_bytes. change ((0 + 2 + slot h * 128) * 512) with 1024. by apply disk_payload_a.
Qed.

Lemma disk_reads_b g es a pa :
  0 ≤ g < 2 ^ 64 → fits es → len pa ≤ 65536 → let h := header_of 1 g es in
  let image := disk a pa (Some h) (encode_payload es) in bytes_ok image →
  parse_header image 0 1 512 = Ok (Some h) ∧ parse_records image 0 h 512 = Ok (record_map es).
Proof.
  intros Hg Hf Hp h image Hok. pose proof (header_of_ok 1 g es ltac:(lia) Hg Hf) as Hh. destruct Hf as (He & Hd & Hl).
  apply (slot_holds_reads image 0 h es); [done|done|].
  split; [done|]. split; [done|]. split; [done|]. split; [done|]. split; [done|]. split; [done|]. split.
  - change (slot h) with 1. unfold image. rewrite len_disk by done. split; [lia|].
    change ((0 + 1) * 512) with 512. pose proof (disk_slot_b a (Some h) pa (encode_payload es) Hp Hl) as E.
    rewrite <-(slice_slice_prefix _ 512 1024 48), E by lia. unfold slot_block, encode_header.
    rewrite slice_app_l; rewrite ?len_header_with; try lia. apply slice_full. by rewrite len_header_with.
  - unfold payload_bytes. change ((0 + 2 + slot h * 128) * 512) with 66560. by apply disk_payload_b.
Qed.

Lemma bytes_ok_disk a pa b pb :
  match a with None => True | Some a => header_ok a end → match b with None => True | Some b => header_ok b end →
  bytes_ok pa → bytes_ok pb → bytes_ok (disk a pa b pb).
Proof.
  assert (∀ h, match h with None => True | Some h => header_ok h end → bytes_ok (slot_block h)) as Hs.
  { intros [h|] ?; [by apply bytes_ok_slot|apply bytes_ok_zeros]. }
  intros ? ? ? ?. unfold disk. rewrite !bytes_ok_app. split_and!; try done; try apply bytes_ok_zeros; by apply Hs.
Qed.

Lemma disk_empty_b a pa : len pa ≤ 65536 → parse_header (disk a pa None []) 0 1 512 = Ok None.
Proof.
  intros Hp. unfold parse_header. rewrite read_block, bind_ok by lia. change ((0 + 1) * 512) with 512.
  change (512 + 512) with 1024. rewrite disk_slot_b by done. reflexivity.
Qed.

(** *** The four images *)

Definition target (created modified changed accessed : Z) : entry :=
  (mk_Record 2 TIMESTAMP_TARGET 420 created modified changed accessed 0 0, B "data").
Definition dirs (names : list string) : list entry := (λ n, (mk_Record 1 n 493 1 1 1 1 0 0, [])) <$> names.
Definition seven : list entry := dirs ["a"; "b"; "c"; "d"; "e"; "f"; "g"].

Definition gen1 : list entry := target 1 2 3 4 :: seven.
Definition gen2 : list entry := target 1 5 6 4 :: seven.
Definition gen3 : list entry := target 1 7 6 4 :: seven.
Definition gen4 : list entry := dirs ["config"; "config/message.txt"; "persist-sdk.elf"].

Lemma target_ok c m ch a : 0 ≤ c < 100 → 0 ≤ m < 100 → 0 ≤ ch < 100 → 0 ≤ a < 100 → entry_ok (target c m ch a).
Proof.
  intros. split; [|split; [by apply bytes_okb_spec|done]]. unfold record_ok. cbn [fst target].
  split_and!; try (cbn; lia); done.
Qed.

Definition names_ok (names : list string) : bool :=
  forallb (λ n, (len (B n) <? 256) && is_ok (decode_ascii (B n))) names.

Lemma dirs_ok names : names_ok names = true → Forall entry_ok (dirs names).
Proof.
  induction names as [|n names IH]; [constructor|]. unfold names_ok. cbn [forallb].
  rewrite !andb_true_iff, Z.ltb_lt. intros [[Hl Ha] H]. constructor; [|by apply IH].
  split; [|split; [constructor|done]]. unfold record_ok. cbn [fst]. split_and!; done.
Qed.

Lemma gens_fit : fits gen1 ∧ fits gen2 ∧ fits gen3 ∧ fits gen4.
Proof.
  assert (NoDup (path_of <$> gen1) ∧ NoDup (path_of <$> gen4)) as [H1 H4].
  { split; apply (bool_decide_unpack _); vm_compute; exact I. }
  assert (Forall entry_ok seven) as H7 by by apply dirs_ok.
  split_and!; split.
  all: try (constructor; [apply target_ok; lia|done]); try by apply dirs_ok.
  all: split; [done|vm_compute; discriminate].
Qed.

Definition disk1 : bytes := disk (Some (header_of 0 1 gen1)) (encode_payload gen1) None [].
Definition disk2 : bytes := disk (Some (header_of 0 1 gen1)) (encode_payload gen1) (Some (header_of 1 2 gen2)) (encode_payload gen2).
Definition disk3 : bytes := disk (Some (header_of 0 3 gen3)) (encode_payload gen3) (Some (header_of 1 2 gen2)) (encode_payload gen2).
(** [pb] is what the kernel wrote as the payload of generation 4. *)
Definition disk4 (pb : bytes) : bytes := disk (Some (header_of 0 3 gen3)) (encode_payload gen3) (Some (header_of 1 4 gen4)) pb.

(** What was written as the payload of generation 4: the payload itself, or zeros. *)
Definition headerB : Header := header_of 1 4 gen4.
Definition garbage : bytes := zeros (payload_length headerB).

(** The hashes of a block before and after the change of byte [o]. *)
Definition change_seen (before : bytes) (o : Z) : bool :=
  match before !! Z.to_nat o with
  | Some a => negb (beq (sha256 before) (sha256 (put before o [Z.lxor a 0xA5])))
  | None => false
  end.

Definition payload_sector (pb : bytes) : bytes := pb ++ zeros (512 - len pb).

Lemma changes_seen :
  change_seen (slot_block (Some headerB)) 40 && change_seen (payload_sector (encode_payload gen4)) 4 &&
  change_seen (payload_sector garbage) 4 = true.
Proof. vm_compute. reflexivity. Qed.

Lemma corrupt_seen image lba o before :
  bytes_ok before → 0 ≤ lba → 0 ≤ o < 512 → lba * 512 + 512 ≤ len image →
  slice image (lba * 512) (lba * 512 + 512) = before → change_seen before o = true →
  ∃ a hashes, before !! Z.to_nat o = Some a ∧
  corrupt_block_byte image lba o 0xA5 512 = Ok (put image (lba * 512) (put before o [Z.lxor a 0xA5]), hashes).
Proof.
  intros ? ? ? ? Hs Hc. destruct (corrupt_eq image lba o before) as (a & Ha & ->); [done..|].
  unfold change_seen in Hc. rewrite Ha in Hc. apply negb_true_iff in Hc. cbv zeta. rewrite Hc. eauto.
Qed.

(** *** The guests *)

Definition answers (commands : list (string * option string)) (markers : list string) : transcript :=
  Transcript true [Turn [B "boot" ++ PROMPT] None]
    ((λ c, Reply [Turn [marker_of c.2 ++ [13; 10]] None] [mjoin (B <$> markers)]) <$> commands).

Definition boot1 : boot := Boot (answers first_commands first_markers) disk1.
Definition boot2 : boot := Boot (answers second_commands second_markers) disk2.
Definition boot3 : boot := Boot (answers third_commands third_markers) disk3.
Definition boot4 : boot := Boot (answers fourth_commands fourth_markers) (disk4 garbage).
Definition boot5 (image : bytes) : boot := Boot (answers recovery_commands header_recovery_markers) image.
Definition boot6 (image : bytes) : boot := Boot (answers recovery_commands payload_recovery_markers) image.

Lemma guests_answer :
  forallb (λ x, is_ok (run_boot (guest x.1) x.2.1 x.2.2))
    [(boot1, (first_commands, first_markers)); (boot2, (second_commands, second_markers));
     (boot3, (third_commands, third_markers)); (boot4, (fourth_commands, fourth_markers))] &&
  forallb (λ m, match run_boot (answers recovery_commands m) recovery_commands m with
                | Ok (text, _) => negb (contains text (B "survived-generation-four")) | Err _ => false end)
    [header_recovery_markers; payload_recovery_markers] = true.
Proof. vm_compute. reflexivity. Qed.

(** *** The session passes *)

Lemma gen3_fits : fits gen3. Proof. apply gens_fit. Qed.
Lemma gen4_fits : fits gen4. Proof. apply gens_fit. Qed.

Lemma fits_short es : fits es → len (encode_payload es) ≤ 512 ∧ len (encode_payload es) ≤ 65536.
Proof. intros (_ & _ & ?). lia. Qed.

Section Disk4.
Context (pb : bytes) (Hp : len pb ≤ 512) (Hok : bytes_ok pb).

Lemma disk4_ok : bytes_ok (disk4 pb).
Proof using Type*.
  destruct gens_fit as (_ & _ & H3 & H4). apply bytes_ok_disk; [by apply header_of_ok..| |done]. apply bytes_ok_payload, H3.
Qed.

Lemma disk4_reads :
  parse_header (disk4 pb) 0 0 512 = Ok (Some (header_of 0 3 gen3)) ∧ parse_header (disk4 pb) 0 1 512 = Ok (Some headerB).
Proof using Type*.
  pose proof disk4_ok as Hd. destruct gen3_fits as (_ & _ & Hl). split.
  - apply (disk_reads_a 3 gen3 (Some headerB) pb); [lia|apply gen3_fits|done|exact Hd].
  - apply parse_header_iff; [done|lia..|]. change ((0 + 1) * 512) with 512. unfold disk4. rewrite len_disk by lia.
    split; [lia|]. rewrite disk_slot_b by lia. apply encoded_header_block, header_of_ok; [lia..|apply gen4_fits].
Qed.

Lemma disk4_header_corrupts : ∃ hi hh, corrupt_block_byte (disk4 pb) (0 + 1) 40 0xA5 512 = Ok (hi, hh).
Proof using Type*.
  destruct gen3_fits as (_ & _ & Hl). destruct (andb_prop _ _ changes_seen) as [[Hb _]%andb_prop _].
  destruct (corrupt_seen (disk4 pb) (0 + 1) 40 (slot_block (Some headerB))) as (a & hh & _ & E); [| | | | | |eauto]; try lia.
  - apply bytes_ok_slot, header_of_ok; [lia..|apply gen4_fits].
  - unfold disk4. rewrite len_disk by lia. lia.
  - apply disk_slot_b; lia.
  - exact Hb.
Qed.

Lemma disk4_payload_corrupts : change_seen (payload_sector pb) 4 = true → len pb = payload_length headerB →
  ∃ a pi ph, (payload_sector pb) !! Z.to_nat 4 = Some a ∧
    corrupt_block_byte (disk4 pb) (slot_payload_lba 0 1 512) 4 0xA5 512 = Ok (pi, ph) ∧
    parse_records pi 0 headerB 512 = parse_payload (slice (put (payload_sector pb) 4 [Z.lxor a 0xA5]) 0 (len pb)) headerB.
Proof using Type*.
  intros Hc Hlen. destruct gen3_fits as (_ & _ & Hl). pose proof (len_nonneg pb).
  assert (len (disk4 pb) = 67072) as Hd by (unfold disk4; apply len_disk; lia).
  assert (len (payload_sector pb) = 512) as Hs by (unfold payload_sector; rewrite len_app, len_zeros; lia).
  destruct (corrupt_seen (disk4 pb) (slot_payload_lba 0 1 512) 4 (payload_sector pb)) as (a & ph & Ha & E);
    [| | | | |exact Hc|]; rewrite ?payload_offset in *; try lia.
  - unfold payload_sector. apply bytes_ok_app. split; [done|apply bytes_ok_zeros].
  - apply disk_sector_b; lia.
  - eexists a, _, ph. split; [done|]. split; [exact E|].
    rewrite parse_records_eq; [|change (slot headerB) with 1; lia|lia]. cbv zeta.
    change ((0 + 2 + slot headerB * 128) * 512) with 66560. change ((0 + 2 + 1 * 128) * 512) with 66560.
    rewrite <-Hlen. f_equal. rewrite slice_put_in; rewrite ?len_put; rewrite ?len_cons, ?len_nil; try lia.
    f_equal; lia.
Qed.

Lemma disk4_payload : len pb = payload_length headerB → parse_records (disk4 pb) 0 headerB 512 = parse_payload pb headerB.
Proof using Type*.
  intros Hlen. destruct (fits_short _ gen3_fits) as [_ M3]. pose proof (len_nonneg pb).
  rewrite parse_records_eq; [|change (slot headerB) with 1; lia|lia]. cbv zeta.
  change ((0 + 2 + slot headerB * 128) * 512) with 66560. rewrite <-Hlen. unfold disk4.
  by rewrite (disk_payload_b _ _ _ pb M3 Hp).
Qed.
End Disk4.

Lemma disk_ok_1 : bytes_ok disk1.
Proof.
  destruct gens_fit as (H1 & _). apply bytes_ok_disk; [by apply header_of_ok|done| |constructor]. apply bytes_ok_payload, H1.
Qed.
Lemma disk_ok_2 : bytes_ok disk2.
Proof.
  destruct gens_fit as (H1 & H2 & _). apply bytes_ok_disk; [by apply header_of_ok|by apply header_of_ok|..]; apply bytes_ok_payload; [apply H1|apply H2].
Qed.
Lemma disk_ok_3 : bytes_ok disk3.
Proof.
  destruct gens_fit as (_ & H2 & H3 & _). apply bytes_ok_disk; [by apply header_of_ok|by apply header_of_ok|..]; apply bytes_ok_payload; [apply H3|apply H2].
Qed.

(** The record of the target file, found by [timestamp_record]. *)
Lemma target_found image h es c m ch a :
  parse_records image 0 h 512 = Ok (record_map es) → record_map es !! TIMESTAMP_TARGET = Some (target c m ch a).1 →
  timestamp_record image 0 h = Ok (target c m ch a).1.
Proof. intros H E. unfold timestamp_record. by rewrite H, bind_ok, E. Qed.

Lemma targets :
  record_map gen1 !! TIMESTAMP_TARGET = Some (target 1 2 3 4).1 ∧ record_map gen2 !! TIMESTAMP_TARGET = Some (target 1 5 6 4).1 ∧
  record_map gen3 !! TIMESTAMP_TARGET = Some (target 1 7 6 4).1.
Proof. by vm_compute. Qed.

Lemma disk1_empty : parse_header disk1 0 1 512 = Ok None.
Proof. destruct gens_fit as (F1 & _). destruct (fits_short _ F1) as [_ M1]. exact (disk_empty_b _ _ M1). Qed.

Lemma checks_pass :
  check_first 0 disk1 = Ok (target 1 2 3 4).1 ∧ check_second 0 disk2 (target 1 2 3 4).1 = Ok (target 1 5 6 4).1 ∧
  check_third 0 disk3 (target 1 5 6 4).1 = Ok (target 1 7 6 4).1 ∧
  check_fourth 0 (disk4 garbage) = Ok (header_of 0 3 gen3, headerB).
Proof.
  destruct gens_fit as (F1 & F2 & F3 & F4). destruct targets as (T1 & T2 & T3).
  destruct (fits_short _ F1) as [L1 M1]. destruct (fits_short _ F2) as [L2 M2]. destruct (fits_short _ F3) as [L3 M3].
  split; [|split; [|split]].
  - destruct (disk_reads_a 1 gen1 None [] ltac:(lia) F1 ltac:(done) disk_ok_1) as [Ha Hr]. fold disk1 in Ha, Hr.
    unfold check_first. rewrite Ha, bind_ok, disk1_empty, bind_ok.
    by rewrite (target_found _ _ _ _ _ _ _ Hr T1).
  - destruct (disk_reads_a 1 gen1 (Some (header_of 1 2 gen2)) (encode_payload gen2) ltac:(lia) F1 L2 disk_ok_2) as [Ha _].
    destruct (disk_reads_b 2 gen2 (Some (header_of 0 1 gen1)) (encode_payload gen1) ltac:(lia) F2 M1 disk_ok_2) as [Hb Hr].
    unfold check_second, committed_headers. fold disk2 in Ha, Hb, Hr. rewrite Ha, bind_ok, Hb, !bind_ok.
    cbn [snd]. by rewrite (target_found _ _ _ _ _ _ _ Hr T2).
  - destruct (disk_reads_a 3 gen3 (Some (header_of 1 2 gen2)) (encode_payload gen2) ltac:(lia) F3 L2 disk_ok_3) as [Ha Hr].
    destruct (disk_reads_b 2 gen2 (Some (header_of 0 3 gen3)) (encode_payload gen3) ltac:(lia) F2 M3 disk_ok_3) as [Hb _].
    unfold check_third, committed_headers. fold disk3 in Ha, Hb, Hr. rewrite Ha, bind_ok, Hb, !bind_ok.
    cbn [fst]. by rewrite (target_found _ _ _ _ _ _ _ Hr T3).
  - destruct (disk4_reads garbage) as [Ha Hb]; [vm_compute; discriminate|apply bytes_ok_zeros|].
    unfold check_fourth, committed_headers. by rewrite Ha, bind_ok, Hb, !bind_ok.
Qed.

Lemma commit_accepts b commands markers before message :
  is_ok (run_boot (guest b) commands markers) = true → image_after b ≠ before →
  commit (λ l, l) b commands markers before message = Ok (image_after b).
Proof.
  intros Hr Hne. unfold commit, error_if. destruct (run_boot _ _ _) as [ts|]; [|done]. rewrite bind_ok.
  skip_guard ltac:(apply not_true_iff_false; by intros ?%beq_spec). done.
Qed.

Lemma recover_accepts (b : boot) image markers exposed rewrote :
  match run_boot (guest b) recovery_commands markers with
  | Ok (text, _) => negb (contains text (B "survived-generation-four")) | Err _ => false end = true →
  image_after b = image → recover (λ l, l) b image markers exposed rewrote = Ok tt.
Proof.
  intros Hr <-. unfold recover, error_if. destruct (run_boot _ _ _) as [[text s]|]; [|done]. apply negb_true_iff in Hr.
  rewrite bind_ok, Hr, beq_refl. done.
Qed.

(** The images differ: their headers do. *)
Lemma disks_differ : disk1 ≠ [] ∧ disk2 ≠ disk1 ∧ disk3 ≠ disk2 ∧ disk4 garbage ≠ disk3.
Proof.
  destruct checks_pass as (_ & C2 & C3 & C4). destruct (check_second_Ok _ _ _ _ C2) as (a2 & b2 & Ha2 & Hb2 & _).
  destruct (check_third_Ok _ _ _ _ C3) as (a3 & b3 & Ha3 & Hb3 & _). destruct (check_fourth_Ok _ _ _ C4) as [_ Hb4].
  destruct gens_fit as (F1 & _). destruct (fits_short _ F1) as [_ M1].
  split_and!.
  - intros E%(f_equal len). unfold disk1 in E. rewrite len_disk in E by (exact M1 || done). discriminate E.
  - intros E. destruct Hb2 as [Hb2 _]. rewrite E, disk1_empty in Hb2. discriminate Hb2.
  - intros E. destruct Ha2 as (H2 & G2 & _), Ha3 as (H3 & G3 & _). rewrite E, H2 in H3. injection H3 as ->. discriminate (eq_trans (eq_sym G2) G3).
  - intros E. destruct Hb3 as (H3 & G3 & _), Hb4 as (H4 & G4 & _). rewrite E, H3 in H4. injection H4 as ->. discriminate (eq_trans (eq_sym G3) G4).
Qed.

Lemma session_accepts first image b1 b2 b3 b4 b5 b6 headers r1 r2 r3 hi pi :
  is_ok (run_boot (guest b1) first_commands first_markers) = true → image_after b1 ≠ image →
  check_first first (image_after b1) = Ok r1 →
  is_ok (run_boot (guest b2) second_commands second_markers) = true → image_after b2 ≠ image_after b1 →
  check_second first (image_after b2) r1 = Ok r2 →
  is_ok (run_boot (guest b3) third_commands third_markers) = true → image_after b3 ≠ image_after b2 →
  check_third first (image_after b3) r2 = Ok r3 →
  is_ok (run_boot (guest b4) fourth_commands fourth_markers) = true → image_after b4 ≠ image_after b3 →
  check_fourth first (image_after b4) = Ok headers →
  corrupt_copies first (image_after b4) headers.2 = Ok (hi, pi) →
  (∀ exposed rewrote, recover (λ l, l) b5 hi header_recovery_markers exposed rewrote = Ok tt) →
  (∀ exposed rewrote, recover (λ l, l) b6 pi payload_recovery_markers exposed rewrote = Ok tt) →
  run_session (λ l, l) first image b1 b2 b3 b4 b5 b6 = Ok headers.
Proof.
  intros G1 D1 C1 G2 D2 C2 G3 D3 C3 G4 D4 C4 C R5 R6. unfold run_session.
  by rewrite commit_accepts, bind_ok, C1, bind_ok, commit_accepts, bind_ok, C2, bind_ok, commit_accepts, bind_ok, C3, bind_ok,
    commit_accepts, bind_ok, C4, bind_ok, C, bind_ok, R5, bind_ok, R6.
Qed.

(** Zeros are not the payload of generation 4, before or after the change. *)
Lemma garbage_rejected a : payload_sector garbage !! Z.to_nat 4 = Some a →
  parse_payload (slice (put (payload_sector garbage) 4 [Z.lxor a 165]) 0 (len garbage)) headerB = Err payload_crc_error.
Proof.
  change (payload_sector garbage !! Z.to_nat 4) with (Some 0). intros [= <-]. vm_compute. reflexivity.
Qed.

Lemma garbage_read : parse_records (image_after boot4) 0 headerB 512 = Err payload_crc_error.
Proof.
  assert (len garbage = payload_length headerB) as Hl by (vm_compute; reflexivity).
  assert (len garbage ≤ 512) as Hl' by (vm_compute; discriminate).
  refine (eq_trans (disk4_payload garbage Hl' (bytes_ok_zeros _) Hl) _). vm_compute. reflexivity.
Qed.

(** A session that passes - although the payload that the fourth boot wrote is not the
    one its header describes: nothing reads it before it is corrupted. *)
Lemma session_passes : ∃ hi pi,
  run_session (λ l, l) 0 [] boot1 boot2 boot3 boot4 (boot5 hi) (boot6 pi) = Ok (header_of 0 3 gen3, headerB) ∧
  parse_records (image_after boot4) 0 headerB 512 = Err payload_crc_error.
Proof.
  assert (bytes_ok garbage) as Hok by apply bytes_ok_zeros.
  assert (len garbage ≤ 512) as Hl by (vm_compute; discriminate).
  destruct (disk4_header_corrupts garbage Hl Hok) as (hi & hh & Eh).
  destruct (disk4_payload_corrupts garbage Hl Hok) as (a & pi & ph & Ha & Ep & Er);
    [by destruct (andb_prop _ _ changes_seen)|vm_compute; reflexivity|].
  destruct (disk4_reads garbage Hl Hok) as [Ra Rb]. destruct checks_pass as (C1 & C2 & C3 & C4).
  destruct disks_differ as (D1 & D2 & D3 & D4).
  pose proof guests_answer as G. cbn [forallb] in G. rewrite !andb_true_iff in G. destruct G as [(G1 & G2 & G3 & G4 & _) (G5 & G6 & _)].
  exists hi, pi. split.
  - apply (session_accepts 0 [] boot1 boot2 boot3 boot4 (boot5 hi) (boot6 pi) (header_of 0 3 gen3, headerB)
      (target 1 2 3 4).1 (target 1 5 6 4).1 (target 1 7 6 4).1 hi pi G1 D1 C1 G2 D2 C2 G3 D3 C3 G4 D4 C4).
    + exact (copies_accepted (disk4 garbage) 0 (header_of 0 3 gen3) headerB hi hh pi ph (disk4_ok garbage Hl Hok)
        (Z.le_refl 0) Ra eq_refl Rb eq_refl Eh Ep (eq_trans Er (garbage_rejected a Ha))).
    + intros exposed rewrote. exact (recover_accepts (boot5 hi) hi header_recovery_markers exposed rewrote G5 eq_refl).
    + intros exposed rewrote. exact (recover_accepts (boot6 pi) pi payload_recovery_markers exposed rewrote G6 eq_refl).
  - exact garbage_read.
Qed.

Lemma generations_alternate_witness : ∃ hi pi headers h n h3 n3 r3,
  run_session (λ l, l) 0 [] boot1 boot2 boot3 boot4 (boot5 hi) (boot6 pi) = Ok headers ∧
  slot_has (image_after boot4) 0 1 h 4 n ∧ image_after boot4 ≠ image_after boot3 ∧
  slot_has (image_after boot3) 0 0 h3 3 n3 ∧ timestamp_record (image_after boot3) 0 h3 = Ok r3.
Proof.
  destruct session_passes as (hi & pi & H & _).
  destruct (generations_alternate (λ l, l) 0 [] boot1 boot2 boot3 boot4 (boot5 hi) (boot6 pi) _ H) as [Hk (h1 & h2 & h3 & n1 & n2 & n3 & r1 & r2 & r3 & _ & _ & _ & _ & Hs3 & Hr3 & _)].
  destruct (Hk 3%nat boot4 eq_refl) as ((h & n & Hs) & _ & before & E & Hne).
  exists hi, pi, (header_of 0 3 gen3, headerB), h, n, h3, n3, r3. split; [exact H|]. split; [exact Hs|]. split; [|by split].
  intros Ed. apply Hne. rewrite Ed. injection E. exact id.
Defined.

Lemma data_survives_witness : ∃ hi pi headers,
  run_session (λ l, l) 0 [] boot1 boot2 boot3 boot4 (boot5 hi) (boot6 pi) = Ok headers ∧
  reads_message (guest (boot5 hi)) recovery_commands header_recovery_markers generation_four.
Proof.
  destruct session_passes as (hi & pi & H & _). exists hi, pi, (header_of 0 3 gen3, headerB).
  split; [exact H|]. exact (proj1 (proj2 (data_survives (λ l, l) 0 [] boot1 boot2 boot3 boot4 (boot5 hi) (boot6 pi) _ (Z.le_refl 0) H))).
Defined.

Lemma healthy_disk : let image := disk4 (encode_payload gen4) in
  bytes_ok image ∧ len image = 67072 ∧ parse_header image 0 0 512 = Ok (Some (header_of 0 3 gen3)) ∧
  parse_header image 0 1 512 = Ok (Some headerB) ∧ parse_records image 0 headerB 512 = Ok (record_map gen4).
Proof.
  destruct (fits_short _ gen4_fits) as [L4 _]. destruct (fits_short _ gen3_fits) as [_ M3].
  assert (bytes_ok (encode_payload gen4)) as Hok by apply bytes_ok_payload, gen4_fits.
  destruct (disk4_reads _ L4 Hok) as [Ha Hb]. cbv zeta. split; [by apply disk4_ok|]. split; [by apply len_disk|].
  split; [exact Ha|]. split; [exact Hb|].
  refine (proj2 (disk_reads_b 4 gen4 (Some (header_of 0 3 gen3)) (encode_payload gen3) _ gen4_fits M3 _)); [lia|].
  by apply (disk4_ok (encode_payload gen4)).
Qed.

Lemma corruption_phase_succeeds_witness :
  (∃ copies, corrupt_copies 0 (disk4 (encode_payload gen4)) headerB = Ok copies) ∨
  corrupt_copies 0 (disk4 (encode_payload gen4)) headerB = Err hash_collision.
Proof.
  destruct healthy_disk as (Hok & Hl & Ha & Hb & Hr).
  apply (corruption_phase_succeeds _ 0 (header_of 0 3 gen3) headerB (record_map gen4) Hok (Z.le_refl 0));
    [rewrite Hl; discriminate|exact Ha|reflexivity|exact Hb|reflexivity|reflexivity|exact Hr].
Defined.

End PersistenceTest.
