(* ===== verification/ContractLanguage.v ===== *)
(** * The userspace contract: its checks

    [verify-permanent-userspace.py] reads about ninety files of the repository and
    requires some 2500 strings to be in them and others not to be.  Its statements are
    data here, in the order of the source ([ContractPart1], [ContractPart2]); this file
    gives them their meaning, and defines the checks of the ABI specification and those
    that count, slice or match regular expressions.

    A file's text is a list of code points, after decoding and newline translation; the
    two JSON documents are given parsed.  Literals are UTF-8, with three characters
    written as others: a quotation mark as an opening curly quote, a line end as a return
    symbol, and an asterisk that follows a parenthesis as an asterisk operator. *)

From S2P Require Import Prelude PyBytes AbiGen.

Module ContractLanguage.

Definition text : Type := list Z.

(** ** Literals *)

Definition stand_in (c : Z) : Z :=
  if c =? 0x201C then 34 else if c =? 0x23CE then 10 else if c =? 0x2217 then 42 else c.

Fixpoint decode_utf8 (l : list Z) : text :=
  match l with
  | [] => []
  | a :: l1 =>
      if a =? 0xE2 then
        match l1 with
        | b :: c :: l2 => stand_in (0x2000 + Z.land b 0x3F * 64 + Z.land c 0x3F) :: decode_utf8 l2
        | _ => a :: decode_utf8 l1
        end
      else a :: decode_utf8 l1
  end.
Definition T (s : string) : text := decode_utf8 (B s).
(** An ASCII literal as the string it stands for. *)
Definition plain (s : string) : string := string_of_bytes (T s).

(** ** The repository *)

(** The two documents: the ABI specification is an object of objects of integers, and of
    the manifest the schema number and the names of the outputs are used. *)
Record manifest := Manifest { schema : option Z; manifest_outputs : list string }.

Record repository := Repository { texts : gmap string text; abi_spec : AbiGen.document; asset_manifest : manifest }.

(** [text(path)] *)
Definition read_text (r : repository) (path : string) : result text :=
  match texts r !! path with Some t => Ok t | None => Err (OSError "No such file or directory") end.
(** [path.is_file()], [path.exists()] *)
Definition is_file (r : repository) (path : string) : bool := bool_decide (is_Some (texts r !! path)).

(** ** Parts of a text *)

(** [l.index(p, start)] for [start] not negative *)
Fixpoint index_from (position : Z) (l p : text) : result Z :=
  if starts_with l p then Ok position
  else match l with [] => Err (ValueError "substring not found") | _ :: l => index_from (position + 1) l p end.
Definition index (l p : text) (start : Z) : result Z := index_from start (slice_from l start) p.

(** The search for a literal [head], a shortest match of anything and a literal [tail]:
    the text after the first [head], up to the first [tail] after it. *)
Fixpoint after (l p : text) : option text :=
  if starts_with l p then Some (slice_from l (len p))
  else match l with [] => None | _ :: l => after l p end.
Fixpoint before (l p : text) : option text :=
  if starts_with l p then Some []
  else match l with [] => None | a :: l => (a ::.) <$> before l p end.
Definition search (l head tail : text) : option text :=
  match after l head with Some l => before l tail | None => None end.

(** What a check looks at: a file, [l[l.index(start) : l.index(stop, l.index(start))]],
    or a function of the file - the match of [head], a shortest match and a closing brace
    at the start of a line - with the message of its absence. *)
Inductive source :=
  | File (path : string)
  | Between (path start stop : string)
  | Body (path head message : string).

Definition body_tail : text := [10; 125].

Definition source_text (r : repository) (s : source) : result text :=
  match s with
  | File path => read_text r path
  | Between path start stop =>
      l ← read_text r path;
      i ← index l (T start) 0;
      j ← index l (T stop) i;
      Ok (slice l i j)
  | Body path head message =>
      l ← read_text r path;
      match search l (T head) body_tail with
      | Some inner => Ok (T head ++ inner ++ body_tail)
      | None => Err (SystemExit (plain message))
      end
  end.

(** ** Statements *)

(** [Load] reads a file; [Test] raises when its condition holds. *)
Inductive statement :=
  | Load (path : string)
  | Require_ (s : source) (needle description : string)
  | Forbid (s : source) (needle description : string)
  | Test (condition : repository → result bool) (message : string).

Definition require (source : text) (needle description : string) : result unit :=
  raise_if (negb (contains source (T needle)))
    (SystemExit ("permanent-userspace contract missing: " +:+ plain description)).
Definition forbid (source : text) (needle description : string) : result unit :=
  raise_if (contains source (T needle))
    (SystemExit ("permanent-userspace contract violation: " +:+ plain description)).

Definition run_statement (r : repository) (s : statement) : result unit :=
  match s with
  | Load path => _ ← read_text r path; Ok tt
  | Require_ s needle description => l ← source_text r s; require l needle description
  | Forbid s needle description => l ← source_text r s; forbid l needle description
  | Test condition message => b ← condition r; raise_if b (SystemExit (plain message))
  end.

(** ** Counting *)

(** [source.count(needle)] *)
Definition count_of (r : repository) (path needle : string) : result Z :=
  l ← read_text r path;
  Ok (count l (T needle)).

Definition is_hex (c : Z) : bool :=
  ((48 <=? c) && (c <=? 57)) || ((65 <=? c) && (c <=? 70)) || ((97 <=? c) && (c <=? 102)).
Definition is_digit (c : Z) : bool := (48 <=? c) && (c <=? 57).

(** The occurrences of a 64-bit hexadecimal literal; [skip] counts the characters of the
    current match still to pass. *)
Fixpoint hex_words (skip : nat) (l : text) : Z :=
  match l with
  | [] => 0
  | _ :: l' =>
      match skip with
      | S skip => hex_words skip l'
      | O =>
          if starts_with l [48; 120] && (len (slice l 2 18) =? 16) && forallb is_hex (slice l 2 18)
          then 1 + hex_words 17 l' else hex_words 0 l'
      end
  end.

(** The lines of a text, for a pattern that starts with [^] and cannot match a line end;
    [.*] is not in these patterns. *)
Fixpoint lines_from (line l : text) : list text :=
  match l with
  | [] => [reverse line]
  | c :: l => if c =? 10 then reverse line :: lines_from [] l else lines_from (c :: line) l
  end.
Definition lines (l : text) : list text := lines_from [] l.

(** The lines that match [^- \[([ x])\] \*\*G\d{3}\*\*], and their group; [\d] is taken
    as ASCII. *)
Definition roadmap_item (line : text) : option Z :=
  match line with
  | 45 :: 32 :: 91 :: mark :: 93 :: 32 :: 42 :: 42 :: 71 :: a :: b :: c :: 42 :: 42 :: _ =>
      if ((mark =? 32) || (mark =? 120)) && is_digit a && is_digit b && is_digit c then Some mark else None
  | _ => None
  end.
Definition roadmap_items (l : text) : list Z := omap roadmap_item (lines l).

(** [^\d+\. ] *)
Fixpoint goal_rest (line : text) : bool :=
  match line with
  | c :: line => if is_digit c then goal_rest line else starts_with (c :: line) [46; 32]
  | [] => false
  end.
Definition is_goal (line : text) : bool :=
  match line with c :: line => is_digit c && goal_rest line | [] => false end.

(** How many lines start a Zig test declaration. *)
Definition declared (l : text) : Z :=
  len (List.filter (λ line, starts_with line (B "test " ++ [34])) (lines l)).

(** ** JSON objects *)

Definition group : Type := list (string * Z).

(** [document.get(name)], [group.get(name)], [document.get(name, {})] *)
Definition get {A} (l : list (string * A)) (name : string) : option A :=
  snd <$> List.find (λ p, String.eqb p.1 name) l.
Definition get_group (d : AbiGen.document) (name : string) : group := default [] (get d name).

Definition opt_eqb (a : option Z) (n : Z) : bool := match a with Some v => v =? n | None => false end.

(** Equality of dictionaries; the keys of each are distinct. *)
Definition dict_eqb (a b : group) : bool :=
  (len a =? len b) && forallb (λ p, opt_eqb (get a p.1) p.2) b.
Definition get_eqb (d : AbiGen.document) (name : string) (expected : group) : bool :=
  match get d name with Some a => dict_eqb a expected | None => false end.

(** [group[name]] *)
Definition item {A} (l : list (string * A)) (name : string) : result A :=
  match get l name with Some a => Ok a | None => Err KeyError end.

(** ** Conditions that fail the contract *)

Section Conditions.
Context (r : repository).

(** [abi_spec.get(name) != expected] *)
Definition group_differs (name : string) (expected : group) : bool := negb (get_eqb (abi_spec r) name expected).
(** [abi_spec.get(group, {}).get(name) != n] *)
Definition entry_differs (group name : string) (n : Z) : bool := negb (opt_eqb (get (get_group (abi_spec r) group) name) n).

Definition abi_version_bad : result bool :=
  abi ← item (abi_spec r) "abi";
  major ← item abi "major";
  if negb (major =? 1) then Ok true
  else
    minor ← item abi "minor";
    Ok (negb (minor =? 32)).

Definition expected_fs_syscalls : group :=
  [("lseek", 98); ("mkdir", 99); ("unlink", 100); ("rmdir", 101); ("rename", 102); ("chmod", 103)].
Definition expected_network_syscalls : group :=
  [("sendto", 104); ("recvfrom", 105); ("getpeername", 106); ("setnonblock", 107); ("listen", 130); ("accept", 131);
   ("socket_shutdown", 132); ("getsockopt", 133); ("setsockopt", 134)].
Definition expected_platform_syscalls : group :=
  [("ioctl", 108); ("stat", 109); ("openat", 110); ("fsync", 111); ("symlink", 112); ("readlink", 113); ("link", 114);
   ("fallocate", 115); ("readv", 116); ("writev", 117); ("fdatasync", 118); ("mount", 119); ("umount", 120);
   ("statfs", 121); ("stattimes", 122); ("statowner", 123); ("umask", 124); ("flock", 125); ("lockrange", 126);
   ("watchdir", 127); ("kill", 128); ("fscheck", 129)].

Definition numbering_valid (syscall_spec : group) (expected : group) : bool :=
  forallb (λ p, opt_eqb (get syscall_spec p.1) p.2) expected.
Definition numbering_bad : result bool :=
  syscall_spec ← item (abi_spec r) "syscalls";
  Ok (negb (numbering_valid syscall_spec [("spawnv", 96); ("sync", 97)]) ||
      negb (numbering_valid syscall_spec expected_fs_syscalls) ||
      negb (numbering_valid syscall_spec expected_network_syscalls) ||
      negb (numbering_valid syscall_spec expected_platform_syscalls)).

(** [syscall_spec.get("shutdown") != 93 or syscall_spec.get("socket_shutdown") != 132] *)
Definition shutdown_bad : bool := entry_differs "syscalls" "shutdown" 93 || entry_differs "syscalls" "socket_shutdown" 132.
Definition foreground_bad : bool :=
  entry_differs "ioctl_requests" "tty_get_foreground_group" 21507 ||
  entry_differs "ioctl_requests" "tty_set_foreground_group" 21508.
Definition page_size_bad : bool := entry_differs "abi" "major" 1 || entry_differs "abi" "page_size" 4096.
Definition syscall_values_bad : bool :=
  let syscall_values := (get_group (abi_spec r) "syscalls").*2 in
  (len syscall_values =? 0) || negb (bool_decide (NoDup syscall_values)).

(** [any(text.count(needle) != n ...)], [... < n ...] *)
Fixpoint count_differs (path : string) (needles : list string) (n : Z) : result bool :=
  match needles with
  | [] => Ok false
  | needle :: needles => c ← count_of r path needle; if negb (c =? n) then Ok true else count_differs path needles n
  end.
Fixpoint count_below (path : string) (needles : list string) (n : Z) : result bool :=
  match needles with
  | [] => Ok false
  | needle :: needles => c ← count_of r path needle; if c <? n then Ok true else count_below path needles n
  end.

Definition canonical_test_sources : list string :=
  ["src/runtime_fd.zig"; "src/runtime_command.zig"; "src/runtime_process.zig"; "src/runtime_tty.zig"; "src/runtime_vfs.zig";
   "src/runtime_pseudo_fs.zig"; "src/runtime_boot_fat.zig"; "src/nvme.zig"; "src/runtime_abi.zig"; "src/runtime_page_pool.zig";
   "src/memory.zig"; "src/runtime_persist.zig"; "src/elf64.zig"; "src/tcp_connection.zig"; "sdk/zig/dns.zig";
   "sdk/zig/copy_core.zig"].
Definition declared_tests_bad : result bool :=
  declared_tests ← foldM (λ n path, l ← read_text r path; Ok (n + declared l)) 0 canonical_test_sources;
  Ok (negb (declared_tests =? 106)).

Definition fuzz_seeds_bad : result bool :=
  l ← read_text r "src/runtime_vfs.zig";
  Ok (match search l (T "const namespace_fuzz_seeds = [_]u64{") (T "};") with
      | None => true
      | Some seeds => negb (hex_words O seeds =? 8)
      end).

(** The lock within 500 characters of the signature. *)
Definition lock_boundary_bad (signature : string) : result bool :=
  l ← read_text r "src/runtime_vfs.zig";
  Ok (match index l (T signature) 0 with
      | Err _ => true
      | Ok position => negb (contains (slice l position (position + 500)) (T "namespace_operation_lock.acquire()"))
      end).

Definition roadmap_bad : result bool :=
  l ← read_text r "docs/ROADMAP-500.md";
  let items := roadmap_items l in
  Ok (negb (len items =? 500) || negb (len (List.filter (Z.eqb 120) items) =? 255)).

Definition schema_bad : bool := negb (opt_eqb (schema (asset_manifest r)) 2).
Definition object_listed : bool := existsb (String.eqb "build/cpu.obj") (manifest_outputs (asset_manifest r)).
Definition manifest_empty : bool := match manifest_outputs (asset_manifest r) with [] => true | _ => false end.
Definition fixture_missing (name : string) : bool := negb (is_file r ("src/user/runtime-" +:+ name +:+ ".asm")).

Definition capstone_bad : result bool :=
  capstone ← (if is_file r "docs/CAPSTONE-19.0.md" then read_text r "docs/CAPSTONE-19.0.md" else Ok []);
  match capstone with
  | [] => Ok false
  | _ => Ok (negb (len (List.filter is_goal (lines capstone)) =? 32))
  end.

End Conditions.

End ContractLanguage.
