(* ===== verification/ContractPart1.v ===== *)
(** * The userspace contract: sources and checks, first part

    The files [main] reads, in order, and its statements up to the checks of the e1000e
    driver (G228 and earlier goals, then the ABI and the storage goals), generated from
    the source line by line: a list per stretch of at most 140 lines, and one per loop. *)

From S2P Require Import Prelude PyBytes ContractLanguage.

Module ContractPart1.

Import ContractLanguage.

(** ** The files *)

Definition runtime : source := File "src/runtime.zig".
Definition kernel : source := File "src/kernel.zig".
Definition executor : source := File "src/runtime_user.zig".
Definition cpu : source := File "src/arch/x86_64/cpu.asm".
Definition paging : source := File "src/paging.zig".
Definition exceptions : source := File "src/exceptions.zig".
Definition syscalls : source := File "src/user_mode.zig".
Definition assets : source := File "scripts/build-assets.py".
Definition runtime_test : source := File "scripts/test-runtime.ps1".
Definition runtime_abi : source := File "src/runtime_abi.zig".
Definition abi_generator : source := File "scripts/generate-abi.py".
Definition memory_source : source := File "src/memory.zig".
Definition process_source : source := File "src/runtime_process.zig".
Definition command_source : source := File "src/runtime_command.zig".
Definition e1000e_source : source := File "src/e1000e.zig".
Definition tcp_connection_source : source := File "src/tcp_connection.zig".
Definition page_pool_source : source := File "src/runtime_page_pool.zig".
Definition vfs_source : source := File "src/runtime_vfs.zig".
Definition pseudo_fs_source : source := File "src/runtime_pseudo_fs.zig".
Definition boot_fat_source : source := File "src/runtime_boot_fat.zig".
Definition synchronization_source : source := File "src/synchronization.zig".
Definition tty_source : source := File "src/runtime_tty.zig".
Definition fd_source : source := File "src/runtime_fd.zig".
Definition persist_source : source := File "src/runtime_persist.zig".
Definition nvme_source : source := File "src/nvme.zig".
Definition gpt_source : source := File "src/gpt.zig".
Definition nvme_image_builder : source := File "scripts/create-nvme-test-image.py".
Definition qemu_test : source := File "scripts/test-qemu.ps1".
Definition persistence_test : source := File "scripts/test-x86_64-persistence.py".
Definition normal_boot_test : source := File "scripts/test-normal-boot.py".
Definition quarantine_boot_test : source := File "scripts/test-boot-fat-quarantine.py".
Definition io_error_boot_test : source := File "scripts/test-boot-fat-io-error.py".
Definition readonly_remount_boot_test : source := File "scripts/test-persistent-readonly-remount.py".
Definition diskless_normal_boot_test : source := File "scripts/test-diskless-normal-boot.py".
Definition c_header : source := File "sdk/c/include/zigos.h".
Definition c_abi_header : source := File "sdk/c/include/zigos_abi.h".
Definition c_library : source := File "sdk/c/zigos.c".
Definition c_conformance : source := File "sdk/c/conformance.c".
Definition c_abi_description_conformance : source := File "sdk/c/abi_description_conformance.c".
Definition c_abi_header_interop_conformance : source := File "sdk/c/abi_header_interop_conformance.c".
Definition elf_source : source := File "src/elf64.zig".
Definition sdk_source : source := File "sdk/zig/zigos.zig".
Definition sdk_startup : source := File "sdk/zig/syscall.asm".
Definition sdk_conformance : source := File "sdk/zig/conformance.zig".
Definition socket_conformance : source := File "src/user/runtime-socket.asm".
Definition wait_conformance : source := File "src/user/runtime-wait.asm".
Definition wait_short_conformance : source := File "src/user/runtime-wait-short.asm".
Definition sdk_init : source := File "sdk/zig/init.zig".
Definition fs_conformance : source := File "sdk/zig/fs_conformance.zig".
Definition dns_source : source := File "sdk/zig/dns.zig".
Definition dns_conformance : source := File "sdk/zig/dns_conformance.zig".
Definition ls_source : source := File "sdk/zig/ls.zig".
Definition cat_source : source := File "sdk/zig/cat.zig".
Definition echo_source : source := File "sdk/zig/echo.zig".
Definition pwd_source : source := File "sdk/zig/pwd.zig".
Definition mkdir_source : source := File "sdk/zig/mkdir.zig".
Definition rm_source : source := File "sdk/zig/rm.zig".
Definition rmdir_source : source := File "sdk/zig/rmdir.zig".
Definition hexdump_source : source := File "sdk/zig/hexdump.zig".
Definition ps_source : source := File "sdk/zig/ps.zig".
Definition kill_source : source := File "sdk/zig/kill.zig".
Definition sleep_source : source := File "sdk/zig/sleep.zig".
Definition mount_source : source := File "sdk/zig/mount.zig".
Definition df_source : source := File "sdk/zig/df.zig".
Definition fsck_source : source := File "sdk/zig/fsck.zig".
Definition uname_source : source := File "sdk/zig/uname.zig".
Definition env_source : source := File "sdk/zig/env.zig".
Definition edit_source : source := File "sdk/zig/edit.zig".
Definition head_source : source := File "sdk/zig/head.zig".
Definition tail_source : source := File "sdk/zig/tail.zig".
Definition wc_source : source := File "sdk/zig/wc.zig".
Definition grep_source : source := File "sdk/zig/grep.zig".
Definition stat_source : source := File "sdk/zig/stat.zig".
Definition mv_source : source := File "sdk/zig/mv.zig".
Definition cp_source : source := File "sdk/zig/cp.zig".
Definition copy_core_source : source := File "sdk/zig/copy_core.zig".
Definition sdk_shell : source := File "sdk/zig/shell.zig".
Definition sdk_abi : source := File "sdk/zig/abi.zig".
Definition sdk_verifier : source := File "scripts/verify-zigos-sdk-elf.py".
Definition workflow : source := File ".github/workflows/build.yml".
Definition build_graph : source := File "build.zig".
Definition readme : source := File "README.md".
Definition roadmap : source := File "docs/ROADMAP-500.md".
Definition priority : source := File "docs/PRIORITY-REMEDIATION.md".
Definition threat_model : source := File "docs/THREAT-MODEL.md".
Definition persistence_compat : source := File "docs/PERSISTENCE-COMPATIBILITY.md".
Definition asset_builder : source := File "scripts/build-assets.py".
Definition sync_syscall : source := Between "src/runtime_user.zig" "fn syscallSync" "fn syscallShutdown".
Definition runtime_submit : source := Body "src/e1000e.zig" "pub fn submitRuntimeFrame(" "permanent-userspace contract missing: G310 runtime frame handoff body".
Definition completion_body (function_name : string) : source :=
  Body "src/e1000e.zig" ("fn " +:+ function_name +:+ "(") ("permanent-userspace contract missing: e1000e " +:+ function_name).

(** Every file read into a variable, the two documents included, in order. *)
Definition loads : list statement := Load <$>
  ["src/runtime.zig";
   "src/kernel.zig";
   "src/runtime_user.zig";
   "src/arch/x86_64/cpu.asm";
   "src/paging.zig";
   "src/exceptions.zig";
   "src/user_mode.zig";
   "scripts/build-assets.py";
   "scripts/test-runtime.ps1";
   "src/runtime_abi.zig";
   "abi/zigos-abi.json";
   "scripts/generate-abi.py";
   "src/memory.zig";
   "src/runtime_process.zig";
   "src/runtime_command.zig";
   "src/e1000e.zig";
   "src/tcp_connection.zig";
   "src/runtime_page_pool.zig";
   "src/runtime_vfs.zig";
   "src/runtime_pseudo_fs.zig";
   "src/runtime_boot_fat.zig";
   "src/synchronization.zig";
   "src/runtime_tty.zig";
   "src/runtime_fd.zig";
   "src/runtime_persist.zig";
   "src/nvme.zig";
   "src/gpt.zig";
   "scripts/create-nvme-test-image.py";
   "scripts/test-qemu.ps1";
   "scripts/test-x86_64-persistence.py";
   "scripts/test-normal-boot.py";
   "scripts/test-boot-fat-quarantine.py";
   "scripts/test-boot-fat-io-error.py";
   "scripts/test-persistent-readonly-remount.py";
   "scripts/test-diskless-normal-boot.py";
   "sdk/c/include/zigos.h";
   "sdk/c/include/zigos_abi.h";
   "sdk/c/zigos.c";
   "sdk/c/conformance.c";
   "sdk/c/abi_description_conformance.c";
   "sdk/c/abi_header_interop_conformance.c";
   "src/elf64.zig";
   "sdk/zig/zigos.zig";
   "sdk/zig/syscall.asm";
   "sdk/zig/conformance.zig";
   "src/user/runtime-socket.asm";
   "src/user/runtime-wait.asm";
   "src/user/runtime-wait-short.asm";
   "sdk/zig/init.zig";
   "sdk/zig/fs_conformance.zig";
   "sdk/zig/dns.zig";
   "sdk/zig/dns_conformance.zig";
   "sdk/zig/ls.zig";
   "sdk/zig/cat.zig";
   "sdk/zig/echo.zig";
   "sdk/zig/pwd.zig";
   "sdk/zig/mkdir.zig";
   "sdk/zig/rm.zig";
   "sdk/zig/rmdir.zig";
   "sdk/zig/hexdump.zig";
   "sdk/zig/ps.zig";
   "sdk/zig/kill.zig";
   "sdk/zig/sleep.zig";
   "sdk/zig/mount.zig";
   "sdk/zig/df.zig";
   "sdk/zig/fsck.zig";
   "sdk/zig/uname.zig";
   "sdk/zig/env.zig";
   "sdk/zig/edit.zig";
   "sdk/zig/head.zig";
   "sdk/zig/tail.zig";
   "sdk/zig/wc.zig";
   "sdk/zig/grep.zig";
   "sdk/zig/stat.zig";
   "sdk/zig/mv.zig";
   "sdk/zig/cp.zig";
   "sdk/zig/copy_core.zig";
   "sdk/zig/shell.zig";
   "sdk/zig/abi.zig";
   "scripts/verify-zigos-sdk-elf.py";
   ".github/workflows/build.yml";
   "build.zig";
   ".github/workflows/build.yml";
   "README.md";
   "docs/ROADMAP-500.md";
   "docs/PRIORITY-REMEDIATION.md";
   "docs/THREAT-MODEL.md";
   "docs/PERSISTENCE-COMPATIBILITY.md";
   "scripts/build-assets.py";
   "build/assets-manifest.json"].

(** ** The statements *)

Definition forbidden_runtime : list statement := (λ x, Forbid runtime x.1 x.2) <$>
  [("launchPseudoJob", "timed pseudo-job launcher returned");
   ("pseudo-job", "pseudo-job wording returned");
   ("192.0.2.42", "canned DNS answer returned");
   ("deterministic-QEMU-path", "canned ping path returned");
   ("contained fault in PID", "fabricated shell crash path returned")].

Definition part_1 : list statement := [
   Require_ runtime "runtime_user.spawn(" "shell launches the retained CPL3 executor";
   Require_ executor "try dispatch(handle, tick)" "one retained scheduler dispatches selected CPL3 contexts";
   Require_ runtime "“/bin/hello.elf“" "storage-backed hello fixture";
   Require_ runtime "“/bin/crash.elf“" "storage-backed crash fixture";
   Require_ runtime "“/bin/pipe-reader.elf“" "storage-backed pipe reader";
   Require_ runtime "“/bin/pipe-writer.elf“" "storage-backed pipe writer";
   Require_ runtime "network-facades-removed yes" "release marker rejects network facades";
   Require_ runtime "userspace_report.used_pages == 0" "release gate requires frame reclamation";
   Require_ runtime "userspace_report.live_contexts == 0" "release gate requires context cleanup";
   Require_ runtime "e1000e.pingIpv4" "shell performs retained ICMP echo transactions";
   Require_ runtime "e1000e.openDnsResolver" "shell opens the retained UDP DNS resolver";
   Require_ runtime "e1000e.pollDnsResolverA" "shell polls live DNS responses";
   Require_ runtime "state.live_ping_passes" "release gate counts validated ping replies";
   Require_ runtime "state.live_dns_passes" "release gate counts completed DNS results";
   Require_ runtime "e1000e was not initialized for this boot" "offline commands report device absence explicitly";
   Require_ runtime "kill defaults to forced signal 9" "help documents forced default termination";
   Require_ runtime "else 9;" "kill defaults to a signal with implemented terminal semantics";
   Require_ runtime "state.shell_waiting = true" "shell wait enters a real blocking state";
   Require_ runtime "state.processes.wait(state.shell_handle, handle, false)" "shell wait uses process-table blocking wait";
   Forbid runtime "wait: process is still running" "wait remained a status query";
   Require_ runtime "state.config.physical_memory.report()" "runtime shutdown validates the post-bootstrap physical manager";
   Require_ runtime "physical_report.clean" "release gate requires physical-page reclamation";
   Require_ runtime "ZigOs post-bootstrap physical memory:" "runtime reports physical-memory handoff accounting";
   Require_ runtime "ZigOs permanent userspace: page-limit" "runtime distinguishes ownership slots from reserved pages";
   Require_ runtime "state.descriptors.setTerminalBackend(&state.tty)" "standard input is backed by the retained terminal";
   Require_ runtime "state.tty.setForeground" "foreground process groups own terminal input";
   Require_ runtime "serviceForegroundInput" "foreground execution services COM1 while a syscall is blocked";
   Require_ runtime "state.processes.setProcessGroup(state.shell_handle, handle, 0)" "top-level jobs receive independent process groups";
   Require_ runtime "ZigOs permanent TTY:" "shutdown reports terminal line-discipline accounting";
   Require_ runtime "tty_report.bytes_submitted == tty_report.bytes_read" "release gate requires complete terminal input consumption";
   Require_ fd_source "terminal.read(processes, process_handle, output)" "fd 0 delegates to the terminal input backend";
   Require_ fd_source "terminal.poll(processes, process_handle, requested)" "terminal readiness is visible through poll";
   Require_ tty_source "try processes.block(process_handle, .terminal_read" "empty foreground reads block in the process table";
   Require_ tty_source "wakeMatching(.terminal_read" "committed lines wake terminal readers";
   Require_ tty_source "process.process_group == self.foreground_process_group" "background process groups cannot read the terminal";
   Require_ tty_source "0x08, 0x7F" "canonical erase accepts Backspace and DEL";
   Require_ tty_source "self.foreground_process_group,⏎                    if (is_suspend) 19 else 2" "Ctrl-C and Ctrl-Z target the foreground process group";
   Require_ nvme_image_builder "ZIGOS_DATA_PARTITION_GUID" "deterministic GPT image contains a dedicated ZigOs data partition";
   Require_ nvme_image_builder "data_partition_first_lba" "data partition geometry is exported to test metadata";
   Require_ gpt_source "isZigOsDataPartition" "kernel GPT parser identifies the dedicated persistence partition";
   Require_ nvme_source "pub fn writeBlock" "retained NVMe supports data writes";
   Require_ nvme_source "pub fn flush" "retained NVMe supports volatile-cache flushes";
   Require_ nvme_source "nvm_force_unit_access" "journal commit headers can request force-unit-access";
   Require_ nvme_source "pub fn enterRuntimePollingMode" "NVMe interrupts are explicitly handed off to bounded runtime polling";
   Require_ nvme_source "fn advanceAndClassifyCompletion" "phase-valid NVMe completions advance and acknowledge the CQ before error classification";
   Require_ nvme_source "if (disposition != .success) return null" "failed NVMe commands return only after CQ acknowledgement";
   Require_ nvme_source "test “failed completion advances CQ so the next command can succeed“" "isolated NVMe test proves an error completion cannot wedge the following command";
   Require_ nvme_source "pub fn armOneShotReadError" "test-only one-shot NVMe read-error injection is explicit and bounded";
   Require_ nvme_source "pub fn armOneShotWriteError" "test-only one-shot NVMe write-error injection is explicit and bounded";
   Require_ nvme_source "controller.namespace_size_lbas" "fault injection asks the real NVMe device to complete one out-of-range command";
   Require_ runtime "initializePersistentStorage" "permanent runtime mounts the retained data partition";
   Require_ runtime "runtime_persist.BlockDevice" "persistence is layered over a generic block interface";
   Require_ runtime "state.persistence.sync(&state.vfs)" "global sync executes the validated writable-mount plan";
   Require_ runtime "syncAllWritableMounts" "runtime exposes one backend for persistent and ramfs-only global sync";
   Require_ runtime "state.persistence.check()" "fsck validates the committed journal generation";
   Require_ runtime "ZigOs persistent storage:" "shutdown reports persistent generation and device accounting";
   Require_ runtime "persistence_clean" "release gate requires a valid committed journal";
   Require_ persist_source "const commit_marker" "journal headers carry an explicit commit marker";
   Require_ persist_source "const slot: u8 = if (self.active_slot == 0) 1 else 0" "sync alternates between A/B generations";
   Require_ persist_source "if (!device.flush())" "payload and header writes are ordered by device flushes";
   Require_ persist_source "device.write(slot, self.sector[0..block_size], true)" "the generation header is committed with FUA";
   Require_ persist_source "gpt.crc32(next_payload" "journal scratch payloads are checksummed before commit";
   Require_ persist_source "next_payload: [maximum_payload_bytes]u8" "global and file-scoped commits use a separate transactional payload";
   Require_ persist_source "fn planWritableMounts" "global sync validates every active writable mount before I/O";
   Require_ persist_source "if (!mount_entry.used or mount_entry.readonly) continue" "global sync skips only unused or explicitly read-only mounts";
   Require_ persist_source ".ramfs, .tmpfs => plan.immediate_mounts" "root ramfs and userspace tmpfs mounts are acknowledged as immediately synchronized";
   Require_ persist_source ".boot_fat, .procfs, .devfs, .netfs => return Error.UnsupportedOperation" "unknown writable backend policies fail rather than being silently skipped";
   Require_ persist_source "mount_entry.id != self.mount_id" "global sync rejects unconfigured or duplicate persistent mounts";
   Require_ persist_source "test “global sync succeeds for a ramfs only writable mount table“" "isolated test proves diskless global sync success";
   Require_ persist_source "test “global sync covers writable mounts and rejects invalid plans before journal writes“" "isolated test proves complete visitation, read-only skipping and pre-I/O rejection";
   Require_ persist_source "pub fn syncFile" "persistent store exposes one-file data-and-metadata snapshot replacement";
   Require_ persist_source "pub fn syncFileData" "persistent store exposes data-only one-file snapshot replacement";
   Require_ persist_source "pub fn requestWriteback" "dirty file writeback is explicitly scheduled without clearing the ledger";
   Require_ persist_source "pub fn serviceWriteback" "one bounded background service pass processes a scheduled dirty inode";
   Require_ persist_source "if (self.writeback_active) return Error.Busy" "only one generation-tagged writeback request can be active";
   Require_ persist_source "stat.generation != generation" "background writeback rejects stale inode-slot reuse";
   Require_ persist_source "self.syncFileData(vfs, node_index)" "persistent background writeback reuses data-only journal semantics";
   Require_ persist_source "test “bounded asynchronous writeback services immediate durable unsupported failed and stale requests“" "isolated test proves request/service separation and every bounded writeback outcome";
   Require_ persist_source "committed_mode = record_mode" "fdatasync retains mode from the last committed target record";
   Require_ persist_source "const persisted_mode = if (include_metadata) stat.mode else committed_mode.?" "fsync and fdatasync select current or committed metadata explicitly";
   Require_ persist_source "fn commitSnapshot" "global sync, fsync and fdatasync share one ordered A/B commit path";
   Require_ persist_source "_ = vfs.clearDirtyWritableMountPages();" "global sync clears remaining writable RAM mounts after success or fail-stop durable remount";
   Require_ persist_source "_ = vfs.clearDirtyNodePages(node_index);" "file dirty pages clear only after fsync or fdatasync commit success";
   Require_ persist_source "dirty_after_rejected_plan" "rejected writable-mount plans preserve dirty state";
   Require_ persist_source "pub const DamageReason = enum" "persistent damage records the exact failed journal stage";
   Require_ persist_source "fn recordIoDamage" "journal I/O failure transitions the configured persistent mount exactly once";
   Require_ persist_source "vfs.remountReadOnly(self.mount_id)" "persistent damage remounts the exact writable filesystem read-only";
   Require_ persist_source "self.read_only_rejections +%= 1" "later durable synchronization attempts fail-stop as read-only"].

Definition damage_reasons : list statement := (λ x, Require_ persist_source ("." +:+ x.1) ("persistent damage classifies " +:+ x.2)) <$>
  [("payload_write", "payload write");
   ("payload_flush", "payload flush");
   ("header_write", "header write");
   ("header_flush", "header flush")].

Definition part_2 : list statement := [
   Require_ persist_source "self.payload[record_start..input_offset]" "file fsync copies unrelated committed records rather than current dirty VFS state";
   Require_ persist_source "test “file sync commits one stable file and excludes unrelated dirty state“" "isolated test proves one-file fsync durability and unrelated dirty-state exclusion";
   Require_ persist_source "test “file data sync persists bytes and size without dirty mode metadata“" "isolated test proves fdatasync advances data and logical size while preserving committed mode";
   Require_ persist_source "const version: u32 = 3;" "persistent journal writes ownership-bearing format v3";
   Require_ persist_source "const timestamp_version: u32 = 2;" "persistent journal retains deployed v2 timestamp-format compatibility";
   Require_ persist_source "const legacy_version: u32 = 1;" "persistent journal retains v1 read compatibility";
   Require_ persist_source "test “legacy version one and two snapshots migrate timestamps and ownership to version three“" "isolated persistence test proves v1/v2 restore and v3 ownership migration";
   Require_ persist_source "record_header_size_v2: usize = 40" "journal v2 compatibility retains four u64 timestamp fields";
   Require_ persist_source "record_header_size_v3: usize = 48" "journal v3 adds two u32 ownership fields to each record";
   Require_ persist_source "readRecordTimestamps" "journal restore decodes v1/v2/v3 timestamp metadata";
   Require_ persist_source "readRecordOwnership" "journal restore decodes v3 ownership and synthesizes v1/v2 root ownership";
   Require_ persist_source "restoreTimestamps" "journal restore reapplies stored inode timestamps after namespace reconstruction";
   Require_ persist_source "restoreOwnership" "journal restore reapplies inode ownership after namespace/hard-link reconstruction";
   Require_ vfs_source "test “VFS timestamp policy covers data metadata namespace and access operations“" "isolated VFS test proves stored four-field timestamps and G238 update ordering";
   Require_ persist_source "test “failed file sync remounts persist read only and preserves the committed baseline“" "failed file fsync preserves the running committed generation while live data becomes read-only";
   Require_ persist_source "test “journal write and flush failures classify read only remount stage“" "flush failure enters the same fail-stop read-only state";
   Require_ persist_source "if (second_valid.?.generation > first_valid.?.generation)" "mount selects the newest fully valid generation";
   Require_ persist_source "test “mount falls back to the previous valid generation“" "corrupt newest generation recovery test";
   Require_ persist_source "test “relative path validation rejects traversal but permits dotted names“" "restored paths reject component traversal";
   Require_ persist_source "path_scratch" "journal path construction cannot alias the traversal queue";
   Require_ qemu_test "NVMe ZigOs Data Partition" "hosted boot gate verifies data-partition discovery";
   Require_ qemu_test "NVMe retained for permanent runtime" "hosted boot gate verifies the polling handoff";
   Require_ persistence_test "PERSIST_MAX_PAYLOAD_BYTES = 64 * 1024" "four-boot persistence parser uses the kernel's exact 64 KiB slot stride";
   Require_ persistence_test "payload_length > PERSIST_MAX_PAYLOAD_BYTES" "four-boot persistence parser rejects headers outside the bounded journal payload";
   Require_ persistence_test "Stored ticks are boot-local runtime ordering values, not a cross-boot epoch." "four-boot persistence gate does not impose false cross-reboot timestamp ordering";
   Require_ persistence_test "Persistent x86-64 NVMe four-boot fsync/fdatasync plus block-corruption recovery session passed." "dedicated persistence gate preserves the four healthy/crash-recovery boots and adds G250 header/payload corruption boots";
   Require_ persistence_test "header_a.generation != 1" "host gate requires slot A generation one";
   Require_ persistence_test "exec /bin/fs.elf fsync" "boot two commits one target file with data and metadata";
   Require_ persistence_test "boot 2 crash: slot B generation 2" "boot two is forcibly terminated after the fsync generation commits";
   Require_ persistence_test "exec /bin/fs.elf fdatasync" "boot three commits target data without dirty mode metadata";
   Require_ persistence_test "boot 3 crash: slot A generation 3" "boot three is forcibly terminated after the fdatasync generation commits";
   Require_ persistence_test "survived-generation-one" "boot four must read data written by boot one";
   Require_ persistence_test "parse_header" "host gate validates on-disk A/B header CRCs";
   Require_ persistence_test "after_second_hash == after_first_hash" "host gate requires a physical disk mutation from file fsync";
   Require_ persistence_test "after_third_hash == after_second_hash" "host gate requires a physical disk mutation from file fdatasync";
   Require_ persistence_test "after_fourth_hash == after_third_hash" "host gate requires the recovery boot to commit its cleanup generation";
   Require_ workflow "test-x86_64-persistence.py" "Windows CI runs the four-boot persistence gate";
   Require_ workflow "test-normal-boot.py" "Windows CI runs the normal userspace-shell gate";
   Require_ workflow "test-diskless-normal-boot.py" "Windows CI runs the diskless RAM-root recovery gate";
   Require_ build_graph "“normal-boot“" "build graph exposes an explicit normal-boot profile";
   Require_ build_graph "sdk/zig/init.zig" "build graph compiles the userspace init";
   Require_ build_graph "“artifacts/init.elf“" "userspace init is installed as a standalone artifact";
   Require_ build_graph "sdk/zig/shell.zig" "build graph compiles the userspace shell";
   Require_ build_graph "“artifacts/sh.elf“" "userspace shell is installed as a standalone artifact";
   Require_ kernel "build_options.normal_boot" "kernel branches to the normal profile before software proof workloads";
   Require_ kernel "Normal boot selected: skipping kernel heap, scheduler, Capstone 15 and Capstone 16 proof workloads" "normal profile reports skipped diagnostic workloads";
   Require_ runtime "pub const Profile = enum" "runtime has explicit diagnostic and normal profiles";
   Require_ runtime "“/bin/init.elf“" "userspace init ELF is installed in the runtime VFS";
   Require_ runtime "“/bin/sh.elf“" "userspace shell ELF is installed in the runtime VFS";
   Require_ runtime "runtime_user.attachExisting" "reserved PID 1 receives a real userspace address space";
   Require_ runtime "configureNormalChild" "userspace init child creation establishes the foreground shell";
   Require_ runtime "state.init_reaped_shell" "normal shutdown requires PID 1 to reap PID 2";
   Require_ process_source "configureInitUserspace" "process table promotes the reserved PID 1 record to userspace";
   Require_ process_source "test “reserved PID 1 can become a schedulable userspace init“" "PID 1 promotion has an isolated regression test";
   Require_ runtime "finishNormalRuntime" "normal shutdown has a dedicated cleanup invariant";
   Require_ runtime "flushUserspaceOutput" "userspace shell and child output stream after every dispatch";
   Require_ executor "syscallShutdown" "normal-profile PID 1 and PID 2 use the privileged staged shutdown syscall";
   Require_ executor "setChildSpawnCallback" "executor reports init-spawned children to the runtime supervisor";
   Require_ executor "attachExisting" "executor can attach an ELF context to the reserved PID 1 handle";
   Require_ executor "const blocking_target: ?u64 = if (target == 0) null else target_handle;" "blocking wait-any preserves an unconstrained child target";
   Require_ executor "activeProcesses().wait(context.handle, blocking_target, false)" "blocking wait uses the PID-sensitive target";
   Forbid executor "activeProcesses().wait(context.handle, target_handle, false)" "wait-any collapses to the first live child";
   Require_ wait_conformance "Both children are live when wait-any blocks" "CPL3 wait-any regression overlaps long and short children";
   Require_ wait_conformance "32 ticks" "CPL3 wait-any regression keeps a wide deterministic completion margin";
   Require_ wait_conformance "cmp eax, r13d" "wait-any must return the short child's PID";
   Require_ wait_conformance "mov esi, WNOHANG" "fixture proves the long child remains live after wait-any";
   Require_ wait_conformance "cmp eax, r12d" "fixture later waits for the long child explicitly";
   Require_ wait_short_conformance "mov edi, 1" "short wait child exits after one scheduler tick";
   Require_ executor "syscallGetcwd" "userspace shell can query its process working directory";
   Require_ executor "syscallChdir" "userspace shell can change its process working directory";
   Require_ sdk_source "pub fn shutdown" "SDK wraps normal-profile shutdown";
   Require_ sdk_source "pub fn getcwd" "SDK wraps getcwd";
   Require_ sdk_source "pub fn chdir" "SDK wraps chdir";
   Require_ sdk_source "pub fn ioctl" "Zig SDK wraps ioctl";
   Require_ sdk_source "pub fn stat" "Zig SDK wraps path stat";
   Require_ sdk_source "pub fn openat" "Zig SDK wraps openat";
   Require_ sdk_source "pub fn fsync" "Zig SDK wraps descriptor fsync";
   Require_ sdk_source "pub fn fallocate" "Zig SDK wraps sparse allocation and hole punching";
   Require_ sdk_source "pub fn writev" "Zig SDK wraps gathered descriptor writes";
   Require_ sdk_source "pub fn readv" "Zig SDK wraps scattered descriptor reads";
   Require_ sdk_source "pub fn constVector" "Zig SDK builds immutable vector descriptors";
   Require_ sdk_source "pub fn mutableVector" "Zig SDK builds mutable vector descriptors";
   Require_ sdk_init "ZigOs userspace init PID 1" "standalone Zig init identifies its real PID 1 role";
   Require_ sdk_init "zigos.spawnv" "userspace init launches the shell through the public ABI";
   Require_ sdk_init "zigos.wait" "userspace init waits for and reaps the shell";
   Require_ sdk_init "zigos.shutdown" "userspace init requests final system shutdown";
   Require_ sdk_shell "ZigOs userspace shell PID 2" "standalone Zig shell identifies its real PID 2 role";
   Require_ sdk_shell "zigos.spawn" "userspace shell launches child ELF programs through the ABI";
   Require_ sdk_shell "zigos.wait" "userspace shell waits and reports child status";
   Require_ normal_boot_test "ZigOs userspace init PID 1" "normal QEMU gate requires a real CPL3 PID 1";
   Require_ normal_boot_test "userspace init reaped shell PID 2 status 0" "normal QEMU gate requires PID 1 supervision and reap";
   Require_ normal_boot_test "process 3 exited 42" "normal QEMU gate proves userspace shell spawn/wait";
   Require_ normal_boot_test "alloc/free 929/929 cache-released 13 storage persistent clean yes" "normal QEMU gate requires exact G290 physical reclamation and persistent mode";
   Require_ normal_boot_test "forbidden" "normal QEMU gate rejects diagnostic proof markers";
   Require_ kernel "continuing normal boot with embedded assets and RAM-backed root" "normal boot no longer hard-fails without permanent storage";
   Require_ runtime "diskless-ram-root" "normal shutdown distinguishes the diskless recovery profile";
   Require_ diskless_normal_boot_test "usb-storage" "diskless gate boots the EFI image from unsupported USB storage";
   Require_ diskless_normal_boot_test "writable mounts synchronized" "diskless userspace proves ramfs-only global sync";
   Require_ diskless_normal_boot_test "send(client, process, serial, “cat /tmp/recovery.txt“, b“diskless recovery“)⏎            send(client, process, serial, “cat /tmp/recovery.txt“, b“diskless recovery“)" "diskless QEMU gate repeats one RAM-root file read to prove a real page-cache hit";
   Require_ diskless_normal_boot_test "“sync: unsupported“," "diskless gate forbids regression to persistence-gated global sync";
   Require_ diskless_normal_boot_test "storage diskless-ram-root cleanup yes" "diskless QEMU gate requires clean resource reclamation";
   Require_ runtime "ZigOs shutdown drain:" "diagnostic shutdown drains and reaps delayed terminal userspace";
   Test (λ r, abi_version_bad r) "permanent-userspace contract missing: ABI version 1.32";
   Test (λ r, numbering_bad r) "permanent-userspace contract missing: ABI 1.32 syscall numbering";
   Test (λ r, Ok (group_differs r "message_flags" [("dontwait", 1)])) "permanent-userspace contract missing: bounded MSG_DONTWAIT value";
   Test (λ r, Ok (group_differs r "socket_shutdown" [("read", 0); ("write", 1); ("both", 2)])) "permanent-userspace contract missing: ABI 1.31 socket shutdown mode values";
   Test (λ r, Ok (shutdown_bad r)) "permanent-userspace contract missing: OS shutdown 93 must remain distinct from socket shutdown 132";
   Test (λ r, Ok (group_differs r "socket_option_levels" [("socket", 1)])) "permanent-userspace contract missing: G307 socket option level namespace";
   Test (λ r, Ok (group_differs r "socket_options" [("nonblocking", 1); ("type", 2); ("protocol", 3); ("acceptconn", 4)])) "permanent-userspace contract missing: G307 socket option values";
   Test (λ r, Ok (entry_differs r "errno" "protocol_option" (-92))) "permanent-userspace contract missing: G307 unsupported-option errno";
   Test (λ r, Ok (group_differs r "spawn_flags" [("new_process_group", 0); ("join_process_group", 1); ("pipeline_io", 2); ("foreground_process_group", 3)])) "permanent-userspace contract missing: ABI 1.24 foreground spawn flag values";
   Test (λ r, Ok (group_differs r "spawn_io" [("inherit_descriptor", 65535)])) "permanent-userspace contract missing: ABI 1.22 pipeline descriptor sentinel";
   Test (λ r, Ok (group_differs r "wait_flags" [("nohang", 0); ("process_group", 1)])) "permanent-userspace contract missing: ABI 1.23 process-group wait flag values";
   Test (λ r, Ok (foreground_bad r)) "permanent-userspace contract missing: ABI 1.23 foreground process-group ioctl values";
   Test (λ r, Ok (group_differs r "fallocate_flags" [("keep_size", 0); ("punch_hole", 1)])) "permanent-userspace contract missing: bounded fallocate mode values";
   Test (λ r, Ok (group_differs r "mount_flags" [("read_only", 0)])) "permanent-userspace contract missing: bounded mount flag values";
   Test (λ r, Ok (group_differs r "flock_operations" [("shared", 1); ("exclusive", 2); ("nonblock", 4); ("unlock", 8)])) "permanent-userspace contract missing: bounded flock operation values"].

Definition part_3 : list statement := [
   Test (λ r, Ok (group_differs r "directory_event_flags" [("created", 0); ("removed", 1); ("rename_from", 2); ("rename_to", 3); ("overflow", 4)])) "permanent-userspace contract missing: stable directory notification event flags";
   Test (λ r, Ok (group_differs r "filesystem_types" [("ramfs", 1); ("tmpfs", 2); ("boot_fat", 3); ("procfs", 4); ("devfs", 5); ("netfs", 6); ("zigos_persist", 7)])) "permanent-userspace contract missing: stable filesystem type identifiers";
   Test (λ r, Ok (group_differs r "filesystem_stat_flags" [("read_only", 0); ("shared_blocks", 1); ("shared_nodes", 2); ("synthetic", 3)])) "permanent-userspace contract missing: filesystem-stat interpretation flags";
   Test (λ r, Ok (group_differs r "seek_whence" [("start", 0); ("current", 1); ("end", 2)])) "permanent-userspace contract missing: seek-whence values";
   Test (λ r, Ok (group_differs r "limits" [("arguments", 8); ("argument_bytes", 31); ("environment", 8); ("environment_bytes", 63); ("iovecs", 8)])) "permanent-userspace contract missing: bounded spawn-vector limits";
   Require_ runtime_abi "pub const IoVector = extern struct" "ABI publishes a stable 16-byte vectored-I/O descriptor";
   Require_ runtime_abi "@sizeOf(IoVector)" "ABI layout test covers vectored-I/O descriptors";
   Require_ runtime_abi "constants.maximum_iovecs" "kernel ABI consumes the generated eight-vector limit";
   Require_ runtime_abi "pub const UserString = extern struct" "ABI publishes bounded user-string descriptors";
   Require_ runtime_abi "pub const SpawnRequest = extern struct" "ABI publishes spawnv request layout";
   Require_ runtime_abi "pub const AuxvEntry = extern struct" "ABI publishes auxiliary-vector entries";
   Require_ runtime_abi "test “spawnv request and startup vector layouts are stable“" "spawnv structures have exact layout tests";
   Require_ executor "syscallSpawnv" "kernel implements copied and validated spawn vectors";
   Require_ executor "fn buildInitialStack" "kernel builds argv, envp and auxiliary vectors";
   Require_ executor "const auxiliary = [_]runtime_abi.AuxvEntry" "initial stack carries the bounded auxiliary contract";
   Require_ sdk_startup ".scan_environment:" "SDK startup locates envp termination and auxv";
   Require_ sdk_source "pub fn spawnv" "SDK exposes argument and environment propagation";
   Require_ sdk_source "pub fn environmentValue" "SDK exposes bounded environment lookup";
   Require_ sdk_source "pub fn auxiliaryValue" "SDK exposes bounded auxiliary lookup";
   Require_ sdk_shell "zigos.spawnv" "userspace shell passes argv and envp to external programs";
   Require_ sdk_shell "shellEnvironmentValue(“PATH“)" "userspace shell searches the inherited-or-assigned PATH";
   Require_ sdk_conformance "zig-sdk: envp/auxv passed" "SDK conformance validates startup vectors";
   Require_ normal_boot_test "persist-sdk alpha beta" "normal QEMU gate proves persistent PATH lookup, argv and inherited envp";
   Require_ normal_boot_test "process 4 exited 86" "normal QEMU gate proves spawnv child status";
   Require_ executor "syscallSync" "userspace can synchronize every configured writable mount through the versioned ABI";
   Forbid sync_syscall "persistent_storage_capability" "global sync must remain available on ramfs-only systems";
   Require_ runtime "syncAllWritableMounts" "sync syscall reaches the validated all-writable-mount backend";
   Require_ sdk_source "pub fn sync" "SDK exposes global writable-mount sync";
   Require_ sdk_shell "fn commandCp" "userspace shell copies files through descriptors";
   Require_ sdk_shell "fn spawnFromPath" "userspace shell searches multiple PATH directories";
   Require_ normal_boot_test "cp /bin/sdk.elf /persist/persist-sdk.elf" "normal profile installs an ELF into the persistent mount";
   Require_ normal_boot_test "writable mounts synchronized" "normal profile synchronizes ramfs and the persistent mount";
   Require_ normal_boot_test "fs verify-live" "normal profile runs the same-boot baseline verifier without invoking crash-recovery assumptions";
   Require_ normal_boot_test "baseline/mode/seek/hard-link/symlink/fallocate/sparse/cleanup passed" "normal profile cleans the baseline filesystem fixture in one boot";
   Require_ persistence_test "exec /persist/persist-sdk.elf alpha beta" "boot four executes the restored persistent ELF";
   Require_ persistence_test "header_a.record_count != 8 or header_b.record_count != 8" "fsync and fdatasync each preserve all committed namespace records";
   Require_ persistence_test "header_a.record_count != 8 or header_b.record_count != 3" "recovery cleanup leaves the prior fdatasync generation intact in the alternate slot";
   Require_ executor "syscallLseek" "ABI exposes descriptor seek without offset truncation";
   Require_ executor "syscallMkdir" "ABI exposes userspace directory creation";
   Require_ executor "syscallSinglePathMutation" "ABI exposes unlink and rmdir through one checked path";
   Require_ executor "syscallRename" "ABI copies both rename paths before mutation";
   Require_ executor "syscallChmod" "ABI exposes permission-bit mutation";
   Require_ executor "syscallFallocate" "ABI exposes checked descriptor sparse allocation and hole punching";
   Require_ executor "fn loadIoVectorPlan" "kernel copies and validates every vector descriptor before I/O";
   Require_ executor "count > runtime_abi.constants.maximum_iovecs" "kernel rejects more than eight vectors before descriptor-array copy";
   Require_ executor "plan.total > maximum_io_bytes" "vectored I/O preserves the 1024-byte syscall transfer ceiling";
   Require_ executor "validateRange(context, vector.pointer, length, write_to_user)" "all vector data ranges are validated before descriptor I/O";
   Require_ executor "fn syscallWritev" "kernel gathers vectors before one descriptor write";
   Require_ executor "fn syscallReadv" "kernel performs one descriptor read before scattering bytes";
   Require_ executor "bytes[0..plan.total]" "both vectored syscalls use one bounded contiguous staging transaction";
   Require_ executor "for (plan.vectors[0..plan.count])" "kernel gathers and scatters only the validated vector plan";
   Require_ executor "syscall.syscall_writev => return syscallWritev" "ABI dispatch reaches writev";
   Require_ executor "syscall.syscall_readv => return syscallReadv" "ABI dispatch reaches readv";
   Require_ runtime_abi "pub fn fallocateFlagBits" "kernel ABI rejects unknown and contradictory fallocate modes";
   Require_ fd_source "pub fn fallocate" "descriptor layer enforces VFS ownership and writability for fallocate"].

Definition fs_wrappers : list statement := (λ wrapper, Require_ sdk_source ("pub fn " +:+ wrapper) ("SDK exposes " +:+ wrapper)) <$>
  ["lseek"; "mkdir"; "unlink"; "rmdir"; "rename"; "chmod"].

Definition part_4 : list statement := [
   Require_ build_graph "sdk/zig/fs_conformance.zig" "build graph compiles the independent filesystem ABI fixture";
   Require_ build_graph "sdk/zig/ls.zig" "G273 build graph compiles standalone ls as freestanding Zig";
   Require_ build_graph "sdk/zig/cat.zig" "G274 build graph compiles standalone cat as freestanding Zig";
   Require_ build_graph "sdk/zig/echo.zig" "G275 build graph compiles standalone echo as freestanding Zig";
   Require_ build_graph "sdk/zig/pwd.zig" "G276 build graph compiles standalone pwd as freestanding Zig";
   Require_ build_graph "sdk/zig/mkdir.zig" "G277 build graph compiles standalone mkdir as freestanding Zig";
   Require_ build_graph "sdk/zig/hexdump.zig" "G282 build graph compiles standalone hexdump as freestanding Zig";
   Require_ build_graph "“artifacts/hexdump.elf“" "G282 install graph publishes standalone hexdump";
   Require_ build_graph "verify_hexdump.addFileArg(userspace_hexdump.getEmittedBin())" "G282 standalone hexdump receives independent ELF verification";
   Require_ build_graph "sdk/zig/ps.zig" "G283 build graph compiles standalone ps as freestanding Zig";
   Require_ build_graph "“artifacts/ps.elf“" "G283 install graph publishes standalone ps";
   Require_ build_graph "verify_ps.addFileArg(userspace_ps.getEmittedBin())" "G283 standalone ps receives independent ELF verification";
   Require_ build_graph "sdk/zig/kill.zig" "G284 build graph compiles standalone kill as freestanding Zig";
   Require_ build_graph "“artifacts/kill.elf“" "G284 install graph publishes standalone kill";
   Require_ build_graph "verify_kill.addFileArg(userspace_kill.getEmittedBin())" "G284 standalone kill receives independent ELF verification";
   Require_ build_graph "sdk/zig/sleep.zig" "G284 build graph compiles standalone sleep as freestanding Zig";
   Require_ build_graph "“artifacts/sleep.elf“" "G284 install graph publishes standalone sleep";
   Require_ build_graph "verify_sleep.addFileArg(userspace_sleep.getEmittedBin())" "G284 standalone sleep receives independent ELF verification";
   Require_ build_graph "sdk/zig/mount.zig" "G285 build graph compiles standalone mount as freestanding Zig";
   Require_ build_graph "“artifacts/mount.elf“" "G285 install graph publishes standalone mount";
   Require_ build_graph "verify_mount.addFileArg(userspace_mount.getEmittedBin())" "G285 standalone mount receives independent ELF verification";
   Require_ build_graph "sdk/zig/df.zig" "G286 build graph compiles standalone df as freestanding Zig";
   Require_ build_graph "“artifacts/df.elf“" "G286 install graph publishes standalone df";
   Require_ build_graph "verify_df.addFileArg(userspace_df.getEmittedBin())" "G286 standalone df receives independent ELF verification";
   Require_ build_graph "sdk/zig/fsck.zig" "G287 build graph compiles standalone fsck as freestanding Zig";
   Require_ build_graph "“artifacts/fsck.elf“" "G287 install graph publishes standalone fsck";
   Require_ build_graph "verify_fsck.addFileArg(userspace_fsck.getEmittedBin())" "G287 standalone fsck receives independent ELF verification";
   Require_ build_graph "sdk/zig/uname.zig" "G288 build graph compiles standalone uname as freestanding Zig";
   Require_ build_graph "“artifacts/uname.elf“" "G288 install graph publishes standalone uname";
   Require_ build_graph "verify_uname.addFileArg(userspace_uname.getEmittedBin())" "G288 standalone uname receives independent ELF verification";
   Require_ build_graph "sdk/zig/env.zig" "G289 build graph compiles standalone env as freestanding Zig";
   Require_ build_graph "“artifacts/env.elf“" "G289 install graph publishes standalone env";
   Require_ build_graph "verify_env.addFileArg(userspace_env.getEmittedBin())" "G289 standalone env receives independent ELF verification";
   Require_ build_graph "sdk/zig/edit.zig" "G290 build graph compiles standalone edit as freestanding Zig";
   Require_ build_graph "“artifacts/edit.elf“" "G290 install graph publishes standalone edit";
   Require_ build_graph "verify_edit.addFileArg(userspace_edit.getEmittedBin())" "G290 standalone edit receives independent ELF verification";
   Require_ build_graph "sdk/zig/head.zig" "G281 build graph compiles standalone head as freestanding Zig";
   Require_ build_graph "“artifacts/head.elf“" "G281 install graph publishes standalone head";
   Require_ build_graph "verify_head.addFileArg(userspace_head.getEmittedBin())" "G281 standalone head receives independent ELF verification";
   Require_ build_graph "sdk/zig/tail.zig" "G281 build graph compiles standalone tail as freestanding Zig";
   Require_ build_graph "“artifacts/tail.elf“" "G281 install graph publishes standalone tail";
   Require_ build_graph "verify_tail.addFileArg(userspace_tail.getEmittedBin())" "G281 standalone tail receives independent ELF verification";
   Require_ build_graph "sdk/zig/wc.zig" "G281 build graph compiles standalone wc as freestanding Zig";
   Require_ build_graph "“artifacts/wc.elf“" "G281 install graph publishes standalone wc";
   Require_ build_graph "verify_wc.addFileArg(userspace_wc.getEmittedBin())" "G281 standalone wc receives independent ELF verification";
   Require_ build_graph "sdk/zig/grep.zig" "G281 build graph compiles standalone grep as freestanding Zig";
   Require_ build_graph "“artifacts/grep.elf“" "G281 install graph publishes standalone grep";
   Require_ build_graph "verify_grep.addFileArg(userspace_grep.getEmittedBin())" "G281 standalone grep receives independent ELF verification";
   Require_ build_graph "sdk/zig/stat.zig" "G280 build graph compiles standalone stat as freestanding Zig";
   Require_ build_graph "“artifacts/stat.elf“" "G280 install graph publishes standalone stat";
   Require_ build_graph "verify_stat.addFileArg(userspace_stat.getEmittedBin())" "G280 standalone stat receives independent ELF verification";
   Require_ build_graph "sdk/zig/mv.zig" "G279 build graph compiles standalone mv as freestanding Zig";
   Require_ build_graph "sdk/zig/cp.zig" "G279 build graph compiles standalone cp as freestanding Zig";
   Require_ build_graph "“artifacts/mv.elf“" "G279 install graph publishes standalone mv";
   Require_ build_graph "“artifacts/cp.elf“" "G279 install graph publishes standalone cp";
   Require_ build_graph "verify_mv.addFileArg(userspace_mv.getEmittedBin())" "G279 standalone mv receives independent ELF verification";
   Require_ build_graph "verify_cp.addFileArg(userspace_cp.getEmittedBin())" "G279 standalone cp receives independent ELF verification";
   Require_ build_graph "sdk/zig/rm.zig" "G278 build graph compiles standalone rm as freestanding Zig";
   Require_ build_graph "sdk/zig/rmdir.zig" "G278 build graph compiles standalone rmdir as freestanding Zig";
   Require_ build_graph "“artifacts/rm.elf“" "G278 install graph publishes standalone rm";
   Require_ build_graph "“artifacts/rmdir.elf“" "G278 install graph publishes standalone rmdir";
   Require_ build_graph "verify_rm.addFileArg(userspace_rm.getEmittedBin())" "G278 standalone rm receives independent ELF verification";
   Require_ build_graph "verify_rmdir.addFileArg(userspace_rmdir.getEmittedBin())" "G278 standalone rmdir receives independent ELF verification";
   Require_ build_graph "“artifacts/mkdir.elf“" "G277 install graph publishes standalone mkdir as an artifact";
   Require_ build_graph "verify_mkdir.addFileArg(userspace_mkdir.getEmittedBin())" "G277 standalone mkdir receives independent ELF verification";
   Require_ build_graph "“artifacts/pwd.elf“" "G276 install graph publishes standalone pwd as an artifact";
   Require_ build_graph "verify_pwd.addFileArg(userspace_pwd.getEmittedBin())" "G276 standalone pwd receives independent ELF verification";
   Require_ build_graph "“artifacts/echo.elf“" "G275 install graph publishes standalone echo as an artifact";
   Require_ build_graph "verify_echo.addFileArg(userspace_echo.getEmittedBin())" "G275 standalone echo receives independent ELF verification";
   Require_ build_graph "“artifacts/cat.elf“" "G274 install graph publishes standalone cat as an artifact";
   Require_ build_graph "verify_cat.addFileArg(userspace_cat.getEmittedBin())" "G274 standalone cat receives independent ELF verification";
   Require_ build_graph "“artifacts/ls.elf“" "G273 install graph publishes standalone ls as an artifact";
   Require_ build_graph "verify_ls.addFileArg(userspace_ls.getEmittedBin())" "G273 standalone ls receives independent ELF verification";
   Require_ build_graph "sdk/zig/dns_conformance.zig" "build graph compiles the userspace resolver fixture";
   Require_ build_graph "“artifacts/dns.elf“" "userspace resolver is installed as a standalone artifact";
   Require_ runtime "“/bin/dns.elf“" "userspace resolver fixture is installed into the runtime VFS";
   Require_ dns_source "pub fn resolveA" "SDK exposes a bounded userspace DNS A resolver";
   Require_ dns_source "try zigos.sendto" "userspace resolver transmits through the current generated datagram ABI";
   Require_ dns_source "zigos.recvfrom" "userspace resolver receives through the current generated datagram ABI";
   Require_ dns_source "error.WouldBlock" "userspace resolver retries nonblocking receive until a tick deadline";
   Require_ dns_source "fn skipName" "userspace resolver validates compressed DNS names";
   Require_ dns_conformance "dns.resolveA(server, “localhost“, 200)" "live Zig fixture resolves localhost through the SDK";
   Require_ runtime_test "exec /bin/dns.elf" "required live COM1 session executes the userspace resolver";
   Require_ runtime_test "dns-sdk: userspace resolver localhost -> 127.0.0.1 passed" "required live COM1 session verifies the resolver result";
   Require_ runtime "“/bin/fs.elf“" "filesystem ABI fixture is installed into the runtime VFS";
   Require_ runtime "“/bin/ls.elf“" "G273 standalone ls is installed executable in the runtime VFS";
   Require_ runtime "“/bin/cat.elf“" "G274 standalone cat is installed executable in the runtime VFS";
   Require_ runtime "runtime_cat_elf" "G274 runtime imports the linked standalone cat image";
   Require_ runtime "“/bin/echo.elf“" "G275 standalone echo is installed executable in the runtime VFS";
   Require_ runtime "runtime_echo_elf" "G275 runtime imports the linked standalone echo image";
   Require_ runtime "“/bin/pwd.elf“" "G276 standalone pwd is installed executable in the runtime VFS";
   Require_ runtime "runtime_pwd_elf" "G276 runtime imports the linked standalone pwd image";
   Require_ runtime "“/bin/mkdir.elf“" "G277 standalone mkdir is installed executable in the runtime VFS";
   Require_ runtime "runtime_mkdir_elf" "G277 runtime imports the linked standalone mkdir image";
   Require_ runtime "“/bin/hexdump.elf“" "G282 standalone hexdump is installed executable in the runtime VFS";
   Require_ runtime "runtime_hexdump_elf" "G282 runtime imports standalone hexdump";
   Require_ runtime "“/bin/ps.elf“" "G283 standalone ps is installed executable in the runtime VFS";
   Require_ runtime "runtime_ps_elf" "G283 runtime imports standalone ps";
   Require_ runtime "“/bin/kill.elf“" "G284 standalone kill is installed executable in the runtime VFS";
   Require_ runtime "runtime_kill_elf" "G284 runtime imports standalone kill";
   Require_ runtime "“/bin/sleep.elf“" "G284 standalone sleep is installed executable in the runtime VFS";
   Require_ runtime "runtime_sleep_elf" "G284 runtime imports standalone sleep";
   Require_ runtime "“/bin/runtime-sleep.elf“" "G284 preserves the legacy fixed sleep fixture under a distinct path";
   Require_ runtime "runtime_sleep_fixture_elf" "G284 keeps legacy fixed-sleep bytes separate from standalone sleep";
   Require_ runtime "“/bin/mount.elf“" "G285 standalone mount is installed executable in the runtime VFS";
   Require_ runtime "runtime_mount_elf" "G285 runtime imports standalone mount";
   Require_ runtime "“/bin/df.elf“" "G286 standalone df is installed executable in the runtime VFS";
   Require_ runtime "runtime_df_elf" "G286 runtime imports standalone df";
   Require_ runtime "“/bin/fsck.elf“" "G287 standalone fsck is installed executable in the runtime VFS";
   Require_ runtime "runtime_fsck_elf" "G287 runtime imports standalone fsck";
   Require_ runtime "“/bin/uname.elf“" "G288 standalone uname is installed executable in the runtime VFS";
   Require_ runtime "runtime_uname_elf" "G288 runtime imports standalone uname";
   Require_ runtime "“/bin/env.elf“" "G289 standalone env is installed executable in the runtime VFS";
   Require_ runtime "runtime_env_elf" "G289 runtime imports standalone env";
   Require_ runtime "“/bin/edit.elf“" "G290 standalone edit is installed executable in the runtime VFS";
   Require_ runtime "runtime_edit_elf" "G290 runtime imports standalone edit";
   Require_ runtime "“/bin/head.elf“" "G281 standalone head is installed executable in the runtime VFS";
   Require_ runtime "runtime_head_elf" "G281 runtime imports standalone head";
   Require_ runtime "“/bin/tail.elf“" "G281 standalone tail is installed executable in the runtime VFS";
   Require_ runtime "runtime_tail_elf" "G281 runtime imports standalone tail";
   Require_ runtime "“/bin/wc.elf“" "G281 standalone wc is installed executable in the runtime VFS";
   Require_ runtime "runtime_wc_elf" "G281 runtime imports standalone wc";
   Require_ runtime "“/bin/grep.elf“" "G281 standalone grep is installed executable in the runtime VFS";
   Require_ runtime "runtime_grep_elf" "G281 runtime imports standalone grep";
   Require_ runtime "“/bin/stat.elf“" "G280 standalone stat is installed executable in the runtime VFS";
   Require_ runtime "runtime_stat_elf" "G280 runtime imports standalone stat";
   Require_ runtime "“/bin/mv.elf“" "G279 standalone mv is installed executable in the runtime VFS";
   Require_ runtime "“/bin/cp.elf“" "G279 standalone cp is installed executable in the runtime VFS";
   Require_ runtime "runtime_mv_elf" "G279 runtime imports standalone mv";
   Require_ runtime "runtime_cp_elf" "G279 runtime imports standalone cp";
   Require_ runtime "“/bin/rm.elf“" "G278 standalone rm is installed executable in the runtime VFS";
   Require_ runtime "“/bin/rmdir.elf“" "G278 standalone rmdir is installed executable in the runtime VFS";
   Require_ runtime "runtime_rm_elf" "G278 runtime imports standalone rm";
   Require_ runtime "runtime_rmdir_elf" "G278 runtime imports standalone rmdir";
   Require_ runtime "runtime_ls_elf" "G273 runtime imports the linked standalone ls image";
   Require_ fs_conformance "init/mkdir/write/seek/replace-rename/chmod/link/nlink/symlink/readlink/fallocate/sparse/open-unlink/rmdir/sync passed" "fixture exercises sparse allocation, replacement rename and deferred open-file unlink";
   Require_ vfs_source "const Dentry = struct" "VFS separates directory-entry names from node identity";
   Require_ vfs_source "dentries: [maximum_dentries]Dentry" "VFS owns a bounded dentry namespace table";
   Require_ vfs_source "const DentryCacheEntry = struct" "VFS separates cached lookup entries from authoritative dentries";
   Require_ vfs_source "references: u16 = 0" "dentry cache entries retain explicit reference counts"].

Definition part_5 : list statement := [
   Require_ vfs_source "dentry_cache: [maximum_dentry_cache_entries]DentryCacheEntry" "VFS owns a bounded dentry lookup cache";
   Require_ vfs_source "pub const maximum_file_page_cache_entries: usize = 16" "VFS publishes a fixed sixteen-page file-data cache bound";
   Require_ vfs_source "file_page_cache: [maximum_file_page_cache_entries]FilePageCacheEntry" "VFS owns a separate bounded file-page cache index";
   Require_ vfs_source "pub const FilePageAllocator = struct" "file-page cache backing is supplied through explicit allocate/release callbacks";
   Require_ vfs_source "address: usize = 0" "file-page cache entries reference independently allocated page backing";
   Require_ vfs_source "pub fn setFilePageAllocator" "runtime configures cache backing before ordinary file reads";
   Require_ vfs_source "fn cachedFilePageLocked" "ordinary file reads load and hit generation-keyed cached pages";
   Require_ vfs_source "entry.node_generation != node_generation" "file-page cache keys include inode generation to reject slot reuse";
   Require_ vfs_source "fn invalidateFilePageCacheNode" "write-through mutations invalidate cached inode pages";
   Require_ vfs_source "dirty_file_page_bitmap: [maximum_nodes]u8" "VFS retains dirty-page state independently of cache residency";
   Require_ vfs_source "dirty: bool = false" "resident file-page entries mirror the authoritative dirty ledger";
   Require_ vfs_source "fn markDirtyFilePagesLocked" "data and allocation mutations mark logical pages dirty";
   Require_ vfs_source "pub fn clearDirtyNodePages" "successful file-scoped synchronization can clear only its target inode";
   Require_ vfs_source "pub fn clearDirtyWritableMountPages" "successful global synchronization can clear all writable mounts";
   Require_ vfs_source "if (readonly) _ = self.discardDirtyMountPages(mount_id);" "read-only mounts adopt pre-seeded backend data as a clean baseline";
   Require_ vfs_source "pub fn remountReadOnly" "VFS can atomically remove mutation authority from one mounted tree";
   Require_ vfs_source "pub fn mountReadOnly" "runtime and tests can verify the exact remount state";
   Require_ vfs_source "open_file.writable and !self.nodeReadonly" "retained writable descriptions stop advertising writable readiness after remount";
   Require_ vfs_source "fn discardDirtyMountPages" "immutable mount adoption and fail-stop remount discard transient dirtiness";
   Require_ vfs_source "test “VFS read only remount rejects retained and new writes while preserving reads“" "VFS proves retained-descriptor EROFS, readable live data and idempotent remount";
   Require_ vfs_source "test “VFS dirty page ledger survives cache eviction and clears on synchronization“" "isolated test proves exact dirty bits, eviction survival, synchronization clear and inode-destruction discard";
   Forbid vfs_source "for (self.file_page_cache" "large file-page cache scans copied the full cache array onto the kernel stack";
   Require_ vfs_source "test “VFS bounded clean page cache hits evicts and invalidates mutations“" "isolated test proves bounded hits, LRU eviction, sparse-zero caching and mutation invalidation";
   Require_ vfs_source "pub fn reclaimCleanFilePageCacheUnderPressure" "VFS exposes bounded low-watermark clean-page reclaim";
   Require_ vfs_source "if (!entry.used or entry.dirty or entry.mapping_references != 0 or entry.last_used >= oldest) continue" "pressure reclaim skips dirty and mapped resident pages while choosing clean unpinned LRU victims";
   Require_ vfs_source "pub fn releaseFilePageCache" "shutdown can return every remaining clean cache page to its backing allocator";
   Require_ vfs_source "test “VFS pressure reclaim releases clean cache pages and retains dirty pages“" "isolated test proves real backing release, clean-only LRU reclaim and dirty-ledger retention";
   Require_ vfs_source "pub const MappedFilePage = struct" "VFS publishes generation-tagged borrowed file-page metadata";
   Require_ vfs_source "pub fn pinFilePage" "shared file mappings pin one generation-safe cache page";
   Require_ vfs_source "pub fn unpinFilePage" "unmap and process teardown release exact mapped page pins";
   Require_ vfs_source "fn requireMutableFile" "already-open writable descriptions preserve mutation authority after pathname mode changes";
   Require_ vfs_source "pub fn createBackedFileWithOperations" "VFS exposes sized read-only regular files backed by external block callbacks";
   Require_ vfs_source "backed_files: usize" "VFS reports block-backed files separately from RAM-resident ordinary files";
   Require_ vfs_source "backed_bytes: usize" "VFS reports logical block-backed bytes without charging the RAM-file budget";
   Require_ vfs_source "if (node.kind != .file or node.pseudo_operations != null) return Error.UnsupportedOperation" "whole-file RAM views reject externally backed files";
   Require_ vfs_source "if (node.pseudo_operations != null) return self.readPseudo" "path reads stream backed regular files through their read callback";
   Require_ vfs_source "test “VFS backed regular files stream beyond the ordinary file-size limit“" "isolated VFS test streams a sized read-only file beyond the 32 KiB RAM-file bound";
   Require_ vfs_source "mapping_references: u16 = 0" "inode and cache entries retain explicit file-mapping references";
   Require_ vfs_source "entry.mapping_references != 0 and entry.node_generation" "ordinary file writes refresh pinned mapped pages instead of invalidating them";
   Require_ vfs_source "if (self.nodes[node_index].mapping_references != 0) return true" "mapped unlinked files retain inode lifetime";
   Require_ vfs_source "test “VFS pinned file page resists pressure refreshes writes and retains unlinked lifetime“" "isolated test proves pressure resistance, file-to-map coherence, unlink lifetime and final reclamation";
   Require_ boot_fat_source "pub const maximum_files: usize = 32" "boot FAT import has a fixed file bound";
   Require_ boot_fat_source "pub const maximum_directories: usize = 24" "boot FAT import has a fixed directory bound";
   Require_ boot_fat_source "pub const maximum_depth: u8 = 8" "boot FAT traversal has a fixed nesting bound";
   Require_ boot_fat_source "if (self.volume.kind != .fat16)" "runtime boot backend accepts only the verified FAT16 boot-volume format";
   Require_ boot_fat_source "fn scanDirectoryLocked" "boot FAT scans short-name directory metadata into bounded staging before publication";
   Require_ boot_fat_source "fn publishNamespace" "VFS dentries are published only after every staged chain validates";
   Require_ boot_fat_source "try self.publishNamespace(vfs, mountpoint, tick);" "mount publication follows complete FAT integrity validation";
   Require_ boot_fat_source "pub fn quarantine" "classified FAT corruption can erase staging and enter a conserved quarantine state";
   Require_ boot_fat_source "pub fn validateQuarantine" "quarantine reason, counters and lock balance have an explicit invariant";
   Require_ boot_fat_source "fn validateFileChainLocked" "boot FAT validates every imported file chain before exposure";
   Require_ boot_fat_source "fn markChainVisitedLocked" "same-chain FAT revisits are classified as loops";
   Require_ boot_fat_source "claimed_cluster_bitmap" "mount-time FAT validation retains one global cluster-ownership bitmap";
   Require_ boot_fat_source "fn claimClusterLocked" "every imported directory and file chain claims all clusters through EOC";
   Require_ boot_fat_source "Error.CrossLinkedCluster" "cross-chain cluster reuse is rejected distinctly";
   Require_ boot_fat_source "Error.OutOfRangeCluster" "invalid current or next clusters are rejected distinctly";
   Require_ boot_fat_source "out_of_range_links +%= 1" "out-of-range FAT references have explicit accounting";
   Require_ boot_fat_source "cached_fat_lba" "boot FAT caches the current FAT sector during long chain traversal";
   Require_ boot_fat_source "cursor_cluster" "block-backed files retain a sequential cluster cursor for linear reads";
   Require_ boot_fat_source "io_lock: synchronization.TicketLock" "one ticket lock protects shared FAT sector buffers and file cursors";
   Require_ boot_fat_source "read_fn: ReadBlockFn" "boot FAT reads through a generic retained block-device callback";
   Require_ boot_fat_source "test “read-only FAT16 backend imports directories and streams large files from blocks“" "standalone backend test proves nested metadata, multi-cluster reads and files beyond 32 KiB";
   Require_ boot_fat_source "runtime_vfs.Error.InputOutput" "block-device read failure is translated to the VFS I/O error rather than EOF or corruption";
   Require_ boot_fat_source "(try vfs.openInfo(9, readme_handle)).offset" "failed backed-file reads preserve the open-description offset for retry";
   Require_ boot_fat_source "failed_output" "failed backed-file reads preserve the caller buffer";
   Require_ runtime_abi "fromError(error.InputOutput)" "VFS input/output failures map explicitly to userspace EIO";
   Require_ sdk_shell "error.InputOutput => “input/output error“" "userspace shell renders EIO distinctly";
   Require_ executor "fn readDescriptorInKernelAddressSpace" "CPL3 read and readv execute descriptor I/O under the kernel address space";
   Require_ executor "paging.activateKernelAddressSpace()" "descriptor reads activate kernel mappings before block-backed MMIO";
   Require_ executor "paging.activateAddressSpace(user_root)" "descriptor reads restore the exact process CR3 before copying results to userspace";
   Test (λ r, count_differs r "src/runtime_user.zig" ["readDescriptorInKernelAddressSpace(context, fd"] 2) "read and readv must both use the kernel-address-space descriptor wrapper";
   Require_ vfs_source "fn acquireDentry" "path traversal pins cache entries during use";
   Require_ vfs_source "fn releaseDentryReference" "path traversal releases cache references on every exit path";
   Require_ vfs_source "fn invalidateCachedDentry" "namespace mutation invalidates matching cached dentries";
   Require_ vfs_source "fn cacheInsertionSlot" "cache insertion selects an unreferenced LRU slot";
   Require_ vfs_source "if (cache_entry.references != 0) continue" "referenced cache entries cannot be evicted";
   Require_ vfs_source "return .{ .dentry = dentry_index }" "cache exhaustion falls back to authoritative lookup";
   Require_ vfs_source "test “VFS dentry cache references protect pinned entries and invalidate mutations“" "isolated test proves reference pinning, LRU eviction and mutation invalidation";
   Require_ synchronization_source "std.atomic.spinLoopHint()" "ticket locks use a portable processor-relax hint in kernel and host tests";
   Forbid synchronization_source "zigos_cpu_relax" "ticket locks retained a host-incompatible assembly-only relax dependency";
   Require_ vfs_source "const synchronization = @import(“synchronization.zig“);" "VFS reuses the shared ticket-lock primitive";
   Require_ vfs_source "data_lock: synchronization.TicketLock" "each inode owns a data-mutation serialization lock";
   Require_ vfs_source "page_write_locks: [file_blocks_per_node]synchronization.TicketLock" "each inode owns one writer lock per logical file page";
   Require_ vfs_source "fn acquirePageWriteLocks" "multi-page mutations acquire page locks in ascending slot order";
   Require_ vfs_source "fn releasePageWriteLocks" "multi-page mutations release page locks in reverse slot order";
   Require_ vfs_source "const page_bitmap: u8 = if (truncate_first) 0xFF else filePageRangeBitmap" "ordinary and replacement writes lock every affected logical page";
   Require_ vfs_source "test “VFS same cached page writes use page scoped serialization“" "four host threads prove same-page writer serialization and intact disjoint regions";
   Require_ vfs_source "fn appendNode" "append has a dedicated serialized EOF-to-write transaction";
   Require_ vfs_source "const offset = node.size;" "append selects EOF while holding the inode data lock";
   Require_ vfs_source "const written = try self.writeNodeLocked" "append copies data and updates size inside the same critical section";
   Require_ vfs_source "open_file.offset = offset + written;" "descriptor append updates its final offset before releasing the inode data lock";
   Require_ vfs_source "test “VFS append writes are atomic across independent concurrent writers“" "four host threads prove append records are neither overlapped nor lost";
   Require_ vfs_source "std.Thread.spawn" "append atomicity is tested with actual concurrent host writers";
   Require_ vfs_source "pub const file_block_size: usize = 4096" "sparse files use bounded page-sized logical blocks";
   Require_ vfs_source "pub const maximum_data_blocks: usize = 256" "regular files share a bounded one-mebibyte block pool";
   Require_ vfs_source "file_blocks: [file_blocks_per_node]u16" "file nodes retain sparse logical-to-resident block maps";
   Require_ vfs_source "data_blocks: [maximum_data_blocks]DataBlock" "VFS owns one shared resident data-block pool";
   Require_ vfs_source "data_pool_lock: synchronization.TicketLock" "shared block ownership has an explicit serialization lock";
   Forbid vfs_source "data: [maximum_file_size]u8" "regular files silently returned to per-node dense backing";
   Require_ vfs_source "fn prepareWriteBlocks" "writes allocate all required sparse blocks before changing the map";
   Require_ vfs_source "if (node.kind == .directory) return Error.IsDirectory;⏎        if (node.kind != .file) return Error.UnsupportedOperation;" "dense file installation rejects pseudo and other non-regular nodes before sparse allocation";
   Require_ vfs_source "fs.putFile(0, “/dev/device“, “dense“" "pseudo-node regression prevents sparse-block ownership through putFile";
   Require_ vfs_source "if (required > self.freeDataBlockCount() + reusable) return Error.NoSpace" "pool exhaustion is rejected before destructive remapping";
   Require_ vfs_source "fn punchHoleLocked" "full resident pages can be released while partial ranges are zeroed";
   Require_ vfs_source "fn readFileData" "reads synthesize zeros for unallocated logical blocks";
   Require_ vfs_source "pub fn restoreSparseFile" "journal recovery restores allocation maps and logical size directly";
   Require_ vfs_source "for (0..self.data_blocks.len)" "large shared-pool scans use indexed references rather than stack copies";
   Forbid vfs_source "for (self.data_blocks)" "large shared-pool iteration copied one mebibyte onto the kernel stack";
   Require_ vfs_source "test “VFS sparse holes allocate punch persist size and reuse bounded blocks“" "isolated sparse test proves holes, KEEP_SIZE, punching, exhaustion atomicity and block reuse";
   Require_ vfs_source "test “VFS sparse restoration applies final nonwritable mode after privileged reconstruction“" "recovery can reconstruct executable 0555 files before applying final mode";
   Require_ fd_source "test “descriptor fallocate preserves size punches holes and enforces writability“" "descriptor fallocate has an ownership and mode regression test";
   Require_ vfs_source "parent_id: u8 = 0" "mount entries retain explicit parent-mount identity";
   Require_ vfs_source "mountpoint_node: u16 = invalid_node" "mount entries retain covered mountpoint nodes";
   Require_ vfs_source "root_node: u16 = invalid_node" "mount entries own separate mounted root nodes";
   Require_ vfs_source "fn mountAtNode" "resolver can detect mountpoint boundaries";
   Require_ vfs_source "fn mountForRoot" "parent and canonical traversal can detect mounted roots";
   Require_ vfs_source "fn followMount" "path components cross mountpoints into mounted roots";
   Require_ vfs_source "fn allocateMountRoot" "mount creates a distinct root node";
   Require_ vfs_source "fn migrateMountChildren" "pre-seeded namespace contents move into the mounted root";
   Require_ vfs_source "mount_entry.parent_id == mount_id" "unmount rejects a mount that still owns child mounts";
   Require_ vfs_source "fn destroyMountNamespace" "child-first unmount releases the mounted namespace";
   Require_ vfs_source "test “VFS nested mount roots cross boundaries and unmount child first“" "isolated test proves nested mount traversal, mounted-root parent semantics and child-first unmount";
   Forbid vfs_source "fn assignMountRecursive" "flat recursive mount tagging returned";
   Require_ vfs_source "link_count: u16 = 0" "VFS nodes retain explicit namespace link counts";
   Require_ vfs_source "fn entryForPath" "namespace mutations resolve final dentries independently of node lookup";
   Require_ vfs_source "fn detachOrReclaimEntry" "unlink and replacement rename release one dentry before inode reclamation";
   Require_ vfs_source "fn maybeReclaimUnlinked" "last open handle reclaims zero-link nodes";
   Require_ vfs_source "pub fn link" "VFS creates same-mount hard-link dentries";
   Require_ vfs_source "const node_index = try self.resolveNoFollowAs(cwd, old_path, credentials);" "hard-link creation does not follow a final symbolic-link source";
   Require_ runtime "output.decimal(info.link_count)" "diagnostic shell stat exposes namespace link counts";
   Require_ runtime "canonicalPath(mount_entry.root_node" "mount command reports mounted roots rather than covered nodes";
   Require_ kernel "retained_nvme_efi_partition" "kernel retains the verified EFI GPT partition for permanent runtime use";
   Require_ kernel ".nvme_boot_first_lba" "kernel passes the retained EFI partition start into runtime configuration";
   Require_ kernel ".nvme_boot_sector_count" "kernel passes the retained EFI partition extent into runtime configuration";
   Require_ runtime "runtime_boot_fat.Backend" "runtime owns a persistent block-backed boot FAT backend";
   Require_ runtime "fn bootFatReadBlock" "runtime routes FAT reads to the retained NVMe controller";
   Require_ runtime "state.boot_fat.mount(&state.vfs, “/boot“, “nvme0p1“" "NVMe boots mount the verified EFI partition as the real /boot namespace";
   Require_ runtime "fn installEmbeddedBootAssets" "diskless and quarantined media share one explicit embedded read-only fallback installer";
   Require_ runtime "state.boot_fat.quarantine(err)" "runtime quarantines only classified FAT integrity failures"].

Definition part_6 : list statement := [
   Require_ runtime "installEmbeddedBootAssets(“embedded-quarantine“)" "quarantined media receives a safe embedded /boot namespace";
   Require_ runtime "ZigOs boot FAT quarantined:" "runtime emits the classified quarantine reason before entering userspace";
   Require_ runtime "fn bootFatStateClean" "normal and diagnostic release gates validate block-backed or absent fallback state";
   Require_ runtime "emitBootFatReport" "runtime shutdown reports FAT metadata, file, block and ownership conservation";
   Require_ boot_fat_source "free_clusters: u32" "retained FAT backend stores a measured free-cluster count";
   Require_ boot_fat_source "fn countFreeClustersLocked" "FAT capacity walks every cluster entry rather than inferring free space from imported files";
   Require_ boot_fat_source "vfs.setMountBlockCapacity" "real FAT geometry is attached to the mounted VFS backend";
   Require_ vfs_source "pub const FilesystemStats" "VFS exposes a typed mount-capacity result";
   Require_ vfs_source "pub fn statFilesystem" "VFS resolves filesystem statistics by path";
   Require_ vfs_source "pub fn setMountBlockCapacity" "VFS accepts independently measured backend capacity";
   Require_ vfs_source ".shared_blocks = true" "shared RAM-backed mounts explicitly identify one common data-block pool";
   Require_ vfs_source ".synthetic = true" "pseudo filesystems identify their zero-data-block accounting as synthetic";
   Require_ vfs_source "test “VFS filesystem statistics distinguish shared and backend capacity“" "isolated VFS test distinguishes shared RAM capacity, real FAT capacity and synthetic pseudo filesystems";
   Require_ runtime "report.claimed_clusters > 0 and report.free_clusters > 0" "real FAT mounts require claimed ownership plus a measured free-cluster count";
   Require_ runtime "report.chain_loops == 0 and report.cross_links == 0 and report.out_of_range_links == 0" "release gates reject loop, cross-link and range corruption";
   Require_ runtime "clusters claimed/free/loop/cross/range" "shutdown exposes FAT ownership, free capacity and classified corruption telemetry";
   Require_ nvme_image_builder "readme_bytes = b“ZigOs block-backed FAT16 runtime mount" "deterministic NVMe image contains a root FAT file for runtime proof";
   Require_ nvme_image_builder "config_bytes = b“source=nvme0p1" "deterministic NVMe image contains a nested FAT file for runtime proof";
   Require_ nvme_image_builder "“--boot-fat-corruption“" "NVMe image builder exposes a deterministic FAT corruption mode";
   Require_ nvme_image_builder "boot_fat_corruption == “cross-link“" "corruption mode aliases only the non-boot BOOT.CFG entry to README.TXT";
   Require_ quarantine_boot_test "“--boot-fat-corruption“," "quarantine QEMU gate requests the deterministic cross-linked image";
   Require_ quarantine_boot_test "“cross-link“," "quarantine QEMU gate selects the classified cross-link case";
   Require_ quarantine_boot_test "ZigOs boot FAT quarantined: cross_link; embedded read-only fallback mounted" "real QEMU proves classified quarantine and fallback before userspace";
   Require_ quarantine_boot_test "cat /boot/README.TXT" "quarantine QEMU gate proves corrupted FAT names were never published";
   Require_ quarantine_boot_test "process-exec.elf" "quarantine QEMU gate proves embedded fallback contents are available";
   Require_ quarantine_boot_test "metadata/file/block reads 50/0/50" "quarantine QEMU gate requires exact preflight I/O accounting";
   Require_ quarantine_boot_test "0/0/0/1/0 lock tickets/outstanding 1/0 quarantine state/reason/events yes/cross_link/1 clean yes" "quarantine QEMU gate requires exact classified state and lock conservation";
   Require_ build_graph "“nvme-read-fault-lba“" "build graph exposes the disabled-by-default one-shot NVMe error target";
   Require_ kernel "NVMe one-shot read error armed:" "test build arms the retained controller only after boot-time inspection";
   Require_ runtime "controller.injected_read_failures == 0 and !controller.read_fault_armed" "an unconsumed armed read-error trigger cannot pass the healthy shutdown invariant";
   Require_ nvme_image_builder "“--runtime-file-first-cluster“" "image builder can place the fault target at one deterministic cluster";
   Require_ io_error_boot_test "FAULT_CLUSTER = 15_000" "EIO QEMU gate fixes README.TXT independently of EFI growth";
   Require_ io_error_boot_test "FAULT_LBA = 17_319" "EIO QEMU gate and compiled trigger share one exact LBA";
   Require_ io_error_boot_test "“--prefix“" "specialized fault build installs into a private prefix instead of shared zig-out";
   Require_ io_error_boot_test "acquire_run_lock" "EIO QEMU gate rejects duplicate concurrent runs";
   Require_ io_error_boot_test "remove_stale_workdirs" "EIO QEMU gate removes stale temporary runs before launch";
   Require_ io_error_boot_test "cat: input/output error" "real CPL3 shell observes EIO from the failed block read";
   Test (λ r, count_differs r "scripts/test-boot-fat-io-error.py" ["send(client, process, serial, “cat /boot/README.TXT“"] 2) "EIO QEMU gate must perform one failed read and one successful retry";
   Require_ io_error_boot_test "ZigOs NVMe read fault injection: failures 1 armed no clean yes" "QEMU proves one consumed error completion and a disarmed trigger";
   Require_ io_error_boot_test "metadata/file/block reads 114/3/115 failures 1" "QEMU requires exact failed-read and retry accounting";
   Require_ io_error_boot_test "str(work / “zig-cache“)" "FAT EIO private-prefix build isolates its local Zig cache";
   Require_ readonly_remount_boot_test "str(work / “zig-cache“)" "persistent fail-stop private-prefix build isolates its local Zig cache";
   Require_ io_error_boot_test "11350/4761/0/0/0 lock tickets/outstanding 4/0 quarantine state/reason/events no/none/0 clean yes" "G313 EIO recovery retains measured private-build FAT ownership";
   Require_ build_graph "“nvme-write-fault-lba“" "build graph exposes the disabled-by-default persistent write-error target";
   Require_ kernel "NVMe one-shot write error armed:" "test build arms persistent write failure only after boot-time inspection";
   Require_ runtime "fn persistenceDamageClean" "normal shutdown accepts one classified contained persistent write failure at any prior generation";
   Require_ runtime "report.damage_reason != .none" "runtime containment accepts every classified journal failure stage";
   Require_ runtime "report.read_only_remounts == 1" "release gate requires exactly one persistent read-only transition";
   Require_ runtime "fn nvmeWriteFaultStateClean" "real hardware errors are accepted without requiring a test injection";
   Require_ runtime "controller.write_fault_armed or controller.injected_write_failures > 1" "an unconsumed or repeated write-error trigger cannot pass containment";
   Require_ runtime "persistent-read-only" "normal shutdown distinguishes contained degraded storage from healthy persistence";
   Require_ readonly_remount_boot_test "FAULT_LBA = 18_434" "read-only remount QEMU gate targets the first slot-A payload sector";
   Require_ readonly_remount_boot_test "“--prefix“" "persistent write-fault build uses a private install prefix";
   Require_ readonly_remount_boot_test "acquire_run_lock" "persistent write-fault gate rejects concurrent duplicate runs";
   Require_ readonly_remount_boot_test "terminate_process_tree" "persistent write-fault gate always terminates the complete QEMU process tree";
   Require_ readonly_remount_boot_test "shared zig-out" "persistent write-fault gate proves private builds cannot contaminate shared output";
   Require_ readonly_remount_boot_test "cat /proc/mounts" "userspace observes the damaged persistent mount as read-only through procfs";
   Require_ readonly_remount_boot_test "sync: input/output error" "the triggering journal failure reaches userspace as EIO";
   Require_ readonly_remount_boot_test "sync: read-only filesystem" "later durable synchronization is rejected as EROFS";
   Require_ readonly_remount_boot_test "write: read-only filesystem" "new writes are rejected after fail-stop remount";
   Require_ readonly_remount_boot_test "append: read-only filesystem" "retained mutation paths are rejected after fail-stop remount";
   Require_ readonly_remount_boot_test "damaged yes reason payload_write remounts/failures 1/0 discarded/rejected 2/1" "QEMU requires exact damage and remount conservation";
   Require_ readonly_remount_boot_test "vfs-remount/discard 1/2 mount-readonly yes clean yes" "VFS and persistence remount accounting must agree exactly";
   Require_ readonly_remount_boot_test "11350/4761/0/0/0 lock tickets/outstanding 1/0 quarantine state/reason/events no/none/0 clean yes" "G313 contained persistent-write profile retains measured private-build FAT ownership";
   Require_ readonly_remount_boot_test "alloc/free 64/64 cache-released 12 storage persistent-read-only clean yes" "contained normal boot balances every measured resource";
   Require_ runtime_test "cat /boot/README.TXT" "diagnostic QEMU reads a root file after NVMe handoff";
   Require_ runtime_test "cat /boot/EFI/BOOT/BOOT.CFG" "diagnostic QEMU reads a nested file after NVMe handoff";
   Require_ runtime_test "stat /boot/EFI/BOOT/BOOTX64.EFI" "diagnostic QEMU stats the multi-mebibyte boot image without RAM-copying it";
   Require_ runtime_test "ZigOs persistent runtime shutdown: commands 54 failed 0" "offline diagnostic profile requires the expanded block-backed FAT command matrix";
   Require_ runtime_test "ZigOs persistent runtime shutdown: commands 56 failed 0" "live diagnostic profile requires the expanded block-backed FAT command matrix";
   Require_ runtime_test "11449/4662/0/0/0 lock tickets/outstanding 5/0 quarantine state/reason/events no/none/0 clean yes" "both G312 diagnostic QEMU profiles require exact global FAT ownership with zero classified corruption";
   Require_ normal_boot_test "ZigOs boot FAT: block-backed yes files/directories 3/2" "persistent normal boot requires a clean real block-backed /boot";
   Require_ normal_boot_test "11348/4763/0/0/0 lock tickets/outstanding 1/0 quarantine state/reason/events no/none/0 clean yes" "G313 normal QEMU retains exact FAT ownership with zero classified corruption";
   Require_ diskless_normal_boot_test "ZigOs boot FAT: block-backed no files/directories 0/0" "diskless normal boot requires an explicitly absent backend and fallback namespace";
   Require_ diskless_normal_boot_test "0/0/0/0/0 lock tickets/outstanding 0/0 quarantine state/reason/events no/none/0 clean yes" "diskless fallback has no FAT ownership or classified corruption state"].

Definition pseudo_registries : list statement := (λ x, Require_ x.1 "ZigOs live pseudo filesystems: dev/proc/net registrations 3/5/4 publications 3/5/4 withdrawals 0/0/0 failures 0/0/0 clean yes"
    (x.2 +:+ " QEMU gate requires exact live pseudo-registry conservation")) <$>
  [(runtime_test, "diagnostic"); (normal_boot_test, "normal"); (quarantine_boot_test, "quarantine"); (io_error_boot_test, "read-error"); (readonly_remount_boot_test, "write-error"); (diskless_normal_boot_test, "diskless")].

Definition part_7 : list statement := [
   Require_ runtime "fs_report.dentry_cache_references == 0" "normal and diagnostic release gates require zero live cache references";
   Require_ runtime "fs_report.dentry_cache_acquires == fs_report.dentry_cache_releases" "release gates require balanced cache reference accounting";
   Require_ runtime "fs_report.dentry_cache_hits > 0" "release gates require real dentry-cache hits";
   Require_ runtime "fs_report.file_page_cache_entries <= runtime_vfs.maximum_file_page_cache_entries" "release gates enforce bounded file-page cache occupancy";
   Require_ runtime "fs_report.file_page_cache_hits > 0" "release gates require real file-page cache hits";
   Require_ runtime "fs_report.file_page_cache_misses > 0" "release gates require file-page cache population";
   Require_ runtime "fs_report.file_page_cache_lock_outstanding == 0" "release gates require every file-page cache lock ticket to drain";
   Require_ runtime "allocateFilePageCachePage" "runtime backs file cache pages with the post-bootstrap physical manager";
   Require_ runtime "releaseFilePageCachePage" "cache eviction returns page backing to the post-bootstrap physical manager";
   Require_ runtime "reclaimCleanFilePageCacheUnderPressure" "runtime service and diagnostic proof use the same low-watermark reclaim path";
   Require_ runtime "fn commandCachePressure" "diagnostic shell can force a measured pressure crossing";
   Require_ runtime "released_cache_pages = state.vfs.releaseFilePageCache()" "shutdown releases remaining cache backing before physical-memory accounting";
   Require_ runtime "final_fs_report.file_page_cache_allocations == final_fs_report.file_page_cache_releases" "release gates require balanced cache-page allocation and release";
   Require_ runtime "fs_report.file_page_cache_mapping_references == 0" "release gates require no live borrowed file-page references";
   Require_ runtime "fs_report.file_page_cache_mapping_pins == fs_report.file_page_cache_mapping_unpins" "release gates conserve mapped page pins and unpins";
   Require_ runtime "fs_report.file_page_cache_mapping_refreshes > 0" "diagnostic profiles require real file-write to mapped-read refresh activity";
   Require_ runtime "userspace_report.file_mapping_pages == 0" "all mapped file pages must leave process address spaces before shutdown";
   Require_ runtime "fs_report.file_page_cache_dirty_entries == 0" "release gates require no resident dirty cache pages at shutdown";
   Require_ runtime "fs_report.dirty_file_pages == 0" "release gates require the inode dirty-page ledger to drain";
   Require_ runtime "fs_report.dirty_file_nodes == 0" "release gates require no dirty inodes at shutdown";
   Require_ runtime "fs_report.dirty_page_marks > 0" "release gates require real dirty-page mutation activity";
   Require_ runtime "fs_report.dirty_page_sync_clears > 0" "release gates require successful synchronization to clear dirty pages";
   Require_ runtime "fs_report.data_lock_tickets > 0" "release gates require exercised inode data locks";
   Require_ runtime "fs_report.data_lock_outstanding == 0" "release gates require every inode data-lock ticket to drain";
   Require_ runtime "fs_report.page_write_lock_tickets > 0" "release gates require exercised logical-page writer locks";
   Require_ runtime "fs_report.page_write_lock_outstanding == 0" "release gates require every logical-page writer ticket to drain";
   Require_ runtime "page-write tickets/outstanding" "diagnostic shutdown reports logical-page writer lock conservation";
   Require_ runtime_test "page-write tickets/outstanding 378/0" "both diagnostic QEMU profiles require the measured page-writer ticket total with no outstanding lock";
   Require_ runtime "fs_report.data_pool_lock_tickets > 0" "release gates require exercised sparse-pool allocation";
   Require_ runtime "fs_report.data_pool_lock_outstanding == 0" "release gates require the sparse-pool lock to drain";
   Require_ runtime "fs_report.allocated_bytes == fs_report.allocated_blocks * runtime_vfs.file_block_size" "release gates verify resident block accounting";
   Require_ runtime "cache entries/refs" "diagnostic shutdown reports cache occupancy and references";
   Require_ runtime "acquire/release" "diagnostic shutdown reports cache reference accounting";
   Require_ runtime "page-cache entries" "diagnostic shutdown reports bounded clean file-page cache occupancy and activity";
   Require_ runtime "dirty/ledger" "diagnostic shutdown reports resident and authoritative dirty-page state";
   Require_ runtime "marks/sync-clear/discard" "diagnostic shutdown reports dirty-page lifecycle counters";
   Require_ runtime "backing alloc/release/fail" "diagnostic shutdown reports PMM-backed cache lifecycle accounting";
   Require_ runtime "pressure checks/events/evictions" "diagnostic shutdown reports pressure-policy activity";
   Require_ runtime "shutdown-release" "diagnostic shutdown reports final cache-page return";
   Require_ runtime "mapped refs/pin/unpin/refresh/fail" "diagnostic shutdown reports borrowed file-page lifecycle conservation";
   Require_ runtime "file-mappings" "diagnostic userspace report exposes active borrowed file-page mappings";
   Require_ runtime "lock tickets/outstanding" "diagnostic shutdown reports drained file-page cache locking";
   Require_ runtime "data-lock tickets/outstanding" "diagnostic shutdown reports inode data-lock accounting";
   Require_ runtime "pool-lock tickets/outstanding" "diagnostic shutdown reports sparse-pool lock accounting";
   Require_ runtime "blocks/bytes/holes" "diagnostic shutdown distinguishes resident storage from logical holes";
   Require_ runtime_test "cache entries/refs " "required permanent-runtime sessions expose dentry-cache resource state";
   Require_ runtime_test " acquire/release " "required permanent-runtime sessions expose balanced dentry-cache references";
   Require_ runtime_test " page-cache entries " "required permanent-runtime sessions expose file-page cache state";
   Require_ runtime_test " dirty/ledger " "required permanent-runtime sessions expose dirty-page state";
   Require_ runtime_test " marks/sync-clear/discard " "required permanent-runtime sessions expose dirty-page lifecycle accounting";
   Require_ runtime_test " lock tickets/outstanding " "required permanent-runtime sessions expose drained file-page cache locks";
   Require_ runtime_test " data-lock tickets/outstanding " "required permanent-runtime sessions expose drained inode data locks";
   Require_ runtime_test " pool-lock tickets/outstanding " "required permanent-runtime sessions expose drained sparse-pool locks";
   Require_ runtime_test " blocks/bytes/holes " "required permanent-runtime sessions expose sparse storage accounting";
   Require_ vfs_source "test “VFS hard links share node identity data and deferred lifetime“" "hard-link identity, nlink and final-close lifetime are isolated-tested";
   Require_ vfs_source "pub const maximum_symlink_depth: usize = 8" "VFS publishes a bounded symbolic-link traversal limit";
   Require_ vfs_source "pub fn resolveNoFollow" "VFS exposes final-component no-follow lookup for namespace mutation";
   Require_ vfs_source "const entry_index = try self.entryForPathAs(cwd, path, credentials);" "unlink and rmdir mutate the final dentry without following it";
   Require_ vfs_source "const source_entry = try self.entryForPathAs(cwd, old_path, credentials);" "rename mutates the source dentry rather than a symbolic-link target";
   Require_ vfs_source "const node_index = try self.resolveNoFollowAs(cwd, path, credentials);⏎        const target = try self.symlinkTargetNode(node_index);" "readlink reads the final link object without traversal";
   Require_ vfs_source "pub fn symlink" "VFS creates symbolic-link nodes";
   Require_ vfs_source "pub fn readlink" "VFS reads link target text without following the final node";
   Require_ vfs_source "test “VFS symbolic links follow relative and absolute targets with bounded loops“" "symbolic-link traversal and loop rejection are isolated-tested";
   Require_ vfs_source "test “VFS replacement rename preserves open destination handles“" "replacement rename is isolated-tested with an open old destination";
   Require_ vfs_source "test “VFS unlink detaches names and reclaims after the final open handle“" "deferred unlink is isolated-tested across independent handles";
   Require_ fd_source "test “directory openat deferred unlink and notification watches survive descriptor aliases“" "descriptor test combines directory-relative openat, deferred lifetime and notification watches";
   Require_ fd_source "pub fn statFromVfs" "path stat and descriptor fstat share one descriptor-layer VFS-to-ABI metadata conversion";
   Require_ fs_conformance "recovery/fsync-metadata/fdatasync-data-only/hard-link/symlink/sparse-isolation/cleanup passed" "fixture verifies fsync metadata durability, fdatasync metadata exclusion, unrelated sparse-state exclusion and cleanup after forced termination";
   Require_ normal_boot_test "mkdir /persist/shell-state" "normal shell exercises userspace mkdir";
   Require_ normal_boot_test "write /persist/shell-state/renamed.txt stale-destination" "normal shell creates an existing rename destination";
   Require_ normal_boot_test "chmod 600 /persist/shell-state/renamed.txt" "normal shell exercises replacement rename and chmod";
   Require_ persistence_test "exec /bin/fs.elf init" "boot one commits mutations from a CPL3 fixture";
   Require_ persistence_test "exec /bin/fs.elf fsync" "boot two performs file-scoped fsync in CPL3";
   Require_ persistence_test "exec /bin/fs.elf fdatasync" "boot three performs data-only fdatasync in CPL3";
   Require_ persistence_test "exec /bin/fs.elf verify" "boot four verifies both durability modes and removes the restored objects in CPL3";
   Require_ persist_source "symlink = 3" "persistent record model retains symbolic-link identity";
   Require_ persist_source "hard_link = 4" "persistent record model retains hard-link aliases";
   Require_ persist_source "sparse_file = 5" "persistent record model retains logical size and sparse allocation maps";
   Require_ persist_source "allocation_bitmap = data[0]" "persistent restore decodes resident-block identity";
   Require_ persist_source "vfs.restoreSparseFile" "persistent restore reconstructs sparse files without densifying holes";
   Require_ persist_source "restoration_failure" "persistent restore retains exact rejected record diagnostics";
   Require_ runtime "Persistent restore rejected record" "boot diagnostics expose record index, kind and VFS error";
   Require_ persist_source "try self.restorePass(vfs, candidate, tick, true)" "persistent restore resolves hard links in a second pass";
   Require_ persist_source "vfs.canonicalEntryNode" "persistent serialization writes file data only for a canonical dentry";
   Require_ fs_conformance "zigos.symlink" "booted Zig filesystem fixture creates persistent and cyclic symbolic links";
   Require_ fs_conformance "zigos.readlink" "booted Zig filesystem fixture reads link text before and after reboot";
   Require_ fs_conformance "zigos.link" "booted Zig filesystem fixture creates and reboot-verifies a hard-link alias";
   Require_ fs_conformance "link_count != 2" "booted Zig filesystem fixture verifies shared stat link counts";
   Require_ elf_source "test “parser accepts a pure BSS writable load segment“" "ELF loader accepts standard pure-BSS RW segments";
   Require_ sdk_verifier "memory_size == 0 or memory_size < file_size" "SDK ELF verifier accepts pure-BSS PT_LOAD";
   Require_ vfs_source "pub const maximum_file_size: usize = 32 * 1024" "runtime VFS accepts the linked userspace shell";
   Require_ vfs_source "test “VFS accepts the full 32 KiB file boundary“" "32 KiB VFS boundary is isolated-tested";
   Require_ runtime "“/bin/sdk.elf“" "directly linked Zig SDK conformance executable is installed in the VFS";
   Require_ build_graph "sdk/zig/conformance.zig" "build graph compiles the SDK conformance program as Zig source";
   Require_ build_graph ".code_model = .large" "SDK supports the high permanent userspace address window";
   Require_ build_graph "verify-zigos-sdk-elf.py" "directly linked SDK ELF has an independent host verifier";
   Require_ asset_builder "sdk_syscall_object" "asset graph assembles the freestanding syscall/startup bridge";
   Require_ abi_generator "sdk“ / “zig“ / “abi.zig“" "machine-readable ABI generator emits the public Zig SDK ABI";
   Require_ abi_generator "sdk“ / “c“ / “include“ / “zigos.h“" "machine-readable ABI generator emits the public C header";
   Require_ abi_generator "def generate_c_abi_description(spec: dict) -> str:" "G292 generator owns the wrapper-free C ABI description";
   Require_ abi_generator "sdk“ / “c“ / “include“ / “zigos_abi.h“" "G292 generator emits the minimal C ABI description header";
   Require_ c_abi_header "#ifndef ZIGOS_ABI_H" "G292 C ABI description is a self-contained generated header";
   Require_ c_header "#ifndef ZIGOS_ABI_H" "G292 full C wrapper header shares the minimal-description guard";
   Require_ c_header "#endif /* ZIGOS_ABI_H */" "G292 full C wrapper header closes the shared ABI-description block before wrappers";
   Require_ c_abi_header "ZIGOS_ABI_MINOR UINT16_C(32)" "G305 advances the generated description to current ABI 1.31";
   Require_ c_abi_header "#define ZIGOS_SYS_FSCHECK UINT64_C(129)" "G292 description publishes the complete current syscall numbering";
   Require_ c_abi_header "sizeof(zigos_abi_info) == 64" "G292 description freezes ABI discovery layout";
   Require_ c_abi_header "sizeof(zigos_directory_event) == 64" "G292 description freezes directory-event layout";
   Require_ c_abi_header "uint32_t zigos_main(size_t argc" "G292 description publishes the freestanding startup entry contract";
   Forbid c_abi_header "zigos_syscall6" "G292 description must not require the syscall wrapper library";
   Forbid c_abi_header "zigos_write(" "G292 description must not declare optional write wrappers";
   Forbid c_abi_header "zigos_abi_query(" "G292 description must not declare optional ABI-query wrappers";
   Require_ c_abi_description_conformance "#include “zigos_abi.h“" "G292 conformance includes only the minimal ABI description";
   Forbid c_abi_description_conformance "#include “zigos.h“" "G292 conformance must not depend on the wrapper header";
   Require_ c_abi_description_conformance "_Static_assert(ZIGOS_SYSCALL_COUNT == UINT16_C(71)" "current C probe compile-time checks the complete syscall range through G305";
   Require_ c_abi_description_conformance "auxiliary_value(auxv, ZIGOS_AUX_PAGESZ)" "G292 C probe compiles bounded access to the described startup auxv";
   Require_ c_abi_description_conformance "ZIGOS_AUX_ZIGOS_CAPABILITIES" "G292 C probe compiles bounded described capability discovery checks";
   Forbid c_abi_description_conformance "zigos_write(" "G292 C probe remains wrapper-free";
   Require_ c_abi_header_interop_conformance "#include “zigos_abi.h“⏎#include “zigos.h“" "G292 canonical C build proves minimal-header then wrapper-header include order";
   Require_ build_graph "sdk/c/abi_header_interop_conformance.c" "G292 wrapper C SDK compiles the include-order conformance translation unit";
   Require_ build_graph "sdk/c/abi_description_conformance.c" "G292 build graph compiles the description-only C program";
   Require_ build_graph ".name = “c-abi-description“" "G292 build graph links a standalone freestanding description probe";
   Require_ build_graph "“artifacts/c-abi-description.elf“" "G292 installs the independently verifiable C ABI probe";
   Require_ build_graph "“sdk/include/zigos_abi.h“" "G292 installs the generated ABI description as an SDK artifact";
   Require_ build_graph "verify_c_abi_description.addFileArg(c_abi_description.getEmittedBin())" "G292 independently verifies the description-only ELF";
   Require_ workflow "zig-out/sdk/include/zigos_abi.h" "G292 hosted artifact sets publish the generated ABI description";
   Require_ build_graph "sdk/c/conformance.c" "build graph compiles an independent freestanding C conformance program";
   Require_ build_graph "“artifacts/c-sdk.elf“" "C SDK conformance is installed as a standalone artifact";
   Require_ runtime "“/bin/c-sdk.elf“" "C SDK conformance is installed in the runtime VFS";
   Require_ c_header "ZIGOS_ABI_MINOR UINT16_C(32)" "generated C header publishes ABI 1.31";
   Require_ sdk_abi "pub const syscall_kill: u64 = 128;" "ABI 1.25 generated Zig constants publish kill syscall 128";
   Require_ c_header "#define ZIGOS_SYS_KILL UINT64_C(128)" "ABI 1.25 generated C constants publish kill syscall 128";
   Require_ c_header "int64_t zigos_kill(uint32_t pid, uint8_t signal);" "ABI 1.25 generated C header declares kill";
   Require_ sdk_source "pub fn kill(pid: u32, signal: u8) Error!void" "ABI 1.25 Zig SDK exposes kill";
   Require_ sdk_source "abi.syscall_kill, pid, signal" "ABI 1.25 Zig SDK routes kill through generated syscall numbering";
   Require_ c_library "int64_t zigos_kill(uint32_t pid, uint8_t signal)" "ABI 1.25 C SDK exposes kill";
   Require_ c_library "ZIGOS_SYS_KILL, pid, signal" "ABI 1.25 C SDK routes kill through generated syscall numbering";
   Require_ executor "syscall.syscall_kill => return syscallKill(context, frame, fx_state)" "ABI 1.25 dispatcher routes syscall 128 to kill";
   Require_ executor "fn syscallKill(context: *Context" "ABI 1.25 implements bounded kill dispatch";
   Require_ executor "activeProcesses().handleForPid(pid)" "ABI 1.25 kill resolves the requested PID in the retained process table"].

Definition part_8 : list statement := [
   Require_ executor "activeProcesses().sendSignal(context.handle, target_handle, signal)" "ABI 1.25 kill reuses centralized signal authorization";
   Require_ executor "if (target_handle == context.handle)" "ABI 1.25 distinguishes self-termination from foreign cleanup";
   Require_ executor "finalize(target_handle) catch" "ABI 1.25 reclaims terminal foreign userspace contexts";
   Require_ sdk_conformance "zigos.kill(self_pid, 0) catch |err|" "Zig ABI 1.25 conformance exercises kill without signaling";
   Require_ c_conformance "zigos_kill((uint32_t)self_pid, 0) != ZIGOS_ERRNO_INVALID" "C ABI 1.25 conformance exercises kill without signaling";
   Require_ c_header "ZIGOS_SPAWN_NEW_PROCESS_GROUP" "generated C header publishes the ABI 1.22 new-pipeline-group flag";
   Require_ c_header "ZIGOS_SPAWN_JOIN_PROCESS_GROUP" "generated C header publishes the ABI 1.22 join-pipeline-group flag";
   Require_ c_header "ZIGOS_SPAWN_PIPELINE_IO" "generated C header publishes the ABI 1.22 pipeline-I/O flag";
   Require_ c_header "ZIGOS_SPAWN_FOREGROUND_PROCESS_GROUP" "generated C header publishes the ABI 1.24 atomic foreground-group flag";
   Require_ c_header "ZIGOS_SPAWN_IO_INHERIT_DESCRIPTOR UINT16_C(65535)" "generated C header publishes the ABI 1.22 inherited-standard-stream sentinel";
   Require_ c_header "ZIGOS_WAIT_PROCESS_GROUP" "generated C header publishes process-group wait selection";
   Require_ c_header "ZIGOS_IOCTL_TTY_GET_FOREGROUND_GROUP" "generated C header publishes foreground-PGID query";
   Require_ c_header "ZIGOS_IOCTL_TTY_SET_FOREGROUND_GROUP" "generated C header publishes foreground-PGID mutation";
   Require_ sdk_abi "pub const SpawnRequest = extern struct" "ABI 1.22 retains the generated public spawn request structure";
   Require_ sdk_abi "environment_pointer: u64,⏎    path_length: u16,⏎    argument_count: u16,⏎    environment_count: u16,⏎    flags: u16 = 0," "ABI 1.22 keeps the 24-byte pointer prefix plus 8-byte scalar tail of the 32-byte SpawnRequest";
   Require_ c_header "ZIGOS_MAP_SHARED" "generated C header publishes shared file-mapping flags";
   Require_ c_header "zigos_mmap_file" "generated C header declares file-backed mmap";
   Require_ c_library "zigos_mmap_file" "C wrapper library exposes file-backed mmap";
   Require_ c_library "zigos_munmap" "C wrapper library exposes mapping teardown";
   Require_ c_header "ZIGOS_MAX_IOVECS UINT64_C(8)" "generated C header publishes the eight-vector bound";
   Require_ c_header "typedef struct zigos_iovec" "generated C header publishes the stable iovec layout";
   Require_ c_header "sizeof(zigos_iovec) == 16" "generated C header asserts the iovec binary layout";
   Require_ c_header "ZIGOS_IOCTL_TTY_GET_FLAGS" "generated C header publishes terminal ioctl requests";
   Require_ c_library "zigos_openat" "C wrapper library exposes openat";
   Require_ c_library "zigos_fsync" "C wrapper library exposes descriptor fsync";
   Require_ c_library "zigos_fdatasync" "C wrapper library exposes descriptor fdatasync";
   Require_ c_library "zigos_symlink" "C wrapper library exposes symbolic-link creation";
   Require_ c_library "zigos_readlink" "C wrapper library exposes link-target reads";
   Require_ c_library "zigos_link" "C wrapper library exposes hard-link creation";
   Require_ c_library "zigos_fallocate" "C wrapper library exposes sparse allocation and hole punching";
   Require_ c_library "zigos_readv" "C wrapper library exposes vectored reads";
   Require_ c_library "zigos_writev" "C wrapper library exposes vectored writes";
   Require_ c_header "ZIGOS_FALLOCATE_KEEP_SIZE" "generated C header publishes sparse allocation flags";
   Require_ c_header "uint8_t link_count" "generated C stat layout exposes namespace link counts";
   Require_ c_header "ZIGOS_SYS_STATFS UINT64_C(121)" "generated C header publishes statfs syscall 121";
   Require_ c_header "typedef struct zigos_filesystem_stat" "generated C header publishes the filesystem-stat layout";
   Require_ c_header "sizeof(zigos_filesystem_stat) == 64" "generated C header asserts the 64-byte filesystem-stat ABI";
   Require_ c_header "ZIGOS_FS_STAT_SHARED_BLOCKS" "generated C header exposes shared-capacity interpretation";
   Require_ c_library "zigos_statfs" "C wrapper library exposes path-based filesystem statistics";
   Require_ sdk_source "pub fn statfs" "Zig SDK exposes path-based filesystem statistics";
   Require_ runtime_abi "pub const FilesystemStat = extern struct" "kernel ABI owns the matching 64-byte filesystem-stat structure";
   Require_ c_header "ZIGOS_SYS_STATTIMES UINT64_C(122)" "generated C header publishes stattimes syscall 122";
   Require_ c_header "typedef struct zigos_file_times" "generated C header publishes four inode timestamp fields";
   Require_ c_header "sizeof(zigos_file_times) == 32" "generated C header asserts the 32-byte timestamp ABI";
   Require_ c_library "zigos_stattimes" "C wrapper library exposes path-based inode timestamps";
   Require_ sdk_source "pub fn statTimes" "Zig SDK exposes path-based inode timestamps";
   Require_ runtime_abi "pub const FileTimes = extern struct" "kernel ABI owns the matching 32-byte timestamp structure";
   Require_ executor "fn syscallStatTimes" "kernel dispatches stattimes through bounded path and output buffers";
   Require_ executor "activeVfs().timestampsAs" "stattimes returns the four stored VFS inode ticks";
   Require_ runtime_abi "pub const FileOwner = extern struct" "kernel ABI owns the stable 8-byte UID/GID result";
   Require_ runtime_abi "@sizeOf(FileOwner)" "kernel ABI layout test covers FileOwner";
   Require_ c_header "zigos_file_owner" "generated C header publishes the ownership result";
   Require_ c_header "sizeof(zigos_file_owner) == 8" "generated C header freezes the 8-byte ownership layout";
   Require_ c_library "zigos_statowner" "C wrapper library exposes path-based inode ownership";
   Require_ sdk_source "pub fn statOwner" "Zig SDK exposes path-based inode ownership";
   Require_ executor "fn syscallStatOwner" "kernel dispatches statowner through bounded path and output buffers";
   Require_ executor "activeVfs().ownershipAs" "statowner returns stored VFS inode ownership";
   Require_ vfs_source "pub const Ownership = struct" "VFS defines 32-bit UID/GID inode ownership";
   Require_ vfs_source "uid: u32 = 0" "VFS nodes default kernel-created ownership to UID zero";
   Require_ vfs_source "gid: u32 = 0" "VFS nodes default kernel-created ownership to GID zero";
   Require_ vfs_source "pub fn openOwned" "VFS supports credential-aware inode creation";
   Require_ fd_source ".{ .uid = process.uid, .gid = process.gid }" "descriptor O_CREAT inherits process credentials";
   Require_ executor "mkdirOwned" "mkdir inherits the calling process credentials";
   Require_ executor "symlinkOwned" "symlink inherits the calling process credentials";
   Require_ fd_source "runtime_vfs.Ownership{ .uid = 1000, .gid = 1000 }" "host descriptor test proves non-root ownership inheritance";
   Require_ vfs_source "pub const Access = struct" "VFS defines explicit read/write/execute requests for permission checks";
   Require_ vfs_source "pub fn accessAllowedNode" "VFS selects owner, primary-group or other mode bits for one inode";
   Require_ vfs_source "if (credentials.uid == 0) return true;" "UID zero is the explicit VFS administrative bypass";
   Require_ vfs_source "else if (credentials.gid == node.gid)" "permission selection uses the process primary GID after owner mismatch";
   Require_ vfs_source "try self.requireAccessNode(current, credentials, .{ .execute = true });" "path traversal requires execute/search permission on each directory";
   Require_ vfs_source "try self.requireAccessNode(parent, credentials, .{ .write = true, .execute = true });" "namespace mutation requires parent write and execute permission";
   Require_ vfs_source "pub fn executableViewAs" "process image loading checks execute independently from file read permission";
   Require_ vfs_source "credentials.uid != 0 and credentials.uid != self.nodes[node_index].uid" "chmod is restricted to inode owner or root";
   Require_ fd_source "Exactly one class is selected: owner first, then matching primary group" "host descriptor proof freezes owner/group/other class precedence";
   Require_ fd_source "already-open owner description retains the access granted at open time" "host descriptor proof preserves access already granted before chmod";
   Require_ executor "activeVfs().executableViewAs" "CPL3 spawn and spawnv use execute-gated VFS image loading";
   Require_ executor "activeVfs().resolveDirectoryAs" "CPL3 chdir applies directory search permission";
   Require_ executor "activeVfs().chmodAs" "CPL3 chmod supplies the calling process credentials";
   Require_ process_source "umask: u16 = 0" "process records carry a compatibility-default zero creation mask";
   Require_ process_source "pub fn setUmask" "process table exposes bounded umask mutation returning the previous value";
   Require_ process_source "self.processes[parent_slot].umask" "child process creation inherits the parent umask";
   Require_ fd_source "const creation_mode = runtime_vfs.applyCreationUmask(mode, process.umask);" "descriptor O_CREAT applies process umask exactly once to rwx bits";
   Require_ executor "const creation_mode = runtime_vfs.applyCreationUmask(mode, process.umask);" "mkdir applies process umask exactly once to rwx bits";
   Require_ executor "fn syscallUmask" "kernel dispatches ABI 1.17 process umask";
   Require_ executor "mask & ~@as(u16, 0o777)" "umask rejects bits outside the nine permission bits";
   Require_ executor "parent.uid" "userspace child spawn preserves the parent UID";
   Require_ executor "parent.gid" "userspace child spawn preserves the parent GID";
   Require_ c_header "ZIGOS_SYS_UMASK UINT64_C(124)" "generated C header publishes umask syscall 124";
   Require_ c_library "zigos_umask" "C wrapper library exposes process umask";
   Require_ sdk_source "pub fn umask" "Zig SDK exposes process umask";
   Require_ sdk_conformance "process umask file/directory creation passed" "Zig CPL3 fixture proves file and directory creation masking";
   Require_ c_conformance "process umask creation passed" "C CPL3 fixture independently proves generated umask wrapper and file masking";
   Require_ c_header "ZIGOS_SYS_FLOCK UINT64_C(125)" "generated C header publishes flock syscall 125";
   Require_ c_header "ZIGOS_LOCK_SHARED UINT64_C(1)" "generated C header publishes shared flock operation";
   Require_ c_header "ZIGOS_LOCK_EXCLUSIVE UINT64_C(2)" "generated C header publishes exclusive flock operation";
   Require_ c_header "ZIGOS_LOCK_NONBLOCK UINT64_C(4)" "generated C header publishes nonblocking flock flag";
   Require_ c_header "ZIGOS_LOCK_UNLOCK UINT64_C(8)" "generated C header publishes flock unlock operation";
   Require_ c_library "zigos_flock" "C wrapper library exposes advisory whole-file flock";
   Require_ sdk_source "pub fn flock" "Zig SDK exposes advisory whole-file flock";
   Require_ executor "fn syscallFlock" "kernel dispatches ABI 1.18 flock";
   Require_ process_source "file_lock" "process table has a dedicated advisory-lock wait reason";
   Require_ fd_source "advisory_lock: AdvisoryLock = .none" "open descriptions own whole-file advisory lock state";
   Require_ fd_source "pub fn flock(" "descriptor system implements whole-file advisory acquisition";
   Require_ fd_source "fn advisoryLockConflicts" "whole-file lock conflicts key independent open descriptions by inode identity";
   Require_ fd_source "fileLockWaitKey" "blocking flock uses inode-generation wait keys";
   Require_ fd_source "Whole-file locks are owned by the shared open description" "host proof covers dup ownership and hard-link contention";
   Require_ fd_source "Advisory means advisory: conflicting data I/O is still permitted." "host proof rejects accidental mandatory I/O locking";
   Require_ fd_source "Forked descriptor namespaces share the same open-description lock" "host proof covers fork inheritance and final-reference lifetime";
   Require_ sdk_conformance "advisory whole-file flock passed" "Zig CPL3 fixture proves advisory flock";
   Require_ c_conformance "advisory whole-file flock passed" "C CPL3 fixture independently proves advisory flock";
   Require_ c_header "ZIGOS_SYS_LOCKRANGE UINT64_C(126)" "generated C header publishes byte-range lock syscall 126";
   Require_ c_library "zigos_lockrange" "C wrapper library exposes advisory byte-range locking";
   Require_ sdk_source "pub fn lockRange" "Zig SDK exposes advisory byte-range locking";
   Require_ executor "fn syscallLockRange" "kernel dispatches ABI 1.19 byte-range locking";
   Require_ fd_source "maximum_byte_range_locks_per_description: usize = 8" "byte-range advisory state is explicitly bounded to eight normalized segments per open description";
   Require_ fd_source "byte_range_locks: [maximum_byte_range_locks_per_description]ByteRangeLock" "open descriptions own byte-range advisory state across dup/fork";
   Require_ fd_source "fn byteRangeLockConflicts" "independent open-description ranges conflict by inode generation";
   Require_ fd_source "fn replaceByteRangeLocks" "range replacement centralizes split/merge normalization";
   Require_ fd_source "Byte-range locks are independently normalized on each open description." "host proof covers half-open overlap and advisory-only data I/O";
   Require_ fd_source "A failed nonblocking shared-to-exclusive conversion is failure-atomic." "host proof freezes nonblocking conversion atomicity";
   Require_ fd_source "Replacement plus partial unlock splits one held interval into two preserved" "host proof freezes partial-unlock split semantics";
   Require_ fd_source "G244 flock and G245 byte-range locks are deliberately separate advisory" "host proof freezes separate whole-file/range advisory namespaces";
   Require_ sdk_conformance "advisory byte-range lock passed" "Zig CPL3 fixture proves byte-range locking";
   Require_ c_conformance "advisory byte-range lock passed" "C CPL3 fixture independently proves byte-range locking";
   Require_ c_header "ZIGOS_SYS_WATCHDIR UINT64_C(127)" "generated C header publishes directory-watch syscall 127";
   Require_ c_header "typedef struct zigos_directory_event" "generated C header publishes the stable directory-event layout";
   Require_ c_header "sizeof(zigos_directory_event) == 64" "generated C header freezes the 64-byte directory-event ABI";
   Require_ c_header "ZIGOS_DIRECTORY_EVENT_OVERFLOW" "generated C header publishes explicit notification overflow";
   Require_ c_library "zigos_watchdir" "C wrapper library exposes directory notification watches";
   Require_ sdk_source "pub fn watchdir" "Zig SDK exposes directory notification watch creation";
   Require_ sdk_source "pub fn readDirectoryEvents" "Zig SDK decodes fixed-size directory notification records";
   Require_ runtime_abi "pub const DirectoryEvent = extern struct" "kernel ABI owns the matching 64-byte directory-event structure";
   Require_ executor "fn syscallWatchDir" "kernel dispatches ABI 1.20 directory watch creation";
   Require_ fd_source "pub fn createDirectoryWatch" "descriptor system creates a dedicated directory-watch open description";
   Require_ fd_source ".directory_watch" "descriptor kind distinguishes notifications from ordinary directory file descriptions";
   Require_ fd_source "return Error.WouldBlock" "caught-up directory notification reads are explicitly nonblocking";
   Require_ fd_source "vfs.directoryEventsReady" "poll readiness is driven by unseen VFS directory events";
   Require_ vfs_source "pub const maximum_directory_events: usize = 64" "VFS notification history is bounded to 64 global records";
   Require_ vfs_source "directory_event_sequence" "VFS notifications use one monotonic mutation sequence";
   Require_ vfs_source "pub fn directoryEventCursor" "new watches begin from a generation-validated current cursor"].

Definition part_9 : list statement := [
   Require_ vfs_source "pub fn readDirectoryEvents" "VFS exposes bounded per-watch event consumption";
   Require_ vfs_source "directory_event_overflow" "lagging watches receive an explicit overflow event";
   Require_ vfs_source "fn recordDirectoryChange" "successful namespace mutations enter one centralized notification journal";
   Require_ fd_source "A separately created watch starts at the current sequence" "host proof rejects historical replay and proves independent watch cursors";
   Require_ fd_source "explicit overflow marker before resuming from the oldest retained record" "host proof exercises bounded journal overflow";
   Require_ fd_source "watch_alias" "host proof exercises dup-shared directory-watch cursor ownership";
   Require_ sdk_conformance "directory watch notifications passed" "Zig CPL3 fixture proves poll/create/rename/remove directory notifications";
   Require_ c_conformance "directory watch notifications passed" "C CPL3 fixture independently proves generated watchdir/event ABI";
   Require_ vfs_source "pub const setgid_mode_bit: u16 = 0o2000" "VFS names the stored setgid metadata bit";
   Require_ vfs_source "pub const setuid_mode_bit: u16 = 0o4000" "VFS names the stored setuid metadata bit";
   Require_ vfs_source "pub const sticky_mode_bit: u16 = 0o1000" "VFS names the stored sticky-directory metadata bit";
   Require_ vfs_source "pub const special_mode_mask: u16 = sticky_mode_bit | setid_mode_mask" "VFS combines sticky and set-ID metadata without changing the ABI layout";
   Require_ vfs_source "pub const stored_mode_mask: u16 = permission_mode_mask | special_mode_mask" "VFS validates the complete 07777 stored mode metadata subset";
   Require_ vfs_source "pub fn validStoredMode" "VFS rejects mode bits outside the supported 07777 subset";
   Require_ vfs_source "pub fn applyCreationUmask" "creation umask preserves sticky/set-ID metadata while masking rwx bits";
   Require_ vfs_source "return (mode & special_mode_mask)" "creation mode keeps sticky/set-ID metadata outside the rwx umask";
   Require_ vfs_source "self.nodes[node_index].mode = mode;" "chmod stores validated set-ID metadata without truncating to 0777";
   Require_ fd_source "0o6750" "host descriptor proof preserves set-ID bits across umask creation";
   Require_ fd_source "0o6650" "host descriptor proof preserves set-ID bits across chmod";
   Require_ fd_source "“/tmp/sticky“" "host credential proof creates a real sticky directory";
   Require_ fd_source "stranger_credentials" "host credential proof includes an unrelated UID for sticky denial";
   Require_ fd_source "0o1777" "host credential proof stores sticky directory metadata";
   Require_ vfs_source "fn requireStickyRemoval" "VFS centralizes sticky victim ownership authorization";
   Require_ vfs_source "credentials.uid == directory.uid" "sticky removal permits the directory owner";
   Require_ vfs_source "credentials.uid == self.nodes[victim].uid" "sticky removal permits the victim inode owner";
   Require_ vfs_source "try self.requireStickyRemoval(self.dentries[entry_index].parent, node_index, credentials);" "unlink and rmdir apply the sticky victim rule";
   Require_ vfs_source "try self.requireStickyRemoval(source_parent, source, credentials);" "rename source removal applies the sticky victim rule";
   Require_ vfs_source "try self.requireStickyRemoval(destination.parent, target, credentials);" "rename replacement independently checks the destination victim";
   Require_ fd_source "fs.renameAs(0, “/tmp/sticky/move“, “/tmp/sticky/move“, stranger_credentials" "rename-to-self remains a sticky-neutral no-op";
   Require_ fd_source "expectError(runtime_vfs.Error.PermissionDenied, fs.renameAs(0, “/tmp/sticky/source“, “/tmp/sticky/target“, stranger_credentials" "sticky replacement denies a source owner who does not own the destination victim";
   Require_ persist_source "0o3755" "journal test restores combined sticky+setgid directory metadata";
   Require_ persist_source "0o6650" "journal/fsync test restores setuid+setgid file metadata";
   Require_ persist_source "0o4640" "fdatasync test retains previously committed setuid metadata";
   Require_ executor "G242 stores setuid/setgid as inode metadata only" "runtime documents inert set-ID execution semantics";
   Require_ executor "children inherit caller credentials" "process creation explicitly refuses set-ID credential elevation";
   Require_ sdk_conformance "setuid/setgid metadata inert-exec policy passed" "Zig CPL3 fixture proves set-ID plus sticky metadata storage while execution remains inert";
   Require_ c_conformance "setuid/setgid metadata passed" "C CPL3 fixture independently proves set-ID metadata handling";
   Require_ sdk_conformance "0o3755" "Zig CPL3 fixture stores sticky+setgid directory metadata";
   Require_ sdk_conformance "0o7650" "Zig CPL3 fixture round-trips sticky+set-ID file mode";
   Require_ c_conformance "07650" "C CPL3 fixture independently round-trips sticky+set-ID file mode";
   Require_ persistence_test "same-tick ties are valid" "four-boot gate accounts for boot-local timestamp ties before requiring an fdatasync mtime change";
   Require_ persistence_test "(“sleep 1“, “sleep complete“)" "four-boot fdatasync proof deliberately advances the boot-local timestamp clock";
   Require_ persist_source "ownershipFromStat" "journal serialization records inode UID/GID";
   Require_ persist_source "write32(payload, initial_offset + 40, owner.uid)" "journal v3 writes UID at the fixed ownership offset";
   Require_ persist_source "write32(payload, initial_offset + 44, owner.gid)" "journal v3 writes GID at the fixed ownership offset";
   Require_ persist_source "committed_owner" "fdatasync retains committed owner metadata";
   Require_ persist_source "directory_owner = runtime_vfs.Ownership" "persistence test stores nonzero directory ownership";
   Require_ persist_source "name_owner = runtime_vfs.Ownership" "persistence test stores shared file/hard-link ownership";
   Require_ persist_source "timestamp_version" "legacy v2 ownership migration is explicitly modeled";
   Require_ persistence_test "HEADER_VERSION = 3" "four-boot parser requires journal format v3";
   Require_ persistence_test "RECORD_HEADER_SIZE = 48" "four-boot parser consumes UID/GID fields at the real v3 record stride";
   Require_ persistence_test "generation_one_target.owner != (0, 0)" "four-boot parser checks baseline root ownership";
   Require_ persistence_test "fsync changed committed file ownership" "four-boot gate rejects fsync ownership drift";
   Require_ persistence_test "fdatasync changed committed file ownership" "four-boot gate rejects fdatasync ownership drift";
   Require_ runtime "@atomicStore(u64, &runtime_interrupt_count, 0, .monotonic)" "persistent runtime resets timestamp ordering to zero on boot";
   Require_ runtime "configuration.ticks_per_second / 100" "persistent runtime timestamp precision is driven by the 100 Hz LAPIC service clock";
   Require_ runtime "fn currentTick() u64" "kernel namespace mutations sample the same boot-local service counter";
   Require_ vfs_source "Boot-local persistent-runtime ordering ticks" "VFS documents boot-local non-wall-clock timestamp semantics";
   Require_ vfs_source "fn touchDirectoryMutation" "namespace mutations share one parent-directory mtime/ctime helper";
   Require_ vfs_source "if (bytes.len == 0 and !truncate_first) return 0;" "zero-byte non-truncating writes are timestamp-neutral";
   Require_ vfs_source "if (count != 0) self.nodes[node_index].accessed_tick = tick;" "successful nonzero readlink advances symlink access time";
   Require_ vfs_source "if (count != 0) self.nodes[directory].accessed_tick = tick;" "successful nonzero getdents advances directory access time";
   Require_ vfs_source "test “VFS timestamp policy covers data metadata namespace and access operations“" "isolated VFS policy test proves exact timestamp field ordering and no-op rules";
   Require_ executor "activeVfs().unlinkAs(process.cwd_node, path" "unlink propagates one sampled syscall tick into namespace metadata";
   Require_ executor "activeVfs().rmdirAs(process.cwd_node, path" "rmdir propagates one sampled syscall tick into namespace metadata";
   Require_ executor "output[0..length], .{ .uid = process.uid, .gid = process.gid }, current_tick" "readlink propagates one sampled syscall tick into symlink access metadata";
   Require_ persist_source "try self.restoreMetadataPass(vfs, candidate, tick);" "journal restore reapplies timestamps and ownership after namespace and hard-link reconstruction";
   Require_ executor "fn syscallStatfs" "kernel dispatches statfs through a bounded path and output buffer";
   Require_ executor "activeVfs().statFilesystemAs" "statfs returns live VFS mount accounting";
   Require_ executor "filesystemStatFromVfs" "kernel maps internal mount kinds and sharing flags into the public ABI";
   Require_ sdk_conformance "zigos.statfs(“/“, &root_fs)" "Zig CPL3 fixture verifies shared root allocator capacity";
   Require_ sdk_conformance "zigos.statfs(“/proc/version“, &proc_fs)" "Zig CPL3 fixture verifies synthetic procfs capacity semantics";
   Require_ sdk_conformance "zigos.statfs(“/boot“, &boot_fs)" "Zig CPL3 fixture verifies real or embedded boot capacity";
   Require_ sdk_conformance "filesystem_type_tmpfs" "Zig CPL3 mount proof checks tmpfs filesystem identity";
   Require_ c_conformance "zigos_statfs(“/“, &root_fs)" "C CPL3 fixture independently verifies root statfs";
   Require_ c_conformance "zigos_statfs(“/dev/null“, &dev_fs)" "C CPL3 fixture independently verifies synthetic devfs statfs";
   Require_ sdk_conformance "zigos.statTimes(“/proc/version“, &proc_times)" "Zig CPL3 fixture queries the four-field timestamp ABI";
   Require_ sdk_conformance "timestamp precision/data/namespace/access ordering passed" "Zig CPL3 fixture proves timestamp precision plus data, namespace and access ordering";
   Require_ sdk_conformance "uid/gid creation and hard-link ownership passed" "Zig CPL3 fixture proves process ownership inheritance and hard-link identity";
   Require_ sdk_conformance "zigos.statOwner" "Zig CPL3 fixture exercises statowner";
   Require_ c_conformance "zigos_statowner" "C CPL3 fixture exercises generated statowner";
   Require_ c_conformance "zigos_stattimes(“/dev/null“, &dev_times)" "C CPL3 fixture independently queries the four-field timestamp ABI";
   Require_ c_conformance "generated header/library/device/ioctl/stat/statfs/stattimes/statowner/umask/setid-metadata/flock/lockrange/watchdir/kill/directory-openat/fsync/fdatasync/symlink/readlink/link/nlink/fallocate/sparse/readv/writev passed" "booted C fixture covers devices, sync variants, links, sparse allocation and vectored I/O";
   Require_ c_conformance "invalid_write_vectors" "C fixture proves vector prevalidation prevents partial writes";
   Require_ c_conformance "invalid_read_vectors" "C fixture proves vector prevalidation preserves read offsets";
   Require_ c_conformance "nondirectory != ZIGOS_ERRNO_NOT_DIRECTORY" "C fixture rejects relative openat on a non-directory descriptor";
   Require_ c_conformance "INT64_C(32767), “/etc/hostname“" "absolute openat ignores an otherwise invalid directory descriptor";
   Require_ sdk_startup "mov rdi, [r12]" "SDK startup reads argc from the canonical initial stack";
   Require_ sdk_startup "lea rsi, [r12 + 8]" "SDK startup derives argv from the canonical initial stack";
   Require_ sdk_startup "zigos_syscall6:" "SDK supplies the six-register int 0x80 bridge";
   Require_ sdk_source "pub fn queryAbi" "SDK exposes typed ABI discovery";
   Require_ sdk_source "pub fn mmap" "SDK exposes typed anonymous virtual-memory wrappers";
   Require_ sdk_source "pub fn mmapFile" "SDK exposes typed read-only shared file mappings";
   Require_ sdk_source "pub fn socket" "SDK exposes typed UDP socket wrappers";
   Require_ runtime_abi "pub fn messageFlagBits" "ABI rejects unknown full-width message flags before narrowing";
   Require_ executor "fn syscallSendTo" "kernel exposes unconnected UDP datagram transmission";
   Require_ executor "fn syscallRecvFrom" "kernel exposes source-address UDP reception";
   Require_ executor "fn syscallGetPeerName" "kernel exposes connected UDP peer inspection";
   Require_ executor "fn syscallSetNonblocking" "kernel stores explicit per-socket nonblocking mode";
   Require_ executor "fn syscallIoctl" "kernel exposes descriptor ioctl";
   Require_ executor "fn syscallStat" "kernel exposes path-based stat";
   Require_ executor "fn syscallOpenAt" "kernel exposes directory-relative openat";
   Require_ executor "fn syscallFsync" "kernel exposes descriptor-targeted full file sync";
   Require_ executor "fn syscallFdatasync" "kernel exposes descriptor-targeted data-only sync";
   Require_ executor "fn syscallMount" "kernel exposes the ABI 1.13 mount syscall";
   Require_ executor "fn syscallUmount" "kernel exposes the ABI 1.13 unmount syscall";
   Require_ executor "process.uid != 0" "mount and unmount remain root-only";
   Require_ executor "std.mem.eql(u8, filesystem_buffer[0..filesystem_length], “tmpfs“)" "initial userspace mount ABI accepts only tmpfs";
   Require_ executor "activeVfs().mountEmpty" "userspace mounts require an empty target rather than migrating an existing namespace";
   Require_ executor "activeProcesses().processAt(slot)" "unmount scans every occupied process slot for working-directory references";
   Require_ executor "activeVfs().nodeOnMount" "unmount rejects a process working directory within the target mount";
   Require_ executor "activeVfs().mountKind(mount_id)" "userspace unmount classifies the exact target mount";
   Require_ executor "!= .tmpfs" "userspace cannot detach kernel-owned procfs, devfs or netfs mounts";
   Require_ sdk_conformance "zigos.umount(“/proc“, 0)" "CPL3 conformance proves kernel-owned procfs cannot be detached";
   Require_ vfs_source "tmpfs," "VFS distinguishes tmpfs from the root ramfs mount";
   Require_ vfs_source "pub fn mountEmpty" "VFS exposes empty-target mount construction";
   Require_ vfs_source "pub fn mountIdAtPath" "unmount resolves only an exact mounted root";
   Require_ vfs_source "test “VFS empty tmpfs mounts are isolated and resolve exact unmount targets“" "isolated VFS test proves tmpfs isolation and descriptor-busy unmount";
   Require_ persist_source ".ramfs, .tmpfs" "global sync treats both RAM filesystem kinds as immediate writable mounts";
   Require_ executor "fn syscallFileSync" "fsync and fdatasync share descriptor validation and address-space switching";
   Require_ executor "activeDescriptors().syncNode" "fsync and fdatasync resolve every regular VFS file rather than discarding RAM-backed targets";
   Forbid executor "const persistent_node = activeDescriptors().persistentSyncNode" "file sync silently treated RAM-backed descriptors as an untracked no-op";
   Require_ executor "sync_file_fn" "file sync uses a file-scoped backend rather than the global sync callback";
   Require_ runtime "if (!persistent)" "RAM-backed regular-file fsync and fdatasync clear their target dirty ledger immediately";
   Require_ runtime "_ = state.vfs.clearDirtyNodePages(node);" "immediate regular-file sync drains only the resolved target";
   Require_ fd_source "test “descriptor file sync routing distinguishes immediate and persistent mounts“" "descriptor test proves RAM and persistent regular-file routing and directory rejection";
   Require_ executor "include_metadata" "the file-sync backend receives an explicit metadata policy";
   Require_ runtime "fn syncPersistentFile" "runtime routes fsync and fdatasync through one immediate-or-persistent file backend";
   Require_ runtime "syncFileData" "runtime routes fdatasync to the data-only persistent-store path";
   Require_ runtime "state.persistence.serviceWriteback(&state.vfs)" "timer-driven runtime service processes at most one active writeback request per pass";
   Require_ runtime "fn commandWriteback" "diagnostic shell schedules and reports asynchronous writeback";
   Require_ runtime "fn writebackStateClean" "all runtime profiles accept a conserved idle worker or fully completed healthy requests";
   Require_ runtime "report.writeback_passes == report.writeback_requests" "writeback cleanliness requires every scheduled request to receive one service pass";
   Require_ runtime "report.writeback_completions == successful" "writeback completion accounting equals successful outcomes";
   Require_ runtime "report.writeback_pages_queued == report.writeback_pages_completed" "healthy writeback state conserves scheduled page accounting";
   Require_ runtime_test "writeback /bin/sdk.elf" "QEMU schedules a real six-page RAM-backed ELF for background writeback";
   Require_ runtime_test "sleep 1" "QEMU gives the timer service a background pass after scheduling";
   Require_ runtime_test "writeback status" "QEMU observes completion separately from the scheduling command";
   Require_ runtime_test "requests/completions/passes 1/1/1" "dedicated QEMU runtime requires a nonzero asynchronous request and service completion";
   Require_ runtime_test "pages queued/completed 6/6" "dedicated QEMU runtime requires exact six-page scheduled completion"].

Definition part_10 : list statement := [
   Require_ executor "fn syscallSymlink" "kernel exposes symbolic-link creation";
   Require_ executor "fn syscallReadlink" "kernel exposes non-following link-target reads";
   Require_ executor "fn syscallLink" "kernel exposes same-mount hard-link creation";
   Require_ sdk_source "pub fn symlink" "Zig SDK wraps symbolic-link creation";
   Require_ sdk_source "pub fn readlink" "Zig SDK wraps link-target reads";
   Require_ sdk_source "pub fn link" "Zig SDK wraps hard-link creation";
   Require_ sdk_abi "link_count: u8" "generated Zig stat layout exposes namespace link counts";
   Require_ executor "@min(maximum_socket_slots, e1000e.udpEndpointCapacity())" "ABI reports the four usable driver endpoints rather than eight bookkeeping slots";
   Require_ e1000e_source "pub fn udpEndpointCapacity" "retained NIC publishes its hardware UDP endpoint capacity";
   Require_ executor "slot.nonblocking or (flags & runtime_abi.message_dontwait) != 0" "empty UDP receives return EWOULDBLOCK in both nonblocking modes"].

Definition udp_wrappers : list statement := (λ wrapper, Require_ sdk_source ("pub fn " +:+ wrapper) ("SDK exposes UDP ABI 1.6 wrapper " +:+ wrapper)) <$>
  ["sendto"; "recvfrom"; "getpeername"; "setNonblocking"].

Definition part_11 : list statement := [
   Require_ socket_conformance "SYS_SENDTO" "CPL3 socket fixture transmits an unconnected DNS datagram";
   Require_ socket_conformance "SYS_RECVFROM" "CPL3 socket fixture receives source metadata";
   Require_ socket_conformance "SYS_GETPEERNAME" "CPL3 socket fixture checks its connected peer";
   Require_ socket_conformance "SYS_SETNONBLOCK" "CPL3 socket fixture checks socket-level nonblocking mode";
   Require_ socket_conformance "ZIGOS_MSG_DONTWAIT" "CPL3 socket fixture checks per-call nonblocking mode";
   Require_ runtime_test "socket-api: UDP partial-send + TCP connect/listen/accept/shutdown + sockopt + txwake passed" "required live QEMU session retains G300/G301 TCP connect/listen while proving G302 accept";
   Require_ sdk_conformance "shared file mmap coherence passed" "Zig conformance binary proves ordinary writes immediately refresh mapped reads after close and unlink";
   Require_ sdk_conformance "try zigos.chmod(mapping_path, 0);" "CPL3 fixture maps through a descriptor opened before pathname permissions are removed";
   Require_ sdk_conformance "null,⏎        13," "CPL3 fixture exercises a partial final file page rather than a preallocated full page";
   Require_ sdk_conformance "startup/argv/abi/files/vm/file-mmap/errno/fsync/fdatasync/readv/writev/mount/umount/tmpfs/statfs/stattimes/statowner/umask/setid-metadata/flock/lockrange/watchdir/kill passed" "Zig conformance binary spans startup, shared file mappings, both sync wrappers and vectored I/O";
   Require_ sdk_source "pub const MountFlags" "Zig SDK publishes typed mount flags";
   Require_ sdk_source "pub fn mount" "Zig SDK exposes the mount syscall";
   Require_ sdk_source "pub fn umount" "Zig SDK exposes the unmount syscall";
   Require_ c_header "ZIGOS_MOUNT_READ_ONLY" "generated C header publishes the read-only mount flag";
   Require_ c_header "zigos_mount" "generated C header declares mount";
   Require_ c_header "zigos_umount" "generated C header declares unmount";
   Require_ c_library "zigos_mount" "C wrapper library exposes mount";
   Require_ c_library "zigos_umount" "C wrapper library exposes unmount";
   Require_ sdk_conformance "tmpfs mount/umount isolation, statfs and busy policy passed" "booted Zig fixture proves mount isolation, descriptor/CWD busy rejection and read-only tmpfs";
   Require_ sdk_source "pub fn fdatasync" "Zig SDK exposes descriptor fdatasync";
   Require_ sdk_conformance "invalid_write_vectors" "Zig fixture proves invalid later vectors cause no partial write";
   Require_ sdk_conformance "invalid_read_vectors" "Zig fixture proves invalid later destinations do not consume the shared offset";
   Require_ sdk_conformance "constants.maximum_iovecs + 1" "Zig fixture proves the generated vector-count bound";
   Require_ sdk_conformance "info.maximum_io_bytes + 1" "Zig fixture proves the total-byte limit";
   Require_ sdk_abi "pub const AbiInfo = extern struct" "generated SDK ABI publishes stable structure layouts";
   Require_ sdk_verifier "physical not in (0, virtual)" "SDK ELF verifier accepts only zero or conventional p_paddr";
   Require_ elf_source "section_header_offset" "production loader validates optional standard section tables";
   Require_ elf_source "physical_address != virtual_address" "production loader accepts conventional p_paddr only";
   Require_ elf_source "test “parser accepts conventional physical addresses and a bounded section table“" "ELF compatibility regression test";
   Require_ command_source "stable argument slices preserve distinct extra arguments" "multi-argument launch regression is tested";
   Require_ executor "paging.activateAddressSpace" "private CR3 activation";
   Require_ executor "zigos_enter_user_context" "complete context entry";
   Require_ executor "frame.rip -= 2" "blocked syscall retry";
   Require_ executor "activeProcesses().fault(context.handle" "exception-derived fault recording";
   Require_ executor "copyToUser" "validated userspace copyout";
   Require_ executor "std.math.add(u64, address, index)" "overflow-safe user strings";
   Require_ executor "allocator_report.frees" "owned page-pool reclamation accounting";
   Require_ executor "releasePage(physical, context.handle);" "failed owned mappings release their owned page";
   Require_ executor "paging.userAddressSpaceEmpty" "teardown requires an empty private page table";
   Require_ executor "syscall.syscall_abi_query" "versioned ABI discovery syscall";
   Require_ executor "syscall.syscall_mmap" "anonymous and shared-file process mappings";
   Require_ executor "const file_shared = (flags & runtime_abi.map_shared) != 0" "mmap distinguishes private-anonymous and shared-file modes";
   Require_ executor "activeDescriptors().fileMappingInfo" "file mappings resolve generation-safe regular descriptor metadata";
   Require_ executor "activeVfs().pinFilePage" "file mappings borrow VFS cache pages rather than copying data";
   Require_ executor "fn mapBorrowedFilePage" "borrowed cache pages enter userspace without page-pool ownership";
   Require_ executor "activeVfs().unpinFilePage" "unmap, rollback and process teardown release VFS page pins";
   Require_ executor "mapping.kind == .file_shared" "file mapping teardown distinguishes borrowed from owned physical pages";
   Require_ executor "context.mappings[index].kind == .file_shared" "mprotect rejects writable or executable upgrades for shared file mappings";
   Require_ fd_source "pub const FileMappingInfo = struct" "descriptor layer publishes generation-safe regular file mapping metadata";
   Require_ fd_source "pub fn fileMappingInfo" "descriptor layer resolves mmap fd ownership and access mode";
   Require_ fd_source "test “regular descriptors expose generation safe file mapping metadata“" "descriptor test proves node generation, size and read/write access mapping metadata";
   Require_ fd_source "try fs.chmod(0, “/tmp/mapped“, 0, 3);" "descriptor test removes pathname mode bits after opening the file";
   Require_ fd_source "(try system.write(&fs, &processes, handle, fd, “!“, 4)).count" "descriptor test proves retained writable-open authority after chmod";
   Require_ executor "syscall.syscall_munmap" "process mapping release";
   Require_ executor "syscall.syscall_mprotect" "process mapping protection transitions";
   Require_ executor "syscall.syscall_brk" "process heap-break management";
   Require_ executor "syscall.syscall_fstat" "descriptor metadata syscall";
   Require_ executor "syscall.syscall_getdents" "descriptor directory iteration syscall";
   Require_ executor "syscall.syscall_poll" "descriptor readiness syscall";
   Require_ executor "syscall.syscall_socket" "descriptor-backed IPv4 datagram sockets";
   Require_ executor "syscall.syscall_bind" "userspace UDP bind";
   Require_ executor "syscall.syscall_connect" "userspace UDP connect";
   Require_ executor "syscall.syscall_send" "userspace UDP send";
   Require_ executor "syscall.syscall_recv" "blocking userspace UDP receive";
   Require_ executor "serviceNetwork" "network ingress wakes blocked socket readers";
   Require_ vfs_source "pub const PseudoOperations" "pseudo and device nodes publish per-node operation tables";
   Require_ vfs_source "pub fn createPseudoWithOperations" "VFS registers independently operated pseudo/device nodes";
   Require_ vfs_source "pub fn publishPseudoRegistration" "VFS exposes a narrow kernel-only pseudo publication capability";
   Require_ vfs_source "pub fn withdrawPseudoRegistration" "VFS supports busy-safe withdrawal of registered pseudo objects";
   Require_ vfs_source "fn validatePseudoMountRoot" "privileged publication is limited to exact read-only procfs/devfs/netfs roots";
   Require_ vfs_source "pub fn mountKind" "mount identity can be classified without exposing mutable mount internals";
   Require_ pseudo_fs_source "pub const maximum_registrations: usize = 16" "each live pseudo registry has a fixed entry bound";
   Require_ pseudo_fs_source "pub fn register" "live pseudo objects may be registered before or after mount publication";
   Require_ pseudo_fs_source "pub fn unregister" "live pseudo objects have an explicit withdrawal path";
   Require_ pseudo_fs_source "pub fn mount" "registry mounts an empty read-only pseudo filesystem before publication";
   Require_ pseudo_fs_source "pub fn validate" "registry state is checked against the visible VFS namespace";
   Require_ pseudo_fs_source "test “live pseudo registry publishes after mount and withdraws only when idle“" "isolated registry test proves live publication and EBUSY withdrawal";
   Require_ runtime "runtime_pseudo_fs.Registry.init(.devfs)" "runtime owns a live device registry";
   Require_ runtime "runtime_pseudo_fs.Registry.init(.procfs)" "runtime owns a live kernel-object registry";
   Require_ runtime "runtime_pseudo_fs.Registry.init(.netfs)" "runtime owns a live network-object registry";
   Require_ runtime "livePseudoFilesystemsClean" "all runtime profiles conserve live pseudo registrations";
   Require_ runtime "dev.registrations == 3 and proc.registrations == 5 and net.registrations == 4" "runtime freezes exact device/kernel/network registration counts";
   Require_ vfs_source "pub fn ioctlOpen" "VFS dispatches device ioctl through the node operation table";
   Require_ runtime "state.devfs.register(&state.vfs, “null“, 0o666" "runtime publishes a writable null device through the live registry";
   Require_ runtime "state.devfs.register(&state.vfs, “zero“, 0o666" "runtime publishes a writable zero device through the live registry";
   Require_ runtime "state.devfs.register(&state.vfs, “console“, 0o666" "runtime publishes an openable console stream through the live registry";
   Forbid vfs_source "setPseudoReader" "a global pseudo-reader shortcut returned";
   Require_ executor "std.math.add(u64, current_tick, frame.rdi)" "overflow-safe sleep deadlines";
   Require_ executor "runtime_abi.descriptor(frame.rdi)" "descriptor registers are range-checked before narrowing";
   Require_ executor "runtime_abi.openFlagBits(frame.rsi)" "open flags are validated before narrowing";
   Forbid executor "const fd: u16 = @truncate(frame.rdi)" "descriptor arguments truncate before validation";
   Forbid executor "const bits: u8 = @truncate(frame.rsi)" "open flags truncate before validation";
   Forbid vfs_source "const node = self.nodes[" "full 16 KiB VFS nodes are copied onto the retained kernel stack";
   Forbid vfs_source "for (self.nodes" "VFS node arrays are iterated by value on the retained kernel stack";
   Forbid vfs_source "for (self.nodes[" "VFS node slices are iterated by value on the retained kernel stack";
   Forbid executor "for (contexts) |context|" "full retained userspace contexts are copied onto the kernel stack";
   Forbid executor "for (contexts," "retained context lookup copies multi-kilobyte contexts onto the kernel stack";
   Forbid executor "context: Context" "syscall helpers copy the full retained context onto the kernel stack";
   Forbid executor "context.*" "syscall paths pass retained contexts by value";
   Forbid executor "const context = contexts[service_cursor]" "scheduler copies a retained context onto the kernel stack";
   Require_ vfs_source "const node = &self.nodes[node_index]" "VFS node access stays pointer-based";
   Require_ vfs_source "pub fn readOnlyView" "executable loading uses a bounded read-only VFS view";
   Require_ runtime "state.vfs.readOnlyView" "shell executable loading avoids a 16 KiB staging copy";
   Require_ executor "activeVfs().executableViewAs" "userspace spawn uses the bounded VFS image view with execute authorization";
   Forbid runtime "runtime_user.dispatch(" "kernel shell bypasses the retained userspace scheduler";
   Forbid runtime "foreground_handle" "foreground ownership is duplicated outside the TTY and process table";
   Forbid runtime "state.jobs" "background jobs are duplicated outside the process table";
   Forbid runtime "const Job = struct" "a second bounded job table returned";
   Forbid executor "excluded_handle" "the scheduler can hide a shell-selected userspace context";
   Require_ runtime "fn serviceUserspace(tick: u64)" "one runtime service path owns every CPL3 dispatch";
   Require_ runtime "runtime_user.serviceOne(tick)" "the runtime delegates every CPL3 selection to the retained scheduler";
   Require_ runtime "state.processes.wait(state.shell_handle, handle, false)" "foreground execution blocks the shell through process wait";
   Require_ runtime "writeProcessCommand(process, output)" "job reporting is derived from process records";
   Require_ process_source "pub fn scheduleNextKind(self: *Table, kind: Kind, current_handle: ?u64)" "kind scheduling has no exclusion side channel";
   Require_ executor "childForWait(context.handle, target)" "userspace wait queries children without materializing a process snapshot";
   Require_ process_source "terminal_sequence" "wait-any records terminal completion order independently of process-table slots";
   Require_ process_source "earliest_sequence" "wait-any selects the earliest completed terminal child";
   Forbid executor "activeProcesses().snapshot()" "userspace wait copies the full process table onto the syscall stack";
   Require_ process_source "pub fn processAt" "process inspection uses bounded slot views";
   Require_ runtime "state.processes.processAt" "the shell process listing avoids a full process-table return value";
   Forbid runtime "state.processes.snapshot()" "the shell process listing copies the full process table onto a kernel or IST stack";
   Forbid process_source "pub const Snapshot = struct" "process-table snapshots can materialize tens of kilobytes on an interrupt stack";
   Require_ executor "initializeManager(physical_memory, page_limit, memory.four_gib, true)" "permanent userspace allocates pages on demand from physical memory";
   Forbid executor "allocateContiguousBelow(arena_pages" "permanent userspace reserves a fixed physical slab";
   Forbid process_source "for (self.processes" "process-table scans copy the complete process array onto the syscall IST";
   Require_ process_source "const process = &self.processes[slot]" "process-table scans use indexed pointer access"].

Definition first_half : list statement :=
  forbidden_runtime ++
  part_1 ++
  damage_reasons ++
  part_2 ++
  part_3 ++
  fs_wrappers ++
  part_4 ++
  part_5 ++
  part_6 ++
  pseudo_registries ++
  part_7 ++
  part_8 ++
  part_9 ++
  part_10 ++
  udp_wrappers ++
  part_11.

End ContractPart1.
