(* ===== verification/ContractPart2.v ===== *)
(** * The userspace contract: checks, second part

    The statements of [main] from the checks of the e1000e driver to the end. *)

From S2P Require Import Prelude PyBytes ContractLanguage ContractPart1.

Module ContractPart2.

Import ContractLanguage ContractPart1.

Definition completion_bodies : list statement := 
  [Require_ (completion_body "waitForTx") "!runtime_completion_polling_enabled and apic.currentId() == target_apic_id" "waitForTx enables interrupts only during boot-time MSI-X validation";
   Require_ (completion_body "waitForTx") "if (interrupt_assisted) zigos_enable_interrupts();" "waitForTx guards interrupt enablement";
   Require_ (completion_body "waitForTx") "if (interrupt_assisted) zigos_disable_interrupts();" "waitForTx restores boot-time interrupt state";
   Forbid (completion_body "waitForTx") "const local_target" "waitForTx reintroduced unconditional local-APIC interrupt enablement";
   Require_ (completion_body "waitForRx") "!runtime_completion_polling_enabled and apic.currentId() == target_apic_id" "waitForRx enables interrupts only during boot-time MSI-X validation";
   Require_ (completion_body "waitForRx") "if (interrupt_assisted) zigos_enable_interrupts();" "waitForRx guards interrupt enablement";
   Require_ (completion_body "waitForRx") "if (interrupt_assisted) zigos_disable_interrupts();" "waitForRx restores boot-time interrupt state";
   Forbid (completion_body "waitForRx") "const local_target" "waitForRx reintroduced unconditional local-APIC interrupt enablement"].

Definition part_12 : list statement := [
   Require_ memory_source "pub const PhysicalMemoryManager" "post-bootstrap reclaiming physical-memory manager";
   Require_ memory_source "initializeFromBootstrap" "explicit bootstrap-to-permanent allocator handoff";
   Require_ memory_source "current_region_full_end" "low-address allocation preserves deferred high-memory pages";
   Require_ memory_source "bootstrap.sealed = true" "monotonic bootstrap allocator is sealed after handoff";
   Require_ memory_source "pub fn allocateBelow" "physical allocations support explicit address limits";
   Require_ memory_source "PhysicalMemoryError.DoubleFree" "physical manager detects double frees";
   Require_ memory_source "test “physical manager handoff preserves low and high remaining regions“" "handoff retains untouched high-memory extents";
   Require_ memory_source "test “physical manager merges fragmented releases“" "physical free extents are coalesced";
   Require_ page_pool_source "manager.free(address)" "final page-owner release returns the page to physical memory";
   Require_ page_pool_source "poison_on_free" "released permanent-runtime pages are poisoned before physical reuse";
   Require_ page_pool_source "test “manager-backed pages return to post-bootstrap physical memory“" "manager-backed page ownership integration test";
   Require_ runtime_abi "pub const constants = @import(“generated/runtime_abi_constants.zig“)" "kernel ABI consumes generated constants";
   Require_ runtime_abi "pub const AbiInfo = extern struct" "versioned machine-readable ABI information";
   Require_ runtime_abi "pub fn fromError" "stable kernel-error to userspace-errno mapping";
   Require_ runtime_abi "descriptor arguments reject narrowing aliases" "hostile descriptor-width tests";
   Require_ runtime_abi "open protection map and message flags reject unknown or contradictory bits" "hostile ABI flag tests";
   Require_ abi_generator "newline=“\n“" "ABI generator emits deterministic LF files";
   Require_ assets "“generate-abi.py“" "asset generation refreshes ABI constants before assembly";
   Test (λ r, Ok (page_size_bad r)) "versioned ABI specification does not declare the required major version/page size";
   Test (λ r, Ok (syscall_values_bad r)) "versioned ABI syscall numbers are empty or duplicated";
   Test (λ r, declared_tests_bad r) "canonical isolated-test declaration total must be 106, found {declared_tests}"].

Definition isolated_tests : list statement := (λ path, Require_ build_graph path ("isolated test graph includes " +:+ path)) <$>
  ["“src/runtime_fd.zig“";
   "“src/runtime_command.zig“";
   "“src/runtime_process.zig“";
   "“src/runtime_tty.zig“";
   "“src/runtime_vfs.zig“";
   "“src/runtime_pseudo_fs.zig“";
   "“src/runtime_boot_fat.zig“";
   "“src/runtime_abi.zig“";
   "“src/runtime_page_pool.zig“";
   "“src/runtime_persist.zig“";
   "“src/elf64.zig“";
   "“src/tcp_connection.zig“";
   "“sdk/zig/dns.zig“";
   "“sdk/zig/copy_core.zig“"].

Definition part_13 : list statement := [
   Require_ workflow ".\scripts\test-runtime.ps1 -TimeoutSeconds 180 -Network" "hosted live permanent-shell network test";
   Require_ workflow "test-boot-fat-quarantine.py --boot-timeout 240" "hosted integration runs the corrupted-media quarantine gate";
   Require_ build_graph "b.path(“src/nvme.zig“)" "canonical isolated graph includes the dedicated ReleaseSafe NVMe tests";
   Require_ workflow "test-boot-fat-io-error.py --boot-timeout 240" "hosted integration runs the block-read EIO and retry gate";
   Require_ workflow "test-persistent-readonly-remount.py --boot-timeout 240" "hosted integration runs the persistent fail-stop read-only remount gate";
   Require_ readme "252/252 canonical host-test executions across all 106 unique isolated-test declarations" "README carries the clean canonical execution and declaration counts";
   Require_ readme "Size:    5,859,840 bytes" "README carries the reproducible G313 ABI 1.32 EFI size";
   Require_ readme "SHA-256: 460699F1C50D16B9DA6A849FF918BAA5BAE6FBB360C10F4041B1875FE73D40F3" "README carries the reproducible G313 ABI 1.32 EFI hash";
   Require_ readme "Persistent NVMe write-error read-only-remount profile" "README documents the required fail-stop profile";
   Require_ readme "discarded/rejected 2/1 vfs-remount/discard 1/2 mount-readonly yes clean yes" "README freezes exact G229 containment telemetry";
   Require_ priority "252/252 canonical host-test executions across 106 unique isolated Zig test declarations" "priority remediation carries the canonical execution and declaration counts";
   Require_ priority "Persistent journal damage now has a bounded fail-stop policy" "priority remediation distinguishes containment from retry";
   Require_ threat_model "remounts the exact `/persist` mount read-only once" "threat model states the fail-stop storage boundary";
   Require_ readme "ABI 1.13 root-only `mount`/`umount` for a distinct transient `tmpfs`" "README documents the bounded userspace mount ABI";
   Require_ readme "forced/lazy detach, arbitrary filesystem types, device-backed mounts and per-process mount namespaces are not implemented" "README does not overclaim the mount subset";
   Require_ priority "ABI 1.13 adds root-gated syscalls 119/120 for an empty-target `tmpfs` subset" "priority remediation records the tmpfs mount boundary";
   Require_ threat_model "ABI 1.13 exposes only a root-gated empty-target `tmpfs` mount subset" "threat model records the namespace lifetime policy";
   Require_ readme "kernel-only fixed-capacity live registries" "README documents the G233-G235 implementation boundary";
   Require_ readme "per-PID proc directories, userspace registrars and automatic hotplug discovery remain open" "README does not overclaim live pseudo filesystems";
   Require_ priority "Three fixed-capacity kernel-only live registries" "priority remediation records live devfs/procfs/netfs publication";
   Require_ threat_model "kernel-owned pseudo mounts cannot be detached through the userspace tmpfs-only unmount ABI" "threat model protects live registry lifetime";
   Require_ readme "ABI 1.14 `statfs` syscall 121" "README documents the filesystem-capacity ABI";
   Require_ readme "shared block pool" "README prevents summing shared RAM-backed mount capacities";
   Require_ priority "ABI 1.14 adds path-based `statfs` syscall 121" "priority remediation records G236";
   Require_ threat_model "statfs capacity is accounting information, not a storage-isolation boundary" "threat model limits statfs security claims";
   Require_ readme "ABI 1.15 `stattimes` syscall 122" "README documents the four-field inode timestamp ABI";
   Require_ priority "ABI 1.15 adds path-based `stattimes` syscall 122" "priority remediation records G237";
   Require_ threat_model "real-world clock or cross-reboot ordering source" "threat model rejects real-world clock and cross-reboot ordering interpretation";
   Require_ readme "boot-local 100 Hz counter with nominal 10 ms precision" "README documents G238 timestamp precision and reset scope";
   Require_ readme "persisted values may later decrease numerically after reboot" "README rejects false cross-reboot monotonic ordering";
   Require_ priority "same-tick ties allowed" "priority remediation documents timestamp tie semantics";
   Require_ threat_model "operations within one tick may tie" "threat model records scheduler-tick timestamp aliasing";
   Require_ threat_model "read-only mapped-file access" "threat model records mmap timestamp neutrality";
   Require_ readme "ABI 1.16 `statowner` syscall 123" "README documents the inode ownership ABI";
   Require_ priority "ABI 1.16 completes G239 with syscall 123 `statowner`" "priority remediation records G239";
   Require_ threat_model "G240 makes this metadata authoritative for the bounded VFS" "threat model records the G240 authorization boundary";
   Require_ threat_model "setuid/setgid metadata without granting credentials" "threat model retains inert set-ID execution semantics after G243";
   Require_ readme "ABI 1.17 `umask` syscall 124" "README documents process creation masking";
   Require_ priority "ABI 1.17 syscall 124 `umask`" "priority remediation records G241";
   Require_ threat_model "ABI 1.17 adds syscall 124 `umask`" "threat model records the G241 security boundary";
   Require_ readme "G243 keeps ABI 1.17 and expands the validated stored mode to `07777`" "README documents sticky-directory authorization";
   Require_ priority "G243 expands the validated stored mode to `07777`" "priority remediation records G243";
   Require_ threat_model "G243 expands stored mode metadata to validated `07777`" "threat model records sticky-directory removal semantics";
   Require_ threat_model "rename destination replacement" "threat model requires sticky checking for replacement victims";
   Require_ readme "ABI 1.18 syscall 125 `flock`" "README documents advisory whole-file locking";
   Require_ priority "ABI 1.18 then adds syscall 125 `flock`" "priority remediation records G244";
   Require_ threat_model "ABI 1.18 `flock` is coordination rather than authorization" "threat model prevents treating advisory locking as access control";
   Require_ readme "G244 whole-file locks remain a separate advisory namespace from G245 byte-range locks" "README separates whole-file and byte-range advisory namespaces";
   Require_ readme "ABI 1.19 syscall 126 `lockrange`" "README documents bounded advisory byte-range locking";
   Require_ priority "ABI 1.19 adds syscall 126 `lockrange`" "priority remediation records G245";
   Require_ threat_model "ABI 1.19 `lockrange` applies the same advisory boundary" "threat model records byte-range locks as coordination rather than authorization";
   Require_ readme "ABI 1.20 syscall 127 `watchdir`" "README documents bounded directory-change notifications";
   Require_ priority "ABI 1.20 adds syscall 127 `watchdir`" "priority remediation records G246";
   Require_ threat_model "ABI 1.20 `watchdir` is also coordination/observation rather than authorization" "threat model prevents treating notification watches as access control";
   Require_ threat_model "not a durable audit trail" "threat model rejects persistent-audit interpretation of transient watch history";
   Require_ vfs_source "pub const maximum_name_length: usize = 31;" "G247 fixes the bounded VFS component limit at 31 bytes";
   Require_ vfs_source "pub const maximum_path_length: usize = 255;" "G247 fixes the bounded VFS pathname payload limit at 255 bytes";
   Require_ vfs_source "pub fn validatePathBounds(path: []const u8) Error!void" "G247 centralizes full-path validation before lookup or mutation";
   Require_ vfs_source "if (path.len > maximum_path_length) return Error.PathTooLong;" "G247 rejects paths beyond 255 bytes";
   Require_ vfs_source "if (position - start > maximum_name_length) return Error.NameTooLong;" "G247 rejects components beyond 31 bytes";
   Test (λ r, count_below r "src/runtime_vfs.zig" ["try validatePathBounds(old_path);"; "try validatePathBounds(new_path);"] 2) "permanent-userspace contract missing: G247 prevalidates both link and rename pathnames";
   Require_ vfs_source "try validatePathBounds(target);" "G247 bounds symlink target strings before mutation";
   Require_ executor "fn copyUserPath(context: *const Context, frame: *interrupt_context.Frame" "G247 uses a dedicated C-string pathname copier";
   Require_ executor "if (index == destination.len - 1)" "G247 distinguishes a non-NUL byte at the final bounded pathname position";
   Require_ executor "frame.rax = reject(runtime_abi.errno_name_too_long);" "G247 maps overlong pathname input to ENAMETOOLONG";
   Require_ executor "if (path_length > runtime_vfs.maximum_path_length)" "G247 bounds length-delimited spawn paths before user-memory copies";
   Require_ executor "if (request.path_length > runtime_vfs.maximum_path_length)" "G247 bounds spawnv paths before argument processing";
   Require_ executor "runtime_vfs.validatePathBounds(path) catch |err|" "length-delimited process launch uses the central pathname validator";
   Require_ sdk_source "if (path.len > 255) return Error.NameTooLong;" "Zig spawnv classifies path overflow as NameTooLong";
   Require_ sdk_conformance "const exact_path_boundary =" "Zig CPL3 fixture exercises the exact 255-byte pathname boundary";
   Require_ sdk_conformance "const overlong_path_boundary =" "Zig CPL3 fixture exercises a 256-byte pathname";
   Require_ sdk_conformance "const overlong_component_path =" "Zig CPL3 fixture exercises a 32-byte component";
   Require_ c_conformance "sizeof(exact_path_boundary) != 256" "C CPL3 fixture proves the exact 255-byte C-string payload";
   Require_ c_conformance "sizeof(overlong_path_boundary) != 257" "C CPL3 fixture proves the 256-byte C-string payload";
   Require_ c_conformance "pathname length/component bounds" "C CPL3 fixture fails closed on G247 boundary regressions";
   Require_ runtime_test "bytes 5859908 metadata/file/block reads 113/4/115 failures 0 clusters claimed/free/loop/cross/range 11449/4662/0/0/0" "G313 diagnostic harness freezes the measured FAT geometry";
   Require_ normal_boot_test "11348/4763/0/0/0 lock tickets/outstanding 1/0" "G313 normal harness retains the measured FAT geometry";
   Require_ io_error_boot_test "bytes 5809220 metadata/file/block reads 114/3/115 failures 1 clusters claimed/free/loop/cross/range 11350/4761/0/0/0" "G313 read-EIO harness freezes its private fault-injection geometry";
   Require_ readonly_remount_boot_test "bytes 5809220 metadata/file/block reads 113/0/113 failures 0 clusters claimed/free/loop/cross/range 11350/4761/0/0/0" "G313 write-EIO harness freezes its private fault-injection geometry";
   Require_ readme "user path payloads may be at most 255 bytes" "README documents the G247 pathname bound";
   Require_ priority "G247 closes the user-path length/classification gap" "priority remediation records G247 bounds and errno classification";
   Require_ threat_model "User pathname payloads are capped at 255 bytes" "threat model records the fixed G247 pathname security boundary";
   Require_ vfs_source "const namespace_fuzz_steps_per_seed: usize = 512;" "G248 fixes each deterministic namespace fuzz seed at 512 transitions";
   Test (λ r, fuzz_seeds_bad r) "permanent-userspace contract missing: G248 must retain exactly eight fixed 64-bit fuzz seeds";
   Require_ vfs_source "const operation = rng.index(10);" "G248 selects across ten deterministic namespace operation classes";
   Require_ vfs_source "var operation_counts: [10]usize = @splat(0);" "G248 records per-seed operation-class coverage";
   Require_ vfs_source "var source_variant_counts: [5]usize = @splat(0);" "G248 records every accepted source path spelling";
   Require_ vfs_source "var destination_variant_counts: [4]usize = @splat(0);" "G248 records every mutation destination spelling";
   Require_ vfs_source "replacement_renames += 1;" "G248 records real replacement-rename transitions";
   Require_ vfs_source "seed missed successful rename/replacement/unlink coverage" "G248 rejects fixed seeds that stop exercising successful target state transitions";
   Require_ vfs_source "std.fmt.bufPrint(buffer, “//{s}///{s}“" "G248 fuzzes repeated-slash path normalization";
   Require_ vfs_source "std.fmt.bufPrint(buffer, “/{s}/./{s}“" "G248 fuzzes dot-component path normalization";
   Require_ vfs_source "std.ascii.toUpper(byte.∗)" "G248 fuzzes case-folded namespace lookup";
   Require_ vfs_source "if (!fs.validate()) return namespaceFuzzMismatch" "G248 runs the full VFS structural invariant checker after every transition";
   Require_ vfs_source "resolved node identity mismatch" "G248 compares namespace resolution to independent model node identity";
   Require_ vfs_source "stat identity/generation mismatch" "G248 compares inode generation/link identity to the reference model";
   Require_ vfs_source "canonical path mismatch" "G248 compares canonical paths to the reference model";
   Require_ vfs_source "node conservation mismatch" "G248 checks exact node conservation after every transition";
   Require_ vfs_source "dentry conservation mismatch" "G248 checks exact dentry conservation after every transition";
   Require_ vfs_source "“/missing-parent/f0“" "G248 proves missing-destination-parent rename is failure-atomic";
   Require_ vfs_source "rename-file-over-directory" "G248 proves replacement type mismatch leaves the source intact";
   Require_ vfs_source "unlink-overlong-component" "G248 carries G247 bounds through randomized unlink state";
   Require_ vfs_source "for (namespace_fuzz_seeds) |seed| try runNamespaceStateMachineFuzz(seed);" "G248 executes all fixed seeds from the existing VFS directory-mutation test";
   Require_ readme "4,096 deterministic model-checked namespace transitions" "README documents the G248 host-test workload without changing declaration counts";
   Require_ readme "G248 release artifact was byte-identical to G247" "README retains the historical G248 byte-identity result without applying it to G249";
   Require_ priority "G248 adds a deterministic model-based path/rename/unlink state-machine fuzzer" "priority remediation records G248";
   Require_ threat_model "G248 adds deterministic model-based adversarial coverage" "threat model records the bounded G248 fuzz assurance boundary";
   Require_ threat_model "every seed self-checks coverage" "threat model records deterministic corpus coverage assertions";
   Require_ threat_model "G249 separately stress-tests a bounded concurrent mutation subset" "threat model preserves the single-threaded boundary of the G248 model";
   Require_ vfs_source "namespace_operation_lock: synchronization.TicketLock = synchronization.TicketLock.init()," "G249 adds one coarse ticket lock for its concurrent namespace target set";
   Test (λ r, count_differs r "src/runtime_vfs.zig" ["_ = self.namespace_operation_lock.acquire();"; "defer self.namespace_operation_lock.release();"] 4) "permanent-userspace contract missing: G249 must retain exactly four namespace-operation lock boundaries"].

Definition lock_boundaries : list statement := (λ signature, Test (λ r, lock_boundary_bad r signature)
    ("permanent-userspace contract missing: G249 lock boundary for " +:+ signature)) <$>
  ["pub fn createOwned(self: *Vfs";
   "pub fn write(self: *Vfs, cwd: u16, path: []const u8";
   "pub fn unlinkAs(self: *Vfs";
   "pub fn renameAs(self: *Vfs"].

Definition part_14 : list statement := [
   Require_ vfs_source "if (self.namespace_operation_lock.next() != self.namespace_operation_lock.serving()) return false;" "VFS validation rejects an undrained G249 ticket queue";
   Require_ vfs_source "const ConcurrentNamespaceWorker = struct" "G249 retains the four-thread namespace stress worker";
   Require_ vfs_source "while (iteration < 64)" "each G249 worker performs 64 complete namespace cycles";
   Require_ vfs_source "worker.fs.create(0, source, 0o600, tick)" "G249 worker creates a fresh file per cycle";
   Require_ vfs_source "worker.fs.write(0, source, 0, &payload, true, tick + 1)" "G249 worker writes through the path-based locked operation";
   Require_ vfs_source "worker.fs.rename(0, source, destination, tick + 2)" "G249 worker renames every created file";
   Require_ vfs_source "worker.fs.unlink(0, destination, tick + 3)" "G249 worker unlinks every renamed file";
   Require_ vfs_source "var namespace_barrier = synchronization.Barrier.init(workers).?;" "G249 releases all workers through one start barrier";
   Require_ vfs_source "const expected_namespace_operations: u32 = @intCast(workers * 64 * 4);" "G249 freezes the built-in workload at 1,024 target operations";
   Require_ vfs_source "fs.namespace_operation_lock.next() -% lock_before" "G249 asserts exact ticket acquisition conservation";
   Require_ vfs_source "fs.namespace_operation_lock.next(), fs.namespace_operation_lock.serving()" "G249 asserts zero outstanding namespace-operation tickets";
   Require_ vfs_source "namespace_before.nodes_used, namespace_after.nodes_used" "G249 returns node ownership to baseline";
   Require_ vfs_source "namespace_before.dentries_used, namespace_after.dentries_used" "G249 returns dentry ownership to baseline";
   Require_ vfs_source "namespace_before.allocated_blocks, namespace_after.allocated_blocks" "G249 returns data-block ownership to baseline";
   Require_ vfs_source "namespace_before.open_files, namespace_after.open_files" "G249 leaves no new open VFS handles";
   Require_ vfs_source "namespace_after.mutations - namespace_before.mutations" "G249 requires exact mutation conservation";
   Require_ readme "exactly 1,024 namespace-operation lock tickets and mutations" "README documents the built-in G249 concurrent workload";
   Require_ readme "not a claim that the entire VFS is SMP-safe" "README bounds the G249 synchronization claim";
   Require_ priority "G249 supplies the separate concurrent target proof" "priority remediation records G249";
   Require_ priority "ordinary path readers and mkdir/link/symlink/mount/unmount" "priority remediation lists important paths outside the G249 lock";
   Require_ threat_model "G249 introduces a coarse ticket lock only for the concurrent create/path-write/rename/unlink target set" "threat model records the exact G249 synchronization scope";
   Require_ threat_model "must not be interpreted as global VFS thread safety" "threat model rejects a global SMP-safety interpretation";
   Require_ persist_source "const first_rejected = first != .absent and first_valid == null;" "G250 counts a present but rejected first journal candidate as recovery";
   Require_ persist_source "const second_rejected = second != .absent and second_valid == null;" "G250 counts a present but rejected second journal candidate as recovery";
   Require_ persist_source "payload_disk.blocks[payload_lba][4] ^= 0xA5;" "isolated G250 test corrupts a newest-slot payload byte";
   Require_ persist_source "payload_recovered.report().recoveries" "isolated G250 test requires payload corruption recovery accounting";
   Require_ persist_source "payload_recovered.report().corrupt_headers" "isolated G250 test distinguishes payload CRC failure from header corruption";
   Require_ persistence_test "def corrupt_block_byte(" "G250 harness mutates one explicit physical block";
   Require_ persistence_test "differences != [byte_offset]" "G250 harness rejects mutations that change more than the selected byte";
   Require_ persistence_test "os.fsync(stream.fileno())" "G250 host corruption is flushed before QEMU recovery";
   Require_ persistence_test "header_lba = data_first_lba + newest_slot" "G250 targets the newest physical header block from image metadata";
   Require_ persistence_test "payload_lba = slot_payload_lba(data_first_lba, newest_slot)" "G250 targets the newest physical payload block from journal geometry";
   Require_ persistence_test "corrupt_block_byte(header_corrupt_image, header_lba, 40)" "G250 flips the stored newest-header CRC byte";
   Require_ persistence_test "corrupt_block_byte(payload_corrupt_image, payload_lba, 4)" "G250 flips one byte in the newest payload block";
   Require_ persistence_test "“header CRC mismatch“ not in str(error)" "host preflight proves newest header CRC corruption";
   Require_ persistence_test "“payload CRC mismatch“ not in str(error)" "host preflight proves newest payload CRC corruption";
   Test (λ r, count_below r "scripts/test-x86_64-persistence.py" ["“mounts/syncs/checks/recoveries 1/0/0/1“"] 2) "permanent-userspace contract missing: both G250 corruption boots must report one recovery";
   Require_ persistence_test "“errors 0/1 clean no“" "G250 header corruption is observable as one corrupt-header event";
   Require_ persistence_test "“errors 0/0 clean no“" "G250 payload corruption leaves corrupt-header accounting at zero";
   Test (λ r, count_below r "scripts/test-x86_64-persistence.py" ["“survived-generation-four“ in"] 2) "permanent-userspace contract missing: G250 must reject generation-4-only data in both recovery boots";
   Require_ persistence_test "unexpectedly rewrote the damaged image" "G250 forbids implicit repair during fallback boot";
   Require_ workflow "Prove x86-64 NVMe persistence and block-corruption recovery" "hosted CI names the expanded G250 persistence gate explicitly";
   Require_ readme "G250 keeps ABI 1.20 and extends the required x86-64 persistence gate" "README documents G250";
   Require_ priority "G250 adds block-level corruption injection" "priority remediation records G250";
   Require_ threat_model "G250 exercises the persistent A/B journal against physical-block corruption" "threat model records G250 recovery assurance";
   Require_ threat_model "does not prove arbitrary multi-block corruption tolerance" "threat model bounds the G250 corruption claim";
   Require_ persist_source "pub const maximum_payload_bytes: usize = 64 * 1024;" "G251 pins the 64 KiB per-slot payload bound";
   Require_ persist_source "const magic = “ZIGPERS1“.*;" "G251 pins the persistent journal magic";
   Require_ persist_source "const version: u32 = 3;" "G251 pins current writer format v3";
   Require_ persist_source "const timestamp_version: u32 = 2;" "G251 pins readable timestamp format v2";
   Require_ persist_source "const legacy_version: u32 = 1;" "G251 pins readable legacy format v1";
   Require_ persist_source "const record_header_size_v1: usize = 8;" "G251 pins v1 record header size";
   Require_ persist_source "const record_header_size_v2: usize = 40;" "G251 pins v2 record header size";
   Require_ persist_source "const record_header_size_v3: usize = 48;" "G251 pins v3 record header size";
   Require_ persist_source "const header_size: u32 = 48;" "G251 pins physical journal header size";
   Require_ persist_source "return 2 + @as(u64, slot) * payloadSectorCount(block_size);" "G251 pins two-header then two-payload relative geometry";
   Require_ persist_source "if (self.payload_version != version) return Error.UnsupportedOperation;" "G251 pins file-scoped durability to current v3 payloads";
   Require_ persistence_compat "Current writer format: **v3**." "G251 documents the writer version";
   Require_ persistence_compat "Current reader formats: **v1, v2 and v3 only**." "G251 documents the exact reader compatibility set";
   Require_ persistence_compat "Do not boot an older ZigOs build against storage written by a newer on-disk version" "G251 rejects undocumented downgrade compatibility";
   Require_ persistence_compat "two fixed 64 KiB payload regions" "G251 documents fixed A/B payload geometry";
   Require_ persistence_compat "All integer fields are unsigned **little-endian** values." "G251 documents scalar endianness";
   Require_ persistence_compat "header CRC covers exactly bytes `0..47` with bytes `40..43` treated as zero" "G251 documents header CRC coverage";
   Require_ persistence_compat "v1: 8 bytes" "G251 documents the v1 record layout";
   Require_ persistence_compat "v2: 40 bytes" "G251 documents the v2 record layout";
   Require_ persistence_compat "v3: 48 bytes" "G251 documents the v3 record layout";
   Require_ persistence_compat "global `sync` after mounting v1 or v2 writes a new v3 generation" "G251 documents one-way legacy migration";
   Require_ persistence_compat "payload-before-header ordering" "G251 documents commit publication order";
   Require_ persistence_compat "A CRC-valid candidate can still fail semantic record restoration" "G251 bounds fallback after semantic restore failure";
   Require_ persistence_compat "`recoveries` is a **candidate-selection/fallback counter**, not a corruption counter" "G251 documents recovery telemetry semantics";
   Require_ persistence_compat "both A/B generations are invalid" "G251 documents the both-slot-loss non-guarantee";
   Require_ readme "G251 keeps ABI 1.20" "README points to the G251 compatibility contract";
   Require_ priority "G251 consolidates the persistence format and recovery policy" "priority remediation records G251";
   Require_ threat_model "G251 treats on-disk compatibility itself as a security/reliability boundary" "threat model records G251 downgrade/recovery risk";
   Require_ sdk_shell "const status_command_not_found: u32 = 127;" "G258 defines deterministic command-not-found status";
   Require_ sdk_shell "var last_status: u32 = status_success;" "G258 retains one previous parsed-command status";
   Require_ sdk_shell "last_status = executeCommandLine(&line, last_status);" "G258-G260 update status only after the fully parsed command line executes";
   Require_ sdk_shell "return status.exit_status;" "G258 propagates exact foreground child exit status";
   Require_ sdk_shell "fn commandStatus(previous_status: u32) u32" "G258 exposes previous shell status through a dedicated builtin";
   Require_ sdk_shell "return status_usage;" "G258 carries a distinct usage status";
   Require_ normal_boot_test "send(client, process, serial, “status“, b“\r\n42\r\n“)" "normal QEMU proves external exit status 42 propagation";
   Require_ normal_boot_test "send(client, process, serial, “status“, b“\r\n127\r\n“)" "normal QEMU proves command-not-found status 127";
   Require_ normal_boot_test "send(client, process, serial, “status“, b“\r\n1\r\n“)" "normal QEMU proves failing builtin status 1";
   Require_ normal_boot_test "send(client, process, serial, “status“, b“\r\n0\r\n“)" "normal QEMU proves successful builtin resets status to zero";
   Require_ readme "G258 keeps ABI 1.20 and completes shell exit-status propagation" "README documents G258 status propagation";
   Require_ priority "G258 completes shell exit-status propagation without changing ABI 1.20" "priority remediation records G258";
   Require_ threat_model "G258 makes shell command status explicit control data" "threat model bounds G258 status semantics";
   Require_ sdk_shell "const maximum_conditional_commands: usize = 4;" "G259 bounds one conditional list to four commands";
   Require_ sdk_shell "fn parseConditionalList(list: *ConditionalList, storage: []u8, segment_start: usize, segment_end: usize) bool" "G259 pre-parses conditional lists over bounded shared storage before execution";
   Require_ sdk_shell "if (list.count >= maximum_conditional_commands - 1) return false;" "G259 rejects a fifth command before side effects";
   Require_ sdk_shell "fn executeConditionalList(list: *const ConditionalList, previous_status: u32) u32" "G259 evaluates one validated conditional list";
   Require_ sdk_shell ".and_if => status == status_success" "G259 AND executes only after zero status";
   Require_ sdk_shell ".or_if => status != status_success" "G259 OR executes only after nonzero status";
   Require_ sdk_shell "“syntax: invalid conditional list\r\n“" "G259 reports malformed conditional lists";
   Require_ normal_boot_test "send(client, process, serial, “pwd&&echo G259_AND_RAN“, b“G259_AND_RAN“)" "normal QEMU proves adjacent AND success execution";
   Require_ normal_boot_test "send(client, process, serial, “missing-g259-and&&echo G259_AND_SHOULD_NOT_RUN“, b“run: not found“)" "normal QEMU proves AND short-circuit";
   Require_ normal_boot_test "send(client, process, serial, “pwd||echo G259_OR_SHOULD_NOT_RUN“, b“\r\n/\r\n“)" "normal QEMU proves OR short-circuit";
   Require_ normal_boot_test "send(client, process, serial, “missing-g259-or||echo G259_OR_RAN“, b“G259_OR_RAN“)" "normal QEMU proves OR recovery execution";
   Require_ normal_boot_test "send(client, process, serial, “missing-g259-mixed&&echo G259_MIXED_BAD||echo G259_MIXED_RECOVERED“, b“G259_MIXED_RECOVERED“)" "normal QEMU proves left-to-right mixed conditional evaluation";
   Require_ normal_boot_test "send(client, process, serial, “echo G259_TRAILING&&“, b“syntax: invalid conditional list“)" "normal QEMU proves malformed trailing operator rejection";
   Require_ normal_boot_test "“\r\nG259_AND_SHOULD_NOT_RUN\r\n“" "normal QEMU forbids skipped AND branch output";
   Require_ normal_boot_test "“\r\nG259_OR_SHOULD_NOT_RUN\r\n“" "normal QEMU forbids skipped OR branch output";
   Require_ normal_boot_test "“\r\nG259_MIXED_BAD\r\n“" "normal QEMU forbids skipped mixed branch output";
   Require_ normal_boot_test "“\r\nG259_TRAILING\r\n“" "normal QEMU proves syntax failure atomicity";
   Require_ readme "G259 keeps ABI 1.20 and implements bounded conditional execution" "README documents G259 conditional execution";
   Require_ priority "G259 completes bounded shell conditional execution without changing ABI 1.20" "priority remediation records G259";
   Require_ threat_model "G259 treats conditional parsing as a side-effect boundary" "threat model bounds G259 conditional parsing";
   Require_ sdk_shell "const maximum_sequential_lists: usize = 4;" "G260 bounds one input line to four sequential lists";
   Require_ sdk_shell "const CommandLine = struct {" "G260 owns one bounded shared command-line buffer";
   Require_ sdk_shell "fn parseCommandLine(line: *CommandLine, received: usize) bool" "G260 pre-parses the complete sequential command line";
   Require_ sdk_shell "if (line.count == maximum_sequential_lists) return false;" "G260 rejects sequential-list overflow before execution";
   Require_ sdk_shell "line.storage[scan] = 0;" "G260 terminates semicolon-delimited shared-storage segments";
   Require_ sdk_shell "fn executeCommandLine(line: *const CommandLine, previous_status: u32) u32" "G260 executes only after full command-line validation";
   Require_ sdk_shell "executeConditionalList(&list, status);" "G260 carries status across unconditional sequential lists";
   Require_ normal_boot_test "send(client, process, serial, “echo G260_FIRST;echo G260_SECOND“, b“G260_SECOND“)" "normal QEMU proves ordered semicolon sequencing";
   Require_ normal_boot_test "send(client, process, serial, “missing-g260;echo G260_AFTER_FAILURE“, b“G260_AFTER_FAILURE“)" "normal QEMU proves semicolon sequencing continues after failure";
   Require_ normal_boot_test "send(client, process, serial, “missing-g260-status;status“, b“\r\n127\r\n“)" "normal QEMU proves cross-list status visibility";
   Require_ normal_boot_test "send(client, process, serial, “missing-g260-and&&echo G260_COND_SKIP;echo G260_AFTER_COND“, b“G260_AFTER_COND“)" "normal QEMU proves conditional-list composition under semicolon sequencing";
   Require_ normal_boot_test "send(client, process, serial, “echo G260_TRAILING_OK;“, b“G260_TRAILING_OK“)" "normal QEMU proves a trailing semicolon is accepted";
   Require_ normal_boot_test "send(client, process, serial, “echo G260_PREFIX_SHOULD_NOT_RUN;;echo G260_SUFFIX_SHOULD_NOT_RUN“, b“syntax: invalid conditional list“)" "normal QEMU proves empty-list failure atomicity";
   Require_ normal_boot_test "send(client, process, serial, “echo G260_OVER1;echo G260_OVER2;echo G260_OVER3;echo G260_OVER4;echo G260_OVER5“, b“syntax: invalid conditional list“)" "normal QEMU proves sequential-list overflow rejection";
   Require_ normal_boot_test "“\r\nG260_COND_SKIP\r\n“" "normal QEMU forbids a skipped G260 conditional branch";
   Require_ normal_boot_test "“\r\nG260_PREFIX_SHOULD_NOT_RUN\r\n“" "normal QEMU proves empty-list failure atomicity before prefix execution";
   Require_ normal_boot_test "“\r\nG260_SUFFIX_SHOULD_NOT_RUN\r\n“" "normal QEMU forbids invalid-list suffix execution";
   Require_ normal_boot_test "“\r\nG260_OVER1\r\n“" "normal QEMU proves overflow rejects before first list execution";
   Require_ readme "G260 keeps ABI 1.20 and implements bounded sequential command lists with semicolons" "README documents G260 sequential lists";
   Require_ priority "G260 completes bounded sequential semicolon lists without changing ABI 1.20" "priority remediation records G260";
   Require_ threat_model "G260 extends the same side-effect boundary to sequential lists" "threat model bounds G260 sequential parsing";
   Require_ process_source "pub const SpawnGroup = union(enum)" "G261 models restricted spawn-time pipeline groups";
   Require_ process_source "pub fn spawnPipeline(" "G261 exposes a restricted internal pipeline-spawn path";
   Require_ process_source ".new_pipeline => blk:" "G261 creates a child-led process group during spawn";
   Require_ process_source ".join_pipeline => |requested_group| blk:" "G261 validates requested follower process groups during spawn";
   Require_ process_source "leader.parent_slot != parent_slot" "G261 rejects cross-parent pipeline-group joins";
   Require_ process_source "leader.session != self.processes[parent_slot].session" "G261 rejects cross-session pipeline-group joins";
   Require_ process_source "leader.process_group != requested_group or leader.pid != requested_group" "G261 requires a real sibling group leader";
   Require_ process_source "test “process groups support directed group signals“" "G261 folds atomic grouped-spawn proof into the existing process-group test declaration";
   Forbid process_source "test “pipeline spawn groups are assigned atomically" "G261 preserves the frozen host-test declaration count";
   Require_ executor "runtime_abi.spawn_new_process_group => blk:" "ABI 1.21 spawnv dispatch accepts new pipeline groups"].

Definition part_15 : list statement := [
   Require_ executor "runtime_abi.spawn_join_process_group => blk:" "ABI 1.21 spawnv dispatch accepts restricted joins";
   Require_ executor "std.math.cast(u32, frame.rsi)" "ABI 1.21 carries the join PGID in syscall argument 2";
   Require_ sdk_source "pub fn spawnvNewProcessGroup" "Zig SDK exposes new pipeline-group spawn";
   Require_ sdk_source "pub fn spawnvInProcessGroup" "Zig SDK exposes restricted pipeline-group join";
   Require_ sdk_source "zigos_syscall6(abi.syscall_spawnv, ptrValue(&request), process_group" "Zig SDK retains syscall 96 and passes the PGID separately";
   Require_ sdk_shell "const maximum_pipeline_stages: usize = 4;" "G261 bounds pipeline syntax to four stages";
   Require_ sdk_shell "fn parsePipelineSegment(pipeline: *Pipeline" "G261 parses pipeline stages before execution";
   Require_ sdk_shell "fn executePipeline(pipeline: *const Pipeline" "G261 has a dedicated grouped pipeline execution path";
   Require_ sdk_shell "pipeline: external stages only" "G261 rejects builtin pipeline stages before G262";
   Require_ sdk_shell "zigos.spawnvNewProcessGroup" "G261 shell launches the first pipeline stage as group leader";
   Require_ sdk_shell "zigos.spawnvInProcessGroup" "G261 shell joins later stages to the same PGID";
   Require_ sdk_shell "reapPipelineChildren" "G261 reaps already-launched children on partial spawn failure";
   Require_ normal_boot_test "send(client, process, serial, “hello|hello“, PROMPT_ROOT, 60)" "normal QEMU launches a two-stage external pipeline";
   Require_ normal_boot_test "“pipeline“" "normal QEMU requires the accepted two-child pipeline launch marker";
   Require_ normal_boot_test "text.count(“hello from VFS-loaded CPL3 ELF64“) < 2" "normal QEMU requires visible execution from the G261 grouped pipeline";
   Require_ normal_boot_test "send(client, process, serial, “echo G261_BUILTIN_SHOULD_NOT_RUN|hello“, b“pipeline: external stages only“)" "normal QEMU proves builtin pipeline rejection before spawn";
   Require_ normal_boot_test "send(client, process, serial, “hello|“, b“syntax: invalid conditional list“)" "normal QEMU proves trailing-stage syntax rejection";
   Require_ readme "G261 advances the public ABI to 1.21" "README documents G261 pipeline-group semantics";
   Require_ priority "G261 advances the generated public ABI to 1.21" "priority remediation records G261";
   Require_ threat_model "G261 treats pipeline process-group membership as spawn-time process metadata" "threat model bounds G261 process-group semantics";
   Require_ runtime_abi "pub const spawn_pipeline_io: u16 = constants.spawn_pipeline_io;" "ABI 1.22 kernel exports the pipeline-I/O flag";
   Require_ runtime_abi "pub const spawn_io_inherit_descriptor: u16 = constants.spawn_io_inherit_descriptor;" "ABI 1.22 kernel exports the inherited-stream sentinel";
   Require_ fd_source "pub fn configurePipelineChild(" "G262 child-only pipeline descriptor remap path";
   Require_ fd_source "description.kind != .pipe_read or !description.readable" "G262 accepts only a readable pipe endpoint for child stdin";
   Require_ fd_source "description.kind != .pipe_write or !description.writable" "G262 accepts only a writable pipe endpoint for child stdout";
   Require_ fd_source "for (3..maximum_descriptors_per_process) |fd|" "G262 closes every nonstandard inherited child descriptor";
   Require_ fd_source "test “cloned process namespaces inherit shared descriptions and close-on-exec“" "G262 folds descriptor remap proof into the existing host declaration";
   Forbid fd_source "test “pipeline child descriptors" "G262 preserves the frozen host-test declaration count";
   Require_ executor "if ((request.flags & runtime_abi.spawn_pipeline_io) != 0)" "ABI 1.22 spawnv recognizes pipeline-I/O only as an explicit flag";
   Require_ executor "if (group_flags == 0 or (frame.rdx >> 32) != 0)" "ABI 1.22 rejects ungrouped or oversized packed pipeline descriptor arguments";
   Require_ executor "_ = try activeDescriptors().configurePipelineChild(" "G262 remaps descriptors after clone and before child context installation";
   Require_ sdk_source "pub fn spawnvNewProcessGroupWithPipelineIo(" "Zig SDK exposes grouped pipeline-I/O leader spawn";
   Require_ sdk_source "pub fn spawnvInProcessGroupWithPipelineIo(" "Zig SDK exposes grouped pipeline-I/O follower spawn";
   Require_ sdk_source "abi.spawn_io_inherit_descriptor" "Zig SDK packs the generated inherited-standard-stream sentinel";
   Require_ sdk_shell "var pipe_pairs: [maximum_pipeline_stages - 1][2]u32" "G262 shell allocates a bounded N-1 pipe table";
   Require_ sdk_shell "zigos.pipe(&pipe_pairs[pipe_count])" "G262 shell creates real kernel pipes";
   Require_ sdk_shell "fn closePipelinePipeEnds(" "G262 shell has explicit residual-endpoint cleanup";
   Require_ sdk_shell "zigos.spawnvNewProcessGroupWithPipelineIo" "G262 first stage uses grouped pipeline-I/O spawn";
   Require_ sdk_shell "zigos.spawnvInProcessGroupWithPipelineIo" "G262 later stages use grouped pipeline-I/O spawn";
   Require_ normal_boot_test "send(client, process, serial, “pipe-writer.elf|pipe-reader.elf“, PROMPT_ROOT, 60)" "normal QEMU launches the G262 real data pipeline";
   Require_ normal_boot_test "“pipeline“" "normal QEMU requires the G262 data-pipeline launch marker";
   Require_ normal_boot_test "“PIPE-CPL“" "normal QEMU requires the real eight-byte kernel-pipe payload";
   Require_ readme "G262 advances the public ABI to 1.22" "README documents G262 kernel-pipe pipeline semantics";
   Require_ priority "G262 advances the generated public ABI to 1.22" "priority remediation records G262";
   Require_ threat_model "G262 treats pipeline descriptor inheritance as a spawn-time capability reduction" "threat model bounds G262 descriptor inheritance";
   Require_ runtime_abi "pub const wait_process_group: u64 = constants.wait_process_group;" "ABI 1.23 kernel exports process-group waiting";
   Require_ runtime_abi "pub const wait_allowed: u64 = wait_nohang | wait_process_group;" "ABI 1.23 bounds wait flags";
   Require_ process_source "wait_group: bool = false" "G263 records whether a blocked child wait targets a PGID";
   Require_ process_source "pub fn childForWaitGroup(" "G263 selects direct children by process group without a process snapshot";
   Require_ process_source "pub fn waitGroup(" "G263 blocks and reaps direct-child process groups";
   Require_ process_source "if (parent.wait_group)" "G263 parent wakeup distinguishes PGID waits from handle waits";
   Require_ process_source "parent.wait_target != self.processes[child_slot].process_group" "G263 ignores unrelated child exits while group-waiting";
   Require_ process_source "test “childForWait selects exact and terminal children without a process snapshot“" "G263 folds group-wait proof into an existing process test declaration";
   Forbid process_source "test “process group wait" "G263 preserves the frozen process-test declaration count";
   Require_ tty_source "pub fn transferController(" "G263 explicitly transfers the internal TTY controller";
   Require_ tty_source "pub fn foregroundGroup(" "G263 exposes controller-authenticated foreground group inspection";
   Require_ tty_source "pub fn setForegroundGroup(" "G263 exposes controller-authenticated foreground group switching";
   Require_ tty_source "caller_handle != self.controller_handle" "G263 rejects foreground changes from descriptor inheritors that are not the controller";
   Require_ tty_source "process.ppid != caller.pid or process.session != caller.session" "G263 restricts foreground targets to unreaped direct-child leaders in the same session";
   Require_ tty_source "short-lived pipeline leader may become a zombie before the controller" "G263 tolerates terminal-before-handoff races without widening parent/session authority";
   Require_ runtime "state.tty.transferController(&state.processes, init_handle, child_handle)" "normal boot transfers the TTY controller from PID 1 to shell PID 2";
   Require_ fd_source "ioctl_tty_get_foreground_group" "terminal ioctl dispatch exposes foreground-PGID query";
   Require_ fd_source "ioctl_tty_set_foreground_group" "terminal ioctl dispatch exposes controller-only foreground-PGID mutation";
   Require_ executor "const group_wait = (flags & wait_process_group) != 0;" "wait syscall decodes ABI 1.23 process-group selection";
   Require_ executor "activeProcesses().childForWaitGroup(context.handle, target)" "wait syscall selects only direct children in the requested group";
   Require_ executor "activeProcesses().waitGroup(context.handle, target, false)" "blocking wait syscall records a PGID target";
   Require_ sdk_source "pub fn waitProcessGroup(" "Zig SDK exposes process-group waiting";
   Require_ sdk_source "pub fn ttyForegroundProcessGroup(" "Zig SDK exposes foreground-PGID query";
   Require_ sdk_source "pub fn ttySetForegroundProcessGroup(" "Zig SDK exposes foreground-PGID transfer";
   Require_ sdk_shell "const shell_group = zigos.ttyForegroundProcessGroup(0)" "G263 shared foreground path records the shell group before handoff";
   Require_ sdk_shell "zigos.ttySetForegroundProcessGroup(0, job.process_group)" "G263 shared foreground path hands the TTY to the selected child group";
   Require_ sdk_shell "zigos.waitProcessGroup(job.process_group, false, &status)" "G263 shared foreground path reaps by PGID";
   Require_ sdk_shell "fn restorePipelineForeground(shell_group: u32)" "G263 shell has explicit verified foreground restoration";
   Require_ normal_boot_test "client.sendall(b“pipe-reader.elf|pipe-reader.elf\r“)" "normal QEMU launches an interactive two-stage foreground pipeline";
   Require_ normal_boot_test "wait_for(client, process, serial, b“pipeline\r\n“" "normal QEMU observes the foreground pipeline launch marker before interactive input";
   Require_ normal_boot_test "if PROMPT_ROOT in serial[foreground_start:]" "normal QEMU rejects premature shell prompt return while the pipeline waits";
   Require_ normal_boot_test "client.sendall(b“TTYPIPE\r“)" "normal QEMU supplies terminal input only after the pipeline owns foreground";
   Require_ normal_boot_test "wait_for(client, process, serial, PROMPT_ROOT, foreground_start, 60)" "normal QEMU requires the shell prompt to return only after verified foreground restoration";
   Require_ readme "G263 advances the public ABI to 1.23" "README documents G263 foreground process-group waiting";
   Require_ priority "G263 advances the generated public ABI to 1.23" "priority remediation records G263";
   Require_ threat_model "G263 treats foreground terminal ownership as a controller capability" "threat model bounds G263 terminal control";
   Require_ runtime_abi "pub const spawn_foreground_process_group: u16 = constants.spawn_foreground_process_group;" "ABI 1.24 kernel exports the atomic foreground-spawn flag";
   Require_ runtime_abi "spawn_group_allowed | spawn_pipeline_io | spawn_foreground_process_group" "ABI 1.24 bounds spawn flags to the three historical modes plus foreground claim";
   Require_ sdk_source "pub fn spawnvNewForegroundProcessGroupWithPipelineIo(" "ABI 1.24 Zig SDK exposes atomic foreground grouped pipeline spawn";
   Require_ sdk_source "abi.spawn_new_process_group | abi.spawn_pipeline_io | abi.spawn_foreground_process_group" "ABI 1.24 SDK combines foreground claim only with new grouped pipeline spawn";
   Require_ sdk_source "if ((flags & abi.spawn_foreground_process_group) != 0 and group_flags != abi.spawn_new_process_group) return Error.InvalidArgument;" "ABI 1.24 SDK rejects foreground claims outside new process groups";
   Require_ executor "const foreground_group = (request.flags & runtime_abi.spawn_foreground_process_group) != 0;" "ABI 1.24 spawnv decodes the atomic foreground claim";
   Require_ executor "if (foreground_group and group_flags != runtime_abi.spawn_new_process_group)" "ABI 1.24 kernel rejects foreground claims outside new process groups";
   Require_ executor "runtime_abi.constants.ioctl_tty_set_foreground_group" "ABI 1.24 spawnv performs controller-authorized TTY ownership transfer";
   Require_ executor "child.pid," "ABI 1.24 atomic handoff targets the newly created group leader";
   Require_ tty_source "processes.wakeMatching(.terminal_read, terminal_wait_key, true)" "ABI 1.24 foreground transfer wakes terminal sleepers to revalidate ownership";
   Require_ sdk_shell "!background and stage_index == 0" "ABI 1.24 shell claims foreground only for the first stage of foreground pipelines";
   Require_ sdk_shell "fn waitClaimedForegroundJob(" "ABI 1.24 shell waits an already-claimed foreground group without a second handoff race";
   Require_ sdk_shell "if (maximum_words > zigos.constants.maximum_arguments)" "ABI 1.24 compile-time-proves shell pipeline words fit the public argument vector";
   Forbid sdk_shell "stage.count > arguments.len" "ABI 1.24 removes the unreachable per-stage argument-capacity runtime branch";
   Require_ sdk_shell "zigos.writeAll(1, “pipeline\r\n“)" "ABI 1.24 uses one compact pipeline launch marker to preserve the one-page G271 shell size win";
   Require_ normal_boot_test "send(client, process, serial, “pipe-reader.elf|missing-g263-rollback“, PROMPT_ROOT, 60)" "ABI 1.24 normal QEMU forces partial foreground pipeline rollback";
   Require_ normal_boot_test "G263 partial foreground pipeline did not restore the shell prompt" "ABI 1.24 normal QEMU requires non-deadlocking TTY rollback";
   Require_ threat_model "ABI 1.24 makes foreground pipeline launch atomic with respect to terminal ownership" "threat model documents the restricted atomic foreground-spawn capability";
   Require_ sdk_shell "const maximum_background_jobs: usize = 4;" "G264 bounds retained background jobs to four slots";
   Require_ sdk_shell "var background_jobs: [maximum_background_jobs]BackgroundJob" "G264 stores background state in one bounded table";
   Require_ sdk_shell "line.background = true;" "G264 recognizes a trailing single ampersand without changing && semantics";
   Require_ sdk_shell "return !line.background or validBackgroundList" "G264 prevalidates the complete background list before execution";
   Require_ sdk_shell "fn validBackgroundList(" "G264 rejects conditional or builtin background lists before launch";
   Require_ sdk_shell "fn readLineWithBackgroundNotifications(" "G264 multiplexes terminal input with background completion";
   Require_ sdk_shell "if (!hasBackgroundJobs()) return zigos.read(0, line.storage[0..maximum_line]);" "G264 retains the blocking terminal-read path when no background work exists";
   Require_ sdk_shell "zigos.constants.poll_readable" "G264 polls only terminal readability while jobs are active";
   Require_ sdk_shell "zigos.sleep(1) catch {};" "G264 bounds idle completion polling to one-tick sleeps";
   Require_ sdk_shell "zigos.waitProcessGroup(job.process_group, true, &status)" "G264 reaps background direct-child groups with ABI 1.23 WNOHANG";
   Require_ sdk_shell "zigos.writeAll(1, “] done “)" "G264 emits a bounded asynchronous completion notification";
   Require_ sdk_shell "fn spawnResolved(" "G264/G267 centralize grouped and ordinary spawn selection";
   Require_ sdk_shell "zigos.spawnvNewProcessGroup(path, arguments, environment)" "G264 one-stage background jobs avoid invalid pipeline-I/O remapping";
   Require_ sdk_shell "zigos.spawnvNewProcessGroupWithPipelineIo" "G264 multi-stage background pipelines retain G262 pipe remapping";
   Require_ sdk_shell "if (hasBackgroundJobs())" "G264 refuses explicit shell shutdown while retained background jobs are active";
   Require_ normal_boot_test "client.sendall(b“runtime-sleep.elf &\r“)" "normal QEMU launches one real background process group";
   Require_ normal_boot_test "if b“[1] done 7“ in serial[background_start:]" "normal QEMU proves the first prompt precedes job completion";
   Require_ normal_boot_test "wait_for(client, process, serial, b“[1] done 7“" "normal QEMU requires autonomous exact background completion status";
   Require_ normal_boot_test "send(client, process, serial, “echo G264_BUILTIN_SHOULD_NOT_RUN &“, b“syntax: invalid conditional list“)" "normal QEMU rejects a background builtin before execution";
   Require_ normal_boot_test "“\r\nG264_BUILTIN_SHOULD_NOT_RUN\r\n“" "normal QEMU forbids the rejected builtin side effect";
   Require_ readme "G264 keeps ABI 1.23" "README documents G264 without an ABI bump";
   Require_ priority "G264 keeps ABI 1.23" "priority remediation records G264 userspace-only background completion";
   Require_ threat_model "G264 keeps background execution as bounded shell bookkeeping" "threat model bounds G264 background authority";
   Require_ sdk_shell "equal(name, “fg“) or equal(name, “bg“)" "G265 recognizes fg and bg as shell builtins";
   Require_ sdk_shell "fn commandJob(command: *const Command, foreground: bool)" "G265 shares bounded fg/bg job selection";
   Require_ sdk_shell "value.len != 1 or value[0] < '1'" "G265 bounds explicit job operands to one digit";
   Require_ sdk_shell "value[0] > '0' + maximum_background_jobs" "G265 caps explicit job selection at the four-slot table";
   Require_ sdk_shell "findActiveJobSlot() orelse return status_failure" "G265 omitted job operands select one retained active slot";
   Require_ sdk_shell "if (!foreground) return status_success;" "G265 bg is idempotent for an already-running retained job";
   Require_ sdk_shell "fn waitForegroundJob(job: *BackgroundJob)" "G265 shares foreground handoff/wait logic with G263 pipelines";
   Require_ sdk_shell "const final_status = waitForegroundJob(job) orelse return status_failure;" "G265 fg adopts the selected running job through the shared foreground state machine";
   Require_ sdk_shell "job.* = .{};" "G265 fg clears the slot only after foreground completion";
   Require_ normal_boot_test "client.sendall(b“fg 1\r“)" "normal QEMU adopts a live background job with fg 1";
   Require_ normal_boot_test "G265 fg returned the shell prompt before the adopted job completed" "normal QEMU rejects premature fg prompt return";
   Require_ normal_boot_test "send(client, process, serial, “status“, b“\r\n7\r\n“)" "normal QEMU proves fg propagates the adopted job status 7";
   Require_ normal_boot_test "client.sendall(b“bg 1\r“)" "normal QEMU leaves a selected live job in background";
   Require_ normal_boot_test "G265 bg job completed before detached prompt return" "normal QEMU proves bg returns before completion";
   Require_ normal_boot_test "send(client, process, serial, “fg 4“, PROMPT_ROOT)" "normal QEMU probes an empty bounded fg slot";
   Require_ normal_boot_test "send(client, process, serial, “bg 0“, PROMPT_ROOT)" "normal QEMU rejects out-of-range bg syntax";
   Require_ readme "G265 keeps ABI 1.23" "README documents G265 without an ABI bump";
   Require_ priority "G265 keeps ABI 1.23" "priority remediation records G265 running-job builtins"].

Definition part_16 : list statement := [
   Require_ threat_model "G265 does not add a signal capability" "threat model bounds G265 to retained running jobs";
   Require_ tty_source "suspended," "G266 gives terminal suspend a distinct echo action";
   Require_ tty_source "suspend_events: u64" "G266 records terminal suspend events independently from interrupts";
   Require_ tty_source "normalized == 0x03 or normalized == 0x1A" "G266 handles Ctrl-C and Ctrl-Z before canonical editing";
   Require_ tty_source "const is_suspend = normalized == 0x1A;" "G266 distinguishes Ctrl-Z from Ctrl-C";
   Require_ tty_source "if (is_suspend) 19 else 2" "G266 directs Ctrl-Z to the existing internal stop signal";
   Require_ tty_source "if (!is_suspend and signalled != 0) self.applyInterruptDefault(processes);" "G266 preserves Ctrl-C default termination without applying it to Ctrl-Z";
   Require_ tty_source ".echo = if (self.echo_enabled) if (is_suspend) .suspended else .interrupt else .none" "G266 reports a distinct echo action for suspend";
   Require_ tty_source "try std.testing.expectEqual(runtime_process.State.stopped" "G266 host proof requires Ctrl-Z to stop the foreground process";
   Require_ tty_source "try processes.sendGroupSignal(root, foreground_pid, 18)" "G266 host proof uses the pre-existing internal resume signal";
   Require_ tty_source "try std.testing.expectEqual(runtime_process.State.runnable" "G266 host proof requires internal resume to restore runnable state";
   Require_ tty_source "try std.testing.expectEqual(@as(u64, 1), tty.report().suspend_events);" "G266 host proof accounts exactly one suspend event";
   Require_ runtime ".suspended => emit(“^Z\r\n“)" "G266 renders terminal suspend as caret-Z newline";
   Require_ runtime "emit(“ erase/interrupt/suspend/overflow “)" "G266 diagnostic telemetry publishes suspend separately";
   Require_ runtime_test "erase/interrupt/suspend/overflow 1/0/0/0 clean yes" "offline/live diagnostics require zero accidental suspend events";
   Require_ readme "G266 keeps ABI 1.23" "README documents G266 without an ABI bump";
   Require_ priority "G266 keeps ABI 1.23" "priority remediation records G266 TTY control-key generation";
   Require_ threat_model "G266 recognizes Ctrl-Z only inside the trusted TTY line discipline" "threat model bounds G266 signal authority";
   Require_ roadmap "255 complete, 245 open" "roadmap arithmetic includes G313";
   Require_ roadmap "- [x] **G229** — Remount a damaged writable filesystem read-only." "roadmap marks G229 complete with the canonical separator";
   Require_ roadmap "- [x] **G230** — Expose mount and unmount syscalls." "roadmap marks G230 complete with the canonical separator";
   Require_ roadmap "- [x] **G231** — Reject unmount while paths or descriptors remain busy." "roadmap marks G231 complete with the canonical separator";
   Require_ roadmap "- [x] **G232** — Support a tmpfs mount distinct from the root mount." "roadmap marks G232 complete with the canonical separator";
   Require_ roadmap "- [x] **G233** — Support a devfs backed by live device registrations." "roadmap marks G233 complete with the canonical separator";
   Require_ roadmap "- [x] **G234** — Support a procfs backed by live kernel objects." "roadmap marks G234 complete with the canonical separator";
   Require_ roadmap "- [x] **G235** — Support a netfs backed by live network objects." "roadmap marks G235 complete with the canonical separator";
   Require_ roadmap "- [x] **G236** — Expose filesystem capacity and free-space statistics." "roadmap marks G236 complete with the canonical separator";
   Require_ roadmap "- [x] **G237** — Store creation, modification, change and access timestamps." "roadmap marks G237 complete with the canonical separator";
   Require_ roadmap "- [x] **G238** — Update timestamps with documented precision and ordering." "roadmap marks G238 complete with the canonical separator";
   Require_ roadmap "- [x] **G239** — Store owner UID and GID on persistent inodes." "roadmap marks G239 complete with the canonical separator";
   Require_ roadmap "- [x] **G240** — Enforce owner/group/other read, write and execute permissions." "roadmap marks G240 complete with the canonical separator";
   Require_ roadmap "- [x] **G241** — Apply process umask during object creation." "roadmap marks G241 complete with the canonical separator";
   Require_ roadmap "- [x] **G242** — Support setuid and setgid metadata without enabling unsafe execution by default." "roadmap marks G242 complete with the canonical separator";
   Require_ roadmap "- [x] **G243** — Implement sticky-directory deletion rules." "roadmap marks G243 complete with the canonical separator";
   Require_ roadmap "- [x] **G244** — Add advisory whole-file locking." "roadmap marks G244 complete with the canonical separator";
   Require_ roadmap "- [x] **G245** — Add advisory byte-range locking." "roadmap marks G245 complete with the canonical separator";
   Require_ roadmap "- [x] **G246** — Provide filesystem notifications for directory changes." "roadmap marks G246 complete with the canonical separator";
   Require_ roadmap "- [x] **G247** — Validate all user pathname lengths and component lengths." "roadmap marks G247 complete with the canonical separator";
   Require_ roadmap "- [x] **G248** — Fuzz path resolution, rename and unlink state machines." "roadmap marks G248 complete with the canonical separator";
   Require_ roadmap "- [x] **G249** — Stress concurrent create/write/rename/unlink workloads." "roadmap marks G249 complete with the canonical separator";
   Require_ roadmap "- [x] **G250** — Run block-level corruption injection against recovery paths." "roadmap marks G250 complete with the canonical separator";
   Require_ roadmap "- [x] **G251** — Document on-disk compatibility and recovery guarantees." "roadmap marks G251 complete with the canonical separator";
   Require_ roadmap "- [x] **G258** — Implement shell exit-status propagation." "roadmap marks G258 complete with the canonical separator";
   Require_ roadmap "- [x] **G259** — Implement conditional execution with && and ||." "roadmap marks G259 complete with the canonical separator";
   Require_ roadmap "- [x] **G260** — Implement sequential command lists with semicolons." "roadmap marks G260 complete with the canonical separator";
   Require_ roadmap "- [x] **G261** — Implement subshell process groups for pipelines." "roadmap marks G261 complete with the canonical separator";
   Require_ roadmap "- [x] **G262** — Connect pipelines with kernel pipe descriptors." "roadmap marks G262 complete with the canonical separator";
   Require_ roadmap "- [x] **G263** — Implement foreground process-group waiting." "roadmap marks G263 complete with the canonical separator";
   Require_ roadmap "- [x] **G264** — Implement background job completion notifications." "roadmap marks G264 complete with the canonical separator";
   Require_ roadmap "- [x] **G265** — Implement fg and bg builtins." "roadmap marks G265 complete with the canonical separator";
   Require_ roadmap "- [x] **G266** — Implement terminal interrupt and suspend key handling." "roadmap marks G266 complete with the canonical separator";
   Require_ sdk_shell "const maximum_shell_variables: usize = 4;" "G267 bounds retained shell variables to four slots";
   Require_ sdk_shell "var shell_variables: [maximum_shell_variables]ShellVariable" "G267 keeps assignment state in one fixed shell-local table";
   Require_ sdk_shell "const ShellVariable = struct" "G267 stores shell assignments in fixed-size records";
   Require_ sdk_shell "variable.name_length == name_length and equal(variable.bytes[0..name_length], entry[0..name_length])" "G267 updates an existing variable without consuming another slot";
   Require_ sdk_shell "fn assignmentNameLength(value: []const u8) ?usize" "G267 recognizes standalone NAME=VALUE syntax";
   Require_ sdk_shell "if (entry.len > zigos.constants.maximum_environment_bytes) return status_usage;" "G267 enforces the existing 63-byte environment-entry bound";
   Require_ sdk_shell "const variable = free orelse return status_failure;" "G267 fails atomically when the four-slot assignment table is exhausted";
   Require_ sdk_shell "fn shellEnvironmentValue(key: []const u8) ?[]const u8" "G267 shell lookup prefers retained overrides";
   Require_ sdk_shell "const path_value = shellEnvironmentValue(“PATH“) orelse “/bin:/persist“;" "G267 assigned PATH controls later executable search";
   Require_ sdk_shell "fn collectShellEnvironment(output: *[zigos.constants.maximum_environment][]const u8)" "G267 merges retained assignments into child envp";
   Require_ sdk_shell "output[index] = variable.bytes[0..variable.length];" "G267 replaces matching inherited child-environment entries";
   Require_ sdk_shell "if (replaced) continue;" "G267 replacement does not consume another child-environment slot";
   Require_ sdk_shell "if (count == output.len) return null;" "G267 refuses child environment overflow instead of truncating";
   Require_ sdk_shell "output[count] = variable.bytes[0..variable.length];" "G267 appends genuinely new names to child envp";
   Require_ sdk_shell "isBuiltin(stage.slice(0)) or assignmentNameLength(stage.slice(0)) != null" "G267 rejects assignment stages before pipeline/background launch";
   Require_ sdk_shell "if (isBuiltin(stage.slice(0)) or assignmentNameLength(stage.slice(0)) != null or commandHasExpansion(&stage)) return false;" "G267-G269 reject assignment/expansion background stages during prevalidation";
   Require_ normal_boot_test "send(client, process, serial, “PATH=/missing“" "normal QEMU assigns PATH in shell state";
   Require_ normal_boot_test "send(client, process, serial, “/bin/sdk.elf alpha beta“, b“zig-sdk: bad envp/auxv“" "normal QEMU proves assigned PATH reaches child envp";
   Require_ normal_boot_test "send(client, process, serial, “G267_A=one“" "normal QEMU creates a new retained variable";
   Require_ normal_boot_test "send(client, process, serial, “G267_A=two“" "normal QEMU replaces a retained variable in place";
   Require_ normal_boot_test "send(client, process, serial, “G267_D=four“" "normal QEMU exercises fifth-distinct-variable exhaustion";
   Require_ normal_boot_test "send(client, process, serial, “PATH=/blocked &“, b“syntax: invalid conditional list“)" "normal QEMU rejects background assignment before mutation";
   Require_ readme "G267 keeps ABI 1.23" "README documents G267 without an ABI bump";
   Require_ priority "G267 keeps ABI 1.23" "priority remediation records G267 bounded assignment";
   Require_ threat_model "G267 treats shell assignment as bounded exported state" "threat model bounds G267 environment mutation";
   Require_ roadmap "- [x] **G267** — Implement shell variable assignment syntax." "roadmap marks G267 complete with the canonical separator";
   Require_ sdk_shell "const maximum_substitution_output: usize = zigos.constants.maximum_argument_bytes;" "G268 caps captured stdout at the existing argument bound";
   Require_ sdk_shell "fn commandHasExpansion(command: *const Command) bool" "G268/G269 detect bounded expansion tokens in one scan";
   Require_ sdk_shell "fn substitutionProgram(word: []const u8) ?[]const u8" "G268 recognizes exact whole-token substitution syntax";
   Require_ sdk_shell "word[0] != '$' or word[1] != '(' or word[word.len - 1] != ')'" "G268 requires the literal dollar-parenthesis token form";
   Require_ sdk_shell "if (index == 0) return null;" "G268 forbids command-name substitution";
   Require_ sdk_shell "fn expandCommand(command: *const Command" "G268 expands captured output into bounded shared command storage";
   Require_ sdk_shell "fn captureSubstitution(program: []const u8, output: []u8) ?usize" "G268 captures inner stdout through a dedicated bounded path";
   Require_ sdk_shell "zigos.pipe(&pair) catch return null;" "G268 uses a real kernel pipe for stdout capture";
   Require_ sdk_shell "spawnFromPath(program, &path_storage, &arguments, 0, environment, true, null, null, @intCast(pair[1]), false)" "G268 launches the inner program with stdout remapped to the pipe";
   Require_ sdk_shell "if (total == output.len)" "G268 probes exact-bound captures for overflow";
   Require_ sdk_shell "var extra: [1]u8 = undefined;" "G268 uses a one-byte overflow probe rather than truncation";
   Require_ sdk_shell "reapSubstitution(pid);" "G268 reaps failed or overflowing inner children";
   Require_ sdk_shell "if (status.exit_status != 0) return null;" "G268 rejects nonzero inner exit status";
   Require_ sdk_shell "while (total != 0 and (output[total - 1] == '\n' or output[total - 1] == '\r')) total -= 1;" "G268 trims only trailing line endings";
   Require_ sdk_shell "for (output[0..total]) |byte| if (byte == 0) return null;" "G268 rejects embedded NUL output";
   Require_ sdk_shell "or commandHasExpansion(&stage)" "G268/G269 reject expansion in background and pipeline prevalidation";
   Require_ sdk_shell "const help_text = “help echo pwd cd ls cat cp write append mkdir rm rmdir mv chmod sync pid status fg bg run shutdown\r\n“;" "G268 compacts help to preserve the fixed shell page boundary";
   Require_ sdk_shell "fn usage() u32" "G268 shares one compact usage diagnostic";
   Require_ sdk_shell "error.NotFound => “not found“" "G268 preserves command lookup error wording";
   Require_ sdk_shell "error.Unsupported => “unsupported“" "G268 preserves unsupported-operation wording";
   Require_ sdk_shell "error.InputOutput => “input/output error“" "G268 preserves storage I/O error wording";
   Require_ sdk_shell "error.ReadOnly => “read-only filesystem“" "G268 preserves read-only failure wording";
   Require_ normal_boot_test "send(client, process, serial, “write /tmp/g268.txt $(pipe-writer.elf)“" "normal QEMU proves successful pipe-backed substitution";
   Require_ normal_boot_test "send(client, process, serial, “cat /tmp/g268.txt“, b“PIPE-CPL“)" "normal QEMU proves captured bytes become one outer argument";
   Require_ normal_boot_test "send(client, process, serial, “echo $(hello)“" "normal QEMU exercises the 31-byte overflow bound";
   Require_ normal_boot_test "G268 overflow capture leaked child stdout to the terminal" "normal QEMU forbids overflow stdout leakage";
   Require_ normal_boot_test "G268 background substitution executed before rejection" "normal QEMU proves background failure atomicity";
   Require_ normal_boot_test "G268 pipeline substitution executed before rejection" "normal QEMU proves pipeline failure atomicity";
   Require_ readme "G268 keeps ABI 1.23" "README documents bounded command substitution without an ABI bump";
   Require_ priority "G268 keeps ABI 1.23" "priority remediation records G268";
   Require_ threat_model "G268 bounds command substitution as explicit data capture" "threat model bounds G268 evaluation and output";
   Require_ roadmap "- [x] **G268** — Implement command substitution with a bounded output limit." "roadmap marks G268 complete with the canonical separator";
   Require_ sdk_shell "substitutionProgram(value) != null or containsScalar(value, '*')" "G269 folds wildcard detection into the shared expansion scan";
   Require_ sdk_shell "fn expandWildcard(word: []const u8" "G269 expands wildcard path arguments through a bounded helper";
   Require_ sdk_shell "const star = indexOfScalar(word, '*') orelse return false;" "G269 locates the single wildcard byte";
   Require_ sdk_shell "if (indexOfScalar(word[star + 1 ..], '*') != null) return false;" "G269 rejects a second wildcard";
   Require_ sdk_shell "const component_start = if (slash) |index| index + 1 else 0;" "G269 isolates the final path component";
   Require_ sdk_shell "if (star < component_start) return false;" "G269 forbids wildcard bytes in directory-prefix components";
   Require_ sdk_shell "const fd = zigos.open(directory_path, .{ .read = true }, 0) catch return false;" "G269 enumerates only an ordinarily openable directory";
   Require_ sdk_shell "const count = zigos.getdents(fd, &entries) catch return false;" "G269 uses the real VFS directory-entry ABI";
   Require_ sdk_shell "!equal(name[0..prefix.len], prefix) or !equal(name[name.len - suffix.len ..], suffix)" "G269 matches names by bounded prefix/suffix around star";
   Require_ sdk_shell "if (!appendExpandedWord(result, storage, cursor, path[0 .. base.len + name.len])) return false;" "G269 appends each match as a distinct bounded outer argument";
   Require_ sdk_shell "return matches != 0;" "G269 fails closed when a wildcard has no matches";
   Require_ sdk_shell "if (index == 0 or !expandWildcard(word, &result, storage, &cursor)) return null;" "G269 forbids command-name globbing and aborts failed expansion";
   Require_ normal_boot_test "send(client, process, serial, “write /tmp/g269-list.txt /tmp/g269-*.txt“" "normal QEMU exercises real wildcard expansion";
   Require_ normal_boot_test "if b“/tmp/g269-a.txt“ not in glob_list or b“/tmp/g269-b.txt“ not in glob_list" "normal QEMU requires both directory matches";
   Require_ normal_boot_test "G269 unmatched wildcard appeared beyond the terminal command echo" "normal QEMU forbids unmatched literal passthrough";
   Require_ normal_boot_test "G269 second wildcard escaped failure-closed validation" "normal QEMU rejects multi-star patterns before outer execution";
   Require_ normal_boot_test "G269 directory-prefix wildcard escaped failure-closed validation" "normal QEMU rejects wildcard bytes outside the final path component";
   Require_ normal_boot_test "G269 command-name wildcard executed or leaked as an outer argument" "normal QEMU rejects wildcard expansion in command position";
   Require_ normal_boot_test "G269 background wildcard executed before rejection" "normal QEMU proves background wildcard failure atomicity";
   Require_ normal_boot_test "G269 pipeline wildcard executed before rejection" "normal QEMU proves pipeline wildcard failure atomicity";
   Forbid sdk_shell "“copied “" "G269 keeps successful cp silent at the shell page boundary";
   Forbid sdk_shell "“userspace shell requested shutdown" "G269 removes the redundant pre-shutdown shell banner";
   Forbid sdk_shell "Type 'help' for commands." "G269 keeps the startup banner compact";
   Require_ normal_boot_test "send(client, process, serial, “cp /bin/sdk.elf /persist/persist-sdk.elf“, PROMPT_ROOT, 40)" "G269 normal gate synchronizes silent cp on prompt return";
   Require_ persistence_test "(“cp /bin/sdk.elf /persist/persist-sdk.elf“, None)" "G269 persistence gate validates silent cp through subsequent reboot execution";
   Require_ readme "G269 keeps ABI 1.23" "README documents G269 without an ABI bump";
   Require_ priority "G269 keeps ABI 1.23" "priority remediation records G269";
   Require_ threat_model "G269 treats wildcard expansion as bounded namespace enumeration" "threat model bounds G269 filesystem enumeration";
   Require_ roadmap "- [x] **G269** — Implement wildcard pathname expansion." "roadmap marks G269 complete with the canonical separator";
   Require_ sdk_shell "or value[0] == '~'" "G270 folds tilde detection into the shared expansion scan";
   Require_ sdk_shell "if (word.len != 1 and word[1] != '/') return null;" "G270 accepts only root-home tilde and tilde-slash forms"].

Definition part_17 : list statement := [
   Require_ sdk_shell "const home = “/home/root“;" "G270 maps the single root login identity to its canonical home";
   Require_ sdk_shell "const length = home.len + word.len - 1;" "G270 computes the expanded word before the bounded append";
   Require_ sdk_shell "if (length > expanded.len) return null;" "G270 fails closed when root-home expansion exceeds the 31-byte argument bound";
   Require_ sdk_shell "if (maximum_words * (zigos.constants.maximum_argument_bytes + 1) > maximum_line + 1)" "G270 compile-time-proves expanded command storage capacity";
   Require_ sdk_shell "storage: [maximum_line + 1]u8 = undefined," "G270 avoids eager zeroing of command-line bytes that input overwrites";
   Require_ sdk_shell "var storage: [maximum_line + 1]u8 = undefined;" "G270 avoids eager zeroing of expansion bytes written before use";
   Require_ sdk_shell "directory[length] = 0;" "G270 preserves explicit wildcard directory C-string termination after removing eager zero-fill";
   Forbid sdk_shell "cursor.* + word.len + 1 > storage.len" "G270 replaces the unreachable expanded-storage runtime branch with the compile-time bound";
   Require_ normal_boot_test "send(client, process, serial, “cd ~“, PROMPT_HOME)" "normal QEMU proves exact root-home tilde expansion";
   Require_ normal_boot_test "send(client, process, serial, “cd ~/..“, b“root@zigos:/home$ “)" "normal QEMU proves tilde-slash suffix expansion";
   Require_ normal_boot_test "G270 named-user tilde escaped failure-closed validation" "normal QEMU rejects named-user tilde syntax";
   Require_ normal_boot_test "G270 overlong tilde expansion escaped the 31-byte argument bound" "normal QEMU enforces the post-expansion ABI word limit";
   Require_ normal_boot_test "G270 background tilde expansion executed before rejection" "normal QEMU proves tilde background failure atomicity";
   Require_ normal_boot_test "G270 pipeline tilde expansion executed before rejection" "normal QEMU proves tilde pipeline failure atomicity";
   Require_ readme "G270 keeps ABI 1.23" "README documents bounded tilde expansion without an ABI bump";
   Require_ priority "G270 keeps ABI 1.23" "priority remediation records G270";
   Require_ threat_model "G270 treats tilde expansion as fixed root-account pathname shorthand" "threat model bounds G270 root-home shorthand";
   Require_ roadmap "- [x] **G270** — Implement tilde expansion." "roadmap marks G270 complete with the canonical separator";
   Require_ sdk_shell "runStartupFile(“/etc/shrc“);" "G271 executes the system startup file first";
   Require_ sdk_shell "runStartupFile(“/home/root/.shrc“);" "G271 executes the per-root startup file second";
   Require_ sdk_shell "zigos.read(fd, line.storage[0 .. maximum_line + 1]) catch return;" "G271 probes a 513th startup byte using the existing command buffer";
   Require_ sdk_shell "if (received > maximum_line) return;" "G271 rejects startup files larger than 512 bytes";
   Require_ sdk_shell "byte.* = if (previous_separator) ' ' else ';';" "G271 normalizes nonblank line endings into the existing semicolon grammar";
   Require_ sdk_shell "if (!parseCommandLine(&line, received)) return;" "G271 reuses the interactive bounded parser";
   Require_ sdk_shell "_ = executeCommandLine(&line, status_success);" "G271 reuses the interactive bounded executor";
   Require_ sdk_shell "words: [maximum_words]Word = undefined," "G271 removes eager initialization only from word slots written before count exposure";
   Require_ sdk_shell "stages: [maximum_pipeline_stages]Command = undefined," "G271 removes eager initialization only from pipeline slots written before count exposure";
   Require_ sdk_shell "commands: [maximum_conditional_commands]ConditionalCommand = undefined," "G271 removes eager initialization only from conditional slots written before count exposure";
   Require_ normal_boot_test "send(client, process, serial, “write /etc/shrc write /tmp/g271-order SYSTEM“" "normal QEMU installs a system startup side effect";
   Require_ normal_boot_test "send(client, process, serial, “write /home/root/.shrc append /tmp/g271-order USER“" "normal QEMU installs a user startup side effect";
   Require_ normal_boot_test "sh|pipe-reader.elf" "normal QEMU launches a real child shell through a foreground kernel pipeline";
   Require_ normal_boot_test "G271US" "normal QEMU observes startup execution before the child banner";
   Require_ normal_boot_test "G271 startup files did not execute system-before-user side effects" "normal QEMU proves system-before-user execution order";
   Require_ readme "G271 advances ABI to 1.24" "README records the G271 release and atomic foreground-spawn ABI bump";
   Require_ priority "G271 advances ABI to 1.24" "priority remediation records G271 startup files and foreground-spawn hardening";
   Require_ threat_model "G271 treats startup files as bounded input to the existing shell authority" "threat model bounds G271 configuration authority";
   Require_ roadmap "- [x] **G271** — Implement shell startup files." "roadmap marks G271 complete with the canonical separator";
   Require_ sdk_shell "var history_dirty = false;" "G272 tracks whether clean shutdown must flush history";
   Require_ sdk_shell "persistHistory(&line, count);" "G272 records interactive input before parsing/execution";
   Require_ sdk_shell "zigos.open(“/persist/.sh_history“, .{ .write = true, .create = true, .append = true }, 0o600)" "G272 creates/appends root history through ordinary VFS permissions";
   Require_ sdk_shell "if (err != error.FileTooLarge) return;" "G272 only rotates history on the fixed VFS file-size ceiling";
   Require_ sdk_shell ".{ .write = true, .create = true, .truncate = true }" "G272 bounds overflow by replacing history with the newest entry";
   Require_ sdk_shell "fn flushHistory() void" "G272 has an explicit clean-shutdown history flush path";
   Require_ sdk_shell "zigos.fsync(fd) catch |err|" "G272 prefers file-scoped durability for committed history";
   Require_ sdk_shell "if (err != error.Unsupported) return;" "G272 falls back globally only for an uncommitted history path";
   Require_ sdk_shell "zigos.sync() catch return;" "G272 can establish the first durable history record with one bounded global sync";
   Require_ sdk_shell "flushHistory();" "G272 flushes dirty history before requesting normal shutdown";
   Require_ normal_boot_test "send(client, process, serial, “cat /persist/.sh_history“, PROMPT_ROOT)" "G272 normal boot proves same-session history visibility";
   Require_ normal_boot_test "history_vars_image = work / “history-vars.fd“" "G272 reboot proof uses a fresh firmware variable store";
   Require_ normal_boot_test "“cat /persist/.sh_history“, b“cd ~“" "G272 reboot proof requires an earlier first-session command from the same NVMe image";
   Require_ normal_boot_test "“sync“, b“writable mounts synchronized“" "G272 recovery boot drives a synchronized workload before shutdown";
   Require_ normal_boot_test "“hello“, b“process 3 exited 42“" "G272 recovery boot includes a real child launch for the normal cleanliness contract";
   Require_ normal_boot_test "G272 recovery boot did not finish with clean persistent shutdown" "G272 requires clean second-boot resource conservation";
   Require_ readme "G272 keeps ABI 1.24" "README documents persistent shell history without another ABI bump";
   Require_ priority "G272 keeps ABI 1.24" "priority remediation records G272 persistent history";
   Require_ threat_model "G272 treats persistent shell history as untrusted user data" "threat model bounds G272 history authority and privacy";
   Require_ roadmap "- [x] **G272** — Persist shell history to a writable filesystem." "roadmap marks G272 complete with the canonical separator";
   Require_ ls_source "if (argc > 2)" "G273 standalone ls bounds operands before filesystem access";
   Require_ ls_source "else “.“;" "G273 standalone ls defaults to the current directory";
   Require_ ls_source "zigos.open(path, .{ .read = true }, 0)" "G273 standalone ls uses ordinary VFS authorization";
   Require_ ls_source "zigos.getdents(fd, &entries)" "G273 standalone ls enumerates through the public directory ABI";
   Require_ ls_source "if (entry.kind == 1)" "G273 standalone ls marks directory entries with a presentation suffix";
   Require_ ls_source "“usage: ls [PATH]" "G273 standalone ls has bounded deterministic usage diagnostics";
   Require_ normal_boot_test "/bin/ls.elf /home/root" "G273 normal QEMU executes the standalone binary by absolute path";
   Require_ normal_boot_test "readme.txt" "G273 normal QEMU requires a real directory entry from standalone ls";
   Require_ normal_boot_test "G273 standalone ls reported an unexpected filesystem error" "G273 QEMU rejects standalone ls error output";
   Require_ readme "G273 keeps ABI 1.24" "README documents standalone ls without an ABI bump";
   Require_ priority "G273 keeps ABI 1.24" "priority remediation records G273 standalone ls";
   Require_ threat_model "G273 gives standalone `ls` no authority beyond the invoking process" "threat model bounds G273 listing authority";
   Require_ roadmap "- [x] **G273** — Provide a standalone ls userspace program." "roadmap marks G273 complete with the canonical separator";
   Require_ cat_source "if (argc != 2)" "G274 standalone cat requires exactly one file operand";
   Require_ cat_source "“usage: cat FILE" "G274 standalone cat has bounded deterministic usage diagnostics";
   Require_ cat_source "zigos.open(path, .{ .read = true }, 0)" "G274 standalone cat uses ordinary VFS read authorization";
   Require_ cat_source "var bytes: [512]u8 = undefined;" "G274 standalone cat uses one fixed streaming buffer";
   Require_ cat_source "zigos.read(fd, &bytes)" "G274 standalone cat streams through the public descriptor read ABI";
   Require_ cat_source "zigos.writeAll(1, bytes[0..count])" "G274 standalone cat forwards each bounded chunk without interpretation";
   Require_ normal_boot_test "/bin/cat.elf /home/root/readme.txt" "G274 normal QEMU executes standalone cat by absolute path";
   Require_ normal_boot_test "This filesystem remains available after boot validation." "G274 normal QEMU requires exact real file content";
   Require_ normal_boot_test "G274 standalone cat reported an unexpected filesystem error" "G274 QEMU rejects standalone cat error output";
   Require_ readme "G274 keeps ABI 1.24" "README documents standalone cat without an ABI bump";
   Require_ priority "G274 keeps ABI 1.24" "priority remediation records G274 standalone cat";
   Require_ threat_model "G274 gives standalone `cat` only the read authority of its invoking process" "threat model bounds G274 file-read authority";
   Require_ roadmap "- [x] **G274** — Provide a standalone cat userspace program." "roadmap marks G274 complete with the canonical separator";
   Require_ echo_source "if (argc == 0 or argc > zigos.constants.maximum_arguments)" "G275 standalone echo bounds the startup vector before output";
   Require_ echo_source "if (pointer == 0) return null;" "G275 standalone echo rejects a null argv string pointer";
   Require_ echo_source "argumentSlice(argv[index])" "G275 standalone echo validates each bounded argv string";
   Require_ echo_source "while (length <= zigos.constants.maximum_argument_bytes)" "G275 standalone echo caps every string scan at the ABI argument limit";
   Require_ echo_source "zigos.writeAll(1, “ “)" "G275 standalone echo inserts exactly one separator between arguments";
   Require_ echo_source "zigos.writeAll(1, “\r\n“)" "G275 standalone echo terminates output with one CRLF";
   Require_ normal_boot_test "/bin/echo.elf G275_ALPHA G275_BETA" "G275 normal QEMU executes standalone echo by absolute path";
   Require_ normal_boot_test "G275_ALPHA G275_BETA" "G275 normal QEMU requires exact multi-argument standalone echo output";
   Require_ readme "G275 keeps ABI 1.24" "README documents standalone echo without an ABI bump";
   Require_ priority "G275 keeps ABI 1.24" "priority remediation records G275 standalone echo";
   Require_ threat_model "G275 gives standalone `echo` no authority beyond stdout" "threat model bounds G275 output authority";
   Require_ roadmap "- [x] **G275** — Provide a standalone echo userspace program." "roadmap marks G275 complete with the canonical separator";
   Require_ pwd_source "if (argc != 1)" "G276 standalone pwd rejects operands before querying cwd";
   Require_ pwd_source "“usage: pwd\r\n“" "G276 standalone pwd exposes bounded usage diagnostics";
   Require_ pwd_source "var path: [maximum_path + 1]u8 = undefined;" "G276 standalone pwd uses one fixed maximum-path buffer";
   Require_ pwd_source "zigos.getcwd(&path)" "G276 standalone pwd queries cwd through the public ABI";
   Require_ pwd_source "zigos.writeAll(1, cwd)" "G276 standalone pwd writes the returned path without transformation";
   Require_ normal_boot_test "/bin/pwd.elf" "G276 normal QEMU executes standalone pwd by absolute path";
   Require_ normal_boot_test "b“\r\n/\r\n“" "G276 normal QEMU requires exact root cwd output";
   Require_ readme "G276 keeps ABI 1.24" "README documents standalone pwd without an ABI bump";
   Require_ priority "G276 keeps ABI 1.24" "priority remediation records G276 standalone pwd";
   Require_ threat_model "G276 gives standalone `pwd` only cwd-observation authority" "threat model bounds G276 observation/output authority";
   Require_ roadmap "- [x] **G276** — Provide a standalone pwd userspace program." "roadmap marks G276 complete with the canonical separator";
   Require_ mkdir_source "if (argc != 2)" "G277 standalone mkdir requires exactly one path operand";
   Require_ mkdir_source "“usage: mkdir PATH\r\n“" "G277 standalone mkdir exposes bounded usage diagnostics";
   Require_ mkdir_source "if (argv[1] == 0) return status_failure;" "G277 standalone mkdir rejects a null path pointer";
   Require_ mkdir_source "zigos.mkdir(path, 0o755)" "G277 standalone mkdir uses ordinary VFS creation with conventional base mode";
   Require_ mkdir_source "error.ReadOnly => “mkdir: read-only filesystem" "G277 standalone mkdir preserves read-only failure classification";
   Require_ normal_boot_test "/bin/mkdir.elf /tmp/g277-dir" "G277 normal QEMU executes standalone mkdir by absolute path";
   Require_ normal_boot_test "b“g277-dir/“" "G277 normal QEMU verifies the created directory through VFS enumeration";
   Require_ normal_boot_test "rmdir /tmp/g277-dir" "G277 normal QEMU removes the proof directory before shutdown";
   Require_ readme "G277 keeps ABI 1.24" "README documents standalone mkdir without an ABI bump";
   Require_ priority "G277 keeps ABI 1.24" "priority remediation records G277 standalone mkdir";
   Require_ threat_model "G277 gives standalone `mkdir` only one bounded namespace-create operation" "threat model bounds G277 mutation authority";
   Require_ roadmap "- [x] **G277** — Provide a standalone mkdir userspace program." "roadmap marks G277 complete with the canonical separator";
   Require_ rm_source "if (argc != 2)" "G278 standalone rm requires exactly one file path";
   Require_ rm_source "“usage: rm FILE\r\n“" "G278 rm exposes bounded usage diagnostics";
   Require_ rm_source "zigos.unlink(path)" "G278 rm uses the public unlink ABI";
   Require_ rm_source "error.IsDirectory => “rm: is a directory" "G278 rm refuses directory removal through unlink semantics";
   Require_ rmdir_source "if (argc != 2)" "G278 standalone rmdir requires exactly one directory path";
   Require_ rmdir_source "“usage: rmdir DIR\r\n“" "G278 rmdir exposes bounded usage diagnostics";
   Require_ rmdir_source "zigos.rmdir(path)" "G278 rmdir uses the public directory-removal ABI";
   Require_ rmdir_source "error.NotEmpty => “rmdir: not empty" "G278 rmdir preserves non-empty-directory failure classification";
   Require_ normal_boot_test "/bin/rm.elf /tmp/g278-file" "G278 normal QEMU executes standalone rm by absolute path";
   Require_ normal_boot_test "/bin/rmdir.elf /tmp/g278-dir" "G278 normal QEMU executes standalone rmdir by absolute path";
   Require_ normal_boot_test "G278 standalone removal left a proof path visible" "G278 QEMU verifies both names disappear after successful removal";
   Require_ readme "G278 keeps ABI 1.24" "README documents standalone rm/rmdir without an ABI bump";
   Require_ priority "G278 keeps ABI 1.24" "priority remediation records G278 standalone removal tools";
   Require_ threat_model "G278 gives standalone `rm` and `rmdir` one bounded namespace-removal operation each" "threat model bounds G278 mutation authority";
   Require_ roadmap "- [x] **G278** — Provide standalone rm and rmdir userspace programs." "roadmap marks G278 complete with the canonical separator";
   Require_ mv_source "if (argc != 3)" "G279 standalone mv requires source and destination";
   Require_ mv_source "“usage: mv SOURCE DEST\r\n“" "G279 mv exposes bounded usage diagnostics";
   Require_ mv_source "zigos.rename(source, destination)" "G279 mv performs one public rename operation";
   Require_ cp_source "if (argc != 3)" "G279 standalone cp requires source and destination";
   Require_ cp_source "var bytes: [512]u8 = undefined;" "G279 cp uses one fixed streaming buffer";
   Require_ cp_source "zigos.fstat(source_fd, &source_info)" "G279 cp derives source type and mode from the opened descriptor";
   Require_ cp_source "destination_info.node == source_info.node" "G279 cp compares destination inode identity before truncation"].

Definition part_18 : list statement := [
   Require_ cp_source "“cp: same file\r\n“" "G279 cp fails closed on exact or hard-link self-copy";
   Require_ cp_source ".{ .write = true, .create = true, .truncate = true }" "G279 cp creates or truncates only after alias preflight";
   Require_ cp_source "copy_core.copy(&reader, &writer, &bytes)" "G279/G291 cp streams bounded chunks through the shared descriptor copy core";
   Require_ normal_boot_test "/bin/cp.elf /tmp/g279-source /tmp/g279-source" "G279 normal QEMU executes the cp self-copy guard";
   Require_ normal_boot_test "G279 standalone cp self-copy guard damaged the source" "G279 QEMU proves self-copy rejection preserves source bytes";
   Require_ normal_boot_test "/bin/cp.elf /tmp/g279-source /tmp/g279-copy" "G279 normal QEMU executes standalone cp by absolute path";
   Require_ normal_boot_test "/bin/mv.elf /tmp/g279-copy /tmp/g279-moved" "G279 normal QEMU executes standalone mv by absolute path";
   Require_ normal_boot_test "G279 standalone cp did not preserve source bytes" "G279 QEMU verifies copied payload bytes";
   Require_ normal_boot_test "G279 standalone mv did not move the copied namespace entry" "G279 QEMU verifies rename disappearance and appearance";
   Require_ readme "G279 keeps ABI 1.24" "README documents standalone mv/cp without an ABI bump";
   Require_ priority "G279 keeps ABI 1.24" "priority remediation records G279 standalone move/copy tools";
   Require_ threat_model "G279 gives standalone `mv` one bounded rename authority" "threat model bounds G279 move/copy authority";
   Require_ roadmap "- [x] **G279** — Provide standalone mv and cp userspace programs." "roadmap marks G279 complete with the canonical separator";
   Require_ stat_source "if (argc != 2)" "G280 standalone stat requires exactly one pathname";
   Require_ stat_source "“usage: stat PATH\r\n“" "G280 stat exposes bounded usage diagnostics";
   Require_ stat_source "zigos.stat(path, &info)" "G280 stat obtains core metadata through the public path ABI";
   Require_ stat_source "zigos.statOwner(path, &owner)" "G280 stat obtains ownership through the public ABI";
   Require_ stat_source "zigos.statTimes(path, &times)" "G280 stat obtains all four timestamps through the public ABI";
   Require_ stat_source "var output: [20]u8 = undefined;" "G280 decimal formatter is fixed-size";
   Require_ stat_source "var output: [4]u8 = undefined;" "G280 octal mode formatter is fixed-size";
   Require_ stat_source "“type “" "G280 stat emits deterministic kind metadata";
   Require_ stat_source "readonly " "G280 stat exposes read-only state";
   Require_ normal_boot_test "/bin/stat.elf /home/root/readme.txt" "G280 normal QEMU executes standalone stat by absolute path";
   Require_ normal_boot_test "b“mode 0644\r\n“" "G280 QEMU requires the fixture mode";
   Require_ normal_boot_test "b“size 57\r\n“" "G280 QEMU requires the fixture size";
   Require_ normal_boot_test "b“owner 0:0\r\n“" "G280 QEMU requires fixture ownership";
   Require_ normal_boot_test "G280 standalone stat reported an unexpected metadata error" "G280 QEMU rejects metadata errors";
   Require_ readme "G280 keeps ABI 1.24" "README documents standalone stat without an ABI bump";
   Require_ priority "G280 keeps ABI 1.24" "priority remediation records G280 standalone stat";
   Require_ threat_model "G280 gives standalone `stat` observation authority" "threat model bounds G280 metadata observation";
   Require_ roadmap "- [x] **G280** — Provide a standalone stat userspace program." "roadmap marks G280 complete with the canonical separator";
   Require_ roadmap "255 complete, 245 open" "roadmap arithmetic includes G313";
   Require_ head_source "if (argc != 2)" "G281 standalone head requires exactly one file";
   Require_ head_source "const default_lines: usize = 10;" "G281 head fixes the default output at ten lines";
   Require_ head_source "var bytes: [512]u8 = undefined;" "G281 head uses one fixed streaming buffer";
   Require_ head_source "zigos.read(fd, &bytes)" "G281 head streams through the public read ABI";
   Require_ tail_source "if (argc != 2)" "G281 standalone tail requires exactly one file";
   Require_ tail_source "const default_lines: usize = 10;" "G281 tail fixes the default output at ten lines";
   Require_ tail_source "const retained_boundaries: usize = default_lines + 1;" "G281 tail retains only eleven newline boundaries";
   Require_ tail_source "zigos.lseek(fd, @intCast(start), .start)" "G281 tail seeks only to its computed final-line boundary";
   Require_ tail_source "var bytes: [512]u8 = undefined;" "G281 tail uses one fixed streaming buffer";
   Require_ wc_source "if (argc != 2)" "G281 standalone wc requires exactly one file";
   Require_ wc_source "var byte_count: u64 = 0;" "G281 wc counts bytes";
   Require_ wc_source "var line_count: u64 = 0;" "G281 wc counts newline lines";
   Require_ wc_source "var word_count: u64 = 0;" "G281 wc counts ASCII-whitespace-delimited words";
   Require_ wc_source "var bytes: [512]u8 = undefined;" "G281 wc uses one fixed streaming buffer";
   Require_ grep_source "if (argc != 3)" "G281 standalone grep requires pattern and file";
   Require_ grep_source "maximum_pattern_bytes = zigos.constants.maximum_argument_bytes" "G281 grep caps patterns at the public 31-byte argument bound";
   Require_ grep_source "var prefix: [maximum_pattern_bytes]u8" "G281 grep uses a fixed KMP prefix table";
   Require_ grep_source "fn buildPrefix" "G281 grep uses literal KMP matching rather than regex parsing";
   Require_ grep_source "fn outputRange" "G281 grep emits complete matching lines through bounded seek-back streaming";
   Require_ grep_source "const status_no_match: u32 = 1;" "G281 grep preserves conventional no-match status 1";
   Require_ normal_boot_test "/bin/head.elf /tmp/g281-text" "G281 normal QEMU executes standalone head by absolute path";
   Require_ normal_boot_test "/bin/tail.elf /tmp/g281-text" "G281 normal QEMU executes standalone tail by absolute path";
   Require_ normal_boot_test "/bin/wc.elf /tmp/g281-text" "G281 normal QEMU executes standalone wc by absolute path";
   Require_ normal_boot_test "12 12 116" "G281 QEMU freezes deterministic wc line/word/byte counts";
   Require_ normal_boot_test "/bin/grep.elf MATCH /tmp/g281-text" "G281 QEMU executes literal matching grep";
   Require_ normal_boot_test "/bin/grep.elf ABSENT /tmp/g281-text" "G281 QEMU executes grep no-match path";
   Require_ readme "G281 keeps ABI 1.24" "README documents standalone head/tail/wc/grep without an ABI bump";
   Require_ priority "G281 keeps ABI 1.24" "priority remediation records G281 standalone text tools";
   Require_ threat_model "G281 gives standalone `head`, `tail`, `wc` and `grep`" "threat model bounds G281 text-observation authority";
   Require_ roadmap "- [x] **G281** — Provide standalone head, tail, wc and grep programs." "roadmap marks G281 complete with the canonical separator";
   Require_ roadmap "255 complete, 245 open" "roadmap arithmetic includes G313";
   Require_ hexdump_source "if (argc != 2)" "G282 standalone hexdump requires exactly one file";
   Require_ hexdump_source "const maximum_output_bytes: usize = 256;" "G282 hexdump hard-caps observation at 256 bytes";
   Require_ hexdump_source "const row_bytes: usize = 16;" "G282 hexdump uses sixteen-byte rows";
   Require_ hexdump_source "var row: [row_bytes]u8 = undefined;" "G282 hexdump uses one fixed sixteen-byte input buffer";
   Require_ hexdump_source "writeHexFixed(offset, 4)" "G282 hexdump emits fixed four-digit offsets";
   Require_ hexdump_source "byte >= 0x20 and byte <= 0x7e" "G282 hexdump ASCII gutter is explicitly bounded to printable bytes";
   Require_ normal_boot_test "/bin/hexdump.elf /tmp/g282-hex" "G282 normal QEMU executes standalone hexdump by absolute path";
   Require_ normal_boot_test "0000  41 42 43 44 45 46 47 48" "G282 QEMU freezes the deterministic first hex row";
   Require_ normal_boot_test "00F0  " "G282 QEMU reaches the final permitted 256-byte row";
   Require_ normal_boot_test "0100  " "G282 QEMU explicitly rejects output beyond the 256-byte ceiling";
   Require_ readme "G282 keeps ABI 1.24" "README documents standalone hexdump without an ABI bump";
   Require_ priority "G282 keeps ABI 1.24" "priority remediation records G282 standalone hexdump";
   Require_ threat_model "G282 gives standalone `hexdump`" "threat model bounds G282 hexdump observation authority";
   Require_ roadmap "- [x] **G282** — Provide a standalone hexdump program." "roadmap marks G282 complete with the canonical separator";
   Require_ ps_source "if (argc != 1)" "G283 standalone ps requires no operands";
   Require_ ps_source "zigos.open(“/proc/processes“, .{ .read = true }, 0)" "G283 ps obtains its snapshot only through live procfs";
   Require_ ps_source "var bytes: [512]u8 = undefined;" "G283 ps uses one fixed streaming buffer";
   Require_ normal_boot_test "/bin/ps.elf" "G283 normal QEMU executes standalone ps by absolute path";
   Require_ normal_boot_test "PID PPID STATE      TICKS FDS SOCK NAME" "G283 QEMU requires the procfs process-table header";
   Require_ normal_boot_test "b“ 4 0 ps.elf\r\n“" "G283 QEMU requires the executing ps child in its own live snapshot";
   Require_ readme "G283 keeps ABI 1.24" "README documents procfs-backed standalone ps without an ABI bump";
   Require_ priority "G283 keeps ABI 1.24" "priority remediation records G283 procfs-backed ps";
   Require_ threat_model "G283 gives standalone `ps`" "threat model bounds G283 process-observation authority";
   Require_ roadmap "- [x] **G283** — Provide a standalone ps program backed by procfs." "roadmap marks G283 complete with the canonical separator";
   Require_ kill_source "if (argc < 2 or argc > 3" "G284 standalone kill bounds its argument shape";
   Require_ kill_source "const default_signal: u8 = 9;" "G284 standalone kill defaults to SIGKILL";
   Require_ kill_source "if (pid == 1 or pid == 2)" "G284 kill frontend refuses init and the active shell";
   Require_ kill_source "zigos.kill(pid, signal)" "G284 standalone kill uses only the public ABI";
   Require_ sleep_source "if (argc != 2" "G284 standalone sleep requires one duration";
   Require_ sleep_source "const maximum_ticks: u64 = 100_000;" "G284 standalone sleep bounds duration";
   Require_ sleep_source "zigos.sleep(ticks)" "G284 standalone sleep uses the existing scheduler ABI";
   Require_ asset_builder "128: b“/bin/runtime-sleep.elf“" "G284 moves the historical fixed sleep fixture to a distinct path";
   Require_ wait_conformance "%define SLEEP_PATH_LEN  22" "G284 wait fixture uses the full migrated runtime-sleep path length";
   Require_ normal_boot_test "/bin/sleep.elf 2" "G284 normal QEMU proves foreground standalone sleep";
   Require_ normal_boot_test "/bin/sleep.elf 1000 &" "G284 normal QEMU launches standalone sleep in background";
   Require_ normal_boot_test "sleep_pid = None" "G284 normal QEMU discovers the target PID dynamically through procfs";
   Require_ normal_boot_test "f“/bin/kill.elf {sleep_pid}" "G284 normal QEMU signals the discovered process through standalone kill";
   Require_ normal_boot_test "b“] done 137\r\n“" "G284 normal QEMU requires SIGKILL-derived background completion status 137";
   Require_ readme "G284 advances the public ABI to 1.25" "README documents ABI 1.25 standalone kill/sleep";
   Require_ priority "G284 advances ABI to 1.25" "priority remediation records ABI 1.25 standalone kill/sleep";
   Require_ threat_model "G284 adds public signal-delivery authority" "threat model bounds ABI 1.25 signal authority";
   Require_ roadmap "- [x] **G284** — Provide standalone kill and sleep programs." "roadmap marks G284 complete";
   Require_ mount_source "if (argc != 1)" "G285 standalone mount accepts no operands";
   Require_ mount_source "zigos.open(“/proc/mounts“, .{ .read = true }, 0)" "G285 mount obtains its snapshot only through live procfs";
   Require_ mount_source "var bytes: [512]u8 = undefined;" "G285 mount uses one fixed streaming buffer";
   Require_ normal_boot_test "/bin/mount.elf" "G285 normal QEMU executes standalone mount by absolute path";
   Require_ normal_boot_test "ramfs on / type ramfs (rw)" "G285 QEMU requires the live writable root mount";
   Require_ normal_boot_test "process-table on /proc type procfs (ro)" "G285 QEMU requires the live read-only procfs mount";
   Require_ readme "G285 keeps ABI 1.25" "README documents standalone mount without another ABI bump";
   Require_ priority "G285 keeps ABI 1.25" "priority remediation records standalone mount inspection";
   Require_ threat_model "G285 gives standalone `mount`" "threat model bounds G285 mount observation authority";
   Require_ roadmap "- [x] **G285** — Provide a standalone mount inspection program." "roadmap marks G285 complete";
   Require_ df_source "if (argc > 2)" "G286 standalone df accepts at most one path operand";
   Require_ df_source "else “/“;" "G286 standalone df defaults to the root filesystem";
   Require_ df_source "zigos.statfs(path, &info)" "G286 df obtains capacity only through the public statfs ABI";
   Require_ df_source "filesystem_stat_shared_blocks" "G286 df exposes shared-block accounting explicitly";
   Require_ normal_boot_test "/bin/df.elf /" "G286 normal QEMU executes standalone df by absolute path";
   Require_ normal_boot_test "block-size 4096" "G286 QEMU requires the root ABI page-sized block unit";
   Require_ normal_boot_test "blocks 256" "G286 QEMU requires the bounded shared root block pool";
   Require_ normal_boot_test "df_values.get(b“available“) != df_values[b“free“]" "G286 QEMU validates live free/available block equality relationally";
   Require_ readme "G286 keeps ABI 1.25" "README documents standalone df without another ABI bump";
   Require_ priority "G286 keeps ABI 1.25" "priority remediation records standalone df";
   Require_ threat_model "G286 gives standalone `df`" "threat model bounds G286 statfs observation authority";
   Require_ roadmap "- [x] **G286** — Provide a standalone df program." "roadmap marks G286 complete";
   Require_ sdk_source "pub fn fscheck()" "ABI 1.26 Zig SDK exposes check-only filesystem validation";
   Require_ c_header "int64_t zigos_fscheck(void);" "ABI 1.26 generated C header exposes check-only filesystem validation";
   Require_ c_library "int64_t zigos_fscheck(void)" "ABI 1.26 C library wraps syscall 129";
   Require_ abi_generator "“int64_t zigos_fscheck(void);\n“," "ABI generator owns the C fscheck declaration";
   Require_ executor "syscall.syscall_fscheck => return syscallFscheck(context, frame, fx_state)" "ABI 1.26 dispatch reaches the fscheck syscall";
   Require_ executor "if (frame.rdi != 0 or frame.rsi != 0 or frame.rdx != 0 or frame.r10 != 0 or frame.r8 != 0 or frame.r9 != 0)" "fscheck rejects all syscall arguments";
   Require_ executor "const callback = fscheck_fn orelse" "fscheck uses only the configured system validation callback";
   Require_ runtime "fn checkFilesystems" "runtime owns one shared diagnostic/userspace filesystem checker";
   Require_ runtime "if (!state.persistence.report().mounted) return runtime_abi.errno_no_syscall" "fscheck fails closed when persistent storage is absent";
   Require_ runtime "if (!state.vfs.validate()) return 1;" "fscheck classifies structural VFS inconsistency as corruption rather than operational I/O failure";
   Require_ runtime "state.persistence.check() catch |err| return switch (err)" "fscheck validates the active persistent generation without repair";
   Require_ runtime "error.Corrupt, error.InvalidRecord => 1" "fscheck classifies structural journal inconsistency distinctly";
   Require_ runtime "else => runtime_abi.errno_io" "fscheck preserves operational persistence read failures as EIO"].

Definition part_19 : list statement := [
   Require_ runtime "const result = checkFilesystems(null);" "diagnostic fsck and ABI 1.26 reuse the same checker";
   Require_ runtime "output.line(if (result == 0) “clean“ else if (result == 1) “corrupt“ else “error“)" "diagnostic fsck distinguishes corruption from operational checker failure";
   Require_ fsck_source "if (argc != 1)" "G287 standalone fsck accepts no operands";
   Require_ fsck_source "zigos.fscheck()" "G287 standalone fsck delegates to the public check-only ABI";
   Require_ fsck_source "const clean = zigos.fscheck()" "G287 standalone fsck consumes the clean/corrupt result";
   Require_ fsck_source "error.InputOutput => “fsck: input/output error\r\n“" "G287 standalone fsck does not mislabel device I/O failure as corruption";
   Require_ fsck_source "if (!clean)" "G287 standalone fsck reports the explicit corruption result separately";
   Require_ fsck_source "“fsck: clean\r\n“" "G287 standalone fsck emits a bounded clean result";
   Require_ normal_boot_test "/bin/fsck.elf" "G287 normal QEMU executes standalone fsck by absolute path";
   Require_ normal_boot_test "b“fsck: clean\r\n“" "G287 QEMU requires the kernel-backed clean result";
   Require_ normal_boot_test "b“fsck: corrupt“" "G287 QEMU rejects a corrupt result";
   Require_ readme "G287 advances the public ABI to 1.26" "README documents check-only ABI 1.26 fscheck";
   Require_ readme "Canonical `fsck.elf` is 6,344 bytes (RX 2,032, SHA-256 `489955503C26826F4A69D6BFA207F8CC546D001CEF14DE0E10B329EF9F56FB27`)" "README freezes the canonical G287 fsck artifact identity";
   Require_ priority "G287 advances ABI to 1.26" "priority remediation records check-only fscheck";
   Require_ threat_model "G287 exposes one coarse filesystem-integrity observation" "threat model bounds G287 filesystem-check authority";
   Require_ roadmap "- [x] **G287** — Provide a standalone fsck launcher." "roadmap marks G287 complete";
   Require_ uname_source "if (argc != 1)" "G288 standalone uname accepts no operands";
   Require_ uname_source "zigos.open(“/proc/version“, .{ .read = true }, 0)" "G288 standalone uname reads only the existing procfs version object";
   Require_ uname_source "var bytes: [128]u8 = undefined;" "G288 standalone uname uses one fixed bounded streaming buffer";
   Require_ uname_source "zigos.read(fd, &bytes)" "G288 standalone uname streams through the public descriptor read ABI";
   Require_ uname_source "error.NotFound => “uname: procfs unavailable\r\n“" "G288 standalone uname reports unavailable procfs without alternate probing";
   Require_ normal_boot_test "/bin/uname.elf" "G288 normal QEMU executes standalone uname by absolute path";
   Require_ normal_boot_test "b“ZigOs 19.0.0 x86_64 persistent runtime\r\n“" "G288 QEMU requires the live procfs version string";
   Require_ normal_boot_test "b“uname: “" "G288 QEMU rejects an unexpected uname diagnostic";
   Require_ readme "G288 keeps ABI 1.26" "README documents standalone uname without another ABI bump";
   Require_ readme "Canonical `uname.elf` is 6,616 bytes (RX 2,304, SHA-256 `D2F98B45926EDA6CD9325D5999DF0DF8A0BA678E34DCA72BA77EC3649E92F641`)" "README freezes the canonical G288 uname artifact identity";
   Require_ priority "G288 keeps ABI 1.26" "priority remediation records standalone uname";
   Require_ threat_model "G288 gives standalone `uname` observation authority" "threat model bounds G288 procfs version observation";
   Require_ roadmap "- [x] **G288** — Provide a standalone uname program." "roadmap marks G288 complete";
   Require_ env_source "if (argc != 1)" "G289 standalone env accepts no operands";
   Require_ env_source "while (index < zigos.constants.maximum_environment)" "G289 standalone env caps startup-vector traversal at the generated entry limit";
   Require_ env_source "while (length <= zigos.constants.maximum_environment_bytes)" "G289 standalone env caps each startup entry at the generated byte limit";
   Require_ env_source "validEnvironmentEntry(entry)" "G289 standalone env validates NAME=VALUE structure before output";
   Require_ env_source "zigos.writeAll(1, entry)" "G289 standalone env streams validated entries directly";
   Forbid env_source "zigos.open(" "G289 standalone env must not gain filesystem authority";
   Require_ normal_boot_test "/bin/env.elf" "G290 normal QEMU executes standalone env by absolute path"].

Definition shell_environment : list statement := (λ marker, Require_ normal_boot_test marker "G289 QEMU requires inherited and accepted shell environment state") <$>
  ["b“PATH=/bin:/persist\r\n“";
   "b“HOME=/home/root\r\n“";
   "b“TERM=zigos\r\n“";
   "b“SHELL=/bin/sh.elf\r\n“";
   "b“G267_A=two\r\n“";
   "b“G267_B=two\r\n“";
   "b“G267_C=three\r\n“"].

Definition part_20 : list statement := [
   Require_ normal_boot_test "b“G267_D=four“" "G289 QEMU explicitly rejects the failed fifth shell override";
   Require_ normal_boot_test "b“env: “" "G289 QEMU rejects unexpected env diagnostics";
   Require_ readme "G289 keeps ABI 1.26" "README documents standalone env without another ABI bump";
   Require_ readme "Canonical `env.elf` is 6,320 bytes (RX 2,008, SHA-256 `6BBF3508AD0ACB9D55FFE5837A6EDEE79502E67CB76C18DC6158CDFD1EBE1A62`)" "README freezes the canonical G289 env artifact identity";
   Require_ priority "G289 keeps ABI 1.26" "priority remediation records standalone env";
   Require_ threat_model "G289 gives standalone `env` observation authority" "threat model bounds G289 startup-environment observation";
   Require_ roadmap "- [x] **G289** — Provide a standalone env program." "roadmap marks G289 complete";
   Require_ vfs_source "pub const maximum_nodes: usize = 128;" "G290 raises the live bounded VFS node pool to 128";
   Require_ sdk_conformance "root_fs.total_nodes != 128" "G290 Zig SDK conformance requires the 128-node statfs pool";
   Require_ c_conformance "root_fs.total_nodes != 128" "G290 C SDK conformance requires the 128-node statfs pool";
   Require_ normal_boot_test "b“nodes 128\r\n“" "G290 normal QEMU requires the 128-node root statfs capacity";
   Require_ edit_source "const maximum_document_bytes: usize = 4096;" "G290 editor fixes document storage at 4 KiB";
   Require_ edit_source "const maximum_command_bytes: usize = 256;" "G290 editor retains the complete canonical TTY payload";
   Require_ tty_source "pub const edit_capacity: usize = 256;" "G290 editor command bound stays synchronized with the canonical TTY edit bound";
   Require_ edit_source "const input_chunk_bytes: usize = 512;" "G290 editor uses bounded read-ahead";
   Require_ edit_source "const CommandReader = struct" "G290 editor frames commands independently of read boundaries";
   Require_ edit_source "zigos.read(0, &self.pending)" "G290 editor performs bounded streaming terminal reads";
   Require_ edit_source "if (self.line_length == self.line.len)" "G290 editor detects command overflow before mutation";
   Require_ edit_source "return .{ .kind = .too_long }" "G290 editor discards overlong commands through a delimiter";
   Require_ edit_source "if (err == error.NotFound) return true;" "G290 editor can begin a new bounded document";
   Require_ edit_source "zigos.open(path, .{ .write = true, .create = true, .truncate = true }, 0o644)" "G290 save uses the public create/truncate ABI";
   Require_ edit_source "zigos.writeAll(fd, document[0..document_length])" "G290 save handles partial writes through writeAll";
   Require_ edit_source "zigos.fsync(fd) catch |err|" "G290 save requests file-scoped durability";
   Require_ edit_source "zigos.sync() catch |sync_err|" "G290 save falls back to global sync only when unsupported";
   Forbid edit_source "allocator" "G290 editor must remain allocation-free";
   Require_ normal_boot_test "b“/bin/edit.elf /tmp/g290-edit\r“" "G290 QEMU executes edit by absolute path";
   Require_ normal_boot_test "maximum_append = b“a “ + (b“X“ * 254) + b“\r“" "G290 QEMU exercises an exact 256-byte editor command";
   Require_ normal_boot_test "client.sendall(maximum_append + b“d\ra REMOVE\rd\ra FINAL\rwq\r“)" "G290 QEMU queues multiple editor lines in one burst";
   Require_ normal_boot_test "b“edit: wrote 11 bytes\r\n“" "G290 QEMU requires a successful save";
   Require_ normal_boot_test "b“BASE\nFINAL\n“" "G290 QEMU verifies final edited bytes";
   Require_ normal_boot_test "b“edit: command too long“" "G290 QEMU rejects line-bound framing regression";
   Require_ normal_boot_test "b“edit: command must be“" "G290 QEMU rejects merged/split queued commands";
   Require_ readme "G290 keeps ABI 1.26" "README documents standalone edit";
   Require_ readme "Canonical `edit.elf` is 12,568 bytes (RX 5,024, RW/BSS 4,104, SHA-256 `22BBD827D06A8D18E8FB7B2F6D3662D65C851BF311038068A1635FBC4DE6F1C0`)" "README freezes G290 edit identity";
   Require_ priority "G290 keeps ABI 1.26" "priority remediation records standalone edit";
   Require_ threat_model "G290 gives standalone `edit` caller-authorized read/write authority" "threat model bounds G290 authority";
   Require_ roadmap "- [x] **G290** — Provide a basic text editor suitable for serial consoles." "roadmap marks G290 complete";
   Require_ cp_source "const copy_core = @import(“copy_core.zig“);" "G291 cp imports the independently tested copy core";
   Require_ cp_source "pub fn read(self: *@This(), bytes: []u8) zigos.Error!usize" "G291 descriptor reader delegates through the public read ABI";
   Require_ cp_source "return zigos.read(self.fd, bytes);" "G291 descriptor reader has no private VFS path";
   Require_ cp_source "pub fn write(self: *@This(), bytes: []const u8) zigos.Error!usize" "G291 descriptor writer delegates through the public write ABI";
   Require_ cp_source "return zigos.write(self.fd, bytes);" "G291 descriptor writer has no private VFS path";
   Require_ cp_source "copy_core.copy(&reader, &writer, &bytes)" "G291 standalone cp uses the shared partial-I/O loop";
   Require_ cp_source "if (err == error.WriteZero) return printError(error.InputOutput);" "G291 maps zero write progress to bounded EIO failure";
   Require_ copy_core_source "const count = try reader.read(scratch);" "G291 core repeats caller-supplied reads";
   Require_ copy_core_source "if (count == 0) return;" "G291 core treats only zero read as EOF";
   Require_ copy_core_source "while (offset < count)" "G291 core drains every nonempty read completely";
   Require_ copy_core_source "writer.write(scratch[offset..count])" "G291 core retries the unwritten suffix after a short write";
   Require_ copy_core_source "if (written == 0) return Error.WriteZero;" "G291 core rejects zero-progress writes instead of looping";
   Require_ copy_core_source "test “copy handles repeated partial reads and writes“" "G291 has a deterministic short-read/short-write host proof";
   Require_ copy_core_source "@min(@min(output.len, 5)" "G291 host reader forces at most five bytes per read";
   Require_ copy_core_source "@min(input.len, 3)" "G291 host writer forces at most three bytes per write";
   Require_ copy_core_source "expectEqualSlices(u8, payload" "G291 host proof requires exact reconstructed bytes";
   Require_ copy_core_source "test “copy rejects a zero-progress partial write“" "G291 separately proves zero-progress failure";
   Require_ copy_core_source "expectError(Error.WriteZero" "G291 zero-progress test requires the exact bounded error";
   Require_ normal_boot_test "/bin/cp.elf /tmp/g279-source /tmp/g279-copy" "G291 retains real normal-QEMU standalone cp integration";
   Require_ readme "G291 keeps ABI 1.26" "README documents partial-I/O copy strengthening without an ABI bump";
   Require_ readme "Canonical `cp.elf` is 7,560 bytes (RX 3,248, SHA-256 `79BE16EBCFC015108535E734D3618559CECA4985FD10C8F19BA29D82F17D7734`)" "README freezes G291 cp identity";
   Require_ priority "G291 keeps ABI 1.26" "priority remediation records partial-I/O copy semantics";
   Require_ threat_model "G291 does not widen `cp` authority" "threat model bounds G291 to progress handling";
   Require_ roadmap "- [x] **G291** — Provide a file-copy utility with partial-I/O handling." "roadmap marks G291 complete";
   Require_ readme "G292 keeps ABI 1.26" "README documents the minimal dynamic-free C ABI description";
   Require_ readme "Canonical `zigos_abi.h` is 10,705 bytes" "README freezes the generated G292 header size";
   Require_ readme "SHA-256 `1CBED5B1AB64BA1316E9697E960B31056226D008D36DCDC188D49AC4AA2CD442`" "README freezes the generated G292 header identity";
   Require_ readme "Canonical `c-abi-description.elf` is 4,592 bytes (RX 285, SHA-256 `8858D7C47DEA63566864C7000E8CB688F51989EDF572C40970C11F0C66D06BC9`)" "README freezes the G292 description-only ELF identity";
   Require_ priority "G292 keeps ABI 1.26" "priority remediation records the C ABI description boundary";
   Require_ threat_model "G292's `zigos_abi.h` grants no runtime authority" "threat model bounds the header to description only";
   Require_ roadmap "- [x] **G292** — Provide a minimal dynamic-free C-compatible userspace ABI description." "roadmap marks G292 complete";
   Test (λ r, Ok (entry_differs r "capabilities" "tcp_sockets" 11)) "permanent-userspace contract missing: G300 TCP socket capability bit 11";
   Require_ runtime_abi "pub const socket_stream: u16 = 1;" "G300 runtime ABI publishes SOCK_STREAM";
   Require_ runtime_abi "pub const protocol_tcp: u16 = 6;" "G300 runtime ABI publishes TCP protocol 6";
   Require_ sdk_abi "pub const capability_tcp_sockets: u64 = @as(u64, 1) << 11;" "G300 generated Zig ABI publishes TCP capability";
   Require_ sdk_abi "pub const socket_stream: u16 = 1;" "G300 generated Zig ABI publishes SOCK_STREAM";
   Require_ sdk_abi "pub const protocol_tcp: u16 = 6;" "G300 generated Zig ABI publishes protocol TCP";
   Require_ c_header "#define ZIGOS_SOCKET_STREAM UINT16_C(1)" "G300 generated C wrapper header publishes SOCK_STREAM";
   Require_ c_header "#define ZIGOS_PROTOCOL_TCP UINT16_C(6)" "G300 generated C wrapper header publishes protocol TCP";
   Require_ c_header "#define ZIGOS_CAP_TCP_SOCKETS (UINT64_C(1) << 11)" "G300 generated C wrapper header publishes TCP capability";
   Require_ c_abi_header "#define ZIGOS_SOCKET_STREAM UINT16_C(1)" "G300 minimal C ABI header publishes SOCK_STREAM";
   Require_ c_abi_header "#define ZIGOS_PROTOCOL_TCP UINT16_C(6)" "G300 minimal C ABI header publishes protocol TCP";
   Require_ sdk_source "pub fn tcpSocket() Error!u16" "G300 Zig SDK exposes a typed TCP socket constructor";
   Require_ sdk_source "abi.socket_stream, abi.protocol_tcp" "G300 Zig TCP constructor routes through generated type/protocol constants";
   Require_ c_library "int64_t zigos_socket(uint16_t domain, uint16_t type, uint16_t protocol)" "G300 C SDK exposes generic socket creation";
   Require_ c_library "int64_t zigos_connect(uint16_t fd, const zigos_ipv4_socket_address *address)" "G300 C SDK exposes connect";
   Require_ c_conformance "ZIGOS_CAP_UDP_SOCKETS | ZIGOS_CAP_TCP_SOCKETS" "G300 C ABI discovery requires paired UDP/TCP capabilities when sockets exist";
   Require_ c_conformance "abi.maximum_sockets == 0 && network_caps != 0" "G300 C ABI discovery rejects network capabilities without a NIC/socket capacity";
   Require_ fd_source "tcp_socket," "G300 descriptor layer gives TCP a distinct resource kind";
   Require_ fd_source "kind == .udp_socket or kind == .tcp_socket" "G300 per-process socket quota counts UDP and TCP together";
   Require_ fd_source ".udp_socket, .tcp_socket =>" "G300 descriptor operations preserve protocol-specific external-resource semantics";
   Require_ executor "frame.rsi == runtime_abi.socket_stream" "G300 socket syscall accepts stream sockets";
   Require_ executor "frame.rdx == 0 or frame.rdx == runtime_abi.protocol_tcp" "G300 socket syscall validates TCP protocol selection";
   Require_ executor "syscall.syscall_connect => return syscallConnect(context, frame, fx_state)" "G300 connect may block through the retained userspace scheduler";
   Require_ executor "tcp_connection.beginActiveOpenAt" "G300 connect starts the bounded existing TCP active-open state machine";
   Require_ executor "activeProcesses().block(context.handle, .socket_write" "G300 blocking connect sleeps on the existing socket-write wait class";
   Require_ executor "tcp_connection.handleSegment(&connection.control" "G300 service path validates matching TCP control segments through the existing state machine";
   Require_ executor "!std.mem.eql(u8, &connection.peer_mac, &segment.source_mac)" "G300 active-open demux requires the stored peer MAC as well as peer IP/ports";
   Require_ executor "tcp_connection.onTimer(&connection.control, tick)" "G300 service path applies capped SYN retransmission/timeout";
   Require_ executor "e1000e.sendTcpSegment" "G300 TCP control traffic uses the retained e1000e transmit path";
   Require_ executor "capability_udp_sockets | syscall.capability_tcp_sockets" "G300 advertises TCP only with the retained NIC";
   Require_ readme "G300 deliberately rejects TCP application `send`/`recv` with `ENOSYS`" "README retains the historical G300 payload boundary";
   Require_ socket_conformance "ZIGOS_CAP_TCP_SOCKETS" "G300 CPL3 fixture requires advertised TCP capability";
   Require_ socket_conformance "mov esi, 1                  ; SOCK_STREAM" "G300 CPL3 fixture creates a stream socket";
   Require_ socket_conformance "mov edx, 6                  ; TCP" "G300 CPL3 fixture selects protocol TCP";
   Require_ socket_conformance "network-order port 39001" "G300 CPL3 fixture targets the host-side active-open listener";
   Require_ readme "G300 deliberately rejects TCP application `send`/`recv` with `ENOSYS`" "README records that G300 predated TCP application send";
   Require_ runtime_test "[System.Net.IPAddress]::Loopback, 39001" "G300 host fixture binds TCP proof on loopback only";
   Require_ runtime_test "BeginAcceptTcpClient" "G300 host fixture starts a real TCP accept before QEMU";
   Require_ runtime_test "EndAcceptTcpClient" "G300 host fixture requires a real accepted guest connection";
   Require_ runtime_test "The G305 active TCP fixture did not reach the loopback host listener." "G305 live test fails closed if active-open does not reach the loopback host";
   Require_ runtime_test "socket-api: UDP partial-send + TCP connect/listen/accept/shutdown + sockopt + txwake passed" "current live QEMU retains G301 passive listen while extending the combined proof with G302 accept";
   Require_ sdk_source "pub fn listen(fd: u16, backlog: u16)" "G301 Zig SDK exposes the bounded listen syscall";
   Require_ c_header "int64_t zigos_listen(uint16_t fd, uint16_t backlog);" "G301 C SDK exposes the bounded listen syscall";
   Require_ executor "fn syscallListen(context: *Context, frame: *interrupt_context.Frame) u64" "G301 kernel dispatcher implements bounded passive listen";
   Require_ executor "const maximum_tcp_backlog: usize = 4;" "G301 caps the passive TCP backlog at four";
   Require_ executor "slot.listener = .{ .local_port = slot.tcp_bound_port, .backlog = @intCast(backlog) };" "G301 listen stores only bounded state on a bound TCP socket";
   Require_ executor "fn serviceTcpListenerSegment" "G301 network service owns passive handshake dispatch";
   Require_ executor "tcp_connection.beginPassiveOpenAt" "G301 listener delegates SYN handling to the shared TCP state machine";
   Require_ executor "if (tcpListenerReady(listener))" "G301 wakes listener readers only after a pending handshake is established";
   Require_ tcp_connection_source "syn_received" "G301 TCP control state includes passive SYN-received";
   Require_ tcp_connection_source "pub fn beginPassiveOpenAt" "G301 TCP state machine exposes bounded passive open";
   Require_ tcp_connection_source "test “passive open completes SYN SYN-ACK ACK and replays duplicate SYN“" "G301 permanently tests SYN/SYN-ACK/ACK and duplicate-SYN replay";
   Require_ tcp_connection_source "test “passive SYN-ACK retransmission is bounded“" "G301 permanently tests passive retransmission timeout";
   Require_ socket_conformance "SYS_LISTEN" "G301 CPL3 fixture invokes generated listen syscall 130";
   Require_ socket_conformance "network-order port 39002" "G301 CPL3 listener binds the dedicated inbound port";
   Require_ socket_conformance "bounded backlog one for live proof" "G301 CPL3 proof uses an explicit bounded backlog";
   Require_ socket_conformance "cmp rax, ERRNO_NOT_CONNECTED" "G301 proves listener has no peer before G302 accept";
   Require_ runtime_test "hostfwd=tcp:127.0.0.1:39002-10.0.2.15:39002" "G301 inbound QEMU forwarding is loopback-only on the host";
   Require_ runtime_test "socket-api: start" "G301 harness waits for the launched CPL3 socket fixture before opening hostfwd traffic";
   Require_ runtime_test "ConnectAsync('127.0.0.1', 39002)" "G301 harness performs a real host-to-guest TCP connect";
   Require_ runtime_test "socket-api: UDP partial-send + TCP connect/listen/accept/shutdown + sockopt + txwake passed" "current harness requires the completed G301/G302 passive-listen/accept proof";
   Require_ runtime_test "if ($serialBytes)" "G301 live harness retains serial evidence on early failure";
   Require_ readme "G301 advances the public ABI to 1.28" "README documents G301 bounded passive listen";
   Require_ readme "backlog 1 through 4" "README documents the fixed G301 backlog bound";
   Require_ readme "`getpeername(listener)` returns `ENOTCONN`" "README preserves accept as the G302 boundary";
   Require_ readme "`zigos_abi.h` 11,210 bytes" "README freezes the current G301 ABI header size";
   Require_ readme "CAAB33E92745638A29B3D48346D795892127C1377F2EE053D9E0A55A7F38C09B" "README freezes the current G301 ABI header identity";
   Require_ readme "`c-sdk.elf` 18,520 bytes (RX 14,208" "README freezes the current G301 C SDK size";
   Require_ readme "4139DB60F59B22314C645DB9C30EC4366F3EEF316C6FB477A40C861CDCC141FF" "README freezes the current G301 C SDK identity";
   Require_ readme "B3BF7F58E794FA289DC134876917E7EB4717EF1D03E71F9EBF071D78D8AC305B" "README freezes the G301 socket-fixture identity";
   Require_ priority "G301 advances ABI to 1.28" "priority remediation records G301 passive-listen scope"].

Definition part_21 : list statement := [
   Require_ threat_model "G301 adds bounded inbound IPv4 TCP **listen/passive-open** authority" "threat model records G301 inbound authority";
   Require_ threat_model "exposes no `accept` operation" "threat model preserves G302 as a separate authority boundary";
   Require_ roadmap "- [x] **G301** — Expose listen for passive TCP sockets." "roadmap marks G301 complete";
   Require_ sdk_source "pub fn accept(fd: u16, address: ?*Ipv4SocketAddress) Error!u16" "G302 Zig SDK exposes accept with optional peer output";
   Require_ c_header "int64_t zigos_accept(uint16_t fd, zigos_ipv4_socket_address *address);" "G302 C SDK exposes accept";
   Require_ c_library "int64_t zigos_accept(uint16_t fd, zigos_ipv4_socket_address *address)" "G302 C implementation invokes generated accept syscall";
   Require_ executor "syscall.syscall_accept => return syscallAccept(context, frame, fx_state)" "G302 dispatcher routes accept through the blocking-capable path";
   Require_ executor "fn syscallAccept(" "G302 kernel implements accept";
   Require_ executor "const copy_peer = frame.rsi != 0 or frame.rdx != 0;" "G302 validates optional peer output before queue mutation";
   Require_ executor "const pending_index = tcpListenerEstablishedIndex(listener) orelse" "G302 accepts only an established pending handshake";
   Require_ executor "if (slot.nonblocking)" "G302 nonblocking accept returns without sleeping";
   Require_ executor "activeProcesses().block(context.handle, .socket_read" "G302 blocking accept sleeps on the listener socket-read wait key";
   Require_ executor "const accepted_index = findFreeSocketSlot() orelse" "G302 reserves a bounded socket slot without consuming the pending entry";
   Require_ executor ".status = .established" "G302 transfers the established TCP control block into the accepted slot";
   Require_ executor "const accepted_fd = activeDescriptors().createExternalDescriptor" "G302 creates a quota-accounted generation-safe accepted TCP descriptor";
   Require_ executor "activeDescriptors().close(activeVfs(), activeProcesses(), context.handle, accepted_fd) catch {};" "G302 rolls back the provisional descriptor on peer-copy failure";
   Require_ executor "listener.pending[pending_index] = .{};" "G302 consumes the pending queue entry only after descriptor completion";
   Require_ socket_conformance "SYS_ACCEPT" "G302 CPL3 fixture invokes generated accept syscall 131";
   Require_ socket_conformance "slirp host appears as 10.0.2.2" "G302 fixture validates the accepted peer address";
   Require_ socket_conformance "accepted socket retains listener port 39002" "G302 fixture validates accepted local endpoint inheritance";
   Require_ socket_conformance "accepted control block is established/writable" "G302 fixture requires accepted descriptor poll writability";
   Require_ readme "At G302, accepted TCP application `send`/`recv` was still unsupported" "README preserves the historical G302 payload boundary";
   Require_ socket_conformance "Consuming the single backlog entry removes listener readability" "G302 fixture proves exact backlog consumption";
   Require_ runtime_test "socket-api: UDP partial-send + TCP connect/listen/accept/shutdown + sockopt + txwake passed" "G302 live harness requires the complete accept proof";
   Require_ readme "G302 advances the public ABI to 1.29" "README documents G302 accept";
   Require_ readme "Descriptor-allocation failure leaves the pending entry untouched" "README documents G302 allocation failure atomicity";
   Require_ readme "peer-copy failure closes the provisional descriptor" "README documents G302 peer-copy rollback";
   Require_ readme "`zigos_abi.h` 11,249 bytes" "README freezes the current G302 ABI header size";
   Require_ readme "3B85F516967DD929C2CCE1E4A54B0AA2BF5C9E46AEC18274BBA8E046398FF4C2" "README freezes the current G302 ABI header identity";
   Require_ readme "`c-sdk.elf` 18,584 bytes (RX 14,272" "README freezes the current G302 C SDK size";
   Require_ readme "05EB563EF3CE3552742D54D9DFBA32E41EFF5EF6DF242069246E25E2314E3909" "README freezes the current G302 C SDK identity";
   Require_ readme "7BD51E76E22DCF8AB514EA2123EC7197126A0B62E763CBAB1EAEDF65D7EA8B6B" "README freezes the current G302 socket-fixture identity";
   Require_ priority "G302 advances ABI to 1.29" "priority remediation records G302 accept scope";
   Require_ threat_model "G302 promotes one established passive handshake" "threat model records G302 descriptor authority";
   Require_ roadmap "- [x] **G302** — Expose accept for incoming TCP connections." "roadmap marks G302 complete";
   Require_ executor "const send_length = @min(length, maximum_io_bytes);" "G303 bounds both UDP send frontends to the public 1024-byte ABI copy window";
   Require_ executor "if (!validateRange(context, frame.rsi, send_length, false))" "G303 validates only the prefix it can report as transmitted";
   Require_ executor "bytes[0..send_length]" "G303 copies and submits only the returned prefix";
   Require_ executor "frame.rax = send_length;" "G303 returns the positive short count instead of rejecting an oversized request";
   Require_ socket_conformance "%define PARTIAL_REQUEST_LENGTH 1476" "G303 CPL3 fixture requests one full Ethernet-sized UDP payload";
   Require_ socket_conformance "%define PARTIAL_EXPECTED_LENGTH 1024" "G303 CPL3 fixture freezes the public short-send ceiling";
   Require_ socket_conformance "Only the returned 1024-byte prefix is mapped" "G303 CPL3 connected-send proof leaves the unsent suffix outside mapped user memory";
   Require_ socket_conformance "network-order port 39003" "G303 CPL3 proof targets the dedicated host-loopback UDP fixture";
   Require_ runtime_test "[System.Net.IPAddress]::Loopback, 39003" "G303 host UDP listener is loopback-only";
   Require_ runtime_test "$sendToBytes.Length -ne 1024" "G303 host requires the sendto datagram to be exactly the returned short count";
   Require_ runtime_test "$sendBytes.Length -ne 1024" "G303 host requires the connected-send datagram to be exactly the returned short count";
   Require_ runtime_test "G303 UDP partial send/sendto host proof passed:" "G303 hosted logs expose direct byte-proof completion";
   Require_ runtime_test "socket-api: UDP partial-send + TCP connect/listen/accept/shutdown + sockopt + txwake passed" "G303 live harness combines UDP short sends with the retained TCP connect/listen/accept proof";
   Require_ readme "G303 advances the public ABI to 1.30" "README documents G303 bounded partial-send semantics";
   Require_ readme "ZigOs-specific bounded UDP short-return contract" "README explicitly avoids claiming POSIX UDP datagram atomicity";
   Require_ readme "13253800737F65ED354FED06A38590377FBF317057DABAE4CBB9D12E4A20C8B2" "README freezes the current G303 ABI header identity";
   Require_ readme "F3C905137A773450EF6F0B8B7F3F9DD9915629F67A5DCC3AB62FFAB271C8E548" "README freezes the current G303 C ABI probe identity";
   Require_ readme "4248930FC2B4C0A00C92BAF4D5D00097926AAC7CCF7EB13E2BF2032F7594AFB2" "README freezes the current G303 C SDK identity";
   Require_ readme "45C7B44DE3DB434BFB5DE449E7B7A223B80B4803973F9F243D029EC1FAF8D74F" "README freezes the current G303 Zig SDK identity";
   Require_ readme "A1A8F751392A90F6892FBE1BC39DB31B745835FFE007A637900ECB375BCEA118" "README freezes the G303 socket fixture identity";
   Require_ priority "G303 advances ABI to 1.30" "priority remediation records G303 short-send scope";
   Require_ threat_model "G303 changes UDP `send`/`sendto` authority" "threat model records the bounded G303 egress change";
   Require_ roadmap "- [x] **G303** — Expose send and sendto with partial-send semantics." "roadmap marks G303 complete";
   Require_ sdk_abi "pub const socket_shutdown_read: u64 = 0;" "G305 Zig ABI publishes SHUT_RD mode";
   Require_ sdk_abi "pub const socket_shutdown_write: u64 = 1;" "G305 Zig ABI publishes SHUT_WR mode";
   Require_ sdk_abi "pub const socket_shutdown_both: u64 = 2;" "G305 Zig ABI publishes SHUT_RDWR mode";
   Require_ sdk_abi "pub const syscall_socket_shutdown: u64 = 132;" "G305 allocates socket shutdown syscall 132";
   Require_ c_header "#define ZIGOS_SYS_SOCKET_SHUTDOWN UINT64_C(132)" "G305 generated C header publishes socket shutdown 132";
   Require_ c_header "int64_t zigos_socket_shutdown(uint16_t fd, uint64_t how);" "G305 C SDK declares socket shutdown without colliding with OS shutdown";
   Require_ c_library "int64_t zigos_socket_shutdown(uint16_t fd, uint64_t how)" "G305 C SDK invokes socket shutdown";
   Require_ sdk_source "pub const SocketShutdown = enum(u64)" "G305 Zig SDK exposes typed shutdown modes";
   Require_ sdk_source "pub fn shutdownSocket(fd: u16, how: SocketShutdown) Error!void" "G305 Zig SDK exposes socket-specific half-close";
   Require_ executor "syscall.syscall_socket_shutdown => return syscallSocketShutdown(context, frame)" "G305 dispatcher routes socket shutdown separately from OS shutdown";
   Require_ executor "fn syscallShutdown(" "existing syscall 93 OS shutdown remains implemented";
   Require_ executor "fn syscallSocketShutdown(" "G305 kernel implements socket half-close";
   Require_ executor "if (slot.protocol != .tcp)" "G305 rejects UDP rather than borrowing TCP shutdown semantics";
   Require_ executor "if (slot.listener != null)" "G305 rejects listener half-close as unconnected";
   Require_ executor "if (connection.status != .established)" "G305 requires an established application TCP descriptor";
   Require_ executor "const previous_control = connection.control;" "G305 snapshots TCP control state before FIN emission";
   Require_ executor "const transition = tcp_connection.beginClose(&connection.control);" "G305 reuses the bounded FIN state-machine constructor";
   Require_ executor "connection.control = previous_control;" "G305 rolls TCP state back if FIN transmission fails";
   Require_ executor "connection.write_shutdown = true;" "G305 latches SHUT_WR only after successful FIN output";
   Require_ executor "if (shutdown_read) connection.read_shutdown = true;" "G305 read-half shutdown is a local latch";
   Require_ executor ".established => if (connection.write_shutdown or !tcp_connection.applicationSendReady(&connection.control)) 0 else runtime_abi.poll_writable" "G305 SHUT_WR and G313 outstanding/window state both remove writable poll readiness";
   Require_ socket_conformance "G305 read-half shutdown is local and idempotent" "G305 accepted-socket fixture proves SHUT_RD idempotence";
   Require_ socket_conformance "Invalid shutdown mode is failure-atomic" "G305 fixture proves invalid mode leaves the socket writable";
   Require_ socket_conformance "G305 write-half shutdown emits one FIN and is idempotent" "G305 active socket fixture proves one-FIN SHUT_WR semantics";
   Require_ socket_conformance "SYS_GETPEERNAME" "G305 fixture retains peer identity after half-close";
   Require_ socket_conformance ".fail_udp_shutdown" "G305 fixture requires UDP shutdown rejection";
   Require_ runtime_test "G305 TCP shutdown host proof passed: guest SHUT_WR delivered FIN/EOF to the loopback host peer." "G305 host proves the FIN crossed QEMU slirp as EOF";
   Require_ runtime_test "socket-api: UDP partial-send + TCP connect/listen/accept/shutdown + sockopt + txwake passed" "G305 live harness combines half-close with all prior socket proofs";
   Require_ readme "G305 advances the public ABI to 1.31" "README documents G305 socket half-close";
   Require_ readme "rather than reusing syscall 93" "README preserves the privileged OS-shutdown syscall namespace";
   Require_ readme "G313 later adds bounded send, while G314 and G321/G322 retain receive and graceful-close progression" "README currentizes the G305 forward boundary after G313";
   Require_ readme "D8B10EB677378AA0428697590A42DFA1C9AD4665FEDACBF1FF12CC2A475A613D" "README freezes the G305 ABI header identity";
   Require_ readme "EE6AD38A78CB962FF8C8124FF6C51F9FC02FEC56207D428F7D0A70C27DBECEB2" "README freezes the G305 C ABI probe identity";
   Require_ readme "6C36AF284114FB00953EE9A8769B4876DF1B2E2CA471F6767B5DF6BB2DC4782E" "README freezes the G305 C SDK identity";
   Require_ readme "CF97BF445DAC13CD52911AEE183FE09D6077CE35496E34DE3E07B3DC7A9411AF" "README freezes the G305 Zig SDK identity";
   Require_ readme "FB60188A3347BFA1C0468A201AB009AE28946E8BB450DCF5F594A6D9E690EE15" "README freezes the G305 socket fixture identity";
   Require_ priority "G305 advances ABI to 1.31" "priority remediation records G305 half-close scope";
   Require_ threat_model "G305 adds bounded TCP half-close authority" "threat model records G305 FIN authority";
   Require_ roadmap "- [x] **G305** — Expose shutdown for half-closing TCP connections." "roadmap marks G305 complete";
   Require_ c_header "ZIGOS_SYS_GETSOCKOPT UINT64_C(133)" "G307 C ABI publishes getsockopt syscall 133";
   Require_ c_header "ZIGOS_SYS_SETSOCKOPT UINT64_C(134)" "G307 C ABI publishes setsockopt syscall 134";
   Require_ c_header "ZIGOS_SOL_SOCKET UINT64_C(1)" "G307 C ABI publishes the bounded socket option level";
   Require_ c_header "ZIGOS_SO_NONBLOCKING UINT64_C(1)" "G307 C ABI publishes mutable NONBLOCKING option";
   Require_ c_header "ZIGOS_SO_ACCEPTCONN UINT64_C(4)" "G307 C ABI publishes listener introspection";
   Require_ c_header "ZIGOS_ERRNO_PROTOCOL_OPTION INT64_C(-92)" "G307 C ABI publishes explicit unsupported-option errno";
   Require_ c_library "int64_t zigos_getsockopt(uint16_t fd, uint64_t level, uint64_t option)" "G307 C SDK invokes scalar getsockopt";
   Require_ c_library "int64_t zigos_setsockopt(uint16_t fd, uint64_t level, uint64_t option, uint64_t value)" "G307 C SDK invokes scalar setsockopt";
   Require_ sdk_source "pub const SocketOption = enum(u64)" "G307 Zig SDK exposes typed socket options";
   Require_ sdk_source "pub fn getSocketOption(fd: u16, level: SocketOptionLevel, option: SocketOption) Error!u64" "G307 Zig SDK exposes scalar option get";
   Require_ sdk_source "pub fn setSocketOption(fd: u16, level: SocketOptionLevel, option: SocketOption, value: u64) Error!void" "G307 Zig SDK exposes scalar option set";
   Require_ executor "syscall.syscall_getsockopt => return syscallGetSocketOption(context, frame)" "G307 dispatcher routes option reads";
   Require_ executor "syscall.syscall_setsockopt => return syscallSetSocketOption(context, frame)" "G307 dispatcher routes option writes";
   Require_ executor "fn syscallGetSocketOption(" "G307 kernel implements option reads";
   Require_ executor "fn syscallSetSocketOption(" "G307 kernel implements option writes";
   Require_ executor "slot.nonblocking = frame.r10 != 0;" "G307 generic NONBLOCKING setter shares the existing slot state";
   Require_ executor "syscall.socket_option_acceptconn => @intFromBool(slot.protocol == .tcp and slot.listener != null)" "G307 derives listener state instead of storing duplicate option state";
   Require_ socket_conformance "G307 generic socket options expose immutable type/protocol/listener state" "G307 CPL3 fixture exercises the new option namespace";
   Require_ socket_conformance "SYS_GETSOCKOPT" "G307 CPL3 fixture performs option reads";
   Require_ socket_conformance "SYS_SETSOCKOPT" "G307 CPL3 fixture performs option writes";
   Require_ socket_conformance "ERRNO_PROTOCOL_OPTION" "G307 CPL3 fixture proves unsupported/read-only failures";
   Require_ runtime_test "G307 socket option guest proof passed: type/protocol/acceptconn introspection and NONBLOCK set/get coherence completed." "G307 live log exposes direct option proof completion";
   Require_ runtime_test "socket-api: UDP partial-send + TCP connect/listen/accept/shutdown + sockopt + txwake passed" "G307 live harness combines socket options with prior network proofs";
   Require_ readme "G307 advances the public ABI to 1.32" "README documents G307 socket options";
   Require_ readme "G320 retains keepalive and G314-G319 retain the remaining TCP receive/reliability policy" "README does not overclaim post-G313 socket policies";
   Require_ readme "88599160CF9E3FA83641347FCFD793A6EA65678A34DAF34329B4F0B49459836B" "README freezes the G307 ABI header identity";
   Require_ readme "1E8B384041A8D3EB8C00F370B6E4A1AF186DCB326C0B51821B35C504E31002C0" "README freezes the G307 C ABI probe identity";
   Require_ readme "42C30ABF2133F62BCA1FDCBC19C67F0690EB61238EE1CE9EBC114EC0C4EB9296" "README freezes the G307 C SDK identity";
   Require_ readme "039CE363C008653D05B8082B8BAA344216C047EE857D8C11267E57CB40F2B766" "README freezes the G307 Zig SDK identity";
   Require_ readme "C697155A102F0ADFCCC0D0E4913E53104E7B8002F42E7EEA90FD9A257C204388" "README freezes the G307 socket fixture identity";
   Require_ priority "G307 advances ABI to 1.32" "priority remediation records G307 option scope";
   Require_ threat_model "G307 adds only bounded socket-policy observation" "threat model records G307 authority boundary";
   Require_ roadmap "- [x] **G307** — Expose socket option get/set operations." "roadmap marks G307 complete";
   Require_ e1000e_source "pub fn runtimeTransmitWritable(device: *const Device) bool" "G310 driver exposes the one-inflight writable predicate";
   Require_ e1000e_source "return @atomicLoad(u32, &tx_pending_mask, .acquire) == 0;" "G310 writable state is the actual retained TX pending mask";
   Require_ e1000e_source "pub fn serviceRuntimeTransmitCompletions(device: *Device) u8" "G310 services runtime TX completion without a blocking wait";
   Require_ e1000e_source "(descriptors[descriptor_index].status & 1) == 0" "G310 capacity is released only after descriptor DD writeback";
   Require_ e1000e_source "completePendingDescriptor(&tx_pending_mask, &tx_completion_queue, descriptor_index);" "G310 retires the descriptor through the existing completion path";
   Require_ e1000e_source "pub fn runtimeTransmitCompletionCount() u64" "G310 exposes cumulative completion observation";
   Require_ e1000e_source "pub fn submitRuntimeFrame(device: *Device, frame: []const u8) ?TxCompletion" "G310 has a non-waiting runtime frame handoff"].

Definition part_22 : list statement := [
   Require_ runtime_submit "armTxDescriptor(descriptor_index)" "G310 runtime handoff owns a real descriptor";
   Require_ runtime_submit "write32(device.bar0, tdt_offset, next_cursor)" "G310 runtime handoff advances hardware TDT";
   Forbid runtime_submit "waitForTx(" "G310 runtime handoff must not synchronously wait for DMA completion";
   Require_ e1000e_source "if (!waitForRuntimeTransmitCapacity(device)) return null;" "G310 synchronous control transmit drains asynchronous capacity before shared-buffer reuse";
   Require_ e1000e_source "return submitRuntimeFrame(device, frame[0..frame_length]);" "G310 UDP runtime packet construction uses asynchronous handoff";
   Require_ executor "fn blockSocketWriter(" "G310 implements bounded UDP writer blocking";
   Require_ executor "e1000e.runtimeTransmitWritable(device)" "G310 gates UDP writes and poll readiness on real TX capacity";
   Require_ executor "slot.nonblocking or (flags & runtime_abi.message_dontwait) != 0" "G310 nonblocking transmit returns before sleeping";
   Require_ executor "activeProcesses().block(context.handle, .socket_write, socketWaitKey(resource.index, resource.generation))" "G310 blocking transmit sleeps on a generation-tagged socket writer key";
   Require_ executor "socket_tx_observed_completions" "G310 retains the last observed cumulative TX completion count";
   Require_ executor "const tx_completion_delta = tx_completions -% socket_tx_observed_completions;" "G310 observes cumulative completions across service passes";
   Require_ executor "socket_tx_observed_completions = tx_completions;" "G310 advances cumulative completion observation after each network service pass";
   Require_ executor "wakeMatching(.socket_write, socketWaitKey(@intCast(index), slot.generation), true)" "G310 completion wakes only generation-matching socket writers";
   Require_ executor "if (e1000e.runtimeTransmitWritable(device)) ready |= runtime_abi.poll_writable;" "G310 UDP poll writability shares the actual TX capacity predicate";
   Require_ runtime "userspace_report.socket_tx_handoffs == 7" "G310 live clean gate freezes exactly seven accepted runtime UDP handoffs";
   Require_ runtime "userspace_report.socket_tx_waits == 1" "G310 live clean gate freezes one blocking writer wait";
   Require_ runtime "userspace_report.socket_tx_would_block == 1" "G310 live clean gate freezes one explicit nonblocking backpressure result";
   Require_ runtime "userspace_report.socket_tx_completions == 7" "G310 live clean gate conserves all accepted runtime TX completions";
   Require_ runtime "userspace_report.socket_tx_wakeups == 1" "G310 live clean gate freezes one completion-driven writer wake";
   Require_ runtime "userspace_report.socket_tx_pending_mask == 0" "G310 shutdown forbids an outstanding userspace TX descriptor";
   Require_ executor ".socket_tx_handoffs = socket_tx_handoffs" "G310 publishes TX handoff accounting";
   Require_ executor ".socket_tx_completions = if (e1000e.activeDevice() != null) e1000e.runtimeTransmitCompletionCount() else 0" "G310 reports authoritative driver completion accounting";
   Require_ socket_conformance "G310 reuses the G303 UDP socket" "G310 CPL3 fixture exercises transmit backpressure";
   Require_ socket_conformance "0x5C98" "G310 fixture uses dedicated loopback host port 39004";
   Require_ socket_conformance "cmp rax, ERRNO_WOULD_BLOCK" "G310 fixture requires explicit nonblocking backpressure";
   Require_ socket_conformance "SYS_POLL" "G310 fixture checks writable readiness while capacity is occupied";
   Require_ socket_conformance "SYS_TICKS" "G310 fixture proves the blocking retry crosses a later runtime-service tick";
   Require_ socket_conformance "ZIGOS_MSG_DONTWAIT" "G310 CPL3 fixture exercises nonblocking transmit rejection";
   Require_ runtime_test "G310 TX capacity guest/host proof passed: DONTWAIT transmitted nothing and the blocked writer resumed after real descriptor completion." "G310 host harness proves rejection and wakeup";
   Require_ runtime_test "udpTxWakeFixture" "G310 host harness owns a dedicated loopback UDP receiver";
   Require_ runtime_test "$udpTxWakeFixture.Available -ne 0" "G310 host harness rejects any third datagram from the DONTWAIT attempt";
   Require_ runtime_test "socket-tx handoffs/waits/would-block/completions/wakeups/pending 7/1/1/7/1/0" "G310 live harness freezes exact TX accounting";
   Require_ runtime_test "socket-tx handoffs/waits/would-block/completions/wakeups/pending 0/0/0/0/0/0" "G310 offline harness freezes zero TX accounting";
   Require_ readme "G310 keeps ABI 1.32 and makes UDP write readiness" "README documents G310 TX backpressure";
   Require_ readme "7/1/1/7/1/0" "README freezes G310 transmit accounting";
   Require_ readme "CB583788132D0A0AB8DB906F7D893926D8C8D012836C4138FFAB919C1DA15721" "README freezes the G310 socket fixture identity";
   Require_ readme "20207BB51EFB11D50CA40DE7798100920B83EC82ABD91A36B244A6D5A0CAB188" "README freezes the G310 diagnostic EFI identity";
   Require_ readme "88599160CF9E3FA83641347FCFD793A6EA65678A34DAF34329B4F0B49459836B" "README keeps the ABI-1.32 generated header identity through G310";
   Require_ readme "1E8B384041A8D3EB8C00F370B6E4A1AF186DCB326C0B51821B35C504E31002C0" "README keeps the ABI-1.32 C ABI probe identity through G310";
   Require_ readme "42C30ABF2133F62BCA1FDCBC19C67F0690EB61238EE1CE9EBC114EC0C4EB9296" "README keeps the ABI-1.32 C SDK identity through G310";
   Require_ readme "039CE363C008653D05B8082B8BAA344216C047EE857D8C11267E57CB40F2B766" "README keeps the ABI-1.32 Zig SDK identity through G310";
   Require_ priority "G310 keeps ABI 1.32 and closes the socket-writer scheduling gap" "priority remediation records G310 scheduling scope";
   Require_ threat_model "G310 does not widen destination or packet authority" "threat model records G310 authority boundary";
   Require_ roadmap "- [x] **G310** — Wake blocked writers when transmit capacity becomes available." "roadmap marks G310 complete";
   Require_ executor "if (connection.status != .established) continue;" "G312 retains established TCP sockets in the live ingress demultiplexer";
   Require_ executor "connection.control.state != .established or (segment.flags & tcp.flag_syn) != 0" "G312 rejects non-established/SYN traffic from the retained established-service path";
   Require_ executor "segment.payload.len != 0 or (segment.flags & tcp.flag_fin) != 0" "G312 recognizes payload/FIN without feeding them into later data/close semantics";
   Require_ executor "connection.deferred_ingress_seen = true;" "G312 latches at most one deferred-ingress event per retained socket";
   Require_ executor "tcp_deferred_ingress_events +|= 1;" "G312 counts the first matched deferred-ingress event";
   Require_ executor ".payload_length = 0" "G312 only feeds zero-payload control traffic to the TCP state machine";
   Require_ executor "transition.state == .reset" "G312 maps an accepted established reset into existing socket failure readiness";
   Require_ runtime "userspace_report.tcp_deferred_ingress_events == 1" "G312 live clean gate freezes exactly one deferred ingress event";
   Require_ runtime "state.config.network_ready or userspace_report.tcp_deferred_ingress_events == 0" "G312 offline clean gate forbids deferred ingress";
   Require_ executor ".tcp_deferred_ingress_events = tcp_deferred_ingress_events" "G312 publishes deferred-ingress accounting";
   Require_ tcp_connection_source "const retained_ack = handleSegment(&control" "G312 extends the existing passive-open test through a retained established ACK";
   Require_ tcp_connection_source "31_000" "G312 test freezes a post-establishment peer-window update";
   Require_ tcp_connection_source "const wrong_reset = handleSegment(&control" "G312 test rejects a wrong-sequence established reset";
   Require_ tcp_connection_source "ActionKind.connection_reset" "G312 test accepts the exact established reset";
   Require_ socket_conformance "mov r14d, 50000" "G312 keeps the inherited G301 poll-readiness proof bounded on fast virtual clocks";
   Require_ socket_conformance "first G303 sendto below" "G312 fixture reuses required G303 traffic as the post-accept synchronization signal";
   Require_ runtime_test "CPL3 stdout is buffered in the diagnostic profile" "G312 host harness never waits on buffered mid-execution userspace text";
   Require_ runtime_test "G303/G312 post-accept sendto datagram" "G312 host waits for the exact required G303 datagram before injecting TCP payload";
   Require_ socket_conformance "mov eax, SYS_ACCEPT" "G312 uses the existing blocking accept path as a host-to-guest synchronization barrier";
   Require_ socket_conformance "xor esi, esi" "G312 synchronization accept intentionally requests no peer copy";
   Require_ runtime_test "G312DATA" "G312 host sends an exact deterministic established payload";
   Require_ runtime_test "Start-Sleep -Milliseconds 100" "G312 host orders payload ingress before the synchronization handshake";
   Require_ runtime_test "$tcpPassiveSyncClient.ConnectAsync('127.0.0.1', 39002)" "G312 host opens the second loopback handshake that releases blocking accept";
   Require_ runtime_test "tcp-deferred-ingress 1" "G312 live harness freezes exactly one deferred-ingress event";
   Require_ runtime_test "tcp-deferred-ingress 0" "G312 offline harness freezes zero deferred ingress";
   Require_ runtime_test "G312 retained TCP control-block proof passed: the already-required first G303 sendto acted as a non-buffered post-accept signal" "G312 live host harness freezes synchronized retained-ingress behavior";
   Require_ readme "G312 keeps ABI 1.32 and retains established TCP control blocks" "README documents G312 retained-control scope";
   Require_ readme "A0C235F34AB62E81083CAC26A2A7783D4BF45BC1331FE6686765E893A80B757F" "README freezes the G312 socket fixture identity";
   Require_ readme "646D6602CCF7A07E3BFF0E53F4A2ADE7F05666EBEDD2A60B206A5848EB4D5974" "README freezes the G312 diagnostic EFI identity";
   Require_ priority "G312 keeps ABI 1.32 and closes the post-handshake TCP control-block lifetime/routing gap" "priority remediation records G312 control-block lifetime scope";
   Require_ threat_model "G312 does not grant new TCP peer, payload-delivery or close authority" "threat model records the G312 authority boundary";
   Require_ roadmap "- [x] **G312** — Maintain long-lived TCP control blocks after boot validation." "roadmap marks G312 complete";
   Require_ tcp_connection_source "pub fn applicationSendReady" "G313 exposes one-in-flight application send readiness from TCP sequence/window state";
   Require_ tcp_connection_source "pub fn beginApplicationSend" "G313 advances the established send sequence through the TCP control block";
   Require_ tcp_connection_source "tcp.flag_psh | tcp.flag_ack" "G313 application data is emitted as PSH|ACK";
   Require_ tcp_connection_source "control.bytes_sent +|= payload_length" "G313 records accepted application bytes without a new test declaration";
   Require_ executor "if (slot.protocol == .tcp)" "G313 routes existing send syscall through a TCP-specific established path";
   Require_ executor "@min(length, maximum_io_bytes, @as(usize, connection.control.send_window))" "G313 short return is bounded by request, ABI copy window and peer window";
   Require_ executor "const previous_control = connection.control" "G313 snapshots sequence state before NIC submission";
   Require_ executor "connection.control = previous_control" "G313 restores sequence state if TCP payload submission fails";
   Require_ executor "sendTcpApplicationData" "G313 carries application bytes through the retained TCP/e1000e frame path";
   Require_ executor "!tcp_connection.applicationSendReady(&connection.control)" "G313 removes POLLOUT while data is unacknowledged or peer window is zero";
   Require_ executor "wakeMatching(.socket_write" "G313 ACK retirement can wake a generation-matched socket writer";
   Require_ executor "runtime_abi.errno_broken_pipe" "G313 rejects send after SHUT_WR with EPIPE";
   Require_ socket_conformance "G313: accepted TCP descriptors expose the same bounded short-return contract" "G313 CPL3 fixture exercises accepted-socket bounded application send";
   Require_ socket_conformance "mov edx, PARTIAL_REQUEST_LENGTH" "G313 CPL3 accepted send requests the full 1476-byte deterministic source";
   Require_ socket_conformance "cmp eax, PARTIAL_EXPECTED_LENGTH" "G313 CPL3 accepted send requires the bounded 1024-byte short return";
   Require_ socket_conformance "cmp rax, ERRNO_BROKEN_PIPE" "G313 CPL3 fixture proves SHUT_WR makes later send fail with EPIPE";
   Require_ runtime_test "G313 TCP application send host proof passed: a 1476-byte request returned/delivered the exact deterministic 1024-byte prefix." "G313 host proves the bounded TCP short-send prefix crossed QEMU slirp";
   Require_ runtime_test "The G313 TCP short-send prefix differed at byte $index." "G313 host compares every byte of the TCP short-send prefix";
   Require_ tcp_connection_source "const zero_window_ack = handleSegment(&control" "G313 test suppresses send readiness when the peer advertises zero window";
   Require_ tcp_connection_source "const reopened_window_ack = handleSegment(&control" "G313 test restores send readiness only after a later nonzero-window ACK";
   Require_ readme "G313 keeps ABI 1.32 and extends existing syscall 90 `send`" "README documents the bounded G313 transmit contract";
   Require_ readme "`runtime-socket.elf` remains 12,288 bytes with 4,050 code bytes" "README freezes the G313 socket fixture size";
   Require_ readme "3544B1BEBCDA95875B5A5976564E15D0E691580461FEAEB3DD60D45A386BB70F" "README freezes the G313 socket fixture identity";
   Require_ readme "460699F1C50D16B9DA6A849FF918BAA5BAE6FBB360C10F4041B1875FE73D40F3" "README freezes the G313 diagnostic EFI identity";
   Require_ priority "G313 keeps ABI 1.32 and turns existing `send` into a bounded TCP application-transmit path" "priority remediation records G313 transmit scope";
   Require_ threat_model "G313 grants application **transmit** authority only" "threat model records G313 peer-limited transmit authority";
   Require_ roadmap "- [x] **G313** — Support arbitrary TCP application-data transmission." "roadmap marks G313 complete";
   Require_ readme "G300 advances the public ABI to 1.27" "README documents the bounded G300 active-open slice";
   Require_ readme "G300 deliberately rejects TCP application `send`/`recv` with `ENOSYS`" "README retains G300 as a historical pre-G313 boundary";
   Require_ readme "current initial sequence is derived deterministically" "README records the non-cryptographic G300 ISN limitation";
   Require_ readme "`zigos_abi.h` 11,171 bytes" "README retains the historical G300 generated ABI header size";
   Require_ readme "E9DE1D0DA0AC8CC2EFE575C9191AA5BD4380AC90DAB1A4DA73060E4625E158E4" "README retains the historical G300 ABI header identity";
   Require_ readme "`c-sdk.elf` 18,472 bytes (RX 14,160" "README retains the historical G300 C SDK size";
   Require_ readme "2FBBF8A92AF0D356585EE4FEE714624639AD091649BD7A48626A46D0417F3C8F" "README retains the historical G300 C SDK identity";
   Require_ readme "`runtime-socket.elf` 12,288 bytes" "README freezes the G300 runtime socket fixture size";
   Require_ readme "A8705D9184C7FE12F6A901CE5BD979328B264E869F472AA5807A708E4B06AE7A" "README freezes the G300 socket fixture identity";
   Require_ priority "G300 advances ABI to 1.27" "priority remediation records G300 active-open scope";
   Require_ threat_model "G300 gives a process outbound IPv4 TCP **active-open** capability only" "threat model records G300 outbound TCP authority";
   Require_ threat_model "host listener is loopback-only" "threat model requires G300 CI not publish a LAN listener";
   Require_ threat_model "ISN is deterministically derived" "threat model records the G300 sequence-number limitation";
   Require_ roadmap "- [x] **G300** — Expose connect for UDP and TCP sockets." "roadmap marks G300 complete";
   Require_ roadmap "255 complete, 245 open" "roadmap arithmetic includes G313";
   Test (λ r, roadmap_bad r) "roadmap must contain 500 goals with exactly 255 complete after G313";
   Require_ workflow "Cross-platform artifact identity gate" "hosted cross-platform reproducibility gate";
   Require_ workflow "cmp --" "artifact bytes are compared instead of only printed";
   Require_ asset_builder "“schema“: 2" "host-independent generated-asset manifest schema";
   Forbid asset_builder "“python“: sys.version" "host Python version leaked into compared manifest";
   Forbid asset_builder "“nasm“: nasm" "host NASM path leaked into compared manifest";
   Require_ asset_builder "newline=“\n“" "release manifest uses explicit cross-platform LF newlines";
   Test (λ r, Ok (schema_bad r)) "generated-asset manifest does not use deterministic schema 2";
   Test (λ r, Ok (object_listed r)) "non-deterministic intermediate COFF object leaked into release manifest";
   Test (λ r, Ok (manifest_empty r)) "generated-asset release manifest is empty";
   Require_ cpu "zigos_enter_user_context:" "assembly retained-context entry";
   Require_ cpu "zigos_trace_probe_level1:" "deterministic exception unwind frame chain";
   Require_ cpu "zigos_trace_probe_level3:" "deterministic invalid-opcode caller frame";
   Require_ cpu ".runtime_return_to_kernel:" "timer return to scheduler";
   Require_ paging "createUserAddressSpaceFromFrames" "recyclable private page tables"].

Definition part_23 : list statement := [
   Require_ paging "installUserPageTableInSpace" "process address spaces grow beyond one fixed 2 MiB table";
   Require_ paging "removeUserPageTableInSpace" "dynamic user page tables are explicitly reclaimed";
   Require_ paging "userPageTableAddressInSpace" "dynamic user table lookup validates hierarchy ownership";
   Require_ exceptions "runtime_user.handleException" "permanent exception routing";
   Require_ syscalls "runtime_user.handleSyscall" "permanent syscall routing"].

Definition fixtures : list statement := ["hello"; "sleep"; "crash"; "spin"; "pipe-reader"; "pipe-writer"; "wait"; "vm"; "io"; "tty"; "socket"] ≫= λ name,
    [Require_ assets ("“" +:+ name +:+ "“") ("generated " +:+ name +:+ " ELF fixture");
     Test (λ r, Ok (fixture_missing r name)) ("permanent-userspace contract missing fixture source: " +:+ name)].

Definition runtime_markers : list statement := (λ marker, Require_ runtime_test marker ("canonical COM1 assertion: " +:+ marker)) <$>
  ["hello from VFS-loaded CPL3 ELF64";
   "contained genuine CPL3 exception";
   "real CPL3 reader blocked; real CPL3 writer woke it";
   "PID 8 status 0x7 state zombie";
   "forced termination signal 9 sent to real PID 9 state zombie";
   "reply from 10.0.2.2:";
   "localhost A 127.0.0.1";
   "ping: unavailable: e1000e was not initialized for this boot";
   "dns: unavailable: e1000e was not initialized for this boot";
   "Post-bootstrap physical memory manager active:";
   "bootstrap allocator sealed";
   "ZigOs post-bootstrap physical memory: total ";
   "entries before/after 15/8 reclaimed 7 dirty retained 8";
   "entries before/after 16/10 reclaimed 6 dirty retained 10";
   "backing alloc/release/fail 55/55/0/0";
   "backing alloc/release/fail 60/60/0/0";
   "/1/7 shutdown-release 8";
   "/1/6 shutdown-release 10";
   "alloc/free 308/308 failed/rejected 0/0 clean yes";
   "alloc/free 344/344 failed/rejected 0/0 clean yes";
   "launches/exits/faults 15/13/1";
   "launches/exits/faults 17/15/1";
   "reclaimed 253 stale-contexts-swept 0 allocator alloc/release/retains 253/253/0";
   "reclaimed 284 stale-contexts-swept 0 allocator alloc/release/retains 284/284/0";
   "tty-api: blocking read/poll/line discipline passed";
   "zig-sdk: shared file mmap coherence passed";
   "zig-sdk: timestamp precision/data/namespace/access ordering passed";
   "zig-sdk: uid/gid creation and hard-link ownership passed";
   "zig-sdk: advisory whole-file flock passed";
   "c-sdk: advisory whole-file flock passed";
   "zig-sdk: directory watch notifications passed";
   "zig-sdk: startup/argv/abi/files/vm/file-mmap/errno/fsync/fdatasync/readv/writev/mount/umount/tmpfs/statfs/stattimes/statowner/umask/setid-metadata/flock/lockrange/watchdir/kill passed";
   "c-sdk: ABI 1.32 discovery passed";
   "c-sdk: directory watch notifications passed";
   "c-sdk: generated header/library/device/ioctl/stat/statfs/stattimes/statowner/umask/setid-metadata/flock/lockrange/watchdir/kill/directory-openat/fsync/fdatasync/symlink/readlink/link/nlink/fallocate/sparse/readv/writev passed";
   "ZigOs block-backed FAT16 runtime mount";
   "source=nvme0p1";
   "mode=readonly";
   "ZigOs boot FAT: block-backed yes files/directories 3/2 bytes ";
   " metadata/file/block reads ";
   " clusters claimed/free/loop/cross/range ";
   "/0/0/0 lock tickets/outstanding ";
   "ZigOs shutdown drain:";
   " data-lock tickets/outstanding ";
   " pool-lock tickets/outstanding ";
   " blocks/bytes/holes ";
   "exec: PID 16 state zombie status 0x56";
   "ZigOs permanent TTY: foreground group/session 1/1 buffered/edit/eof 0/0/0 lines 1 bytes submitted/read 7/7 blocked/wakeups 1/1 erase/interrupt/suspend/overflow 1/0/0/0 clean yes";
   "sync complete: writable mounts 2 immediate 1 durable 1; ramfs mutations ";
   "fsck ramfs/persist: clean";
   "ZigOs persistent storage: mounted yes generation/slot 1/0 records/payload 0/4 mounts/syncs/checks/recoveries 1/1/1/0 global/mount/immediate/durable/reject 1/2/1/1/0 writeback active no request/complete/pass 1/1/1 immediate/durable/clean/unsupported/failure/stale 1/0/0/0/0/0 pages queued/completed 6/6 payload/header/flush 1/1/2 NVMe read/write/flush ";
   " errors 0/0 clean yes";
   "persistent-storage yes canned-results no explicit-shutdown yes";
   "cache pressure: free before/after ";
   " pressure checks/events/evictions ";
   " backing alloc/release ";
   " backing alloc/release/fail ";
   " shutdown-release ";
   "ZigOs permanent userspace: page-limit 4096 used 0";
   "ZigOs permanent network: device yes ping 1 dns 1 failures 0 clean yes";
   "ZigOs permanent network: device no ping 0 dns 0 failures 0 clean yes";
   "ZigOs x86-64 Capstone 19 verified:"].

Definition facade_sentinels : list statement := (λ forbidden, Test (λ r, count_differs r "scripts/test-runtime.ps1" [forbidden] 1)
    ("network facade sentinel must occur exactly once in the forbidden-output list: " +:+ forbidden)) <$>
  ["192.0.2.42";
   "deterministic-QEMU-path";
   "reply from 192.0.2.1"].

Definition part_24 : list statement := [
   Test (λ r, capstone_bad r) "Capstone 19 must document exactly 32 goals, found {len(goals)}"].

Definition second_half : list statement :=
  completion_bodies ++
  part_12 ++
  isolated_tests ++
  part_13 ++
  lock_boundaries ++
  part_14 ++
  part_15 ++
  part_16 ++
  part_17 ++
  part_18 ++
  part_19 ++
  shell_environment ++
  part_20 ++
  part_21 ++
  part_22 ++
  part_23 ++
  fixtures ++
  runtime_markers ++
  facade_sentinels ++
  part_24.

End ContractPart2.
