(* ===== verification/Contract.v ===== *)
(** * The userspace contract: the script and what it decides

    [main] of [verify-permanent-userspace.py] runs the statements of [ContractPart1] and
    [ContractPart2] in order.  [holds] says what a statement asks of a repository without
    the search functions: a required string divides the text, a forbidden one does not.
    The script accepts exactly the repositories in which all statements hold, and
    otherwise raises at the first that does not.  [sane] is what the statements are for,
    as tables of what the repository must have and must not: a repository that lacks
    any of it is rejected ([contract_rejects]). *)

From S2P Require Import Prelude PyBytes Serial AbiGen ContractLanguage ContractPart1 ContractPart2.

Module Contract.

Import ContractLanguage.

(** ** The script *)

(** The files read at the start, the checks down to the blank line before the first
    test of the page size, and the rest. *)
Definition statements : list statement :=
  ContractPart1.loads ++ ContractPart1.first_half ++ ContractPart2.second_half.

Definition main (r : repository) : result unit := forM_ (run_statement r) statements.

(** ** What the statements ask *)

(** [p] occurs between [a] and [b], and no earlier. *)
Definition first_at (p a b : text) : Prop :=
  p `prefix_of` b ∧ ∀ a' b', a ++ b = a' ++ b' → p `prefix_of` b' → (length a ≤ length a')%nat.
Definition occurs (p l : text) : Prop := ∃ a b, l = a ++ p ++ b.

(** [l] is the part of the repository the source names. *)
Definition part (r : repository) (s : source) (l : text) : Prop :=
  match s with
  | File path => texts r !! path = Some l
  | Between path start stop => ∃ a c,
      texts r !! path = Some (a ++ l ++ c) ∧ first_at (T start) a (l ++ c) ∧ first_at (T stop) l c
  | Body path head _ => ∃ a inner c,
      texts r !! path = Some (a ++ T head ++ inner ++ c) ∧ first_at (T head) a (T head ++ inner ++ c) ∧
      first_at body_tail inner c ∧ l = T head ++ inner ++ body_tail
  end.

Definition holds (r : repository) (s : statement) : Prop :=
  match s with
  | Load path => is_Some (texts r !! path)
  | Require_ s needle _ => ∃ l, part r s l ∧ occurs (T needle) l
  | Forbid s needle _ => ∃ l, part r s l ∧ ¬ occurs (T needle) l
  | Test condition _ => condition r = Ok false
  end.

(** The exception of the statement where the script stops. *)
Definition complaint (r : repository) (s : statement) (e : exn) : Prop :=
  match s with
  | Load path => e = OSError "No such file or directory"
  | Require_ s _ description =>
      source_text r s = Err e ∨
      (∃ l, part r s l) ∧ e = SystemExit ("permanent-userspace contract missing: " +:+ plain description)
  | Forbid s _ description =>
      source_text r s = Err e ∨
      (∃ l, part r s l) ∧ e = SystemExit ("permanent-userspace contract violation: " +:+ plain description)
  | Test condition message => condition r = Err e ∨ condition r = Ok true ∧ e = SystemExit (plain message)
  end.

(** ** What the contract pins *)

(** Of the ABI specification: the system calls that must have these numbers, the groups
    that must be exactly these, and single entries of other groups. *)
Definition pinned_syscalls : group :=
  [("spawnv", 96); ("sync", 97); ("shutdown", 93);
   ("lseek", 98); ("mkdir", 99); ("unlink", 100); ("rmdir", 101); ("rename", 102); ("chmod", 103);
   ("sendto", 104); ("recvfrom", 105); ("getpeername", 106); ("setnonblock", 107); ("listen", 130); ("accept", 131);
   ("socket_shutdown", 132); ("getsockopt", 133); ("setsockopt", 134);
   ("ioctl", 108); ("stat", 109); ("openat", 110); ("fsync", 111); ("symlink", 112); ("readlink", 113); ("link", 114);
   ("fallocate", 115); ("readv", 116); ("writev", 117); ("fdatasync", 118); ("mount", 119); ("umount", 120);
   ("statfs", 121); ("stattimes", 122); ("statowner", 123); ("umask", 124); ("flock", 125); ("lockrange", 126);
   ("watchdir", 127); ("kill", 128); ("fscheck", 129)].

Definition pinned_groups : list (string * group) :=
  [("message_flags", [("dontwait", 1)]);
   ("socket_shutdown", [("read", 0); ("write", 1); ("both", 2)]);
   ("socket_option_levels", [("socket", 1)]);
   ("socket_options", [("nonblocking", 1); ("type", 2); ("protocol", 3); ("acceptconn", 4)]);
   ("spawn_flags", [("new_process_group", 0); ("join_process_group", 1); ("pipeline_io", 2); ("foreground_process_group", 3)]);
   ("spawn_io", [("inherit_descriptor", 65535)]);
   ("wait_flags", [("nohang", 0); ("process_group", 1)]);
   ("fallocate_flags", [("keep_size", 0); ("punch_hole", 1)]);
   ("mount_flags", [("read_only", 0)]);
   ("flock_operations", [("shared", 1); ("exclusive", 2); ("nonblock", 4); ("unlock", 8)]);
   ("directory_event_flags", [("created", 0); ("removed", 1); ("rename_from", 2); ("rename_to", 3); ("overflow", 4)]);
   ("filesystem_types",
     [("ramfs", 1); ("tmpfs", 2); ("boot_fat", 3); ("procfs", 4); ("devfs", 5); ("netfs", 6); ("zigos_persist", 7)]);
   ("filesystem_stat_flags", [("read_only", 0); ("shared_blocks", 1); ("shared_nodes", 2); ("synthetic", 3)]);
   ("seek_whence", [("start", 0); ("current", 1); ("end", 2)]);
   ("limits", [("arguments", 8); ("argument_bytes", 31); ("environment", 8); ("environment_bytes", 63); ("iovecs", 8)])].

Definition pinned_entries : list (string * string * Z) :=
  [("errno", "protocol_option", -92); ("ioctl_requests", "tty_get_foreground_group", 21507);
   ("ioctl_requests", "tty_set_foreground_group", 21508); ("capabilities", "tcp_sockets", 11)].

(** Of the texts: how often some strings occur, the signatures of the functions that
    start by taking the namespace lock, the programs with an assembly source, the files
    whose tests are counted, those in the isolated test graph, and the strings that must not occur in a file or function. *)
Definition pinned_counts : list (string * string * Z) :=
  [("src/runtime_user.zig", "readDescriptorInKernelAddressSpace(context, fd", 2);
   ("scripts/test-boot-fat-io-error.py", "send(client, process, serial, “cat /boot/README.TXT“", 2);
   ("src/runtime_vfs.zig", "_ = self.namespace_operation_lock.acquire();", 4);
   ("src/runtime_vfs.zig", "defer self.namespace_operation_lock.release();", 4);
   ("scripts/test-runtime.ps1", "192.0.2.42", 1);
   ("scripts/test-runtime.ps1", "deterministic-QEMU-path", 1);
   ("scripts/test-runtime.ps1", "reply from 192.0.2.1", 1)].

Definition least_counts : list (string * string * Z) :=
  [("src/runtime_vfs.zig", "try validatePathBounds(old_path);", 2);
   ("src/runtime_vfs.zig", "try validatePathBounds(new_path);", 2);
   ("scripts/test-x86_64-persistence.py", "“mounts/syncs/checks/recoveries 1/0/0/1“", 2);
   ("scripts/test-x86_64-persistence.py", "“survived-generation-four“ in", 2)].

Definition locked_functions : list string :=
  ["pub fn createOwned(self: *Vfs"; "pub fn write(self: *Vfs, cwd: u16, path: []const u8"; "pub fn unlinkAs(self: *Vfs";
   "pub fn renameAs(self: *Vfs"].

Definition fixture_names : list string :=
  ["hello"; "sleep"; "crash"; "spin"; "pipe-reader"; "pipe-writer"; "wait"; "vm"; "io"; "tty"; "socket"].

Definition test_sources : list string :=
  ["src/runtime_fd.zig"; "src/runtime_command.zig"; "src/runtime_process.zig"; "src/runtime_tty.zig"; "src/runtime_vfs.zig";
   "src/runtime_pseudo_fs.zig"; "src/runtime_boot_fat.zig"; "src/nvme.zig"; "src/runtime_abi.zig"; "src/runtime_page_pool.zig";
   "src/memory.zig"; "src/runtime_persist.zig"; "src/elf64.zig"; "src/tcp_connection.zig"; "sdk/zig/dns.zig";
   "sdk/zig/copy_core.zig"].

Definition graph_files : list string :=
  ["“src/runtime_fd.zig“"; "“src/runtime_command.zig“"; "“src/runtime_process.zig“"; "“src/runtime_tty.zig“";
   "“src/runtime_vfs.zig“"; "“src/runtime_pseudo_fs.zig“"; "“src/runtime_boot_fat.zig“"; "“src/runtime_abi.zig“";
   "“src/runtime_page_pool.zig“"; "“src/runtime_persist.zig“"; "“src/elf64.zig“"; "“src/tcp_connection.zig“";
   "“sdk/zig/dns.zig“"; "“sdk/zig/copy_core.zig“"].

Definition forbidden : list (source * string) :=
  [(File "src/runtime.zig", "launchPseudoJob");
   (File "src/runtime.zig", "pseudo-job");
   (File "src/runtime.zig", "192.0.2.42");
   (File "src/runtime.zig", "deterministic-QEMU-path");
   (File "src/runtime.zig", "contained fault in PID");
   (File "src/runtime.zig", "wait: process is still running");
   (File "src/runtime_user.zig", "activeProcesses().wait(context.handle, target_handle, false)");
   (Between "src/runtime_user.zig" "fn syscallSync" "fn syscallShutdown", "persistent_storage_capability");
   (File "src/runtime_vfs.zig", "for (self.file_page_cache");
   (File "src/synchronization.zig", "zigos_cpu_relax");
   (File "src/runtime_vfs.zig", "data: [maximum_file_size]u8");
   (File "src/runtime_vfs.zig", "for (self.data_blocks)");
   (File "src/runtime_vfs.zig", "fn assignMountRecursive");
   (File "sdk/c/include/zigos_abi.h", "zigos_syscall6");
   (File "sdk/c/include/zigos_abi.h", "zigos_write(");
   (File "sdk/c/include/zigos_abi.h", "zigos_abi_query(");
   (File "sdk/c/abi_description_conformance.c", "#include “zigos.h“");
   (File "sdk/c/abi_description_conformance.c", "zigos_write(");
   (File "src/runtime_user.zig", "const persistent_node = activeDescriptors().persistentSyncNode");
   (File "src/runtime_vfs.zig", "setPseudoReader");
   (File "src/runtime_user.zig", "const fd: u16 = @truncate(frame.rdi)");
   (File "src/runtime_user.zig", "const bits: u8 = @truncate(frame.rsi)");
   (File "src/runtime_vfs.zig", "const node = self.nodes[");
   (File "src/runtime_vfs.zig", "for (self.nodes");
   (File "src/runtime_vfs.zig", "for (self.nodes[");
   (File "src/runtime_user.zig", "for (contexts) |context|");
   (File "src/runtime_user.zig", "for (contexts,");
   (File "src/runtime_user.zig", "context: Context");
   (File "src/runtime_user.zig", "context.*");
   (File "src/runtime_user.zig", "const context = contexts[service_cursor]");
   (File "src/runtime.zig", "runtime_user.dispatch(");
   (File "src/runtime.zig", "foreground_handle");
   (File "src/runtime.zig", "state.jobs");
   (File "src/runtime.zig", "const Job = struct");
   (File "src/runtime_user.zig", "excluded_handle");
   (File "src/runtime_user.zig", "activeProcesses().snapshot()");
   (File "src/runtime.zig", "state.processes.snapshot()");
   (File "src/runtime_process.zig", "pub const Snapshot = struct");
   (File "src/runtime_user.zig", "allocateContiguousBelow(arena_pages");
   (File "src/runtime_process.zig", "for (self.processes");
   (Body "src/e1000e.zig" "fn waitForTx(" "permanent-userspace contract missing: e1000e waitForTx", "const local_target");
   (Body "src/e1000e.zig" "fn waitForRx(" "permanent-userspace contract missing: e1000e waitForRx", "const local_target");
   (File "src/runtime_process.zig", "test “pipeline spawn groups are assigned atomically");
   (File "src/runtime_fd.zig", "test “pipeline child descriptors");
   (File "src/runtime_process.zig", "test “process group wait");
   (File "sdk/zig/shell.zig", "stage.count > arguments.len");
   (File "sdk/zig/shell.zig", "“copied “");
   (File "sdk/zig/shell.zig", "“userspace shell requested shutdown");
   (File "sdk/zig/shell.zig", "Type 'help' for commands.");
   (File "sdk/zig/shell.zig", "cursor.* + word.len + 1 > storage.len");
   (File "sdk/zig/env.zig", "zigos.open(");
   (File "sdk/zig/edit.zig", "allocator");
   (Body "src/e1000e.zig" "pub fn submitRuntimeFrame(" "permanent-userspace contract missing: G310 runtime frame handoff body", "waitForTx(");
   (File "scripts/build-assets.py", "“python“: sys.version");
   (File "scripts/build-assets.py", "“nasm“: nasm")].

Definition syscall (r : repository) (name : string) : option Z := get (get_group (abi_spec r) "syscalls") name.

(** [count] is Python's [str.count]. *)
Definition counted (r : repository) (P : Z → Z → Prop) (x : string * string * Z) : Prop :=
  ∃ t, texts r !! x.1.1 = Some t ∧ P (count t (T x.1.2)) x.2.

Record sane (r : repository) : Prop := {
  sane_version : ∃ abi, get (abi_spec r) "abi" = Some abi ∧
    get abi "major" = Some 1 ∧ get abi "minor" = Some 32 ∧ get abi "page_size" = Some 4096;
  sane_numbers : get_group (abi_spec r) "syscalls" ≠ [] ∧ NoDup (get_group (abi_spec r) "syscalls").*2;
  sane_pinned : Forall (λ p, syscall r p.1 = Some p.2) pinned_syscalls;
  sane_groups : Forall (λ x, ∃ g, get (abi_spec r) x.1 = Some g ∧ g ≡ₚ x.2) pinned_groups;
  sane_entries : Forall (λ x, get (get_group (abi_spec r) x.1.1) x.1.2 = Some x.2) pinned_entries;
  sane_tests : ∃ sources, mapM (λ path, texts r !! path) test_sources = Some sources ∧
    foldr Z.add 0 (declared <$> sources) = 106;
  sane_graph : ∃ t, texts r !! "build.zig" = Some t ∧ Forall (λ path, occurs (T path) t) graph_files;
  sane_counts : Forall (counted r eq) pinned_counts ∧ Forall (counted r Z.ge) least_counts;
  sane_seeds : ∃ a seeds c, let head := T "const namespace_fuzz_seeds = [_]u64{" in
    texts r !! "src/runtime_vfs.zig" = Some (a ++ head ++ seeds ++ c) ∧ first_at head a (head ++ seeds ++ c) ∧
    first_at (T "};") seeds c ∧ hex_words O seeds = 8;
  sane_locks : ∃ t, texts r !! "src/runtime_vfs.zig" = Some t ∧ Forall (λ signature, ∃ a b,
    t = a ++ b ∧ first_at (T signature) a b ∧ occurs (T "namespace_operation_lock.acquire()") (take 500 b)) locked_functions;
  sane_fixtures : Forall (λ name, is_Some (texts r !! ("src/user/runtime-" +:+ name +:+ ".asm")) ∧
    ∃ t, texts r !! "scripts/build-assets.py" = Some t ∧ occurs (T ("“" +:+ name +:+ "“")) t) fixture_names;
  sane_forbidden : Forall (λ x, ∃ l, part r x.1 l ∧ ¬ occurs (T x.2) l) forbidden;
  sane_roadmap : ∃ roadmap, texts r !! "docs/ROADMAP-500.md" = Some roadmap ∧
    len (roadmap_items roadmap) = 500 ∧ len (List.filter (Z.eqb 120) (roadmap_items roadmap)) = 255;
  sane_capstone : ∀ capstone : text, texts r !! "docs/CAPSTONE-19.0.md" = Some capstone → capstone ≠ [] →
    len (List.filter is_goal (lines capstone)) = 32;
  sane_manifest : schema (asset_manifest r) = Some 2 ∧ manifest_outputs (asset_manifest r) ≠ [] ∧
    "build/cpu.obj" ∉ manifest_outputs (asset_manifest r)
}.

(** A specification in which [sync] has the number of [spawnv]. *)
Definition renumbered : repository :=
  Repository ∅ [("abi", [("major", 1); ("minor", 32); ("page_size", 4096)]); ("syscalls", [("spawnv", 96); ("sync", 96)])]
    (Manifest (Some 2) ["build/font.bin"]).

(** The statement at position [n] is the test of the condition. *)
Definition test_at (n : nat) (condition : repository → result bool) : Prop :=
  match statements !! n with Some (Test condition' _) => condition' = condition | _ => False end.

(** ** Searching *)

Lemma starts_with_spec l p : starts_with l p = true ↔ p `prefix_of` l.
Proof.
  revert l. induction p as [|b p IH]; intros [|a l]; cbn [starts_with].
  - split; [intros _; apply prefix_nil|done].
  - split; [intros _; apply prefix_nil|done].
  - split; [done|intros H; by apply prefix_nil_not in H].
  - rewrite andb_true_iff, Z.eqb_eq, IH. split.
    + intros [-> ?]. by apply prefix_cons.
    + intros H. split; [symmetry; by eapply prefix_cons_inv_1|by eapply prefix_cons_inv_2].
Qed.

Lemma contains_spec l p : contains l p = true ↔ occurs p l.
Proof.
  induction l as [|x l IH]; cbn [contains]; rewrite orb_true_iff, starts_with_spec.
  - split.
    + intros [(k & ->)|?]; [|done]. by exists [], k.
    + intros ([|y a] & b & H); [|done]. left. by exists b.
  - rewrite IH. split.
    + intros [(k & ->)|(a & b & ->)]; [by exists [], k|by exists (x :: a), b].
    + intros ([|y a] & b & H); [left; by exists b|]. right. exists a, b. by injection H.
Qed.

Lemma contains_none l p : contains l p = false ↔ ¬ occurs p l.
Proof. rewrite <-contains_spec. by destruct (contains l p). Qed.

(** The first occurrence; [index], [after] and [before] are readings of it. *)
Fixpoint find (l p : text) : option (text * text) :=
  if starts_with l p then Some ([], l)
  else match l with [] => None | x :: l => prod_map (x ::.) id <$> find l p end.

Lemma first_at_cons p x a b :
  starts_with (x :: a ++ b) p = false → first_at p (x :: a) b ↔ first_at p a b.
Proof.
  intros H. split; intros [Hp Hmin]; (split; [done|]); intros a' b' E Hb.
  - specialize (Hmin (x :: a') b'). cbn in Hmin. rewrite E in Hmin. specialize (Hmin eq_refl Hb). lia.
  - destruct a' as [|y a']; cbn in E.
    + apply starts_with_spec in Hb. rewrite <-E in Hb. congruence.
    + injection E as -> E. specialize (Hmin a' b' E Hb). cbn. lia.
Qed.

Lemma find_spec l p a b : find l p = Some (a, b) ↔ l = a ++ b ∧ first_at p a b.
Proof.
  revert a b. induction l as [|x l IH]; intros a b; cbn [find].
  - destruct (starts_with [] p) eqn:E.
    + apply starts_with_spec in E. split.
      * intros [= <- <-]. split; [done|]. split; [done|]. intros. cbn. lia.
      * intros [H _]. symmetry in H. by apply app_nil in H as [-> ->].
    + split; [done|]. intros [H [Hp _]]. symmetry in H. apply app_nil in H as [-> ->].
      apply starts_with_spec in Hp. congruence.
  - destruct (starts_with (x :: l) p) eqn:E.
    + apply starts_with_spec in E. split.
      * intros [= <- <-]. split; [done|]. split; [done|]. intros. cbn. lia.
      * intros [H [_ Hmin]]. specialize (Hmin [] (x :: l)). rewrite <-H in Hmin. specialize (Hmin eq_refl E).
        destruct a; [by cbn in H; subst|cbn in Hmin; lia].
    + rewrite fmap_Some. split.
      * intros ([a1 b1] & [-> Hf]%IH & [= -> ->]). split; [done|]. by apply first_at_cons.
      * intros [H Hf]. destruct a as [|y a]; cbn in H.
        { subst b. destruct Hf as [Hf _]. apply starts_with_spec in Hf. congruence. }
        injection H as -> ->. exists (a, b). split; [|done]. apply IH. split; [done|]. by apply (first_at_cons _ y).
Qed.

Lemma index_find k l p :
  index_from k l p =
    match find l p with Some (a, _) => Ok (k + len a) | None => Err (ValueError "substring not found") end.
Proof.
  revert k. induction l as [|x l IH]; intros k; cbn [index_from find]; destruct (starts_with _ p).
  - by rewrite Z.add_0_r.
  - done.
  - by rewrite Z.add_0_r.
  - rewrite IH. destruct (find l p) as [[a b]|]; [|done]. cbn. f_equal. unfold len. cbn. lia.
Qed.

Lemma after_find l p : after l p = (λ s, slice_from s.2 (len p)) <$> find l p.
Proof.
  induction l as [|x l IH]; cbn [after find]; destruct (starts_with _ p); try done.
  rewrite IH. by destruct (find l p) as [[a b]|].
Qed.

Lemma before_find l p : before l p = fst <$> find l p.
Proof.
  induction l as [|x l IH]; cbn [before find]; destruct (starts_with _ p); try done.
  rewrite IH. by destruct (find l p) as [[a b]|].
Qed.

Lemma slice_middle (a l c : text) : slice (a ++ l ++ c) (len a) (len a + len l) = l.
Proof.
  pose proof (len_nonneg a). pose proof (len_nonneg l).
  rewrite slice_app_r by lia. rewrite Z.sub_diag, slice_app_l by lia.
  apply slice_full. lia.
Qed.

Lemma read_text_Ok r path t : read_text r path = Ok t ↔ texts r !! path = Some t.
Proof. unfold read_text. destruct (texts r !! path); split; congruence. Qed.

(** ** Sources *)

Lemma index_0 l p :
  index l p 0 = match find l p with Some (a, _) => Ok (len a) | None => Err (ValueError "substring not found") end.
Proof.
  unfold index. replace (slice_from l 0) with l by by (symmetry; apply slice_full). by rewrite index_find.
Qed.

Lemma find_first l p a b : l = a ++ b → first_at p a b → find l p = Some (a, b).
Proof. intros. by apply find_spec. Qed.

Lemma between_Ok t start stop l :
  (i ← index t start 0; j ← index t stop i; Ok (slice t i j)) = Ok l ↔
  ∃ a c, t = a ++ l ++ c ∧ first_at start a (l ++ c) ∧ first_at stop l c.
Proof.
  rewrite index_0. split.
  - destruct (find t start) as [[a b]|] eqn:E; [|done]. apply find_spec in E as [-> Ha].
    cbn. unfold index. rewrite Serial.slice_from_app, index_find.
    destruct (find b stop) as [[l1 c]|] eqn:E; [|done]. apply find_spec in E as [-> Hc].
    cbn. rewrite slice_middle. intros [= <-]. by exists a, c.
  - intros (a & c & -> & Ha & Hc). rewrite (find_first _ _ _ _ eq_refl Ha).
    cbn. unfold index. rewrite Serial.slice_from_app, index_find, (find_first _ _ _ _ eq_refl Hc).
    cbn. by rewrite slice_middle.
Qed.

Lemma search_Some t head tail inner :
  search t head tail = Some inner ↔
  ∃ a c, t = a ++ head ++ inner ++ c ∧ first_at head a (head ++ inner ++ c) ∧ first_at tail inner c.
Proof.
  unfold search. rewrite after_find. split.
  - destruct (find t head) as [[a b]|] eqn:E; [|done]. apply find_spec in E as [-> Ha].
    destruct (proj1 Ha) as [k ->]. cbn. rewrite Serial.slice_from_app, before_find.
    destruct (find k tail) as [[m c]|] eqn:E; [|done]. apply find_spec in E as [-> Hc].
    intros [= <-]. by exists a, c.
  - intros (a & c & -> & Ha & Hc). rewrite (find_first _ _ _ _ eq_refl Ha).
    cbn. by rewrite Serial.slice_from_app, before_find, (find_first _ _ _ _ eq_refl Hc).
Qed.

Lemma source_text_Ok r s l : source_text r s = Ok l ↔ part r s l.
Proof.
  destruct s as [path|path start stop|path head message]; cbn [source_text part].
  { apply read_text_Ok. }
  all: unfold read_text; destruct (texts r !! path) as [t|]; cbn [mbind result_bind];
    [|split; [done|first [by intros (? & ? & [=] & _)|by intros (? & ? & ? & [=] & _)]]].
  - rewrite between_Ok. split.
    + intros (a & c & -> & ?). by exists a, c.
    + intros (a & c & [= ->] & ?). by exists a, c.
  - split.
    + destruct (search t (T head) body_tail) as [inner|] eqn:E; [|done].
      apply search_Some in E as (a & c & -> & Ha & Hc). intros [= <-]. by exists a, inner, c.
    + intros (a & inner & c & [= ->] & Ha & Hc & ->).
      by rewrite (proj2 (search_Some _ _ _ inner)) by by exists a, c.
Qed.

(** ** Statements *)

Lemma statement_Ok r s : run_statement r s = Ok tt ↔ holds r s.
Proof.
  destruct s as [path|s needle d|s needle d|condition d]; cbn [run_statement holds].
  - unfold read_text. destruct (texts r !! path); cbn; split; [by eauto|done|done|by intros [? [=]]].
  - setoid_rewrite <-source_text_Ok. setoid_rewrite <-contains_spec. unfold require.
    destruct (source_text r s) as [l|e]; cbn; [|split; [done|by intros (? & [=] & _)]].
    rewrite last_guard_iff, negb_false_iff. split; [by exists l|by intros (? & [= ->] & ?)].
  - setoid_rewrite <-source_text_Ok. setoid_rewrite <-contains_none. unfold forbid.
    destruct (source_text r s) as [l|e]; cbn; [|split; [done|by intros (? & [=] & _)]].
    rewrite last_guard_iff. split; [by exists l|by intros (? & [= ->] & ?)].
  - destruct (condition r) as [b|e]; cbn; [|by split]. rewrite last_guard_iff. split; congruence.
Qed.

Lemma statement_complains r s e : run_statement r s = Err e → complaint r s e.
Proof.
  destruct s as [path|s needle d|s needle d|condition d]; cbn [run_statement complaint].
  - unfold read_text. destruct (texts r !! path); cbn; congruence.
  - setoid_rewrite <-source_text_Ok. unfold require. destruct (source_text r s) as [l|e']; cbn; [|by left; congruence].
    destruct (negb _); cbn; [|done]. intros [= <-]. right. eauto.
  - setoid_rewrite <-source_text_Ok. unfold forbid. destruct (source_text r s) as [l|e']; cbn; [|by left; congruence].
    destruct (contains _ _); cbn; [|done]. intros [= <-]. right. eauto.
  - destruct (condition r) as [[]|e']; cbn; [|done|by left; congruence]. intros [= <-]. by right.
Qed.

(** A statement that does not hold has one complaint. *)
Lemma complaint_unique r s e e' : complaint r s e → complaint r s e' → e = e'.
Proof.
  destruct s as [path|s needle d|s needle d|condition d]; cbn [complaint];
    [congruence| | |intuition congruence].
  all: intros [?|[[? ?%source_text_Ok] ?]] [?|[[? ?%source_text_Ok] ?]]; congruence.
Qed.

Lemma statement_Err r s e : run_statement r s = Err e ↔ ¬ holds r s ∧ complaint r s e.
Proof.
  rewrite <-statement_Ok. split.
  - intros H. split; [congruence|by apply statement_complains].
  - intros [Hn Hc]. destruct (run_statement r s) as [[]|e'] eqn:E; [done|].
    f_equal. by eapply complaint_unique, Hc; apply statement_complains.
Qed.

Lemma forM_Err {A} (f : A → result unit) l e :
  forM_ f l = Err e ↔ ∃ before a after, l = before ++ a :: after ∧ Forall (λ a, f a = Ok tt) before ∧ f a = Err e.
Proof.
  induction l as [|a l IH]; cbn.
  { split; [done|by intros ([] & ? & ? & ? & _)]. }
  split.
  - destruct (f a) as [[]|e'] eqn:E; cbn; [|intros [= <-]; by exists [], a, l].
    rewrite IH. intros (before & b & k & -> & Hb & Hf). exists (a :: before), b, k. split; [done|]. split; [by constructor|done].
  - intros ([|a' before] & b & k & [= -> ->] & Hb & Hf); [by rewrite Hf|].
    apply Forall_cons in Hb as [-> Hb]. cbn. apply IH. by exists before, b, k.
Qed.

(** ** The verdict *)

Lemma holds_all r l : Forall (λ s, run_statement r s = Ok tt) l ↔ Forall (holds r) l.
Proof. apply Forall_iff. intros s. apply statement_Ok. Qed.

Lemma main_Ok r : main r = Ok tt ↔ Forall (holds r) statements.
Proof.
  unfold main. rewrite forM_Ok. apply holds_all.
Qed.

Lemma main_Err r e : main r = Err e ↔ ∃ before s after,
  statements = before ++ s :: after ∧ Forall (holds r) before ∧ ¬ holds r s ∧ complaint r s e.
Proof.
  unfold main. rewrite forM_Err. split; intros (before & s & k & ? & Hb & Hs); exists before, s, k.
  - split; [done|]. split; [by apply holds_all|by apply statement_Err].
  - split; [done|]. split; [by apply holds_all|by apply statement_Err].
Qed.

(** For every repository: the script accepts it exactly when every statement holds, each
    required string occurring in the file or function it is asked of and each forbidden
    one not; and it raises an exception exactly when there is a first statement that does
    not hold, which is the one it complains of. *)
Theorem contract_verdict r :
  (main r = Ok tt ↔ Forall (holds r) statements) ∧
  (∀ e, main r = Err e ↔ ∃ before s after,
     statements = before ++ s :: after ∧ Forall (holds r) before ∧ ¬ holds r s ∧ complaint r s e).
Proof. split; [apply main_Ok|apply main_Err]. Qed.

Lemma main_test r n condition : main r = Ok tt → test_at n condition → condition r = Ok false.
Proof.
  unfold test_at. intros H%main_Ok Hn. destruct (statements !! n) as [s|] eqn:E; [|done].
  eapply (Forall_lookup_1 (holds r)) in E; [|done]. by destruct s; try done; subst.
Qed.

Lemma opt_eqb_spec a n : opt_eqb a n = true ↔ a = Some n.
Proof. destruct a; cbn; rewrite ?Z.eqb_eq; split; congruence. Qed.

Lemma entry_agrees r g name n : entry_differs r g name n = false ↔ get (get_group (abi_spec r) g) name = Some n.
Proof. unfold entry_differs. by rewrite negb_false_iff, opt_eqb_spec. Qed.

Lemma get_group_item d name g : get d name = Some g → get_group d name = g.
Proof. unfold get_group. by intros ->. Qed.

Lemma version_agrees r : abi_version_bad r = Ok false → page_size_bad r = false →
  ∃ abi, get (abi_spec r) "abi" = Some abi ∧ get abi "major" = Some 1 ∧ get abi "minor" = Some 32 ∧
    get abi "page_size" = Some 4096.
Proof.
  unfold abi_version_bad, page_size_bad, item.
  destruct (get (abi_spec r) "abi") as [abi|] eqn:E; cbn [mbind result_bind]; [|done].
  intros H [_ Hp%entry_agrees]%orb_false_iff. rewrite (get_group_item _ _ _ E) in Hp. exists abi. split; [done|].
  destruct (get abi "major") as [major|]; cbn [mbind result_bind] in H; [|done].
  destruct (major =? 1) eqn:Hm; cbn [negb] in H; [|done]. apply Z.eqb_eq in Hm. subst major.
  destruct (get abi "minor") as [minor|]; cbn [mbind result_bind] in H; [|done].
  apply (inj Ok) in H. apply negb_false_iff, Z.eqb_eq in H as ->. done.
Qed.

Lemma numbering_agrees g expected :
  numbering_valid g expected = true → Forall (λ p, get g p.1 = Some p.2) expected.
Proof.
  unfold numbering_valid. rewrite forallb_forall. intros H. apply Forall_forall. intros p Hp.
  apply opt_eqb_spec, H. by apply list_elem_of_In.
Qed.

Lemma pinned_agrees r : numbering_bad r = Ok false → shutdown_bad r = false →
  Forall (λ p, syscall r p.1 = Some p.2) pinned_syscalls.
Proof.
  unfold numbering_bad, shutdown_bad, item, syscall.
  destruct (get (abi_spec r) "syscalls") as [g|] eqn:E; cbn [mbind result_bind]; [|done].
  intros [[[H1 H2]%orb_false_iff H3]%orb_false_iff H4]%(inj Ok)%orb_false_iff [Hs%entry_agrees _]%orb_false_iff.
  rewrite (get_group_item _ _ _ E) in *.
  apply negb_false_iff, numbering_agrees in H1, H2, H3, H4.
  inversion H1 as [|? ? H5 H6]. inversion H6 as [|? ? H7 _]. unfold pinned_syscalls.
  do 3 (apply Forall_cons_2; [assumption|]).
  apply (Forall_app_2 _ expected_fs_syscalls); [done|]. by apply (Forall_app_2 _ expected_network_syscalls).
Qed.

Lemma tests_agree r : declared_tests_bad r = Ok false →
  ∃ sources, mapM (λ path, texts r !! path) test_sources = Some sources ∧
    foldr Z.add 0 (declared <$> sources) = 106.
Proof.
  change test_sources with canonical_test_sources. assert (H : ∀ paths n m, foldM (λ n path, l ← read_text r path; Ok (n + declared l)) n paths = Ok m →
    ∃ sources, mapM (λ path, texts r !! path) paths = Some sources ∧ n + foldr Z.add 0 (declared <$> sources) = m).
  { induction paths as [|path paths IH]; intros n m; cbn [foldM].
    - intros [= <-]. exists []. cbn. split; [done|lia].
    - intros (? & (t & Ht%read_text_Ok & [= <-])%bind_Ok_inv & (k & Hk & <-)%IH)%bind_Ok_inv.
      exists (t :: k). cbn. rewrite Ht. cbn. rewrite Hk. cbn. split; [done|lia]. }
  unfold declared_tests_bad. intros (n & (k & Hk & Hn)%H & ->%(inj Ok)%negb_false_iff%Z.eqb_eq)%bind_Ok_inv.
  by exists k.
Qed.

Lemma roadmap_agrees r : roadmap_bad r = Ok false →
  ∃ roadmap, texts r !! "docs/ROADMAP-500.md" = Some roadmap ∧
    len (roadmap_items roadmap) = 500 ∧ len (List.filter (Z.eqb 120) (roadmap_items roadmap)) = 255.
Proof.
  unfold roadmap_bad. intros (t & Ht%read_text_Ok & [H1 H2]%(inj Ok)%orb_false_iff)%bind_Ok_inv.
  apply negb_false_iff, Z.eqb_eq in H1, H2. by exists t.
Qed.

Lemma manifest_agrees r :
  schema_bad r = false → object_listed r = false → manifest_empty r = false →
  schema (asset_manifest r) = Some 2 ∧ manifest_outputs (asset_manifest r) ≠ [] ∧
  "build/cpu.obj" ∉ manifest_outputs (asset_manifest r).
Proof.
  unfold schema_bad, object_listed, manifest_empty. rewrite negb_false_iff, opt_eqb_spec.
  intros -> Hl Hm. split; [done|]. split; [by destruct (manifest_outputs _)|].
  intros Hin%list_elem_of_In. apply not_true_iff_false in Hl. apply Hl, existsb_exists.
  eexists. split; [exact Hin|apply String.eqb_refl].
Qed.

(** A group that passes the comparison has exactly the entries expected. *)
Lemma get_elem {A} (l : list (string * A)) name a : get l name = Some a → (name, a) ∈ l.
Proof.
  unfold get. intros (p & Hp & ->)%fmap_Some. apply List.find_some in Hp as [Hin E%String.eqb_eq].
  apply list_elem_of_In. destruct p. cbn in *. by subst.
Qed.

Lemma group_agrees r name expected :
  NoDup expected.*1 → group_differs r name expected = false → ∃ g, get (abi_spec r) name = Some g ∧ g ≡ₚ expected.
Proof.
  unfold group_differs, get_eqb, dict_eqb. intros Hd. destruct (get (abi_spec r) name) as [g|]; [|done].
  rewrite negb_false_iff, andb_true_iff, Z.eqb_eq. intros [Hl Hf]. exists g. split; [done|].
  symmetry. apply submseteq_length_Permutation; [|unfold len in Hl; lia]. apply NoDup_submseteq; [by eapply NoDup_fmap_1|].
  intros [k v] Hin. apply get_elem. rewrite forallb_forall in Hf. apply opt_eqb_spec, (Hf (k, v)). by apply list_elem_of_In.
Qed.

Lemma group_test r n name expected :
  main r = Ok tt → test_at n (λ r, Ok (group_differs r name expected)) → NoDup expected.*1 →
  ∃ g, get (abi_spec r) name = Some g ∧ g ≡ₚ expected.
Proof. intros H Hn Hd. apply (main_test r n) in Hn; [|done]. apply (inj Ok) in Hn. by apply group_agrees. Qed.

Ltac distinct := apply (bool_decide_unpack _); vm_compute; exact I.

Lemma groups_agree r : main r = Ok tt → Forall (λ x, ∃ g, get (abi_spec r) x.1 = Some g ∧ g ≡ₚ x.2) pinned_groups.
Proof.
  intros H. unfold pinned_groups.
  repeat (apply Forall_cons_2; [first
    [ apply (group_test r 291 _ _ H eq_refl) | apply (group_test r 292 _ _ H eq_refl) | apply (group_test r 294 _ _ H eq_refl)
    | apply (group_test r 295 _ _ H eq_refl) | apply (group_test r 297 _ _ H eq_refl) | apply (group_test r 298 _ _ H eq_refl)
    | apply (group_test r 299 _ _ H eq_refl) | apply (group_test r 301 _ _ H eq_refl) | apply (group_test r 302 _ _ H eq_refl)
    | apply (group_test r 303 _ _ H eq_refl) | apply (group_test r 304 _ _ H eq_refl) | apply (group_test r 305 _ _ H eq_refl)
    | apply (group_test r 306 _ _ H eq_refl) | apply (group_test r 307 _ _ H eq_refl) | apply (group_test r 308 _ _ H eq_refl) ];
    distinct|]).
  apply Forall_nil_2.
Qed.

Lemma entries_agree r : main r = Ok tt →
  Forall (λ x, get (get_group (abi_spec r) x.1.1) x.1.2 = Some x.2) pinned_entries.
Proof.
  intros H. pose proof (main_test r 296 (λ r, Ok (entry_differs r "errno" "protocol_option" (-92))) H eq_refl) as He.
  pose proof (main_test r 300 (λ r, Ok (foreground_bad r)) H eq_refl) as Hf.
  pose proof (main_test r 2252 (λ r, Ok (entry_differs r "capabilities" "tcp_sockets" 11)) H eq_refl) as Ht.
  cbn beta in *. apply (inj Ok) in He, Hf, Ht. apply orb_false_iff in Hf as [Hg Hs].
  unfold pinned_entries. repeat apply Forall_cons_2; try apply Forall_nil_2; by apply entry_agrees.
Qed.

Lemma differs_agrees r path needles n : count_differs r path needles n = Ok false →
  Forall (λ needle, counted r eq (path, needle, n)) needles.
Proof.
  induction needles as [|needle needles IH]; cbn [count_differs]; intros H; [constructor|].
  apply bind_Ok_inv in H as (c & (t & Ht%read_text_Ok & [= <-])%bind_Ok_inv & H).
  destruct (_ =? n) eqn:E; cbn [negb] in H; [|done]. apply Z.eqb_eq in E. constructor; [by exists t|by apply IH].
Qed.

Lemma below_agrees r path needles n : count_below r path needles n = Ok false →
  Forall (λ needle, counted r Z.ge (path, needle, n)) needles.
Proof.
  induction needles as [|needle needles IH]; cbn [count_below]; intros H; [constructor|].
  apply bind_Ok_inv in H as (c & (t & Ht%read_text_Ok & [= <-])%bind_Ok_inv & H).
  destruct (_ <? n) eqn:E; [done|]. apply Z.ltb_ge in E. constructor; [exists t; split; [done|by apply Z.le_ge]|by apply IH].
Qed.

Lemma differs_test r n path needles k : main r = Ok tt → test_at n (λ r, count_differs r path needles k) →
  Forall (λ needle, counted r eq (path, needle, k)) needles.
Proof. intros H Hn. by apply differs_agrees, (main_test r n _ H Hn). Qed.
Lemma below_test r n path needles k : main r = Ok tt → test_at n (λ r, count_below r path needles k) →
  Forall (λ needle, counted r Z.ge (path, needle, k)) needles.
Proof. intros H Hn. by apply below_agrees, (main_test r n _ H Hn). Qed.

Lemma counts_agree r : main r = Ok tt → Forall (counted r eq) pinned_counts ∧ Forall (counted r Z.ge) least_counts.
Proof.
  intros H.
  pose proof (differs_test r 575 "src/runtime_user.zig" ["readDescriptorInKernelAddressSpace(context, fd"] 2 H eq_refl) as C1.
  pose proof (differs_test r 681 "scripts/test-boot-fat-io-error.py"
    ["send(client, process, serial, “cat /boot/README.TXT“"] 2 H eq_refl) as C2.
  pose proof (differs_test r 1438 "src/runtime_vfs.zig"
    ["_ = self.namespace_operation_lock.acquire();"; "defer self.namespace_operation_lock.release();"] 4 H eq_refl) as C3.
  pose proof (differs_test r 2682 "scripts/test-runtime.ps1" ["192.0.2.42"] 1 H eq_refl) as C4.
  pose proof (differs_test r 2683 "scripts/test-runtime.ps1" ["deterministic-QEMU-path"] 1 H eq_refl) as C5.
  pose proof (differs_test r 2684 "scripts/test-runtime.ps1" ["reply from 192.0.2.1"] 1 H eq_refl) as C6.
  pose proof (below_test r 1388 "src/runtime_vfs.zig"
    ["try validatePathBounds(old_path);"; "try validatePathBounds(new_path);"] 2 H eq_refl) as C7.
  pose proof (below_test r 1479 "scripts/test-x86_64-persistence.py" ["“mounts/syncs/checks/recoveries 1/0/0/1“"] 2 H eq_refl) as C8.
  pose proof (below_test r 1482 "scripts/test-x86_64-persistence.py" ["“survived-generation-four“ in"] 2 H eq_refl) as C9.
  repeat match goal with C : Forall _ (_ :: _) |- _ => apply Forall_cons in C as [? C] end.
  split; unfold pinned_counts, least_counts; repeat (apply Forall_cons_2; [assumption|]); apply Forall_nil_2.
Qed.

Lemma seeds_agree r : fuzz_seeds_bad r = Ok false → ∃ a seeds c, let head := T "const namespace_fuzz_seeds = [_]u64{" in
  texts r !! "src/runtime_vfs.zig" = Some (a ++ head ++ seeds ++ c) ∧ first_at head a (head ++ seeds ++ c) ∧
  first_at (T "};") seeds c ∧ hex_words O seeds = 8.
Proof.
  unfold fuzz_seeds_bad. generalize (T "const namespace_fuzz_seeds = [_]u64{") (T "};"). intros head tail.
  intros (t & Ht%read_text_Ok & H%(inj Ok))%bind_Ok_inv.
  destruct (search t head tail) as [seeds|] eqn:E; [|done]. apply search_Some in E as (a & c & -> & Ha & Hc).
  apply negb_false_iff, Z.eqb_eq in H. by exists a, seeds, c.
Qed.

Lemma boundary_agrees r signature : lock_boundary_bad r signature = Ok false →
  ∃ t a b, texts r !! "src/runtime_vfs.zig" = Some t ∧ t = a ++ b ∧ first_at (T signature) a b ∧
    occurs (T "namespace_operation_lock.acquire()") (take 500 b).
Proof.
  unfold lock_boundary_bad. generalize (T signature) (T "namespace_operation_lock.acquire()"). intros head needle.
  intros (t & Ht%read_text_Ok & H%(inj Ok))%bind_Ok_inv. rewrite index_0 in H.
  destruct (find t head) as [[a b]|] eqn:E; [|done]. apply find_spec in E as [-> Ha].
  exists (a ++ b), a, b. split; [done|]. split; [done|]. split; [done|]. apply contains_spec. apply negb_false_iff in H.
  pose proof (len_nonneg a). rewrite slice_app_r, Z.sub_diag in H by lia.
  replace (len a + 500 - len a) with 500 in H by lia. by rewrite slice_eq in H by lia.
Qed.

Lemma locks_agree r : main r = Ok tt → ∃ t, texts r !! "src/runtime_vfs.zig" = Some t ∧ Forall (λ signature, ∃ a b,
  t = a ++ b ∧ first_at (T signature) a b ∧ occurs (T "namespace_operation_lock.acquire()") (take 500 b)) locked_functions.
Proof.
  intros H. assert (Forall (λ signature, lock_boundary_bad r signature = Ok false) locked_functions) as Hb.
  { unfold locked_functions. repeat apply Forall_cons_2; try apply Forall_nil_2.
    - exact (main_test r 1439 _ H eq_refl).
    - exact (main_test r 1440 _ H eq_refl).
    - exact (main_test r 1441 _ H eq_refl).
    - exact (main_test r 1442 _ H eq_refl). }
  destruct (texts r !! "src/runtime_vfs.zig") as [t|] eqn:Et.
  2: { apply Forall_cons in Hb as [(t & ? & ? & Ht & _)%boundary_agrees _]. congruence. }
  exists t. split; [done|]. apply (Forall_impl _ _ _ Hb). intros signature (t' & a & b & Ht & E & Ho)%boundary_agrees.
  exists a, b. split; [congruence|done].
Qed.

(** The runs of statements that the script makes in loops. *)
Lemma main_part r l : main r = Ok tt → (∀ s, s ∈ l → s ∈ statements) → Forall (holds r) l.
Proof. intros H%main_Ok Hl. rewrite Forall_forall in *. auto. Qed.

Lemma fixtures_agree r : main r = Ok tt →
  Forall (λ name, is_Some (texts r !! ("src/user/runtime-" +:+ name +:+ ".asm")) ∧
    ∃ t, texts r !! "scripts/build-assets.py" = Some t ∧ occurs (T ("“" +:+ name +:+ "“")) t) fixture_names.
Proof.
  intros H. assert (Forall (holds r) ContractPart2.fixtures) as Hf.
  { apply main_part; [done|]. intros s Hs. unfold statements, ContractPart2.second_half. rewrite !elem_of_app. tauto. }
  change ContractPart2.fixtures with (fixture_names ≫= λ name,
    [Require_ ContractPart1.assets ("“" +:+ name +:+ "“") ("generated " +:+ name +:+ " ELF fixture");
     Test (λ r, Ok (fixture_missing r name)) ("permanent-userspace contract missing fixture source: " +:+ name)]) in Hf.
  clear H. induction fixture_names as [|name names IH]; [constructor|]. rewrite bind_cons in Hf.
  apply Forall_app in Hf as [Hf Hr]. constructor; [|by apply IH]. clear IH Hr.
  apply Forall_cons in Hf as [(t & Ht & Ho) Hf]. apply Forall_cons in Hf as [Hm _]. cbn [holds] in Hm. apply (inj Ok) in Hm.
  unfold fixture_missing, is_file in Hm. apply negb_false_iff, bool_decide_eq_true in Hm. split; [done|]. by exists t.
Qed.

Lemma graph_agrees r : main r = Ok tt →
  ∃ t, texts r !! "build.zig" = Some t ∧ Forall (λ path, occurs (T path) t) graph_files.
Proof.
  intros H. assert (Forall (holds r) ContractPart2.isolated_tests) as Hf.
  { apply main_part; [done|]. intros s Hs. unfold statements, ContractPart2.second_half. rewrite !elem_of_app. tauto. }
  change ContractPart2.isolated_tests with ((λ path, Require_ ContractPart1.build_graph path ("isolated test graph includes " +:+ path))
    <$> graph_files) in Hf. rewrite Forall_fmap in Hf.
  destruct (texts r !! "build.zig") as [t|] eqn:Et.
  2: { unfold graph_files in Hf. apply Forall_cons in Hf as [(t & Ht & _) _]. cbn in Ht. congruence. }
  exists t. split; [done|]. apply (Forall_impl _ _ _ Hf). intros path (t' & Ht & Ho). cbn [part ContractPart1.build_graph] in Ht. congruence.
Qed.

(** The forbidden strings of all the statements, in order. *)
Definition forbids : list (source * string) :=
  omap (λ s, match s with Forbid s needle _ => Some (s, needle) | _ => None end) statements.

Lemma forbids_pinned : forbids = forbidden.
Proof. vm_compute. reflexivity. Qed.

Lemma forbidden_agree r : main r = Ok tt → Forall (λ x, ∃ l, part r x.1 l ∧ ¬ occurs (T x.2) l) forbidden.
Proof.
  rewrite <-forbids_pinned. intros H%main_Ok. apply Forall_forall. intros x (s & Hs & Hx)%list_elem_of_omap.
  rewrite Forall_forall in H. specialize (H s Hs). destruct s; try done. injection Hx as <-. exact H.
Qed.

Lemma capstone_agrees r : capstone_bad r = Ok false → ∀ capstone : text, texts r !! "docs/CAPSTONE-19.0.md" = Some capstone →
  capstone ≠ [] → len (List.filter is_goal (lines capstone)) = 32.
Proof.
  intros H capstone E Hne. unfold capstone_bad, is_file, read_text in H. rewrite E in H.
  rewrite bool_decide_eq_true_2 in H by done. rewrite bind_ok in H.
  destruct capstone; [done|]. by apply (inj Ok), negb_false_iff, Z.eqb_eq in H.
Qed.

Lemma accepted_sane r : main r = Ok tt → sane r.
Proof.
  intros H.
  pose proof (main_test r 289 (λ r, abi_version_bad r) H eq_refl) as Hversion.
  pose proof (main_test r 290 (λ r, numbering_bad r) H eq_refl) as Hnumbers.
  pose proof (main_test r 293 (λ r, Ok (shutdown_bad r)) H eq_refl) as Hshutdown.
  pose proof (main_test r 1311 (λ r, Ok (page_size_bad r)) H eq_refl) as Hpage.
  pose proof (main_test r 1312 (λ r, Ok (syscall_values_bad r)) H eq_refl) as Hvalues.
  pose proof (main_test r 1313 (λ r, declared_tests_bad r) H eq_refl) as Htests.
  pose proof (main_test r 1411 (λ r, fuzz_seeds_bad r) H eq_refl) as Hseeds.
  pose proof (main_test r 2578 (λ r, roadmap_bad r) H eq_refl) as Hroadmap.
  pose proof (main_test r 2585 (λ r, Ok (schema_bad r)) H eq_refl) as Hschema.
  pose proof (main_test r 2586 (λ r, Ok (object_listed r)) H eq_refl) as Hobject.
  pose proof (main_test r 2587 (λ r, Ok (manifest_empty r)) H eq_refl) as Hempty.
  pose proof (main_test r 2685 (λ r, capstone_bad r) H eq_refl) as Hcapstone.
  cbn beta in *. apply (inj Ok) in Hshutdown, Hpage, Hvalues, Hschema, Hobject, Hempty.
  split.
  - by apply version_agrees.
  - apply orb_false_iff in Hvalues as [Hn%Z.eqb_neq Hv%negb_false_iff]. apply bool_decide_eq_true in Hv.
    split; [|done]. intros E. by rewrite E in Hn.
  - by apply pinned_agrees.
  - by apply groups_agree.
  - by apply entries_agree.
  - by apply tests_agree.
  - by apply graph_agrees.
  - by apply counts_agree.
  - by apply seeds_agree.
  - by apply locks_agree.
  - by apply fixtures_agree.
  - by apply forbidden_agree.
  - by apply roadmap_agrees.
  - by apply capstone_agrees.
  - by apply manifest_agrees.
Qed.

(** (C12) A repository that breaks the contract is rejected.  Unless all of this holds, the
    script raises the complaint of its first statement that fails: the ABI specification is
    version 1.32 with pages of 4096 bytes; its system calls have distinct numbers, and the
    forty of [pinned_syscalls] these; fifteen of its groups have exactly the entries of
    [pinned_groups], and four other entries these values; the canonical sources declare 106
    tests, and the build graph has the isolated ones; the strings of [pinned_counts] and
    [least_counts] occur as often as they say; the fuzz table has eight seeds; the four
    functions of [locked_functions] take the namespace lock within 500 characters; each of
    eleven programs has its source and its place in the asset pipeline; none of the 55
    strings of [forbidden] occurs in the file or the function it is forbidden in; the
    roadmap lists 500 goals with 255 done and the capstone, if there is one, 32; and the
    release manifest is of schema 2, is not empty and leaves the intermediate object out. *)
Theorem contract_rejects r : ¬ sane r →
  ∃ e before s after, main r = Err e ∧
    statements = before ++ s :: after ∧ Forall (holds r) before ∧ ¬ holds r s ∧ complaint r s e.
Proof.
  intros Hn. destruct (main r) as [[]|e] eqn:E; [destruct Hn; by apply accepted_sane|].
  exists e. apply main_Err in E as (before & s & k & H). by exists before, s, k.
Qed.

(** Two system calls with the same number. *)
Lemma contract_rejects_witness : ∃ e, main renumbered = Err e.
Proof.
  destruct (contract_rejects renumbered) as (e & _ & _ & _ & H & _); [|exists e; exact H].
  intros H. apply sane_numbers in H as [_ H]. cbn in H. inversion H as [|? ? Hn _]. apply Hn. by left.
Defined.

End Contract.
